(* ===== verification/_CoqProject ===== *)
-Q . S2P
Prelude.v
GoErr.v
GoIO.v
Wire.v
Message.v
EtMessages.v
TerminalMessages.v
Protocol.v
Messages.v
WirePacket.v
Seal.v
Ring.v
Backoff.v
Conn.v
Link.v
LinkWriter.v
Codecs.v
Recover.v
Dialer.v
DialErrors.v
Server.v
EndToEnd.v
DeliveryInv.v
DeliveryClient.v
DeliveryServer.v
Delivery.v
Escape.v
Console.v
Terminal.v
Router.v
Utf8.v
GoStrings.v
Session.v
Bootstrap.v
Flags.v
Cmd.v
Client.v
Shell.v
ShellEnd.v
RunLink.v
Network.v
Utf16.v
ConsoleWindows.v
ConsoleUnix.v
Main.v
Regexp.v
Lint.v
RulesCore.v
RulesLibs.v
RulesFilters.v
Rules.v
