(* ===== verification/Prelude.v ===== *)
(** * et-go: a verified model of the Eternal Terminal client

    et-go is a client of Eternal Terminal: it starts [etterminal] on a server
    over ssh, connects to [etserver] over TCP, runs an encrypted stream of
    packets that survives reconnects, and carries a terminal over it.  This
    library models the client's own logic, and the fake server of its tests,
    as executable definitions and step relations.

    ** The parts and how they interact

    - cmd/et parses the command line ([Flags]), chooses a log, resolves the
      host, and [connect]s ([Cmd]): it opens the console, runs
      internal/bootstrap ([Bootstrap]) for the credentials, dials, starts the
      session, makes the terminal raw and runs the session, releasing all of
      it in reverse.  [Client] is [run] with the environment [defaultEnv]
      wires up from those parts, and [Main] the process around it with its
      signals and Ctrl+Break.
    - internal/etcp is the resumable connection.  [Conn] has its critical
      sections (WritePacket, ReadPacket, the probe, Close); [Ring] the replay
      window of sealed packets; [Link] the reader of one TCP connection and
      [LinkWriter] its writer and watcher; [RunLink] runs the three under
      the link's context, from one blocking point to the next; [Recover] is
      the exchange that resumes after a redial; [Dialer] is the dial, the
      handshake, idleconn.go and the supervisor that redials, on the schedule
      of [Backoff]; [DialErrors] says from what the peer sent which failures
      are fatal.
    - internal/seal ([Seal]) numbers and encrypts each direction;
      internal/wire ([Wire], [WirePacket]) frames packets and messages on an
      [io.Reader] and [io.Writer] ([GoIO]); internal/protocol has the headers
      and messages: [EtMessages] and [TerminalMessages] are the generated
      structs with their methods over what [Message] says of a presence word,
      [Protocol] the headers and, per message, the record of optional fields
      the rest of the library works with, and [Messages] proves that those
      records are what the generated methods show.
    - internal/session is the terminal session: [Session] the start handshake
      and Run's joining, [Router] the split of the packet stream, [Terminal]
      keyboard, window size and output, [Escape] the local escape.  [Shell]
      puts the session on top of the connection: keyboard, sender, Conn,
      network, server, router and screen as one transition system, and
      [ShellEnd] shows that this system always ends.
    - internal/console is the local terminal: [Console] sizes and the
      interface [RawTerminal] that each platform implements, [Utf16] the
      converters, [ConsoleWindows] and [ConsoleUnix] the platforms.
    - internal/etservertest is the peer: [Server] its operations, [Network]
      its faulty network.  [EndToEnd] runs the client and the server over
      connections cut at any byte, and [DeliveryInv], [DeliveryClient],
      [DeliveryServer] and [Delivery] prove what holds of that system.
    - rules/ is the project's linter: [RulesCore] and [RulesLibs] hold every
      rule function as the data of its dsl calls, [Lint] says what a rule
      means over what ruleguard matches, [Regexp] is the part of the regexp
      package their conditions use, [RulesFilters] the conditions on source
      text and [Rules] the whole set.

    [Prelude], [GoErr], [GoIO], [GoStrings] and [Utf8] are what the sources
    use of the Go language and its standard library.  State is passed
    explicitly: a record per struct, one function per critical section, so an
    interleaving of goroutines is a sequence of such functions, and where the
    order matters a step relation ([client_step], [server_step], [term_step],
    [router_step], [run_step], [shell_step], [runLink_step],
    [network_step]).  Where the question is whether something comes to its
    end, the program's own steps are told from those of what surrounds it:
    [inevitable] over [disturbed] says that every run, with any finite number
    of the latter at any time, reaches the end.  A context is
    [None] until it ends and then its cause.  What comes from outside (bytes
    read, how a Write went, the answers of the kernel, the output of ssh, the
    random texts) is an argument, and the theorems quantify over it.

    ** Interfaces

    Four classes stand for code outside the repository, with what the
    sources rely on as their laws: [SecretBox] of [Seal] (opening inverts
    sealing, a box is 16 bytes longer, a box that opens is the one its
    plaintext seals to), [ProtoMessage] of [Wire] (encode and decode are
    inverse on messages the runtime accepts), [Presence] of [Message] (the
    runtime's presence bits are independent) and [Ruleguard] of [Lint] (a
    match captures the variables its pattern names); in [Seal], [Codecs],
    [Message] and [Lint] each has an instance to evaluate at.  [RawTerminal] of [Console] is what a
    platform's console promises about the terminal's modes; both platforms
    discharge it and its theorem is proved once.

    ** What the theorems show

    - End to end ([Delivery]): in every reachable state each side has
      received exactly a prefix of what the other sealed, and on a drained
      live link nothing is missing.
    - From the keyboard to the server and from the server to the screen
      ([Shell]): what arrives is what was typed, or sent, in order and once;
      at rest nothing is missing; the process exits with the server's status.
      Once its context has ended, every run of the session comes to the
      return of Run, with no help of the network or the keyboard
      ([ShellEnd]).
    - The messages ([Messages]): every accessor of every generated message
      against every other, and the records of [Protocol] as their views.
    - The wire and the stream: round trips, the bound on what a peer can make
      the client allocate, the class of every error, and that no nonce is
      used twice.
    - The connection: the replay window refines a log; the reader hands over
      exactly the peer's packets from any stream and any handover outcome;
      the writer's pass and the recovery keep the outbound invariant, and
      what the peer has not acknowledged can be replayed up to the cut-off of
      [trim]; which errors end the session ([DialErrors]); the bounds of the
      redial schedule; that a link comes to its end, whatever its goroutines
      wait for, and what it returns ([RunLink]).
    - The session: input reaches the server in order through the escape
      filter, no wake-up is lost, output and the exit status reach their
      reader, and Run returns the first cause.
    - The console: text crosses both converters unchanged however it is
      split, and the modes of [Open] are restored whichever calls failed
      before.
    - The bootstrap and the command: no user value changes the command that
      ssh and the remote shell run, no piece of the generated passkey is
      quoted in an error, the credentials parser and the destination grammar
      are characterised exactly, everything acquired is released on every
      path, and every dial the client makes is one Dial accepts; Ctrl+Break
      detaches exactly while [connect] holds its registration ([Main]).
    - The linter: every rule runs and reports exactly where it matches, by
      what its patterns and conditions mean to ruleguard, which [Lint] states;
      the regular expressions accept what the comments say; which autofixes
      keep the imports ([Rules]).

    ** Fuel and bounds

    Recursion on a list or on the bytes left is structural or measured by
    their length; where a loop has fuel ([readBody_loop], the converters,
    [runes_fuel], trimming, the star of
    [Regexp]) it is the length of the input, and the theorem
    about the function shows that [OutOfFuel] does not occur or that the
    result does not depend on it.  [Panic] is a run-time panic and the
    theorems state where it cannot occur.  Integers are [Z]: the wrap-around
    is written out where the code depends on it (the int32 sequence number,
    the int64 message length, nonce bytes, the float64 jitter as dyadic
    numbers rounded to 53 bits); counters of packets and bytes held in int64
    are taken not to overflow, and the delivery theorems assume fewer than
    2^184 packets in one direction, the nonces of a key.

    ** Not modelled

    Log records and the arguments formatted into error texts, apart from
    what [Bootstrap] quotes; timers as durations (a timer is the event that
    it fired); the encodings, descriptors and reflection of protocol buffers;
    the cipher; os/exec, the system calls and the delivery of signals (their
    results are inputs); ruleguard, gogrep and the Go type checker behind the
    lint rules.

    Of what surrounds the program this is assumed.  The fake server's takeover
    follows the order in which links connected, which its comment asks of the
    tests that use it, and its Send is given payloads that fit a packet.  In
    [Delivery] and [Shell] the peer is that server, so what arrives on a
    connection is a first part of what it wrote, and handshake messages arrive
    whole or not at all; [Link], [RunLink] and [DialErrors] have peers that
    send anything.  In [ShellEnd] closing the
    terminal ends its pending Read, unless Close failed on Windows, and the
    terminal's Write and Resizes return.  In [RunLink] closing a connection
    ends its pending Read and Write.  In [DialErrors] the errors of the network
    and of the protobuf runtime wrap none of the sentinels of etcp. *)

From Stdlib Require Export ZArith Lia Strings.Byte.
From stdpp Require Export base list numbers strings relations gmap.

(** ** Go values

    Go bytes are [Byte.byte], Go byte slices and strings are byte lists, and
    Go integers are [Z] with their wrap-around written out where the code
    relies on it. *)

Abbreviation bytes := (list byte).

Declare Scope go_scope.
Delimit Scope go_scope with go.

#[export] Instance byte_eq_dec : EqDecision byte := Byte.byte_eq_dec.
#[export] Instance byte_countable : Countable byte := inj_countable Byte.to_N Byte.of_N Byte.of_to_N.

(** A Go string literal. *)
Definition bs (s : string) : bytes := String.list_byte_of_string s.

(** [len(s)] as a Go int. *)
Definition zlen {A} (l : list A) : Z := Z.of_nat (length l).

Definition ztake {A} (n : Z) (l : list A) : list A := take (Z.to_nat n) l.
Definition zdrop {A} (n : Z) (l : list A) : list A := drop (Z.to_nat n) l.

(** The slice expression [l[from:to]], or [None] where Go panics. *)
Definition slice {A} (l : list A) (from to : Z) : option (list A) :=
  if (0 <=? from)%Z && (from <=? to)%Z && (to <=? zlen l)%Z
  then Some (ztake (to - from) (zdrop from l)) else None.

(** ** Bytes and machine integers *)

Definition b2z (b : byte) : Z := Z.of_N (Byte.to_N b).

Definition z2b (z : Z) : byte :=
  match Byte.of_N (Z.to_N (z mod 256)) with Some b => b | None => x00 end.

(** The two's complement value of the low [w] bits: a Go conversion to intw. *)
Definition wrap_s (w z : Z) : Z :=
  (let m := z mod 2 ^ w in if m <? 2 ^ (w - 1) then m else m - 2 ^ w)%Z.

Definition to_int32 (z : Z) : Z := wrap_s 32 z.
Definition to_int64 (z : Z) : Z := wrap_s 64 z.

Definition MaxInt32 : Z := 2147483647.

Lemma b2z_range (b : byte) : (0 <= b2z b < 256)%Z.
Proof.
  unfold b2z. pose proof (Byte.to_N_bounded b). lia.
Qed.

Lemma b2z_z2b (z : Z) : b2z (z2b z) = (z mod 256)%Z.
Proof.
  unfold b2z, z2b. pose proof (Z.mod_pos_bound z 256 ltac:(lia)).
  destruct (Byte.of_N (Z.to_N (z mod 256))) as [b|] eqn:Hb.
  - apply Byte.to_of_N in Hb. rewrite Hb. lia.
  - apply Byte.of_N_None_iff in Hb. lia.
Qed.

Lemma z2b_b2z (b : byte) : z2b (b2z b) = b.
Proof.
  unfold z2b. rewrite Z.mod_small by apply b2z_range.
  unfold b2z. rewrite N2Z.id, Byte.of_to_N. done.
Qed.

Lemma b2z_inj (a b : byte) : b2z a = b2z b -> a = b.
Proof. intros H. by rewrite <- (z2b_b2z a), H, z2b_b2z. Qed.

Lemma z2b_mod (z : Z) : z2b (z mod 256) = z2b z.
Proof. apply b2z_inj. rewrite !b2z_z2b. by rewrite Z.mod_mod. Qed.

Lemma wrap_s_id (w z : Z) :
  (0 < w)%Z -> (- 2 ^ (w - 1) <= z < 2 ^ (w - 1))%Z -> wrap_s w z = z.
Proof.
  intros Hw Hz. unfold wrap_s.
  assert (2 ^ w = 2 * 2 ^ (w - 1))%Z as Hp.
  { rewrite <- Z.pow_succ_r by lia. f_equal. lia. }
  destruct (Z.ltb_spec z 0).
  - rewrite <- (Z.mod_unique z (2 ^ w) (-1) (z + 2 ^ w)) by lia.
    destruct (Z.ltb_spec (z + 2 ^ w) (2 ^ (w - 1))); lia.
  - rewrite Z.mod_small by lia.
    destruct (Z.ltb_spec z (2 ^ (w - 1))); lia.
Qed.

Lemma wrap_s_range (w z : Z) :
  (0 < w)%Z -> (- 2 ^ (w - 1) <= wrap_s w z < 2 ^ (w - 1))%Z.
Proof.
  intros Hw. unfold wrap_s.
  assert (2 ^ w = 2 * 2 ^ (w - 1))%Z as Hp.
  { rewrite <- Z.pow_succ_r by lia. f_equal. lia. }
  assert (0 < 2 ^ (w - 1))%Z by (apply Z.pow_pos_nonneg; lia).
  pose proof (Z.mod_pos_bound z (2 ^ w) ltac:(lia)).
  destruct (Z.ltb_spec (z mod 2 ^ w) (2 ^ (w - 1))); lia.
Qed.

(** A wrapped value differs from the true one by a multiple of [2^w]. *)
Lemma wrap_s_congr (w z : Z) :
  (0 < w)%Z -> exists k, wrap_s w z = (z - k * 2 ^ w)%Z.
Proof.
  intros Hw. assert (0 < 2 ^ w)%Z by (apply Z.pow_pos_nonneg; lia).
  pose proof (Z.div_mod z (2 ^ w) ltac:(lia)) as Hd.
  unfold wrap_s. destruct (_ <? _)%Z.
  - exists (z / 2 ^ w)%Z. lia.
  - exists (z / 2 ^ w + 1)%Z. lia.
Qed.

(** ** Lists measured in [Z] *)

Section Zlists.
Context {A : Type}.
Implicit Types l k : list A.
Local Open Scope Z_scope.

Lemma zlen_nonneg l : 0 <= zlen l.
Proof. unfold zlen. lia. Qed.

Lemma zlen_nil : zlen (@nil A) = 0.
Proof. done. Qed.

Lemma zlen_cons x l : zlen (x :: l) = 1 + zlen l.
Proof. unfold zlen. rewrite length_cons. lia. Qed.

Lemma zlen_app l k : zlen (l ++ k) = zlen l + zlen k.
Proof. unfold zlen. rewrite length_app. lia. Qed.

Lemma zlen_zero l : zlen l = 0 -> l = [].
Proof. unfold zlen. intros ?. apply length_zero_iff_nil. lia. Qed.

Lemma zlen_ztake n l : zlen (ztake n l) = Z.max 0 (Z.min n (zlen l)).
Proof. unfold zlen, ztake. rewrite length_take. lia. Qed.

Lemma zlen_zdrop n l : zlen (zdrop n l) = Z.max 0 (zlen l - Z.max 0 n).
Proof. unfold zlen, zdrop. rewrite length_drop. lia. Qed.

Lemma ztake_zdrop n l : ztake n l ++ zdrop n l = l.
Proof. apply take_drop. Qed.

Lemma ztake_ge n l : zlen l <= n -> ztake n l = l.
Proof. unfold zlen, ztake. intros ?. apply take_ge. lia. Qed.

Lemma zdrop_ge n l : zlen l <= n -> zdrop n l = [].
Proof. unfold zlen, zdrop. intros ?. apply drop_ge. lia. Qed.

Lemma ztake_0 l n : n <= 0 -> ztake n l = [].
Proof. unfold ztake. intros ?. by replace (Z.to_nat n) with 0%nat by lia. Qed.

Lemma zdrop_0 l n : n <= 0 -> zdrop n l = l.
Proof. unfold zdrop. intros ?. by replace (Z.to_nat n) with 0%nat by lia. Qed.

Lemma ztake_app_le n l k : n <= zlen l -> ztake n (l ++ k) = ztake n l.
Proof. unfold zlen, ztake. intros ?. apply take_app_le. lia. Qed.

Lemma zdrop_app_le n l k : n <= zlen l -> zdrop n (l ++ k) = zdrop n l ++ k.
Proof. unfold zlen, zdrop. intros ?. apply drop_app_le. lia. Qed.

Lemma ztake_app_eq n l k : n = zlen l -> ztake n (l ++ k) = l.
Proof. intros ->. rewrite ztake_app_le by lia. apply ztake_ge. lia. Qed.

Lemma zdrop_app_eq n l k : n = zlen l -> zdrop n (l ++ k) = k.
Proof. intros ->. rewrite zdrop_app_le by lia. by rewrite zdrop_ge by lia. Qed.

Lemma zdrop_app_ge n l k : zlen l <= n -> zdrop n (l ++ k) = zdrop (n - zlen l) k.
Proof.
  unfold zlen, zdrop. intros ?. rewrite drop_app_ge by lia. f_equal. lia.
Qed.

Lemma zdrop_zdrop a b l : 0 <= a -> 0 <= b -> zdrop a (zdrop b l) = zdrop (a + b) l.
Proof. unfold zdrop. intros ??. rewrite drop_drop. f_equal. lia. Qed.

Lemma ztake_plus a b l :
  0 <= a -> 0 <= b -> ztake (a + b) l = ztake a l ++ ztake b (zdrop a l).
Proof.
  unfold ztake, zdrop. intros ??.
  replace (Z.to_nat (a + b)) with (Z.to_nat a + Z.to_nat b)%nat by lia.
  by rewrite take_take_drop.
Qed.

Lemma zdrop_ztake a b l : 0 <= a -> 0 <= b ->
  ztake b (zdrop a l) = zdrop a (ztake (a + b) l).
Proof.
  unfold ztake, zdrop. intros ??. rewrite skipn_firstn_comm. f_equal. lia.
Qed.

Lemma slice_Some l from to :
  0 <= from -> from <= to -> to <= zlen l ->
  slice l from to = Some (ztake (to - from) (zdrop from l)).
Proof.
  intros ???. unfold slice.
  by repeat match goal with |- context[(?a <=? ?b)%Z] =>
    destruct (Z.leb_spec a b); [|lia] end.
Qed.

Lemma slice_inv l from to k :
  slice l from to = Some k ->
  0 <= from <= to /\ to <= zlen l /\ k = ztake (to - from) (zdrop from l).
Proof.
  unfold slice.
  repeat match goal with |- context[(?a <=? ?b)%Z] =>
    destruct (Z.leb_spec a b) end; simpl; intros [= <-]; lia || done.
Qed.
End Zlists.

(** ** Automation shared by the files

    [zlia] proves linear goals over list lengths, [bcase] splits the
    comparisons that a definition branches on. *)

Create Rewrite HintDb zlen.
#[export] Hint Rewrite @zlen_nil @zlen_cons @zlen_app @zlen_ztake @zlen_zdrop : zlen.

Ltac zlen_facts :=
  repeat match goal with
  | |- context[@zlen ?A ?l] =>
      lazymatch goal with
      | _ : (0 <= @zlen A l)%Z |- _ => fail
      | _ => pose proof (@zlen_nonneg A l) end
  | _ : context[@zlen ?A ?l] |- _ =>
      lazymatch goal with
      | _ : (0 <= @zlen A l)%Z |- _ => fail
      | _ => pose proof (@zlen_nonneg A l) end
  end.

Ltac zlia := autorewrite with zlen in *; zlen_facts; lia.

Ltac bcase_step :=
  match goal with
  | |- context[(?a <=? ?b)%Z] => destruct (Z.leb_spec a b)
  | |- context[(?a <? ?b)%Z] => destruct (Z.ltb_spec a b)
  | |- context[(?a =? ?b)%Z] => destruct (Z.eqb_spec a b)
  | |- context[(?a >? ?b)%Z] => rewrite (Z.gtb_ltb a b)
  | |- context[(?a >=? ?b)%Z] => rewrite (Z.geb_leb a b)
  end.

Ltac bcase := repeat bcase_step; simpl; try lia; try done.

(** ** Step relations *)

(** A property of the start states that every step keeps holds in every
    reachable state. *)
Lemma rtc_inv {A} (R : relation A) (P : A -> Prop) (x y : A) :
  (forall a b, R a b -> P a -> P b) -> rtc R x y -> P x -> P y.
Proof. intros Hstep. induction 1; eauto. Qed.

(** Prefixes of one list: the longer one is obtained by appending. *)
Lemma prefix_lookup_length {A} (l1 l2 : list A) :
  l1 `prefix_of` l2 -> l1 = take (length l1) l2.
Proof. intros [k ->]. by rewrite take_app_length. Qed.

(** ** Runs that must come to an end *)

(** Whatever steps [R] are taken from [a], a state in [P] is reached: no run
    goes on for ever before it and none gets stuck before it. *)
Inductive inevitable {A} (R : relation A) (P : A -> Prop) (a : A) : Prop :=
| inev_now : P a -> inevitable R P a
| inev_step : (exists b, R a b) -> (forall b, R a b -> inevitable R P b) -> inevitable R P a.

Lemma inevitable_mono {A} (R : relation A) (P Q : A -> Prop) a :
  (forall b, P b -> Q b) -> inevitable R P a -> inevitable R Q a.
Proof. intros HPQ Ha. induction Ha; [apply inev_now|apply inev_step]; auto. Qed.

(** A program's own steps, with up to [n] steps of what surrounds it between
    them, at any time. *)
Inductive disturbed {A} (own outside : relation A) : relation (nat * A) :=
| ds_own n a b : own a b -> disturbed own outside (n, a) (n, b)
| ds_outside n a b : outside a b -> disturbed own outside (S n, a) (n, b).

(** It is enough that the program's own steps keep an invariant, decrease a
    measure, and can be taken until [P]; the others need only the invariant. *)
Lemma inevitable_measure {A} (own outside : relation A) (P I : A -> Prop) (m : A -> nat) n a :
  (forall a b, I a -> own a b \/ outside a b -> I b) ->
  (forall a b, I a -> own a b -> m b < m a) ->
  (forall a, I a -> P a \/ exists b, own a b) ->
  I a -> inevitable (disturbed own outside) (fun na => P na.2) (n, a).
Proof.
  intros Hi Hm Hp. revert a. induction n as [n IHn] using lt_wf_ind. intros a.
  remember (m a) as k eqn:Hk. revert a Hk. induction k as [k IHk] using lt_wf_ind. intros a -> Ha.
  destruct (Hp a Ha) as [HP|[b Hb]]; [by apply inev_now|apply inev_step].
  - exists (n, b). by apply ds_own.
  - intros [n' b'] Hs. inversion Hs; subst.
    + eapply IHk; [|done|]; eauto.
    + apply IHn; [lia|]. eauto.
Qed.
