(* ===== verification/GoErr.v ===== *)
(** * Go error values

    An [error] is a tree: the package-level sentinels the code compares
    against, the typed [*session.ExitError], errors from outside the
    repository, and what [fmt.Errorf] with [%w] and [errors.Join] build from
    them.  A message keeps its format text without the formatted arguments;
    the tree is what [errors.Is] and [errors.AsType] see.  [nil] is [None] of
    [option gerr]. *)

From S2P Require Export Prelude.

(** The sentinels, by the package that declares them. *)
Inductive sentinel :=
(* standard library *)
| io_EOF | io_ErrUnexpectedEOF | io_ErrShortWrite | io_ErrClosedPipe
| net_ErrClosed | os_ErrClosed | ctx_Canceled | ctx_DeadlineExceeded
| flag_ErrHelp | exec_ErrWaitDelay
(* internal/wire *)
| ErrTooLarge | ErrMalformed | ErrShortPacket
(* internal/seal *)
| ErrOpen
(* internal/etcp *)
| ErrSessionEnded | ErrVersion | ErrIntegrity | ErrReplayExceeded | ErrRejected
| errLinkDead
(* internal/session *)
| ErrDetached | ErrStartTimeout | ErrStartRejected | errEnded
(* internal/bootstrap *)
| ErrNoCredentials | ErrInvalidConfig
(* internal/console *)
| ErrNotTerminal
(* cmd/et *)
| errUsage.

#[export] Instance sentinel_eq_dec : EqDecision sentinel.
Proof. solve_decision. Defined.

(** [etcp.ErrSessionEnded] is itself built with [%w] around [io.EOF]. *)
Definition sentinel_wraps (s : sentinel) : list sentinel :=
  match s with ErrSessionEnded => [io_EOF] | _ => [] end.

#[warnings="-register-all"]
Inductive gerr :=
| Sentinel (s : sentinel)
| ExitError (code : Z)
| Foreign (n : nat)
| Errorf (format : string) (wrapped : list gerr).

(** Induction through the wrapped errors. *)
Lemma gerr_ind' (P : gerr -> Prop) :
  (forall s, P (Sentinel s)) -> (forall c, P (ExitError c)) -> (forall n, P (Foreign n)) ->
  (forall f ws, Forall P ws -> P (Errorf f ws)) -> forall e, P e.
Proof.
  intros H1 H2 H3 H4. fix IH 1. intros [s|c|n|f ws]; [apply H1|apply H2|apply H3|].
  apply H4. induction ws as [|w ws IHws]; constructor; [apply IH|exact IHws].
Qed.

(** [errors.Is] against a sentinel: the node itself or anything it wraps. *)
Fixpoint errors_Is (e : gerr) (t : sentinel) : bool :=
  match e with
  | Sentinel s => bool_decide (s = t) || bool_decide (t ∈ sentinel_wraps s)
  | ExitError _ | Foreign _ => false
  | Errorf _ ws => existsb (fun w => errors_Is w t) ws
  end.

(** [errors.AsType[*session.ExitError]]: the first one in the tree. *)
Fixpoint AsExitError (e : gerr) : option Z :=
  match e with
  | ExitError c => Some c
  | Sentinel _ | Foreign _ => None
  | Errorf _ ws =>
      (fix first (l : list gerr) : option Z :=
         match l with
         | [] => None
         | w :: l' => match AsExitError w with Some c => Some c | None => first l' end
         end) ws
  end.

(** [err == target], the identity comparison io.ReadFull uses. *)
Definition is_exactly (e : gerr) (t : sentinel) : bool :=
  match e with Sentinel s => bool_decide (s = t) | _ => false end.

(** [errors.Join]: nil when every argument is nil. *)
Definition errors_Join (errs : list (option gerr)) : option gerr :=
  match omap id errs with
  | [] => None
  | es => Some (Errorf "join" es)
  end.

(** The outcome of a Go function returning a value and an error.  [Panic] is a
    run-time panic and [OutOfFuel] the end of a modelled loop's fuel; the
    theorems about a function show where neither happens. *)
Inductive res (A : Type) :=
| Ok (a : A)
| Err (e : gerr)
| Panic
| OutOfFuel.
Arguments Ok {A} a.
Arguments Err {A} e.
Arguments Panic {A}.
Arguments OutOfFuel {A}.

Lemma errors_Is_Errorf f ws t :
  errors_Is (Errorf f ws) t = true <-> exists w, w ∈ ws /\ errors_Is w t = true.
Proof.
  simpl. rewrite existsb_exists. split.
  - intros (w & Hw & ?). exists w. by rewrite list_elem_of_In.
  - intros (w & Hw & ?). exists w. by rewrite <- list_elem_of_In.
Qed.

Lemma errors_Is_wrap1 f e t : errors_Is (Errorf f [e]) t = errors_Is e t.
Proof. simpl. by rewrite orb_false_r. Qed.

Lemma errors_Is_wrap2 f e1 e2 t :
  errors_Is (Errorf f [e1; e2]) t = errors_Is e1 t || errors_Is e2 t.
Proof. simpl. by rewrite orb_false_r. Qed.

Lemma errors_Is_self s : errors_Is (Sentinel s) s = true.
Proof. simpl. by rewrite bool_decide_true. Qed.

Lemma errors_Is_other s t :
  s <> t -> s <> ErrSessionEnded -> errors_Is (Sentinel s) t = false.
Proof. intros ? Hs. destruct s; try congruence; destruct t; done. Qed.

Lemma AsExitError_wrap1 f e : AsExitError (Errorf f [e]) = AsExitError e.
Proof. simpl. by destruct (AsExitError e). Qed.

Create Rewrite HintDb errors.
#[export] Hint Rewrite errors_Is_wrap1 errors_Is_wrap2 errors_Is_self AsExitError_wrap1
  : errors.
