(* ===== verification/GoIO.v ===== *)
(** * io.Reader, io.ReadFull and io.Writer

    A reader is the sequence of pieces its Read calls yield, the error that
    ends it, and whether that error comes together with the last bytes or
    only on the next call: the io.Reader contract allows both.  A Read with
    room for fewer bytes than a piece takes what fits and leaves the rest.
    Every fragmentation of a finite stream, empty reads included, is such a
    reader.  A writer is a script of the counts and errors its Write calls
    report, and accepts everything once the script is exhausted. *)

From S2P Require Export GoErr.

(** ** Readers *)

Record reader := Reader {
  r_pieces : list bytes;
  r_eager : bool;     (* the error is answered together with the last bytes *)
  r_err : gerr
}.

(** The bytes the reader yields before its error. *)
Definition stream (r : reader) : bytes := concat (r_pieces r).

(** One call of [Read] with a buffer of [k] bytes. *)
Definition Read (r : reader) (k : nat) : bytes * option gerr * reader :=
  match r_pieces r with
  | [] => ([], Some (r_err r), r)
  | d :: ps =>
      if decide (length d <= k) then
        (d, if r_eager r && bool_decide (ps = []) then Some (r_err r) else None,
         Reader ps (r_eager r) (r_err r))
      else (take k d, None, Reader (drop k d :: ps) (r_eager r) (r_err r))
  end.

(** The loop of io.ReadAtLeast with [min = len(buf) = k]: Read until the
    buffer is full or a Read reports an error.  Every Read that does neither
    consumes a piece, so one more iteration than there are pieces is enough. *)
Fixpoint ReadFull_loop (fuel : nat) (r : reader) (k : nat) : bytes * option gerr * reader :=
  match fuel, k with
  | O, _ | _, O => ([], None, r)
  | S fuel', _ =>
      let '(d, e, r) := Read r k in
      match e with
      | Some err => (d, Some err, r)
      | None =>
          let '(d', e', r) := ReadFull_loop fuel' r (k - length d) in
          (d ++ d', e', r)
      end
  end.

(** [io.ReadFull]: no error when the buffer was filled; a bare io.EOF after
    some but not all bytes becomes io.ErrUnexpectedEOF. *)
Definition ReadFull (r : reader) (k : nat) : bytes * option gerr * reader :=
  let '(d, e, r') := ReadFull_loop (S (length (r_pieces r))) r k in
  if decide (k <= length d) then (d, None, r')
  else match e with
       | Some err =>
           if bool_decide (0 < length d) && is_exactly err io_EOF
           then (d, Some (Sentinel io_ErrUnexpectedEOF), r')
           else (d, Some err, r')
       | None => (d, None, r')
       end.

(** What a read of [k] bytes leaves: the rest of the stream and the same
    final error. *)
Definition rest_of (r : reader) (k : nat) (r' : reader) : Prop :=
  stream r' = drop k (stream r) /\ r_err r' = r_err r.

(** The loop reads [min k (length (stream r))] bytes; it reports an error
    only when the stream ran out, and always then if bytes are missing. *)
Lemma ReadFull_loop_spec fuel r k :
  length (r_pieces r) < fuel ->
  exists e r', ReadFull_loop fuel r k = (take k (stream r), e, r') /\
    rest_of r k r' /\ (length (stream r) < k -> e = Some (r_err r)).
Proof.
  revert r k. induction fuel as [|fuel IH]; intros r k Hf; [lia|].
  destruct r as [ps eager err]; simpl in Hf.
  destruct k as [|k]; [eexists _, _; repeat split; lia|].
  cbn [ReadFull_loop]. unfold Read; cbn [r_pieces r_eager r_err].
  destruct ps as [|d ps]; cbn [length] in Hf.
  { eexists _, _. repeat split. }
  unfold rest_of, stream; cbn [r_pieces concat r_err].
  destruct (decide _) as [Hd|Hd].
  - destruct (IH (Reader ps eager err) (S k - length d)) as (e & r' & Heq & [Hs He] & Hshort);
      [simpl; lia|]. unfold stream in *; cbn [r_pieces r_err] in *.
    destruct (eager && _) eqn:Hlast.
    + apply andb_true_iff in Hlast as [_ ->%bool_decide_eq_true].
      eexists _, _. cbn. rewrite app_nil_r, take_ge, drop_ge by lia. done.
    + rewrite Heq. eexists _, _. rewrite take_app, (take_ge d), drop_app, (drop_ge d) by lia.
      split; [done|]. split; [done|]. rewrite length_app. intros ?. apply Hshort. lia.
  - assert (length (take (S k) d) = S k) as Hlen by (rewrite length_take; lia).
    rewrite Hlen, Nat.sub_diag. destruct fuel; cbn [ReadFull_loop].
    + eexists _, _. rewrite app_nil_r, take_app_le, drop_app_le by lia.
      repeat split. rewrite length_app. lia.
    + eexists _, _. rewrite app_nil_r, take_app_le, drop_app_le by lia.
      repeat split. rewrite length_app. lia.
Qed.

(** io.ReadFull sees only the stream, not how it is cut into pieces. *)
Lemma ReadFull_enough r k :
  k <= length (stream r) ->
  exists r', ReadFull r k = (take k (stream r), None, r') /\ rest_of r k r'.
Proof.
  intros Hk. destruct (ReadFull_loop_spec (S (length (r_pieces r))) r k)
    as (e & r' & Heq & Hrest & _); [lia|].
  exists r'. unfold ReadFull. rewrite Heq.
  destruct (decide _) as [?|Hn]; [done|]. rewrite length_take in Hn. lia.
Qed.

(** A stream shorter than the request: all of it is read and the error says
    why it ended. *)
Lemma ReadFull_short r k :
  length (stream r) < k ->
  exists r', ReadFull r k =
    (stream r,
     Some (if bool_decide (0 < length (stream r)) && is_exactly (r_err r) io_EOF
           then Sentinel io_ErrUnexpectedEOF else r_err r), r') /\ rest_of r k r'.
Proof.
  intros Hk. destruct (ReadFull_loop_spec (S (length (r_pieces r))) r k)
    as (e & r' & Heq & Hrest & He); [lia|].
  exists r'. unfold ReadFull. rewrite Heq, He, (take_ge (stream r)) by lia.
  destruct (decide (k <= _)); [lia|]. by destruct (_ && _).
Qed.

(** ** Writers *)

Record writer := Writer {
  w_calls : list bytes;                 (* the buffer of each Write call so far *)
  w_script : list (nat * option gerr) (* what the next calls report *)
}.

Definition Write (w : writer) (p : bytes) : nat * option gerr * writer :=
  match w_script w with
  | [] => (length p, None, Writer (w_calls w ++ [p]) [])
  | (n, e) :: s => (n, e, Writer (w_calls w ++ [p]) s)
  end.
