(* ===== verification/Wire.v ===== *)
(** * internal/wire: framing of stream frames and handshake messages

    [readBody] is modelled with the capacity of the buffer it reads into and
    the list of allocations it makes, so that the bound on what a peer can
    make it allocate is a theorem. *)

From S2P Require Export GoIO.
Local Open Scope Z_scope.

(** ** encoding/binary *)

Fixpoint le_bytes (k : nat) (n : Z) : bytes :=
  match k with
  | O => []
  | S k' => z2b n :: le_bytes k' (n / 256)
  end.

Fixpoint le_val (b : bytes) : Z :=
  match b with
  | [] => 0
  | x :: b' => b2z x + 256 * le_val b'
  end.

(** [binary.BigEndian.AppendUint32(dst, v)] and [binary.BigEndian.Uint32]. *)
Definition AppendUint32_be (dst : bytes) (v : Z) : bytes := dst ++ rev (le_bytes 4 v).
Definition Uint32_be (b : bytes) : Z := le_val (rev b).
(** [binary.LittleEndian.PutUint64] and [Uint64]. *)
Definition Uint64_le_bytes (v : Z) : bytes := le_bytes 8 v.
Definition Uint64_le (b : bytes) : Z := le_val b.

Lemma le_bytes_length k n : length (le_bytes k n) = k.
Proof. revert n; induction k as [|k IH]; intros n; simpl; [done|by rewrite IH]. Qed.

Lemma le_val_bytes k n : le_val (le_bytes k n) = n mod 256 ^ Z.of_nat k.
Proof.
  revert n. induction k as [|k IH]; intros n; cbn [le_bytes le_val].
  - by rewrite Z.mod_1_r.
  - rewrite IH, b2z_z2b, Nat2Z.inj_succ, Z.pow_succ_r by lia.
    rewrite Z.rem_mul_r by lia. lia.
Qed.

Lemma le_val_range b : 0 <= le_val b < 256 ^ zlen b.
Proof.
  induction b as [|x b IH]; cbn [le_val]; [done|].
  rewrite zlen_cons, Z.pow_add_r by (pose proof (zlen_nonneg b); lia).
  pose proof (b2z_range x). lia.
Qed.

Lemma le_bytes_val b : le_bytes (length b) (le_val b) = b.
Proof.
  induction b as [|x b IH]; cbn [le_val le_bytes length]; [done|].
  f_equal.
  - apply b2z_inj. rewrite b2z_z2b. pose proof (b2z_range x).
    rewrite (Z.mul_comm 256), Z.mod_add, Z.mod_small by lia. done.
  - transitivity (le_bytes (length b) (le_val b)); [|apply IH]. f_equal.
    pose proof (b2z_range x). rewrite (Z.mul_comm 256), Z.div_add, Z.div_small by lia. lia.
Qed.

(** ** Limits *)

Definition MaxMessageSize : Z := Z.shiftl 128 20.
Definition MaxFrameSize : Z := Z.shiftl 16 20.
Definition growChunk : Z := Z.shiftl 64 10.

(** ** Error classification *)

Definition headerErr (n : Z) (err : gerr) : gerr :=
  if negb (errors_Is err io_EOF) then err
  else if n =? 0 then Sentinel io_EOF
  else Sentinel io_ErrUnexpectedEOF.

Definition bodyErr (err : gerr) : gerr := headerErr 1 err.

(** ** readBody *)

(** A byte slice: its contents and its capacity. *)
Record rbuf := RBuf { rb_data : bytes; rb_cap : Z }.

(** The read step of [readBody] for a buffer holding [len] of [n] bytes. *)
Definition readBody_next (len n : Z) : Z := Z.min n (Z.max (2 * len) growChunk).

(** The capacity [make] is given when a step of [next] bytes does not fit. *)
Definition readBody_grow (cap next n : Z) : Z :=
  Z.min (Z.max next (2 * cap)) (Z.max n growChunk).

(** Room for a step: the buffer as it is, or a larger one with its bytes. *)
Definition readBody_make (b : rbuf) (next n : Z) : rbuf * list Z :=
  if rb_cap b <? next
  then let cap' := readBody_grow (rb_cap b) next n in (RBuf (rb_data b) cap', [cap'])
  else (b, []).

(** The loop of [readBody]; [allocs] collects the capacity of every buffer
    made.  [fuel] bounds the number of steps. *)
Fixpoint readBody_loop (fuel : nat) (r : reader) (b : rbuf) (n : Z) (allocs : list Z)
  : res rbuf * list Z * reader :=
  if negb (zlen (rb_data b) <? n) then (Ok b, allocs, r) else
  match fuel with
  | O => (OutOfFuel, allocs, r)
  | S fuel' =>
      let len := zlen (rb_data b) in
      let next := readBody_next len n in
      let '(b, more) := readBody_make b next n in
      let allocs := allocs ++ more in
      if (rb_cap b <? next) || (next <? len) then (Panic, allocs, r) else
      let '(d, err, r) := ReadFull r (Z.to_nat (next - len)) in
      let b := RBuf (rb_data b ++ d) (rb_cap b) in
      match err with
      | Some e => (Err (bodyErr e), allocs, r)
      | None => readBody_loop fuel' r b n allocs
      end
  end.

(** Go's int has 64 bits and every step at least doubles what was read from
    the second one on, so 64 steps reach any length; [readBody_total] shows
    it. *)
Definition readBody_fuel : nat := 64.

Definition readBody (r : reader) (buf : rbuf) (n : Z) : res rbuf * list Z * reader :=
  if n <=? rb_cap buf then
    let '(d, err, r) := ReadFull r (Z.to_nat n) in
    match err with
    | Some e => (Err (bodyErr e), [], r)
    | None => (Ok (RBuf d (rb_cap buf)), [], r)
    end
  else readBody_loop readBody_fuel r (RBuf [] (rb_cap buf)) n [].

(** ** Stream frames *)

Definition AppendFrame (dst frame : bytes) : bytes * option gerr :=
  if MaxFrameSize <? zlen frame
  then (dst, Some (Errorf "wire: frame of %d bytes: %w" [Sentinel ErrTooLarge]))
  else (AppendUint32_be dst (zlen frame) ++ frame, None).

(** Exactly one Write; a short count without an error is io.ErrShortWrite. *)
Definition writeChecked (w : writer) (buf : bytes) : option gerr * writer :=
  let '(n, err, w) := Write w buf in
  match err with
  | None => if Nat.eqb n (length buf) then (None, w)
            else (Some (Sentinel io_ErrShortWrite), w)
  | Some e => (Some e, w)
  end.

Definition WriteFrame (w : writer) (frame : bytes) : option gerr * writer :=
  if MaxFrameSize <? zlen frame
  then (Some (Errorf "wire: frame of %d bytes: %w" [Sentinel ErrTooLarge]), w)
  else
    let '(buf, err) := AppendFrame [] frame in
    match err with
    | Some e => (Some e, w)
    | None =>
        match writeChecked w buf with
        | (Some e, w) => (Some (Errorf "wire: write frame: %w" [e]), w)
        | (None, w) => (None, w)
        end
    end.

(** [slices.Grow(buf[:0], 4)]: a buffer without room for the length is
    replaced by one of the runtime's smallest size class, 8 bytes. *)
Definition grow4 (cap : Z) : Z * list Z := if cap <? 4 then (8, [8]) else (cap, []).

Definition ReadFrame (r : reader) (buf : rbuf) : res rbuf * list Z * reader :=
  let '(cap, allocs) := grow4 (rb_cap buf) in
  let '(hdr, err, r) := ReadFull r 4 in
  match err with
  | Some e =>
      let e := headerErr (zlen hdr) e in
      if errors_Is e io_EOF then (Err (Sentinel io_EOF), allocs, r)
      else (Err (Errorf "wire: read frame length: %w" [e]), allocs, r)
  | None =>
      let n := Uint32_be hdr in
      if MaxFrameSize <? n
      then (Err (Errorf "wire: read frame length %d: %w" [Sentinel ErrTooLarge]), allocs, r)
      else
        let '(body, more, r) := readBody r (RBuf [] cap) n in
        let allocs := allocs ++ more in
        match body with
        | Ok b => (Ok b, allocs, r)
        | Err e => (Err (Errorf "wire: read frame body: %w" [e]), allocs, r)
        | Panic => (Panic, allocs, r)
        | OutOfFuel => (OutOfFuel, allocs, r)
        end
  end.

(** ** Handshake messages

    The protobuf runtime is not part of the repository: what wire relies on
    is a class.  [Size] is exact and [MarshalAppend] appends the encoding,
    which [Unmarshal] reads back. *)
Class ProtoMessage (M : Type) := {
  proto_Marshal : M -> bytes + gerr;
  proto_Size : M -> Z;
  proto_Unmarshal : bytes -> M + gerr;
  proto_Size_exact : forall m b, proto_Marshal m = inl b -> proto_Size m = zlen b;
  proto_roundtrip : forall m b, proto_Marshal m = inl b -> proto_Unmarshal b = inl m
}.

Section Messages.
Context {M : Type} `{ProtoMessage M}.

Definition WriteMessage (w : writer) (m : M) : option gerr * writer :=
  if MaxMessageSize <? proto_Size m
  then (Some (Errorf "wire: write %T of %d bytes: %w" [Sentinel ErrTooLarge]), w)
  else
    match proto_Marshal m with
    | inl enc =>
        if MaxMessageSize <? zlen enc
        then (Some (Errorf "wire: write %T of %d bytes: %w" [Sentinel ErrTooLarge]), w)
        else
          match writeChecked w (Uint64_le_bytes (zlen enc) ++ enc) with
          | (Some e, w) => (Some (Errorf "wire: write %T: %w" [e]), w)
          | (None, w) => (None, w)
          end
    | inr e => (Some (Errorf "wire: marshal %T: %w" [e]), w)
    end.

Definition ReadMessage (r : reader) : res M * list Z * reader :=
  let '(hdr, err, r) := ReadFull r 8 in
  match err with
  | Some e => (Err (Errorf "wire: read %T length: %w" [headerErr (zlen hdr) e]), [], r)
  | None =>
      let n := to_int64 (Uint64_le hdr) in
      if (n <? 0) || (MaxMessageSize <? n)
      then (Err (Errorf "wire: read %T length %d: %w" [Sentinel ErrTooLarge]), [], r)
      else
        let '(body, allocs, r) := readBody r (RBuf [] 0) n in
        match body with
        | Ok b =>
            match proto_Unmarshal (rb_data b) with
            | inl m => (Ok m, allocs, r)
            | inr e => (Err (Errorf "wire: unmarshal %T: %w: %w" [Sentinel ErrMalformed; e]), allocs, r)
            end
        | Err e => (Err (Errorf "wire: read %T body: %w" [e]), allocs, r)
        | Panic => (Panic, allocs, r)
        | OutOfFuel => (OutOfFuel, allocs, r)
        end
  end.
End Messages.

(** ** Facts about the pieces *)

Lemma growChunk_pos : 0 < growChunk.
Proof. reflexivity. Qed.

Lemma Uint32_be_bytes v : Uint32_be (rev (le_bytes 4 v)) = v mod 2 ^ 32.
Proof. unfold Uint32_be. rewrite rev_involutive. apply le_val_bytes. Qed.

Lemma Uint32_be_range b : zlen b = 4 -> 0 <= Uint32_be b < 2 ^ 32.
Proof.
  intros Hb. pose proof (le_val_range (rev b)) as Hr.
  unfold zlen in *. rewrite length_rev, Hb in Hr. apply Hr.
Qed.

Lemma AppendUint32_be_length v : length (rev (le_bytes 4 v)) = 4%nat.
Proof. by rewrite length_rev, le_bytes_length. Qed.

Lemma zlen_be32 v : zlen (rev (le_bytes 4 v)) = 4.
Proof. unfold zlen. by rewrite AppendUint32_be_length. Qed.

(** The classification of a failed body read, in closed form. *)
Definition cut_err (r : reader) : gerr :=
  if errors_Is (r_err r) io_EOF then Sentinel io_ErrUnexpectedEOF else r_err r.

Lemma is_exactly_Is e t : is_exactly e t = true -> e = Sentinel t.
Proof. destruct e; try done. simpl. by intros ->%bool_decide_eq_true. Qed.

Lemma bodyErr_ReadFull r (b : bool) :
  bodyErr (if b && is_exactly (r_err r) io_EOF
           then Sentinel io_ErrUnexpectedEOF else r_err r) = cut_err r.
Proof.
  unfold bodyErr, headerErr, cut_err.
  destruct b; simpl; [destruct (is_exactly _ _) eqn:He|].
  - by rewrite (is_exactly_Is _ _ He).
  - by destruct (errors_Is (r_err r) io_EOF).
  - by destruct (errors_Is (r_err r) io_EOF).
Qed.

Lemma errors_Is_cut_err_EOF r : errors_Is (cut_err r) io_EOF = false.
Proof. unfold cut_err. by destruct (errors_Is (r_err r) io_EOF) eqn:?. Qed.

(** ** readBody *)

(** What [readBody] returns, as a function of the stream alone. *)
Definition body_result (r : reader) (data : bytes) (n : Z) (cap : Z) : res rbuf :=
  if n - zlen data <=? zlen (stream r)
  then Ok (RBuf (data ++ ztake (n - zlen data) (stream r)) cap)
  else Err (cut_err r).

(** Every buffer made is in proportion to what was received. *)
Definition alloc_ok (received a : Z) : Prop := a <= Z.max (2 * growChunk) (4 * received).

Lemma alloc_ok_mono x y a : x <= y -> alloc_ok x a -> alloc_ok y a.
Proof. unfold alloc_ok. lia. Qed.

(** Enough fuel for a buffer of [len] bytes to reach [n]. *)
Definition fuel_ok (fuel : nat) (len n : Z) : Prop :=
  n <= len \/ (0 < fuel)%nat /\ n <= Z.max (2 * len) growChunk * 2 ^ (Z.of_nat fuel - 1).

Lemma fuel_ok_step fuel len n :
  0 <= len < n -> fuel_ok fuel len n ->
  exists fuel', fuel = S fuel' /\ fuel_ok fuel' (readBody_next len n) n.
Proof.
  intros Hlen [?|[Hf Hn]]; [lia|]. destruct fuel as [|fuel]; [lia|].
  exists fuel. split; [done|]. unfold fuel_ok, readBody_next.
  pose proof growChunk_pos.
  destruct (Z.le_gt_cases n (Z.max (2 * len) growChunk)) as [Hle|Hgt]; [left; lia|].
  right. destruct fuel as [|fuel].
  - change (Z.of_nat 1 - 1) with 0 in Hn. rewrite Z.pow_0_r in Hn. lia.
  - split; [lia|]. replace (Z.of_nat (S (S fuel)) - 1) with (Z.succ (Z.of_nat fuel)) in Hn by lia.
    replace (Z.of_nat (S fuel) - 1) with (Z.of_nat fuel) by lia.
    rewrite Z.pow_succ_r in Hn by lia.
    rewrite (Z.min_r n), (Z.max_l (2 * _)) by lia. lia.
Qed.

Lemma readBody_next_bounds len n :
  0 <= len < n -> len < readBody_next len n <= n.
Proof. unfold readBody_next. pose proof growChunk_pos. lia. Qed.

(** A step's buffer holds the same bytes, has room for the step, and was made
    no larger than [alloc_ok] allows for what had arrived. *)
Lemma readBody_make_spec b n b' more :
  0 <= zlen (rb_data b) < n ->
  readBody_make b (readBody_next (zlen (rb_data b)) n) n = (b', more) ->
  rb_data b' = rb_data b /\ readBody_next (zlen (rb_data b)) n <= rb_cap b' /\
  Forall (alloc_ok (zlen (rb_data b))) more.
Proof.
  intros Hlen. unfold readBody_make. pose proof growChunk_pos.
  pose proof (readBody_next_bounds _ _ Hlen).
  destruct (Z.ltb_spec (rb_cap b) (readBody_next (zlen (rb_data b)) n)) as [Hc|Hc];
    intros [= <- <-]; cbn [rb_data rb_cap]; (split; [done|]).
  - unfold readBody_grow. split; [lia|]. repeat constructor.
    unfold alloc_ok. unfold readBody_next in *. lia.
  - split; [done|constructor].
Qed.

(** Reading some of the missing bytes first does not change the result. *)
Lemma body_result_step r r1 data n cap k :
  0 <= k <= zlen (stream r) -> zlen data + k <= n -> rest_of r (Z.to_nat k) r1 ->
  body_result r1 (data ++ ztake k (stream r)) n cap = body_result r data n cap.
Proof.
  intros Hk Hn [Hs He]. unfold body_result, cut_err. rewrite He, Hs.
  fold (zdrop k (stream r)).
  replace (zlen (data ++ ztake k (stream r))) with (zlen data + k) by zlia.
  rewrite zlen_zdrop.
  destruct (Z.leb_spec (n - (zlen data + k)) (Z.max 0 (zlen (stream r) - Z.max 0 k)));
    destruct (Z.leb_spec (n - zlen data) (zlen (stream r))); try lia; [|done].
  rewrite <- app_assoc, <- ztake_plus by lia. by replace (k + _) with (n - zlen data) by lia.
Qed.

Lemma rest_of_trans r r1 r2 j k :
  rest_of r j r1 -> rest_of r1 k r2 -> rest_of r (j + k) r2.
Proof. intros [H1 E1] [H2 E2]. split; [|congruence]. by rewrite H2, H1, drop_drop. Qed.

Lemma rest_of_zlen r r1 k :
  0 <= k -> rest_of r (Z.to_nat k) r1 -> zlen (stream r1) = Z.max 0 (zlen (stream r) - k).
Proof. intros ? [-> _]. fold (zdrop k (stream r)). zlia. Qed.

Lemma Forall_alloc_mono x y l :
  x <= y -> Forall (alloc_ok x) l -> Forall (alloc_ok y) l.
Proof. intros ? Hl. eapply Forall_impl; [exact Hl|]. intros a. by apply alloc_ok_mono. Qed.

(** The loop, from any point of its progress: its result is a function of
    the stream, what it leaves unread is the rest of the stream, and every
    allocation is bounded by what arrived. *)
Lemma readBody_loop_spec fuel r b n allocs :
  zlen (rb_data b) <= n -> fuel_ok fuel (zlen (rb_data b)) n ->
  exists cap' more r',
    readBody_loop fuel r b n allocs = (body_result r (rb_data b) n cap', allocs ++ more, r') /\
    Forall (alloc_ok (Z.min n (zlen (rb_data b) + zlen (stream r)))) more /\
    (n - zlen (rb_data b) <= zlen (stream r) ->
     rest_of r (Z.to_nat (n - zlen (rb_data b))) r').
Proof.
  revert r b allocs. induction fuel as [|fuel IH]; intros r b allocs Hn Hf;
    pose proof (zlen_nonneg (rb_data b)); pose proof (zlen_nonneg (stream r));
    destruct (Z.ltb_spec (zlen (rb_data b)) n) as [Hlt|Hge].
  1: destruct Hf as [?|[? _]]; lia.
  1,3: exists (rb_cap b), [], r; split; [|split; [constructor|intros _]];
    [|by replace (Z.to_nat _) with 0%nat by lia];
    cbn [readBody_loop]; unfold body_result; rewrite app_nil_r;
    (destruct (Z.ltb_spec (zlen (rb_data b)) n); [lia|]);
    (destruct (Z.leb_spec (n - zlen (rb_data b)) (zlen (stream r))); [|lia]);
    rewrite ztake_0, app_nil_r by lia; by destruct b.
  destruct (fuel_ok_step _ _ _ (conj H Hlt) Hf) as (fuel0 & [= <-] & Hf').
  pose proof (readBody_next_bounds _ _ (conj H Hlt)) as Hnext.
  cbn [readBody_loop]. destruct (Z.ltb_spec (zlen (rb_data b)) n); [cbn [negb]|lia].
  destruct (readBody_make b _ n) as [b1 more] eqn:Hmake.
  apply readBody_make_spec in Hmake as (Hdata & Hcap & Hmore); [|lia].
  set (next := readBody_next (zlen (rb_data b)) n) in *. rewrite Hdata.
  destruct (Z.ltb_spec (rb_cap b1) next); [lia|].
  destruct (Z.ltb_spec next (zlen (rb_data b))); [lia|]. cbn [orb].
  assert (exists k, k = next - zlen (rb_data b)) as [k Hk] by eauto. rewrite <- Hk.
  destruct (Z.le_gt_cases k (zlen (stream r))) as [Hle|Hgt].
  - destruct (ReadFull_enough r (Z.to_nat k)) as (r1 & -> & Hr1); [unfold zlen in *; lia|].
    fold (ztake k (stream r)). pose proof (rest_of_zlen _ _ k ltac:(lia) Hr1) as Hl1.
    set (b2 := RBuf (rb_data b ++ ztake k (stream r)) (rb_cap b1)).
    assert (zlen (rb_data b2) = next) as Hb2 by (unfold b2; cbn; zlia).
    destruct (IH r1 b2 (allocs ++ more)) as (cap2 & more2 & r2 & Heq & Hall & Hrest);
      rewrite ?Hb2 in *; [lia|done|].
    rewrite Heq. exists cap2, (more ++ more2), r2. rewrite app_assoc.
    split; [unfold b2; cbn; by rewrite body_result_step by (done || lia)|]. split.
    + apply Forall_app. split; (eapply Forall_alloc_mono; [|eassumption]); lia.
    + intros ?. replace (Z.to_nat _) with (Z.to_nat k + Z.to_nat (n - next))%nat by lia.
      eapply rest_of_trans; [done|]. apply Hrest. lia.
  - destruct (ReadFull_short r (Z.to_nat k)) as (r1 & -> & _); [unfold zlen in *; lia|].
    rewrite bodyErr_ReadFull. exists (rb_cap b1), more, r1. split; [|split; [|lia]].
    + unfold body_result. destruct (Z.leb_spec (n - zlen (rb_data b)) (zlen (stream r))); [lia|done].
    + eapply Forall_alloc_mono; [|done]. lia.
Qed.

Lemma readBody_spec r buf n :
  0 <= n < 2 ^ 63 ->
  exists cap' allocs r',
    readBody r buf n = (body_result r [] n cap', allocs, r') /\
    Forall (alloc_ok (Z.min n (zlen (stream r)))) allocs /\
    (n <= zlen (stream r) -> rest_of r (Z.to_nat n) r').
Proof.
  intros Hn. unfold readBody. destruct (Z.leb_spec n (rb_cap buf)) as [Hc|Hc].
  - unfold body_result. rewrite zlen_nil, Z.sub_0_r.
    destruct (Z.leb_spec n (zlen (stream r))) as [Hl|Hl].
    + destruct (ReadFull_enough r (Z.to_nat n)) as (r' & -> & Hr); [unfold zlen in *; lia|].
      exists (rb_cap buf), [], r'. repeat split; [constructor|apply Hr..].
    + destruct (ReadFull_short r (Z.to_nat n)) as (r' & -> & _); [unfold zlen in *; lia|].
      rewrite bodyErr_ReadFull. exists 0, [], r'. repeat split; [constructor|lia|lia].
  - destruct (readBody_loop_spec readBody_fuel r (RBuf [] (rb_cap buf)) n [])
      as (cap' & more & r' & Heq & Hall & Hrest); cbn [rb_data] in *.
    + rewrite zlen_nil. lia.
    + right. split; [unfold readBody_fuel; lia|]. change (Z.max (2 * zlen []) growChunk) with growChunk.
      change (Z.of_nat readBody_fuel - 1) with 63. pose proof growChunk_pos. nia.
    + rewrite zlen_nil, ?Z.sub_0_r in *. exists cap', more, r'. by rewrite Heq.
Qed.

(** ** ReadFrame as a parser of the stream *)

Definition map_res {A B} (f : A -> B) (x : res A) : res B :=
  match x with Ok a => Ok (f a) | Err e => Err e | Panic => Panic | OutOfFuel => OutOfFuel end.

(** The error of a stream that ends with [e] inside a frame. *)
Definition cut (e : gerr) : gerr :=
  if errors_Is e io_EOF then Sentinel io_ErrUnexpectedEOF else e.

(** What reading one frame from a stream [s] ending with error [e] yields. *)
Definition frame_outcome (s : bytes) (e : gerr) : res bytes :=
  if zlen s =? 0 then
    if errors_Is e io_EOF then Err (Sentinel io_EOF)
    else Err (Errorf "wire: read frame length: %w" [e])
  else if zlen s <? 4 then Err (Errorf "wire: read frame length: %w" [cut e])
  else
    let n := Uint32_be (ztake 4 s) in
    if MaxFrameSize <? n
    then Err (Errorf "wire: read frame length %d: %w" [Sentinel ErrTooLarge])
    else if zlen s - 4 <? n then Err (Errorf "wire: read frame body: %w" [cut e])
    else Ok (ztake n (zdrop 4 s)).

(** How many bytes of the stream that consumes. *)
Definition frame_consumed (s : bytes) : Z := 4 + Uint32_be (ztake 4 s).

Lemma headerErr_ReadFull r :
  headerErr (zlen (stream r))
    (if bool_decide (0 < length (stream r))%nat && is_exactly (r_err r) io_EOF
     then Sentinel io_ErrUnexpectedEOF else r_err r) =
  if (zlen (stream r) =? 0) && errors_Is (r_err r) io_EOF then Sentinel io_EOF
  else cut (r_err r).
Proof.
  destruct (Z.eqb_spec (zlen (stream r)) 0) as [Hz|Hz].
  - rewrite bool_decide_false by (unfold zlen in Hz; lia). rewrite Hz. simpl.
    unfold headerErr, cut. by destruct (errors_Is (r_err r) io_EOF).
  - rewrite bool_decide_true by (unfold zlen in Hz; lia).
    pose proof (bodyErr_ReadFull r true) as Hb. unfold bodyErr, headerErr in *.
    destruct (Z.eqb_spec (zlen (stream r)) 0); [done|]. simpl in *.
    rewrite Hb. unfold cut_err, cut. by destruct (errors_Is (r_err r) io_EOF).
Qed.

Lemma errors_Is_cut_EOF e : errors_Is (cut e) io_EOF = false.
Proof. unfold cut. by destruct (errors_Is e io_EOF) eqn:?. Qed.

Lemma Uint32_be_take_range s : 4 <= zlen s -> 0 <= Uint32_be (ztake 4 s) < 2 ^ 32.
Proof. intros ?. apply Uint32_be_range. zlia. Qed.

(** [ReadFrame] refines [frame_outcome]: for any reader and any buffer to
    reuse, the result depends on the stream alone, a frame that was read
    leaves exactly the bytes after it, and the allocations are bounded by
    what was received. *)
Lemma ReadFrame_refines r buf :
  exists x allocs r',
    ReadFrame r buf = (x, allocs, r') /\
    map_res rb_data x = frame_outcome (stream r) (r_err r) /\
    Forall (alloc_ok (Z.min MaxFrameSize (zlen (stream r)))) allocs /\
    (forall b, x = Ok b -> rest_of r (Z.to_nat (frame_consumed (stream r))) r').
Proof.
  unfold ReadFrame. destruct (grow4 (rb_cap buf)) as [cap allocs] eqn:Hg.
  assert (Forall (alloc_ok (Z.min MaxFrameSize (zlen (stream r)))) allocs) as Hall.
  { unfold grow4 in Hg. pose proof (zlen_nonneg (stream r)).
    destruct (_ <? _); simplify_eq; [|constructor].
    repeat constructor. unfold alloc_ok. change growChunk with 65536.
    change MaxFrameSize with 16777216. lia. }
  unfold frame_outcome. pose proof (zlen_nonneg (stream r)).
  destruct (Z.ltb_spec (zlen (stream r)) 4) as [Hs|Hs].
  - destruct (ReadFull_short r 4) as (r1 & -> & _); [unfold zlen in Hs; lia|].
    rewrite headerErr_ReadFull. destruct (Z.eqb_spec (zlen (stream r)) 0); cbn [andb].
    + destruct (errors_Is (r_err r) io_EOF) eqn:He.
      * rewrite errors_Is_self. by eexists _, _, _.
      * unfold cut. rewrite He, He. by eexists _, _, _.
    + rewrite errors_Is_cut_EOF. by eexists _, _, _.
  - destruct (Z.eqb_spec (zlen (stream r)) 0) as [|_]; [lia|].
    destruct (ReadFull_enough r 4) as (r1 & -> & Hr1); [unfold zlen in Hs; lia|].
    change (take 4 (stream r)) with (ztake 4 (stream r)). pose proof (Uint32_be_take_range _ Hs).
    unfold frame_consumed. generalize dependent (Uint32_be (ztake 4 (stream r))). intros n Hn.
    destruct (Z.ltb_spec MaxFrameSize n) as [Hm|Hm]; [by eexists _, _, _|].
    destruct (readBody_spec r1 (RBuf [] cap) n) as (cap' & more & r2 & -> & Hall2 & Hrest);
      [lia|].
    pose proof (rest_of_zlen _ _ 4 ltac:(lia) Hr1) as Hl1. destruct Hr1 as [Hs1 He1].
    assert (Forall (alloc_ok (Z.min MaxFrameSize (zlen (stream r)))) (allocs ++ more)) as Hall3.
    { apply Forall_app. split; [done|]. eapply Forall_alloc_mono; [|done]. lia. }
    unfold body_result. rewrite zlen_nil, Z.sub_0_r, app_nil_l.
    destruct (Z.leb_spec n (zlen (stream r1))); destruct (Z.ltb_spec (zlen (stream r) - 4) n);
      try lia; eexists _, _, _; (split; [done|]); (split; [|split; [done|]]).
    + cbn. rewrite Hs1. done.
    + intros b _. replace (Z.to_nat (4 + n)) with (4 + Z.to_nat n)%nat by lia.
      eapply rest_of_trans; [by split|]. by apply Hrest.
    + cbn. unfold cut_err, cut. by rewrite He1.
    + done.
Qed.

Lemma frame_outcome_append frame rest e :
  zlen frame <= MaxFrameSize ->
  frame_outcome (rev (le_bytes 4 (zlen frame)) ++ frame ++ rest) e = Ok frame.
Proof.
  intros Hf. pose proof (zlen_nonneg frame). unfold frame_outcome.
  assert (zlen (rev (le_bytes 4 (zlen frame))) = 4) as H4.
  { unfold zlen at 1. by rewrite AppendUint32_be_length. }
  rewrite ztake_app_eq, zdrop_app_eq, Uint32_be_bytes by lia.
  change MaxFrameSize with 16777216 in *.
  rewrite Z.mod_small by lia. rewrite !zlen_app, H4. pose proof (zlen_nonneg rest).
  destruct (Z.eqb_spec (4 + (zlen frame + zlen rest)) 0); [lia|].
  destruct (Z.ltb_spec (4 + (zlen frame + zlen rest)) 4); [lia|].
  destruct (Z.ltb_spec 16777216 (zlen frame)); [lia|].
  destruct (Z.ltb_spec (4 + (zlen frame + zlen rest) - 4) (zlen frame)); [lia|].
  by rewrite ztake_app_eq.
Qed.

Lemma frame_consumed_append frame rest :
  zlen frame <= MaxFrameSize ->
  frame_consumed (rev (le_bytes 4 (zlen frame)) ++ frame ++ rest) = 4 + zlen frame.
Proof.
  intros Hf. pose proof (zlen_nonneg frame). unfold frame_consumed.
  rewrite ztake_app_eq, Uint32_be_bytes.
  - change MaxFrameSize with 16777216 in Hf. rewrite Z.mod_small by lia. done.
  - unfold zlen. by rewrite AppendUint32_be_length.
Qed.

(** ** Properties *)

(** [C8] Round trip of a stream frame through any transport: whatever pieces the
    bytes arrive in, however the stream ends and whatever buffer is reused,
    [ReadFrame] returns the frame [AppendFrame] appended and leaves exactly
    the bytes after it. *)
Theorem frame_roundtrip dst frame out r rest buf :
  AppendFrame dst frame = (out, None) ->
  stream r = zdrop (zlen dst) out ++ rest ->
  exists b allocs r',
    ReadFrame r buf = (Ok b, allocs, r') /\ rb_data b = frame /\
    stream r' = rest /\ r_err r' = r_err r.
Proof.
  unfold AppendFrame. destruct (Z.ltb_spec MaxFrameSize (zlen frame)) as [|Hf]; [done|].
  intros [= <-]. unfold AppendUint32_be. rewrite <- app_assoc, zdrop_app_eq by done.
  rewrite <- app_assoc. intros Hs.
  destruct (ReadFrame_refines r buf) as (x & allocs & r' & Heq & Hx & _ & Hrest).
  rewrite Hs, frame_outcome_append in Hx by done.
  destruct x as [b| | |]; try done. injection Hx as Hb.
  destruct (Hrest b eq_refl) as [Hr' He']. exists b, allocs, r'. repeat split; try done.
  rewrite Hr', Hs, frame_consumed_append by done.
  fold (zdrop (4 + zlen frame) (rev (le_bytes 4 (zlen frame)) ++ frame ++ rest)).
  rewrite app_assoc. apply zdrop_app_eq. rewrite zlen_app.
  f_equal.
Qed.

Lemma frame_roundtrip_witness :
  AppendFrame (bs "head") (bs "body") = (bs "head" ++ [x00; x00; x00; x04] ++ bs "body", None) /\
  exists b allocs r',
    ReadFrame (Reader [[x00]; [x00; x00]; []; x04 :: bs "bo"; bs "dy+"] true (Sentinel io_EOF))
      (RBuf [] 2) = (Ok b, allocs, r') /\
    rb_data b = bs "body" /\ stream r' = bs "+" /\ r_err r' = Sentinel io_EOF.
Proof.
  split; [reflexivity|].
  apply (frame_roundtrip (bs "head") (bs "body") (bs "head" ++ [x00; x00; x00; x04] ++ bs "body")
    (Reader [[x00]; [x00; x00]; []; x04 :: bs "bo"; bs "dy+"] true (Sentinel io_EOF)) (bs "+"));
    reflexivity.
Defined.

(** [C9] Whatever the peer sends, [ReadFrame] returns a frame or an error, never
    panics and never runs out of steps; and a peer that declares a large
    length and sends little costs memory in proportion to what it sent: every
    buffer made has at most 128 KiB or four times the bytes received. *)
Theorem ReadFrame_alloc_bounded r buf :
  exists x allocs r',
    ReadFrame r buf = (x, allocs, r') /\ x <> Panic /\ x <> OutOfFuel /\
    Forall (fun a => a <= Z.max (128 * 1024) (4 * Z.min MaxFrameSize (zlen (stream r)))) allocs.
Proof.
  destruct (ReadFrame_refines r buf) as (x & allocs & r' & Heq & Hx & Hall & _).
  exists x, allocs, r'. split; [done|].
  assert (frame_outcome (stream r) (r_err r) <> Panic /\
          frame_outcome (stream r) (r_err r) <> OutOfFuel) as [Hp Ho].
  { unfold frame_outcome. repeat case_match; done. }
  rewrite <- Hx in Hp, Ho. split; [by intros ->|]. split; [by intros ->|].
  eapply Forall_impl; [exact Hall|]. unfold alloc_ok. change growChunk with 65536. lia.
Qed.

(** [C10] The error of a failed [ReadFrame]: it is an [io.EOF] exactly when the
    stream ended cleanly before the frame's first byte, and then it is the
    bare [io.EOF]; a stream that ends anywhere later yields an
    [io.ErrUnexpectedEOF], unless the length declared is above
    [MaxFrameSize], which yields [ErrTooLarge]. *)
Theorem ReadFrame_error_class r buf e allocs r' :
  ReadFrame r buf = (Err e, allocs, r') ->
  (errors_Is e io_EOF = true <-> stream r = [] /\ errors_Is (r_err r) io_EOF = true) /\
  (errors_Is e io_EOF = true -> e = Sentinel io_EOF) /\
  (stream r <> [] -> errors_Is (r_err r) io_EOF = true ->
     errors_Is e io_ErrUnexpectedEOF = true \/
     4 <= zlen (stream r) /\ MaxFrameSize < Uint32_be (ztake 4 (stream r)) /\
     errors_Is e ErrTooLarge = true).
Proof.
  intros Heq. destruct (ReadFrame_refines r buf) as (x & ? & ? & Heq' & Hx & _).
  rewrite Heq in Heq'. simplify_eq. cbn [map_res] in Hx. symmetry in Hx.
  unfold frame_outcome in Hx.
  assert (zlen (stream r) = 0 <-> stream r = []) as Hnil
    by (split; [apply zlen_zero|by intros ->]).
  destruct (Z.eqb_spec (zlen (stream r)) 0) as [H0|H0].
  { rewrite Hnil in H0. destruct (errors_Is (r_err r) io_EOF) eqn:He; simplify_eq;
      autorewrite with errors; rewrite ?He; naive_solver. }
  assert (stream r <> []) as Hne by tauto.
  repeat case_match; simplify_eq; autorewrite with errors; rewrite ?errors_Is_cut_EOF;
    (split; [naive_solver|]); (split; [done|]); intros _ HE; unfold cut; rewrite ?HE;
    [by left|right; split_and!; [lia..|done]|by left].
Qed.

Lemma ReadFrame_error_class_witness :
  exists e allocs r',
    ReadFrame (Reader [[x00]; [x00; x00; x05; x61]] false (Sentinel io_EOF)) (RBuf [] 0)
      = (Err e, allocs, r') /\
    errors_Is e io_EOF = false /\ errors_Is e io_ErrUnexpectedEOF = true.
Proof.
  eexists _, _, _. split; [vm_compute; reflexivity|].
  pose proof (ReadFrame_error_class
    (Reader [[x00]; [x00; x00; x05; x61]] false (Sentinel io_EOF)) (RBuf [] 0) _ _ _
    ltac:(vm_compute; reflexivity)) as [H1 [H2 H3]].
  split; [reflexivity|]. destruct H3 as [H3|(_ & _ & H3)]; [done|done|exact H3|].
  vm_compute in H3. discriminate H3.
Defined.

(** ** Handshake messages as parsers of the stream *)

Section MessageFacts.
Context {M : Type} `{HM : ProtoMessage M}.

(** What reading one message from a stream [s] ending with [e] yields. *)
Definition message_outcome (s : bytes) (e : gerr) : res M :=
  if zlen s =? 0 then
    Err (Errorf "wire: read %T length: %w" [if errors_Is e io_EOF then Sentinel io_EOF else cut e])
  else if zlen s <? 8 then Err (Errorf "wire: read %T length: %w" [cut e])
  else
    let n := to_int64 (Uint64_le (ztake 8 s)) in
    if (n <? 0) || (MaxMessageSize <? n)
    then Err (Errorf "wire: read %T length %d: %w" [Sentinel ErrTooLarge])
    else if zlen s - 8 <? n then Err (Errorf "wire: read %T body: %w" [cut e])
    else match proto_Unmarshal (ztake n (zdrop 8 s)) with
         | inl m => Ok m
         | inr e => Err (Errorf "wire: unmarshal %T: %w: %w" [Sentinel ErrMalformed; e])
         end.

Definition message_consumed (s : bytes) : Z := 8 + to_int64 (Uint64_le (ztake 8 s)).

Lemma ReadMessage_refines r :
  exists allocs r',
    ReadMessage r = (message_outcome (stream r) (r_err r), allocs, r') /\
    Forall (alloc_ok (Z.min MaxMessageSize (zlen (stream r)))) allocs /\
    (forall m, message_outcome (stream r) (r_err r) = Ok m ->
       rest_of r (Z.to_nat (message_consumed (stream r))) r').
Proof.
  unfold ReadMessage, message_outcome, message_consumed.
  pose proof (zlen_nonneg (stream r)).
  destruct (Z.ltb_spec (zlen (stream r)) 8) as [Hs|Hs].
  - destruct (ReadFull_short r 8) as (r1 & -> & _); [unfold zlen in Hs; lia|].
    rewrite headerErr_ReadFull. exists [], r1.
    split; [|split; [constructor|by repeat case_match]].
    destruct (Z.eqb_spec (zlen (stream r)) 0); cbn [andb]; [|done].
    by destruct (errors_Is (r_err r) io_EOF).
  - destruct (Z.eqb_spec (zlen (stream r)) 0) as [|_]; [lia|].
    destruct (ReadFull_enough r 8) as (r1 & -> & Hr1); [unfold zlen in Hs; lia|].
    change (take 8 (stream r)) with (ztake 8 (stream r)).
    generalize (to_int64 (Uint64_le (ztake 8 (stream r)))). intros n.
    destruct (Z.ltb_spec n 0) as [|Hn0]; cbn [orb]; [by exists [], r1|].
    destruct (Z.ltb_spec MaxMessageSize n) as [|Hn1]; [by exists [], r1|].
    destruct (readBody_spec r1 (RBuf [] 0) n) as (cap & more & r2 & -> & Hall & Hrest).
    { change MaxMessageSize with 134217728 in Hn1. lia. }
    pose proof (rest_of_zlen _ _ 8 ltac:(lia) Hr1) as Hl1. destruct Hr1 as [Hs1 He1].
    exists more, r2. unfold body_result. rewrite zlen_nil, Z.sub_0_r, app_nil_l.
    assert (Forall (alloc_ok (Z.min MaxMessageSize (zlen (stream r)))) more)
      by (eapply Forall_alloc_mono; [|exact Hall]; lia).
    destruct (Z.leb_spec n (zlen (stream r1))); destruct (Z.ltb_spec (zlen (stream r) - 8) n);
      try lia; cbn [rb_data].
    + rewrite Hs1. change (drop (Z.to_nat 8) (stream r)) with (zdrop 8 (stream r)).
      split; [by destruct (proto_Unmarshal _)|]. split; [done|]. intros m _.
      replace (Z.to_nat (8 + n)) with (8 + Z.to_nat n)%nat by lia.
      eapply rest_of_trans; [by split|]. by apply Hrest.
    + split; [|by split]. unfold cut_err, cut. by rewrite He1.
Qed.

Lemma message_outcome_write enc m rest e :
  zlen enc <= MaxMessageSize -> proto_Unmarshal enc = inl m ->
  message_outcome (Uint64_le_bytes (zlen enc) ++ enc ++ rest) e = Ok m.
Proof.
  intros Hl Hm. pose proof (zlen_nonneg enc). pose proof (zlen_nonneg rest).
  unfold message_outcome. rewrite ztake_app_eq, zdrop_app_eq by done.
  unfold Uint64_le, Uint64_le_bytes. rewrite le_val_bytes.
  change MaxMessageSize with 134217728 in *. rewrite Z.mod_small by lia.
  unfold to_int64. rewrite wrap_s_id by lia.
  rewrite !zlen_app. change (zlen (le_bytes 8 (zlen enc))) with 8.
  repeat match goal with
  | |- context[(?a =? ?b)%Z] => destruct (Z.eqb_spec a b); [lia|]
  | |- context[(?a <? ?b)%Z] => destruct (Z.ltb_spec a b); [lia|]
  end.
  cbn [orb]. by rewrite ztake_app_eq, Hm.
Qed.

(** A message [WriteMessage] sends is what [ReadMessage] receives, through
    any fragmentation, and the bytes after it are left for the next read.
    The write is one call of the length and the encoding. *)
Theorem message_roundtrip (m : M) out r rest :
  WriteMessage (Writer [] []) m = (None, Writer [out] []) ->
  stream r = out ++ rest ->
  exists allocs r',
    ReadMessage r = (Ok m, allocs, r') /\ stream r' = rest /\ r_err r' = r_err r.
Proof.
  intros Hwrite Hr. unfold WriteMessage in Hwrite.
  destruct (Z.ltb_spec MaxMessageSize (proto_Size m)) as [|Hsize]; [done|].
  destruct (proto_Marshal m) as [enc|] eqn:Henc; [|done].
  destruct (Z.ltb_spec MaxMessageSize (zlen enc)) as [|Hl]; [done|].
  unfold writeChecked, Write in Hwrite. cbn [w_script] in Hwrite.
  rewrite Nat.eqb_refl in Hwrite.
  cbn [w_calls app] in Hwrite.
  assert (out = Uint64_le_bytes (zlen enc) ++ enc) as -> by congruence.
  rewrite <- app_assoc in Hr. pose proof (proto_roundtrip _ _ Henc) as Hm.
  destruct (ReadMessage_refines r) as (allocs & r' & Heq & _ & Hrest).
  rewrite Hr, (message_outcome_write enc m) in Heq, Hrest by done.
  destruct (Hrest m eq_refl) as [Hr' He']. exists allocs, r'. split_and!; [done| |done].
  rewrite Hr', Hr. unfold message_consumed, Uint64_le, Uint64_le_bytes.
  rewrite ztake_app_eq, le_val_bytes by done. pose proof (zlen_nonneg enc).
  change MaxMessageSize with 134217728 in Hl. rewrite Z.mod_small by lia.
  unfold to_int64. rewrite wrap_s_id, app_assoc by lia.
  apply (zdrop_app_eq (8 + zlen enc)). by rewrite zlen_app.
Qed.
End MessageFacts.

(** A codec for single bytes, to evaluate the message functions at. *)
#[local] Instance byte_message : ProtoMessage byte := {|
  proto_Marshal b := inl [b];
  proto_Size _ := 1;
  proto_Unmarshal b := match b with [x] => inl x | _ => inr (Foreign 0) end;
  proto_Size_exact := ltac:(by intros ?? [= <-]);
  proto_roundtrip := ltac:(by intros ?? [= <-])
|}.

Lemma message_roundtrip_witness :
  exists allocs r',
    ReadMessage (Reader [[x01; x00; x00]; [x00; x00; x00; x00; x00; x2a; x07]] true (Foreign 1))
      = (Ok x2a, allocs, r') /\ stream r' = [x07] /\ r_err r' = Foreign 1.
Proof.
  apply (message_roundtrip x2a [x01; x00; x00; x00; x00; x00; x00; x00; x2a]
    (Reader [[x01; x00; x00]; [x00; x00; x00; x00; x00; x2a; x07]] true (Foreign 1)) [x07]);
    reflexivity.
Defined.
