(* ===== verification/Message.v ===== *)
(** * internal/protocol: what a generated message is

    A generated message is a struct of hidden fields and one presence word.
    The runtime's operations on that word are the class [Presence], with the
    behaviour the protobuf runtime documents for them; [word_presence] is the
    word of bits that satisfies it.  A field is seen through its accessors
    ([accessor]); [message_ok] says what they promise to each other: a
    well-formedness of the struct that every operation keeps, what a Get or
    Has returns after each operation, and that a field's operations leave
    the other fields alone.  [EtMessages] and [TerminalMessages] have the
    structs and methods. *)

From S2P Require Export Prelude.
Local Open Scope Z_scope.

(** ** Go's nil *)

(** A slice that can be nil. *)
Definition Slice (A : Type) : Type := option (list A).
Definition is_some {A} (o : option A) : bool := match o with Some _ => true | None => false end.
Lemma is_some_false {A} (o : option A) : is_some o = false -> o = None.
Proof. by destruct o. Qed.
(** [if v == nil { v = []byte{} }] *)
Definition not_nil {A} (v : Slice A) : Slice A := Some (default [] v).

(** ** The presence word *)

(** [protoimpl.X.Present], [SetPresent] and [ClearPresent] on the one word of a
    message; the size is for the race detector only. *)
Class Presence := {
  Present : Z -> Z -> bool;
  SetPresent : Z -> Z -> Z -> Z;
  ClearPresent : Z -> Z -> Z;
  Present_zero n : Present 0 n = false;
  Present_set p n size m : 0 <= n < 32 -> 0 <= m < 32 ->
    Present (SetPresent p n size) m = (m =? n) || Present p m;
  Present_clear p n m : 0 <= n < 32 -> 0 <= m < 32 ->
    Present (ClearPresent p n) m = negb (m =? n) && Present p m
}.

(** Bit [n] of the word. *)
Definition word_presence : Presence.
Proof.
  refine {| Present p n := Z.testbit p n; SetPresent p n _ := Z.setbit p n; ClearPresent p n := Z.clearbit p n |}.
  - apply Z.testbit_0_l.
  - intros p n size m Hn Hm. rewrite Z.setbit_eqb by lia. by rewrite Z.eqb_sym.
  - intros p n m Hn Hm. rewrite Z.clearbit_eqb. rewrite (Z.eqb_sym n m). by rewrite andb_comm.
Defined.

(** ** Accessors *)

(** A field with presence: its four methods, what Get returns when it is
    absent, what Get returns after a Set of [v], and whether it is present
    then.  A repeated or map field has no presence. *)
Inductive accessor (M : Type) : Type :=
| Optional (T : Type) (get : option M -> T) (set : T -> M -> M) (has : option M -> bool) (clear : M -> M)
    (zero : T) (stored : T -> T) (present : T -> bool)
| Plain (T : Type) (get : option M -> option T) (set : option T -> M -> M).
Arguments Optional {M T}.
Arguments Plain {M T}.

Section Messages.
Context {M : Type} (new : M) (wf : M -> Prop).

(** A field without presence reads nil on a new message and on nil. *)
Definition plain_ok {T} (get : option M -> option T) (set : option T -> M -> M) : Prop :=
  (forall m v, wf m -> wf (set v m)) /\ get None = None /\ get (Some new) = None /\
  (forall m v, get (Some (set v m)) = v).

Definition accessor_ok (a : accessor M) : Prop :=
  match a with
  | Optional get set has clear zero stored present =>
      (forall m v, wf m -> wf (set v m)) /\ (forall m, wf m -> wf (clear m)) /\
      get None = zero /\ has None = false /\ has (Some new) = false /\
      (forall m v, has (Some (set v m)) = present v /\ get (Some (set v m)) = stored v) /\
      (forall m, has (Some (clear m)) = false) /\
      (forall m, wf m -> has (Some m) = false -> get (Some m) = zero)
  | Plain get set => plain_ok get set
  end.

(** [m'] is [m] after an operation of the field. *)
Definition written (a : accessor M) (m m' : M) : Prop :=
  match a with
  | Optional _ set _ clear _ _ _ => (exists v, m' = set v m) \/ m' = clear m
  | Plain _ set => exists v, m' = set v m
  end.

(** The field reads the same. *)
Definition unchanged (a : accessor M) (m m' : M) : Prop :=
  match a with
  | Optional get _ has _ _ _ _ => get (Some m') = get (Some m) /\ has (Some m') = has (Some m)
  | Plain get _ => get (Some m') = get (Some m)
  end.

Definition independent (a b : accessor M) : Prop := forall m m', written a m m' -> unchanged b m m'.

Fixpoint pairwise (fs : list (accessor M)) : Prop :=
  match fs with
  | [] => True
  | a :: fs => Forall (fun b => independent a b /\ independent b a) fs /\ pairwise fs
  end.

Definition message_ok (fs : list (accessor M)) : Prop :=
  wf new /\ Forall accessor_ok fs /\ pairwise fs.
End Messages.

(** A field of a well-formed message as an optional value. *)
Definition as_option {M T} (get : option M -> T) (has : option M -> bool) (m : M) : option T :=
  if has (Some m) then Some (get (Some m)) else None.

(** ** Automation *)

(** Evaluate a presence bit of literal positions. *)
Ltac presence :=
  repeat match goal with
  | |- context [Present (SetPresent _ _ _) _] => rewrite Present_set by lia
  | |- context [Present (ClearPresent _ _) _] => rewrite Present_clear by lia
  | |- context [Present 0 _] => rewrite Present_zero
  | H : context [Present (SetPresent _ _ _) _] |- _ => rewrite Present_set in H by lia
  | H : context [Present (ClearPresent _ _) _] |- _ => rewrite Present_clear in H by lia
  end; cbn [Z.eqb Pos.eqb orb andb negb] in *.

(** [message_ok] of a generated message: one goal per field and per pair of
    fields, each decided by evaluating the methods on the struct's fields and
    the bits of its presence word. *)
Ltac message_ok_by unfold_all :=
  unfold message_ok, accessor_ok, plain_ok, pairwise, independent, written, unchanged; unfold_all;
  repeat (apply List.Forall_cons || apply List.Forall_nil || apply conj || intro); cbn in *;
  repeat match goal with
  | H : _ /\ _ |- _ => destruct H
  | H : exists _, _ |- _ => destruct H
  | H : _ \/ _ |- _ => destruct H
  end;
  subst; cbn in *; presence; try done; auto;
  repeat match goal with
  | H : ?P = false -> _, H' : ?P = false |- _ => specialize (H H')
  | H : is_some _ = false |- _ => apply is_some_false in H
  | H : _ = None |- _ => rewrite H
  | H : Present _ _ = false |- _ => rewrite H
  end; done.
