(* ===== verification/EtMessages.v ===== *)
(** * internal/protocol/ET.pb.go: the messages of the connection

    Each struct with its getters, setters, presence tests and builder, as
    generated.  A string field is a pointer, a bytes field a slice that can
    be nil; Get and Has accept a nil message. *)

From S2P Require Export Message.
Local Open Scope Z_scope.

(** ** Enums *)

Definition EtPacketType_HEARTBEAT : Z := 254.
Definition EtPacketType_INITIAL_PAYLOAD : Z := 253.
Definition EtPacketType_INITIAL_RESPONSE : Z := 252.
Definition EtPacketType_name : gmap Z bytes := list_to_map [
  (254, bs "HEARTBEAT");
  (253, bs "INITIAL_PAYLOAD");
  (252, bs "INITIAL_RESPONSE")].
Definition EtPacketType_value : gmap bytes Z := list_to_map [
  (bs "HEARTBEAT", 254);
  (bs "INITIAL_PAYLOAD", 253);
  (bs "INITIAL_RESPONSE", 252)].

Definition ConnectStatus_NEW_CLIENT : Z := 1.
Definition ConnectStatus_RETURNING_CLIENT : Z := 2.
Definition ConnectStatus_INVALID_KEY : Z := 3.
Definition ConnectStatus_MISMATCHED_PROTOCOL : Z := 4.
Definition ConnectStatus_name : gmap Z bytes := list_to_map [
  (1, bs "NEW_CLIENT");
  (2, bs "RETURNING_CLIENT");
  (3, bs "INVALID_KEY");
  (4, bs "MISMATCHED_PROTOCOL")].
Definition ConnectStatus_value : gmap bytes Z := list_to_map [
  (bs "NEW_CLIENT", 1);
  (bs "RETURNING_CLIENT", 2);
  (bs "INVALID_KEY", 3);
  (bs "MISMATCHED_PROTOCOL", 4)].

Section Messages.
Context `{Presence}.

(** ** ConnectRequest *)

Record ConnectRequest_struct := ConnectRequest_of {
  ConnectRequest_hidden_ClientId : option bytes;
  ConnectRequest_hidden_Version : Z;
  ConnectRequest_presence : Z
}.
Definition ConnectRequest_new : ConnectRequest_struct := ConnectRequest_of None 0 0.
Definition ConnectRequest_Reset (x : ConnectRequest_struct) : ConnectRequest_struct :=
  ConnectRequest_new.
Definition ConnectRequest_put_ClientId (v : option bytes) (x : ConnectRequest_struct)
  : ConnectRequest_struct :=
  ConnectRequest_of v (ConnectRequest_hidden_Version x) (ConnectRequest_presence x).
Definition ConnectRequest_put_Version (v : Z) (x : ConnectRequest_struct) : ConnectRequest_struct :=
  ConnectRequest_of (ConnectRequest_hidden_ClientId x) v (ConnectRequest_presence x).
Definition ConnectRequest_put_presence (v : Z) (x : ConnectRequest_struct) : ConnectRequest_struct :=
  ConnectRequest_of (ConnectRequest_hidden_ClientId x) (ConnectRequest_hidden_Version x) v.
Definition ConnectRequest_GetClientId (x : option ConnectRequest_struct) : bytes :=
  match x with
  | Some x => match ConnectRequest_hidden_ClientId x with Some v => v | None => [] end
  | None => []
  end.
Definition ConnectRequest_GetVersion (x : option ConnectRequest_struct) : Z :=
  match x with
  | Some x => ConnectRequest_hidden_Version x
  | None => 0
  end.
Definition ConnectRequest_SetClientId (v : bytes) (x : ConnectRequest_struct) : ConnectRequest_struct :=
  let x := ConnectRequest_put_ClientId (Some v) x in
  ConnectRequest_put_presence (SetPresent (ConnectRequest_presence x) 0 2) x.
Definition ConnectRequest_SetVersion (v : Z) (x : ConnectRequest_struct) : ConnectRequest_struct :=
  let x := ConnectRequest_put_Version v x in
  ConnectRequest_put_presence (SetPresent (ConnectRequest_presence x) 1 2) x.
Definition ConnectRequest_HasClientId (x : option ConnectRequest_struct) : bool :=
  match x with
  | Some x => Present (ConnectRequest_presence x) 0
  | None => false
  end.
Definition ConnectRequest_HasVersion (x : option ConnectRequest_struct) : bool :=
  match x with
  | Some x => Present (ConnectRequest_presence x) 1
  | None => false
  end.
Definition ConnectRequest_ClearClientId (x : ConnectRequest_struct) : ConnectRequest_struct :=
  ConnectRequest_put_ClientId None 
    (ConnectRequest_put_presence (ClearPresent (ConnectRequest_presence x) 0) x).
Definition ConnectRequest_ClearVersion (x : ConnectRequest_struct) : ConnectRequest_struct :=
  ConnectRequest_put_Version 0 
    (ConnectRequest_put_presence (ClearPresent (ConnectRequest_presence x) 1) x).
Record ConnectRequest_builder := ConnectRequest_builder_of {
  ConnectRequest_b_ClientId : option bytes;
  ConnectRequest_b_Version : option Z
}.
Definition ConnectRequest_Build (b : ConnectRequest_builder) : ConnectRequest_struct :=
  let x := ConnectRequest_new in
  let x := match ConnectRequest_b_ClientId b with
    | Some v => ConnectRequest_put_ClientId (Some v)
        (ConnectRequest_put_presence (SetPresent (ConnectRequest_presence x) 0 2) x)
    | None => x
    end in
  let x := match ConnectRequest_b_Version b with
    | Some v => ConnectRequest_put_Version v
        (ConnectRequest_put_presence (SetPresent (ConnectRequest_presence x) 1 2) x)
    | None => x
    end in
  x.

(** An absent field that its getter does not check for holds the zero value. *)
Definition ConnectRequest_wf (x : ConnectRequest_struct) : Prop :=
  (Present (ConnectRequest_presence x) 0 = false -> ConnectRequest_hidden_ClientId x = None) /\
  (Present (ConnectRequest_presence x) 1 = false -> ConnectRequest_hidden_Version x = 0).
Definition ConnectRequest_fields : list (accessor ConnectRequest_struct) := [
  Optional ConnectRequest_GetClientId ConnectRequest_SetClientId ConnectRequest_HasClientId
      ConnectRequest_ClearClientId [] id (fun _ => true);
  Optional ConnectRequest_GetVersion ConnectRequest_SetVersion ConnectRequest_HasVersion
      ConnectRequest_ClearVersion 0 id (fun _ => true)].

(** ** ConnectResponse *)

Record ConnectResponse_struct := ConnectResponse_of {
  ConnectResponse_hidden_Status : Z;
  ConnectResponse_hidden_Error : option bytes;
  ConnectResponse_presence : Z
}.
Definition ConnectResponse_new : ConnectResponse_struct := ConnectResponse_of 0 None 0.
Definition ConnectResponse_Reset (x : ConnectResponse_struct) : ConnectResponse_struct :=
  ConnectResponse_new.
Definition ConnectResponse_put_Status (v : Z) (x : ConnectResponse_struct) : ConnectResponse_struct :=
  ConnectResponse_of v (ConnectResponse_hidden_Error x) (ConnectResponse_presence x).
Definition ConnectResponse_put_Error (v : option bytes) (x : ConnectResponse_struct)
  : ConnectResponse_struct :=
  ConnectResponse_of (ConnectResponse_hidden_Status x) v (ConnectResponse_presence x).
Definition ConnectResponse_put_presence (v : Z) (x : ConnectResponse_struct) : ConnectResponse_struct :=
  ConnectResponse_of (ConnectResponse_hidden_Status x) (ConnectResponse_hidden_Error x) v.
Definition ConnectResponse_GetStatus (x : option ConnectResponse_struct) : Z :=
  match x with
  | Some x => if Present (ConnectResponse_presence x) 0 then ConnectResponse_hidden_Status x
            else ConnectStatus_NEW_CLIENT
  | None => ConnectStatus_NEW_CLIENT
  end.
Definition ConnectResponse_GetError (x : option ConnectResponse_struct) : bytes :=
  match x with
  | Some x => match ConnectResponse_hidden_Error x with Some v => v | None => [] end
  | None => []
  end.
Definition ConnectResponse_SetStatus (v : Z) (x : ConnectResponse_struct) : ConnectResponse_struct :=
  let x := ConnectResponse_put_Status v x in
  ConnectResponse_put_presence (SetPresent (ConnectResponse_presence x) 0 2) x.
Definition ConnectResponse_SetError (v : bytes) (x : ConnectResponse_struct) : ConnectResponse_struct :=
  let x := ConnectResponse_put_Error (Some v) x in
  ConnectResponse_put_presence (SetPresent (ConnectResponse_presence x) 1 2) x.
Definition ConnectResponse_HasStatus (x : option ConnectResponse_struct) : bool :=
  match x with
  | Some x => Present (ConnectResponse_presence x) 0
  | None => false
  end.
Definition ConnectResponse_HasError (x : option ConnectResponse_struct) : bool :=
  match x with
  | Some x => Present (ConnectResponse_presence x) 1
  | None => false
  end.
Definition ConnectResponse_ClearStatus (x : ConnectResponse_struct) : ConnectResponse_struct :=
  ConnectResponse_put_Status ConnectStatus_NEW_CLIENT 
    (ConnectResponse_put_presence (ClearPresent (ConnectResponse_presence x) 0) x).
Definition ConnectResponse_ClearError (x : ConnectResponse_struct) : ConnectResponse_struct :=
  ConnectResponse_put_Error None 
    (ConnectResponse_put_presence (ClearPresent (ConnectResponse_presence x) 1) x).
Record ConnectResponse_builder := ConnectResponse_builder_of {
  ConnectResponse_b_Status : option Z;
  ConnectResponse_b_Error : option bytes
}.
Definition ConnectResponse_Build (b : ConnectResponse_builder) : ConnectResponse_struct :=
  let x := ConnectResponse_new in
  let x := match ConnectResponse_b_Status b with
    | Some v => ConnectResponse_put_Status v
        (ConnectResponse_put_presence (SetPresent (ConnectResponse_presence x) 0 2) x)
    | None => x
    end in
  let x := match ConnectResponse_b_Error b with
    | Some v => ConnectResponse_put_Error (Some v)
        (ConnectResponse_put_presence (SetPresent (ConnectResponse_presence x) 1 2) x)
    | None => x
    end in
  x.

Definition ConnectResponse_wf (x : ConnectResponse_struct) : Prop :=
  (Present (ConnectResponse_presence x) 1 = false -> ConnectResponse_hidden_Error x = None).
Definition ConnectResponse_fields : list (accessor ConnectResponse_struct) := [
  Optional ConnectResponse_GetStatus ConnectResponse_SetStatus ConnectResponse_HasStatus
      ConnectResponse_ClearStatus ConnectStatus_NEW_CLIENT id (fun _ => true);
  Optional ConnectResponse_GetError ConnectResponse_SetError ConnectResponse_HasError
      ConnectResponse_ClearError [] id (fun _ => true)].

(** ** SequenceHeader *)

Record SequenceHeader_struct := SequenceHeader_of {
  SequenceHeader_hidden_SequenceNumber : Z;
  SequenceHeader_presence : Z
}.
Definition SequenceHeader_new : SequenceHeader_struct := SequenceHeader_of 0 0.
Definition SequenceHeader_Reset (x : SequenceHeader_struct) : SequenceHeader_struct :=
  SequenceHeader_new.
Definition SequenceHeader_put_SequenceNumber (v : Z) (x : SequenceHeader_struct) : SequenceHeader_struct :=
  SequenceHeader_of v (SequenceHeader_presence x).
Definition SequenceHeader_put_presence (v : Z) (x : SequenceHeader_struct) : SequenceHeader_struct :=
  SequenceHeader_of (SequenceHeader_hidden_SequenceNumber x) v.
Definition SequenceHeader_GetSequenceNumber (x : option SequenceHeader_struct) : Z :=
  match x with
  | Some x => SequenceHeader_hidden_SequenceNumber x
  | None => 0
  end.
Definition SequenceHeader_SetSequenceNumber (v : Z) (x : SequenceHeader_struct) : SequenceHeader_struct :=
  let x := SequenceHeader_put_SequenceNumber v x in
  SequenceHeader_put_presence (SetPresent (SequenceHeader_presence x) 0 1) x.
Definition SequenceHeader_HasSequenceNumber (x : option SequenceHeader_struct) : bool :=
  match x with
  | Some x => Present (SequenceHeader_presence x) 0
  | None => false
  end.
Definition SequenceHeader_ClearSequenceNumber (x : SequenceHeader_struct) : SequenceHeader_struct :=
  SequenceHeader_put_SequenceNumber 0 
    (SequenceHeader_put_presence (ClearPresent (SequenceHeader_presence x) 0) x).
Record SequenceHeader_builder := SequenceHeader_builder_of {
  SequenceHeader_b_SequenceNumber : option Z
}.
Definition SequenceHeader_Build (b : SequenceHeader_builder) : SequenceHeader_struct :=
  let x := SequenceHeader_new in
  let x := match SequenceHeader_b_SequenceNumber b with
    | Some v => SequenceHeader_put_SequenceNumber v
        (SequenceHeader_put_presence (SetPresent (SequenceHeader_presence x) 0 1) x)
    | None => x
    end in
  x.

Definition SequenceHeader_wf (x : SequenceHeader_struct) : Prop :=
  (Present (SequenceHeader_presence x) 0 = false -> SequenceHeader_hidden_SequenceNumber x = 0).
Definition SequenceHeader_fields : list (accessor SequenceHeader_struct) := [
  Optional SequenceHeader_GetSequenceNumber SequenceHeader_SetSequenceNumber
      SequenceHeader_HasSequenceNumber SequenceHeader_ClearSequenceNumber 0 id (fun _ => true)].

(** ** CatchupBuffer *)

Record CatchupBuffer_struct := CatchupBuffer_of {
  CatchupBuffer_hidden_Buffer : Slice (Slice byte)
}.
Definition CatchupBuffer_new : CatchupBuffer_struct := CatchupBuffer_of None.
Definition CatchupBuffer_Reset (x : CatchupBuffer_struct) : CatchupBuffer_struct :=
  CatchupBuffer_new.
Definition CatchupBuffer_put_Buffer (v : Slice (Slice byte)) (x : CatchupBuffer_struct)
  : CatchupBuffer_struct :=
  CatchupBuffer_of v.
Definition CatchupBuffer_GetBuffer (x : option CatchupBuffer_struct) : Slice (Slice byte) :=
  match x with
  | Some x => CatchupBuffer_hidden_Buffer x
  | None => None
  end.
Definition CatchupBuffer_SetBuffer (v : Slice (Slice byte)) (x : CatchupBuffer_struct)
  : CatchupBuffer_struct :=
  CatchupBuffer_put_Buffer v x.
Record CatchupBuffer_builder := CatchupBuffer_builder_of {
  CatchupBuffer_b_Buffer : Slice (Slice byte)
}.
Definition CatchupBuffer_Build (b : CatchupBuffer_builder) : CatchupBuffer_struct :=
  let x := CatchupBuffer_new in
  let x := CatchupBuffer_put_Buffer (CatchupBuffer_b_Buffer b) x in
  x.

Definition CatchupBuffer_wf (x : CatchupBuffer_struct) : Prop :=
  True.
Definition CatchupBuffer_fields : list (accessor CatchupBuffer_struct) := [
  Plain CatchupBuffer_GetBuffer CatchupBuffer_SetBuffer].

(** ** SocketEndpoint *)

Record SocketEndpoint_struct := SocketEndpoint_of {
  SocketEndpoint_hidden_Name : option bytes;
  SocketEndpoint_hidden_Port : Z;
  SocketEndpoint_presence : Z
}.
Definition SocketEndpoint_new : SocketEndpoint_struct := SocketEndpoint_of None 0 0.
Definition SocketEndpoint_Reset (x : SocketEndpoint_struct) : SocketEndpoint_struct :=
  SocketEndpoint_new.
Definition SocketEndpoint_put_Name (v : option bytes) (x : SocketEndpoint_struct) : SocketEndpoint_struct :=
  SocketEndpoint_of v (SocketEndpoint_hidden_Port x) (SocketEndpoint_presence x).
Definition SocketEndpoint_put_Port (v : Z) (x : SocketEndpoint_struct) : SocketEndpoint_struct :=
  SocketEndpoint_of (SocketEndpoint_hidden_Name x) v (SocketEndpoint_presence x).
Definition SocketEndpoint_put_presence (v : Z) (x : SocketEndpoint_struct) : SocketEndpoint_struct :=
  SocketEndpoint_of (SocketEndpoint_hidden_Name x) (SocketEndpoint_hidden_Port x) v.
Definition SocketEndpoint_GetName (x : option SocketEndpoint_struct) : bytes :=
  match x with
  | Some x => match SocketEndpoint_hidden_Name x with Some v => v | None => [] end
  | None => []
  end.
Definition SocketEndpoint_GetPort (x : option SocketEndpoint_struct) : Z :=
  match x with
  | Some x => SocketEndpoint_hidden_Port x
  | None => 0
  end.
Definition SocketEndpoint_SetName (v : bytes) (x : SocketEndpoint_struct) : SocketEndpoint_struct :=
  let x := SocketEndpoint_put_Name (Some v) x in
  SocketEndpoint_put_presence (SetPresent (SocketEndpoint_presence x) 0 2) x.
Definition SocketEndpoint_SetPort (v : Z) (x : SocketEndpoint_struct) : SocketEndpoint_struct :=
  let x := SocketEndpoint_put_Port v x in
  SocketEndpoint_put_presence (SetPresent (SocketEndpoint_presence x) 1 2) x.
Definition SocketEndpoint_HasName (x : option SocketEndpoint_struct) : bool :=
  match x with
  | Some x => Present (SocketEndpoint_presence x) 0
  | None => false
  end.
Definition SocketEndpoint_HasPort (x : option SocketEndpoint_struct) : bool :=
  match x with
  | Some x => Present (SocketEndpoint_presence x) 1
  | None => false
  end.
Definition SocketEndpoint_ClearName (x : SocketEndpoint_struct) : SocketEndpoint_struct :=
  SocketEndpoint_put_Name None 
    (SocketEndpoint_put_presence (ClearPresent (SocketEndpoint_presence x) 0) x).
Definition SocketEndpoint_ClearPort (x : SocketEndpoint_struct) : SocketEndpoint_struct :=
  SocketEndpoint_put_Port 0 
    (SocketEndpoint_put_presence (ClearPresent (SocketEndpoint_presence x) 1) x).
Record SocketEndpoint_builder := SocketEndpoint_builder_of {
  SocketEndpoint_b_Name : option bytes;
  SocketEndpoint_b_Port : option Z
}.
Definition SocketEndpoint_Build (b : SocketEndpoint_builder) : SocketEndpoint_struct :=
  let x := SocketEndpoint_new in
  let x := match SocketEndpoint_b_Name b with
    | Some v => SocketEndpoint_put_Name (Some v)
        (SocketEndpoint_put_presence (SetPresent (SocketEndpoint_presence x) 0 2) x)
    | None => x
    end in
  let x := match SocketEndpoint_b_Port b with
    | Some v => SocketEndpoint_put_Port v
        (SocketEndpoint_put_presence (SetPresent (SocketEndpoint_presence x) 1 2) x)
    | None => x
    end in
  x.

Definition SocketEndpoint_wf (x : SocketEndpoint_struct) : Prop :=
  (Present (SocketEndpoint_presence x) 0 = false -> SocketEndpoint_hidden_Name x = None) /\
  (Present (SocketEndpoint_presence x) 1 = false -> SocketEndpoint_hidden_Port x = 0).
Definition SocketEndpoint_fields : list (accessor SocketEndpoint_struct) := [
  Optional SocketEndpoint_GetName SocketEndpoint_SetName SocketEndpoint_HasName SocketEndpoint_ClearName []
      id (fun _ => true);
  Optional SocketEndpoint_GetPort SocketEndpoint_SetPort SocketEndpoint_HasPort SocketEndpoint_ClearPort 0
      id (fun _ => true)].

(** ** The accessors of each message, and its builder as Sets *)

Lemma ConnectRequest_ok : message_ok ConnectRequest_new ConnectRequest_wf ConnectRequest_fields.
Proof. message_ok_by ltac:(unfold ConnectRequest_fields, ConnectRequest_wf). Qed.

Lemma ConnectRequest_Build_sets (b : ConnectRequest_builder) :
  ConnectRequest_Build b =
  let x := ConnectRequest_new in
  let x := match ConnectRequest_b_ClientId b with Some v => ConnectRequest_SetClientId v x | None => x end in
  let x := match ConnectRequest_b_Version b with Some v => ConnectRequest_SetVersion v x | None => x end in
  x.
Proof. unfold ConnectRequest_Build. repeat case_match; done. Qed.

Lemma ConnectResponse_ok : message_ok ConnectResponse_new ConnectResponse_wf ConnectResponse_fields.
Proof. message_ok_by ltac:(unfold ConnectResponse_fields, ConnectResponse_wf). Qed.

Lemma ConnectResponse_Build_sets (b : ConnectResponse_builder) :
  ConnectResponse_Build b =
  let x := ConnectResponse_new in
  let x := match ConnectResponse_b_Status b with Some v => ConnectResponse_SetStatus v x | None => x end in
  let x := match ConnectResponse_b_Error b with Some v => ConnectResponse_SetError v x | None => x end in
  x.
Proof. unfold ConnectResponse_Build. repeat case_match; done. Qed.

Lemma SequenceHeader_ok : message_ok SequenceHeader_new SequenceHeader_wf SequenceHeader_fields.
Proof. message_ok_by ltac:(unfold SequenceHeader_fields, SequenceHeader_wf). Qed.

Lemma SequenceHeader_Build_sets (b : SequenceHeader_builder) :
  SequenceHeader_Build b =
  let x := SequenceHeader_new in
  let x := match SequenceHeader_b_SequenceNumber b with Some v => SequenceHeader_SetSequenceNumber v x |
      None => x end in
  x.
Proof. unfold SequenceHeader_Build. repeat case_match; done. Qed.

Lemma CatchupBuffer_ok : message_ok CatchupBuffer_new CatchupBuffer_wf CatchupBuffer_fields.
Proof. message_ok_by ltac:(unfold CatchupBuffer_fields, CatchupBuffer_wf). Qed.

Lemma CatchupBuffer_Build_sets (b : CatchupBuffer_builder) :
  CatchupBuffer_Build b =
  let x := CatchupBuffer_new in
  let x := CatchupBuffer_SetBuffer (CatchupBuffer_b_Buffer b) x in
  x.
Proof. unfold CatchupBuffer_Build. repeat case_match; done. Qed.

Lemma SocketEndpoint_ok : message_ok SocketEndpoint_new SocketEndpoint_wf SocketEndpoint_fields.
Proof. message_ok_by ltac:(unfold SocketEndpoint_fields, SocketEndpoint_wf). Qed.

Lemma SocketEndpoint_Build_sets (b : SocketEndpoint_builder) :
  SocketEndpoint_Build b =
  let x := SocketEndpoint_new in
  let x := match SocketEndpoint_b_Name b with Some v => SocketEndpoint_SetName v x | None => x end in
  let x := match SocketEndpoint_b_Port b with Some v => SocketEndpoint_SetPort v x | None => x end in
  x.
Proof. unfold SocketEndpoint_Build. repeat case_match; done. Qed.

End Messages.
