(* ===== verification/TerminalMessages.v ===== *)
(** * internal/protocol/ETerminal.pb.go: the messages of the terminal

    The same for the messages of a session: terminal data, port forwarding,
    the start handshake and the server's own. *)

From S2P Require Export EtMessages.
Local Open Scope Z_scope.

(** ** TerminalPacketType *)

Definition TerminalPacketType_KEEP_ALIVE : Z := 0.
Definition TerminalPacketType_TERMINAL_BUFFER : Z := 1.
Definition TerminalPacketType_TERMINAL_INFO : Z := 2.
Definition TerminalPacketType_PORT_FORWARD_DESTINATION_REQUEST : Z := 5.
Definition TerminalPacketType_PORT_FORWARD_DESTINATION_RESPONSE : Z := 6.
Definition TerminalPacketType_PORT_FORWARD_DATA : Z := 7.
Definition TerminalPacketType_TERMINAL_USER_INFO : Z := 8.
Definition TerminalPacketType_TERMINAL_INIT : Z := 9.
Definition TerminalPacketType_JUMPHOST_INIT : Z := 10.
Definition TerminalPacketType_TERMINAL_CLOSE : Z := 11.
Definition TerminalPacketType_TERMINAL_EXIT_STATUS : Z := 12.
Definition TerminalPacketType_name : gmap Z bytes := list_to_map [
  (0, bs "KEEP_ALIVE");
  (1, bs "TERMINAL_BUFFER");
  (2, bs "TERMINAL_INFO");
  (5, bs "PORT_FORWARD_DESTINATION_REQUEST");
  (6, bs "PORT_FORWARD_DESTINATION_RESPONSE");
  (7, bs "PORT_FORWARD_DATA");
  (8, bs "TERMINAL_USER_INFO");
  (9, bs "TERMINAL_INIT");
  (10, bs "JUMPHOST_INIT");
  (11, bs "TERMINAL_CLOSE");
  (12, bs "TERMINAL_EXIT_STATUS")].
Definition TerminalPacketType_value : gmap bytes Z := list_to_map [
  (bs "KEEP_ALIVE", 0);
  (bs "TERMINAL_BUFFER", 1);
  (bs "TERMINAL_INFO", 2);
  (bs "PORT_FORWARD_DESTINATION_REQUEST", 5);
  (bs "PORT_FORWARD_DESTINATION_RESPONSE", 6);
  (bs "PORT_FORWARD_DATA", 7);
  (bs "TERMINAL_USER_INFO", 8);
  (bs "TERMINAL_INIT", 9);
  (bs "JUMPHOST_INIT", 10);
  (bs "TERMINAL_CLOSE", 11);
  (bs "TERMINAL_EXIT_STATUS", 12)].

Section Messages.
Context `{Presence}.

(** ** TerminalBuffer *)

Record TerminalBuffer_struct := TerminalBuffer_of {
  TerminalBuffer_hidden_Buffer : Slice byte;
  TerminalBuffer_hidden_IsStderr : bool;
  TerminalBuffer_presence : Z
}.
Definition TerminalBuffer_new : TerminalBuffer_struct := TerminalBuffer_of None false 0.
Definition TerminalBuffer_Reset (x : TerminalBuffer_struct) : TerminalBuffer_struct :=
  TerminalBuffer_new.
Definition TerminalBuffer_put_Buffer (v : Slice byte) (x : TerminalBuffer_struct) : TerminalBuffer_struct :=
  TerminalBuffer_of v (TerminalBuffer_hidden_IsStderr x) (TerminalBuffer_presence x).
Definition TerminalBuffer_put_IsStderr (v : bool) (x : TerminalBuffer_struct) : TerminalBuffer_struct :=
  TerminalBuffer_of (TerminalBuffer_hidden_Buffer x) v (TerminalBuffer_presence x).
Definition TerminalBuffer_put_presence (v : Z) (x : TerminalBuffer_struct) : TerminalBuffer_struct :=
  TerminalBuffer_of (TerminalBuffer_hidden_Buffer x) (TerminalBuffer_hidden_IsStderr x) v.
Definition Default_TerminalBuffer_IsStderr : bool := false.
Definition TerminalBuffer_GetBuffer (x : option TerminalBuffer_struct) : Slice byte :=
  match x with
  | Some x => TerminalBuffer_hidden_Buffer x
  | None => None
  end.
Definition TerminalBuffer_GetIsStderr (x : option TerminalBuffer_struct) : bool :=
  match x with
  | Some x => if Present (TerminalBuffer_presence x) 1 then TerminalBuffer_hidden_IsStderr x
            else Default_TerminalBuffer_IsStderr
  | None => Default_TerminalBuffer_IsStderr
  end.
Definition TerminalBuffer_SetBuffer (v : Slice byte) (x : TerminalBuffer_struct) : TerminalBuffer_struct :=
  let x := TerminalBuffer_put_Buffer (not_nil v) x in
  TerminalBuffer_put_presence (SetPresent (TerminalBuffer_presence x) 0 2) x.
Definition TerminalBuffer_SetIsStderr (v : bool) (x : TerminalBuffer_struct) : TerminalBuffer_struct :=
  let x := TerminalBuffer_put_IsStderr v x in
  TerminalBuffer_put_presence (SetPresent (TerminalBuffer_presence x) 1 2) x.
Definition TerminalBuffer_HasBuffer (x : option TerminalBuffer_struct) : bool :=
  match x with
  | Some x => Present (TerminalBuffer_presence x) 0
  | None => false
  end.
Definition TerminalBuffer_HasIsStderr (x : option TerminalBuffer_struct) : bool :=
  match x with
  | Some x => Present (TerminalBuffer_presence x) 1
  | None => false
  end.
Definition TerminalBuffer_ClearBuffer (x : TerminalBuffer_struct) : TerminalBuffer_struct :=
  TerminalBuffer_put_Buffer None 
    (TerminalBuffer_put_presence (ClearPresent (TerminalBuffer_presence x) 0) x).
Definition TerminalBuffer_ClearIsStderr (x : TerminalBuffer_struct) : TerminalBuffer_struct :=
  TerminalBuffer_put_presence (ClearPresent (TerminalBuffer_presence x) 1) x.
Record TerminalBuffer_builder := TerminalBuffer_builder_of {
  TerminalBuffer_b_Buffer : Slice byte;
  TerminalBuffer_b_IsStderr : option bool
}.
Definition TerminalBuffer_Build (b : TerminalBuffer_builder) : TerminalBuffer_struct :=
  let x := TerminalBuffer_new in
  let x := match TerminalBuffer_b_Buffer b with
    | Some v => TerminalBuffer_put_Buffer (Some v)
        (TerminalBuffer_put_presence (SetPresent (TerminalBuffer_presence x) 0 2) x)
    | None => x
    end in
  let x := match TerminalBuffer_b_IsStderr b with
    | Some v => TerminalBuffer_put_IsStderr v
        (TerminalBuffer_put_presence (SetPresent (TerminalBuffer_presence x) 1 2) x)
    | None => x
    end in
  x.

(** An absent field that its getter does not check for holds the zero value. *)
Definition TerminalBuffer_wf (x : TerminalBuffer_struct) : Prop :=
  (Present (TerminalBuffer_presence x) 0 = false -> TerminalBuffer_hidden_Buffer x = None).
Definition TerminalBuffer_fields : list (accessor TerminalBuffer_struct) := [
  Optional TerminalBuffer_GetBuffer TerminalBuffer_SetBuffer TerminalBuffer_HasBuffer
      TerminalBuffer_ClearBuffer None not_nil (fun _ => true);
  Optional TerminalBuffer_GetIsStderr TerminalBuffer_SetIsStderr TerminalBuffer_HasIsStderr
      TerminalBuffer_ClearIsStderr Default_TerminalBuffer_IsStderr id (fun _ => true)].

(** ** TerminalExitStatus *)

Record TerminalExitStatus_struct := TerminalExitStatus_of {
  TerminalExitStatus_hidden_Exitcode : Z;
  TerminalExitStatus_presence : Z
}.
Definition TerminalExitStatus_new : TerminalExitStatus_struct := TerminalExitStatus_of 0 0.
Definition TerminalExitStatus_Reset (x : TerminalExitStatus_struct) : TerminalExitStatus_struct :=
  TerminalExitStatus_new.
Definition TerminalExitStatus_put_Exitcode (v : Z) (x : TerminalExitStatus_struct)
  : TerminalExitStatus_struct :=
  TerminalExitStatus_of v (TerminalExitStatus_presence x).
Definition TerminalExitStatus_put_presence (v : Z) (x : TerminalExitStatus_struct)
  : TerminalExitStatus_struct :=
  TerminalExitStatus_of (TerminalExitStatus_hidden_Exitcode x) v.
Definition TerminalExitStatus_GetExitcode (x : option TerminalExitStatus_struct) : Z :=
  match x with
  | Some x => TerminalExitStatus_hidden_Exitcode x
  | None => 0
  end.
Definition TerminalExitStatus_SetExitcode (v : Z) (x : TerminalExitStatus_struct)
  : TerminalExitStatus_struct :=
  let x := TerminalExitStatus_put_Exitcode v x in
  TerminalExitStatus_put_presence (SetPresent (TerminalExitStatus_presence x) 0 1) x.
Definition TerminalExitStatus_HasExitcode (x : option TerminalExitStatus_struct) : bool :=
  match x with
  | Some x => Present (TerminalExitStatus_presence x) 0
  | None => false
  end.
Definition TerminalExitStatus_ClearExitcode (x : TerminalExitStatus_struct) : TerminalExitStatus_struct :=
  TerminalExitStatus_put_Exitcode 0 
    (TerminalExitStatus_put_presence (ClearPresent (TerminalExitStatus_presence x) 0) x).
Record TerminalExitStatus_builder := TerminalExitStatus_builder_of {
  TerminalExitStatus_b_Exitcode : option Z
}.
Definition TerminalExitStatus_Build (b : TerminalExitStatus_builder) : TerminalExitStatus_struct :=
  let x := TerminalExitStatus_new in
  let x := match TerminalExitStatus_b_Exitcode b with
    | Some v => TerminalExitStatus_put_Exitcode v
        (TerminalExitStatus_put_presence (SetPresent (TerminalExitStatus_presence x) 0 1) x)
    | None => x
    end in
  x.

Definition TerminalExitStatus_wf (x : TerminalExitStatus_struct) : Prop :=
  (Present (TerminalExitStatus_presence x) 0 = false -> TerminalExitStatus_hidden_Exitcode x = 0).
Definition TerminalExitStatus_fields : list (accessor TerminalExitStatus_struct) := [
  Optional TerminalExitStatus_GetExitcode TerminalExitStatus_SetExitcode TerminalExitStatus_HasExitcode
      TerminalExitStatus_ClearExitcode 0 id (fun _ => true)].

(** ** TerminalInfo *)

Record TerminalInfo_struct := TerminalInfo_of {
  TerminalInfo_hidden_Id : option bytes;
  TerminalInfo_hidden_Row : Z;
  TerminalInfo_hidden_Column : Z;
  TerminalInfo_hidden_Width : Z;
  TerminalInfo_hidden_Height : Z;
  TerminalInfo_presence : Z
}.
Definition TerminalInfo_new : TerminalInfo_struct := TerminalInfo_of None 0 0 0 0 0.
Definition TerminalInfo_Reset (x : TerminalInfo_struct) : TerminalInfo_struct := TerminalInfo_new.
Definition TerminalInfo_put_Id (v : option bytes) (x : TerminalInfo_struct) : TerminalInfo_struct :=
  TerminalInfo_of v (TerminalInfo_hidden_Row x) (TerminalInfo_hidden_Column x) (TerminalInfo_hidden_Width x)
      (TerminalInfo_hidden_Height x) (TerminalInfo_presence x).
Definition TerminalInfo_put_Row (v : Z) (x : TerminalInfo_struct) : TerminalInfo_struct :=
  TerminalInfo_of (TerminalInfo_hidden_Id x) v (TerminalInfo_hidden_Column x) (TerminalInfo_hidden_Width x)
      (TerminalInfo_hidden_Height x) (TerminalInfo_presence x).
Definition TerminalInfo_put_Column (v : Z) (x : TerminalInfo_struct) : TerminalInfo_struct :=
  TerminalInfo_of (TerminalInfo_hidden_Id x) (TerminalInfo_hidden_Row x) v (TerminalInfo_hidden_Width x)
      (TerminalInfo_hidden_Height x) (TerminalInfo_presence x).
Definition TerminalInfo_put_Width (v : Z) (x : TerminalInfo_struct) : TerminalInfo_struct :=
  TerminalInfo_of (TerminalInfo_hidden_Id x) (TerminalInfo_hidden_Row x) (TerminalInfo_hidden_Column x) v
      (TerminalInfo_hidden_Height x) (TerminalInfo_presence x).
Definition TerminalInfo_put_Height (v : Z) (x : TerminalInfo_struct) : TerminalInfo_struct :=
  TerminalInfo_of (TerminalInfo_hidden_Id x) (TerminalInfo_hidden_Row x) (TerminalInfo_hidden_Column x)
      (TerminalInfo_hidden_Width x) v (TerminalInfo_presence x).
Definition TerminalInfo_put_presence (v : Z) (x : TerminalInfo_struct) : TerminalInfo_struct :=
  TerminalInfo_of (TerminalInfo_hidden_Id x) (TerminalInfo_hidden_Row x) (TerminalInfo_hidden_Column x)
      (TerminalInfo_hidden_Width x) (TerminalInfo_hidden_Height x) v.
Definition TerminalInfo_GetId (x : option TerminalInfo_struct) : bytes :=
  match x with
  | Some x => match TerminalInfo_hidden_Id x with Some v => v | None => [] end
  | None => []
  end.
Definition TerminalInfo_GetRow (x : option TerminalInfo_struct) : Z :=
  match x with
  | Some x => TerminalInfo_hidden_Row x
  | None => 0
  end.
Definition TerminalInfo_GetColumn (x : option TerminalInfo_struct) : Z :=
  match x with
  | Some x => TerminalInfo_hidden_Column x
  | None => 0
  end.
Definition TerminalInfo_GetWidth (x : option TerminalInfo_struct) : Z :=
  match x with
  | Some x => TerminalInfo_hidden_Width x
  | None => 0
  end.
Definition TerminalInfo_GetHeight (x : option TerminalInfo_struct) : Z :=
  match x with
  | Some x => TerminalInfo_hidden_Height x
  | None => 0
  end.
Definition TerminalInfo_SetId (v : bytes) (x : TerminalInfo_struct) : TerminalInfo_struct :=
  let x := TerminalInfo_put_Id (Some v) x in
  TerminalInfo_put_presence (SetPresent (TerminalInfo_presence x) 0 5) x.
Definition TerminalInfo_SetRow (v : Z) (x : TerminalInfo_struct) : TerminalInfo_struct :=
  let x := TerminalInfo_put_Row v x in
  TerminalInfo_put_presence (SetPresent (TerminalInfo_presence x) 1 5) x.
Definition TerminalInfo_SetColumn (v : Z) (x : TerminalInfo_struct) : TerminalInfo_struct :=
  let x := TerminalInfo_put_Column v x in
  TerminalInfo_put_presence (SetPresent (TerminalInfo_presence x) 2 5) x.
Definition TerminalInfo_SetWidth (v : Z) (x : TerminalInfo_struct) : TerminalInfo_struct :=
  let x := TerminalInfo_put_Width v x in
  TerminalInfo_put_presence (SetPresent (TerminalInfo_presence x) 3 5) x.
Definition TerminalInfo_SetHeight (v : Z) (x : TerminalInfo_struct) : TerminalInfo_struct :=
  let x := TerminalInfo_put_Height v x in
  TerminalInfo_put_presence (SetPresent (TerminalInfo_presence x) 4 5) x.
Definition TerminalInfo_HasId (x : option TerminalInfo_struct) : bool :=
  match x with
  | Some x => Present (TerminalInfo_presence x) 0
  | None => false
  end.
Definition TerminalInfo_HasRow (x : option TerminalInfo_struct) : bool :=
  match x with
  | Some x => Present (TerminalInfo_presence x) 1
  | None => false
  end.
Definition TerminalInfo_HasColumn (x : option TerminalInfo_struct) : bool :=
  match x with
  | Some x => Present (TerminalInfo_presence x) 2
  | None => false
  end.
Definition TerminalInfo_HasWidth (x : option TerminalInfo_struct) : bool :=
  match x with
  | Some x => Present (TerminalInfo_presence x) 3
  | None => false
  end.
Definition TerminalInfo_HasHeight (x : option TerminalInfo_struct) : bool :=
  match x with
  | Some x => Present (TerminalInfo_presence x) 4
  | None => false
  end.
Definition TerminalInfo_ClearId (x : TerminalInfo_struct) : TerminalInfo_struct :=
  TerminalInfo_put_Id None 
    (TerminalInfo_put_presence (ClearPresent (TerminalInfo_presence x) 0) x).
Definition TerminalInfo_ClearRow (x : TerminalInfo_struct) : TerminalInfo_struct :=
  TerminalInfo_put_Row 0 
    (TerminalInfo_put_presence (ClearPresent (TerminalInfo_presence x) 1) x).
Definition TerminalInfo_ClearColumn (x : TerminalInfo_struct) : TerminalInfo_struct :=
  TerminalInfo_put_Column 0 
    (TerminalInfo_put_presence (ClearPresent (TerminalInfo_presence x) 2) x).
Definition TerminalInfo_ClearWidth (x : TerminalInfo_struct) : TerminalInfo_struct :=
  TerminalInfo_put_Width 0 
    (TerminalInfo_put_presence (ClearPresent (TerminalInfo_presence x) 3) x).
Definition TerminalInfo_ClearHeight (x : TerminalInfo_struct) : TerminalInfo_struct :=
  TerminalInfo_put_Height 0 
    (TerminalInfo_put_presence (ClearPresent (TerminalInfo_presence x) 4) x).
Record TerminalInfo_builder := TerminalInfo_builder_of {
  TerminalInfo_b_Id : option bytes;
  TerminalInfo_b_Row : option Z;
  TerminalInfo_b_Column : option Z;
  TerminalInfo_b_Width : option Z;
  TerminalInfo_b_Height : option Z
}.
Definition TerminalInfo_Build (b : TerminalInfo_builder) : TerminalInfo_struct :=
  let x := TerminalInfo_new in
  let x := match TerminalInfo_b_Id b with
    | Some v => TerminalInfo_put_Id (Some v)
        (TerminalInfo_put_presence (SetPresent (TerminalInfo_presence x) 0 5) x)
    | None => x
    end in
  let x := match TerminalInfo_b_Row b with
    | Some v => TerminalInfo_put_Row v
        (TerminalInfo_put_presence (SetPresent (TerminalInfo_presence x) 1 5) x)
    | None => x
    end in
  let x := match TerminalInfo_b_Column b with
    | Some v => TerminalInfo_put_Column v
        (TerminalInfo_put_presence (SetPresent (TerminalInfo_presence x) 2 5) x)
    | None => x
    end in
  let x := match TerminalInfo_b_Width b with
    | Some v => TerminalInfo_put_Width v
        (TerminalInfo_put_presence (SetPresent (TerminalInfo_presence x) 3 5) x)
    | None => x
    end in
  let x := match TerminalInfo_b_Height b with
    | Some v => TerminalInfo_put_Height v
        (TerminalInfo_put_presence (SetPresent (TerminalInfo_presence x) 4 5) x)
    | None => x
    end in
  x.

Definition TerminalInfo_wf (x : TerminalInfo_struct) : Prop :=
  (Present (TerminalInfo_presence x) 0 = false -> TerminalInfo_hidden_Id x = None) /\
  (Present (TerminalInfo_presence x) 1 = false -> TerminalInfo_hidden_Row x = 0) /\
  (Present (TerminalInfo_presence x) 2 = false -> TerminalInfo_hidden_Column x = 0) /\
  (Present (TerminalInfo_presence x) 3 = false -> TerminalInfo_hidden_Width x = 0) /\
  (Present (TerminalInfo_presence x) 4 = false -> TerminalInfo_hidden_Height x = 0).
Definition TerminalInfo_fields : list (accessor TerminalInfo_struct) := [
  Optional TerminalInfo_GetId TerminalInfo_SetId TerminalInfo_HasId TerminalInfo_ClearId [] id (fun _ =>
      true);
  Optional TerminalInfo_GetRow TerminalInfo_SetRow TerminalInfo_HasRow TerminalInfo_ClearRow 0 id (fun _ =>
      true);
  Optional TerminalInfo_GetColumn TerminalInfo_SetColumn TerminalInfo_HasColumn TerminalInfo_ClearColumn 0
      id (fun _ => true);
  Optional TerminalInfo_GetWidth TerminalInfo_SetWidth TerminalInfo_HasWidth TerminalInfo_ClearWidth 0 id
      (fun _ => true);
  Optional TerminalInfo_GetHeight TerminalInfo_SetHeight TerminalInfo_HasHeight TerminalInfo_ClearHeight 0
      id (fun _ => true)].

(** ** PortForwardSourceRequest *)

Record PortForwardSourceRequest_struct := PortForwardSourceRequest_of {
  PortForwardSourceRequest_hidden_Source : option SocketEndpoint_struct;
  PortForwardSourceRequest_hidden_Destination : option SocketEndpoint_struct;
  PortForwardSourceRequest_hidden_Environmentvariable : option bytes;
  PortForwardSourceRequest_presence : Z
}.
Definition PortForwardSourceRequest_new : PortForwardSourceRequest_struct :=
  PortForwardSourceRequest_of None None None 0.
Definition PortForwardSourceRequest_Reset (x : PortForwardSourceRequest_struct)
  : PortForwardSourceRequest_struct :=
  PortForwardSourceRequest_new.
Definition PortForwardSourceRequest_put_Source (v : option SocketEndpoint_struct) (x :
    PortForwardSourceRequest_struct) : PortForwardSourceRequest_struct :=
  PortForwardSourceRequest_of v (PortForwardSourceRequest_hidden_Destination x)
      (PortForwardSourceRequest_hidden_Environmentvariable x) (PortForwardSourceRequest_presence x).
Definition PortForwardSourceRequest_put_Destination (v : option SocketEndpoint_struct) (x :
    PortForwardSourceRequest_struct) : PortForwardSourceRequest_struct :=
  PortForwardSourceRequest_of (PortForwardSourceRequest_hidden_Source x) v
      (PortForwardSourceRequest_hidden_Environmentvariable x) (PortForwardSourceRequest_presence x).
Definition PortForwardSourceRequest_put_Environmentvariable (v : option bytes) (x :
    PortForwardSourceRequest_struct) : PortForwardSourceRequest_struct :=
  PortForwardSourceRequest_of (PortForwardSourceRequest_hidden_Source x)
      (PortForwardSourceRequest_hidden_Destination x) v (PortForwardSourceRequest_presence x).
Definition PortForwardSourceRequest_put_presence (v : Z) (x : PortForwardSourceRequest_struct)
  : PortForwardSourceRequest_struct :=
  PortForwardSourceRequest_of (PortForwardSourceRequest_hidden_Source x)
      (PortForwardSourceRequest_hidden_Destination x) (PortForwardSourceRequest_hidden_Environmentvariable
      x) v.
Definition PortForwardSourceRequest_GetSource (x : option PortForwardSourceRequest_struct) : option
    SocketEndpoint_struct :=
  match x with
  | Some x => PortForwardSourceRequest_hidden_Source x
  | None => None
  end.
Definition PortForwardSourceRequest_GetDestination (x : option PortForwardSourceRequest_struct) : option
    SocketEndpoint_struct :=
  match x with
  | Some x => PortForwardSourceRequest_hidden_Destination x
  | None => None
  end.
Definition PortForwardSourceRequest_GetEnvironmentvariable (x : option PortForwardSourceRequest_struct)
  : bytes :=
  match x with
  | Some x => match PortForwardSourceRequest_hidden_Environmentvariable x with Some v => v | None => [] end
  | None => []
  end.
Definition PortForwardSourceRequest_SetSource (v : option SocketEndpoint_struct) (x :
    PortForwardSourceRequest_struct) : PortForwardSourceRequest_struct :=
  PortForwardSourceRequest_put_Source v x.
Definition PortForwardSourceRequest_SetDestination (v : option SocketEndpoint_struct) (x :
    PortForwardSourceRequest_struct) : PortForwardSourceRequest_struct :=
  PortForwardSourceRequest_put_Destination v x.
Definition PortForwardSourceRequest_SetEnvironmentvariable (v : bytes) (x : PortForwardSourceRequest_struct)
  : PortForwardSourceRequest_struct :=
  let x := PortForwardSourceRequest_put_Environmentvariable (Some v) x in
  PortForwardSourceRequest_put_presence (SetPresent (PortForwardSourceRequest_presence x) 2 3) x.
Definition PortForwardSourceRequest_HasSource (x : option PortForwardSourceRequest_struct) : bool :=
  match x with
  | Some x => is_some (PortForwardSourceRequest_hidden_Source x)
  | None => false
  end.
Definition PortForwardSourceRequest_HasDestination (x : option PortForwardSourceRequest_struct) : bool :=
  match x with
  | Some x => is_some (PortForwardSourceRequest_hidden_Destination x)
  | None => false
  end.
Definition PortForwardSourceRequest_HasEnvironmentvariable (x : option PortForwardSourceRequest_struct)
  : bool :=
  match x with
  | Some x => Present (PortForwardSourceRequest_presence x) 2
  | None => false
  end.
Definition PortForwardSourceRequest_ClearSource (x : PortForwardSourceRequest_struct)
  : PortForwardSourceRequest_struct :=
  PortForwardSourceRequest_put_Source None x.
Definition PortForwardSourceRequest_ClearDestination (x : PortForwardSourceRequest_struct)
  : PortForwardSourceRequest_struct :=
  PortForwardSourceRequest_put_Destination None x.
Definition PortForwardSourceRequest_ClearEnvironmentvariable (x : PortForwardSourceRequest_struct)
  : PortForwardSourceRequest_struct :=
  PortForwardSourceRequest_put_Environmentvariable None 
    (PortForwardSourceRequest_put_presence (ClearPresent (PortForwardSourceRequest_presence x) 2) x).
Record PortForwardSourceRequest_builder := PortForwardSourceRequest_builder_of {
  PortForwardSourceRequest_b_Source : option SocketEndpoint_struct;
  PortForwardSourceRequest_b_Destination : option SocketEndpoint_struct;
  PortForwardSourceRequest_b_Environmentvariable : option bytes
}.
Definition PortForwardSourceRequest_Build (b : PortForwardSourceRequest_builder)
  : PortForwardSourceRequest_struct :=
  let x := PortForwardSourceRequest_new in
  let x := PortForwardSourceRequest_put_Source (PortForwardSourceRequest_b_Source b) x in
  let x := PortForwardSourceRequest_put_Destination (PortForwardSourceRequest_b_Destination b) x in
  let x := match PortForwardSourceRequest_b_Environmentvariable b with
    | Some v => PortForwardSourceRequest_put_Environmentvariable (Some v)
        (PortForwardSourceRequest_put_presence (SetPresent (PortForwardSourceRequest_presence x) 2 3) x)
    | None => x
    end in
  x.

Definition PortForwardSourceRequest_wf (x : PortForwardSourceRequest_struct) : Prop :=
  (Present (PortForwardSourceRequest_presence x) 2 = false ->
      PortForwardSourceRequest_hidden_Environmentvariable x = None).
Definition PortForwardSourceRequest_fields : list (accessor PortForwardSourceRequest_struct) := [
  Optional PortForwardSourceRequest_GetSource PortForwardSourceRequest_SetSource
      PortForwardSourceRequest_HasSource PortForwardSourceRequest_ClearSource None id is_some;
  Optional PortForwardSourceRequest_GetDestination PortForwardSourceRequest_SetDestination
      PortForwardSourceRequest_HasDestination PortForwardSourceRequest_ClearDestination None id is_some;
  Optional PortForwardSourceRequest_GetEnvironmentvariable PortForwardSourceRequest_SetEnvironmentvariable
      PortForwardSourceRequest_HasEnvironmentvariable PortForwardSourceRequest_ClearEnvironmentvariable []
      id (fun _ => true)].

(** ** PortForwardSourceResponse *)

Record PortForwardSourceResponse_struct := PortForwardSourceResponse_of {
  PortForwardSourceResponse_hidden_Error : option bytes;
  PortForwardSourceResponse_presence : Z
}.
Definition PortForwardSourceResponse_new : PortForwardSourceResponse_struct :=
  PortForwardSourceResponse_of None 0.
Definition PortForwardSourceResponse_Reset (x : PortForwardSourceResponse_struct)
  : PortForwardSourceResponse_struct :=
  PortForwardSourceResponse_new.
Definition PortForwardSourceResponse_put_Error (v : option bytes) (x : PortForwardSourceResponse_struct)
  : PortForwardSourceResponse_struct :=
  PortForwardSourceResponse_of v (PortForwardSourceResponse_presence x).
Definition PortForwardSourceResponse_put_presence (v : Z) (x : PortForwardSourceResponse_struct)
  : PortForwardSourceResponse_struct :=
  PortForwardSourceResponse_of (PortForwardSourceResponse_hidden_Error x) v.
Definition PortForwardSourceResponse_GetError (x : option PortForwardSourceResponse_struct) : bytes :=
  match x with
  | Some x => match PortForwardSourceResponse_hidden_Error x with Some v => v | None => [] end
  | None => []
  end.
Definition PortForwardSourceResponse_SetError (v : bytes) (x : PortForwardSourceResponse_struct)
  : PortForwardSourceResponse_struct :=
  let x := PortForwardSourceResponse_put_Error (Some v) x in
  PortForwardSourceResponse_put_presence (SetPresent (PortForwardSourceResponse_presence x) 0 1) x.
Definition PortForwardSourceResponse_HasError (x : option PortForwardSourceResponse_struct) : bool :=
  match x with
  | Some x => Present (PortForwardSourceResponse_presence x) 0
  | None => false
  end.
Definition PortForwardSourceResponse_ClearError (x : PortForwardSourceResponse_struct)
  : PortForwardSourceResponse_struct :=
  PortForwardSourceResponse_put_Error None 
    (PortForwardSourceResponse_put_presence (ClearPresent (PortForwardSourceResponse_presence x) 0) x).
Record PortForwardSourceResponse_builder := PortForwardSourceResponse_builder_of {
  PortForwardSourceResponse_b_Error : option bytes
}.
Definition PortForwardSourceResponse_Build (b : PortForwardSourceResponse_builder)
  : PortForwardSourceResponse_struct :=
  let x := PortForwardSourceResponse_new in
  let x := match PortForwardSourceResponse_b_Error b with
    | Some v => PortForwardSourceResponse_put_Error (Some v)
        (PortForwardSourceResponse_put_presence (SetPresent (PortForwardSourceResponse_presence x) 0 1) x)
    | None => x
    end in
  x.

Definition PortForwardSourceResponse_wf (x : PortForwardSourceResponse_struct) : Prop :=
  (Present (PortForwardSourceResponse_presence x) 0 = false -> PortForwardSourceResponse_hidden_Error x =
      None).
Definition PortForwardSourceResponse_fields : list (accessor PortForwardSourceResponse_struct) := [
  Optional PortForwardSourceResponse_GetError PortForwardSourceResponse_SetError
      PortForwardSourceResponse_HasError PortForwardSourceResponse_ClearError [] id (fun _ => true)].

(** ** PortForwardDestinationRequest *)

Record PortForwardDestinationRequest_struct := PortForwardDestinationRequest_of {
  PortForwardDestinationRequest_hidden_Destination : option SocketEndpoint_struct;
  PortForwardDestinationRequest_hidden_Fd : Z;
  PortForwardDestinationRequest_presence : Z
}.
Definition PortForwardDestinationRequest_new : PortForwardDestinationRequest_struct :=
  PortForwardDestinationRequest_of None 0 0.
Definition PortForwardDestinationRequest_Reset (x : PortForwardDestinationRequest_struct)
  : PortForwardDestinationRequest_struct :=
  PortForwardDestinationRequest_new.
Definition PortForwardDestinationRequest_put_Destination (v : option SocketEndpoint_struct) (x :
    PortForwardDestinationRequest_struct) : PortForwardDestinationRequest_struct :=
  PortForwardDestinationRequest_of v (PortForwardDestinationRequest_hidden_Fd x)
      (PortForwardDestinationRequest_presence x).
Definition PortForwardDestinationRequest_put_Fd (v : Z) (x : PortForwardDestinationRequest_struct)
  : PortForwardDestinationRequest_struct :=
  PortForwardDestinationRequest_of (PortForwardDestinationRequest_hidden_Destination x) v
      (PortForwardDestinationRequest_presence x).
Definition PortForwardDestinationRequest_put_presence (v : Z) (x : PortForwardDestinationRequest_struct)
  : PortForwardDestinationRequest_struct :=
  PortForwardDestinationRequest_of (PortForwardDestinationRequest_hidden_Destination x)
      (PortForwardDestinationRequest_hidden_Fd x) v.
Definition PortForwardDestinationRequest_GetDestination (x : option PortForwardDestinationRequest_struct) :
    option SocketEndpoint_struct :=
  match x with
  | Some x => PortForwardDestinationRequest_hidden_Destination x
  | None => None
  end.
Definition PortForwardDestinationRequest_GetFd (x : option PortForwardDestinationRequest_struct) : Z :=
  match x with
  | Some x => PortForwardDestinationRequest_hidden_Fd x
  | None => 0
  end.
Definition PortForwardDestinationRequest_SetDestination (v : option SocketEndpoint_struct) (x :
    PortForwardDestinationRequest_struct) : PortForwardDestinationRequest_struct :=
  PortForwardDestinationRequest_put_Destination v x.
Definition PortForwardDestinationRequest_SetFd (v : Z) (x : PortForwardDestinationRequest_struct)
  : PortForwardDestinationRequest_struct :=
  let x := PortForwardDestinationRequest_put_Fd v x in
  PortForwardDestinationRequest_put_presence (SetPresent (PortForwardDestinationRequest_presence x) 1 2) x.
Definition PortForwardDestinationRequest_HasDestination (x : option PortForwardDestinationRequest_struct)
  : bool :=
  match x with
  | Some x => is_some (PortForwardDestinationRequest_hidden_Destination x)
  | None => false
  end.
Definition PortForwardDestinationRequest_HasFd (x : option PortForwardDestinationRequest_struct) : bool :=
  match x with
  | Some x => Present (PortForwardDestinationRequest_presence x) 1
  | None => false
  end.
Definition PortForwardDestinationRequest_ClearDestination (x : PortForwardDestinationRequest_struct)
  : PortForwardDestinationRequest_struct :=
  PortForwardDestinationRequest_put_Destination None x.
Definition PortForwardDestinationRequest_ClearFd (x : PortForwardDestinationRequest_struct)
  : PortForwardDestinationRequest_struct :=
  PortForwardDestinationRequest_put_Fd 0 
    (PortForwardDestinationRequest_put_presence (ClearPresent (PortForwardDestinationRequest_presence x)
        1) x).
Record PortForwardDestinationRequest_builder := PortForwardDestinationRequest_builder_of {
  PortForwardDestinationRequest_b_Destination : option SocketEndpoint_struct;
  PortForwardDestinationRequest_b_Fd : option Z
}.
Definition PortForwardDestinationRequest_Build (b : PortForwardDestinationRequest_builder)
  : PortForwardDestinationRequest_struct :=
  let x := PortForwardDestinationRequest_new in
  let x := PortForwardDestinationRequest_put_Destination (PortForwardDestinationRequest_b_Destination b) x in
  let x := match PortForwardDestinationRequest_b_Fd b with
    | Some v => PortForwardDestinationRequest_put_Fd v
        (PortForwardDestinationRequest_put_presence (SetPresent
            (PortForwardDestinationRequest_presence x) 1 2) x)
    | None => x
    end in
  x.

Definition PortForwardDestinationRequest_wf (x : PortForwardDestinationRequest_struct) : Prop :=
  (Present (PortForwardDestinationRequest_presence x) 1 = false -> PortForwardDestinationRequest_hidden_Fd x
      = 0).
Definition PortForwardDestinationRequest_fields : list (accessor PortForwardDestinationRequest_struct) := [
  Optional PortForwardDestinationRequest_GetDestination PortForwardDestinationRequest_SetDestination
      PortForwardDestinationRequest_HasDestination PortForwardDestinationRequest_ClearDestination None id
      is_some;
  Optional PortForwardDestinationRequest_GetFd PortForwardDestinationRequest_SetFd
      PortForwardDestinationRequest_HasFd PortForwardDestinationRequest_ClearFd 0 id (fun _ => true)].

(** ** PortForwardDestinationResponse *)

Record PortForwardDestinationResponse_struct := PortForwardDestinationResponse_of {
  PortForwardDestinationResponse_hidden_Clientfd : Z;
  PortForwardDestinationResponse_hidden_Socketid : Z;
  PortForwardDestinationResponse_hidden_Error : option bytes;
  PortForwardDestinationResponse_presence : Z
}.
Definition PortForwardDestinationResponse_new : PortForwardDestinationResponse_struct :=
  PortForwardDestinationResponse_of 0 0 None 0.
Definition PortForwardDestinationResponse_Reset (x : PortForwardDestinationResponse_struct)
  : PortForwardDestinationResponse_struct :=
  PortForwardDestinationResponse_new.
Definition PortForwardDestinationResponse_put_Clientfd (v : Z) (x : PortForwardDestinationResponse_struct)
  : PortForwardDestinationResponse_struct :=
  PortForwardDestinationResponse_of v (PortForwardDestinationResponse_hidden_Socketid x)
      (PortForwardDestinationResponse_hidden_Error x) (PortForwardDestinationResponse_presence x).
Definition PortForwardDestinationResponse_put_Socketid (v : Z) (x : PortForwardDestinationResponse_struct)
  : PortForwardDestinationResponse_struct :=
  PortForwardDestinationResponse_of (PortForwardDestinationResponse_hidden_Clientfd x) v
      (PortForwardDestinationResponse_hidden_Error x) (PortForwardDestinationResponse_presence x).
Definition PortForwardDestinationResponse_put_Error (v : option bytes) (x :
    PortForwardDestinationResponse_struct) : PortForwardDestinationResponse_struct :=
  PortForwardDestinationResponse_of (PortForwardDestinationResponse_hidden_Clientfd x)
      (PortForwardDestinationResponse_hidden_Socketid x) v (PortForwardDestinationResponse_presence x).
Definition PortForwardDestinationResponse_put_presence (v : Z) (x : PortForwardDestinationResponse_struct)
  : PortForwardDestinationResponse_struct :=
  PortForwardDestinationResponse_of (PortForwardDestinationResponse_hidden_Clientfd x)
      (PortForwardDestinationResponse_hidden_Socketid x) (PortForwardDestinationResponse_hidden_Error x) v.
Definition PortForwardDestinationResponse_GetClientfd (x : option PortForwardDestinationResponse_struct)
  : Z :=
  match x with
  | Some x => PortForwardDestinationResponse_hidden_Clientfd x
  | None => 0
  end.
Definition PortForwardDestinationResponse_GetSocketid (x : option PortForwardDestinationResponse_struct)
  : Z :=
  match x with
  | Some x => PortForwardDestinationResponse_hidden_Socketid x
  | None => 0
  end.
Definition PortForwardDestinationResponse_GetError (x : option PortForwardDestinationResponse_struct)
  : bytes :=
  match x with
  | Some x => match PortForwardDestinationResponse_hidden_Error x with Some v => v | None => [] end
  | None => []
  end.
Definition PortForwardDestinationResponse_SetClientfd (v : Z) (x : PortForwardDestinationResponse_struct)
  : PortForwardDestinationResponse_struct :=
  let x := PortForwardDestinationResponse_put_Clientfd v x in
  PortForwardDestinationResponse_put_presence (SetPresent (PortForwardDestinationResponse_presence x) 0 3) x.
Definition PortForwardDestinationResponse_SetSocketid (v : Z) (x : PortForwardDestinationResponse_struct)
  : PortForwardDestinationResponse_struct :=
  let x := PortForwardDestinationResponse_put_Socketid v x in
  PortForwardDestinationResponse_put_presence (SetPresent (PortForwardDestinationResponse_presence x) 1 3) x.
Definition PortForwardDestinationResponse_SetError (v : bytes) (x : PortForwardDestinationResponse_struct)
  : PortForwardDestinationResponse_struct :=
  let x := PortForwardDestinationResponse_put_Error (Some v) x in
  PortForwardDestinationResponse_put_presence (SetPresent (PortForwardDestinationResponse_presence x) 2 3) x.
Definition PortForwardDestinationResponse_HasClientfd (x : option PortForwardDestinationResponse_struct)
  : bool :=
  match x with
  | Some x => Present (PortForwardDestinationResponse_presence x) 0
  | None => false
  end.
Definition PortForwardDestinationResponse_HasSocketid (x : option PortForwardDestinationResponse_struct)
  : bool :=
  match x with
  | Some x => Present (PortForwardDestinationResponse_presence x) 1
  | None => false
  end.
Definition PortForwardDestinationResponse_HasError (x : option PortForwardDestinationResponse_struct)
  : bool :=
  match x with
  | Some x => Present (PortForwardDestinationResponse_presence x) 2
  | None => false
  end.
Definition PortForwardDestinationResponse_ClearClientfd (x : PortForwardDestinationResponse_struct)
  : PortForwardDestinationResponse_struct :=
  PortForwardDestinationResponse_put_Clientfd 0 
    (PortForwardDestinationResponse_put_presence (ClearPresent (PortForwardDestinationResponse_presence x)
        0) x).
Definition PortForwardDestinationResponse_ClearSocketid (x : PortForwardDestinationResponse_struct)
  : PortForwardDestinationResponse_struct :=
  PortForwardDestinationResponse_put_Socketid 0 
    (PortForwardDestinationResponse_put_presence (ClearPresent (PortForwardDestinationResponse_presence x)
        1) x).
Definition PortForwardDestinationResponse_ClearError (x : PortForwardDestinationResponse_struct)
  : PortForwardDestinationResponse_struct :=
  PortForwardDestinationResponse_put_Error None 
    (PortForwardDestinationResponse_put_presence (ClearPresent (PortForwardDestinationResponse_presence x)
        2) x).
Record PortForwardDestinationResponse_builder := PortForwardDestinationResponse_builder_of {
  PortForwardDestinationResponse_b_Clientfd : option Z;
  PortForwardDestinationResponse_b_Socketid : option Z;
  PortForwardDestinationResponse_b_Error : option bytes
}.
Definition PortForwardDestinationResponse_Build (b : PortForwardDestinationResponse_builder)
  : PortForwardDestinationResponse_struct :=
  let x := PortForwardDestinationResponse_new in
  let x := match PortForwardDestinationResponse_b_Clientfd b with
    | Some v => PortForwardDestinationResponse_put_Clientfd v
        (PortForwardDestinationResponse_put_presence (SetPresent
            (PortForwardDestinationResponse_presence x) 0 3) x)
    | None => x
    end in
  let x := match PortForwardDestinationResponse_b_Socketid b with
    | Some v => PortForwardDestinationResponse_put_Socketid v
        (PortForwardDestinationResponse_put_presence (SetPresent
            (PortForwardDestinationResponse_presence x) 1 3) x)
    | None => x
    end in
  let x := match PortForwardDestinationResponse_b_Error b with
    | Some v => PortForwardDestinationResponse_put_Error (Some v)
        (PortForwardDestinationResponse_put_presence (SetPresent
            (PortForwardDestinationResponse_presence x) 2 3) x)
    | None => x
    end in
  x.

Definition PortForwardDestinationResponse_wf (x : PortForwardDestinationResponse_struct) : Prop :=
  (Present (PortForwardDestinationResponse_presence x) 0 = false ->
      PortForwardDestinationResponse_hidden_Clientfd x = 0) /\
  (Present (PortForwardDestinationResponse_presence x) 1 = false ->
      PortForwardDestinationResponse_hidden_Socketid x = 0) /\
  (Present (PortForwardDestinationResponse_presence x) 2 = false ->
      PortForwardDestinationResponse_hidden_Error x = None).
Definition PortForwardDestinationResponse_fields : list (accessor PortForwardDestinationResponse_struct) := [
  Optional PortForwardDestinationResponse_GetClientfd PortForwardDestinationResponse_SetClientfd
      PortForwardDestinationResponse_HasClientfd PortForwardDestinationResponse_ClearClientfd 0 id (fun _ =>
      true);
  Optional PortForwardDestinationResponse_GetSocketid PortForwardDestinationResponse_SetSocketid
      PortForwardDestinationResponse_HasSocketid PortForwardDestinationResponse_ClearSocketid 0 id (fun _ =>
      true);
  Optional PortForwardDestinationResponse_GetError PortForwardDestinationResponse_SetError
      PortForwardDestinationResponse_HasError PortForwardDestinationResponse_ClearError [] id (fun _ =>
      true)].

(** ** PortForwardData *)

Record PortForwardData_struct := PortForwardData_of {
  PortForwardData_hidden_Sourcetodestination : bool;
  PortForwardData_hidden_Socketid : Z;
  PortForwardData_hidden_Buffer : Slice byte;
  PortForwardData_hidden_Error : option bytes;
  PortForwardData_hidden_Closed : bool;
  PortForwardData_hidden_HalfClose : bool;
  PortForwardData_presence : Z
}.
Definition PortForwardData_new : PortForwardData_struct :=
  PortForwardData_of false 0 None None false false 0.
Definition PortForwardData_Reset (x : PortForwardData_struct) : PortForwardData_struct :=
  PortForwardData_new.
Definition PortForwardData_put_Sourcetodestination (v : bool) (x : PortForwardData_struct)
  : PortForwardData_struct :=
  PortForwardData_of v (PortForwardData_hidden_Socketid x) (PortForwardData_hidden_Buffer x)
      (PortForwardData_hidden_Error x) (PortForwardData_hidden_Closed x) (PortForwardData_hidden_HalfClose
      x) (PortForwardData_presence x).
Definition PortForwardData_put_Socketid (v : Z) (x : PortForwardData_struct) : PortForwardData_struct :=
  PortForwardData_of (PortForwardData_hidden_Sourcetodestination x) v (PortForwardData_hidden_Buffer x)
      (PortForwardData_hidden_Error x) (PortForwardData_hidden_Closed x) (PortForwardData_hidden_HalfClose
      x) (PortForwardData_presence x).
Definition PortForwardData_put_Buffer (v : Slice byte) (x : PortForwardData_struct)
  : PortForwardData_struct :=
  PortForwardData_of (PortForwardData_hidden_Sourcetodestination x) (PortForwardData_hidden_Socketid x) v
      (PortForwardData_hidden_Error x) (PortForwardData_hidden_Closed x) (PortForwardData_hidden_HalfClose
      x) (PortForwardData_presence x).
Definition PortForwardData_put_Error (v : option bytes) (x : PortForwardData_struct)
  : PortForwardData_struct :=
  PortForwardData_of (PortForwardData_hidden_Sourcetodestination x) (PortForwardData_hidden_Socketid x)
      (PortForwardData_hidden_Buffer x) v (PortForwardData_hidden_Closed x)
      (PortForwardData_hidden_HalfClose x) (PortForwardData_presence x).
Definition PortForwardData_put_Closed (v : bool) (x : PortForwardData_struct) : PortForwardData_struct :=
  PortForwardData_of (PortForwardData_hidden_Sourcetodestination x) (PortForwardData_hidden_Socketid x)
      (PortForwardData_hidden_Buffer x) (PortForwardData_hidden_Error x) v (PortForwardData_hidden_HalfClose
      x) (PortForwardData_presence x).
Definition PortForwardData_put_HalfClose (v : bool) (x : PortForwardData_struct) : PortForwardData_struct :=
  PortForwardData_of (PortForwardData_hidden_Sourcetodestination x) (PortForwardData_hidden_Socketid x)
      (PortForwardData_hidden_Buffer x) (PortForwardData_hidden_Error x) (PortForwardData_hidden_Closed x) v
      (PortForwardData_presence x).
Definition PortForwardData_put_presence (v : Z) (x : PortForwardData_struct) : PortForwardData_struct :=
  PortForwardData_of (PortForwardData_hidden_Sourcetodestination x) (PortForwardData_hidden_Socketid x)
      (PortForwardData_hidden_Buffer x) (PortForwardData_hidden_Error x) (PortForwardData_hidden_Closed x)
      (PortForwardData_hidden_HalfClose x) v.
Definition PortForwardData_GetSourcetodestination (x : option PortForwardData_struct) : bool :=
  match x with
  | Some x => PortForwardData_hidden_Sourcetodestination x
  | None => false
  end.
Definition PortForwardData_GetSocketid (x : option PortForwardData_struct) : Z :=
  match x with
  | Some x => PortForwardData_hidden_Socketid x
  | None => 0
  end.
Definition PortForwardData_GetBuffer (x : option PortForwardData_struct) : Slice byte :=
  match x with
  | Some x => PortForwardData_hidden_Buffer x
  | None => None
  end.
Definition PortForwardData_GetError (x : option PortForwardData_struct) : bytes :=
  match x with
  | Some x => match PortForwardData_hidden_Error x with Some v => v | None => [] end
  | None => []
  end.
Definition PortForwardData_GetClosed (x : option PortForwardData_struct) : bool :=
  match x with
  | Some x => PortForwardData_hidden_Closed x
  | None => false
  end.
Definition PortForwardData_GetHalfClose (x : option PortForwardData_struct) : bool :=
  match x with
  | Some x => PortForwardData_hidden_HalfClose x
  | None => false
  end.
Definition PortForwardData_SetSourcetodestination (v : bool) (x : PortForwardData_struct)
  : PortForwardData_struct :=
  let x := PortForwardData_put_Sourcetodestination v x in
  PortForwardData_put_presence (SetPresent (PortForwardData_presence x) 0 6) x.
Definition PortForwardData_SetSocketid (v : Z) (x : PortForwardData_struct) : PortForwardData_struct :=
  let x := PortForwardData_put_Socketid v x in
  PortForwardData_put_presence (SetPresent (PortForwardData_presence x) 1 6) x.
Definition PortForwardData_SetBuffer (v : Slice byte) (x : PortForwardData_struct) : PortForwardData_struct :=
  let x := PortForwardData_put_Buffer (not_nil v) x in
  PortForwardData_put_presence (SetPresent (PortForwardData_presence x) 2 6) x.
Definition PortForwardData_SetError (v : bytes) (x : PortForwardData_struct) : PortForwardData_struct :=
  let x := PortForwardData_put_Error (Some v) x in
  PortForwardData_put_presence (SetPresent (PortForwardData_presence x) 3 6) x.
Definition PortForwardData_SetClosed (v : bool) (x : PortForwardData_struct) : PortForwardData_struct :=
  let x := PortForwardData_put_Closed v x in
  PortForwardData_put_presence (SetPresent (PortForwardData_presence x) 4 6) x.
Definition PortForwardData_SetHalfClose (v : bool) (x : PortForwardData_struct) : PortForwardData_struct :=
  let x := PortForwardData_put_HalfClose v x in
  PortForwardData_put_presence (SetPresent (PortForwardData_presence x) 5 6) x.
Definition PortForwardData_HasSourcetodestination (x : option PortForwardData_struct) : bool :=
  match x with
  | Some x => Present (PortForwardData_presence x) 0
  | None => false
  end.
Definition PortForwardData_HasSocketid (x : option PortForwardData_struct) : bool :=
  match x with
  | Some x => Present (PortForwardData_presence x) 1
  | None => false
  end.
Definition PortForwardData_HasBuffer (x : option PortForwardData_struct) : bool :=
  match x with
  | Some x => Present (PortForwardData_presence x) 2
  | None => false
  end.
Definition PortForwardData_HasError (x : option PortForwardData_struct) : bool :=
  match x with
  | Some x => Present (PortForwardData_presence x) 3
  | None => false
  end.
Definition PortForwardData_HasClosed (x : option PortForwardData_struct) : bool :=
  match x with
  | Some x => Present (PortForwardData_presence x) 4
  | None => false
  end.
Definition PortForwardData_HasHalfClose (x : option PortForwardData_struct) : bool :=
  match x with
  | Some x => Present (PortForwardData_presence x) 5
  | None => false
  end.
Definition PortForwardData_ClearSourcetodestination (x : PortForwardData_struct) : PortForwardData_struct :=
  PortForwardData_put_Sourcetodestination false 
    (PortForwardData_put_presence (ClearPresent (PortForwardData_presence x) 0) x).
Definition PortForwardData_ClearSocketid (x : PortForwardData_struct) : PortForwardData_struct :=
  PortForwardData_put_Socketid 0 
    (PortForwardData_put_presence (ClearPresent (PortForwardData_presence x) 1) x).
Definition PortForwardData_ClearBuffer (x : PortForwardData_struct) : PortForwardData_struct :=
  PortForwardData_put_Buffer None 
    (PortForwardData_put_presence (ClearPresent (PortForwardData_presence x) 2) x).
Definition PortForwardData_ClearError (x : PortForwardData_struct) : PortForwardData_struct :=
  PortForwardData_put_Error None 
    (PortForwardData_put_presence (ClearPresent (PortForwardData_presence x) 3) x).
Definition PortForwardData_ClearClosed (x : PortForwardData_struct) : PortForwardData_struct :=
  PortForwardData_put_Closed false 
    (PortForwardData_put_presence (ClearPresent (PortForwardData_presence x) 4) x).
Definition PortForwardData_ClearHalfClose (x : PortForwardData_struct) : PortForwardData_struct :=
  PortForwardData_put_HalfClose false 
    (PortForwardData_put_presence (ClearPresent (PortForwardData_presence x) 5) x).
Record PortForwardData_builder := PortForwardData_builder_of {
  PortForwardData_b_Sourcetodestination : option bool;
  PortForwardData_b_Socketid : option Z;
  PortForwardData_b_Buffer : Slice byte;
  PortForwardData_b_Error : option bytes;
  PortForwardData_b_Closed : option bool;
  PortForwardData_b_HalfClose : option bool
}.
Definition PortForwardData_Build (b : PortForwardData_builder) : PortForwardData_struct :=
  let x := PortForwardData_new in
  let x := match PortForwardData_b_Sourcetodestination b with
    | Some v => PortForwardData_put_Sourcetodestination v
        (PortForwardData_put_presence (SetPresent (PortForwardData_presence x) 0 6) x)
    | None => x
    end in
  let x := match PortForwardData_b_Socketid b with
    | Some v => PortForwardData_put_Socketid v
        (PortForwardData_put_presence (SetPresent (PortForwardData_presence x) 1 6) x)
    | None => x
    end in
  let x := match PortForwardData_b_Buffer b with
    | Some v => PortForwardData_put_Buffer (Some v)
        (PortForwardData_put_presence (SetPresent (PortForwardData_presence x) 2 6) x)
    | None => x
    end in
  let x := match PortForwardData_b_Error b with
    | Some v => PortForwardData_put_Error (Some v)
        (PortForwardData_put_presence (SetPresent (PortForwardData_presence x) 3 6) x)
    | None => x
    end in
  let x := match PortForwardData_b_Closed b with
    | Some v => PortForwardData_put_Closed v
        (PortForwardData_put_presence (SetPresent (PortForwardData_presence x) 4 6) x)
    | None => x
    end in
  let x := match PortForwardData_b_HalfClose b with
    | Some v => PortForwardData_put_HalfClose v
        (PortForwardData_put_presence (SetPresent (PortForwardData_presence x) 5 6) x)
    | None => x
    end in
  x.

Definition PortForwardData_wf (x : PortForwardData_struct) : Prop :=
  (Present (PortForwardData_presence x) 0 = false -> PortForwardData_hidden_Sourcetodestination x = false) /\
  (Present (PortForwardData_presence x) 1 = false -> PortForwardData_hidden_Socketid x = 0) /\
  (Present (PortForwardData_presence x) 2 = false -> PortForwardData_hidden_Buffer x = None) /\
  (Present (PortForwardData_presence x) 3 = false -> PortForwardData_hidden_Error x = None) /\
  (Present (PortForwardData_presence x) 4 = false -> PortForwardData_hidden_Closed x = false) /\
  (Present (PortForwardData_presence x) 5 = false -> PortForwardData_hidden_HalfClose x = false).
Definition PortForwardData_fields : list (accessor PortForwardData_struct) := [
  Optional PortForwardData_GetSourcetodestination PortForwardData_SetSourcetodestination
      PortForwardData_HasSourcetodestination PortForwardData_ClearSourcetodestination false id (fun _ =>
      true);
  Optional PortForwardData_GetSocketid PortForwardData_SetSocketid PortForwardData_HasSocketid
      PortForwardData_ClearSocketid 0 id (fun _ => true);
  Optional PortForwardData_GetBuffer PortForwardData_SetBuffer PortForwardData_HasBuffer
      PortForwardData_ClearBuffer None not_nil (fun _ => true);
  Optional PortForwardData_GetError PortForwardData_SetError PortForwardData_HasError
      PortForwardData_ClearError [] id (fun _ => true);
  Optional PortForwardData_GetClosed PortForwardData_SetClosed PortForwardData_HasClosed
      PortForwardData_ClearClosed false id (fun _ => true);
  Optional PortForwardData_GetHalfClose PortForwardData_SetHalfClose PortForwardData_HasHalfClose
      PortForwardData_ClearHalfClose false id (fun _ => true)].

(** ** InitialPayload *)

Record InitialPayload_struct := InitialPayload_of {
  InitialPayload_hidden_Jumphost : bool;
  InitialPayload_hidden_Reversetunnels : option (Slice (option PortForwardSourceRequest_struct));
  InitialPayload_hidden_Environmentvariables : option (gmap bytes bytes);
  InitialPayload_hidden_NoPty : bool;
  InitialPayload_hidden_Command : option bytes;
  InitialPayload_hidden_SupportsExitStatus : bool;
  InitialPayload_hidden_NoShell : bool;
  InitialPayload_presence : Z
}.
Definition InitialPayload_new : InitialPayload_struct :=
  InitialPayload_of false None None false None false false 0.
Definition InitialPayload_Reset (x : InitialPayload_struct) : InitialPayload_struct :=
  InitialPayload_new.
Definition InitialPayload_put_Jumphost (v : bool) (x : InitialPayload_struct) : InitialPayload_struct :=
  InitialPayload_of v (InitialPayload_hidden_Reversetunnels x) (InitialPayload_hidden_Environmentvariables
      x) (InitialPayload_hidden_NoPty x) (InitialPayload_hidden_Command x)
      (InitialPayload_hidden_SupportsExitStatus x) (InitialPayload_hidden_NoShell x)
      (InitialPayload_presence x).
Definition InitialPayload_put_Reversetunnels (v : option (Slice (option PortForwardSourceRequest_struct))) (x
    : InitialPayload_struct) : InitialPayload_struct :=
  InitialPayload_of (InitialPayload_hidden_Jumphost x) v (InitialPayload_hidden_Environmentvariables x)
      (InitialPayload_hidden_NoPty x) (InitialPayload_hidden_Command x)
      (InitialPayload_hidden_SupportsExitStatus x) (InitialPayload_hidden_NoShell x)
      (InitialPayload_presence x).
Definition InitialPayload_put_Environmentvariables (v : option (gmap bytes bytes)) (x : InitialPayload_struct)
  : InitialPayload_struct :=
  InitialPayload_of (InitialPayload_hidden_Jumphost x) (InitialPayload_hidden_Reversetunnels x) v
      (InitialPayload_hidden_NoPty x) (InitialPayload_hidden_Command x)
      (InitialPayload_hidden_SupportsExitStatus x) (InitialPayload_hidden_NoShell x)
      (InitialPayload_presence x).
Definition InitialPayload_put_NoPty (v : bool) (x : InitialPayload_struct) : InitialPayload_struct :=
  InitialPayload_of (InitialPayload_hidden_Jumphost x) (InitialPayload_hidden_Reversetunnels x)
      (InitialPayload_hidden_Environmentvariables x) v (InitialPayload_hidden_Command x)
      (InitialPayload_hidden_SupportsExitStatus x) (InitialPayload_hidden_NoShell x)
      (InitialPayload_presence x).
Definition InitialPayload_put_Command (v : option bytes) (x : InitialPayload_struct)
  : InitialPayload_struct :=
  InitialPayload_of (InitialPayload_hidden_Jumphost x) (InitialPayload_hidden_Reversetunnels x)
      (InitialPayload_hidden_Environmentvariables x) (InitialPayload_hidden_NoPty x) v
      (InitialPayload_hidden_SupportsExitStatus x) (InitialPayload_hidden_NoShell x)
      (InitialPayload_presence x).
Definition InitialPayload_put_SupportsExitStatus (v : bool) (x : InitialPayload_struct)
  : InitialPayload_struct :=
  InitialPayload_of (InitialPayload_hidden_Jumphost x) (InitialPayload_hidden_Reversetunnels x)
      (InitialPayload_hidden_Environmentvariables x) (InitialPayload_hidden_NoPty x)
      (InitialPayload_hidden_Command x) v (InitialPayload_hidden_NoShell x) (InitialPayload_presence x).
Definition InitialPayload_put_NoShell (v : bool) (x : InitialPayload_struct) : InitialPayload_struct :=
  InitialPayload_of (InitialPayload_hidden_Jumphost x) (InitialPayload_hidden_Reversetunnels x)
      (InitialPayload_hidden_Environmentvariables x) (InitialPayload_hidden_NoPty x)
      (InitialPayload_hidden_Command x) (InitialPayload_hidden_SupportsExitStatus x) v
      (InitialPayload_presence x).
Definition InitialPayload_put_presence (v : Z) (x : InitialPayload_struct) : InitialPayload_struct :=
  InitialPayload_of (InitialPayload_hidden_Jumphost x) (InitialPayload_hidden_Reversetunnels x)
      (InitialPayload_hidden_Environmentvariables x) (InitialPayload_hidden_NoPty x)
      (InitialPayload_hidden_Command x) (InitialPayload_hidden_SupportsExitStatus x)
      (InitialPayload_hidden_NoShell x) v.
Definition Default_InitialPayload_Jumphost : bool := false.
Definition Default_InitialPayload_NoPty : bool := false.
Definition Default_InitialPayload_SupportsExitStatus : bool := false.
Definition Default_InitialPayload_NoShell : bool := false.
Definition InitialPayload_GetJumphost (x : option InitialPayload_struct) : bool :=
  match x with
  | Some x => if Present (InitialPayload_presence x) 0 then InitialPayload_hidden_Jumphost x
            else Default_InitialPayload_Jumphost
  | None => Default_InitialPayload_Jumphost
  end.
Definition InitialPayload_GetReversetunnels (x : option InitialPayload_struct) : Slice (option
    PortForwardSourceRequest_struct) :=
  match x with
  | Some x => match InitialPayload_hidden_Reversetunnels x with Some v => v | None => None end
  | None => None
  end.
Definition InitialPayload_GetEnvironmentvariables (x : option InitialPayload_struct) : option (gmap bytes
    bytes) :=
  match x with
  | Some x => InitialPayload_hidden_Environmentvariables x
  | None => None
  end.
Definition InitialPayload_GetNoPty (x : option InitialPayload_struct) : bool :=
  match x with
  | Some x => if Present (InitialPayload_presence x) 3 then InitialPayload_hidden_NoPty x
            else Default_InitialPayload_NoPty
  | None => Default_InitialPayload_NoPty
  end.
Definition InitialPayload_GetCommand (x : option InitialPayload_struct) : bytes :=
  match x with
  | Some x => match InitialPayload_hidden_Command x with Some v => v | None => [] end
  | None => []
  end.
Definition InitialPayload_GetSupportsExitStatus (x : option InitialPayload_struct) : bool :=
  match x with
  | Some x => if Present (InitialPayload_presence x) 5 then InitialPayload_hidden_SupportsExitStatus x
            else Default_InitialPayload_SupportsExitStatus
  | None => Default_InitialPayload_SupportsExitStatus
  end.
Definition InitialPayload_GetNoShell (x : option InitialPayload_struct) : bool :=
  match x with
  | Some x => if Present (InitialPayload_presence x) 6 then InitialPayload_hidden_NoShell x
            else Default_InitialPayload_NoShell
  | None => Default_InitialPayload_NoShell
  end.
Definition InitialPayload_SetJumphost (v : bool) (x : InitialPayload_struct) : InitialPayload_struct :=
  let x := InitialPayload_put_Jumphost v x in
  InitialPayload_put_presence (SetPresent (InitialPayload_presence x) 0 7) x.
Definition InitialPayload_SetReversetunnels (v : Slice (option PortForwardSourceRequest_struct)) (x :
    InitialPayload_struct) : InitialPayload_struct :=
  InitialPayload_put_Reversetunnels (Some v) x.
Definition InitialPayload_SetEnvironmentvariables (v : option (gmap bytes bytes)) (x : InitialPayload_struct)
  : InitialPayload_struct :=
  InitialPayload_put_Environmentvariables v x.
Definition InitialPayload_SetNoPty (v : bool) (x : InitialPayload_struct) : InitialPayload_struct :=
  let x := InitialPayload_put_NoPty v x in
  InitialPayload_put_presence (SetPresent (InitialPayload_presence x) 3 7) x.
Definition InitialPayload_SetCommand (v : bytes) (x : InitialPayload_struct) : InitialPayload_struct :=
  let x := InitialPayload_put_Command (Some v) x in
  InitialPayload_put_presence (SetPresent (InitialPayload_presence x) 4 7) x.
Definition InitialPayload_SetSupportsExitStatus (v : bool) (x : InitialPayload_struct)
  : InitialPayload_struct :=
  let x := InitialPayload_put_SupportsExitStatus v x in
  InitialPayload_put_presence (SetPresent (InitialPayload_presence x) 5 7) x.
Definition InitialPayload_SetNoShell (v : bool) (x : InitialPayload_struct) : InitialPayload_struct :=
  let x := InitialPayload_put_NoShell v x in
  InitialPayload_put_presence (SetPresent (InitialPayload_presence x) 6 7) x.
Definition InitialPayload_HasJumphost (x : option InitialPayload_struct) : bool :=
  match x with
  | Some x => Present (InitialPayload_presence x) 0
  | None => false
  end.
Definition InitialPayload_HasNoPty (x : option InitialPayload_struct) : bool :=
  match x with
  | Some x => Present (InitialPayload_presence x) 3
  | None => false
  end.
Definition InitialPayload_HasCommand (x : option InitialPayload_struct) : bool :=
  match x with
  | Some x => Present (InitialPayload_presence x) 4
  | None => false
  end.
Definition InitialPayload_HasSupportsExitStatus (x : option InitialPayload_struct) : bool :=
  match x with
  | Some x => Present (InitialPayload_presence x) 5
  | None => false
  end.
Definition InitialPayload_HasNoShell (x : option InitialPayload_struct) : bool :=
  match x with
  | Some x => Present (InitialPayload_presence x) 6
  | None => false
  end.
Definition InitialPayload_ClearJumphost (x : InitialPayload_struct) : InitialPayload_struct :=
  InitialPayload_put_presence (ClearPresent (InitialPayload_presence x) 0) x.
Definition InitialPayload_ClearNoPty (x : InitialPayload_struct) : InitialPayload_struct :=
  InitialPayload_put_presence (ClearPresent (InitialPayload_presence x) 3) x.
Definition InitialPayload_ClearCommand (x : InitialPayload_struct) : InitialPayload_struct :=
  InitialPayload_put_Command None 
    (InitialPayload_put_presence (ClearPresent (InitialPayload_presence x) 4) x).
Definition InitialPayload_ClearSupportsExitStatus (x : InitialPayload_struct) : InitialPayload_struct :=
  InitialPayload_put_presence (ClearPresent (InitialPayload_presence x) 5) x.
Definition InitialPayload_ClearNoShell (x : InitialPayload_struct) : InitialPayload_struct :=
  InitialPayload_put_presence (ClearPresent (InitialPayload_presence x) 6) x.
Record InitialPayload_builder := InitialPayload_builder_of {
  InitialPayload_b_Jumphost : option bool;
  InitialPayload_b_Reversetunnels : Slice (option PortForwardSourceRequest_struct);
  InitialPayload_b_Environmentvariables : option (gmap bytes bytes);
  InitialPayload_b_NoPty : option bool;
  InitialPayload_b_Command : option bytes;
  InitialPayload_b_SupportsExitStatus : option bool;
  InitialPayload_b_NoShell : option bool
}.
Definition InitialPayload_Build (b : InitialPayload_builder) : InitialPayload_struct :=
  let x := InitialPayload_new in
  let x := match InitialPayload_b_Jumphost b with
    | Some v => InitialPayload_put_Jumphost v
        (InitialPayload_put_presence (SetPresent (InitialPayload_presence x) 0 7) x)
    | None => x
    end in
  let x := InitialPayload_put_Reversetunnels (Some (InitialPayload_b_Reversetunnels b)) x in
  let x := InitialPayload_put_Environmentvariables (InitialPayload_b_Environmentvariables b) x in
  let x := match InitialPayload_b_NoPty b with
    | Some v => InitialPayload_put_NoPty v
        (InitialPayload_put_presence (SetPresent (InitialPayload_presence x) 3 7) x)
    | None => x
    end in
  let x := match InitialPayload_b_Command b with
    | Some v => InitialPayload_put_Command (Some v)
        (InitialPayload_put_presence (SetPresent (InitialPayload_presence x) 4 7) x)
    | None => x
    end in
  let x := match InitialPayload_b_SupportsExitStatus b with
    | Some v => InitialPayload_put_SupportsExitStatus v
        (InitialPayload_put_presence (SetPresent (InitialPayload_presence x) 5 7) x)
    | None => x
    end in
  let x := match InitialPayload_b_NoShell b with
    | Some v => InitialPayload_put_NoShell v
        (InitialPayload_put_presence (SetPresent (InitialPayload_presence x) 6 7) x)
    | None => x
    end in
  x.

Definition InitialPayload_wf (x : InitialPayload_struct) : Prop :=
  (Present (InitialPayload_presence x) 4 = false -> InitialPayload_hidden_Command x = None).
Definition InitialPayload_fields : list (accessor InitialPayload_struct) := [
  Optional InitialPayload_GetJumphost InitialPayload_SetJumphost InitialPayload_HasJumphost
      InitialPayload_ClearJumphost Default_InitialPayload_Jumphost id (fun _ => true);
  Plain InitialPayload_GetReversetunnels InitialPayload_SetReversetunnels;
  Plain InitialPayload_GetEnvironmentvariables InitialPayload_SetEnvironmentvariables;
  Optional InitialPayload_GetNoPty InitialPayload_SetNoPty InitialPayload_HasNoPty InitialPayload_ClearNoPty
      Default_InitialPayload_NoPty id (fun _ => true);
  Optional InitialPayload_GetCommand InitialPayload_SetCommand InitialPayload_HasCommand
      InitialPayload_ClearCommand [] id (fun _ => true);
  Optional InitialPayload_GetSupportsExitStatus InitialPayload_SetSupportsExitStatus
      InitialPayload_HasSupportsExitStatus InitialPayload_ClearSupportsExitStatus
      Default_InitialPayload_SupportsExitStatus id (fun _ => true);
  Optional InitialPayload_GetNoShell InitialPayload_SetNoShell InitialPayload_HasNoShell
      InitialPayload_ClearNoShell Default_InitialPayload_NoShell id (fun _ => true)].

(** ** InitialResponse *)

Record InitialResponse_struct := InitialResponse_of {
  InitialResponse_hidden_Error : option bytes;
  InitialResponse_presence : Z
}.
Definition InitialResponse_new : InitialResponse_struct := InitialResponse_of None 0.
Definition InitialResponse_Reset (x : InitialResponse_struct) : InitialResponse_struct :=
  InitialResponse_new.
Definition InitialResponse_put_Error (v : option bytes) (x : InitialResponse_struct)
  : InitialResponse_struct :=
  InitialResponse_of v (InitialResponse_presence x).
Definition InitialResponse_put_presence (v : Z) (x : InitialResponse_struct) : InitialResponse_struct :=
  InitialResponse_of (InitialResponse_hidden_Error x) v.
Definition InitialResponse_GetError (x : option InitialResponse_struct) : bytes :=
  match x with
  | Some x => match InitialResponse_hidden_Error x with Some v => v | None => [] end
  | None => []
  end.
Definition InitialResponse_SetError (v : bytes) (x : InitialResponse_struct) : InitialResponse_struct :=
  let x := InitialResponse_put_Error (Some v) x in
  InitialResponse_put_presence (SetPresent (InitialResponse_presence x) 0 1) x.
Definition InitialResponse_HasError (x : option InitialResponse_struct) : bool :=
  match x with
  | Some x => Present (InitialResponse_presence x) 0
  | None => false
  end.
Definition InitialResponse_ClearError (x : InitialResponse_struct) : InitialResponse_struct :=
  InitialResponse_put_Error None 
    (InitialResponse_put_presence (ClearPresent (InitialResponse_presence x) 0) x).
Record InitialResponse_builder := InitialResponse_builder_of {
  InitialResponse_b_Error : option bytes
}.
Definition InitialResponse_Build (b : InitialResponse_builder) : InitialResponse_struct :=
  let x := InitialResponse_new in
  let x := match InitialResponse_b_Error b with
    | Some v => InitialResponse_put_Error (Some v)
        (InitialResponse_put_presence (SetPresent (InitialResponse_presence x) 0 1) x)
    | None => x
    end in
  x.

Definition InitialResponse_wf (x : InitialResponse_struct) : Prop :=
  (Present (InitialResponse_presence x) 0 = false -> InitialResponse_hidden_Error x = None).
Definition InitialResponse_fields : list (accessor InitialResponse_struct) := [
  Optional InitialResponse_GetError InitialResponse_SetError InitialResponse_HasError
      InitialResponse_ClearError [] id (fun _ => true)].

(** ** ConfigParams *)

Record ConfigParams_struct := ConfigParams_of {
  ConfigParams_hidden_Vlevel : Z;
  ConfigParams_hidden_Minloglevel : Z;
  ConfigParams_presence : Z
}.
Definition ConfigParams_new : ConfigParams_struct := ConfigParams_of 0 0 0.
Definition ConfigParams_Reset (x : ConfigParams_struct) : ConfigParams_struct := ConfigParams_new.
Definition ConfigParams_put_Vlevel (v : Z) (x : ConfigParams_struct) : ConfigParams_struct :=
  ConfigParams_of v (ConfigParams_hidden_Minloglevel x) (ConfigParams_presence x).
Definition ConfigParams_put_Minloglevel (v : Z) (x : ConfigParams_struct) : ConfigParams_struct :=
  ConfigParams_of (ConfigParams_hidden_Vlevel x) v (ConfigParams_presence x).
Definition ConfigParams_put_presence (v : Z) (x : ConfigParams_struct) : ConfigParams_struct :=
  ConfigParams_of (ConfigParams_hidden_Vlevel x) (ConfigParams_hidden_Minloglevel x) v.
Definition ConfigParams_GetVlevel (x : option ConfigParams_struct) : Z :=
  match x with
  | Some x => ConfigParams_hidden_Vlevel x
  | None => 0
  end.
Definition ConfigParams_GetMinloglevel (x : option ConfigParams_struct) : Z :=
  match x with
  | Some x => ConfigParams_hidden_Minloglevel x
  | None => 0
  end.
Definition ConfigParams_SetVlevel (v : Z) (x : ConfigParams_struct) : ConfigParams_struct :=
  let x := ConfigParams_put_Vlevel v x in
  ConfigParams_put_presence (SetPresent (ConfigParams_presence x) 0 2) x.
Definition ConfigParams_SetMinloglevel (v : Z) (x : ConfigParams_struct) : ConfigParams_struct :=
  let x := ConfigParams_put_Minloglevel v x in
  ConfigParams_put_presence (SetPresent (ConfigParams_presence x) 1 2) x.
Definition ConfigParams_HasVlevel (x : option ConfigParams_struct) : bool :=
  match x with
  | Some x => Present (ConfigParams_presence x) 0
  | None => false
  end.
Definition ConfigParams_HasMinloglevel (x : option ConfigParams_struct) : bool :=
  match x with
  | Some x => Present (ConfigParams_presence x) 1
  | None => false
  end.
Definition ConfigParams_ClearVlevel (x : ConfigParams_struct) : ConfigParams_struct :=
  ConfigParams_put_Vlevel 0 
    (ConfigParams_put_presence (ClearPresent (ConfigParams_presence x) 0) x).
Definition ConfigParams_ClearMinloglevel (x : ConfigParams_struct) : ConfigParams_struct :=
  ConfigParams_put_Minloglevel 0 
    (ConfigParams_put_presence (ClearPresent (ConfigParams_presence x) 1) x).
Record ConfigParams_builder := ConfigParams_builder_of {
  ConfigParams_b_Vlevel : option Z;
  ConfigParams_b_Minloglevel : option Z
}.
Definition ConfigParams_Build (b : ConfigParams_builder) : ConfigParams_struct :=
  let x := ConfigParams_new in
  let x := match ConfigParams_b_Vlevel b with
    | Some v => ConfigParams_put_Vlevel v
        (ConfigParams_put_presence (SetPresent (ConfigParams_presence x) 0 2) x)
    | None => x
    end in
  let x := match ConfigParams_b_Minloglevel b with
    | Some v => ConfigParams_put_Minloglevel v
        (ConfigParams_put_presence (SetPresent (ConfigParams_presence x) 1 2) x)
    | None => x
    end in
  x.

Definition ConfigParams_wf (x : ConfigParams_struct) : Prop :=
  (Present (ConfigParams_presence x) 0 = false -> ConfigParams_hidden_Vlevel x = 0) /\
  (Present (ConfigParams_presence x) 1 = false -> ConfigParams_hidden_Minloglevel x = 0).
Definition ConfigParams_fields : list (accessor ConfigParams_struct) := [
  Optional ConfigParams_GetVlevel ConfigParams_SetVlevel ConfigParams_HasVlevel ConfigParams_ClearVlevel 0
      id (fun _ => true);
  Optional ConfigParams_GetMinloglevel ConfigParams_SetMinloglevel ConfigParams_HasMinloglevel
      ConfigParams_ClearMinloglevel 0 id (fun _ => true)].

(** ** TermInit *)

Record TermInit_struct := TermInit_of {
  TermInit_hidden_Environmentnames : Slice bytes;
  TermInit_hidden_Environmentvalues : Slice bytes;
  TermInit_hidden_NoPty : bool;
  TermInit_hidden_Command : option bytes;
  TermInit_hidden_NoShell : bool;
  TermInit_presence : Z
}.
Definition TermInit_new : TermInit_struct := TermInit_of None None false None false 0.
Definition TermInit_Reset (x : TermInit_struct) : TermInit_struct := TermInit_new.
Definition TermInit_put_Environmentnames (v : Slice bytes) (x : TermInit_struct) : TermInit_struct :=
  TermInit_of v (TermInit_hidden_Environmentvalues x) (TermInit_hidden_NoPty x) (TermInit_hidden_Command x)
      (TermInit_hidden_NoShell x) (TermInit_presence x).
Definition TermInit_put_Environmentvalues (v : Slice bytes) (x : TermInit_struct) : TermInit_struct :=
  TermInit_of (TermInit_hidden_Environmentnames x) v (TermInit_hidden_NoPty x) (TermInit_hidden_Command x)
      (TermInit_hidden_NoShell x) (TermInit_presence x).
Definition TermInit_put_NoPty (v : bool) (x : TermInit_struct) : TermInit_struct :=
  TermInit_of (TermInit_hidden_Environmentnames x) (TermInit_hidden_Environmentvalues x) v
      (TermInit_hidden_Command x) (TermInit_hidden_NoShell x) (TermInit_presence x).
Definition TermInit_put_Command (v : option bytes) (x : TermInit_struct) : TermInit_struct :=
  TermInit_of (TermInit_hidden_Environmentnames x) (TermInit_hidden_Environmentvalues x)
      (TermInit_hidden_NoPty x) v (TermInit_hidden_NoShell x) (TermInit_presence x).
Definition TermInit_put_NoShell (v : bool) (x : TermInit_struct) : TermInit_struct :=
  TermInit_of (TermInit_hidden_Environmentnames x) (TermInit_hidden_Environmentvalues x)
      (TermInit_hidden_NoPty x) (TermInit_hidden_Command x) v (TermInit_presence x).
Definition TermInit_put_presence (v : Z) (x : TermInit_struct) : TermInit_struct :=
  TermInit_of (TermInit_hidden_Environmentnames x) (TermInit_hidden_Environmentvalues x)
      (TermInit_hidden_NoPty x) (TermInit_hidden_Command x) (TermInit_hidden_NoShell x) v.
Definition Default_TermInit_NoPty : bool := false.
Definition Default_TermInit_NoShell : bool := false.
Definition TermInit_GetEnvironmentnames (x : option TermInit_struct) : Slice bytes :=
  match x with
  | Some x => TermInit_hidden_Environmentnames x
  | None => None
  end.
Definition TermInit_GetEnvironmentvalues (x : option TermInit_struct) : Slice bytes :=
  match x with
  | Some x => TermInit_hidden_Environmentvalues x
  | None => None
  end.
Definition TermInit_GetNoPty (x : option TermInit_struct) : bool :=
  match x with
  | Some x => if Present (TermInit_presence x) 2 then TermInit_hidden_NoPty x
            else Default_TermInit_NoPty
  | None => Default_TermInit_NoPty
  end.
Definition TermInit_GetCommand (x : option TermInit_struct) : bytes :=
  match x with
  | Some x => match TermInit_hidden_Command x with Some v => v | None => [] end
  | None => []
  end.
Definition TermInit_GetNoShell (x : option TermInit_struct) : bool :=
  match x with
  | Some x => if Present (TermInit_presence x) 4 then TermInit_hidden_NoShell x
            else Default_TermInit_NoShell
  | None => Default_TermInit_NoShell
  end.
Definition TermInit_SetEnvironmentnames (v : Slice bytes) (x : TermInit_struct) : TermInit_struct :=
  TermInit_put_Environmentnames v x.
Definition TermInit_SetEnvironmentvalues (v : Slice bytes) (x : TermInit_struct) : TermInit_struct :=
  TermInit_put_Environmentvalues v x.
Definition TermInit_SetNoPty (v : bool) (x : TermInit_struct) : TermInit_struct :=
  let x := TermInit_put_NoPty v x in
  TermInit_put_presence (SetPresent (TermInit_presence x) 2 5) x.
Definition TermInit_SetCommand (v : bytes) (x : TermInit_struct) : TermInit_struct :=
  let x := TermInit_put_Command (Some v) x in
  TermInit_put_presence (SetPresent (TermInit_presence x) 3 5) x.
Definition TermInit_SetNoShell (v : bool) (x : TermInit_struct) : TermInit_struct :=
  let x := TermInit_put_NoShell v x in
  TermInit_put_presence (SetPresent (TermInit_presence x) 4 5) x.
Definition TermInit_HasNoPty (x : option TermInit_struct) : bool :=
  match x with
  | Some x => Present (TermInit_presence x) 2
  | None => false
  end.
Definition TermInit_HasCommand (x : option TermInit_struct) : bool :=
  match x with
  | Some x => Present (TermInit_presence x) 3
  | None => false
  end.
Definition TermInit_HasNoShell (x : option TermInit_struct) : bool :=
  match x with
  | Some x => Present (TermInit_presence x) 4
  | None => false
  end.
Definition TermInit_ClearNoPty (x : TermInit_struct) : TermInit_struct :=
  TermInit_put_presence (ClearPresent (TermInit_presence x) 2) x.
Definition TermInit_ClearCommand (x : TermInit_struct) : TermInit_struct :=
  TermInit_put_Command None 
    (TermInit_put_presence (ClearPresent (TermInit_presence x) 3) x).
Definition TermInit_ClearNoShell (x : TermInit_struct) : TermInit_struct :=
  TermInit_put_presence (ClearPresent (TermInit_presence x) 4) x.
Record TermInit_builder := TermInit_builder_of {
  TermInit_b_Environmentnames : Slice bytes;
  TermInit_b_Environmentvalues : Slice bytes;
  TermInit_b_NoPty : option bool;
  TermInit_b_Command : option bytes;
  TermInit_b_NoShell : option bool
}.
Definition TermInit_Build (b : TermInit_builder) : TermInit_struct :=
  let x := TermInit_new in
  let x := TermInit_put_Environmentnames (TermInit_b_Environmentnames b) x in
  let x := TermInit_put_Environmentvalues (TermInit_b_Environmentvalues b) x in
  let x := match TermInit_b_NoPty b with
    | Some v => TermInit_put_NoPty v
        (TermInit_put_presence (SetPresent (TermInit_presence x) 2 5) x)
    | None => x
    end in
  let x := match TermInit_b_Command b with
    | Some v => TermInit_put_Command (Some v)
        (TermInit_put_presence (SetPresent (TermInit_presence x) 3 5) x)
    | None => x
    end in
  let x := match TermInit_b_NoShell b with
    | Some v => TermInit_put_NoShell v
        (TermInit_put_presence (SetPresent (TermInit_presence x) 4 5) x)
    | None => x
    end in
  x.

Definition TermInit_wf (x : TermInit_struct) : Prop :=
  (Present (TermInit_presence x) 3 = false -> TermInit_hidden_Command x = None).
Definition TermInit_fields : list (accessor TermInit_struct) := [
  Plain TermInit_GetEnvironmentnames TermInit_SetEnvironmentnames;
  Plain TermInit_GetEnvironmentvalues TermInit_SetEnvironmentvalues;
  Optional TermInit_GetNoPty TermInit_SetNoPty TermInit_HasNoPty TermInit_ClearNoPty Default_TermInit_NoPty
      id (fun _ => true);
  Optional TermInit_GetCommand TermInit_SetCommand TermInit_HasCommand TermInit_ClearCommand [] id (fun _ =>
      true);
  Optional TermInit_GetNoShell TermInit_SetNoShell TermInit_HasNoShell TermInit_ClearNoShell
      Default_TermInit_NoShell id (fun _ => true)].

(** ** TerminalUserInfo *)

Record TerminalUserInfo_struct := TerminalUserInfo_of {
  TerminalUserInfo_hidden_Id : option bytes;
  TerminalUserInfo_hidden_Passkey : option bytes;
  TerminalUserInfo_hidden_Uid : Z;
  TerminalUserInfo_hidden_Gid : Z;
  TerminalUserInfo_hidden_Fd : Z;
  TerminalUserInfo_presence : Z
}.
Definition TerminalUserInfo_new : TerminalUserInfo_struct := TerminalUserInfo_of None None 0 0 0 0.
Definition TerminalUserInfo_Reset (x : TerminalUserInfo_struct) : TerminalUserInfo_struct :=
  TerminalUserInfo_new.
Definition TerminalUserInfo_put_Id (v : option bytes) (x : TerminalUserInfo_struct)
  : TerminalUserInfo_struct :=
  TerminalUserInfo_of v (TerminalUserInfo_hidden_Passkey x) (TerminalUserInfo_hidden_Uid x)
      (TerminalUserInfo_hidden_Gid x) (TerminalUserInfo_hidden_Fd x) (TerminalUserInfo_presence x).
Definition TerminalUserInfo_put_Passkey (v : option bytes) (x : TerminalUserInfo_struct)
  : TerminalUserInfo_struct :=
  TerminalUserInfo_of (TerminalUserInfo_hidden_Id x) v (TerminalUserInfo_hidden_Uid x)
      (TerminalUserInfo_hidden_Gid x) (TerminalUserInfo_hidden_Fd x) (TerminalUserInfo_presence x).
Definition TerminalUserInfo_put_Uid (v : Z) (x : TerminalUserInfo_struct) : TerminalUserInfo_struct :=
  TerminalUserInfo_of (TerminalUserInfo_hidden_Id x) (TerminalUserInfo_hidden_Passkey x) v
      (TerminalUserInfo_hidden_Gid x) (TerminalUserInfo_hidden_Fd x) (TerminalUserInfo_presence x).
Definition TerminalUserInfo_put_Gid (v : Z) (x : TerminalUserInfo_struct) : TerminalUserInfo_struct :=
  TerminalUserInfo_of (TerminalUserInfo_hidden_Id x) (TerminalUserInfo_hidden_Passkey x)
      (TerminalUserInfo_hidden_Uid x) v (TerminalUserInfo_hidden_Fd x) (TerminalUserInfo_presence x).
Definition TerminalUserInfo_put_Fd (v : Z) (x : TerminalUserInfo_struct) : TerminalUserInfo_struct :=
  TerminalUserInfo_of (TerminalUserInfo_hidden_Id x) (TerminalUserInfo_hidden_Passkey x)
      (TerminalUserInfo_hidden_Uid x) (TerminalUserInfo_hidden_Gid x) v (TerminalUserInfo_presence x).
Definition TerminalUserInfo_put_presence (v : Z) (x : TerminalUserInfo_struct) : TerminalUserInfo_struct :=
  TerminalUserInfo_of (TerminalUserInfo_hidden_Id x) (TerminalUserInfo_hidden_Passkey x)
      (TerminalUserInfo_hidden_Uid x) (TerminalUserInfo_hidden_Gid x) (TerminalUserInfo_hidden_Fd x) v.
Definition TerminalUserInfo_GetId (x : option TerminalUserInfo_struct) : bytes :=
  match x with
  | Some x => match TerminalUserInfo_hidden_Id x with Some v => v | None => [] end
  | None => []
  end.
Definition TerminalUserInfo_GetPasskey (x : option TerminalUserInfo_struct) : bytes :=
  match x with
  | Some x => match TerminalUserInfo_hidden_Passkey x with Some v => v | None => [] end
  | None => []
  end.
Definition TerminalUserInfo_GetUid (x : option TerminalUserInfo_struct) : Z :=
  match x with
  | Some x => TerminalUserInfo_hidden_Uid x
  | None => 0
  end.
Definition TerminalUserInfo_GetGid (x : option TerminalUserInfo_struct) : Z :=
  match x with
  | Some x => TerminalUserInfo_hidden_Gid x
  | None => 0
  end.
Definition TerminalUserInfo_GetFd (x : option TerminalUserInfo_struct) : Z :=
  match x with
  | Some x => TerminalUserInfo_hidden_Fd x
  | None => 0
  end.
Definition TerminalUserInfo_SetId (v : bytes) (x : TerminalUserInfo_struct) : TerminalUserInfo_struct :=
  let x := TerminalUserInfo_put_Id (Some v) x in
  TerminalUserInfo_put_presence (SetPresent (TerminalUserInfo_presence x) 0 5) x.
Definition TerminalUserInfo_SetPasskey (v : bytes) (x : TerminalUserInfo_struct) : TerminalUserInfo_struct :=
  let x := TerminalUserInfo_put_Passkey (Some v) x in
  TerminalUserInfo_put_presence (SetPresent (TerminalUserInfo_presence x) 1 5) x.
Definition TerminalUserInfo_SetUid (v : Z) (x : TerminalUserInfo_struct) : TerminalUserInfo_struct :=
  let x := TerminalUserInfo_put_Uid v x in
  TerminalUserInfo_put_presence (SetPresent (TerminalUserInfo_presence x) 2 5) x.
Definition TerminalUserInfo_SetGid (v : Z) (x : TerminalUserInfo_struct) : TerminalUserInfo_struct :=
  let x := TerminalUserInfo_put_Gid v x in
  TerminalUserInfo_put_presence (SetPresent (TerminalUserInfo_presence x) 3 5) x.
Definition TerminalUserInfo_SetFd (v : Z) (x : TerminalUserInfo_struct) : TerminalUserInfo_struct :=
  let x := TerminalUserInfo_put_Fd v x in
  TerminalUserInfo_put_presence (SetPresent (TerminalUserInfo_presence x) 4 5) x.
Definition TerminalUserInfo_HasId (x : option TerminalUserInfo_struct) : bool :=
  match x with
  | Some x => Present (TerminalUserInfo_presence x) 0
  | None => false
  end.
Definition TerminalUserInfo_HasPasskey (x : option TerminalUserInfo_struct) : bool :=
  match x with
  | Some x => Present (TerminalUserInfo_presence x) 1
  | None => false
  end.
Definition TerminalUserInfo_HasUid (x : option TerminalUserInfo_struct) : bool :=
  match x with
  | Some x => Present (TerminalUserInfo_presence x) 2
  | None => false
  end.
Definition TerminalUserInfo_HasGid (x : option TerminalUserInfo_struct) : bool :=
  match x with
  | Some x => Present (TerminalUserInfo_presence x) 3
  | None => false
  end.
Definition TerminalUserInfo_HasFd (x : option TerminalUserInfo_struct) : bool :=
  match x with
  | Some x => Present (TerminalUserInfo_presence x) 4
  | None => false
  end.
Definition TerminalUserInfo_ClearId (x : TerminalUserInfo_struct) : TerminalUserInfo_struct :=
  TerminalUserInfo_put_Id None 
    (TerminalUserInfo_put_presence (ClearPresent (TerminalUserInfo_presence x) 0) x).
Definition TerminalUserInfo_ClearPasskey (x : TerminalUserInfo_struct) : TerminalUserInfo_struct :=
  TerminalUserInfo_put_Passkey None 
    (TerminalUserInfo_put_presence (ClearPresent (TerminalUserInfo_presence x) 1) x).
Definition TerminalUserInfo_ClearUid (x : TerminalUserInfo_struct) : TerminalUserInfo_struct :=
  TerminalUserInfo_put_Uid 0 
    (TerminalUserInfo_put_presence (ClearPresent (TerminalUserInfo_presence x) 2) x).
Definition TerminalUserInfo_ClearGid (x : TerminalUserInfo_struct) : TerminalUserInfo_struct :=
  TerminalUserInfo_put_Gid 0 
    (TerminalUserInfo_put_presence (ClearPresent (TerminalUserInfo_presence x) 3) x).
Definition TerminalUserInfo_ClearFd (x : TerminalUserInfo_struct) : TerminalUserInfo_struct :=
  TerminalUserInfo_put_Fd 0 
    (TerminalUserInfo_put_presence (ClearPresent (TerminalUserInfo_presence x) 4) x).
Record TerminalUserInfo_builder := TerminalUserInfo_builder_of {
  TerminalUserInfo_b_Id : option bytes;
  TerminalUserInfo_b_Passkey : option bytes;
  TerminalUserInfo_b_Uid : option Z;
  TerminalUserInfo_b_Gid : option Z;
  TerminalUserInfo_b_Fd : option Z
}.
Definition TerminalUserInfo_Build (b : TerminalUserInfo_builder) : TerminalUserInfo_struct :=
  let x := TerminalUserInfo_new in
  let x := match TerminalUserInfo_b_Id b with
    | Some v => TerminalUserInfo_put_Id (Some v)
        (TerminalUserInfo_put_presence (SetPresent (TerminalUserInfo_presence x) 0 5) x)
    | None => x
    end in
  let x := match TerminalUserInfo_b_Passkey b with
    | Some v => TerminalUserInfo_put_Passkey (Some v)
        (TerminalUserInfo_put_presence (SetPresent (TerminalUserInfo_presence x) 1 5) x)
    | None => x
    end in
  let x := match TerminalUserInfo_b_Uid b with
    | Some v => TerminalUserInfo_put_Uid v
        (TerminalUserInfo_put_presence (SetPresent (TerminalUserInfo_presence x) 2 5) x)
    | None => x
    end in
  let x := match TerminalUserInfo_b_Gid b with
    | Some v => TerminalUserInfo_put_Gid v
        (TerminalUserInfo_put_presence (SetPresent (TerminalUserInfo_presence x) 3 5) x)
    | None => x
    end in
  let x := match TerminalUserInfo_b_Fd b with
    | Some v => TerminalUserInfo_put_Fd v
        (TerminalUserInfo_put_presence (SetPresent (TerminalUserInfo_presence x) 4 5) x)
    | None => x
    end in
  x.

Definition TerminalUserInfo_wf (x : TerminalUserInfo_struct) : Prop :=
  (Present (TerminalUserInfo_presence x) 0 = false -> TerminalUserInfo_hidden_Id x = None) /\
  (Present (TerminalUserInfo_presence x) 1 = false -> TerminalUserInfo_hidden_Passkey x = None) /\
  (Present (TerminalUserInfo_presence x) 2 = false -> TerminalUserInfo_hidden_Uid x = 0) /\
  (Present (TerminalUserInfo_presence x) 3 = false -> TerminalUserInfo_hidden_Gid x = 0) /\
  (Present (TerminalUserInfo_presence x) 4 = false -> TerminalUserInfo_hidden_Fd x = 0).
Definition TerminalUserInfo_fields : list (accessor TerminalUserInfo_struct) := [
  Optional TerminalUserInfo_GetId TerminalUserInfo_SetId TerminalUserInfo_HasId TerminalUserInfo_ClearId []
      id (fun _ => true);
  Optional TerminalUserInfo_GetPasskey TerminalUserInfo_SetPasskey TerminalUserInfo_HasPasskey
      TerminalUserInfo_ClearPasskey [] id (fun _ => true);
  Optional TerminalUserInfo_GetUid TerminalUserInfo_SetUid TerminalUserInfo_HasUid TerminalUserInfo_ClearUid
      0 id (fun _ => true);
  Optional TerminalUserInfo_GetGid TerminalUserInfo_SetGid TerminalUserInfo_HasGid TerminalUserInfo_ClearGid
      0 id (fun _ => true);
  Optional TerminalUserInfo_GetFd TerminalUserInfo_SetFd TerminalUserInfo_HasFd TerminalUserInfo_ClearFd 0
      id (fun _ => true)].

(** ** The accessors of each message, and its builder as Sets *)

Lemma TerminalBuffer_ok : message_ok TerminalBuffer_new TerminalBuffer_wf TerminalBuffer_fields.
Proof. message_ok_by ltac:(unfold TerminalBuffer_fields, TerminalBuffer_wf). Qed.

Lemma TerminalBuffer_Build_sets (b : TerminalBuffer_builder) :
  TerminalBuffer_Build b =
  let x := TerminalBuffer_new in
  let x := match TerminalBuffer_b_Buffer b with Some v => TerminalBuffer_SetBuffer (Some v) x | None => x
      end in
  let x := match TerminalBuffer_b_IsStderr b with Some v => TerminalBuffer_SetIsStderr v x | None => x end in
  x.
Proof. unfold TerminalBuffer_Build. repeat case_match; done. Qed.

Lemma TerminalExitStatus_ok : message_ok TerminalExitStatus_new TerminalExitStatus_wf
    TerminalExitStatus_fields.
Proof. message_ok_by ltac:(unfold TerminalExitStatus_fields, TerminalExitStatus_wf). Qed.

Lemma TerminalExitStatus_Build_sets (b : TerminalExitStatus_builder) :
  TerminalExitStatus_Build b =
  let x := TerminalExitStatus_new in
  let x := match TerminalExitStatus_b_Exitcode b with Some v => TerminalExitStatus_SetExitcode v x | None =>
      x end in
  x.
Proof. unfold TerminalExitStatus_Build. repeat case_match; done. Qed.

Lemma TerminalInfo_ok : message_ok TerminalInfo_new TerminalInfo_wf TerminalInfo_fields.
Proof. message_ok_by ltac:(unfold TerminalInfo_fields, TerminalInfo_wf). Qed.

Lemma TerminalInfo_Build_sets (b : TerminalInfo_builder) :
  TerminalInfo_Build b =
  let x := TerminalInfo_new in
  let x := match TerminalInfo_b_Id b with Some v => TerminalInfo_SetId v x | None => x end in
  let x := match TerminalInfo_b_Row b with Some v => TerminalInfo_SetRow v x | None => x end in
  let x := match TerminalInfo_b_Column b with Some v => TerminalInfo_SetColumn v x | None => x end in
  let x := match TerminalInfo_b_Width b with Some v => TerminalInfo_SetWidth v x | None => x end in
  let x := match TerminalInfo_b_Height b with Some v => TerminalInfo_SetHeight v x | None => x end in
  x.
Proof. unfold TerminalInfo_Build. repeat case_match; done. Qed.

Lemma PortForwardSourceRequest_ok : message_ok PortForwardSourceRequest_new PortForwardSourceRequest_wf
    PortForwardSourceRequest_fields.
Proof. message_ok_by ltac:(unfold PortForwardSourceRequest_fields, PortForwardSourceRequest_wf). Qed.

Lemma PortForwardSourceRequest_Build_sets (b : PortForwardSourceRequest_builder) :
  PortForwardSourceRequest_Build b =
  let x := PortForwardSourceRequest_new in
  let x := PortForwardSourceRequest_SetSource (PortForwardSourceRequest_b_Source b) x in
  let x := PortForwardSourceRequest_SetDestination (PortForwardSourceRequest_b_Destination b) x in
  let x := match PortForwardSourceRequest_b_Environmentvariable b with Some v =>
      PortForwardSourceRequest_SetEnvironmentvariable v x | None => x end in
  x.
Proof. unfold PortForwardSourceRequest_Build. repeat case_match; done. Qed.

Lemma PortForwardSourceResponse_ok : message_ok PortForwardSourceResponse_new PortForwardSourceResponse_wf
    PortForwardSourceResponse_fields.
Proof. message_ok_by ltac:(unfold PortForwardSourceResponse_fields, PortForwardSourceResponse_wf). Qed.

Lemma PortForwardSourceResponse_Build_sets (b : PortForwardSourceResponse_builder) :
  PortForwardSourceResponse_Build b =
  let x := PortForwardSourceResponse_new in
  let x := match PortForwardSourceResponse_b_Error b with Some v => PortForwardSourceResponse_SetError v x |
      None => x end in
  x.
Proof. unfold PortForwardSourceResponse_Build. repeat case_match; done. Qed.

Lemma PortForwardDestinationRequest_ok : message_ok PortForwardDestinationRequest_new
    PortForwardDestinationRequest_wf PortForwardDestinationRequest_fields.
Proof. message_ok_by ltac:(unfold PortForwardDestinationRequest_fields, PortForwardDestinationRequest_wf).
    Qed.

Lemma PortForwardDestinationRequest_Build_sets (b : PortForwardDestinationRequest_builder) :
  PortForwardDestinationRequest_Build b =
  let x := PortForwardDestinationRequest_new in
  let x := PortForwardDestinationRequest_SetDestination (PortForwardDestinationRequest_b_Destination b) x in
  let x := match PortForwardDestinationRequest_b_Fd b with Some v => PortForwardDestinationRequest_SetFd v x
      | None => x end in
  x.
Proof. unfold PortForwardDestinationRequest_Build. repeat case_match; done. Qed.

Lemma PortForwardDestinationResponse_ok : message_ok PortForwardDestinationResponse_new
    PortForwardDestinationResponse_wf PortForwardDestinationResponse_fields.
Proof. message_ok_by ltac:(unfold PortForwardDestinationResponse_fields, PortForwardDestinationResponse_wf).
    Qed.

Lemma PortForwardDestinationResponse_Build_sets (b : PortForwardDestinationResponse_builder) :
  PortForwardDestinationResponse_Build b =
  let x := PortForwardDestinationResponse_new in
  let x := match PortForwardDestinationResponse_b_Clientfd b with Some v =>
      PortForwardDestinationResponse_SetClientfd v x | None => x end in
  let x := match PortForwardDestinationResponse_b_Socketid b with Some v =>
      PortForwardDestinationResponse_SetSocketid v x | None => x end in
  let x := match PortForwardDestinationResponse_b_Error b with Some v =>
      PortForwardDestinationResponse_SetError v x | None => x end in
  x.
Proof. unfold PortForwardDestinationResponse_Build. repeat case_match; done. Qed.

Lemma PortForwardData_ok : message_ok PortForwardData_new PortForwardData_wf PortForwardData_fields.
Proof. message_ok_by ltac:(unfold PortForwardData_fields, PortForwardData_wf). Qed.

Lemma PortForwardData_Build_sets (b : PortForwardData_builder) :
  PortForwardData_Build b =
  let x := PortForwardData_new in
  let x := match PortForwardData_b_Sourcetodestination b with Some v =>
      PortForwardData_SetSourcetodestination v x | None => x end in
  let x := match PortForwardData_b_Socketid b with Some v => PortForwardData_SetSocketid v x | None => x end
      in
  let x := match PortForwardData_b_Buffer b with Some v => PortForwardData_SetBuffer (Some v) x | None => x
      end in
  let x := match PortForwardData_b_Error b with Some v => PortForwardData_SetError v x | None => x end in
  let x := match PortForwardData_b_Closed b with Some v => PortForwardData_SetClosed v x | None => x end in
  let x := match PortForwardData_b_HalfClose b with Some v => PortForwardData_SetHalfClose v x | None => x
      end in
  x.
Proof. unfold PortForwardData_Build. repeat case_match; done. Qed.

Lemma InitialPayload_ok : message_ok InitialPayload_new InitialPayload_wf InitialPayload_fields.
Proof. message_ok_by ltac:(unfold InitialPayload_fields, InitialPayload_wf). Qed.

Lemma InitialPayload_Build_sets (b : InitialPayload_builder) :
  InitialPayload_Build b =
  let x := InitialPayload_new in
  let x := match InitialPayload_b_Jumphost b with Some v => InitialPayload_SetJumphost v x | None => x end in
  let x := InitialPayload_SetReversetunnels (InitialPayload_b_Reversetunnels b) x in
  let x := InitialPayload_SetEnvironmentvariables (InitialPayload_b_Environmentvariables b) x in
  let x := match InitialPayload_b_NoPty b with Some v => InitialPayload_SetNoPty v x | None => x end in
  let x := match InitialPayload_b_Command b with Some v => InitialPayload_SetCommand v x | None => x end in
  let x := match InitialPayload_b_SupportsExitStatus b with Some v => InitialPayload_SetSupportsExitStatus v
      x | None => x end in
  let x := match InitialPayload_b_NoShell b with Some v => InitialPayload_SetNoShell v x | None => x end in
  x.
Proof. unfold InitialPayload_Build. repeat case_match; done. Qed.

Lemma InitialResponse_ok : message_ok InitialResponse_new InitialResponse_wf InitialResponse_fields.
Proof. message_ok_by ltac:(unfold InitialResponse_fields, InitialResponse_wf). Qed.

Lemma InitialResponse_Build_sets (b : InitialResponse_builder) :
  InitialResponse_Build b =
  let x := InitialResponse_new in
  let x := match InitialResponse_b_Error b with Some v => InitialResponse_SetError v x | None => x end in
  x.
Proof. unfold InitialResponse_Build. repeat case_match; done. Qed.

Lemma ConfigParams_ok : message_ok ConfigParams_new ConfigParams_wf ConfigParams_fields.
Proof. message_ok_by ltac:(unfold ConfigParams_fields, ConfigParams_wf). Qed.

Lemma ConfigParams_Build_sets (b : ConfigParams_builder) :
  ConfigParams_Build b =
  let x := ConfigParams_new in
  let x := match ConfigParams_b_Vlevel b with Some v => ConfigParams_SetVlevel v x | None => x end in
  let x := match ConfigParams_b_Minloglevel b with Some v => ConfigParams_SetMinloglevel v x | None => x end
      in
  x.
Proof. unfold ConfigParams_Build. repeat case_match; done. Qed.

Lemma TermInit_ok : message_ok TermInit_new TermInit_wf TermInit_fields.
Proof. message_ok_by ltac:(unfold TermInit_fields, TermInit_wf). Qed.

Lemma TermInit_Build_sets (b : TermInit_builder) :
  TermInit_Build b =
  let x := TermInit_new in
  let x := TermInit_SetEnvironmentnames (TermInit_b_Environmentnames b) x in
  let x := TermInit_SetEnvironmentvalues (TermInit_b_Environmentvalues b) x in
  let x := match TermInit_b_NoPty b with Some v => TermInit_SetNoPty v x | None => x end in
  let x := match TermInit_b_Command b with Some v => TermInit_SetCommand v x | None => x end in
  let x := match TermInit_b_NoShell b with Some v => TermInit_SetNoShell v x | None => x end in
  x.
Proof. unfold TermInit_Build. repeat case_match; done. Qed.

Lemma TerminalUserInfo_ok : message_ok TerminalUserInfo_new TerminalUserInfo_wf TerminalUserInfo_fields.
Proof. message_ok_by ltac:(unfold TerminalUserInfo_fields, TerminalUserInfo_wf). Qed.

Lemma TerminalUserInfo_Build_sets (b : TerminalUserInfo_builder) :
  TerminalUserInfo_Build b =
  let x := TerminalUserInfo_new in
  let x := match TerminalUserInfo_b_Id b with Some v => TerminalUserInfo_SetId v x | None => x end in
  let x := match TerminalUserInfo_b_Passkey b with Some v => TerminalUserInfo_SetPasskey v x | None => x end
      in
  let x := match TerminalUserInfo_b_Uid b with Some v => TerminalUserInfo_SetUid v x | None => x end in
  let x := match TerminalUserInfo_b_Gid b with Some v => TerminalUserInfo_SetGid v x | None => x end in
  let x := match TerminalUserInfo_b_Fd b with Some v => TerminalUserInfo_SetFd v x | None => x end in
  x.
Proof. unfold TerminalUserInfo_Build. repeat case_match; done. Qed.

End Messages.
