(* ===== verification/Protocol.v ===== *)
(** * internal/protocol: packet types and messages

    A header is one byte.  The generated messages are records with one
    optional field per proto field (the hidden field and its presence bit),
    and the accessors the client calls.  Their wire encoding belongs to the
    protobuf runtime and stays the class [ProtoMessage] of [Wire]. *)

From S2P Require Export GoErr.
From stdpp Require Import pretty.
Local Open Scope Z_scope.

(** ** Packet types *)

Definition Header := byte.
#[export] Instance Header_eq_dec : EqDecision Header := byte_eq_dec.

Definition HeaderKeepAlive : Header := x00.
Definition HeaderTerminalBuffer : Header := x01.
Definition HeaderTerminalInfo : Header := x02.
Definition HeaderTerminalClose : Header := x0b.
Definition HeaderTerminalExitStatus : Header := x0c.
Definition HeaderInitialResponse : Header := xfc.
Definition HeaderInitialPayload : Header := xfd.

Definition Version : Z := 6.

(** One plaintext application packet. *)
Record Packet := MkPacket { p_Header : Header; p_Payload : bytes }.
#[export] Instance Packet_eq_dec : EqDecision Packet.
Proof. solve_decision. Defined.

(** ** Names of the headers *)

Definition Header_name_0 : bytes := bs "KeepAliveTerminalBufferTerminalInfo".
Definition Header_name_1 : bytes := bs "TerminalCloseTerminalExitStatus".
Definition Header_name_2 : bytes := bs "InitialResponseInitialPayload".
Definition Header_index_0 : list Z := [0; 9; 23; 35].
Definition Header_index_1 : list Z := [0; 13; 31].
Definition Header_index_2 : list Z := [0; 15; 29].

(** [name[index[i]:index[i+1]]], or [None] where Go would panic. *)
Definition Header_slice (name : bytes) (index : list Z) (i : Z) : option bytes :=
  a ← index !! Z.to_nat i; b ← index !! Z.to_nat (i + 1); slice name a b.

Definition Header_String (h : Header) : option bytes :=
  let i := b2z h in
  if i <=? 2 then Header_slice Header_name_0 Header_index_0 i
  else if (11 <=? i) && (i <=? 12) then Header_slice Header_name_1 Header_index_1 (i - 11)
  else if (252 <=? i) && (i <=? 253) then Header_slice Header_name_2 Header_index_2 (i - 252)
  else Some (bs "Header(" ++ bs (pretty i) ++ bs ")").

(** ** Messages *)

(** A getter's value: the hidden field, or the type's zero value. *)
Definition get_or {A} (d : A) (f : option A) : A := default d f.

Record ConnectRequest := MkConnectRequest {
  ConnectRequest_ClientId : option bytes;
  ConnectRequest_Version : option Z
}.
Definition ConnectRequest_zero : ConnectRequest := MkConnectRequest None None.
Definition SetClientId (v : bytes) (x : ConnectRequest) : ConnectRequest :=
  MkConnectRequest (Some v) (ConnectRequest_Version x).
Definition SetVersion (v : Z) (x : ConnectRequest) : ConnectRequest :=
  MkConnectRequest (ConnectRequest_ClientId x) (Some v).
Definition GetClientId (x : ConnectRequest) : bytes := get_or [] (ConnectRequest_ClientId x).
Definition GetVersion (x : ConnectRequest) : Z := get_or 0 (ConnectRequest_Version x).

(** The enum as sent by the peer: any int32. *)
Definition ConnectStatus := Z.
Definition NEW_CLIENT : ConnectStatus := 1.
Definition RETURNING_CLIENT : ConnectStatus := 2.
Definition INVALID_KEY : ConnectStatus := 3.
Definition MISMATCHED_PROTOCOL : ConnectStatus := 4.

Record ConnectResponse := MkConnectResponse {
  ConnectResponse_Status : option ConnectStatus;
  ConnectResponse_Error : option bytes
}.
Definition ConnectResponse_zero : ConnectResponse := MkConnectResponse None None.
Definition SetStatus (v : ConnectStatus) (x : ConnectResponse) : ConnectResponse :=
  MkConnectResponse (Some v) (ConnectResponse_Error x).
Definition SetError (v : bytes) (x : ConnectResponse) : ConnectResponse :=
  MkConnectResponse (ConnectResponse_Status x) (Some v).
(** An absent status reads as the enum's first value. *)
Definition GetStatus (x : ConnectResponse) : ConnectStatus :=
  get_or NEW_CLIENT (ConnectResponse_Status x).

Record SequenceHeader := MkSequenceHeader { SequenceHeader_SequenceNumber : option Z }.
Definition SetSequenceNumber (v : Z) (x : SequenceHeader) : SequenceHeader :=
  MkSequenceHeader (Some v).
Definition GetSequenceNumber (x : SequenceHeader) : Z :=
  get_or 0 (SequenceHeader_SequenceNumber x).

Record CatchupBuffer := MkCatchupBuffer { CatchupBuffer_Buffer : list bytes }.
Definition SetCatchup (v : list bytes) (x : CatchupBuffer) : CatchupBuffer := MkCatchupBuffer v.
Definition GetCatchup (x : CatchupBuffer) : list bytes := CatchupBuffer_Buffer x.

Record TerminalBuffer := MkTerminalBuffer {
  TerminalBuffer_Buffer : option bytes;
  TerminalBuffer_IsStderr : option bool
}.
Definition TerminalBuffer_zero : TerminalBuffer := MkTerminalBuffer None None.
Definition SetBuffer (v : bytes) (x : TerminalBuffer) : TerminalBuffer :=
  MkTerminalBuffer (Some v) (TerminalBuffer_IsStderr x).
Definition GetBuffer (x : TerminalBuffer) : bytes := get_or [] (TerminalBuffer_Buffer x).

Record TerminalExitStatus := MkTerminalExitStatus { TerminalExitStatus_Exitcode : option Z }.
Definition GetExitcode (x : TerminalExitStatus) : Z := get_or 0 (TerminalExitStatus_Exitcode x).
Definition HasExitcode (x : TerminalExitStatus) : bool :=
  bool_decide (is_Some (TerminalExitStatus_Exitcode x)).

Record TerminalInfo := MkTerminalInfo {
  TerminalInfo_Id : option bytes;
  TerminalInfo_Row : option Z;
  TerminalInfo_Column : option Z;
  TerminalInfo_Width : option Z;
  TerminalInfo_Height : option Z
}.
Definition TerminalInfo_zero : TerminalInfo := MkTerminalInfo None None None None None.
Definition SetRow (v : Z) (x : TerminalInfo) : TerminalInfo :=
  MkTerminalInfo (TerminalInfo_Id x) (Some v) (TerminalInfo_Column x)
    (TerminalInfo_Width x) (TerminalInfo_Height x).
Definition SetColumn (v : Z) (x : TerminalInfo) : TerminalInfo :=
  MkTerminalInfo (TerminalInfo_Id x) (TerminalInfo_Row x) (Some v)
    (TerminalInfo_Width x) (TerminalInfo_Height x).
Definition SetWidth (v : Z) (x : TerminalInfo) : TerminalInfo :=
  MkTerminalInfo (TerminalInfo_Id x) (TerminalInfo_Row x) (TerminalInfo_Column x)
    (Some v) (TerminalInfo_Height x).
Definition SetHeight (v : Z) (x : TerminalInfo) : TerminalInfo :=
  MkTerminalInfo (TerminalInfo_Id x) (TerminalInfo_Row x) (TerminalInfo_Column x)
    (TerminalInfo_Width x) (Some v).

(** The port forwards of [InitialPayload]; a message field is its own presence. *)
Record SocketEndpoint := MkSocketEndpoint {
  SocketEndpoint_Name : option bytes;
  SocketEndpoint_Port : option Z
}.
Record PortForwardSourceRequest := MkPortForwardSourceRequest {
  PortForwardSourceRequest_Source : option SocketEndpoint;
  PortForwardSourceRequest_Destination : option SocketEndpoint;
  PortForwardSourceRequest_Environmentvariable : option bytes
}.

(** The client sets one field of it and leaves the others unset. *)
Record InitialPayload := MkInitialPayload {
  InitialPayload_Jumphost : option bool;
  InitialPayload_Reversetunnels : list PortForwardSourceRequest;
  InitialPayload_Environmentvariables : gmap bytes bytes;
  InitialPayload_NoPty : option bool;
  InitialPayload_Command : option bytes;
  InitialPayload_SupportsExitStatus : option bool;
  InitialPayload_NoShell : option bool
}.
Definition InitialPayload_zero : InitialPayload := MkInitialPayload None [] ∅ None None None None.
Definition SetSupportsExitStatus (v : bool) (x : InitialPayload) : InitialPayload :=
  MkInitialPayload (InitialPayload_Jumphost x) (InitialPayload_Reversetunnels x)
    (InitialPayload_Environmentvariables x) (InitialPayload_NoPty x)
    (InitialPayload_Command x) (Some v) (InitialPayload_NoShell x).

Record InitialResponse := MkInitialResponse { InitialResponse_Error : option bytes }.
Definition InitialResponse_GetError (x : InitialResponse) : bytes :=
  get_or [] (InitialResponse_Error x).

(** ** Redaction of the passkey *)

Record TerminalUserInfo := MkTerminalUserInfo {
  TerminalUserInfo_Id : option bytes;
  TerminalUserInfo_Passkey : option bytes;
  TerminalUserInfo_Uid : option Z;
  TerminalUserInfo_Gid : option Z;
  TerminalUserInfo_Fd : option Z
}.

(** The getters are nil-safe: a nil message reads as zero values. *)
Definition tui_field {A} (d : A) (f : TerminalUserInfo -> option A)
    (x : option TerminalUserInfo) : A :=
  match x with Some m => get_or d (f m) | None => d end.
Definition GetId := tui_field [] TerminalUserInfo_Id.
Definition GetUid := tui_field 0 TerminalUserInfo_Uid.
Definition GetGid := tui_field 0 TerminalUserInfo_Gid.
Definition GetFd := tui_field 0 TerminalUserInfo_Fd.

(** What slog and fmt are handed: attributes with rendered values, in order.
    [quote] is strconv's quoting, used by the [%q] verb. *)
Inductive slog_value := SlogString (v : bytes) | SlogInt64 (v : Z).

Section Redact.
Variable quote : bytes -> bytes.

Definition TerminalUserInfo_Format (x : option TerminalUserInfo) : bytes :=
  match x with
  | None => bs "<nil>"
  | Some _ =>
      bs "TerminalUserInfo{id:" ++ quote (GetId x) ++ bs " passkey:REDACTED uid:" ++
      bs (pretty (GetUid x)) ++ bs " gid:" ++ bs (pretty (GetGid x)) ++ bs " fd:" ++
      bs (pretty (GetFd x)) ++ bs "}"
  end.
End Redact.

Definition TerminalUserInfo_LogValue (x : option TerminalUserInfo) : list (bytes * slog_value) :=
  [(bs "id", SlogString (GetId x));
   (bs "passkey", SlogString (bs "REDACTED"));
   (bs "uid", SlogInt64 (GetUid x));
   (bs "gid", SlogInt64 (GetGid x));
   (bs "fd", SlogInt64 (GetFd x))].

(** Two messages that differ at most in the passkey. *)
Definition same_but_passkey (x y : TerminalUserInfo) : Prop :=
  TerminalUserInfo_Id x = TerminalUserInfo_Id y /\
  TerminalUserInfo_Uid x = TerminalUserInfo_Uid y /\
  TerminalUserInfo_Gid x = TerminalUserInfo_Gid y /\
  TerminalUserInfo_Fd x = TerminalUserInfo_Fd y.

(** ** Facts *)

(** Every header has a name: the sliced tables are never indexed out of range. *)
Lemma Header_String_total (h : Header) : is_Some (Header_String h).
Proof. destruct h; vm_compute; eauto. Qed.
