(* ===== verification/Messages.v ===== *)
(** * internal/protocol: the messages as the client uses them

    [messages_ok] collects what [EtMessages] and [TerminalMessages] prove of
    every generated message.  The rest of the library works with the records
    of [Protocol], one optional value per field; here each is what the
    accessors of the generated struct show of it ([abs]), and every method
    the client calls commutes with that view. *)

From S2P Require Import TerminalMessages.
From S2P Require Protocol.
Local Open Scope Z_scope.

Section Messages.
Context `{Presence}.

(** [C37] Every message of the protocol: its accessors keep the struct well formed,
    a field reads what was last set, its default once cleared or on a nil or
    new message, and no field's operation changes what another field reads. *)
Theorem messages_ok :
  message_ok ConnectRequest_new ConnectRequest_wf ConnectRequest_fields /\
  message_ok ConnectResponse_new ConnectResponse_wf ConnectResponse_fields /\
  message_ok SequenceHeader_new SequenceHeader_wf SequenceHeader_fields /\
  message_ok CatchupBuffer_new CatchupBuffer_wf CatchupBuffer_fields /\
  message_ok SocketEndpoint_new SocketEndpoint_wf SocketEndpoint_fields /\
  message_ok TerminalBuffer_new TerminalBuffer_wf TerminalBuffer_fields /\
  message_ok TerminalExitStatus_new TerminalExitStatus_wf TerminalExitStatus_fields /\
  message_ok TerminalInfo_new TerminalInfo_wf TerminalInfo_fields /\
  message_ok PortForwardSourceRequest_new PortForwardSourceRequest_wf PortForwardSourceRequest_fields /\
  message_ok PortForwardSourceResponse_new PortForwardSourceResponse_wf PortForwardSourceResponse_fields /\
  message_ok PortForwardDestinationRequest_new PortForwardDestinationRequest_wf PortForwardDestinationRequest_fields /\
  message_ok PortForwardDestinationResponse_new PortForwardDestinationResponse_wf PortForwardDestinationResponse_fields /\
  message_ok PortForwardData_new PortForwardData_wf PortForwardData_fields /\
  message_ok InitialPayload_new InitialPayload_wf InitialPayload_fields /\
  message_ok InitialResponse_new InitialResponse_wf InitialResponse_fields /\
  message_ok ConfigParams_new ConfigParams_wf ConfigParams_fields /\
  message_ok TermInit_new TermInit_wf TermInit_fields /\
  message_ok TerminalUserInfo_new TerminalUserInfo_wf TerminalUserInfo_fields.
Proof.
  split_and!; eauto using ConnectRequest_ok, ConnectResponse_ok, SequenceHeader_ok, CatchupBuffer_ok,
    SocketEndpoint_ok, TerminalBuffer_ok, TerminalExitStatus_ok, TerminalInfo_ok, PortForwardSourceRequest_ok,
    PortForwardSourceResponse_ok, PortForwardDestinationRequest_ok, PortForwardDestinationResponse_ok,
    PortForwardData_ok, InitialPayload_ok, InitialResponse_ok, ConfigParams_ok, TermInit_ok, TerminalUserInfo_ok.
Qed.

(** ** The records of [Protocol] *)

Definition ConnectRequest_abs (x : ConnectRequest_struct) : Protocol.ConnectRequest :=
  Protocol.MkConnectRequest (as_option ConnectRequest_GetClientId ConnectRequest_HasClientId x)
    (as_option ConnectRequest_GetVersion ConnectRequest_HasVersion x).
Definition ConnectResponse_abs (x : ConnectResponse_struct) : Protocol.ConnectResponse :=
  Protocol.MkConnectResponse (as_option ConnectResponse_GetStatus ConnectResponse_HasStatus x)
    (as_option ConnectResponse_GetError ConnectResponse_HasError x).
Definition SequenceHeader_abs (x : SequenceHeader_struct) : Protocol.SequenceHeader :=
  Protocol.MkSequenceHeader (as_option SequenceHeader_GetSequenceNumber SequenceHeader_HasSequenceNumber x).
(** A nil element of a list of buffers encodes as an empty one. *)
Definition CatchupBuffer_abs (x : CatchupBuffer_struct) : Protocol.CatchupBuffer :=
  Protocol.MkCatchupBuffer (default [] <$> default [] (CatchupBuffer_GetBuffer (Some x))).
Definition TerminalBuffer_abs (x : TerminalBuffer_struct) : Protocol.TerminalBuffer :=
  Protocol.MkTerminalBuffer (default [] <$> as_option TerminalBuffer_GetBuffer TerminalBuffer_HasBuffer x)
    (as_option TerminalBuffer_GetIsStderr TerminalBuffer_HasIsStderr x).
Definition TerminalExitStatus_abs (x : TerminalExitStatus_struct) : Protocol.TerminalExitStatus :=
  Protocol.MkTerminalExitStatus (as_option TerminalExitStatus_GetExitcode TerminalExitStatus_HasExitcode x).
Definition TerminalInfo_abs (x : TerminalInfo_struct) : Protocol.TerminalInfo :=
  Protocol.MkTerminalInfo (as_option TerminalInfo_GetId TerminalInfo_HasId x)
    (as_option TerminalInfo_GetRow TerminalInfo_HasRow x) (as_option TerminalInfo_GetColumn TerminalInfo_HasColumn x)
    (as_option TerminalInfo_GetWidth TerminalInfo_HasWidth x)
    (as_option TerminalInfo_GetHeight TerminalInfo_HasHeight x).
Definition SocketEndpoint_abs (x : SocketEndpoint_struct) : Protocol.SocketEndpoint :=
  Protocol.MkSocketEndpoint (as_option SocketEndpoint_GetName SocketEndpoint_HasName x)
    (as_option SocketEndpoint_GetPort SocketEndpoint_HasPort x).
Definition PortForwardSourceRequest_abs (x : PortForwardSourceRequest_struct) : Protocol.PortForwardSourceRequest :=
  Protocol.MkPortForwardSourceRequest (SocketEndpoint_abs <$> PortForwardSourceRequest_GetSource (Some x))
    (SocketEndpoint_abs <$> PortForwardSourceRequest_GetDestination (Some x))
    (as_option PortForwardSourceRequest_GetEnvironmentvariable PortForwardSourceRequest_HasEnvironmentvariable x).
Definition InitialPayload_abs (x : InitialPayload_struct) : Protocol.InitialPayload :=
  Protocol.MkInitialPayload (as_option InitialPayload_GetJumphost InitialPayload_HasJumphost x)
    ((fun r => PortForwardSourceRequest_abs (default PortForwardSourceRequest_new r))
       <$> default [] (InitialPayload_GetReversetunnels (Some x)))
    (default ∅ (InitialPayload_GetEnvironmentvariables (Some x)))
    (as_option InitialPayload_GetNoPty InitialPayload_HasNoPty x)
    (as_option InitialPayload_GetCommand InitialPayload_HasCommand x)
    (as_option InitialPayload_GetSupportsExitStatus InitialPayload_HasSupportsExitStatus x)
    (as_option InitialPayload_GetNoShell InitialPayload_HasNoShell x).
Definition InitialResponse_abs (x : InitialResponse_struct) : Protocol.InitialResponse :=
  Protocol.MkInitialResponse (as_option InitialResponse_GetError InitialResponse_HasError x).
Definition TerminalUserInfo_abs (x : TerminalUserInfo_struct) : Protocol.TerminalUserInfo :=
  Protocol.MkTerminalUserInfo (as_option TerminalUserInfo_GetId TerminalUserInfo_HasId x)
    (as_option TerminalUserInfo_GetPasskey TerminalUserInfo_HasPasskey x)
    (as_option TerminalUserInfo_GetUid TerminalUserInfo_HasUid x)
    (as_option TerminalUserInfo_GetGid TerminalUserInfo_HasGid x)
    (as_option TerminalUserInfo_GetFd TerminalUserInfo_HasFd x).

(** A Set or a new message, seen as [Protocol]'s record. *)
Ltac view :=
  intros; unfold ConnectRequest_abs, ConnectResponse_abs, SequenceHeader_abs, CatchupBuffer_abs,
    TerminalBuffer_abs, TerminalExitStatus_abs, TerminalInfo_abs, InitialPayload_abs, InitialResponse_abs,
    TerminalUserInfo_abs, as_option; cbn; presence; try done.

(** A getter agrees with the option: absent reads as the default. *)
Lemma get_or_as_option {M T} (get : option M -> T) has (d : T) m :
  (has (Some m) = false -> get (Some m) = d) -> Protocol.get_or d (as_option get has m) = get (Some m).
Proof. unfold as_option. destruct (has (Some m)); [done|]. cbn. intros Hd. by rewrite Hd. Qed.

(** A getter of a struct whose absent field is zero, by that clause of its [wf]. *)
Ltac reads_absent H := apply get_or_as_option; cbn; intros Ha; rewrite ?(H Ha), ?Ha; done.

(** [C38] The records of [Protocol] are what the generated structs show.  A new
    message is the record with every field absent; each Set the client calls
    sets the field of the record and no other; and each Get and Has of a
    well-formed message is the record's. *)
Theorem protocol_refines :
  (* new *)
  (ConnectRequest_abs ConnectRequest_new = Protocol.ConnectRequest_zero /\
   ConnectResponse_abs ConnectResponse_new = Protocol.ConnectResponse_zero /\
   TerminalBuffer_abs TerminalBuffer_new = Protocol.TerminalBuffer_zero /\
   TerminalInfo_abs TerminalInfo_new = Protocol.TerminalInfo_zero /\
   InitialPayload_abs InitialPayload_new = Protocol.InitialPayload_zero /\
   SequenceHeader_abs SequenceHeader_new = Protocol.MkSequenceHeader None /\
   CatchupBuffer_abs CatchupBuffer_new = Protocol.MkCatchupBuffer []) /\
  (* Set *)
  (forall v x, ConnectRequest_abs (ConnectRequest_SetClientId v x) = Protocol.SetClientId v (ConnectRequest_abs x)) /\
  (forall v x, ConnectRequest_abs (ConnectRequest_SetVersion v x) = Protocol.SetVersion v (ConnectRequest_abs x)) /\
  (forall v x, ConnectResponse_abs (ConnectResponse_SetStatus v x) = Protocol.SetStatus v (ConnectResponse_abs x)) /\
  (forall v x, ConnectResponse_abs (ConnectResponse_SetError v x) = Protocol.SetError v (ConnectResponse_abs x)) /\
  (forall v x, SequenceHeader_abs (SequenceHeader_SetSequenceNumber v x) =
     Protocol.SetSequenceNumber v (SequenceHeader_abs x)) /\
  (forall v x, CatchupBuffer_abs (CatchupBuffer_SetBuffer v x) =
     Protocol.SetCatchup (default [] <$> default [] v) (CatchupBuffer_abs x)) /\
  (forall v x, TerminalBuffer_abs (TerminalBuffer_SetBuffer v x) =
     Protocol.SetBuffer (default [] v) (TerminalBuffer_abs x)) /\
  (forall v x, TerminalInfo_abs (TerminalInfo_SetRow v x) = Protocol.SetRow v (TerminalInfo_abs x)) /\
  (forall v x, TerminalInfo_abs (TerminalInfo_SetColumn v x) = Protocol.SetColumn v (TerminalInfo_abs x)) /\
  (forall v x, TerminalInfo_abs (TerminalInfo_SetWidth v x) = Protocol.SetWidth v (TerminalInfo_abs x)) /\
  (forall v x, TerminalInfo_abs (TerminalInfo_SetHeight v x) = Protocol.SetHeight v (TerminalInfo_abs x)) /\
  (forall v x, InitialPayload_abs (InitialPayload_SetSupportsExitStatus v x) =
     Protocol.SetSupportsExitStatus v (InitialPayload_abs x)) /\
  (* Get and Has *)
  (forall x, ConnectRequest_wf x ->
     Protocol.GetClientId (ConnectRequest_abs x) = ConnectRequest_GetClientId (Some x) /\
     Protocol.GetVersion (ConnectRequest_abs x) = ConnectRequest_GetVersion (Some x)) /\
  (forall x, Protocol.GetStatus (ConnectResponse_abs x) = ConnectResponse_GetStatus (Some x)) /\
  (forall x, SequenceHeader_wf x ->
     Protocol.GetSequenceNumber (SequenceHeader_abs x) = SequenceHeader_GetSequenceNumber (Some x)) /\
  (forall x, Protocol.GetCatchup (CatchupBuffer_abs x) = default [] <$> default [] (CatchupBuffer_GetBuffer (Some x))) /\
  (forall x, TerminalBuffer_wf x ->
     Protocol.GetBuffer (TerminalBuffer_abs x) = default [] (TerminalBuffer_GetBuffer (Some x))) /\
  (forall x, TerminalExitStatus_wf x ->
     Protocol.HasExitcode (TerminalExitStatus_abs x) = TerminalExitStatus_HasExitcode (Some x) /\
     Protocol.GetExitcode (TerminalExitStatus_abs x) = TerminalExitStatus_GetExitcode (Some x)) /\
  (forall x, InitialResponse_wf x ->
     Protocol.InitialResponse_GetError (InitialResponse_abs x) = InitialResponse_GetError (Some x)) /\
  (forall x, (forall m, x = Some m -> TerminalUserInfo_wf m) ->
     Protocol.GetId (TerminalUserInfo_abs <$> x) = TerminalUserInfo_GetId x /\
     Protocol.GetUid (TerminalUserInfo_abs <$> x) = TerminalUserInfo_GetUid x /\
     Protocol.GetGid (TerminalUserInfo_abs <$> x) = TerminalUserInfo_GetGid x /\
     Protocol.GetFd (TerminalUserInfo_abs <$> x) = TerminalUserInfo_GetFd x).
Proof.
  assert (forall (m : TerminalUserInfo_struct), TerminalUserInfo_wf m ->
    Protocol.GetId (TerminalUserInfo_abs <$> Some m) = TerminalUserInfo_GetId (Some m) /\
    Protocol.GetUid (TerminalUserInfo_abs <$> Some m) = TerminalUserInfo_GetUid (Some m) /\
    Protocol.GetGid (TerminalUserInfo_abs <$> Some m) = TerminalUserInfo_GetGid (Some m) /\
    Protocol.GetFd (TerminalUserInfo_abs <$> Some m) = TerminalUserInfo_GetFd (Some m)) as Hui.
  { intros m (H1 & _ & H3 & H4 & H5).
    split_and!; [reads_absent H1|reads_absent H3|reads_absent H4|reads_absent H5]. }
  repeat apply conj; try (by view).
  - intros x [H1 H2]. split; [reads_absent H1|reads_absent H2].
  - intros x. reads_absent I.
  - intros x H1. reads_absent H1.
  - intros x H1. unfold Protocol.GetBuffer, TerminalBuffer_abs, as_option. cbn.
    destruct (Present _ 0) eqn:Ha; cbn; [done|]. by rewrite (H1 Ha).
  - intros x H1. split; [|reads_absent H1]. unfold Protocol.HasExitcode, TerminalExitStatus_abs, as_option. cbn.
    by destruct (Present _ 0).
  - intros x H1. reads_absent H1.
  - intros [m|] Hwf; [by apply Hui, Hwf|done].
Qed.
End Messages.

(** ** Enums *)

(** The name map and the value map of an enum are inverse. *)
Definition inverse (name : gmap Z bytes) (value : gmap bytes Z) : Prop :=
  (forall n s, name !! n = Some s -> value !! s = Some n) /\
  (forall s n, value !! s = Some n -> name !! n = Some s).

Lemma inverse_compute name value :
  map_Forall (fun n s => value !! s = Some n) name -> map_Forall (fun s n => name !! n = Some s) value ->
  inverse name value.
Proof. intros H1 H2. split; intros ??; [apply H1|apply H2]. Qed.

Lemma enum_names :
  inverse EtPacketType_name EtPacketType_value /\ inverse ConnectStatus_name ConnectStatus_value /\
  inverse TerminalPacketType_name TerminalPacketType_value.
Proof.
  split_and!; apply inverse_compute;
    match goal with |- ?P => apply (bool_decide_unpack P); vm_compute; exact I end.
Qed.

(** The headers the client uses are the values of the enums. *)
Lemma header_values :
  b2z Protocol.HeaderKeepAlive = TerminalPacketType_KEEP_ALIVE /\
  b2z Protocol.HeaderTerminalBuffer = TerminalPacketType_TERMINAL_BUFFER /\
  b2z Protocol.HeaderTerminalInfo = TerminalPacketType_TERMINAL_INFO /\
  b2z Protocol.HeaderTerminalClose = TerminalPacketType_TERMINAL_CLOSE /\
  b2z Protocol.HeaderTerminalExitStatus = TerminalPacketType_TERMINAL_EXIT_STATUS /\
  b2z Protocol.HeaderInitialResponse = EtPacketType_INITIAL_RESPONSE /\
  b2z Protocol.HeaderInitialPayload = EtPacketType_INITIAL_PAYLOAD.
Proof. by split_and!. Qed.

(** ** On the word of bits *)

Section Example.
#[local] Existing Instance word_presence.

Lemma messages_ok_witness :
  message_ok TerminalInfo_new TerminalInfo_wf TerminalInfo_fields /\
  TerminalInfo_presence (TerminalInfo_SetHeight 5 (TerminalInfo_SetRow 24 TerminalInfo_new)) = 18.
Proof.
  pose proof messages_ok as (_ & _ & _ & _ & _ & _ & _ & H & _). split; [exact H|vm_compute; reflexivity].
Defined.

Lemma protocol_refines_witness :
  TerminalInfo_abs (TerminalInfo_SetRow 24 TerminalInfo_new) = Protocol.MkTerminalInfo None (Some 24) None None None.
Proof.
  destruct protocol_refines as ((_ & _ & _ & Hn & _) & _ & _ & _ & _ & _ & _ & _ & Hr & _).
  rewrite Hr, Hn. reflexivity.
Defined.
End Example.
