(* ===== verification/WirePacket.v ===== *)
(** * internal/wire/packet.go: the packet layout, with Go's slice memory

    [AppendPacket] is documented for a payload that shares memory with the
    buffer it is appended to, so it is modelled over a heap of backing arrays
    in which slices are windows.  [append_packet] and [ParsePacket] are the
    layout itself. *)

From S2P Require Export Protocol.
Local Open Scope nat_scope.

(** ** Arrays and slices *)

(** The heap: a backing array of bytes per location. *)
Abbreviation heap := (gmap nat bytes).

Record sliceh := SliceH { s_arr : nat; s_off : nat; s_len : nat; s_cap : nat }.

(** The bytes a slice denotes. *)
Definition load (m : heap) (s : sliceh) : bytes :=
  take (s_len s) (drop (s_off s) (default [] (m !! s_arr s))).

(** A slice's window lies inside its array. *)
Definition valid (m : heap) (s : sliceh) : Prop :=
  s_len s <= s_cap s /\
  exists a, m !! s_arr s = Some a /\ s_off s + s_cap s <= length a.

(** Overwrite [a] from position [i] with [d]. *)
Definition splice (a : bytes) (i : nat) (d : bytes) : bytes :=
  take i a ++ d ++ drop (i + length d) a.

(** [copy(b[n:], d)] for a window with room: memmove of bytes already read. *)
Definition store (m : heap) (s : sliceh) (n : nat) (d : bytes) : heap :=
  alter (fun a => splice a (s_off s + n) d) (s_arr s) m.

(** [slices.Grow(b, n)]: the same slice when its capacity has room, otherwise
    a new array holding what the old one held within its capacity, with at
    least the room asked for ([slack] is what the runtime rounds up by). *)
Definition Grow (m : heap) (b : sliceh) (n slack : nat) : heap * sliceh :=
  if decide (n <= s_cap b - s_len b) then (m, b)
  else
    let l := fresh (dom m) in
    let c := s_len b + n + slack in
    let old := take (s_cap b) (drop (s_off b) (default [] (m !! s_arr b))) in
    (<[l := take c (old ++ replicate c x00)]> m, SliceH l 0 (s_len b) c).

(** ** AppendPacket *)

Definition flag_byte (encrypted : bool) : byte := if encrypted then x01 else x00.

Definition AppendPacket (m : heap) (slack : nat) (b : sliceh) (encrypted : bool)
    (h : Header) (payload : sliceh) : heap * sliceh :=
  let flag := flag_byte encrypted in
  let n := s_len b in
  let '(m, b) := Grow m b (2 + s_len payload) slack in
  let b := SliceH (s_arr b) (s_off b) (n + 2 + s_len payload) (s_cap b) in
  let m := store m b (n + 2) (load m payload) in
  let m := store m b n [flag] in
  let m := store m b (n + 1) [h] in
  (m, b).

(** The layout: flag byte, header byte, payload. *)
Definition append_packet (b : bytes) (encrypted : bool) (h : Header) (payload : bytes) : bytes :=
  b ++ flag_byte encrypted :: h :: payload.

Definition ParsePacket (b : bytes) : res (bool * Header * bytes) :=
  match b with
  | flag :: h :: payload => Ok (bool_decide (flag <> x00), h, payload)
  | _ => Err (Sentinel ErrShortPacket)
  end.

(** ** Facts *)

Lemma splice_length a i d : i + length d <= length a -> length (splice a i d) = length a.
Proof. intros ?. unfold splice. rewrite !length_app, length_take, length_drop. lia. Qed.

Lemma splice_window a i d off len :
  i + length d <= length a -> off <= i -> i + length d <= off + len ->
  off + len <= length a ->
  take len (drop off (splice a i d)) = splice (take len (drop off a)) (i - off) d.
Proof.
  intros Hi Ho Hl Ha. unfold splice.
  rewrite drop_app_le by (rewrite length_take; lia).
  rewrite skipn_firstn_comm, take_app, take_take.
  rewrite length_take, length_drop.
  replace (len `min` (i - off)) with (i - off) by lia.
  replace (len - (i - off) `min` (length a - off)) with (len - (i - off)) by lia.
  rewrite take_take. replace (Nat.min (i - off) len) with (i - off) by lia. f_equal.
  rewrite take_app, (take_ge d) by lia. f_equal.
  rewrite skipn_firstn_comm, drop_drop. f_equal; [lia|]. f_equal. lia.
Qed.

Lemma load_store m s n d :
  valid m s -> n + length d <= s_len s -> load (store m s n d) s = splice (load m s) n d.
Proof.
  intros (Hc & a & Ha & Hl) Hn. unfold load, store.
  rewrite lookup_alter_eq, Ha. simpl.
  rewrite splice_window by lia. by replace (s_off s + n - s_off s) with n by lia.
Qed.

Lemma valid_store m s n d t :
  valid m t -> valid m s -> n + length d <= s_len s -> valid (store m s n d) t.
Proof.
  intros (Hc & a & Ha & Hl) (Hc' & a' & Ha' & Hl') Hn. split; [done|]. unfold store.
  destruct (decide (s_arr s = s_arr t)) as [He|He].
  - rewrite He in *. rewrite lookup_alter_eq, Ha. eexists. split; [done|].
    simplify_eq. rewrite splice_length; lia.
  - rewrite lookup_alter_ne by done. eauto.
Qed.

Lemma load_length m s : valid m s -> length (load m s) = s_len s.
Proof.
  intros (Hc & a & Ha & Hl). unfold load. rewrite Ha. simpl.
  rewrite length_take, length_drop. lia.
Qed.

(** Growing keeps the contents, gives the room asked for and leaves every
    other slice, the payload included, as it was. *)
Lemma Grow_spec m b n slack m' b' t :
  valid m b -> valid m t -> Grow m b n slack = (m', b') ->
  s_len b' = s_len b /\ s_len b + n <= s_cap b' /\ load m' t = load m t /\ valid m' t /\
  valid m' (SliceH (s_arr b') (s_off b') (s_len b + n) (s_cap b')) /\ load m' b' = load m b.
Proof.
  intros Hb Ht. pose proof Hb as (Hc & a & Ha & Hl). pose proof Ht as (Hct & at' & Hat & Hlt).
  unfold Grow. destruct (decide _) as [Hn|Hn]; intros [= <- <-].
  - split_and!; try done; [lia|]. split; [simpl; lia|]. exists a. simpl. split; [done|lia].
  - set (l := fresh (dom m)). assert (l ∉ dom m) as Hf by apply is_fresh.
    assert (l <> s_arr t) as Hlt' by (intros Heq; apply Hf; apply elem_of_dom; rewrite Heq; eauto).
    rewrite Ha. cbn [s_arr s_off s_len s_cap default option_fmap].
    set (old := take (s_cap b) (drop (s_off b) a)).
    assert (length old = s_cap b) as Hold
      by (unfold old; rewrite length_take, length_drop; lia).
    split_and!; [done|lia| | | |].
    + unfold load. by rewrite lookup_insert_ne.
    + split; [done|]. exists at'. by rewrite lookup_insert_ne.
    + split; [simpl; lia|]. eexists. cbn [s_arr]. rewrite lookup_insert_eq.
      split; [done|]. cbn [s_off s_cap].
      rewrite length_take, length_app, length_replicate. lia.
    + unfold load. cbn [s_arr s_off s_len]. rewrite lookup_insert_eq, Ha. cbn [default].
      unfold id. fold old. rewrite drop_0, take_take, Nat.min_l, take_app_le by lia.
      unfold old. by rewrite take_take, Nat.min_l by lia.
Qed.

Lemma splice_app A X B d i :
  length A = i -> length X = length d -> splice (A ++ X ++ B) i d = A ++ d ++ B.
Proof.
  intros <- HX. unfold splice. rewrite take_app_length, drop_app_add.
  by rewrite <- HX, drop_app_length.
Qed.

(** The three writes of [AppendPacket] fill the window after the buffer. *)
Lemma splice_packet L n d f h :
  length L = n + 2 + length d ->
  splice (splice (splice L (n + 2) d) n [f]) (n + 1) [h] = take n L ++ f :: h :: d.
Proof.
  intros HL. rewrite <- (take_drop n L) at 1.
  assert (length (take n L) = n) as HA by (rewrite length_take; lia).
  pose proof (length_drop L n) as Hd.
  destruct (drop n L) as [|x [|y B]]; cbn [length] in Hd; try lia.
  generalize dependent (take n L). intros A HA.
  transitivity (splice (splice ((A ++ [x; y]) ++ d ++ []) n [f]) (n + 1) [h]).
  - do 2 f_equal. rewrite <- (splice_app (A ++ [x; y]) B [] d (n + 2))
      by (rewrite ?length_app; simpl; lia). by rewrite app_nil_r, <- app_assoc.
  - rewrite app_nil_r, <- app_assoc. cbn [app].
    rewrite (splice_app A [x] (y :: d)) by done.
    change (A ++ [f] ++ y :: d) with (A ++ [f] ++ [y] ++ d). rewrite app_assoc.
    rewrite (splice_app (A ++ [f]) [y] d) by (rewrite ?length_app; simpl; lia). by rewrite <- app_assoc.
Qed.

(** ** Properties *)

(** [AppendPacket] returns the buffer's bytes followed by the serialized
    packet, for any overlap of the payload with the buffer, its spare
    capacity included: the payload is copied before the prefix is written. *)
Theorem AppendPacket_layout m slack b encrypted h payload m' b' :
  valid m b -> valid m payload ->
  AppendPacket m slack b encrypted h payload = (m', b') ->
  load m' b' = append_packet (load m b) encrypted h (load m payload) /\ valid m' b'.
Proof.
  intros Hb Hp. unfold AppendPacket.
  destruct (Grow m b (2 + s_len payload) slack) as [m1 b1] eqn:HG.
  destruct (Grow_spec _ _ _ _ _ _ _ Hb Hp HG) as (Hlen & Hcap & Hload & Hvp & Hv & Hlb).
  rewrite Hload. rewrite Nat.add_assoc in Hv.
  set (b2 := SliceH (s_arr b1) (s_off b1) (s_len b + 2 + s_len payload) (s_cap b1)) in *.
  pose proof (load_length _ _ Hp) as Hpl. intros [= <- <-].
  set (m2 := store m1 b2 (s_len b + 2) (load m payload)).
  set (m3 := store m2 b2 (s_len b) [flag_byte encrypted]).
  assert (valid m2 b2) as Hv2 by (apply valid_store; simpl; [done..|lia]).
  assert (valid m3 b2) as Hv3 by (apply valid_store; simpl; [done..|lia]).
  split; [|apply valid_store; simpl; [done..|lia]].
  rewrite load_store by (simpl; done || lia).
  unfold m3. rewrite load_store by (simpl; done || lia).
  unfold m2. rewrite load_store by (simpl; done || lia).
  pose proof (load_length _ _ Hv) as Hl2. cbn [s_len b2] in Hl2.
  rewrite splice_packet by lia. unfold append_packet. f_equal.
  rewrite <- Hlb. unfold load. rewrite take_take, Hlen. simpl. f_equal. lia.
Qed.

(** The payload sealed into the buffer's own spare capacity, two bytes past
    its end, and one straddling the prefix bytes. *)
Definition witness_heap : heap := {[ 0 := bs "AB....PAYLOAD" ]}.

Lemma AppendPacket_layout_witness :
  let '(m1, s1) := AppendPacket witness_heap 0 (SliceH 0 0 2 13) true x01 (SliceH 0 3 5 8) in
  load m1 s1 = bs "AB" ++ x01 :: x01 :: bs "...PA" /\ valid m1 s1.
Proof.
  assert (valid witness_heap (SliceH 0 0 2 13)) as Hb.
  { split; [simpl; lia|]. exists (bs "AB....PAYLOAD"). split; [reflexivity|simpl; lia]. }
  assert (valid witness_heap (SliceH 0 3 5 8)) as Hp.
  { split; [simpl; lia|]. exists (bs "AB....PAYLOAD"). split; [reflexivity|simpl; lia]. }
  exact (AppendPacket_layout witness_heap 0 (SliceH 0 0 2 13) true x01 (SliceH 0 3 5 8) _ _
    Hb Hp eq_refl).
Defined.

Lemma ParsePacket_append encrypted h payload :
  ParsePacket (append_packet [] encrypted h payload) = Ok (encrypted, h, payload).
Proof. by destruct encrypted. Qed.

(** [ParsePacket] inverts the layout, refuses exactly the packets without
    their two-byte header, and takes any non-zero flag byte as encrypted. *)
Theorem ParsePacket_roundtrip b :
  (forall encrypted h payload,
     ParsePacket (append_packet [] encrypted h payload) = Ok (encrypted, h, payload)) /\
  (ParsePacket b = Err (Sentinel ErrShortPacket) <-> length b < 2) /\
  (forall encrypted h payload, ParsePacket b = Ok (encrypted, h, payload) ->
     exists flag, b = flag :: h :: payload /\ encrypted = bool_decide (flag <> x00)).
Proof.
  split; [intros; apply ParsePacket_append|].
  destruct b as [|f [|h p]]; cbn [ParsePacket length].
  - split; [split; [lia|done]|done].
  - split; [split; [lia|done]|done].
  - split; [split; [done|lia]|]. intros ??? [= <- <- <-]. eauto.
Qed.
