(* ===== verification/Seal.v ===== *)
(** * internal/seal: one direction of the encrypted stream

    The state is a key and a 24-byte nonce that every seal and every open
    advances first.  A [Stream] is a pointer to its state, so copies of a
    stream share the nonce: streams live in a store.  secretbox is a class;
    what the code relies on is that opening inverts sealing, that a box is 16
    bytes longer than its plaintext, and that a box which opens is the one
    box its plaintext seals to (the cipher and its tag are deterministic). *)

From S2P Require Export Wire Protocol.
From stdpp Require Import pretty.
Local Open Scope Z_scope.

(** [secretbox.Overhead]. *)
Definition Overhead : Z := 16.

Class SecretBox := {
  secretbox_Seal : bytes -> bytes -> bytes -> bytes;         (* key, nonce, plaintext *)
  secretbox_Open : bytes -> bytes -> bytes -> option bytes;  (* key, nonce, box *)
  secretbox_open_seal : forall k n p, secretbox_Open k n (secretbox_Seal k n p) = Some p;
  secretbox_length : forall k n p, zlen (secretbox_Seal k n p) = Overhead + zlen p;
  secretbox_auth : forall k n b p, secretbox_Open k n b = Some p -> b = secretbox_Seal k n p
}.

(** ** State and nonce *)

Definition Direction := Z.
Definition ClientToServer : Direction := 0.
Definition ServerToClient : Direction := 1.

Record state := MkState { st_key : bytes; st_nonce : bytes }.

(** [increment]: one more as a little-endian number, carrying while bytes
    wrap to zero. *)
Fixpoint increment (nonce : bytes) : bytes :=
  match nonce with
  | [] => []
  | b :: rest =>
      let b' := z2b (b2z b + 1) in
      if bool_decide (b' <> x00) then b' :: rest else b' :: increment rest
  end.

Definition step (st : state) : state := MkState (st_key st) (increment (st_nonce st)).

(** [New]: a nil key ([None]) and an unknown direction panic. *)
Definition New (key : option bytes) (d : Direction) : res state :=
  if negb (d =? ClientToServer) && negb (d =? ServerToClient) then Panic
  else match key with
       | None => Panic
       | Some k => Ok (MkState k (replicate 23 x00 ++ [z2b d]))
       end.

Section Box.
Context `{SecretBox}.

Definition Seal (st : state) (dst plaintext : bytes) : state * bytes :=
  let st := step st in
  (st, dst ++ secretbox_Seal (st_key st) (st_nonce st) plaintext).

Definition Open (st : state) (dst box : bytes) : state * res bytes :=
  let st := step st in
  match secretbox_Open (st_key st) (st_nonce st) box with
  | None => (st, Err (Sentinel ErrOpen))
  | Some out => (st, Ok (dst ++ out))
  end.
End Box.

(** ** Streams as pointers *)

Record Stream := MkStream { st_loc : nat }.
Abbreviation store := (gmap nat state).

Section Store.
Context `{SecretBox}.

Definition Stream_Seal (m : store) (s : Stream) (dst plaintext : bytes)
  : option (store * bytes) :=
  st ← m !! st_loc s;
  let '(st, box) := Seal st dst plaintext in
  Some (<[st_loc s := st]> m, box).

Definition Stream_Open (m : store) (s : Stream) (dst box : bytes)
  : option (store * res bytes) :=
  st ← m !! st_loc s;
  let '(st, out) := Open st dst box in
  Some (<[st_loc s := st]> m, out).

(** A history of seals and opens through any streams, and the key and nonce
    each one uses. *)
Inductive use := UseSeal (s : Stream) (p : bytes) | UseOpen (s : Stream) (b : bytes).
Definition use_stream (u : use) : Stream :=
  match u with UseSeal s _ | UseOpen s _ => s end.

Definition run_use (m : store) (u : use) : option store :=
  match u with
  | UseSeal s p => fst <$> Stream_Seal m s [] p
  | UseOpen s b => fst <$> Stream_Open m s [] b
  end.

Fixpoint nonces_used (m : store) (us : list use) : list (bytes * bytes) :=
  match us with
  | [] => []
  | u :: us' =>
      match run_use m u with
      | None => nonces_used m us'
      | Some m' =>
          match m' !! st_loc (use_stream u) with
          | Some st => (st_key st, st_nonce st) :: nonces_used m' us'
          | None => nonces_used m' us'
          end
      end
  end.
End Store.

(** ** Rendering *)

Definition last_byte (nonce : bytes) : byte := default x00 (last nonce).

(** A zero Stream has no state. *)
Definition Stream_Format (st : option state) : bytes :=
  match st with
  | None => bs "seal.Stream{}"
  | Some st => bs "seal.Stream{dir:" ++ bs (pretty (b2z (last_byte (st_nonce st)))) ++
               bs " key:REDACTED}"
  end.

Definition Stream_LogValue (st : option state) : list (bytes * slog_value) :=
  match st with
  | None => []
  | Some st => [(bs "dir", SlogInt64 (b2z (last_byte (st_nonce st))));
                (bs "key", SlogString (bs "REDACTED"))]
  end.

(** ** Facts *)

Lemma increment_length n : length (increment n) = length n.
Proof.
  induction n as [|b n IH]; cbn [increment]; [done|].
  destruct (bool_decide _); simpl; [done|by rewrite IH].
Qed.

Lemma le_val_increment n : le_val (increment n) = (le_val n + 1) mod 256 ^ zlen n.
Proof.
  induction n as [|b n IH]; cbn [increment le_val]; [done|].
  pose proof (b2z_range b). pose proof (le_val_range n) as Hr. pose proof (zlen_nonneg n).
  rewrite zlen_cons, Z.pow_add_r by lia. change (256 ^ 1) with 256.
  assert (0 < 256 ^ zlen n) by (apply Z.pow_pos_nonneg; lia).
  destruct (decide (b2z b = 255)) as [Hb|Hb].
  - assert (z2b (b2z b + 1) = x00) as -> by (rewrite Hb; reflexivity).
    rewrite bool_decide_false by naive_solver. cbn [le_val]. rewrite IH.
    change (b2z x00) with 0. rewrite Z.add_0_l.
    replace (b2z b + 256 * le_val n + 1) with (256 * (le_val n + 1)) by lia.
    by rewrite Z.mul_mod_distr_l by lia.
  - assert (b2z (z2b (b2z b + 1)) = b2z b + 1) as Hv
      by (rewrite b2z_z2b, Z.mod_small by lia; done).
    rewrite bool_decide_true; [|intros Hz; rewrite Hz in Hv; change (b2z x00) with 0 in Hv; lia].
    cbn [le_val]. rewrite Hv, Z.mod_small by nia. lia.
Qed.

Fixpoint increments (k : nat) (n : bytes) : bytes :=
  match k with O => n | S k' => increment (increments k' n) end.

Lemma increments_length k n : length (increments k n) = length n.
Proof. induction k; simpl; [done|]. by rewrite increment_length. Qed.

Lemma le_val_increments k n :
  le_val (increments k n) = (le_val n + Z.of_nat k) mod 256 ^ zlen n.
Proof.
  pose proof (zlen_nonneg n).
  assert (0 < 256 ^ zlen n) by (apply Z.pow_pos_nonneg; lia).
  induction k as [|k IH]; cbn [increments].
  - rewrite Z.add_0_r, Z.mod_small; [done|apply le_val_range].
  - rewrite le_val_increment, IH. unfold zlen. rewrite increments_length.
    fold (zlen n). rewrite Z.add_mod_idemp_l by lia. f_equal. lia.
Qed.

Lemma le_val_inj a b : length a = length b -> le_val a = le_val b -> a = b.
Proof.
  intros Hl Hv. rewrite <- (le_bytes_val a), <- (le_bytes_val b). by rewrite Hl, Hv.
Qed.

(** The nonce before the [k]-th operation of direction [d]. *)
Definition nonce_at (d : Z) (k : Z) : bytes := le_bytes 23 k ++ [z2b d].
#[global] Arguments nonce_at : simpl never.

Lemma le_val_app a b : le_val (a ++ b) = le_val a + 256 ^ zlen a * le_val b.
Proof.
  induction a as [|x a IH]; [change (256 ^ zlen []) with 1; cbn [le_val app]; lia|].
  cbn [le_val app]. pose proof (zlen_nonneg a).
  rewrite IH, zlen_cons, Z.pow_add_r by lia. lia.
Qed.

Lemma nonce_at_length d k : length (nonce_at d k) = 24%nat.
Proof. unfold nonce_at. by rewrite length_app, le_bytes_length. Qed.

Lemma le_val_nonce_at d k :
  0 <= k < 2 ^ 184 -> le_val (nonce_at d k) = k + 2 ^ 184 * (d mod 256).
Proof.
  intros Hk. unfold nonce_at. rewrite le_val_app, le_val_bytes.
  unfold zlen. rewrite le_bytes_length. change (256 ^ Z.of_nat 23) with (2 ^ 184).
  rewrite Z.mod_small by lia. cbn [le_val]. rewrite b2z_z2b. lia.
Qed.

Lemma increment_nonce_at d k :
  0 <= k -> k + 1 < 2 ^ 184 -> increment (nonce_at d k) = nonce_at d (k + 1).
Proof.
  intros Hk Hk1. apply le_val_inj.
  - by rewrite increment_length, !nonce_at_length.
  - rewrite le_val_increment, !le_val_nonce_at by lia.
    unfold zlen. rewrite nonce_at_length. change (256 ^ Z.of_nat 24) with (2 ^ 192).
    pose proof (Z.mod_pos_bound d 256 ltac:(lia)).
    rewrite Z.mod_small; [lia|]. change (2 ^ 192) with (2 ^ 184 * 256). lia.
Qed.

Lemma nonce_at_inj d d' k k' :
  0 <= k < 2 ^ 184 -> 0 <= k' < 2 ^ 184 -> nonce_at d k = nonce_at d' k' ->
  k = k' /\ d mod 256 = d' mod 256.
Proof.
  intros Hk Hk' Heq. apply (f_equal le_val) in Heq.
  rewrite !le_val_nonce_at in Heq by done.
  pose proof (Z.mod_pos_bound d 256 ltac:(lia)). pose proof (Z.mod_pos_bound d' 256 ltac:(lia)).
  nia.
Qed.

Lemma New_nonce key d st : New key d = Ok st -> st_nonce st = nonce_at d 0.
Proof.
  unfold New. destruct (_ && _); [done|]. destruct key; [|done]. by intros [= <-].
Qed.

(** ** Properties *)

Section Properties.
Context `{HB : SecretBox}.

(** The state of direction [d] before its [k]-th operation. *)
Definition state_at (key : bytes) (d k : Z) : state := MkState key (nonce_at d k).

Lemma step_state_at key d k :
  0 <= k -> k + 1 < 2 ^ 184 -> step (state_at key d k) = state_at key d (k + 1).
Proof. intros ??. unfold step, state_at. cbn [st_key st_nonce]. by rewrite increment_nonce_at. Qed.

Lemma run_use_other m u s :
  st_loc (use_stream u) <> s -> forall m', run_use m u = Some m' -> m' !! s = m !! s.
Proof.
  intros Hs m'. destruct u as [t p|t b]; simpl in *; unfold Stream_Seal, Stream_Open.
  - destruct (m !! st_loc t); simpl; [|done]. intros [= <-]. by rewrite lookup_insert_ne.
  - destruct (m !! st_loc t); simpl; [|done]. unfold Open.
    destruct (secretbox_Open _ _ _); simpl; intros [= <-]; by rewrite lookup_insert_ne.
Qed.

Lemma run_use_same m u st :
  m !! st_loc (use_stream u) = Some st ->
  run_use m u = Some (<[st_loc (use_stream u) := step st]> m).
Proof.
  intros Hm. destruct u as [t p|t b]; simpl in *; unfold Stream_Seal, Stream_Open;
    rewrite Hm; simpl; [done|]. unfold Open. by destruct (secretbox_Open _ _ _).
Qed.

Lemma run_use_none m u : m !! st_loc (use_stream u) = None -> run_use m u = None.
Proof.
  intros Hm. destruct u as [t p|t b]; simpl in *; unfold Stream_Seal, Stream_Open;
    by rewrite Hm.
Qed.

(** The store of one connection: its outbound stream at location 0 and its
    inbound one at location 1, [c b] operations into each. *)
Definition dir (b : bool) : Direction := if b then ServerToClient else ClientToServer.
Definition loc (b : bool) : nat := if b then 1%nat else 0%nat.

Definition two_streams (m : store) (key : bytes) (c : bool -> Z) : Prop :=
  (forall b, m !! loc b = Some (state_at key (dir b) (c b))) /\
  forall l, (2 <= l)%nat -> m !! l = None.

Definition used_after (key : bytes) (c : bool -> Z) (n : Z) (x : bytes * bytes) : Prop :=
  exists b k, c b < k <= c b + n /\ x = (key, nonce_at (dir b) k).

Definition bump (c : bool -> Z) (b : bool) : bool -> Z :=
  fun b' => if Bool.eqb b b' then c b + 1 else c b'.

Lemma nonce_at_dir_inj b b' k k' :
  0 <= k < 2 ^ 184 -> 0 <= k' < 2 ^ 184 ->
  nonce_at (dir b) k = nonce_at (dir b') k' -> b = b' /\ k = k'.
Proof.
  intros Hk Hk' Heq. apply nonce_at_inj in Heq as [-> Hd]; [|done..].
  split; [|done]. by destruct b, b'.
Qed.

Lemma two_streams_bump m key c b :
  two_streams m key c -> two_streams (<[loc b := state_at key (dir b) (c b + 1)]> m) key (bump c b).
Proof.
  intros [Hm Hl]. unfold bump. split.
  - intros b'. destruct b, b'; cbn [Bool.eqb]; rewrite ?lookup_insert_eq; try done;
      rewrite lookup_insert_ne by done; apply Hm.
  - intros l ?. rewrite lookup_insert_ne by (destruct b; simpl; lia). by apply Hl.
Qed.

Lemma used_after_bump key c b n x :
  used_after key (bump c b) n x -> used_after key c (1 + n) x.
Proof.
  intros (b' & k & Hk & ->). exists b', k. split; [|done]. unfold bump in Hk.
  destruct (Bool.eqb b b') eqn:He; [|lia]. apply eqb_prop in He as ->. lia.
Qed.

Lemma loc_cases l : (exists b, l = loc b) \/ (2 <= l)%nat.
Proof. destruct l as [|[|l]]; [left; by exists false|left; by exists true|right; lia]. Qed.

Lemma nonces_used_spec m key c us :
  two_streams m key c -> (forall b, 0 <= c b /\ c b + zlen us < 2 ^ 184) ->
  NoDup (nonces_used m us) /\ Forall (used_after key c (zlen us)) (nonces_used m us).
Proof.
  revert m c. induction us as [|u us IH]; intros m c Hm Hc; [split; constructor|].
  rewrite zlen_cons in *. pose proof (zlen_nonneg us). cbn [nonces_used].
  destruct (loc_cases (st_loc (use_stream u))) as [[b Hl]|Hl].
  - pose proof (Hc b) as Hcb.
    rewrite (run_use_same _ _ (state_at key (dir b) (c b))), Hl, lookup_insert_eq
      by (rewrite Hl; apply Hm).
    rewrite step_state_at by lia. cbn [st_key st_nonce state_at].
    destruct (IH (<[loc b := state_at key (dir b) (c b + 1)]> m) (bump c b)) as [Hnd Hall].
    { by apply two_streams_bump. }
    { intros b'. pose proof (Hc b'). unfold bump. destruct (Bool.eqb b b'); lia. }
    split.
    + apply NoDup_cons. split; [|done]. intros Hin.
      rewrite Forall_forall in Hall. destruct (Hall _ Hin) as (b' & k & Hk & Heq).
      apply (f_equal snd) in Heq; cbn [snd] in Heq. pose proof (Hc b').
      apply nonce_at_dir_inj in Heq as [<- <-]; unfold bump in Hk.
      -- rewrite Bool.eqb_reflx in Hk. lia.
      -- lia.
      -- destruct (Bool.eqb b b') eqn:E; [apply eqb_prop in E as <-|]; lia.
    + constructor; [exists b, (c b + 1); split; [lia|done]|].
      eapply Forall_impl; [exact Hall|]. intros x. apply used_after_bump.
  - rewrite run_use_none by (apply Hm; lia).
    destruct (IH m c) as [Hnd Hall]; [done|intros b; pose proof (Hc b); lia|].
    split; [done|]. eapply Forall_impl; [exact Hall|].
    intros x (b & k & ? & ->). exists b, k. split; [lia|done].
Qed.

(** [C11] A connection creates its two streams from one key with [New]; whatever
    seals and opens follow, through the streams or copies of them and in
    any order, no nonce is ever used twice under the key (up to the 2^184
    operations after which the counter would reach the direction byte). *)
Theorem nonce_never_reused key out inn us :
  New (Some key) ClientToServer = Ok out -> New (Some key) ServerToClient = Ok inn ->
  zlen us < 2 ^ 184 ->
  NoDup (nonces_used {[ 0%nat := out; 1%nat := inn ]} us).
Proof.
  intros Ho Hi Hl. apply (nonces_used_spec _ key (fun _ => 0)); [|lia].
  unfold New in Ho, Hi. injection Ho as <-. injection Hi as <-. split.
  - intros []; reflexivity.
  - intros l ?. by rewrite lookup_insert_ne, lookup_singleton_ne by lia.
Qed.

(** Sealing a sequence, and opening one, with one stream. *)
Fixpoint seal_all (st : state) (ps : list bytes) : state * list bytes :=
  match ps with
  | [] => (st, [])
  | p :: ps' => let '(st, b) := Seal st [] p in
                let '(st, bs) := seal_all st ps' in (st, b :: bs)
  end.

Fixpoint open_all (st : state) (boxes : list bytes) : state * list (res bytes) :=
  match boxes with
  | [] => (st, [])
  | b :: bs' => let '(st, p) := Open st [] b in
                let '(st, ps) := open_all st bs' in (st, p :: ps)
  end.

(** Boxes opened in the order they were sealed give back the plaintexts,
    and both ends are then at the same nonce. *)
Theorem open_all_seal_all st ps :
  open_all st (snd (seal_all st ps)) = (fst (seal_all st ps), map Ok ps).
Proof.
  revert st. induction ps as [|p ps IH]; intros st; cbn [seal_all open_all]; [done|].
  unfold Seal at 1 2. destruct (seal_all (step st) ps) as [st' bxs] eqn:Hs.
  cbn [fst snd open_all]. unfold Open. rewrite !app_nil_l, secretbox_open_seal.
  specialize (IH (step st)). rewrite Hs in IH. cbn [fst snd] in IH. by rewrite IH.
Qed.

(** What opens at a position is exactly what the key holder seals there: a
    box that is accepted is the seal, under the current nonce, of the
    plaintext returned.  Whatever the outcome, the nonce has advanced by
    one. *)
Theorem Open_authentic st dst box st' r :
  Open st dst box = (st', r) ->
  st' = step st /\
  ((exists p, r = Ok (dst ++ p) /\ Seal st [] p = (st', box)) \/
   r = Err (Sentinel ErrOpen)).
Proof.
  unfold Open, Seal. destruct (secretbox_Open _ _ _) as [p|] eqn:Hp; intros [= <- <-].
  - apply secretbox_auth in Hp. split; [done|]. left. exists p. rewrite app_nil_l. by rewrite Hp.
  - split; [done|by right].
Qed.
End Properties.

(** Rendering a stream shows its direction and nothing else of its state:
    two streams of one direction print alike whatever their keys and nonce
    counters. *)
Theorem Stream_redacted (a b : state) :
  last_byte (st_nonce a) = last_byte (st_nonce b) ->
  Stream_Format (Some a) = Stream_Format (Some b) /\
  Stream_LogValue (Some a) = Stream_LogValue (Some b).
Proof. intros H. unfold Stream_Format, Stream_LogValue. by rewrite H. Qed.

(** ** A concrete box, for the witnesses *)

(** Sixteen bytes of nonce in front of the plaintext: enough to satisfy the
    laws of the class. *)
Definition toy_tag (n : bytes) : bytes := take 16 (n ++ replicate 16 x00).

#[local] Instance toy_box : SecretBox.
Proof.
  refine {|
    secretbox_Seal _ n p := toy_tag n ++ p;
    secretbox_Open _ n b := if bool_decide (take 16 b = toy_tag n) then Some (drop 16 b) else None
  |}.
  - intros _ n p. assert (length (toy_tag n) = 16%nat) as Hl
      by (unfold toy_tag; rewrite length_take, length_app, length_replicate; lia).
    rewrite <- Hl, take_app_length, drop_app_length, bool_decide_true; done.
  - intros _ n p. unfold zlen, toy_tag.
    rewrite length_app, length_take, length_app, length_replicate. unfold Overhead. lia.
  - intros _ n b p. case_bool_decide as Hb; [|done]. intros [= <-].
    by rewrite <- Hb, take_drop.
Defined.

Lemma nonce_never_reused_witness :
  NoDup (nonces_used {[ 0%nat := MkState (bs "key") (nonce_at 0 0);
                        1%nat := MkState (bs "key") (nonce_at 1 0) ]}
    [UseSeal (MkStream 0) (bs "a"); UseOpen (MkStream 1) (bs "b"); UseSeal (MkStream 0) (bs "c")]).
Proof. apply (nonce_never_reused (bs "key")); reflexivity. Defined.

Lemma Open_authentic_witness :
  exists st', st' = step (MkState (bs "key") (nonce_at 0 0)) /\
  ((exists p, Ok (bs "hi") = Ok (bs "" ++ p) /\
     Seal (MkState (bs "key") (nonce_at 0 0)) [] p =
       (st', toy_tag (nonce_at 0 1) ++ bs "hi")) \/
   @Ok bytes (bs "hi") = Err (Sentinel ErrOpen)).
Proof.
  eexists. eapply (Open_authentic (MkState (bs "key") (nonce_at 0 0)) (bs "")
    (toy_tag (nonce_at 0 1) ++ bs "hi")). vm_compute. reflexivity.
Defined.

Lemma Stream_redacted_witness :
  last_byte (nonce_at 1 7) = last_byte (nonce_at 1 99) /\
  Stream_Format (Some (MkState (bs "secret") (nonce_at 1 7))) =
  Stream_Format (Some (MkState (bs "other") (nonce_at 1 99))).
Proof.
  split; [reflexivity|].
  exact (proj1 (Stream_redacted (MkState (bs "secret") (nonce_at 1 7))
    (MkState (bs "other") (nonce_at 1 99)) eq_refl)).
Defined.
