(* ===== verification/Ring.v ===== *)
(** * internal/etcp/ring.go: the replay window

    The ring is a window on the log of all sealed packets.  [sizes] sums the
    packet sizes; [ring_wf] is the invariant of the record; [ring_of_log]
    says which part of a log a ring holds, and the operations refine the
    obvious operations on the log. *)

From S2P Require Export Prelude.
Local Open Scope Z_scope.

Record ring := MkRing {
  r_first : Z;
  r_entries : list bytes;
  r_bytes : Z;
  r_limit : Z;
  r_held : bool;
  r_hold : Z
}.

Definition ring_next (r : ring) : Z := r_first r + zlen (r_entries r).

Definition push (r : ring) (data : bytes) : ring :=
  MkRing (r_first r) (r_entries r ++ [data]) (r_bytes r + zlen data)
    (r_limit r) (r_held r) (r_hold r).

(** The loop of [trim] over the entries not yet dropped: [n] entries are
    dropped so far, [total] bytes remain.  It returns how many to drop and
    the bytes left. *)
Fixpoint trim_loop (r : ring) (keep unsent : Z) (entries : list bytes) (n total : Z) : Z * Z :=
  match entries with
  | [] => (n, total)
  | e :: rest =>
      if (total - unsent >? r_limit r) && (r_first r + n <? keep) then
        if r_held r && (r_first r + n >=? r_hold r) && (total - unsent <=? 2 * r_limit r)
        then (n, total)
        else trim_loop r keep unsent rest (n + 1) (total - zlen e)
      else (n, total)
  end.

Definition trim (r : ring) (keep unsent : Z) : ring :=
  let '(n, total) := trim_loop r keep unsent (r_entries r) 0 (r_bytes r) in
  MkRing (r_first r + n) (zdrop n (r_entries r)) total (r_limit r) (r_held r) (r_hold r).

(** Slicing out of range panics in Go; [None] stands for that. *)
Definition appendRange (r : ring) (dst : list bytes) (from to : Z) : option (list bytes) :=
  (fun l => dst ++ l) <$> slice (r_entries r) (from - r_first r) (to - r_first r).

Definition since (r : ring) (from to : Z) : option (option (list bytes)) :=
  if (from <? r_first r) || (from >? to) || (to >? ring_next r) then Some None
  else Some <$> appendRange r [] from to.

Definition sizes (l : list bytes) : Z := foldr (fun e n => zlen e + n) 0 l.

Definition bytesBetween (r : ring) (from to : Z) : option Z :=
  sizes <$> slice (r_entries r) (from - r_first r) (to - r_first r).

(** ** Invariant and abstraction *)

Definition ring_wf (r : ring) : Prop :=
  0 <= r_first r /\ r_bytes r = sizes (r_entries r).

(** The ring holds the log from [first] on. *)
Definition ring_of_log (r : ring) (log : list bytes) : Prop :=
  0 <= r_first r <= zlen log /\ r_entries r = zdrop (r_first r) log /\
  r_bytes r = sizes (r_entries r).

(** ** Facts *)

Lemma sizes_app a b : sizes (a ++ b) = sizes a + sizes b.
Proof. induction a; simpl; lia. Qed.

Lemma sizes_nonneg l : 0 <= sizes l.
Proof. induction l as [|e l IH]; simpl; [lia|]. pose proof (zlen_nonneg e). lia. Qed.

Lemma sizes_take_drop n l : sizes l = sizes (ztake n l) + sizes (zdrop n l).
Proof. rewrite <- sizes_app. by rewrite ztake_zdrop. Qed.

Lemma zdrop_cons {A} (e : A) l n : 0 < n -> zdrop n (e :: l) = zdrop (n - 1) l.
Proof.
  intros ?. unfold zdrop. replace (Z.to_nat n) with (S (Z.to_nat (n - 1))) by lia. done.
Qed.

(** What the trimming loop stops at: it dropped [k] entries, all of them
    older than [keep]; the written bytes left are within the limit, or the
    next entry is the first not yet written, or it is protected by the hold
    and the written bytes are within twice the limit. *)
Definition trim_stop (r : ring) (keep unsent : Z) (rest : list bytes) (n total : Z) : Prop :=
  rest = [] \/ total - unsent <= r_limit r \/ keep <= r_first r + n \/
  (r_held r = true /\ r_hold r <= r_first r + n /\ total - unsent <= 2 * r_limit r).

Lemma trim_loop_spec r keep unsent entries n total n' total' :
  trim_loop r keep unsent entries n total = (n', total') ->
  exists k, n' = n + k /\ 0 <= k <= zlen entries /\
    total' = total - sizes (ztake k entries) /\
    (0 < k -> r_first r + n + k <= keep) /\
    trim_stop r keep unsent (zdrop k entries) n' total' /\
    (forall j, 0 <= j < k ->
       ~ trim_stop r keep unsent (zdrop j entries) (n + j) (total - sizes (ztake j entries))).
Proof.
  revert n total. induction entries as [|e rest IH]; intros n total; cbn [trim_loop].
  { intros [= <- <-]. exists 0. change (zlen []) with 0.
    split_and!; [lia|lia|lia|by rewrite ztake_0, Z.sub_0_r|lia|by left|lia]. }
  assert (trim_stop r keep unsent (e :: rest) n total ->
    (n, total) = (n', total') -> exists k, n' = n + k /\ 0 <= k <= zlen (e :: rest) /\
    total' = total - sizes (ztake k (e :: rest)) /\
    (0 < k -> r_first r + n + k <= keep) /\
    trim_stop r keep unsent (zdrop k (e :: rest)) n' total' /\
    (forall j, 0 <= j < k -> ~ trim_stop r keep unsent (zdrop j (e :: rest)) (n + j)
       (total - sizes (ztake j (e :: rest))))) as Hstop.
  { intros Hs [= <- <-]. exists 0. pose proof (zlen_nonneg (e :: rest)).
    rewrite ztake_0, zdrop_0 by lia.
    split_and!; [lia|lia|lia|cbn; lia|lia|by rewrite ?Z.add_0_r|lia]. }
  destruct (Z.gtb_spec (total - unsent) (r_limit r)) as [Hgt|Hle]; cbn [andb];
    [|apply Hstop; right; left; lia].
  destruct (Z.ltb_spec (r_first r + n) keep) as [Hk|Hk];
    [|apply Hstop; right; right; left; lia].
  destruct (r_held r && (r_first r + n >=? r_hold r) && (total - unsent <=? 2 * r_limit r)) eqn:Hh.
  { apply Hstop. rewrite Z.geb_leb, !andb_true_iff, !Z.leb_le in Hh.
    right; right; right. naive_solver lia. }
  intros (k & -> & Hk0 & -> & Hkeep & Hst & Hmin)%IH. exists (k + 1).
  rewrite zlen_cons, zdrop_cons by lia. replace (k + 1 - 1) with k by lia.
  assert (forall j, 0 <= j -> sizes (ztake (j + 1) (e :: rest)) = zlen e + sizes (ztake j rest)) as Hsz.
  { intros j ?. unfold ztake. by replace (Z.to_nat (j + 1)) with (S (Z.to_nat j)) by lia. }
  rewrite Hsz by lia. split_and!; try lia.
  - replace (n + (k + 1)) with (n + 1 + k) by lia.
    by replace (total - (zlen e + sizes (ztake k rest))) with (total - zlen e - sizes (ztake k rest)) by lia.
  - intros j Hj. destruct (decide (j = 0)) as [->|Hj0].
    + rewrite ztake_0, zdrop_0, Z.add_0_r, Z.sub_0_r by lia. unfold trim_stop.
      intros [?|[?|[?|(Hh' & ? & ?)]]]; [done|lia|lia|].
      rewrite Z.geb_leb, Hh' in Hh. destruct (Z.leb_spec (r_hold r) (r_first r + n)); [|lia].
      destruct (Z.leb_spec (total - unsent) (2 * r_limit r)); [done|lia].
    + rewrite zdrop_cons by lia.
      replace (sizes (ztake j (e :: rest))) with (zlen e + sizes (ztake (j - 1) rest))
        by (rewrite <- Hsz by lia; do 2 f_equal; lia).
      replace (n + j) with (n + 1 + (j - 1)) by lia.
      replace (total - (zlen e + sizes (ztake (j - 1) rest)))
        with (total - zlen e - sizes (ztake (j - 1) rest)) by lia.
      apply Hmin. lia.
Qed.

Lemma sizes_zdrop_le a b l : 0 <= a <= b -> sizes (zdrop b l) <= sizes (zdrop a l).
Proof.
  intros ?. rewrite (sizes_take_drop (b - a) (zdrop a l)).
  rewrite zdrop_zdrop by lia. replace (b - a + a) with b by lia.
  pose proof (sizes_nonneg (ztake (b - a) (zdrop a l))). lia.
Qed.

Lemma sizes_lookup_le l i e n :
  l !! i = Some e -> n = zlen e -> n <= sizes l.
Proof.
  intros Hi ->. rewrite <- (take_drop_middle _ _ _ Hi), sizes_app. cbn [sizes foldr].
  fold (sizes (drop (S i) l)).
  pose proof (sizes_nonneg (take i l)). pose proof (sizes_nonneg (drop (S i) l)). lia.
Qed.

Lemma ring_of_log_wf r log : ring_of_log r log -> ring_wf r.
Proof. intros (? & _ & ?). split; [lia|done]. Qed.

Lemma ring_of_log_next r log : ring_of_log r log -> ring_next r = zlen log.
Proof. intros (? & He & _). unfold ring_next. rewrite He. zlia. Qed.

Lemma push_of_log r log data :
  ring_of_log r log -> ring_of_log (push r data) (log ++ [data]).
Proof.
  intros (Hf & He & Hb). unfold ring_of_log. cbn [push r_first r_entries r_bytes].
  rewrite zlen_app, zdrop_app_le by lia. split_and!; [lia| |by rewrite He|].
  - rewrite zlen_cons. change (zlen []) with 0. lia.
  - rewrite sizes_app, Hb. simpl. lia.
Qed.

(** Written bytes from sequence [s] on, when [keep] is the next to write. *)
Definition written_from (r : ring) (s keep : Z) : Z :=
  sizes (ztake (keep - s) (zdrop (s - r_first r) (r_entries r))).

(** ** Properties *)

Lemma trim_props r keep unsent :
  ring_wf r -> r_first r <= keep <= ring_next r -> 0 <= r_limit r ->
  unsent = sizes (zdrop (keep - r_first r) (r_entries r)) ->
  let r' := trim r keep unsent in
  ring_wf r' /\ r_first r <= r_first r' <= keep /\
  r_entries r' = zdrop (r_first r' - r_first r) (r_entries r) /\
  ring_next r' = ring_next r /\
  (r_bytes r' - unsent <= r_limit r \/
   r_held r = true /\ r_hold r <= r_first r' /\ r_bytes r' - unsent <= 2 * r_limit r) /\
  (forall s, r_first r <= s < r_first r' ->
     r_limit r < written_from r s keep /\
     (r_held r = true -> r_hold r <= s -> 2 * r_limit r < written_from r s keep)).
Proof.
  intros [Hf Hb] Hkeep Hlim Hun. unfold trim.
  destruct (trim_loop r keep unsent (r_entries r) 0 (r_bytes r)) as [n total] eqn:Ht.
  apply trim_loop_spec in Ht as (k & -> & Hk & -> & Hkk & Hstop & Hmin).
  rewrite Z.add_0_l in *. cbn [r_first r_entries r_bytes]. cbv zeta.
  unfold ring_next in *. cbn [r_first r_entries].
  pose proof (sizes_take_drop k (r_entries r)) as Hs.
  assert (r_first r + k <= keep) as Hle by (destruct (decide (k = 0)); lia).
  pose proof (sizes_zdrop_le k (keep - r_first r) (r_entries r) ltac:(lia)).
  replace (r_first r + k - r_first r) with k by lia.
  split_and!; try lia; try done.
  - split; cbn [r_first r_bytes r_entries]; lia.
  - rewrite zlen_zdrop. lia.
  - destruct Hstop as [Hnil|[?|[?|?]]]; [|by left| |by right; naive_solver].
    + left. rewrite Hnil in Hs. simpl in Hs. pose proof (sizes_nonneg (zdrop (keep - r_first r) (r_entries r))). lia.
    + left. replace (keep - r_first r) with k in * by lia. lia.
  - intros s Hsk. assert (written_from r s keep =
      r_bytes r - sizes (ztake (s - r_first r) (r_entries r)) - unsent) as ->.
    { unfold written_from. pose proof (sizes_take_drop (s - r_first r) (r_entries r)).
      pose proof (sizes_take_drop (keep - s) (zdrop (s - r_first r) (r_entries r))) as H2.
      rewrite zdrop_zdrop in H2 by lia. replace (keep - s + (s - r_first r)) with (keep - r_first r) in H2 by lia.
      lia. }
    specialize (Hmin (s - r_first r) ltac:(lia)). unfold trim_stop in Hmin.
    replace (r_first r + (s - r_first r)) with s in Hmin by lia.
    split; [|intros ??]; apply Z.nle_gt; intros ?; apply Hmin; [right; left; lia|].
    right; right; right. split_and!; [done|lia|lia].
Qed.

(** [trim] drops a prefix of the window and nothing else: never an entry at
    or after [keep]; what remains of the written entries is within the limit,
    or within twice the limit with the hold reached; and no entry was dropped
    that the limits allowed to keep. *)
Theorem trim_spec r keep unsent :
  ring_wf r -> r_first r <= keep <= ring_next r -> 0 <= r_limit r ->
  unsent = sizes (zdrop (keep - r_first r) (r_entries r)) ->
  let r' := trim r keep unsent in
  ring_wf r' /\ r_first r <= r_first r' <= keep /\
  r_entries r' = zdrop (r_first r' - r_first r) (r_entries r) /\
  ring_next r' = ring_next r /\
  (r_bytes r' - unsent <= r_limit r \/
   r_held r = true /\ r_hold r <= r_first r' /\ r_bytes r' - unsent <= 2 * r_limit r) /\
  (forall s, r_first r <= s < r_first r' ->
     r_limit r < written_from r s keep /\
     (r_held r = true -> r_hold r <= s -> 2 * r_limit r < written_from r s keep)).
Proof. exact (trim_props r keep unsent). Qed.

(** The ring of a history: a limit of 4, three packets, the first two written. *)
Definition example_ring : ring :=
  push (push (push (MkRing 5 [] 0 4 false 0) (bs "abc")) (bs "defg")) (bs "hi").

Lemma trim_spec_witness :
  ring_wf (trim example_ring 7 2) /\ r_first (trim example_ring 7 2) = 6 /\
  r_entries (trim example_ring 7 2) = [bs "defg"; bs "hi"].
Proof.
  assert (ring_wf example_ring) as Hwf by (split; [by vm_compute|reflexivity]).
  assert (r_first example_ring <= 7 <= ring_next example_ring) as Hk by (split; by vm_compute).
  assert (0 <= r_limit example_ring) as Hl by by vm_compute.
  split; [exact (proj1 (trim_spec example_ring 7 2 Hwf Hk Hl eq_refl))|].
  split; reflexivity.
Defined.

Lemma trim_of_log r log keep unsent :
  ring_of_log r log -> r_first r <= keep <= zlen log -> 0 <= r_limit r ->
  unsent = sizes (zdrop keep log) -> ring_of_log (trim r keep unsent) log.
Proof.
  intros Hr Hkeep Hlim Hun. pose proof (ring_of_log_next _ _ Hr) as Hn.
  pose proof Hr as (Hf & He & Hb).
  destruct (trim_props r keep unsent) as ([Hf' Hb'] & Hfk & He' & _ & _).
  - by eapply ring_of_log_wf.
  - lia.
  - done.
  - rewrite Hun, He, zdrop_zdrop by lia. do 2 f_equal. lia.
  - split; [lia|]. split; [|done]. rewrite He', He, zdrop_zdrop by lia. f_equal. lia.
Qed.

Lemma since_log r log from to :
  ring_of_log r log ->
  since r from to =
    Some (if decide (r_first r <= from <= to /\ to <= zlen log)
          then Some (ztake (to - from) (zdrop from log)) else None).
Proof.
  intros Hr. pose proof (ring_of_log_next _ _ Hr) as Hn. destruct Hr as (Hf & He & Hb).
  unfold since. rewrite Hn, Z.gtb_ltb, Z.gtb_ltb.
  destruct (Z.ltb_spec from (r_first r)); [rewrite decide_False by lia; done|].
  destruct (Z.ltb_spec to from); [rewrite decide_False by lia; done|].
  destruct (Z.ltb_spec (zlen log) to); [rewrite decide_False by lia; done|].
  rewrite decide_True by lia. cbn [orb]. unfold appendRange. unfold ring_next in Hn.
  rewrite slice_Some by lia. cbn. rewrite He, zdrop_zdrop by lia.
  replace (from - r_first r + r_first r) with from by lia.
  by replace (to - r_first r - (from - r_first r)) with (to - from) by lia.
Qed.

(** [C12] [since] refines reading the log: it returns a copy of exactly the packets
    [from, to) when the window still holds them, refuses exactly when [from]
    is older than the window, the range is backwards or it reaches past the
    last packet, and never panics. *)
Theorem since_refines_log r log from to :
  ring_of_log r log ->
  since r from to =
    Some (if decide (r_first r <= from <= to /\ to <= zlen log)
          then Some (ztake (to - from) (zdrop from log)) else None).
Proof. exact (since_log r log from to). Qed.

Lemma since_refines_log_witness :
  since (trim example_ring 7 2) 6 8 = Some (Some [bs "defg"; bs "hi"]).
Proof.
  assert (ring_of_log (trim example_ring 7 2)
    ([[]; []; []; []; []] ++ [bs "abc"; bs "defg"; bs "hi"])) as Hr
    by (split; [split; by vm_compute|split; reflexivity]).
  exact (since_refines_log _ _ 6 8 Hr).
Defined.

Lemma appendRange_of_log r log dst from to :
  ring_of_log r log -> r_first r <= from <= to -> to <= zlen log ->
  appendRange r dst from to = Some (dst ++ ztake (to - from) (zdrop from log)).
Proof.
  intros Hr ??. pose proof (ring_of_log_next _ _ Hr) as Hn. destruct Hr as (Hf & He & Hb).
  unfold appendRange. unfold ring_next in Hn. rewrite slice_Some by lia. cbn.
  rewrite He, zdrop_zdrop by lia.
  replace (from - r_first r + r_first r) with from by lia.
  by replace (to - r_first r - (from - r_first r)) with (to - from) by lia.
Qed.

Lemma bytesBetween_of_log r log from to :
  ring_of_log r log -> r_first r <= from <= to -> to <= zlen log ->
  bytesBetween r from to = Some (sizes (zdrop from log) - sizes (zdrop to log)).
Proof.
  intros Hr ??. pose proof (ring_of_log_next _ _ Hr) as Hn. destruct Hr as (Hf & He & Hb).
  unfold bytesBetween. unfold ring_next in Hn. rewrite slice_Some by lia. cbn. f_equal.
  rewrite He, zdrop_zdrop by lia. replace (from - r_first r + r_first r) with from by lia.
  pose proof (sizes_take_drop (to - from) (zdrop from log)) as H2.
  rewrite zdrop_zdrop in H2 by lia. replace (to - from + from) with to in H2 by lia.
  replace (to - r_first r - (from - r_first r)) with (to - from) by lia. lia.
Qed.
