(* ===== verification/Backoff.v ===== *)
(** * internal/etcp/backoff.go: the reconnect schedule

    The jitter is float64 arithmetic.  A float64 in the range that occurs
    here is a dyadic number; [rnd] rounds an exact result to 53 significant
    bits, ties to even, as IEEE 754 does for normal numbers.  The sum
    [0.8 + 0.4*j] may be fused into one rounding, which Go permits and does on
    some architectures, so both forms are covered. *)

From S2P Require Export Prelude.
Local Open Scope Z_scope.

(** ** float64 values [m / 2^s] *)

Record dyadic := Dyadic { d_m : Z; d_s : Z }.

(** Nearest multiple of [2^k], ties to the even multiple. *)
Definition round_even (m k : Z) : Z :=
  let q := m / 2 ^ k in
  let r := m mod 2 ^ k in
  let up := (2 ^ k <? 2 * r) || ((2 * r =? 2 ^ k) && Z.odd q) in
  (if up then q + 1 else q) * 2 ^ k.

Definition rnd (x : dyadic) : dyadic :=
  let k := Z.log2 (d_m x) - 52 in
  if k <=? 0 then x else Dyadic (round_even (d_m x) k) (d_s x).

Definition dmul (x y : dyadic) : dyadic := Dyadic (d_m x * d_m y) (d_s x + d_s y).
Definition dadd (x y : dyadic) : dyadic :=
  Dyadic (d_m x * 2 ^ (d_s y) + d_m y * 2 ^ (d_s x)) (d_s x + d_s y).

(** The float64 constants 0.8 and 0.4. *)
Definition f0_8 : dyadic := Dyadic 7205759403792794 53.
Definition f0_4 : dyadic := Dyadic 7205759403792794 54.

(** [time.Duration(f)]: truncation of a non-negative float64. *)
Definition trunc (x : dyadic) : Z := d_m x / 2 ^ d_s x.

(** [0.8 + 0.4*j]. *)
Definition jitter_factor (fused : bool) (j : dyadic) : dyadic :=
  rnd (dadd f0_8 (if fused then dmul f0_4 j else rnd (dmul f0_4 j))).

(** ** The schedule, in nanoseconds *)

Definition backoffBase : Z := 250 * 1000000.
Definition backoffMax : Z := 5 * 1000000000.
Definition backoffReset : Z := 30 * 1000000000.

Record backoff := MkBackoff { b_attempt : Z }.

(** The delay before jitter of attempt [n >= 1]. *)
Definition backoff_base_delay (n : Z) : Z :=
  Z.min (Z.shiftl backoffBase (Z.min (n - 1) 5)) backoffMax.

(** [next]: [j] is what the jitter source returns if it is asked. *)
Definition backoff_next (fused : bool) (b : backoff) (j : dyadic) : backoff * Z :=
  let n := b_attempt b in
  let b := MkBackoff (n + 1) in
  if n =? 0 then (b, 0)
  else
    let d := backoff_base_delay n in
    let d := trunc (rnd (dmul (Dyadic d 0) (jitter_factor fused j))) in
    (b, Z.min d backoffMax).

Definition backoff_reset (b : backoff) : backoff := MkBackoff 0.

(** A value the jitter source may return: a multiple of 2^-53 in [0, 1). *)
Definition jitter_value (j : dyadic) : Prop := 0 <= d_m j < 2 ^ 53 /\ d_s j = 53.

(** ** Facts *)

(** Rounding moves a value by at most one part in 2^53. *)
Lemma rnd_error x :
  0 <= d_m x ->
  d_s (rnd x) = d_s x /\ 0 <= d_m (rnd x) /\
  2 ^ 53 * Z.abs (d_m (rnd x) - d_m x) <= d_m x.
Proof.
  intros Hm. unfold rnd. destruct (Z.leb_spec (Z.log2 (d_m x) - 52) 0) as [Hk|Hk].
  { split_and!; [done|done|]. rewrite Z.sub_diag. lia. }
  cbn [d_m d_s]. assert (0 < d_m x) as Hpos.
  { apply Z.log2_lt_cancel. change (Z.log2 0) with 0. lia. }
  pose proof (Z.log2_spec _ Hpos) as [Hlog _].
  set (k := Z.log2 (d_m x) - 52) in *.
  assert (2 ^ Z.log2 (d_m x) = 2 ^ k * 2 ^ 52) as Hp.
  { rewrite <- Z.pow_add_r by lia. f_equal. lia. }
  assert (0 < 2 ^ k) by (apply Z.pow_pos_nonneg; lia).
  unfold round_even. pose proof (Z.div_mod (d_m x) (2 ^ k) ltac:(lia)) as Hdm.
  pose proof (Z.mod_pos_bound (d_m x) (2 ^ k) ltac:(lia)).
  assert (0 <= d_m x / 2 ^ k) by (apply Z.div_pos; lia).
  set (q := d_m x / 2 ^ k) in *. set (r := d_m x mod 2 ^ k) in *.
  change (2 ^ 53) with (2 * 2 ^ 52).
  destruct (Z.ltb_spec (2 ^ k) (2 * r)); cbn [orb].
  - split_and!; [done|nia|]. rewrite Z.abs_eq by lia. nia.
  - destruct ((2 * r =? 2 ^ k) && Z.odd q) eqn:Ht.
    + apply andb_true_iff in Ht as [Ht%Z.eqb_eq _].
      split_and!; [done|nia|]. rewrite Z.abs_eq by lia. nia.
    + split_and!; [done|nia|]. rewrite Z.abs_neq by lia. nia.
Qed.

Lemma backoff_base_delay_range n :
  1 <= n -> backoffBase <= backoff_base_delay n <= backoffMax.
Proof.
  intros Hn. unfold backoff_base_delay. rewrite Z.shiftl_mul_pow2 by lia.
  assert (2 ^ 0 <= 2 ^ Z.min (n - 1) 5) by (apply Z.pow_le_mono_r; lia).
  unfold backoffBase, backoffMax. lia.
Qed.

(** The jitter factor lies between 0.8 and 1.2, up to rounding: its
    numerator over 2^160 (2^106 fused operands aside) is bounded. *)
Lemma jitter_factor_bounds fused j :
  jitter_value j ->
  exists s, d_s (jitter_factor fused j) = s /\ 0 <= s /\
    (8 * 2 ^ s * (2 ^ 52 - 1) <= 10 * d_m (jitter_factor fused j) * 2 ^ 52) /\
    (10 * d_m (jitter_factor fused j) * 2 ^ 50 <= 12 * 2 ^ s * (2 ^ 50 + 1)).
Proof.
  intros [Hj Hs]. unfold jitter_factor.
  set (t := if fused then dmul f0_4 j else rnd (dmul f0_4 j)).
  assert (0 <= d_m (dmul f0_4 j)) as Hm by (unfold dmul, f0_4; cbn [d_m]; lia).
  assert (d_s t = 107 /\ 0 <= d_m t /\
    2 ^ 53 * d_m t <= 7205759403792794 * 2 ^ 53 * (2 ^ 53 + 1)) as (Hts & Ht0 & Ht1).
  { assert (d_s (dmul f0_4 j) = 107) as Hds by (unfold dmul, f0_4; cbn [d_s]; lia).
    assert (d_m (dmul f0_4 j) = 7205759403792794 * d_m j) as Hdm by done.
    unfold t. destruct fused; [lia|]. pose proof (rnd_error _ Hm) as (-> & ? & ?). lia. }
  pose proof (rnd_error (dadd f0_8 t)) as Hr.
  assert (d_m (dadd f0_8 t) = 7205759403792794 * 2 ^ 107 + d_m t * 2 ^ 53) as Hdm
    by (unfold dadd, f0_8; cbn [d_m d_s]; by rewrite Hts).
  assert (d_s (dadd f0_8 t) = 160) as Hds by (unfold dadd, f0_8; cbn [d_m d_s]; lia).
  rewrite Hdm, Hds in Hr. destruct Hr as (Hrs & Hr0 & Hr1); [lia|].
  exists 160. split_and!; [done|lia| |]; lia.
Qed.

(** Scaling a delay by a factor so bounded, rounding and truncating. *)
Lemma scaled_delay_bounds d f s :
  backoffBase <= d <= backoffMax -> d_s f = s -> 0 <= s ->
  8 * 2 ^ s * (2 ^ 52 - 1) <= 10 * d_m f * 2 ^ 52 ->
  10 * d_m f * 2 ^ 50 <= 12 * 2 ^ s * (2 ^ 50 + 1) ->
  let r := Z.min (trunc (rnd (dmul (Dyadic d 0) f))) backoffMax in
  8 * d <= 10 * (r + 1) /\ 10 * r <= 12 * d + 10 /\ 199999999 <= r <= backoffMax.
Proof.
  unfold backoffBase, backoffMax. intros Hd Hs Hs0 Hlo Hhi. cbv zeta.
  assert (0 < 2 ^ s) as Hp by (apply Z.pow_pos_nonneg; lia).
  assert (0 <= d_m f) as Hf by nia.
  pose proof (rnd_error (dmul (Dyadic d 0) f)) as Hr.
  assert (d_m (dmul (Dyadic d 0) f) = d * d_m f) as Hm by done.
  assert (d_s (dmul (Dyadic d 0) f) = s) as Hds by (unfold dmul; cbn [d_s]; lia).
  rewrite Hm, Hds in Hr. destruct Hr as (Hrs & Hr0 & Hr1); [nia|].
  unfold trunc. rewrite Hrs. generalize dependent (d_m (rnd (dmul (Dyadic d 0) f))).
  intros p Hp0 Hp1. clear Hrs Hm Hds.
  generalize dependent (d_m f). intros m Hlo Hhi Hf0 Hp1.
  assert (8 * d * 2 ^ s <= 10 * p + 2 ^ s) as Hlow by nia.
  assert (10 * p <= 12 * d * 2 ^ s + 2 ^ s) as Hhigh by nia.
  pose proof (Z.div_mod p (2 ^ s) ltac:(lia)). pose proof (Z.mod_pos_bound p (2 ^ s) ltac:(lia)).
  generalize dependent (p / 2 ^ s). intros q Hq.
  assert (8 * d <= 10 * (q + 1)) by nia.
  assert (10 * q <= 12 * d + 1) by nia. lia.
Qed.

(** ** Properties *)

(** [C13] The schedule: no delay before the first attempt; before attempt [n] the
    unclamped doubling, capped at 5 s, within 20% either way (to the
    nanosecond) and never above the cap.  So a redial loop never runs hot:
    every delay after the first attempt is at least 199999999 ns. *)
Theorem backoff_next_bounds fused n j :
  jitter_value j -> 0 <= n ->
  let '(b, d) := backoff_next fused (MkBackoff n) j in
  b_attempt b = n + 1 /\
  if n =? 0 then d = 0 else
    backoff_base_delay n = Z.min (backoffBase * 2 ^ (n - 1)) backoffMax /\
    8 * backoff_base_delay n <= 10 * (d + 1) /\
    10 * d <= 12 * backoff_base_delay n + 10 /\ 199999999 <= d <= backoffMax.
Proof.
  intros Hj Hn. unfold backoff_next. cbn [b_attempt].
  destruct (Z.eqb_spec n 0) as [->|Hn0]; [done|]. split; [done|].
  split.
  { unfold backoff_base_delay. rewrite Z.shiftl_mul_pow2 by lia.
    destruct (Z.le_gt_cases (n - 1) 5) as [Hle|Hgt]; [by rewrite (Z.min_l (n - 1))|].
    rewrite (Z.min_r (n - 1)) by lia.
    assert (2 ^ 5 <= 2 ^ (n - 1)) by (apply Z.pow_le_mono_r; lia).
    unfold backoffBase, backoffMax. lia. }
  pose proof (backoff_base_delay_range n ltac:(lia)) as Hd.
  destruct (jitter_factor_bounds fused j Hj) as (s & Hs & Hs0 & Hlo & Hhi).
  apply (scaled_delay_bounds _ _ s); done.
Qed.

Lemma backoff_next_bounds_witness :
  snd (backoff_next false (MkBackoff 3) (Dyadic (2 ^ 52) 53)) = 1000000000 /\
  8 * backoff_base_delay 3 <= 10 * (1000000000 + 1).
Proof.
  assert (jitter_value (Dyadic (2 ^ 52) 53)) as Hj by (split; [split; by vm_compute|reflexivity]).
  pose proof (backoff_next_bounds false 3 (Dyadic (2 ^ 52) 53) Hj ltac:(lia)) as H.
  split; [vm_compute; reflexivity|].
  assert (backoff_next false (MkBackoff 3) (Dyadic (2 ^ 52) 53) = (MkBackoff 4, 1000000000)) as E
    by (vm_compute; reflexivity).
  rewrite E in H. apply H.
Defined.
