(* ===== verification/Conn.v ===== *)
(** * internal/etcp/conn.go: the packet connection

    The fields of [Conn] are grouped by owner: [outbound] is what [mu]
    guards, [inbound] belongs to whichever goroutine reads, and the record
    itself adds the channels and the lifetime context.  Each critical section
    is one function on the state, so an interleaving of goroutines is a
    sequence of such functions; a blocking select is a function of the case
    that fires.  A context is [None] while alive and its cause once it ended. *)

From S2P Require Export Wire WirePacket Seal Ring.
Local Open Scope Z_scope.

Definition inboxSize : nat := 64.
Definition maxPayload : Z := MaxFrameSize - 2 - Overhead.

Record outbound := MkOutbound {
  o_out : state;
  o_ring : ring;
  o_flushed : Z;
  o_unsent : Z;
  o_lastProbe : Z
}.

Record inbound := MkInbound {
  i_in : state;
  i_recvSeq : Z;
  i_pending : list Packet
}.

Record Conn := MkConn {
  c_id : bytes;
  c_keepAlive : Z;
  c_probe : Packet;
  c_ctx : option gerr;
  c_out : outbound;
  c_in : inbound;
  c_readerDone : bool;
  c_inbox : list Packet;
  c_wake : bool;
  c_space : bool
}.

Definition set_out (o : outbound) (c : Conn) : Conn :=
  MkConn (c_id c) (c_keepAlive c) (c_probe c) (c_ctx c) o (c_in c) (c_readerDone c)
    (c_inbox c) (c_wake c) (c_space c).
Definition set_in (i : inbound) (c : Conn) : Conn :=
  MkConn (c_id c) (c_keepAlive c) (c_probe c) (c_ctx c) (c_out c) i (c_readerDone c)
    (c_inbox c) (c_wake c) (c_space c).
Definition set_inbox (l : list Packet) (c : Conn) : Conn :=
  MkConn (c_id c) (c_keepAlive c) (c_probe c) (c_ctx c) (c_out c) (c_in c) (c_readerDone c)
    l (c_wake c) (c_space c).
Definition set_ctx (e : option gerr) (c : Conn) : Conn :=
  MkConn (c_id c) (c_keepAlive c) (c_probe c) e (c_out c) (c_in c) (c_readerDone c)
    (c_inbox c) (c_wake c) (c_space c).
Definition set_signals (wake space : bool) (c : Conn) : Conn :=
  MkConn (c_id c) (c_keepAlive c) (c_probe c) (c_ctx c) (c_out c) (c_in c) (c_readerDone c)
    (c_inbox c) wake space.
Definition set_readerDone (b : bool) (c : Conn) : Conn :=
  MkConn (c_id c) (c_keepAlive c) (c_probe c) (c_ctx c) (c_out c) (c_in c) b
    (c_inbox c) (c_wake c) (c_space c).
Definition set_ring (r : ring) (o : outbound) : outbound :=
  MkOutbound (o_out o) r (o_flushed o) (o_unsent o) (o_lastProbe o).

(** A non-blocking send on a channel of capacity 1. *)
Definition signal_wake (c : Conn) : Conn := set_signals true (c_space c) c.
Definition signal_space (c : Conn) : Conn := set_signals (c_wake c) true c.

(** A [context.CancelCauseFunc] keeps the first cause. *)
Definition cancel (e : gerr) (c : Conn) : Conn :=
  match c_ctx c with None => set_ctx (Some e) c | Some _ => c end.

(** [fail] ends the Conn with [err] and returns it. *)
Definition fail (err : gerr) (c : Conn) : Conn * gerr := (cancel err c, err).

Section Ops.
Context `{SecretBox}.

(** Seal a packet into the ring. *)
Definition enqueueLocked (p : Packet) (o : outbound) : outbound :=
  let '(st, data) :=
    Seal (o_out o) (append_packet [] true (p_Header p) []) (p_Payload p) in
  MkOutbound st (push (o_ring o) data) (o_flushed o) (o_unsent o + zlen data) (o_lastProbe o).

Definition releaseLocked (o : outbound) : outbound * bool :=
  let o := set_ring (trim (o_ring o) (o_flushed o) (o_unsent o)) o in
  (o, o_unsent o <=? r_limit (o_ring o)).

Definition sealedNone (c : Conn) : bool := ring_next (o_ring (c_out c)) =? 0.

(** ** WritePacket *)

(** What a call does before its loop: a payload too large for one frame and a
    context already done are refused. *)
Definition WritePacket_enter (ctx : option gerr) (p : Packet) : option gerr :=
  if maxPayload <? zlen (p_Payload p)
  then Some (Errorf "etcp: packet payload of %d bytes: %w" [Sentinel ErrTooLarge])
  else ctx.

Inductive attempt := Written | Refused (cause : gerr) | Blocked.

(** One iteration of the loop up to the select: the critical section and the
    signals after it. *)
Definition WritePacket_attempt (p : Packet) (c : Conn) : Conn * attempt :=
  match c_ctx c with
  | Some cause => (c, Refused cause)
  | None =>
      if o_unsent (c_out c) <=? r_limit (o_ring (c_out c)) then
        let o := enqueueLocked p (c_out c) in
        let room := o_unsent o <=? r_limit (o_ring o) in
        let c := signal_wake (set_out o c) in
        (if room then signal_space c else c, Written)
      else (c, Blocked)
  end.

(** What ends the select of a blocked call, with the Conn as the other
    goroutines have made it meanwhile: the space token, the caller's context,
    or the Conn's own. *)
Inductive wakeup :=
| WokenBySpace (now : Conn)
| WokenByCtx (now : Conn) (cause : gerr)
| WokenByConn (now : Conn).

Definition wakeup_conn (w : wakeup) : Conn :=
  match w with
  | WokenBySpace now => set_signals (c_wake now) false now
  | WokenByCtx now _ | WokenByConn now => now
  end.

(** A call with the wakeups it meets, in order.  [None] as the outcome: the
    call is still blocked when they run out. *)
Fixpoint WritePacket_loop (p : Packet) (c : Conn) (ws : list wakeup) : Conn * option (option gerr) :=
  match WritePacket_attempt p c with
  | (c, Written) => (c, Some None)
  | (c, Refused cause) => (c, Some (Some cause))
  | (c, Blocked) =>
      match ws with
      | [] => (c, None)
      | w :: ws =>
          match w with
          | WokenBySpace _ => WritePacket_loop p (wakeup_conn w) ws
          | WokenByCtx now cause => (now, Some (Some cause))
          | WokenByConn now =>
              match c_ctx now with
              | Some cause => (now, Some (Some cause))
              | None => (now, None)
              end
          end
      end
  end.

Definition WritePacket (ctx : option gerr) (p : Packet) (c : Conn) (ws : list wakeup)
  : Conn * option (option gerr) :=
  match WritePacket_enter ctx p with
  | Some e => (c, Some (Some e))
  | None => WritePacket_loop p c ws
  end.

(** ** ReadPacket *)

(** The case of ReadPacket's selects that fires. *)
Inductive read_case :=
| ReadInbox             (* a packet was in the inbox *)
| ReadCtx               (* the caller's ctx ended *)
| ReadTail              (* the Conn ended, and the readers stopped *)
| ReadTailCtx.          (* the Conn ended; ctx ended before the readers did *)

(** [None]: the case is not ready. *)
Definition ReadPacket (ctx : option gerr) (k : read_case) (c : Conn)
  : option (Conn * (Packet + gerr)) :=
  match k with
  | ReadInbox =>
      match c_inbox c with
      | p :: rest => Some (set_inbox rest c, inl p)
      | [] => None
      end
  | ReadCtx => cause ← ctx; Some (c, inr cause)
  | ReadTail =>
      cause ← c_ctx c;
      if c_readerDone c then
        match c_inbox c with
        | p :: rest => Some (set_inbox rest c, inl p)
        | [] =>
            match i_pending (c_in c) with
            | p :: rest =>
                Some (set_in (MkInbound (i_in (c_in c)) (i_recvSeq (c_in c)) rest) c, inl p)
            | [] => Some (c, inr cause)
            end
        end
      else None
  | ReadTailCtx =>
      _ ← c_ctx c;
      if c_readerDone c then None else (cause ← ctx; Some (c, inr cause))
  end.

(** [Close] cancels with net.ErrClosed; the goroutines it waits for end on
    their own. *)
Definition Close (c : Conn) : Conn := cancel (Sentinel net_ErrClosed) c.

(** [probeOnce]: one probe at a time may wait unwritten. *)
Definition probeOnce (c : Conn) : Conn :=
  let o := c_out c in
  if o_lastProbe o >=? o_flushed o then c
  else
    let o := MkOutbound (o_out o) (o_ring o) (o_flushed o) (o_unsent o) (ring_next (o_ring o)) in
    signal_wake (set_out (enqueueLocked (c_probe c) o) c).

(** ** The outbound invariant *)

(** The [k]-th packet (from 0) of a log, sealed: flag, header and the box
    under nonce [k + 1]. *)
Definition sealed_at (key : bytes) (d k : Z) (p : Packet) : bytes :=
  append_packet [] true (p_Header p) (secretbox_Seal key (nonce_at d (k + 1)) (p_Payload p)).

(** [log] is the plaintext packets [ps] sealed in order from position [k]. *)
Fixpoint sealed_from (key : bytes) (d k : Z) (ps : list Packet) : list bytes :=
  match ps with
  | [] => []
  | p :: ps' => sealed_at key d k p :: sealed_from key d (k + 1) ps'
  end.
Definition sealed_log (key : bytes) (d : Z) (ps : list Packet) : list bytes :=
  sealed_from key d 0 ps.

End Ops.

(** ** The outbound invariant

    [outbound_core]: nonce, ring and counters agree with the log [ps] of the
    packets enqueued so far; [outbound_ok] adds that the ring was trimmed
    since [flushed] last moved. *)

Definition probe_size (probe : Packet) : Z := 2 + Overhead + zlen (p_Payload probe).

Record outbound_core `{SecretBox} (key : bytes) (probe : Packet) (limit : Z)
  (ps : list Packet) (o : outbound) : Prop := {
  ok_stream : o_out o = state_at key ClientToServer (zlen ps);
  ok_ring : ring_of_log (o_ring o) (sealed_log key ClientToServer ps);
  ok_limit : r_limit (o_ring o) = limit;
  ok_limit_pos : 0 <= limit;
  ok_flushed : r_first (o_ring o) <= o_flushed o <= zlen ps;
  ok_unsent : o_unsent o = sizes (zdrop (o_flushed o) (sealed_log key ClientToServer ps));
  ok_probe_range : -1 <= o_lastProbe o < zlen ps;
  ok_probe_entry : 0 <= o_lastProbe o -> ps !! Z.to_nat (o_lastProbe o) = Some probe;
  ok_backlog : o_unsent o - (if o_flushed o <=? o_lastProbe o then probe_size probe else 0)
               <= limit + MaxFrameSize;
  ok_fits : Forall (fun p => zlen (p_Payload p) <= maxPayload) ps
}.

Definition outbound_ok `{SecretBox} (key : bytes) (probe : Packet) (limit : Z)
  (ps : list Packet) (o : outbound) : Prop :=
  outbound_core key probe limit ps o /\
  r_bytes (o_ring o) - o_unsent o <= (if r_held (o_ring o) then 2 * limit else limit).

Section Facts.
Context `{HB : SecretBox}.

Lemma sealed_from_app key d k ps qs :
  sealed_from key d k (ps ++ qs) = sealed_from key d k ps ++ sealed_from key d (k + zlen ps) qs.
Proof.
  revert k. induction ps as [|p ps IH]; intros k; cbn [sealed_from app].
  - by rewrite zlen_nil, Z.add_0_r.
  - rewrite IH, zlen_cons. by rewrite Z.add_assoc.
Qed.

Lemma sealed_log_snoc key d ps p :
  sealed_log key d (ps ++ [p]) = sealed_log key d ps ++ [sealed_at key d (zlen ps) p].
Proof. unfold sealed_log. by rewrite sealed_from_app. Qed.

Lemma sealed_from_length key d k ps : length (sealed_from key d k ps) = length ps.
Proof. revert k. induction ps; intros; simpl; [done|by f_equal]. Qed.

Lemma sealed_log_zlen key d ps : zlen (sealed_log key d ps) = zlen ps.
Proof. unfold zlen, sealed_log. by rewrite sealed_from_length. Qed.

Lemma sealed_from_lookup key d k ps i :
  sealed_from key d k ps !! i = sealed_at key d (k + Z.of_nat i) <$> ps !! i.
Proof.
  revert k i. induction ps as [|p ps IH]; intros k i; [done|].
  destruct i as [|i]; cbn [sealed_from lookup list_lookup].
  - by rewrite Z.add_0_r.
  - rewrite IH. do 2 f_equal. lia.
Qed.

Lemma append_packet_zlen h payload :
  zlen (append_packet [] true h payload) = 2 + zlen payload.
Proof. unfold append_packet. cbn [app]. rewrite !zlen_cons. lia. Qed.

Lemma append_packet_split h payload :
  append_packet [] true h [] ++ payload = append_packet [] true h payload.
Proof. done. Qed.

Lemma sealed_at_zlen key d k p : zlen (sealed_at key d k p) = 2 + Overhead + zlen (p_Payload p).
Proof. unfold sealed_at. rewrite append_packet_zlen, secretbox_length. lia. Qed.

(** Sealing [p] next appends [sealed_at] to the log. *)
Lemma Seal_sealed_at key d k p :
  0 <= k -> k + 1 < 2 ^ 184 ->
  Seal (state_at key d k) (append_packet [] true (p_Header p) []) (p_Payload p) =
  (state_at key d (k + 1), sealed_at key d k p).
Proof.
  intros ??. unfold Seal. rewrite step_state_at by done.
  unfold sealed_at. by rewrite <- append_packet_split.
Qed.

Lemma maxPayload_fits p : zlen (p_Payload p) <= maxPayload -> probe_size p <= MaxFrameSize.
Proof. unfold probe_size, maxPayload. lia. Qed.

(** Enqueueing one packet, whatever it is. *)
Lemma enqueueLocked_log key n o p :
  o_out o = state_at key ClientToServer n -> 0 <= n -> n + 1 < 2 ^ 184 ->
  enqueueLocked p o =
    MkOutbound (state_at key ClientToServer (n + 1))
      (push (o_ring o) (sealed_at key ClientToServer n p))
      (o_flushed o) (o_unsent o + probe_size p) (o_lastProbe o).
Proof.
  intros Ho Hn Hs. unfold enqueueLocked. rewrite Ho, Seal_sealed_at by done.
  rewrite sealed_at_zlen. done.
Qed.

Lemma unsent_snoc key ps p f :
  0 <= f <= zlen ps ->
  sizes (zdrop f (sealed_log key ClientToServer (ps ++ [p]))) =
  sizes (zdrop f (sealed_log key ClientToServer ps)) + probe_size p.
Proof.
  intros ?. rewrite sealed_log_snoc, zdrop_app_le by (rewrite sealed_log_zlen; lia).
  rewrite sizes_app. cbn [sizes foldr]. rewrite sealed_at_zlen. unfold probe_size. lia.
Qed.

(** Queuing a caller's packet keeps the invariant: the backlog check made room. *)
Lemma enqueueLocked_ok key probe limit ps o p :
  outbound_ok key probe limit ps o -> zlen ps + 1 < 2 ^ 184 ->
  zlen (p_Payload p) <= maxPayload -> o_unsent o <= limit ->
  outbound_ok key probe limit (ps ++ [p]) (enqueueLocked p o).
Proof.
  intros [Ho Hw] Hs Hp Hu. rewrite (enqueueLocked_log key (zlen ps)) by (apply Ho || done || apply zlen_nonneg).
  pose proof (maxPayload_fits p Hp) as Hsz.
  destruct Ho as [Hst Hr Hl Hlp Hf Hun Hpr Hpe Hb Hfit].
  assert (0 <= r_first (o_ring o)) by (destruct Hr; lia).
  assert (0 <= probe_size probe) by (unfold probe_size, Overhead; pose proof (zlen_nonneg (p_Payload probe)); lia).
  split; [split|]; cbn [o_out o_ring o_flushed o_unsent o_lastProbe push r_first r_limit r_bytes r_held].
  - by rewrite zlen_app.
  - rewrite sealed_log_snoc. by apply push_of_log.
  - done.
  - done.
  - rewrite zlen_app. zlia.
  - rewrite unsent_snoc, Hun; lia.
  - rewrite zlen_app. zlia.
  - intros Hge. rewrite lookup_app_l; [auto|]. unfold zlen in *. lia.
  - destruct (_ <=? _); lia.
  - apply Forall_app; split; [done|]. by constructor.
  - rewrite sealed_at_zlen. change (2 + Overhead + zlen (p_Payload p)) with (probe_size p).
    destruct (r_held (o_ring o)); lia.
Qed.

(** Queuing the probe keeps it, because no earlier one is unwritten. *)
Lemma enqueueLocked_probe_ok key probe limit ps o :
  outbound_ok key probe limit ps o -> zlen ps + 1 < 2 ^ 184 ->
  zlen (p_Payload probe) <= maxPayload -> o_lastProbe o < o_flushed o ->
  outbound_ok key probe limit (ps ++ [probe])
    (enqueueLocked probe (MkOutbound (o_out o) (o_ring o) (o_flushed o) (o_unsent o)
       (ring_next (o_ring o)))).
Proof.
  intros [Ho Hw] Hs Hp Hu.
  pose proof (ring_of_log_next _ _ (ok_ring _ _ _ _ _ Ho)) as Hn. rewrite sealed_log_zlen in Hn.
  rewrite (enqueueLocked_log key (zlen ps)) by (apply Ho || done || apply zlen_nonneg).
  cbn [o_out o_ring o_flushed o_unsent o_lastProbe].
  rewrite Hn. destruct Ho as [Hst Hr Hl Hlp Hf Hun Hpr Hpe Hb Hfit].
  assert (0 <= r_first (o_ring o)) by (destruct Hr; lia).
  split; [split|]; cbn [o_out o_ring o_flushed o_unsent o_lastProbe push r_first r_limit r_bytes r_held].
  - by rewrite zlen_app.
  - rewrite sealed_log_snoc. by apply push_of_log.
  - done.
  - done.
  - rewrite zlen_app. zlia.
  - rewrite unsent_snoc, Hun; lia.
  - rewrite zlen_app. zlia.
  - intros _. rewrite lookup_app_r by (unfold zlen; lia).
    unfold zlen. by rewrite Nat2Z.id, Nat.sub_diag.
  - destruct (Z.leb_spec (o_flushed o) (o_lastProbe o)); [lia|].
    destruct (Z.leb_spec (o_flushed o) (zlen ps)); lia.
  - apply Forall_app; split; [done|]. by constructor.
  - rewrite sealed_at_zlen. change (2 + Overhead + zlen (p_Payload probe)) with (probe_size probe).
    destruct (r_held (o_ring o)); lia.
Qed.

Lemma releaseLocked_room o :
  snd (releaseLocked o) =
    (o_unsent (fst (releaseLocked o)) <=? r_limit (o_ring (fst (releaseLocked o)))) /\
  o_flushed (fst (releaseLocked o)) = o_flushed o.
Proof. done. Qed.

(** [flushed] moved forward to [f] and the hold may have changed: trimming
    restores the invariant, and nothing unwritten is dropped. *)
Lemma release_ok key probe limit ps o f held hold :
  outbound_core key probe limit ps o -> o_flushed o <= f <= zlen ps ->
  let r := o_ring o in
  outbound_ok key probe limit ps (fst (releaseLocked
    (MkOutbound (o_out o) (MkRing (r_first r) (r_entries r) (r_bytes r) (r_limit r) held hold) f
       (sizes (zdrop f (sealed_log key ClientToServer ps))) (o_lastProbe o)))).
Proof.
  intros Ho Hf' r. pose proof (ok_unsent _ _ _ _ _ Ho) as Hun. pose proof (ok_ring _ _ _ _ _ Ho) as Hrl.
  pose proof (sealed_log_zlen key ClientToServer ps) as Hlen.
  destruct Ho as [Hst Hr Hl Hlp Hf _ Hpr Hpe Hb Hfit]. subst r.
  assert (0 <= r_first (o_ring o)) by (destruct Hr; lia).
  unfold releaseLocked, set_ring. cbn [o_out o_ring o_flushed o_unsent o_lastProbe fst].
  match goal with |- context[trim ?r _ _] => set (R := r) end.
  assert (ring_of_log R (sealed_log key ClientToServer ps)) as HR by apply Hr.
  pose proof (trim_props R f (sizes (zdrop f (sealed_log key ClientToServer ps)))
    (ring_of_log_wf _ _ HR)) as Ht.
  rewrite (ring_of_log_next _ _ HR), Hlen in Ht.
  assert (sizes (zdrop f (sealed_log key ClientToServer ps)) =
          sizes (zdrop (f - r_first R) (r_entries R))) as Heq.
  { destruct HR as (_ & -> & _). rewrite zdrop_zdrop by (cbn; lia). do 2 f_equal. lia. }
  specialize (Ht ltac:(cbn; lia) ltac:(cbn; lia) Heq). cbv zeta in Ht.
  destruct Ht as (_ & Hfirst & _ & _ & Hbytes & _).
  pose proof (trim_of_log R (sealed_log key ClientToServer ps) f _ HR
    ltac:(cbn; lia) ltac:(cbn; lia) eq_refl) as Htr.
  assert (r_limit (trim R f (sizes (zdrop f (sealed_log key ClientToServer ps)))) = limit /\
          r_held (trim R f (sizes (zdrop f (sealed_log key ClientToServer ps)))) = held) as [Hl' Hh'].
  { unfold trim. by destruct (trim_loop _ _ _ _ _ _). }
  cbn [R r_held r_limit] in Hbytes.
  split; [split|]; cbn [o_out o_ring o_flushed o_unsent o_lastProbe]; try done.
  - lia.
  - pose proof (sizes_zdrop_le (o_flushed o) f (sealed_log key ClientToServer ps) ltac:(lia)) as Hle.
    destruct (Z.leb_spec f (o_lastProbe o)), (Z.leb_spec (o_flushed o) (o_lastProbe o)); try lia.
    (* the probe itself was written *)
    pose proof (sizes_take_drop (f - o_flushed o) (zdrop (o_flushed o) (sealed_log key ClientToServer ps))) as Hs.
    rewrite zdrop_zdrop in Hs by lia. replace (f - o_flushed o + o_flushed o) with f in Hs by lia.
    assert (probe_size probe <= sizes (ztake (f - o_flushed o)
      (zdrop (o_flushed o) (sealed_log key ClientToServer ps)))); [|lia].
    eapply (sizes_lookup_le _ (Z.to_nat (o_lastProbe o - o_flushed o))).
    + unfold ztake, zdrop. rewrite lookup_take_lt by lia. rewrite lookup_drop.
      replace (Z.to_nat (o_flushed o) + Z.to_nat (o_lastProbe o - o_flushed o))%nat
        with (Z.to_nat (o_lastProbe o)) by lia.
      unfold sealed_log. rewrite sealed_from_lookup, Hpe by lia. done.
    + rewrite sealed_at_zlen. done.
  - rewrite Hh'. destruct held; [|naive_solver lia].
    destruct Hbytes as [?|(_ & _ & ?)]; lia.
Qed.
End Facts.

(** A Conn whose outbound state stands after the packets [ps]. *)
Definition conn_log `{SecretBox} (key : bytes) (limit : Z) (ps : list Packet) (c : Conn) : Prop :=
  outbound_ok key (c_probe c) limit ps (c_out c) /\ zlen (p_Payload (c_probe c)) <= maxPayload /\
  zlen ps + 1 < 2 ^ 184.

Section Properties.
Context `{HB : SecretBox}.

Lemma outbound_new_ok key probe limit :
  0 <= limit ->
  outbound_ok key probe limit []
    (MkOutbound (state_at key ClientToServer 0) (MkRing 0 [] 0 limit false 0) 0 0 (-1)).
Proof.
  intros ?. split; [split|]; cbn -[ring_of_log]; try done.
  assert (0 <= MaxFrameSize) by by vm_compute. lia.
Qed.

(** One iteration of WritePacket: what it writes, when it blocks, what it
    refuses. *)
Lemma WritePacket_attempt_cases key limit ps c p :
  conn_log key limit ps c -> zlen (p_Payload p) <= maxPayload ->
  match WritePacket_attempt p c with
  | (c', Written) =>
      c_ctx c = None /\ o_unsent (c_out c) <= limit /\ c_wake c' = true /\
      outbound_ok key (c_probe c) limit (ps ++ [p]) (c_out c') /\ c_ctx c' = None /\
      (o_unsent (c_out c') <= limit -> c_space c' = true)
  | (c', Refused cause) => c' = c /\ c_ctx c = Some cause
  | (c', Blocked) => c' = c /\ c_ctx c = None /\ limit < o_unsent (c_out c)
  end.
Proof.
  intros (Ho & Hpr & Hs) Hp. unfold WritePacket_attempt.
  destruct (c_ctx c) as [cause|] eqn:Hc; [done|].
  pose proof (ok_limit _ _ _ _ _ (proj1 Ho)) as Hl. rewrite Hl.
  destruct (Z.leb_spec (o_unsent (c_out c)) limit) as [Hu|]; [|done].
  pose proof (enqueueLocked_ok _ _ _ _ _ p Ho ltac:(lia) Hp Hu) as Ho'.
  rewrite (ok_limit _ _ _ _ _ (proj1 Ho')).
  destruct (Z.leb_spec (o_unsent (enqueueLocked p (c_out c))) limit);
    cbn -[enqueueLocked]; split_and!; try done. intros; lia.
Qed.

(** The states a call to WritePacket meets. *)
Definition write_states (c : Conn) (ws : list wakeup) : list Conn := c :: map wakeup_conn ws.

Lemma WritePacket_loop_cases key limit p c ws c' r :
  zlen (p_Payload p) <= maxPayload ->
  Forall (fun s => exists ps, conn_log key limit ps s) (write_states c ws) ->
  WritePacket_loop p c ws = (c', r) ->
  exists s, s ∈ write_states c ws /\
    match r with
    | Some None => c_ctx s = None /\ o_unsent (c_out s) <= limit /\
        WritePacket_attempt p s = (c', Written) /\ c_wake c' = true /\
        (forall ps, conn_log key limit ps s ->
           outbound_ok key (c_probe s) limit (ps ++ [p]) (c_out c'))
    | Some (Some e) => c' = s /\ (c_ctx s = Some e \/ WokenByCtx s e ∈ ws)
    | None => c' = s
    end.
Proof.
  intros Hp. revert c. induction ws as [|w ws IH]; intros c Hall Heq;
    (assert (exists ps, conn_log key limit ps c) as [ps Hc] by (by inversion Hall));
    pose proof (WritePacket_attempt_cases _ _ _ _ p Hc Hp) as Ha;
    cbn [WritePacket_loop] in Heq; destruct (WritePacket_attempt p c) as [c1 a] eqn:Hatt;
    destruct a as [|cause|].
  1, 4: injection Heq as <- <-; exists c; split; [by left|]; destruct Ha as (?&?&?&?&?&?);
    split_and!; try done; intros ps' Hc'; pose proof (WritePacket_attempt_cases _ _ _ _ p Hc' Hp) as Ha;
    rewrite Hatt in Ha; apply Ha.
  1, 3: injection Heq as <- <-; destruct Ha as [-> ?]; exists c; split; [by left|]; by auto.
  - injection Heq as <- <-. destruct Ha as [-> _]. exists c. by split; [left|].
  - destruct Ha as (-> & Hctx & _).
    destruct w as [now|now cause|now].
    + apply IH in Heq as (s & Hs & Hr); [|by inversion Hall].
      exists s. split; [by right|]. destruct r as [[e|]|]; [|done|done].
      destruct Hr as [-> [?|?]]; split; auto. right. by right.
    + injection Heq as <- <-. exists now. split; [right; by left|]. split; [done|]. right. by left.
    + destruct (c_ctx now) as [cause|] eqn:Hn; injection Heq as <- <-;
        (exists now; split; [right; by left|]); auto.
Qed.

(** WritePacket admits a packet exactly once and only into an open Conn with
    room: a nil error means it was sealed behind everything queued before it,
    in a state whose backlog was within ReplayLimit; an error means the
    outbound state is the one some other goroutine left, with nothing of this
    packet in it; an oversized payload is refused before any state is looked
    at, and a blocked call meets only states over the limit. *)
Theorem WritePacket_spec key limit ctx p c ws c' r :
  Forall (fun s => exists ps, conn_log key limit ps s) (write_states c ws) ->
  WritePacket ctx p c ws = (c', r) ->
  match r with
  | Some None =>
      zlen (p_Payload p) <= maxPayload /\ ctx = None /\
      exists s, s ∈ write_states c ws /\ c_ctx s = None /\ o_unsent (c_out s) <= limit /\
        forall ps, conn_log key limit ps s ->
          outbound_ok key (c_probe s) limit (ps ++ [p]) (c_out c')
  | Some (Some e) =>
      c' ∈ write_states c ws /\
      (if decide (zlen (p_Payload p) <= maxPayload)
       then ctx = Some e \/ c_ctx c' = Some e \/ WokenByCtx c' e ∈ ws
       else errors_Is e ErrTooLarge = true)
  | None => c' ∈ write_states c ws
  end.
Proof.
  intros Hall Heq. unfold WritePacket, WritePacket_enter in Heq.
  destruct (Z.ltb_spec maxPayload (zlen (p_Payload p))).
  { injection Heq as <- <-. split; [by left|]. rewrite decide_False by lia. done. }
  destruct ctx as [e|].
  { injection Heq as <- <-. split; [by left|]. rewrite decide_True by lia. by left. }
  apply (WritePacket_loop_cases key limit p c ws c' r ltac:(lia) Hall) in Heq as (s & Hs & Hr).
  destruct r as [[e|]|].
  - destruct Hr as [-> ?]. split; [done|]. rewrite decide_True by lia. by right.
  - destruct Hr as (? & ? & _ & _ & ?). split_and!; [lia|done|]. by exists s.
  - by subst.
Qed.

(** ** Draining a Conn that ended *)

(** The results of successive ReadPacket calls on a Conn nothing else uses any
    more, by the case each call's selects fire. *)
Fixpoint reads (ks : list read_case) (c : Conn) : option (list (Packet + gerr)) :=
  match ks with
  | [] => Some []
  | k :: ks =>
      '(c, r) ← ReadPacket None k c;
      rs ← reads ks c;
      Some (r :: rs)
  end.

Lemma reads_tail ks c cause rs :
  c_ctx c = Some cause -> c_readerDone c = true -> reads ks c = Some rs ->
  let tail := c_inbox c ++ i_pending (c_in c) in
  rs = map inl (take (length ks) tail) ++ replicate (length ks - length tail) (inr cause).
Proof.
  intros Hc Hd. revert c Hc Hd rs. induction ks as [|k ks IH]; intros c Hc Hd rs Hr tail; subst tail.
  { injection Hr as <-. done. }
  cbn [reads] in Hr. destruct (ReadPacket None k c) as [[c1 r]|] eqn:Hk; [|done]. cbn in Hr.
  destruct (reads ks c1) as [rs1|] eqn:Hr1; [|done]. cbn in Hr. injection Hr as <-.
  destruct k; cbn [ReadPacket] in Hk; [| done | |].
  - destruct (c_inbox c) as [|p rest]; [done|]. injection Hk as <- <-.
    rewrite (IH (set_inbox rest c) Hc Hd _ Hr1). done.
  - rewrite Hc, Hd in Hk. cbn in Hk. destruct (c_inbox c) as [|p rest] eqn:Hi.
    + destruct (i_pending (c_in c)) as [|p rest] eqn:Hp; injection Hk as <- <-.
      * rewrite (IH _ Hc Hd _ Hr1), Hi, Hp. cbn. by rewrite take_nil, Nat.sub_0_r.
      * rewrite (IH (set_in _ c) Hc Hd _ Hr1). cbn. by rewrite Hi.
    + injection Hk as <- <-. rewrite (IH (set_inbox rest c) Hc Hd _ Hr1). done.
  - rewrite Hc, Hd in Hk. done.
Qed.

(** Once the Conn ended with [cause] and its readers stopped, ReadPacket
    returns what was in the inbox, then what a dead link had left pending,
    each once and in order, and only then the cause, forever, whichever case
    of its selects fires. *)
Theorem ReadPacket_tail_order ks c cause rs :
  c_ctx c = Some cause -> c_readerDone c = true -> reads ks c = Some rs ->
  let tail := c_inbox c ++ i_pending (c_in c) in
  rs = map inl (take (length ks) tail) ++ replicate (length ks - length tail) (inr cause).
Proof. exact (reads_tail ks c cause rs). Qed.

(** A Conn ends once: the first cause wins and stays. *)
Lemma cancel_first e c : c_ctx (cancel e c) = Some (default e (c_ctx c)).
Proof. unfold cancel. by destruct (c_ctx c) eqn:H; rewrite ?H. Qed.
End Properties.

#[local] Existing Instance toy_box.

Definition example_conn : Conn :=
  MkConn (bs "id") 5 (MkPacket x00 []) None
    (MkOutbound (state_at (bs "key") ClientToServer 0) (MkRing 0 [] 0 20 false 0) 0 0 (-1))
    (MkInbound (state_at (bs "key") ServerToClient 0) 0 []) false [] false false.

Lemma example_conn_log : conn_log (bs "key") 20 [] example_conn.
Proof. split; [apply outbound_new_ok; lia|]. split; by vm_compute. Qed.

Lemma WritePacket_spec_witness :
  exists c', WritePacket None (MkPacket x01 (bs "hi")) example_conn [] = (c', Some None) /\
    outbound_ok (bs "key") (MkPacket x00 []) 20 [MkPacket x01 (bs "hi")] (c_out c').
Proof.
  destruct (WritePacket None (MkPacket x01 (bs "hi")) example_conn []) as [c' r] eqn:He.
  assert (Forall (fun s => exists ps, conn_log (bs "key") 20 ps s) (write_states example_conn [])) as Hall
    by (constructor; [exists []; exact example_conn_log|constructor]).
  pose proof (WritePacket_spec _ _ _ _ _ _ _ _ Hall He) as Hs.
  assert (r = Some None) as -> by (apply (f_equal snd) in He; vm_compute in He; by symmetry).
  destruct Hs as (_ & _ & s & Hs & _ & _ & Hok). exists c'. split; [done|].
  apply list_elem_of_singleton in Hs as ->. exact (Hok [] example_conn_log).
Defined.

Lemma ReadPacket_tail_order_witness :
  let c := set_readerDone true (Close (set_inbox [MkPacket x01 (bs "a")]
    (set_in (MkInbound (state_at (bs "key") 1 2) 2 [MkPacket x01 (bs "b")]) example_conn))) in
  reads [ReadTail; ReadTail; ReadTail; ReadTail] c =
    Some [inl (MkPacket x01 (bs "a")); inl (MkPacket x01 (bs "b"));
          inr (Sentinel net_ErrClosed); inr (Sentinel net_ErrClosed)].
Proof.
  intros c. destruct (reads [ReadTail; ReadTail; ReadTail; ReadTail] c) as [rs|] eqn:He.
  - f_equal. exact (ReadPacket_tail_order _ c (Sentinel net_ErrClosed) rs eq_refl eq_refl He).
  - vm_compute in He. discriminate He.
Defined.
