(* ===== verification/Link.v ===== *)
(** * internal/etcp/link.go: the reader of one TCP connection

    [runLink] runs a reader, a writer and a watcher on one connection.  Each
    is modelled by itself, over the Conn as the others leave it; the writer
    and the watcher are in [LinkWriter].

    The reader is a function of the bytes it reads and of the events its
    blocking sends meet: how many packets ReadPacket callers took from the
    inbox before each, and whether the send or the end of the link won. *)

From S2P Require Export Conn.
Local Open Scope Z_scope.

Definition readBufSize : Z := Z.shiftl 64 10.

Record link := MkLink { l_alive : bool; l_delivering : bool }.
Definition newLink : link := MkLink false false.
Definition signal_alive (l : link) : link := MkLink true (l_delivering l).

(** ** The reader *)

(** How a blocking send on the inbox ends: after ReadPacket callers took
    [taken] packets, with room, or with the link's context done. *)
Inductive handover :=
| Sent (taken : nat)
| LinkEnded (taken : nat) (cause : gerr).

(** What the reader works on.  [rs_taken] records every packet ReadPacket
    returned meanwhile; [rs_events] are the handovers still to come. *)
Record rstate := MkR {
  rs_conn : Conn;
  rs_link : link;
  rs_taken : list Packet;
  rs_events : list handover
}.

(** A reader's step returns, fails with the error its goroutine returns, or is
    still blocked when the events run out. *)
Inductive outcome (A : Type) :=
| Ret (a : A)
| Stop (e : gerr)
| Wait.
Arguments Ret {A} a.
Arguments Stop {A} e.
Arguments Wait {A}.

Definition reader_m (A : Type) := rstate -> rstate * outcome A.
Definition ret {A} (a : A) : reader_m A := fun s => (s, Ret a).
Definition stop {A} (e : gerr) : reader_m A := fun s => (s, Stop e).
Definition seq {A B} (m : reader_m A) (f : A -> reader_m B) : reader_m B :=
  fun s => match m s with
           | (s, Ret a) => f a s
           | (s, Stop e) => (s, Stop e)
           | (s, Wait) => (s, Wait)
           end.
Definition on_conn (f : Conn -> Conn) : reader_m unit :=
  fun s => (MkR (f (rs_conn s)) (rs_link s) (rs_taken s) (rs_events s), Ret tt).
Definition on_link (f : link -> link) : reader_m unit :=
  fun s => (MkR (rs_conn s) (f (rs_link s)) (rs_taken s) (rs_events s), Ret tt).
(** [return c.fail(err)] *)
Definition stop_fail {A} (e : gerr) : reader_m A :=
  fun s => let '(c, e) := fail e (rs_conn s) in
           (MkR c (rs_link s) (rs_taken s) (rs_events s), Stop e).

Declare Scope reader_scope.
Delimit Scope reader_scope with reader.
Notation "'let*' x ':=' m 'in' k" := (seq m (fun x => k))
  (at level 100, x name, m at level 100, k at level 200, right associativity) : reader_scope.
Notation "m ;; k" := (seq m (fun _ => k))
  (at level 100, k at level 200, right associativity) : reader_scope.
Local Open Scope reader_scope.

Definition set_delivering (b : bool) : reader_m unit :=
  on_link (fun l => MkLink (l_alive l) b).

(** ReadPacket callers take [n] packets from the inbox. *)
Definition callers_take (n : nat) : reader_m unit :=
  fun s => let c := rs_conn s in
           (MkR (set_inbox (drop n (c_inbox c)) c) (rs_link s)
              (rs_taken s ++ take n (c_inbox c)) (rs_events s), Ret tt).

(** The select of [handOver]; a send with no room in the inbox stays blocked. *)
Definition handOver_select (p : Packet) : reader_m unit :=
  fun s =>
    match rs_events s with
    | [] => (s, Wait)
    | ev :: evs =>
        let s := MkR (rs_conn s) (rs_link s) (rs_taken s) evs in
        match ev with
        | Sent n =>
            (callers_take n ;;
             fun s =>
               if decide (length (c_inbox (rs_conn s)) < inboxSize)%nat
               then on_conn (fun c => set_inbox (c_inbox c ++ [p]) c) s
               else (s, Wait)) s
        | LinkEnded n cause => (callers_take n ;; stop cause) s
        end
    end.

(** [defer l.delivering.Store(false)] runs on every return. *)
Definition handOver (p : Packet) : reader_m unit :=
  fun s =>
    let '(s, r) := (set_delivering true ;; handOver_select p) s in
    match r with
    | Wait => (s, Wait)
    | _ => (fst (set_delivering false s), r)
    end.

Section Reader.
Context `{SecretBox}.

(** [deliver] up to the handover: the checks, the decryption and the count. *)
Definition deliver_open (b : bytes) : reader_m Packet :=
  if MaxFrameSize <? zlen b
  then stop_fail (Errorf "%w: packet of %d bytes: %w" [Sentinel ErrIntegrity; Sentinel ErrTooLarge])
  else match ParsePacket b with
  | Ok (encrypted, h, payload) =>
      if negb encrypted
      then stop_fail (Errorf "%w: unencrypted packet" [Sentinel ErrIntegrity])
      else fun s =>
        let i := c_in (rs_conn s) in
        let '(st, plain) := Open (i_in i) [] payload in
        match plain with
        | Ok plain =>
            (on_conn (set_in (MkInbound st (i_recvSeq i + 1) (i_pending i))) ;;
             ret (MkPacket h plain)) s
        | Err e =>
            (on_conn (set_in (MkInbound st (i_recvSeq i) (i_pending i))) ;;
             stop_fail (Errorf "%w: %w" [Sentinel ErrIntegrity; e])) s
        | Panic | OutOfFuel => (s, Wait)
        end
  | Err e => stop_fail (Errorf "%w: %w" [Sentinel ErrIntegrity; e])
  | Panic | OutOfFuel => fun s => (s, Wait)
  end.

Definition keep_pending (p : Packet) (c : Conn) : Conn :=
  let i := c_in c in
  set_in (MkInbound (i_in i) (i_recvSeq i) (i_pending i ++ [p])) c.

(** A packet counted in recvSeq whose handover fails stays pending. *)
Definition deliver (b : bytes) : reader_m unit :=
  let* p := deliver_open b in
  fun s => match handOver p s with
           | (s, Stop e) => (on_conn (keep_pending p) ;; stop e) s
           | r => r
           end.

Definition releaseHold (c : Conn) : Conn :=
  let o := c_out c in let r := o_ring o in
  if r_held r then
    let r := MkRing (r_first r) (r_entries r) (r_bytes r) (r_limit r) false (r_hold r) in
    set_out (set_ring (trim r (o_flushed o) (o_unsent o)) o) c
  else c.

(** The first loop of [readLoop], over the packets an earlier link left. *)
Fixpoint hand_pending (pending : list Packet) : reader_m unit :=
  match pending with
  | [] => on_conn (fun c => set_in (MkInbound (i_in (c_in c)) (i_recvSeq (c_in c)) []) c)
  | p :: rest =>
      handOver p ;;
      on_conn (fun c => set_in (MkInbound (i_in (c_in c)) (i_recvSeq (c_in c)) rest) c) ;;
      hand_pending rest
  end.

Fixpoint deliver_all (catchup : list bytes) : reader_m unit :=
  match catchup with
  | [] => ret tt
  | b :: rest => deliver b ;; deliver_all rest
  end.

(** What follows a frame: the signal and, once, the release of the hold. *)
Definition first_frame (released : bool) : reader_m unit :=
  on_link signal_alive ;; (if released then ret tt else on_conn releaseHold).

(** A ReadFrame that failed: a length beyond the limit ends the Conn. *)
Definition frame_failed {A} (e : gerr) : reader_m A :=
  if errors_Is e ErrTooLarge
  then stop_fail (Errorf "%w: %w" [Sentinel ErrIntegrity; e])
  else stop (Errorf "etcp: read: %w" [e]).

(** The last loop, one iteration per frame.  [fuel] bounds the frames. *)
Fixpoint read_frames (fuel : nat) (r : reader) (buf : rbuf) (released : bool) : reader_m unit :=
  match fuel with
  | O => fun s => (s, Wait)
  | S fuel =>
      let '(x, _, r) := ReadFrame r buf in
      match x with
      | Ok frame =>
          first_frame released ;;
          deliver (rb_data frame) ;;
          read_frames fuel r frame true
      | Err e => frame_failed e
      | Panic | OutOfFuel => fun s => (s, Wait)
      end
  end.

(** The frames of a stream: at most one per four bytes, so its length is
    enough fuel. *)
Definition readLoop (r : reader) (catchup : list bytes) : reader_m unit :=
  (fun s => hand_pending (i_pending (c_in (rs_conn s))) s) ;;
  deliver_all catchup ;;
  read_frames (S (length (stream r))) r (RBuf [] 0) false.
End Reader.

(** ** What the reader does with what it receives *)

(** All packets the Conn has for its callers, oldest first. *)
Definition history (s : rstate) : list Packet :=
  rs_taken s ++ c_inbox (rs_conn s) ++ i_pending (c_in (rs_conn s)).

(** The reader is blocked: no event is left, or the inbox is full. *)
Definition blocked (s : rstate) : Prop :=
  rs_events s = [] \/ (inboxSize <= length (c_inbox (rs_conn s)))%nat.

Lemma handOver_cases p s s' o :
  handOver p s = (s', o) ->
  exists inbox', rs_conn s' = set_inbox inbox' (rs_conn s) /\
    rs_taken s' ++ inbox' =
      rs_taken s ++ c_inbox (rs_conn s) ++ (match o with Ret _ => [p] | _ => [] end) /\
    ((length (c_inbox (rs_conn s)) <= inboxSize)%nat -> (length inbox' <= inboxSize)%nat) /\
    (forall ev, ev ∈ rs_events s' -> ev ∈ rs_events s) /\
    match o with
    | Ret _ => True
    | Stop e => exists n, LinkEnded n e ∈ rs_events s
    | Wait => blocked s'
    end.
Proof.
  destruct s as [c l tk evs]. unfold handOver, handOver_select, seq, set_delivering, on_link.
  cbn [rs_conn rs_link rs_taken rs_events fst].
  destruct evs as [|ev evs].
  { intros [= <- <-]. exists (c_inbox c). cbn. split_and!; try done.
    - by destruct c.
    - by rewrite app_nil_r.
    - by left. }
  destruct ev as [n|n cause]; unfold callers_take, stop, on_conn; cbn [rs_conn rs_link rs_taken rs_events fst set_inbox c_inbox].
  - destruct (decide _) as [Hroom|Hfull]; intros [= <- <-]; cbn [rs_conn rs_taken rs_events c_inbox].
    + exists (drop n (c_inbox c) ++ [p]). split; [done|]. split_and!; try done.
      * by rewrite <- !app_assoc, (app_assoc (take _ _)), take_drop.
      * rewrite length_app. cbn [length]. unfold inboxSize in *. lia.
      * intros. by right.
    + exists (drop n (c_inbox c)). split; [done|]. split_and!.
      * by rewrite <- !app_assoc, take_drop, app_nil_r.
      * rewrite length_drop. lia.
      * intros. by right.
      * right. cbn. lia.
  - intros [= <- <-]. cbn [rs_conn rs_taken rs_events]. exists (drop n (c_inbox c)).
    split; [done|]. split_and!.
    + by rewrite <- !app_assoc, take_drop, app_nil_r.
    + rewrite length_drop. lia.
    + intros. by right.
    + exists n. by left.
Qed.

Section ReaderFacts.
Context `{HB : SecretBox}.

(** A received packet is what the peer sealed next: [raw] is a non-zero flag
    byte, the header and the box of the payload under the next nonce. *)
Definition sealed_as (st : state) (raw : bytes) (p : Packet) : Prop :=
  zlen raw <= MaxFrameSize /\
  exists flag, flag <> x00 /\
    raw = flag :: p_Header p ::
      secretbox_Seal (st_key (step st)) (st_nonce (step st)) (p_Payload p).

(** [ps] are the packets of [raws], sealed one after the other from [st]. *)
Fixpoint opened (st : state) (raws : list bytes) (ps : list Packet) : Prop :=
  match raws, ps with
  | [], [] => True
  | raw :: raws, p :: ps => sealed_as st raw p /\ opened (step st) raws ps
  | _, _ => False
  end.

Definition steps (n : nat) (st : state) : state := Nat.iter n step st.

Lemma steps_S n st : steps (S n) st = steps n (step st).
Proof. apply Nat.iter_succ_r. Qed.

Definition advance_in (c : Conn) : Conn :=
  let i := c_in c in set_in (MkInbound (step (i_in i)) (i_recvSeq i + 1) (i_pending i)) c.

(** [c] failed with [e], its inbound queue and count as they were. *)
Definition failed_as (c : Conn) (e : gerr) (c' : Conn) : Prop :=
  errors_Is e ErrIntegrity = true /\
  exists st, c' = cancel e (set_in (MkInbound st (i_recvSeq (c_in c)) (i_pending (c_in c))) c).

Lemma set_in_id c : set_in (MkInbound (i_in (c_in c)) (i_recvSeq (c_in c)) (i_pending (c_in c))) c = c.
Proof. by destruct c as [? ? ? ? ? []]. Qed.

Lemma failed_as_cancel c e : errors_Is e ErrIntegrity = true -> failed_as c e (cancel e c).
Proof. intros ?. split; [done|]. exists (i_in (c_in c)). by rewrite set_in_id. Qed.

(** [deliver] opens exactly the packets the peer sealed for this position; any
    other one ends the Conn. *)
Lemma deliver_open_cases b s s' o :
  deliver_open b s = (s', o) ->
  rs_link s' = rs_link s /\ rs_taken s' = rs_taken s /\ rs_events s' = rs_events s /\
  match o with
  | Ret p => sealed_as (i_in (c_in (rs_conn s))) b p /\ rs_conn s' = advance_in (rs_conn s)
  | Stop e => failed_as (rs_conn s) e (rs_conn s') /\
              forall p, ~ sealed_as (i_in (c_in (rs_conn s))) b p
  | Wait => False
  end.
Proof.
  unfold deliver_open, stop_fail, fail. destruct (Z.ltb_spec MaxFrameSize (zlen b)) as [Hl|Hl].
  { intros [= <- <-]. split_and!; try done; [by apply failed_as_cancel|].
    intros p [? _]. lia. }
  destruct b as [|flag [|h payload]]; cbn [ParsePacket].
  1,2: intros [= <- <-]; split_and!; try done; [by apply failed_as_cancel|];
    intros p (_ & fl & _ & ?); done.
  destruct (bool_decide (flag <> x00)) eqn:Hflag; cbn [negb].
  2: { apply bool_decide_eq_false in Hflag. intros [= <- <-]; split_and!; try done.
       - by apply failed_as_cancel.
       - intros p (_ & fl & ? & [= <- _]). done. }
  apply bool_decide_eq_true in Hflag. unfold Open, seq, on_conn, ret.
  destruct (secretbox_Open _ _ payload) as [plain|] eqn:Ho;
    intros [= <- <-]; cbn [rs_link rs_taken rs_events rs_conn]; split_and!; try done; cbn.
  - split; [done|]. exists flag. split; [done|]. cbn [p_Header p_Payload].
    apply secretbox_auth in Ho. by rewrite <- Ho.
  - split; [done|by eexists].
  - intros p (_ & fl & ? & [= _ _ Hp]). rewrite Hp in Ho.
    by rewrite secretbox_open_seal in Ho.
Qed.

(** The effect of delivering the packets [raws] one by one, up to where it
    stopped: the first [k] of them were opened and are in the history, except
    one that may still be in the reader's hand. *)
Definition delivered (raws : list bytes) (s s' : rstate) (o : outcome unit) : Prop :=
  exists (k : nat) new hand,
    (k <= length raws)%nat /\ opened (i_in (c_in (rs_conn s))) (take k raws) new /\
    history s' ++ hand = history s ++ new /\
    i_recvSeq (c_in (rs_conn s')) = i_recvSeq (c_in (rs_conn s)) + zlen new /\
    ((length (c_inbox (rs_conn s)) <= inboxSize)%nat ->
     (length (c_inbox (rs_conn s')) <= inboxSize)%nat) /\
    (forall ev, ev ∈ rs_events s' -> ev ∈ rs_events s) /\
    match o with
    | Ret _ => k = length raws /\ hand = [] /\ i_pending (c_in (rs_conn s')) = [] /\
        i_in (c_in (rs_conn s')) = steps k (i_in (c_in (rs_conn s))) /\
        c_ctx (rs_conn s') = c_ctx (rs_conn s)
    | Stop e => hand = [] /\
        ((c_ctx (rs_conn s') = c_ctx (rs_conn s) /\ (exists n, LinkEnded n e ∈ rs_events s) /\
          i_in (c_in (rs_conn s')) = steps k (i_in (c_in (rs_conn s)))) \/
         (c_ctx (rs_conn s') = Some (default e (c_ctx (rs_conn s))) /\
          errors_Is e ErrIntegrity = true /\
          exists raw, raws !! k = Some raw /\
            forall p, ~ sealed_as (steps k (i_in (c_in (rs_conn s)))) raw p))
    | Wait => blocked s' /\ c_ctx (rs_conn s') = c_ctx (rs_conn s) /\ (length hand <= 1)%nat /\
        i_in (c_in (rs_conn s')) = steps k (i_in (c_in (rs_conn s)))
    end.

Lemma cancel_fields e c :
  c_in (cancel e c) = c_in c /\ c_inbox (cancel e c) = c_inbox c /\ c_out (cancel e c) = c_out c.
Proof. unfold cancel. by destruct (c_ctx c). Qed.

Lemma deliver_delivered b s s' o :
  i_pending (c_in (rs_conn s)) = [] -> deliver b s = (s', o) ->
  delivered [b] s s' o /\ c_out (rs_conn s') = c_out (rs_conn s).
Proof.
  intros Hpend. unfold deliver, seq. destruct (deliver_open b s) as [s1 o1] eqn:Ho.
  apply deliver_open_cases in Ho as (Hl & Ht & He & Ho).
  destruct o1 as [p|e|]; [|destruct Ho as [[Hint [st Hc]] Hno]|done].
  - destruct Ho as [Hs Hc]. destruct (handOver p s1) as [s2 o2] eqn:Hh.
    apply handOver_cases in Hh as (inbox' & Hc2 & Htk & Hb & Hev & Ho2). rewrite Ht, He, Hc in *.
    assert (opened (i_in (c_in (rs_conn s))) (take 1 [b]) [p]) as Hop by by split.
    destruct o2 as [u|e|].
    + intros [= <- <-]. split; [|by rewrite Hc2]. exists 1%nat, [p], [].
      unfold history. rewrite Hc2. cbn. rewrite Hpend. split_and!; try done.
      rewrite !app_nil_r. rewrite Htk. cbn. by rewrite <- app_assoc.
    + unfold on_conn, stop. intros [= <- <-]. split; [|by cbn; rewrite Hc2].
      exists 1%nat, [p], []. unfold history. cbn. rewrite Hc2. cbn.
      rewrite Hpend. cbn. split_and!; try done.
      * rewrite app_nil_r, app_assoc, Htk. cbn. by rewrite app_nil_r.
      * left. split_and!; try done. 
    + intros [= <- <-]. split; [|by rewrite Hc2]. exists 1%nat, [p], [p].
      unfold history. rewrite Hc2. cbn. rewrite Hpend. split_and!; try done.
      rewrite app_nil_r, app_nil_r, Htk. cbn. by rewrite app_nil_r.
  - intros [= <- <-]. destruct (cancel_fields e (set_in (MkInbound st (i_recvSeq (c_in (rs_conn s)))
      (i_pending (c_in (rs_conn s)))) (rs_conn s))) as (Hf1 & Hf2 & Hf3).
    rewrite <- Hc in Hf1, Hf2, Hf3. split; [|by rewrite Hf3].
    exists 0%nat, [], []. unfold history. rewrite Hf1, Hf2. cbn. rewrite Ht, Hpend. split_and!; try done.
    + lia.
    + change (zlen []) with 0. lia.
    + by rewrite He.
    + right. rewrite Hc, cancel_first. cbn. split_and!; [done|done|]. by exists b.
Qed.

Lemma deliver_probe b s s' o :
  deliver b s = (s', o) -> c_probe (rs_conn s') = c_probe (rs_conn s).
Proof.
  unfold deliver, seq. destruct (deliver_open b s) as [s1 o1] eqn:Ho.
  apply deliver_open_cases in Ho as (_ & _ & _ & Ho).
  destruct o1 as [p|e|]; [|destruct Ho as [[_ [st Hc]] _]|done].
  - destruct Ho as [_ Hc]. destruct (handOver p s1) as [s2 o2] eqn:Hh.
    apply handOver_cases in Hh as (inbox' & Hc2 & _).
    destruct o2; intros [= <- <-]; cbn; by rewrite Hc2, Hc.
  - intros [= <- <-]. rewrite Hc. unfold cancel. by destruct (c_ctx _).
Qed.

Lemma opened_app st raws1 raws2 ps1 ps2 :
  opened st raws1 ps1 -> opened (steps (length raws1) st) raws2 ps2 ->
  opened st (raws1 ++ raws2) (ps1 ++ ps2).
Proof.
  revert st ps1. induction raws1 as [|raw raws1 IH]; intros st [|p ps1]; cbn [opened]; try done.
  intros [? ?] H2. cbn [length] in H2. rewrite steps_S in H2. cbn. auto.
Qed.

(** Delivering goes on from where it returned. *)
Lemma delivered_trans raws1 raws2 s s1 s2 o :
  delivered raws1 s s1 (Ret tt) -> delivered raws2 s1 s2 o -> delivered (raws1 ++ raws2) s s2 o.
Proof.
  intros (k1 & new1 & h1 & Hk1 & Hop1 & Hh1 & Hr1 & Hb1 & He1 & -> & -> & Hp1 & Hi1 & Hc1).
  intros (k2 & new2 & h2 & Hk2 & Hop2 & Hh2 & Hr2 & Hb2 & He2 & Ho).
  rewrite app_nil_r in Hh1. rewrite firstn_all in Hop1. rewrite Hi1 in *. rewrite Hc1 in *.
  exists (length raws1 + k2)%nat, (new1 ++ new2), h2.
  assert (forall st, steps k2 (steps (length raws1) st) = steps (length raws1 + k2) st) as Hst.
  { intros st. unfold steps. by rewrite Nat.add_comm, Nat.iter_add. }
  split_and!; auto.
  - rewrite length_app. lia.
  - rewrite take_app_add. by apply opened_app.
  - by rewrite Hh2, Hh1, app_assoc.
  - rewrite Hr2, Hr1, zlen_app. lia.
  - destruct o as [u|e|].
    + destruct Ho as (-> & ? & ? & ? & ?). rewrite length_app, <- Hst. done.
    + destruct Ho as (-> & [(?&[n ?]&?)|(?&?&raw&Hraw&?)]); split; [done| |done|].
      * left. rewrite <- Hst. split_and!; try done. exists n. auto.
      * right. split_and!; try done. exists raw. rewrite <- Hst.
        by rewrite lookup_app_r, Nat.add_comm, Nat.add_sub by lia.
    + rewrite <- Hst. done.
Qed.

Lemma delivered_stop_app raws1 raws2 s s1 o :
  match o with Ret _ => False | _ => True end ->
  delivered raws1 s s1 o -> delivered (raws1 ++ raws2) s s1 o.
Proof.
  intros Ho (k & new & h & Hk & Hop & Hh & Hr & Hb & He & Hcase).
  exists k, new, h. rewrite length_app, take_app_le by lia. split_and!; try done; [lia|].
  destruct o as [u|e|]; [done| |done].
  destruct Hcase as (? & [?|(?&?&raw&Hraw&?)]); split; try done; [by left|].
  right. split_and!; try done. exists raw. split; [|done]. by apply lookup_app_l_Some.
Qed.
End ReaderFacts.

(** ** The frames of a stream *)

(** The complete frames at the front of a byte stream, up to the first
    oversized or incomplete one. *)
Fixpoint frames_of (fuel : nat) (s : bytes) : list bytes :=
  match fuel with
  | O => []
  | S fuel =>
      match frame_outcome s (Sentinel io_EOF) with
      | Ok frame => frame :: frames_of fuel (zdrop (frame_consumed s) s)
      | _ => []
      end
  end.

Definition received (s : bytes) : list bytes := frames_of (S (length s)) s.

(** The bytes after them. *)
Fixpoint leftover (fuel : nat) (s : bytes) : bytes :=
  match fuel with
  | O => s
  | S fuel =>
      match frame_outcome s (Sentinel io_EOF) with
      | Ok _ => leftover fuel (zdrop (frame_consumed s) s)
      | _ => s
      end
  end.

(** What makes ReadFrame report an oversized frame at the end of a stream. *)
Definition oversized (rest : bytes) (e : gerr) : Prop :=
  errors_Is e ErrTooLarge = true \/ 4 <= zlen rest /\ MaxFrameSize < Uint32_be (ztake 4 rest).

Lemma frame_outcome_TooLarge s e err :
  frame_outcome s e = Err err -> errors_Is err ErrTooLarge = true -> oversized s e.
Proof.
  unfold frame_outcome, oversized, cut. repeat case_match; try done; intros [= <-];
    autorewrite with errors; try done; try (by left); intros _; right; lia.
Qed.

Lemma frame_outcome_Ok s e x :
  frame_outcome s e = Ok x ->
  frame_outcome s (Sentinel io_EOF) = Ok x /\ 4 <= frame_consumed s <= zlen s.
Proof.
  unfold frame_outcome, frame_consumed. repeat case_match; try done; intros [= <-].
  split; [done|]. pose proof (Uint32_be_take_range s). lia.
Qed.

Lemma frame_outcome_not_Ok s e :
  match frame_outcome s e with Ok _ => False | _ => True end ->
  match frame_outcome s (Sentinel io_EOF) with Ok _ => False | _ => True end.
Proof. unfold frame_outcome. by repeat case_match. Qed.

Section ReaderProperties.
Context `{HB : SecretBox}.

(** Everything [delivered] looks at. *)
Definition reader_view (s : rstate) :=
  (c_in (rs_conn s), c_inbox (rs_conn s), c_ctx (rs_conn s), rs_taken s, rs_events s).

Lemma delivered_view raws s0 s s' o :
  reader_view s0 = reader_view s -> delivered raws s0 s' o -> delivered raws s s' o.
Proof. unfold delivered, history, reader_view. intros [= -> -> -> -> ->]. done. Qed.

Lemma delivered_view_r raws s s0 s' o :
  reader_view s0 = reader_view s' -> delivered raws s s0 o -> delivered raws s s' o.
Proof.
  unfold delivered, history, blocked, reader_view. intros [= -> -> -> -> ->]. done.
Qed.

Lemma delivered_nil s : i_pending (c_in (rs_conn s)) = [] -> delivered [] s s (Ret tt).
Proof.
  intros ?. exists 0%nat, [], []. split_and!; try done; [by rewrite zlen_nil, Z.add_0_r].
Qed.

Lemma releaseHold_view c :
  c_in (releaseHold c) = c_in c /\ c_inbox (releaseHold c) = c_inbox c /\
  c_ctx (releaseHold c) = c_ctx c.
Proof. unfold releaseHold. by destruct (r_held _). Qed.

(** The stream ended after everything in it was delivered: with a read error,
    which leaves the Conn to the next link, or with an oversized frame, which
    ends it. *)
Definition stream_failed (rest : bytes) (rerr : gerr) (s1 : rstate) (e : gerr) (s' : rstate) : Prop :=
  (reader_view s' = reader_view s1 /\ exists e0, e = Errorf "etcp: read: %w" [e0] /\
     errors_Is e0 ErrTooLarge = false) \/
  (rs_conn s' = cancel e (rs_conn s1) /\ rs_taken s' = rs_taken s1 /\
   errors_Is e ErrIntegrity = true /\ oversized rest rerr).

Definition loop_result (raws : list bytes) (rest : bytes) (rerr : gerr) (s s' : rstate)
  (o : outcome unit) : Prop :=
  match o with
  | Ret _ => False
  | _ => delivered raws s s' o \/
         exists s1 e, o = Stop e /\ delivered raws s s1 (Ret tt) /\ stream_failed rest rerr s1 e s'
  end.

Lemma loop_result_trans raws1 raws2 rest rerr s s1 s2 o :
  delivered raws1 s s1 (Ret tt) -> loop_result raws2 rest rerr s1 s2 o ->
  loop_result (raws1 ++ raws2) rest rerr s s2 o.
Proof.
  intros H1. destruct o as [u|e|]; [done| |]; cbn [loop_result];
    (intros [H2|(s3 & e' & -> & H2 & H3)]; [left; by eapply delivered_trans|]);
    right; exists s3, e'; split_and!; try done; by eapply delivered_trans.
Qed.

Lemma loop_result_stop raws1 raws2 rest rerr s s1 o :
  match o with Ret _ => False | _ => True end ->
  delivered raws1 s s1 o -> loop_result (raws1 ++ raws2) rest rerr s s1 o.
Proof.
  intros Ho Hd. pose proof (delivered_stop_app raws1 raws2 _ _ _ Ho Hd).
  destruct o; [done| |]; by left.
Qed.

(** Outbound state: untouched, or with the hold released. *)
Definition out_result (released : bool) (s s' : rstate) : Prop :=
  c_out (rs_conn s') = c_out (rs_conn s) \/
  released = false /\ c_out (rs_conn s') = c_out (releaseHold (rs_conn s)).

Lemma read_frames_result fuel r buf released s s' o :
  i_pending (c_in (rs_conn s)) = [] -> (length (stream r) < fuel)%nat ->
  read_frames fuel r buf released s = (s', o) ->
  loop_result (frames_of fuel (stream r)) (leftover fuel (stream r)) (r_err r) s s' o /\ out_result released s s'.
Proof.
  revert r buf released s. induction fuel as [|fuel IH]; intros r buf released s Hp Hf; [lia|].
  cbn [read_frames frames_of leftover].
  destruct (ReadFrame_refines r buf) as (x & allocs & r' & -> & Hx & _ & Hrest).
  destruct x as [b|e| |]; cbn [map_res] in Hx.
  - symmetry in Hx. apply frame_outcome_Ok in Hx as [Hok Hc]. rewrite Hok.
    destruct (Hrest b eq_refl) as [Hs' He'].
    assert (zdrop (frame_consumed (stream r)) (stream r) = stream r') as -> by by rewrite Hs'.
    assert (length (stream r') < fuel)%nat as Hf'.
    { rewrite Hs', length_drop. unfold zlen in Hc. lia. }
    unfold seq at 1. set (s0 := fst (first_frame released s)).
    assert (first_frame released s = (s0, Ret tt)) as Hff by (by destruct released).
    rewrite Hff. assert (reader_view s0 = reader_view s) as Hv.
    { unfold reader_view, s0. destruct released; [done|]. cbn.
      by destruct (releaseHold_view (rs_conn s)) as (-> & -> & ->). }
    assert (out_result released s s0) as Ho0 by (destruct released; [by left|by right]).
    unfold seq. destruct (deliver (rb_data b) s0) as [s1 o1] eqn:Hd.
    apply deliver_delivered in Hd as [Hd Hout];
      [|unfold reader_view in Hv; injection Hv as Hv _ _ _ _; by rewrite Hv].
    apply (delivered_view _ _ s) in Hd; [|done].
    change (rb_data b :: frames_of fuel (stream r')) with ([rb_data b] ++ frames_of fuel (stream r')).
    destruct o1 as [[]|e1|].
    + intros Hrun. apply IH in Hrun as [Hr Ho1]; [|by destruct Hd as (?&?&?&?&?&?&?&?&?&_&_&?&_)|done].
      rewrite He' in Hr. split; [by eapply loop_result_trans|].
      destruct Ho1 as [Ho1|[? _]]; [|done]. unfold out_result in *. by rewrite Ho1, Hout.
    + intros [= <- <-]. split; [by apply loop_result_stop|]. unfold out_result in *. by rewrite Hout.
    + intros [= <- <-]. split; [by apply loop_result_stop|]. unfold out_result in *. by rewrite Hout.
  - assert (frames_of (S fuel) (stream r) = []) as Hnil.
    { cbn [frames_of]. pose proof (frame_outcome_not_Ok (stream r) (r_err r)) as Hn.
      rewrite <- Hx in Hn. specialize (Hn I). by destruct (frame_outcome _ (Sentinel io_EOF)). }
    assert (leftover (S fuel) (stream r) = stream r) as Hrst.
    { cbn [frames_of leftover] in *. by destruct (frame_outcome _ (Sentinel io_EOF)). }
    cbn [frames_of leftover] in Hnil, Hrst. rewrite Hnil, Hrst.
    unfold frame_failed; destruct (errors_Is e ErrTooLarge) eqn:Hl; unfold stop_fail, stop, fail; intros [= <- <-].
    + split; [|left; apply cancel_fields]. right. exists s. eexists. split; [done|].
      split; [by apply delivered_nil|]. right. cbn. split_and!; try done. by eapply frame_outcome_TooLarge.
    + split; [|by left]. right. exists s. eexists. split; [done|].
      split; [by apply delivered_nil|]. left. split; [done|]. by exists e.
  - exfalso. symmetry in Hx. unfold frame_outcome in Hx. by repeat case_match.
  - exfalso. symmetry in Hx. unfold frame_outcome in Hx. by repeat case_match.
Qed.

Lemma deliver_all_result catchup s s' o :
  i_pending (c_in (rs_conn s)) = [] -> deliver_all catchup s = (s', o) ->
  delivered catchup s s' o /\ c_out (rs_conn s') = c_out (rs_conn s).
Proof.
  revert s. induction catchup as [|b catchup IH]; intros s Hp; cbn [deliver_all].
  { intros [= <- <-]. by split; [apply delivered_nil|]. }
  unfold seq. destruct (deliver b s) as [s1 o1] eqn:Hd.
  apply deliver_delivered in Hd as [Hd Hout]; [|done].
  change (b :: catchup) with ([b] ++ catchup). destruct o1 as [[]|e1|].
  - intros Hrun. apply IH in Hrun as [Hr Ho1]; [|by destruct Hd as (?&?&?&?&?&?&?&?&?&_&_&?&_)].
    split; [by eapply delivered_trans|congruence].
  - intros [= <- <-]. split; [by apply delivered_stop_app|done].
  - intros [= <- <-]. split; [by apply delivered_stop_app|done].
Qed.

(** Handing over what an earlier link left changes nothing but where the
    packets are. *)
Lemma hand_pending_result s s' o :
  hand_pending (i_pending (c_in (rs_conn s))) s = (s', o) ->
  delivered [] s s' o /\ c_out (rs_conn s') = c_out (rs_conn s).
Proof.
  remember (i_pending (c_in (rs_conn s))) as pend eqn:Hp. symmetry in Hp.
  revert s Hp. induction pend as [|p rest IH]; intros s Hp; cbn [hand_pending].
  { unfold on_conn. intros [= <- <-]. cbn. split; [|done].
    apply (delivered_view_r _ _ s); [|by apply delivered_nil].
    unfold reader_view. cbn. rewrite <- Hp. by destruct (c_in (rs_conn s)). }
  unfold seq at 1. destruct (handOver p s) as [s1 o1] eqn:Hh.
  apply handOver_cases in Hh as (inbox' & Hc & Htk & Hb & Hev & Ho). destruct o1 as [[]|e|].
  - unfold seq, on_conn. cbn [rs_conn rs_link rs_taken rs_events]. intros Hrun.
    apply IH in Hrun as [Hd Hout]; [|done]. cbn [rs_conn] in Hout. rewrite Hc in *.
    split; [|done]. destruct Hd as (k & new & hand & Hk & Hop & Hh & Hr & Hbd & Hev' & Hcase).
    unfold history in Hh. cbn [rs_conn rs_taken rs_events set_in set_inbox c_in c_inbox i_pending i_in i_recvSeq c_ctx] in *.
    exists k, new, hand. split_and!; auto.
    + unfold history. rewrite Hh, Hp, <- !app_assoc, (app_assoc _ inbox'), Htk.
      by rewrite <- !app_assoc.
    + destruct o as [u|e|]; [done| |done].
      destruct Hcase as (-> & [(?&[n ?]&?)|?]); (split; [done|]); [left|by right].
      split_and!; try done. exists n. auto.
  - intros [= <- <-]. rewrite Hc. split; [|done]. exists 0%nat, [], []. unfold history. rewrite Hc. cbn.
    split_and!; try done; [|by rewrite zlen_nil, Z.add_0_r|by left].
    rewrite !app_nil_r, app_assoc, Htk, app_nil_r. by rewrite <- app_assoc.
  - intros [= <- <-]. rewrite Hc. split; [|done]. exists 0%nat, [], []. unfold history, blocked in *.
    rewrite Hc in *. cbn in *. split_and!; try done; [|by rewrite zlen_nil, Z.add_0_r|lia].
    rewrite !app_nil_r, app_assoc, Htk, app_nil_r. by rewrite <- app_assoc.
Qed.

Lemma readLoop_result r catchup s s' o :
  readLoop r catchup s = (s', o) ->
  loop_result (catchup ++ received (stream r))
    (leftover (S (length (stream r))) (stream r)) (r_err r) s s' o /\ out_result false s s'.
Proof.
  unfold readLoop, seq. destruct (hand_pending _ s) as [s1 o1] eqn:H1.
  apply hand_pending_result in H1 as [Hd1 Hout1]. destruct o1 as [[]|e1|].
  2,3: intros [= <- <-]; (split; [by apply (loop_result_stop [])|by left]).
  destruct (deliver_all catchup s1) as [s2 o2] eqn:H2.
  apply deliver_all_result in H2 as [Hd2 Hout2]; [|by destruct Hd1 as (?&?&?&?&?&?&?&?&?&_&_&?&_)].
  pose proof (delivered_trans [] catchup _ _ _ _ Hd1 Hd2) as Hd. cbn [app] in Hd.
  assert (c_out (rs_conn s2) = c_out (rs_conn s)) as Hout by congruence.
  destruct o2 as [[]|e2|].
  2,3: intros [= <- <-]; (split; [by apply loop_result_stop|by left]).
  intros H3. apply read_frames_result in H3 as [Hr Ho3];
    [|by destruct Hd2 as (?&?&?&?&?&?&?&?&?&_&_&?&_)|lia].
  split; [by eapply loop_result_trans|].
  unfold out_result, releaseHold in *. rewrite Hout in Ho3.
  destruct Ho3 as [?|[_ Ho3]]; [by left|right]. split; [done|].
  destruct (r_held _); [|congruence]. rewrite Ho3. done.
Qed.

(** What [readLoop] does with anything a peer may send, however its handovers
    go: of the catchup entries and then the frames of the stream it hands over
    a run that starts at the first, each exactly once and in order behind what
    an earlier link had left, and only those the peer sealed for that very
    position; a packet whose handover fails stays for the next link.  It ends
    with the link, with the stream after handing over all of it, or with
    ErrIntegrity at a packet that is not the one sealed next. *)
Theorem readLoop_spec r catchup s s' o :
  readLoop r catchup s = (s', o) ->
  loop_result (catchup ++ received (stream r))
    (leftover (S (length (stream r))) (stream r)) (r_err r) s s' o /\ out_result false s s'.
Proof. exact (readLoop_result r catchup s s' o). Qed.

(** ** An honest peer *)

(** The bytes of frames on the wire. *)
Definition frame_bytes (x : bytes) : bytes := fst (AppendFrame [] x).
Definition wire_bytes (xs : list bytes) : bytes := concat (map frame_bytes xs).

Lemma frame_bytes_eq x : zlen x <= MaxFrameSize -> frame_bytes x = rev (le_bytes 4 (zlen x)) ++ x.
Proof.
  intros ?. unfold frame_bytes, AppendFrame.
  by destruct (Z.ltb_spec MaxFrameSize (zlen x)); [lia|].
Qed.

Lemma frame_bytes_zlen x : zlen x <= MaxFrameSize -> zlen (frame_bytes x) = 4 + zlen x.
Proof.
  intros ?. by rewrite frame_bytes_eq, zlen_app, zlen_be32.
Qed.

(** A prefix of one frame and what follows is no frame and not oversized. *)
Lemma frame_outcome_cut s lost x rest :
  zlen x <= MaxFrameSize -> s ++ lost = frame_bytes x ++ rest -> zlen s < 4 + zlen x ->
  match frame_outcome s (Sentinel io_EOF) with Ok _ => False | _ => True end /\
  ~ (4 <= zlen s /\ MaxFrameSize < Uint32_be (ztake 4 s)).
Proof.
  intros Hx Hs Hl. pose proof (zlen_nonneg s) as Hs0. destruct (Z.lt_ge_cases (zlen s) 4) as [H4|H4].
  { split; [|lia]. unfold frame_outcome. repeat case_match; done || lia. }
  assert (Uint32_be (ztake 4 s) = zlen x) as Hn.
  { assert (ztake 4 s = ztake 4 (s ++ lost)) as -> by (by rewrite ztake_app_le).
    rewrite Hs, frame_bytes_eq, <- app_assoc, ztake_app_eq, Uint32_be_bytes by done.
    apply Z.mod_small. change MaxFrameSize with 16777216 in Hx. pose proof (zlen_nonneg x). lia. }
  split; [|lia]. unfold frame_outcome. rewrite Hn. repeat case_match; done || lia.
Qed.

Lemma received_fuel xs : forall fuel s lost,
  Forall (fun x => zlen x <= MaxFrameSize) xs -> (length s < fuel)%nat ->
  s ++ lost = wire_bytes xs ->
  exists k, (k <= length xs)%nat /\ frames_of fuel s = take k xs /\
    ~ (4 <= zlen (leftover fuel s) /\ MaxFrameSize < Uint32_be (ztake 4 (leftover fuel s))) /\
    (lost = [] -> k = length xs).
Proof.
  induction xs as [|x xs IH]; intros fuel s lost Hfit Hf Hs; destruct fuel as [|fuel]; try lia.
  { apply app_nil in Hs as [-> ->]. exists 0%nat. split_and!; [lia|done| |done].
    intros [Hc _]. by apply Hc. }
  apply Forall_cons in Hfit as [Hx Hfit]. unfold wire_bytes in Hs. cbn [map concat] in Hs.
  fold (wire_bytes xs) in Hs. pose proof (zlen_nonneg x). cbn [frames_of leftover].
  destruct (Z.lt_ge_cases (zlen s) (4 + zlen x)) as [Hshort|Hlong].
  - destruct (frame_outcome_cut s lost x _ Hx Hs Hshort) as [Hno Hsz].
    exists 0%nat. destruct (frame_outcome s (Sentinel io_EOF)) eqn:Ho; [done|..];
      (split_and!; [lia|done|done|]); intros ->; rewrite app_nil_r in Hs; subst s;
      rewrite zlen_app, frame_bytes_zlen in Hshort by done;
      pose proof (zlen_nonneg (wire_bytes xs)); lia.
  - assert (exists t, s = frame_bytes x ++ t /\ t ++ lost = wire_bytes xs) as (t & -> & Ht).
    { exists (zdrop (zlen (frame_bytes x)) s).
      assert (s = ztake (zlen (frame_bytes x)) s ++ zdrop (zlen (frame_bytes x)) s) as Hsp
        by (by rewrite ztake_zdrop).
      assert (ztake (zlen (frame_bytes x)) s = frame_bytes x) as Htk.
      { rewrite <- (ztake_app_le _ s lost) by (rewrite frame_bytes_zlen; lia).
        rewrite Hs. by apply ztake_app_eq. }
      rewrite Htk in Hsp. split; [done|].
      assert (frame_bytes x ++ (zdrop (zlen (frame_bytes x)) s ++ lost) = frame_bytes x ++ wire_bytes xs) as He.
      { rewrite app_assoc, <- Hsp. done. }
      by apply app_inv_head in He. }
    rewrite frame_bytes_eq, <- app_assoc in * by done.
    rewrite frame_outcome_append, frame_consumed_append by done.
    rewrite (app_assoc (rev _)), zdrop_app_eq;
      [|by rewrite zlen_app, zlen_be32].
    destruct (IH fuel t lost Hfit) as (k & Hk & Hfr & Hov & Hlost); [|done|].
    { rewrite !length_app, AppendUint32_be_length in Hf. lia. }
    exists (S k). cbn [length take]. split_and!; [lia|by f_equal|done|].
    intros ->. f_equal. auto.
Qed.

(** Sealing is injective, so what opens at a position is what was sealed there. *)
Lemma secretbox_Seal_inj key nonce p p' :
  secretbox_Seal key nonce p = secretbox_Seal key nonce p' -> p = p'.
Proof.
  intros Heq. pose proof (secretbox_open_seal key nonce p) as H1.
  rewrite Heq, secretbox_open_seal in H1. by injection H1.
Qed.

Lemma sealed_as_at key d k raw q p :
  0 <= k -> k + 1 < 2 ^ 184 -> raw = sealed_at key d k q ->
  sealed_as (state_at key d k) raw p -> p = q.
Proof.
  intros Hk1 Hk2 -> (_ & flag & _ & Heq). rewrite step_state_at in Heq by done.
  unfold sealed_at, append_packet in Heq. cbn [app] in Heq.
  injection Heq as _ Hh Hp. apply secretbox_Seal_inj in Hp.
  destruct p, q; cbn in *; congruence.
Qed.

Lemma sealed_at_sealed_as key d k q :
  0 <= k -> k + 1 < 2 ^ 184 -> zlen (p_Payload q) <= maxPayload ->
  sealed_as (state_at key d k) (sealed_at key d k q) q.
Proof.
  intros Hk1 Hk2 Hq. split.
  - rewrite sealed_at_zlen. unfold maxPayload in Hq. lia.
  - exists x01. split; [done|]. rewrite step_state_at by done. done.
Qed.

Lemma steps_state_at key d k n :
  0 <= k -> k + Z.of_nat n < 2 ^ 184 -> steps n (state_at key d k) = state_at key d (k + Z.of_nat n).
Proof.
  revert k. induction n as [|n IH]; intros k Hk Hn; [by rewrite Z.add_0_r|].
  rewrite steps_S, step_state_at, IH by lia. f_equal. lia.
Qed.

Lemma opened_sealed_from key d k qs n new :
  0 <= k -> k + zlen qs < 2 ^ 184 ->
  opened (state_at key d k) (take n (sealed_from key d k qs)) new -> new = take n qs.
Proof.
  revert k n new. induction qs as [|q qs IH]; intros k n new Hk Hn Hop.
  { cbn [sealed_from] in Hop. rewrite take_nil in Hop. rewrite take_nil. by destruct new. }
  rewrite zlen_cons in Hn. pose proof (zlen_nonneg qs).
  destruct n as [|n]; cbn [sealed_from take] in *; [by destruct new|].
  destruct new as [|p new]; [done|]. destruct Hop as [Hs Hop].
  apply (sealed_as_at _ _ _ _ q) in Hs as ->; [|lia|lia|done].
  rewrite step_state_at in Hop by lia. f_equal. eapply IH; [| |exact Hop]; lia.
Qed.

Lemma sealed_from_fits key d k qs :
  Forall (fun q => zlen (p_Payload q) <= maxPayload) qs ->
  Forall (fun x => zlen x <= MaxFrameSize) (sealed_from key d k qs).
Proof.
  intros Hq. revert k. induction Hq; intros k; constructor; auto.
  rewrite sealed_at_zlen. unfold maxPayload in *. lia.
Qed.

Lemma zdrop_sealed_from key d k m qs :
  0 <= m -> zdrop m (sealed_from key d k qs) = sealed_from key d (k + Z.min m (zlen qs)) (zdrop m qs).
Proof.
  intros Hm. rewrite <- (ztake_zdrop m qs) at 1. rewrite sealed_from_app.
  assert (zlen (ztake m qs) = Z.min m (zlen qs)) as -> by (pose proof (zlen_nonneg qs); zlia).
  destruct (Z.le_gt_cases m (zlen qs)).
  - rewrite zdrop_app_eq; [done|]. unfold zlen. rewrite sealed_from_length. fold (zlen (ztake m qs)). zlia.
  - rewrite (zdrop_ge m qs) by lia. cbn [sealed_from]. rewrite app_nil_r. apply zdrop_ge.
    unfold zlen. rewrite sealed_from_length. fold (zlen (ztake m qs)). zlia.
Qed.

Lemma opened_zlen st raws ps : opened st raws ps -> length ps = length raws.
Proof.
  revert st ps. induction raws as [|raw raws IH]; intros st [|p ps]; cbn; try done.
  intros [_ ?]. f_equal. eauto.
Qed.

(** Delivering packets sealed in order never fails the Conn, and what was
    handed over is a run of the peer's packets. *)
Lemma delivered_sealed key d k qs raws s s' o :
  0 <= k -> k + zlen qs < 2 ^ 184 -> Forall (fun q => zlen (p_Payload q) <= maxPayload) qs ->
  i_in (c_in (rs_conn s)) = state_at key d k ->
  raws `prefix_of` sealed_from key d k qs -> delivered raws s s' o ->
  exists (n : nat) hand, (n <= length raws)%nat /\
    history s' ++ hand = history s ++ take n qs /\
    i_recvSeq (c_in (rs_conn s')) = i_recvSeq (c_in (rs_conn s)) + Z.of_nat n /\
    i_in (c_in (rs_conn s')) = state_at key d (k + Z.of_nat n) /\
    c_ctx (rs_conn s') = c_ctx (rs_conn s) /\ (o <> Wait -> hand = []) /\
    match o with
    | Ret _ => n = length raws /\ i_pending (c_in (rs_conn s')) = []
    | Stop e => exists j, LinkEnded j e ∈ rs_events s
    | Wait => blocked s' /\ (length hand <= 1)%nat
    end.
Proof.
  intros Hk Hs Hfit Hin Hpre (n & new & hand & Hn & Hop & Hh & Hr & _ & _ & Ho).
  assert (raws = take (length raws) (sealed_from key d k qs)) as Hraws
    by by apply prefix_lookup_length.
  assert (length raws <= length qs)%nat as Hlr.
  { apply prefix_length in Hpre. by rewrite sealed_from_length in Hpre. }
  assert (opened (state_at key d k) (take n (sealed_from key d k qs)) new) as Hop'.
  { rewrite Hin, Hraws, take_take, Nat.min_l in Hop by done. done. }
  apply opened_sealed_from in Hop' as Hnew; [|done|done].
  assert (length new = n) as Hlen.
  { apply opened_zlen in Hop. rewrite Hop, length_take. lia. }
  assert (Z.of_nat n <= zlen qs) as Hnq by (unfold zlen; lia).
  exists n, hand. rewrite Hin in Ho. rewrite <- Hnew.
  assert (forall x, x = steps n (state_at key d k) -> x = state_at key d (k + Z.of_nat n)) as Hst.
  { intros x ->. apply steps_state_at; lia. }
  unfold zlen in Hr. rewrite Hlen in Hr.
  destruct o as [u|e|].
  - destruct Ho as (-> & -> & Hp & Hi & Hc). split_and!; auto.
  - destruct Ho as (-> & [(Hc & He & Hi)|(_ & _ & raw & Hraw & Hno)]); [split_and!; auto|].
    exfalso. rewrite Hraws in Hraw. apply lookup_take_Some in Hraw as [Hraw Hlt].
    rewrite sealed_from_lookup in Hraw. destruct (qs !! n) as [q|] eqn:Hq; [|done].
    injection Hraw as <-. apply (Hno q). rewrite (Hst _ eq_refl).
    apply sealed_at_sealed_as; [lia|unfold zlen in *; lia|].
    exact (Forall_lookup_1 _ _ _ _ Hfit Hq).
  - destruct Ho as (Hb & Hc & Hl & Hi). split_and!; auto. done.
Qed.

(** [delivered_sealed] for raws of an honest peer, counted from its whole log. *)
Lemma delivered_honest key qs rc raws lost s s1 o1 :
  0 <= rc <= zlen qs -> zlen qs < 2 ^ 184 ->
  Forall (fun q => zlen (p_Payload q) <= maxPayload) (zdrop rc qs) ->
  i_in (c_in (rs_conn s)) = state_at key ServerToClient rc -> i_recvSeq (c_in (rs_conn s)) = rc ->
  raws `prefix_of` sealed_from key ServerToClient rc (zdrop rc qs) ->
  rc + zlen raws <= zlen qs -> (lost = @nil byte -> rc + zlen raws = zlen qs) ->
  delivered raws s s1 o1 ->
  exists n hand, rc <= n <= zlen qs /\
    history s1 ++ hand = history s ++ ztake (n - rc) (zdrop rc qs) /\
    i_recvSeq (c_in (rs_conn s1)) = n /\
    i_in (c_in (rs_conn s1)) = state_at key ServerToClient n /\
    c_ctx (rs_conn s1) = c_ctx (rs_conn s) /\
    match o1 with
    | Ret _ => hand = [] /\ (lost = [] -> n = zlen qs)
    | Stop e => hand = [] /\ (exists j, LinkEnded j e ∈ rs_events s)
    | Wait => blocked s1 /\ (length hand <= 1)%nat
    end.
Proof.
  intros Hrc Hsz Hfit Hin Hseq Hpre Hle Hwhole Hd.
  assert (zlen (zdrop rc qs) = zlen qs - rc) as Hzl by zlia.
  eapply delivered_sealed in Hd as (n & hand & Hn & Hh & Hr & Hi & Hc & Hw & Ho);
    [|exact (proj1 Hrc)| |done|exact Hin|exact Hpre]; [|lia].
  unfold zlen in Hle, Hwhole.
  exists (rc + Z.of_nat n), hand. rewrite Hr, Hseq. unfold ztake.
  replace (Z.to_nat (rc + Z.of_nat n - rc)) with n by lia.
  split_and!; try done; try (unfold zlen; lia).
  destruct o1 as [u|e|]; [|split; [by apply Hw|done]|done].
  split; [by apply Hw|]. intros Hl. destruct Ho as [-> _]. by apply Hwhole.
Qed.

(** [C14] With a peer that seals its packets in order, [readLoop] never ends the
    Conn: its callers get exactly the peer's packets from the count this side
    had on, in order and once each, whatever the link did to the stream and
    whenever it died, and the count and nonce stand behind the last of them,
    so the next link goes on from there.  A stream that arrived whole is
    handed over whole. *)
Theorem readLoop_exactly_once key qs rc m r catchup lost s s' o :
  0 <= rc <= m -> m <= zlen qs -> zlen qs < 2 ^ 184 ->
  Forall (fun q => zlen (p_Payload q) <= maxPayload) qs ->
  i_in (c_in (rs_conn s)) = state_at key ServerToClient rc -> i_recvSeq (c_in (rs_conn s)) = rc ->
  let log := sealed_log key ServerToClient qs in
  catchup = ztake (m - rc) (zdrop rc log) ->
  stream r ++ lost = wire_bytes (zdrop m log) ->
  errors_Is (r_err r) ErrTooLarge = false ->
  readLoop r catchup s = (s', o) ->
  exists n hand, rc <= n <= zlen qs /\
    history s' ++ hand = history s ++ ztake (n - rc) (zdrop rc qs) /\
    i_recvSeq (c_in (rs_conn s')) = n /\
    i_in (c_in (rs_conn s')) = state_at key ServerToClient n /\
    c_ctx (rs_conn s') = c_ctx (rs_conn s) /\
    match o with
    | Ret _ => False
    | Stop e => hand = [] /\ ((exists j, LinkEnded j e ∈ rs_events s) \/ (lost = [] -> n = zlen qs))
    | Wait => blocked s' /\ (length hand <= 1)%nat
    end.
Proof.
  intros Hrc Hm Hsz Hfit Hin Hseq log Hcat Hstr Herr Hrun.
  apply readLoop_result in Hrun as [Hres _].
  assert (forall j, 0 <= j <= zlen qs -> zdrop j log = sealed_from key ServerToClient j (zdrop j qs)) as Hdrop.
  { intros j ?. unfold log, sealed_log. rewrite zdrop_sealed_from by lia. f_equal. lia. }
  destruct (received_fuel (zdrop m log) (S (length (stream r))) (stream r) lost)
    as (k & Hk & Hrecv & Hover & Hwhole); [|lia|done|].
  { rewrite Hdrop by lia. apply sealed_from_fits. by apply Forall_drop. }
  fold (received (stream r)) in Hrecv. rewrite Hrecv in Hres.
  set (raws := catchup ++ take k (zdrop m log)) in *.
  assert (raws `prefix_of` sealed_from key ServerToClient rc (zdrop rc qs)) as Hpre.
  { rewrite <- Hdrop by lia. exists (drop k (zdrop m log)). unfold raws.
    rewrite Hcat, <- app_assoc, take_drop. replace m with ((m - rc) + rc) at 2 by lia.
    rewrite <- zdrop_zdrop by lia. by rewrite ztake_zdrop. }
  pose proof (zlen_nonneg qs). assert (zlen (zdrop rc qs) = zlen qs - rc) as Hzl by zlia.
  assert (Forall (fun q => zlen (p_Payload q) <= maxPayload) (zdrop rc qs)) by by apply Forall_drop.
  assert (Z.of_nat (length raws) = m - rc + Z.of_nat k) as Hlraws.
  { unfold raws. rewrite length_app, Nat2Z.inj_add, Hcat. fold (zlen (ztake (m - rc) (zdrop rc log))).
    rewrite zlen_ztake, zlen_zdrop, length_take, Nat.min_l by done.
    unfold log. rewrite sealed_log_zlen. lia. }
  assert (Z.of_nat k <= zlen qs - m) as Hkq.
  { assert (zlen (zdrop m log) = zlen qs - m) as <-; [|unfold zlen; lia].
    rewrite zlen_zdrop. unfold log. rewrite sealed_log_zlen. lia. }
  assert (lost = [] -> rc + zlen raws = zlen qs) as Hall_raws.
  { intros Hl. unfold zlen at 1. rewrite Hlraws, (Hwhole Hl). fold (zlen (zdrop m log)).
    rewrite zlen_zdrop. unfold log. rewrite sealed_log_zlen. lia. }
  assert (rc + zlen raws <= zlen qs) as Hle by (unfold zlen at 1; lia).
  pose proof (fun s1 o1 => delivered_honest key qs rc raws lost s s1 o1 ltac:(lia) Hsz ltac:(done)
    Hin Hseq Hpre Hle Hall_raws) as Hall.
  destruct o as [u|e|]; [done| |]; cbn [loop_result] in Hres.
  - destruct Hres as [Hd|(s1 & e1 & [= <-] & Hd & Hf)].
    + destruct (Hall _ _ Hd) as (n & hand & ?&?&?&?&?&?&?). exists n, hand. split_and!; auto; lia.
    + destruct (Hall _ _ Hd) as (n & hand & ?&Hh&Hr&Hi&Hc&Hhand&?). exists n, hand.
      destruct Hf as [[Hv _]|(_ & _ & _ & Hov)].
      * unfold reader_view in Hv. injection Hv as Hv1 Hv2 Hv3 Hv4 Hv5.
        unfold history in *. rewrite Hv1, Hv2, Hv3, Hv4. split_and!; auto; lia.
      * exfalso. destruct Hov as [?|?]; [congruence|auto].
  - destruct Hres as [Hd|(s1 & e1 & [= ] & _)]. destruct (Hall _ _ Hd) as (n & hand & Hx). by exists n, hand.
Qed.
End ReaderProperties.

#[local] Existing Instance toy_box.

(** A link that dies after its catchup packet was taken and with the next one
    in the reader's hand. *)
Definition example_qs : list Packet := [MkPacket x01 (bs "one"); MkPacket x01 (bs "two")].
Definition example_log : list bytes := sealed_log (bs "key") ServerToClient example_qs.
Definition example_reader : reader :=
  Reader [ztake 5 (wire_bytes (zdrop 1 example_log)); zdrop 5 (wire_bytes (zdrop 1 example_log))]
    false (Sentinel io_EOF).
Definition example_rstate : rstate :=
  MkR example_conn newLink [] [Sent 0; LinkEnded 1 (Sentinel net_ErrClosed)].

Lemma readLoop_spec_witness :
  exists s', readLoop example_reader (ztake 1 example_log) example_rstate =
      (s', Stop (Sentinel net_ErrClosed)) /\
    rs_taken s' = [MkPacket x01 (bs "one")] /\
    i_pending (c_in (rs_conn s')) = [MkPacket x01 (bs "two")] /\
    out_result false example_rstate s'.
Proof.
  eexists. split; [vm_compute; reflexivity|]. split; [reflexivity|]. split; [reflexivity|].
  refine (proj2 (readLoop_spec example_reader (ztake 1 example_log) example_rstate _
    (Stop (Sentinel net_ErrClosed)) _)).
  vm_compute. reflexivity.
Defined.

Lemma readLoop_exactly_once_witness :
  exists s' n hand, readLoop example_reader (ztake 1 example_log) example_rstate =
      (s', Stop (Sentinel net_ErrClosed)) /\ 0 <= n <= 2 /\
    history s' ++ hand = ztake (n - 0) (zdrop 0 example_qs) /\ i_recvSeq (c_in (rs_conn s')) = n.
Proof.
  destruct (readLoop example_reader (ztake 1 example_log) example_rstate) as [s' o] eqn:Hrun.
  assert (o = Stop (Sentinel net_ErrClosed)) as ->
    by (apply (f_equal snd) in Hrun; vm_compute in Hrun; by symmetry).
  assert (0 <= 0 <= 1) as H1 by lia. assert (1 <= zlen example_qs) as H2 by by vm_compute.
  assert (zlen example_qs < 2 ^ 184) as H3 by by vm_compute.
  assert (Forall (fun q => zlen (p_Payload q) <= maxPayload) example_qs) as H4
    by (repeat constructor; by vm_compute).
  assert (stream example_reader ++ [] = wire_bytes (zdrop 1 example_log)) as H5 by (vm_compute; reflexivity).
  destruct (readLoop_exactly_once (bs "key") example_qs 0 1 example_reader (ztake 1 example_log) []
    example_rstate s' _ H1 H2 H3 H4 eq_refl eq_refl eq_refl H5 eq_refl Hrun)
    as (n & hand & Hn & Hh & Hr & _).
  exists s', n, hand. split; [reflexivity|]. split; [exact Hn|]. split; [exact Hh|exact Hr].
Defined.
