(* ===== verification/LinkWriter.v ===== *)
(** * internal/etcp/link.go: the writer and the watcher of one TCP connection

    A writer's pass is the snapshot under the lock, the framing outside it,
    the Writes in pieces and the commit under the lock.  The watcher is a
    state machine over its select's cases. *)

From S2P Require Export Link.
Local Open Scope Z_scope.

Definition writeBufSize : Z := Z.shiftl 64 10.
Definition maxBatchEntries : Z := writeBufSize / (4 + 2 + Overhead) + 1.
Definition progressChunk : Z := Z.shiftl 4 10.

(** ** The writer *)

Section Writer.
Context `{SecretBox}.

(** The first critical section of a pass: where it starts, the latest probe
    and the entries to frame.  [None] is the panic of a slice out of range. *)
Definition writeLoop_snapshot (o : outbound) : option (Z * Z * list bytes) :=
  let base := o_flushed o in
  batch ← appendRange (o_ring o) [] base (Z.min (ring_next (o_ring o)) (base + maxBatchEntries));
  Some (base, o_lastProbe o, batch).

(** The framing loop. *)
Record framed := MkFramed {
  f_buf : bytes;
  f_sent : Z;
  f_n : Z;
  f_probeAt : Z
}.

Fixpoint frame_batch (base probe : Z) (batch : list bytes) (f : framed) : framed + gerr :=
  match batch with
  | [] => inl f
  | e :: rest =>
      if (f_sent f >? 0) && (zlen (f_buf f) + 4 + zlen e >? writeBufSize) then inl f
      else
        let probeAt := if base + f_sent f =? probe then zlen (f_buf f) else f_probeAt f in
        match AppendFrame (f_buf f) e with
        | (buf, None) => frame_batch base probe rest (MkFramed buf (f_sent f + 1) (f_n f + zlen e) probeAt)
        | (_, Some err) => inr (Errorf "%w: %w" [Sentinel ErrIntegrity; err])
        end
  end.

Definition frame_init : framed := MkFramed [] 0 0 (-1).

Definition probeBehind (lastProbe endseq probeAt written : Z) : bool :=
  if probeAt >=? 0 then written <=? probeAt else lastProbe >=? endseq.

(** The Writes of a pass.  [lastProbe w] is the Conn's latest probe when [w]
    bytes were written; the watcher may queue one at any time.  Beside the
    error it returns the written counts after which the link was signalled
    alive. *)
Fixpoint write_pieces (fuel : nat) (w : writer) (lastProbe : Z -> Z) (endseq probeAt : Z)
  (buf : bytes) (written : Z) (alive : list Z) : option gerr * list Z * writer :=
  match fuel with
  | O => (None, alive, w)
  | S fuel =>
      if written <? zlen buf then
        let piece := ztake (Z.min (zlen buf) (written + progressChunk) - written) (zdrop written buf) in
        let '(m, err, w) := Write w piece in
        match err with
        | Some e => (Some (Errorf "etcp: write: %w" [e]), alive, w)
        | None =>
            if negb (Nat.eqb m (length piece))
            then (Some (Errorf "etcp: write: %w" [Sentinel io_ErrShortWrite]), alive, w)
            else
              let written := written + zlen piece in
              let alive := if probeBehind (lastProbe written) endseq probeAt written
                           then alive ++ [written] else alive in
              write_pieces fuel w lastProbe endseq probeAt buf written alive
        end
      else (None, alive, w)
  end.

(** The second critical section: the batch counts as sent. *)
Definition writeLoop_commit (sent n : Z) (c : Conn) : Conn :=
  let o := c_out c in
  let '(o, room) := releaseLocked
    (MkOutbound (o_out o) (o_ring o) (o_flushed o + sent) (o_unsent o - n) (o_lastProbe o)) in
  let c := set_out o c in
  if room then signal_space c else c.

(** One pass of [writeLoop] from a Conn with something to send; [now] is the
    Conn as the other goroutines have left it when the Writes are done. *)
Inductive pass :=
| Idle                                       (* nothing to send: wait for wake or the end *)
| Pass (c : Conn) (alive : list Z) (w : writer)
| PassFailed (c : Conn) (e : gerr) (alive : list Z) (w : writer)
| PassPanic.

Definition writeLoop_pass (c : Conn) (w : writer) (lastProbe : Z -> Z) (now : Conn) : pass :=
  match writeLoop_snapshot (c_out c) with
  | None => PassPanic
  | Some (base, probe, batch) =>
      match batch with
      | [] => Idle
      | _ :: _ =>
          match frame_batch base probe batch frame_init with
          | inr e => let '(c, e) := fail e c in PassFailed c e [] w
          | inl f =>
              match write_pieces (S (length (f_buf f))) w lastProbe (base + f_sent f) (f_probeAt f)
                      (f_buf f) 0 [] with
              | (Some e, alive, w) => PassFailed now e alive w
              | (None, alive, w) => Pass (writeLoop_commit (f_sent f) (f_n f) now) alive w
              end
          end
      end
  end.

(** ** The watcher *)

(** The case of the watcher's select: the link's context, a sign of life, or a
    whole keepAlive period without one, with the delivering flag and the Conn
    as they are then. *)
Inductive watch_event :=
| WatchDone (cause : gerr)
| WatchAlive
| WatchTick (delivering : bool) (now : Conn).

Inductive watch_state := Watching (probed : bool) | WatchReturned (e : gerr).

Definition watch_step (st : bool) (ev : watch_event) : watch_state * option Conn :=
  match ev with
  | WatchDone cause => (WatchReturned cause, None)
  | WatchAlive => (Watching false, None)
  | WatchTick delivering now =>
      if delivering then (Watching false, Some now)
      else if sealedNone now then (Watching false, Some now)
      else if st then (WatchReturned (Sentinel errLinkDead), Some now)
      else (Watching true, Some (probeOnce now))
  end.

Fixpoint watch (probed : bool) (evs : list watch_event) : watch_state :=
  match evs with
  | [] => Watching probed
  | ev :: evs =>
      match watch_step probed ev with
      | (Watching probed, _) => watch probed evs
      | (WatchReturned e, _) => WatchReturned e
      end
  end.
End Writer.

(** ** Framing a batch *)

Section WriterFacts.
Context `{HB : SecretBox}.

(** What a ring entry weighs: sealed packets have their flag, header and tag. *)
Definition entry_ok (e : bytes) : Prop := 2 + Overhead <= zlen e <= MaxFrameSize.

Lemma sealed_from_entry_ok key d k ps :
  Forall (fun p => zlen (p_Payload p) <= maxPayload) ps ->
  Forall entry_ok (sealed_from key d k ps).
Proof.
  intros Hp. revert k. induction Hp as [|p ps Hp Hps IH]; intros k; constructor; auto.
  unfold entry_ok. rewrite sealed_at_zlen. unfold maxPayload in *.
  pose proof (zlen_nonneg (p_Payload p)). lia.
Qed.

Lemma AppendFrame_ok dst e : entry_ok e -> AppendFrame dst e = (dst ++ frame_bytes e, None).
Proof.
  intros [_ He]. rewrite frame_bytes_eq by done. unfold AppendFrame, AppendUint32_be.
  destruct (Z.ltb_spec MaxFrameSize (zlen e)); [lia|]. by rewrite <- app_assoc.
Qed.

Lemma wire_bytes_app a b : wire_bytes (a ++ b) = wire_bytes a ++ wire_bytes b.
Proof. unfold wire_bytes. by rewrite map_app, concat_app. Qed.

Lemma wire_bytes_single e : wire_bytes [e] = frame_bytes e.
Proof. unfold wire_bytes. cbn. by rewrite app_nil_r. Qed.

(** The state of the framing loop once it framed [l]. *)
Definition framed_of (base probe : Z) (l : list bytes) : framed :=
  MkFramed (wire_bytes l) (zlen l) (sizes l)
    (if (base <=? probe) && (probe <? base + zlen l)
     then zlen (wire_bytes (ztake (probe - base) l)) else -1).

(** A batch stops early only where the next frame would not fit. *)
Definition batch_full (l : list bytes) (rest : list bytes) : Prop :=
  match rest with
  | [] => True
  | e :: _ => l <> [] /\ writeBufSize < zlen (wire_bytes l) + 4 + zlen e
  end.

Lemma framed_of_snoc base probe l e :
  zlen e <= MaxFrameSize ->
  MkFramed (wire_bytes l ++ frame_bytes e) (zlen l + 1) (sizes l + zlen e)
    (if base + zlen l =? probe then zlen (wire_bytes l)
     else f_probeAt (framed_of base probe l)) = framed_of base probe (l ++ [e]).
Proof.
  intros He. unfold framed_of. cbn [f_probeAt].
  rewrite wire_bytes_app, wire_bytes_single, zlen_app, sizes_app. cbn [sizes foldr].
  rewrite zlen_cons, zlen_nil, !Z.add_0_r.
  f_equal. pose proof (zlen_nonneg l).
  destruct (Z.eqb_spec (base + zlen l) probe) as [<-|Hne].
  - destruct (Z.leb_spec base (base + zlen l)); [|lia].
    destruct (Z.ltb_spec (base + zlen l) (base + (zlen l + 1))); [|lia]. cbn [andb].
    rewrite ztake_app_eq by lia. done.
  - destruct (Z.leb_spec base probe); cbn [andb]; [|done].
    destruct (Z.ltb_spec probe (base + zlen l)), (Z.ltb_spec probe (base + (zlen l + 1))); try lia.
    by rewrite ztake_app_le by lia.
Qed.

Lemma frame_batch_loop base probe l batch :
  Forall entry_ok batch -> (l <> [] -> zlen (wire_bytes l) <= writeBufSize \/ zlen l = 1) ->
  exists k, 0 <= k <= zlen batch /\
    frame_batch base probe batch (framed_of base probe l) =
      inl (framed_of base probe (l ++ ztake k batch)) /\
    batch_full (l ++ ztake k batch) (zdrop k batch) /\
    (zlen (wire_bytes (l ++ ztake k batch)) <= writeBufSize \/ zlen (l ++ ztake k batch) <= 1).
Proof.
  intros Hall. revert l. induction Hall as [|e rest He Hrest IH]; intros l Hl.
  { exists 0. rewrite ztake_0, zdrop_0, app_nil_r by lia. split_and!; try done.
    destruct l as [|x l]; [right; done|]. destruct (Hl ltac:(done)); [by left|right; lia]. }
  cbn [frame_batch]. pose proof (zlen_nonneg rest).
  destruct ((f_sent (framed_of base probe l) >? 0) && _) eqn:Hb.
  - exists 0. rewrite ztake_0, zdrop_0, app_nil_r by lia. rewrite zlen_cons.
    rewrite !Z.gtb_ltb in Hb. cbn [framed_of f_sent f_buf] in Hb.
    apply andb_true_iff in Hb as [H1%Z.ltb_lt H2%Z.ltb_lt].
    assert (l <> []) as Hne by (intros ->; by apply Z.lt_irrefl in H1).
    split_and!; try done; [lia|]. destruct (Hl Hne); [by left|right; lia].
  - cbn [framed_of f_buf f_sent f_n]. rewrite AppendFrame_ok by done.
    rewrite framed_of_snoc by apply He.
    destruct (IH (l ++ [e])) as (k & Hk & Heq & Hfull & Hsz).
    { intros _. destruct (decide (l = [])) as [->|Hne]; [by right|left].
      assert (0 < zlen l) by (destruct l as [|y l']; [done|]; rewrite zlen_cons; pose proof (zlen_nonneg l'); lia).
      rewrite !Z.gtb_ltb in Hb. cbn [framed_of f_sent f_buf] in Hb.
      destruct (Z.ltb_spec 0 (zlen l)); [|lia]. cbn [andb] in Hb. apply Z.ltb_ge in Hb.
      rewrite wire_bytes_app, wire_bytes_single, zlen_app, frame_bytes_zlen by apply He. lia. }
    exists (1 + k). rewrite zlen_cons. split; [lia|].
    assert (ztake (1 + k) (e :: rest) = e :: ztake k rest) as Htk.
    { unfold ztake. by replace (Z.to_nat (1 + k)) with (S (Z.to_nat k)) by lia. }
    assert (zdrop (1 + k) (e :: rest) = zdrop k rest) as Hdr
      by (rewrite zdrop_cons by lia; f_equal; lia).
    rewrite Htk, Hdr. rewrite <- app_assoc in *. cbn [app] in *. done.
Qed.

(** A batch from the start: at least one entry, then as many as fit. *)
Lemma frame_batch_spec base probe batch :
  Forall entry_ok batch ->
  exists k, 0 <= k <= zlen batch /\ (batch <> [] -> 0 < k) /\
    frame_batch base probe batch frame_init = inl (framed_of base probe (ztake k batch)) /\
    batch_full (ztake k batch) (zdrop k batch) /\
    (zlen (wire_bytes (ztake k batch)) <= writeBufSize \/ k <= 1).
Proof.
  intros Hall. destruct (frame_batch_loop base probe [] batch Hall) as (k & Hk & Heq & Hfull & Hsz);
    [done|]. cbn [app] in *.
  assert (framed_of base probe [] = frame_init) as Hi.
  { unfold framed_of, frame_init. change (zlen []) with 0. rewrite Z.add_0_r.
    change (wire_bytes []) with (@nil byte). f_equal.
    destruct (Z.leb_spec base probe), (Z.ltb_spec probe base); try done; lia. }
  rewrite Hi in Heq. exists k. split_and!; try done; try lia.
  - intros Hne. destruct (decide (k = 0)) as [->|]; [|lia]. exfalso.
    rewrite ztake_0, zdrop_0 in Hfull by lia. destruct batch; [done|]. by destruct Hfull.
  - rewrite zlen_ztake in Hsz. destruct Hsz; [by left|right; lia].
Qed.

Lemma frame_batch_trunc base probe batch f :
  Forall entry_ok batch -> 0 <= f_sent f <= maxBatchEntries ->
  (4 + 2 + Overhead) * f_sent f <= zlen (f_buf f) ->
  frame_batch base probe (ztake (maxBatchEntries - f_sent f) batch) f =
  frame_batch base probe batch f.
Proof.
  intros Hall. revert f. induction Hall as [|e rest He Hrest IH]; intros f Hs Hb.
  { unfold ztake. by rewrite take_nil. }
  change (4 + 2 + Overhead) with 22 in *. change maxBatchEntries with 2979 in *.
  pose proof (zlen_nonneg e). destruct (decide (f_sent f = 2979)) as [Heq|Hne].
  - rewrite ztake_0 by lia. cbn [frame_batch]. rewrite !Z.gtb_ltb.
    change writeBufSize with 65536.
    destruct (Z.ltb_spec 0 (f_sent f)); [|lia].
    destruct (Z.ltb_spec 65536 (zlen (f_buf f) + 4 + zlen e)); [done|lia].
  - assert (ztake (2979 - f_sent f) (e :: rest) = e :: ztake (2979 - (f_sent f + 1)) rest) as ->.
    { unfold ztake. by replace (Z.to_nat (2979 - f_sent f)) with (S (Z.to_nat (2979 - (f_sent f + 1)))) by lia. }
    cbn [frame_batch]. destruct (_ && _); [done|].
    rewrite AppendFrame_ok by done.
    match goal with |- _ = frame_batch _ _ _ ?g => apply (IH g) end; cbn [f_sent f_buf]; [lia|].
    destruct He as [He1 He2]. change (2 + Overhead) with 18 in He1.
    rewrite zlen_app, frame_bytes_zlen by done. lia.
Qed.

(** Bounding a pass to [maxBatchEntries] entries is invisible: framing the
    truncated backlog and framing all of it give the same batch, because each
    entry takes at least its frame header, flag, header and tag. *)
Theorem maxBatchEntries_enough base probe backlog :
  Forall entry_ok backlog ->
  frame_batch base probe (ztake maxBatchEntries backlog) frame_init =
  frame_batch base probe backlog frame_init.
Proof.
  intros Hall. apply (frame_batch_trunc base probe backlog frame_init Hall);
    cbn [frame_init f_sent f_buf]; [|by vm_compute]. split; by vm_compute.
Qed.

(** ** Writing a batch *)

(** The byte counts at which the writer looks whether to signal. *)
Definition boundary (written total n : Z) : Prop :=
  written < n <= total /\ ((n - written) mod progressChunk = 0 \/ n = total).

Lemma progressChunk_pos : 0 < progressChunk.
Proof. done. Qed.

(** The boundaries of the rest after one piece of [k] bytes. *)
Lemma boundary_step written total k n :
  k = Z.min total (written + progressChunk) - written -> written < total ->
  boundary written total n <-> n = written + k \/ boundary (written + k) total n.
Proof.
  intros Hk Hlt. pose proof progressChunk_pos as Hpc. unfold boundary.
  destruct (decide (written + k = total)) as [He|He].
  - split; [|intros [->|?]; lia]. intros [Hn [Hm|Hm]]; [|left; lia]. left.
    destruct (Z.lt_ge_cases n total) as [?|?]; [|lia].
    rewrite Z.mod_small in Hm by lia. lia.
  - assert (k = progressChunk) as -> by lia.
    assert ((n - written) mod progressChunk = (n - (written + progressChunk)) mod progressChunk) as ->.
    { replace (n - written) with (n - (written + progressChunk) + 1 * progressChunk) by lia.
      by rewrite Z.mod_add by lia. }
    split; [|intros [->|?]; [|lia]].
    + intros [Hn Hm]. destruct (Z.lt_trichotomy n (written + progressChunk)) as [Hl|[?|?]]; [|lia|lia].
      destruct Hm as [Hm|?]; [|lia].
      rewrite <- (Z.mod_add _ 1), Z.mod_small in Hm by lia. lia.
    + rewrite Z.sub_diag. split; [lia|by left].
Qed.

(** What [write_pieces] does from [written] on: its Writes carry the rest of
    the buffer in order, all of it unless it failed, and the link is signalled
    at exactly the boundaries where a probe waits behind. *)
Definition pieces_result (behind : Z -> bool) (buf : bytes) (written : Z)
  (err : option gerr) (calls : list bytes) (more : list Z) : Prop :=
  Forall (fun c => 0 < zlen c <= progressChunk) calls /\
  concat calls `prefix_of` zdrop written buf /\
  (err = None -> concat calls = zdrop written buf) /\
  Forall (fun n => boundary written (zlen buf) n /\ behind n = true) more /\
  (err = None -> forall n, boundary written (zlen buf) n -> behind n = true -> n ∈ more).

Lemma pieces_result_step behind buf written k err calls more :
  k = Z.min (zlen buf) (written + progressChunk) - written -> 0 <= written < zlen buf ->
  pieces_result behind buf (written + k) err calls more ->
  pieces_result behind buf written err (ztake k (zdrop written buf) :: calls)
    (if behind (written + k) then (written + k) :: more else more).
Proof.
  intros Hk Hw (Hall & [t Ht] & Hok & Hmore & Hcomp). pose proof progressChunk_pos.
  pose proof (boundary_step written (zlen buf) k) as Hbd.
  assert (ztake k (zdrop written buf) ++ zdrop (written + k) buf = zdrop written buf) as Hsplit.
  { rewrite Z.add_comm, <- zdrop_zdrop by lia. apply ztake_zdrop. }
  unfold pieces_result. cbn [concat]. split_and!.
  - constructor; [rewrite zlen_ztake, zlen_zdrop; lia|done].
  - exists t. by rewrite <- app_assoc, <- Ht, Hsplit.
  - intros He. by rewrite Hok.
  - assert (Forall (fun n => boundary written (zlen buf) n /\ behind n = true) more).
    { eapply Forall_impl; [exact Hmore|]. intros n []. split; [|done]. apply Hbd; [done|lia|by right]. }
    destruct (behind (written + k)) eqn:Hb; [|done]. constructor; [|done].
    split; [|done]. apply Hbd; [done|lia|by left].
  - intros He n Hn Hb. apply Hbd in Hn as [->|Hn]; [| |done|lia].
    + rewrite Hb. by left.
    + destruct (behind (written + k)); [right|]; by apply Hcomp.
Qed.

Lemma write_pieces_spec fuel w lp endseq probeAt buf written alive err alive' w' :
  0 <= written <= zlen buf -> zlen buf - written < Z.of_nat fuel ->
  write_pieces fuel w lp endseq probeAt buf written alive = (err, alive', w') ->
  exists calls more, w_calls w' = w_calls w ++ calls /\ alive' = alive ++ more /\
    pieces_result (fun n => probeBehind (lp n) endseq probeAt n) buf written err calls more.
Proof.
  pose proof progressChunk_pos as Hpc.
  revert w written alive. induction fuel as [|fuel IH]; intros w written alive Hw Hf; [lia|].
  cbn [write_pieces]. destruct (Z.ltb_spec written (zlen buf)) as [Hlt|Hge].
  2: { intros [= <- <- <-]. exists [], []. rewrite !app_nil_r. unfold pieces_result.
       assert (zdrop written buf = []) as -> by (apply zdrop_ge; lia).
       split_and!; try done. intros _ n [? _]. lia. }
  assert (exists k, k = Z.min (zlen buf) (written + progressChunk) - written) as [k Hk] by eauto.
  rewrite <- Hk. assert (zlen (ztake k (zdrop written buf)) = k) as Hzl by (rewrite zlen_ztake, zlen_zdrop; lia).
  assert (w_calls (snd (Write w (ztake k (zdrop written buf)))) =
    w_calls w ++ [ztake k (zdrop written buf)]) as Hcs
    by (unfold Write; by destruct (w_script w) as [|[]]).
  destruct (Write w (ztake k (zdrop written buf))) as [[m werr] w1]. cbn [snd] in Hcs.
  assert (forall e, (Some e, alive, w1) = (err, alive', w') -> exists calls more,
    w_calls w' = w_calls w ++ calls /\ alive' = alive ++ more /\
    pieces_result (fun n => probeBehind (lp n) endseq probeAt n) buf written err calls more) as Hfail.
  { intros e [= <- <- <-]. exists [ztake k (zdrop written buf)], [].
    rewrite app_nil_r. unfold pieces_result. cbn [concat]. rewrite app_nil_r. split_and!; try done.
    - constructor; [rewrite Hzl; lia|constructor].
    - apply prefix_take. }
  destruct werr as [e|]; [apply Hfail|]. destruct (negb _); [apply Hfail|].
  rewrite Hzl. intros Hrun. apply IH in Hrun as (calls & more & Hc & Ha & Hres); [|lia|lia].
  eexists _, _. split_and!; [| |exact (pieces_result_step _ _ _ _ _ _ _ Hk ltac:(lia) Hres)].
  - by rewrite Hc, Hcs, <- app_assoc.
  - rewrite Ha. cbv beta. destruct (probeBehind _ _ _ _); [by rewrite <- app_assoc|done].
Qed.

(** The entries a pass frames, [sent] of them from [base]. *)
Definition batch_of (key : bytes) (ps : list Packet) (base sent : Z) : list bytes :=
  ztake sent (zdrop base (sealed_log key ClientToServer ps)).

Lemma sealed_log_prefix key d ps more :
  exists tail, sealed_log key d (ps ++ more) = sealed_log key d ps ++ tail.
Proof. unfold sealed_log. rewrite sealed_from_app. eauto. Qed.

Lemma batch_of_app key ps more base sent :
  0 <= base -> 0 <= sent -> base + sent <= zlen ps ->
  batch_of key (ps ++ more) base sent = batch_of key ps base sent.
Proof.
  intros ???. unfold batch_of.
  destruct (sealed_log_prefix key ClientToServer ps more) as [tail ->].
  pose proof (sealed_log_zlen key ClientToServer ps).
  rewrite zdrop_app_le by lia. apply ztake_app_le. rewrite zlen_zdrop. lia.
Qed.

(** The commit, in a Conn to which others have appended meanwhile. *)
Lemma writeLoop_commit_ok key probe limit ps sent c :
  outbound_ok key probe limit ps (c_out c) -> 0 <= sent -> o_flushed (c_out c) + sent <= zlen ps ->
  let c' := writeLoop_commit sent (sizes (batch_of key ps (o_flushed (c_out c)) sent)) c in
  outbound_ok key probe limit ps (c_out c') /\
  o_flushed (c_out c') = o_flushed (c_out c) + sent /\
  (o_unsent (c_out c') <= limit -> c_space c' = true).
Proof.
  intros [Ho Hw] Hs Hle. unfold writeLoop_commit. cbv zeta.
  pose proof (release_ok key probe limit ps (c_out c) (o_flushed (c_out c) + sent)
    (r_held (o_ring (c_out c))) (r_hold (o_ring (c_out c))) Ho ltac:(lia)) as Hr.
  assert (0 <= o_flushed (c_out c)) by (destruct Ho as [_ Hrl _ _ ? _ _ _ _ _]; destruct Hrl; lia).
  assert (o_unsent (c_out c) - sizes (batch_of key ps (o_flushed (c_out c)) sent) =
    sizes (zdrop (o_flushed (c_out c) + sent) (sealed_log key ClientToServer ps))) as ->.
  { rewrite (ok_unsent _ _ _ _ _ Ho). unfold batch_of.
    pose proof (sizes_take_drop sent (zdrop (o_flushed (c_out c)) (sealed_log key ClientToServer ps))) as Hsz.
    rewrite zdrop_zdrop, Z.add_comm in Hsz by lia. rewrite (Z.add_comm _ sent). lia. }
  cbv zeta in Hr. replace (MkRing _ _ _ _ _ _) with (o_ring (c_out c)) in Hr by (by destruct (o_ring (c_out c))).
  match goal with |- context[releaseLocked ?x] => pose proof (releaseLocked_room x) as [Hroom Hf];
    destruct (releaseLocked x) as [o' room] end.
  cbn [fst snd] in *. rewrite (ok_limit _ _ _ _ _ (proj1 Hr)) in Hroom.
  destruct room; cbn; split_and!; try done. intros ?. symmetry in Hroom. apply Z.leb_gt in Hroom. lia.
Qed.

(** The snapshot is a run of the log from [flushed], empty only at its end. *)
Lemma writeLoop_snapshot_ok key probe limit ps o :
  outbound_core key probe limit ps o ->
  exists k, 0 <= k /\ o_flushed o + k <= zlen ps /\ (k = 0 -> o_flushed o = zlen ps) /\
    writeLoop_snapshot o = Some (o_flushed o, o_lastProbe o, batch_of key ps (o_flushed o) k) /\
    Forall entry_ok (batch_of key ps (o_flushed o) k) /\
    zlen (batch_of key ps (o_flushed o) k) = k.
Proof.
  intros Ho. pose proof (ok_flushed _ _ _ _ _ Ho) as Hf. pose proof (ok_ring _ _ _ _ _ Ho) as Hr.
  pose proof (ring_of_log_next _ _ Hr) as Hn. rewrite sealed_log_zlen in Hn.
  assert (0 <= r_first (o_ring o)) by (destruct Hr; lia).
  assert (0 < maxBatchEntries) by by vm_compute.
  exists (Z.min (zlen ps) (o_flushed o + maxBatchEntries) - o_flushed o). split_and!; try lia.
  - unfold writeLoop_snapshot. rewrite Hn.
    rewrite (appendRange_of_log _ _ _ _ _ Hr) by (rewrite ?sealed_log_zlen; lia). done.
  - apply Forall_take, Forall_drop, sealed_from_entry_ok, Ho.
  - unfold batch_of. rewrite zlen_ztake, zlen_zdrop, sealed_log_zlen. lia.
Qed.

Lemma batch_of_ztake key ps base k sent :
  0 <= sent <= k -> ztake sent (batch_of key ps base k) = batch_of key ps base sent.
Proof. intros ?. unfold batch_of, ztake. rewrite take_take. f_equal. lia. Qed.

(** Where a probe behind the written bytes is. *)
Lemma probeBehind_framed base pr l lastProbe n :
  probeBehind lastProbe (base + zlen l) (f_probeAt (framed_of base pr l)) n = true ->
  (base <= pr < base + zlen l /\ n <= zlen (wire_bytes (ztake (pr - base) l))) \/
  base + zlen l <= lastProbe.
Proof.
  unfold probeBehind, framed_of. cbn [f_probeAt].
  destruct (Z.leb_spec base pr), (Z.ltb_spec pr (base + zlen l)); cbn [andb];
    rewrite !Z.geb_leb; [|intros ?%Z.leb_le; by right..].
  pose proof (zlen_nonneg (wire_bytes (ztake (pr - base) l))).
  destruct (Z.leb_spec 0 (zlen (wire_bytes (ztake (pr - base) l)))); [|lia].
  intros ?%Z.leb_le. by left.
Qed.

(** One pass of the writer, with callers and the watcher appending to the Conn
    while it writes.  It never panics and never reports a corrupt ring; it is
    idle exactly when everything is written.  Otherwise its Writes carry the
    frames of the next entries of the log, in order: all of them when it
    succeeds, and then they and nothing else count as sent; a prefix when a
    Write fails, and then nothing does, so that the next link replays them.
    The link is signalled alive only at counts where the latest probe is still
    behind the bytes written. *)
Theorem writeLoop_pass_spec key probe limit ps more c now w lp :
  outbound_ok key probe limit ps (c_out c) ->
  outbound_ok key probe limit (ps ++ more) (c_out now) ->
  o_flushed (c_out now) = o_flushed (c_out c) ->
  let base := o_flushed (c_out c) in
  match writeLoop_pass c w lp now with
  | PassPanic => False
  | Idle => base = zlen ps
  | Pass c' alive w' => exists sent calls,
      0 < sent /\ base + sent <= zlen ps /\ w_calls w' = w_calls w ++ calls /\
      concat calls = wire_bytes (batch_of key ps base sent) /\
      outbound_ok key probe limit (ps ++ more) (c_out c') /\
      o_flushed (c_out c') = base + sent /\
      (o_unsent (c_out c') <= limit -> c_space c' = true) /\
      Forall (fun n => (exists q, base <= q < base + sent /\ q = o_lastProbe (c_out c) /\
                          n <= zlen (wire_bytes (batch_of key ps base (q - base)))) \/
                       base + sent <= lp n) alive
  | PassFailed c' e alive w' => exists sent calls,
      0 < sent /\ base + sent <= zlen ps /\ w_calls w' = w_calls w ++ calls /\
      concat calls `prefix_of` wire_bytes (batch_of key ps base sent) /\ c' = now
  end.
Proof.
  intros Hok Hnow Hfl base. destruct Hok as [Ho _]. unfold writeLoop_pass.
  destruct (writeLoop_snapshot_ok _ _ _ _ _ Ho) as (k & Hk0 & Hk & Hidle & -> & Hent & Hzb).
  fold base in Hk, Hidle, Hent, Hzb |- *.
  destruct (batch_of key ps base k) as [|b0 bt] eqn:Hb; [apply Hidle; by rewrite <- Hzb|].
  rewrite <- Hb in *. assert (batch_of key ps base k <> []) as Hne by (by rewrite Hb). clear b0 bt Hb.
  destruct (frame_batch_spec base (o_lastProbe (c_out c)) _ Hent) as (sent & Hs & Hs0 & -> & _ & _).
  specialize (Hs0 Hne). rewrite Hzb in Hs. rewrite batch_of_ztake by lia.
  set (l := batch_of key ps base sent).
  assert (zlen l = sent) as Hl by (unfold l; rewrite <- (batch_of_ztake _ _ _ k), zlen_ztake by lia; lia).
  destruct (write_pieces _ _ _ _ _ _ _ _) as [[err alive] w'] eqn:Hw.
  apply write_pieces_spec in Hw as (calls & mo & Hc & -> & Hall & Hpre & Hok & Hmo & _);
    [|split; [done|apply zlen_nonneg]|unfold zlen; lia].
  rewrite zdrop_0 in Hpre, Hok by lia. cbn [framed_of f_buf f_sent f_n app] in *.
  destruct err as [e|].
  - exists sent, calls. split_and!; try done; lia.
  - rewrite Hl. assert (0 <= base) by (destruct Ho as [_ Hrl _ _ ? _ _ _ _ _]; destruct Hrl; subst base; lia).
    pose proof (writeLoop_commit_ok key probe limit (ps ++ more) sent now Hnow ltac:(lia)) as Hcm.
    rewrite Hfl, zlen_app in Hcm. fold base in Hcm. rewrite batch_of_app in Hcm by lia.
    pose proof (zlen_nonneg more). specialize (Hcm ltac:(lia)) as (? & ? & ?).
    exists sent, calls. split_and!; try done; try lia; [by apply Hok|].
    eapply Forall_impl; [exact Hmo|]. intros n [_ Hn].
    apply probeBehind_framed in Hn as [[? ?]|?]; [left|right; lia].
    exists (o_lastProbe (c_out c)). split; [lia|]. split; [done|].
    unfold l in *. rewrite batch_of_ztake in * by lia. done.
Qed.

(** ** The watcher *)

Lemma probeOnce_waiting c : o_flushed (c_out c) <= ring_next (o_ring (c_out c)) ->
  o_flushed (c_out (probeOnce c)) <= o_lastProbe (c_out (probeOnce c)).
Proof.
  intros Hf. unfold probeOnce. rewrite Z.geb_leb.
  destruct (Z.leb_spec (o_flushed (c_out c)) (o_lastProbe (c_out c))); [done|].
  unfold enqueueLocked. cbn [c_out o_out o_ring o_flushed o_unsent o_lastProbe].
  by destruct (Seal _ _ _).
Qed.

(** A tick that counts as silence: nothing being delivered, and the caller has
    sent its first packet. *)
Definition quiet (ev : watch_event) : Prop :=
  exists now, ev = WatchTick false now /\ sealedNone now = false.

Lemma watch_dead probed evs :
  watch probed evs = WatchReturned (Sentinel errLinkDead) ->
  WatchDone (Sentinel errLinkDead) ∉ evs ->
  exists pre last post, evs = pre ++ last :: post /\ quiet last /\
    (pre = [] /\ probed = true \/ exists pre' prev, pre = pre' ++ [prev] /\ quiet prev).
Proof.
  revert probed. induction evs as [|ev evs IH]; intros probed; [done|]. cbn [watch].
  intros Hw [Hne Hnot]%not_elem_of_cons.
  assert (forall probed', watch probed' evs = WatchReturned (Sentinel errLinkDead) ->
    (probed' = true -> quiet ev) ->
    exists pre last post, ev :: evs = pre ++ last :: post /\ quiet last /\
      (pre = [] /\ probed = true \/ exists pre' prev, pre = pre' ++ [prev] /\ quiet prev)) as Hgo.
  { intros probed' Hw' Hq. destruct (IH _ Hw' Hnot) as (pre & last & post & -> & Hl & Hcase).
    exists (ev :: pre), last, post. split_and!; try done. right.
    destruct Hcase as [[-> ->]|(pre' & prev & -> & ?)]; [exists [], ev; auto|].
    by exists (ev :: pre'), prev. }
  destruct ev as [cause| |delivering now]; cbn [watch_step] in Hw.
  - injection Hw as ->. done.
  - by apply (Hgo false).
  - destruct delivering; [by apply (Hgo false)|].
    destruct (sealedNone now) eqn:Hs; [by apply (Hgo false)|].
    destruct probed.
    + exists [], (WatchTick false now), evs. split_and!; [done|by exists now|by left].
    + apply (Hgo true); [done|]. intros _. by exists now.
Qed.

(** The watcher gives a link up only after two keepAlive periods in a row, the
    last two things it saw, with no sign of life in either, no packet being
    handed over at their ends and the caller's first packet sealed; at the end
    of the first it made sure a probe was waiting to be written.  And it does
    give the link up at the end of the second such period, at the latest. *)
Theorem watch_two_quiet_periods evs :
  WatchDone (Sentinel errLinkDead) ∉ evs ->
  (watch false evs = WatchReturned (Sentinel errLinkDead) ->
   exists pre now1 now2 post,
     evs = pre ++ WatchTick false now1 :: WatchTick false now2 :: post /\
     sealedNone now1 = false /\ sealedNone now2 = false) /\
  (forall pre now1 now2,
     evs = pre ++ [WatchTick false now1; WatchTick false now2] ->
     sealedNone now1 = false -> sealedNone now2 = false ->
     exists e, watch false evs = WatchReturned e) /\
  (forall now probed c, watch_step false (WatchTick false now) = (Watching probed, Some c) ->
     sealedNone now = false -> o_flushed (c_out now) <= ring_next (o_ring (c_out now)) ->
     probed = true /\ o_flushed (c_out c) <= o_lastProbe (c_out c)).
Proof.
  intros Hnot. split_and!.
  - intros Hw. destruct (watch_dead _ _ Hw Hnot) as (pre & last & post & -> & (now2 & -> & Hs2) & [[_ ?]|Hp]);
      [done|]. destruct Hp as (pre' & prev & -> & now1 & -> & Hs1).
    exists pre', now1, now2, post. by rewrite <- app_assoc.
  - intros pre now1 now2 -> Hs1 Hs2. clear Hnot.
    assert (forall probed, exists e, watch probed
      (pre ++ [WatchTick false now1; WatchTick false now2]) = WatchReturned e) as Hall; [|apply Hall].
    induction pre as [|ev pre IH]; intros probed; cbn [app watch].
    + cbn [watch_step]. rewrite Hs1. destruct probed; [by eexists|]. rewrite Hs2. by eexists.
    + destruct (watch_step probed ev) as [[probed'|e] ?]; [apply IH|by eexists].
  - intros now probed c Hst Hs Hf. cbn [watch_step] in Hst. rewrite Hs in Hst.
    injection Hst as <- <-. split; [done|]. by apply probeOnce_waiting.
Qed.
End WriterFacts.

#[local] Existing Instance toy_box.

Lemma maxBatchEntries_enough_witness :
  let backlog := sealed_log (bs "key") ClientToServer [MkPacket x01 (bs "a"); MkPacket x01 (bs "b")] in
  frame_batch 0 1 (ztake maxBatchEntries backlog) frame_init = frame_batch 0 1 backlog frame_init /\
  match frame_batch 0 1 backlog frame_init with
  | inl f => f_sent f = 2 /\ f_probeAt f = 23
  | inr _ => False
  end.
Proof.
  intros backlog. split; [|vm_compute; split; reflexivity].
  apply maxBatchEntries_enough. repeat constructor; vm_compute; discriminate.
Defined.

Lemma writeLoop_pass_spec_witness :
  let c := fst (WritePacket_attempt (MkPacket x01 (bs "hi")) example_conn) in
  match writeLoop_pass c (Writer [] []) (fun _ => -1) c with
  | Pass c' alive w' => exists sent calls, w_calls w' = [] ++ calls /\ 0 < sent /\
      concat calls = wire_bytes (batch_of (bs "key") [MkPacket x01 (bs "hi")] 0 sent) /\
      o_flushed (c_out c') = 0 + sent
  | _ => False
  end.
Proof.
  intros c.
  assert (outbound_ok (bs "key") (MkPacket x00 []) 20 [MkPacket x01 (bs "hi")] (c_out c)) as Hok.
  { pose proof (WritePacket_attempt_cases (bs "key") 20 [] example_conn (MkPacket x01 (bs "hi"))
      example_conn_log ltac:(by vm_compute)) as Ha.
    assert (snd (WritePacket_attempt (MkPacket x01 (bs "hi")) example_conn) = Written) as Hw by reflexivity.
    unfold c. destruct (WritePacket_attempt _ example_conn) as [c1 a]. cbn [snd fst] in *. subst a.
    apply Ha. }
  pose proof (writeLoop_pass_spec (bs "key") (MkPacket x00 []) 20 [MkPacket x01 (bs "hi")] [] c c
    (Writer [] []) (fun _ => -1) Hok Hok eq_refl) as Hp.
  destruct (writeLoop_pass c (Writer [] []) (fun _ => -1) c) as [|c' alive w'|c' e alive w'|] eqn:He;
    [vm_compute in He; discriminate He| |vm_compute in He; discriminate He|exact Hp].
  destruct Hp as (sent & calls & Hs & _ & Hc & Hb & _ & Hf & _).
  exists sent, calls. split_and!; assumption.
Defined.

Lemma watch_two_quiet_periods_witness :
  let c := fst (WritePacket_attempt (MkPacket x01 (bs "hi")) example_conn) in
  watch false [WatchTick false c; WatchAlive; WatchTick true c; WatchTick false c; WatchTick false c] =
    WatchReturned (Sentinel errLinkDead) /\
  exists e, watch false [WatchAlive; WatchTick false c; WatchTick false c] = WatchReturned e.
Proof.
  intros c. split; [reflexivity|].
  assert (WatchDone (Sentinel errLinkDead) ∉ [WatchAlive; WatchTick false c; WatchTick false c]) as Hn.
  { intros Hin. repeat (apply elem_of_cons in Hin as [Hin|Hin]; [discriminate Hin|]). inversion Hin. }
  exact (proj1 (proj2 (watch_two_quiet_periods _ Hn)) [WatchAlive] c c eq_refl eq_refl eq_refl).
Defined.
