(* ===== verification/Codecs.v ===== *)
(** * Message encodings to evaluate the protocol at

    The protobuf runtime is the class [ProtoMessage]; these are concrete
    encodings that satisfy its laws, one per handshake message, for the
    examples that run the code. *)

From S2P Require Export Link.
Local Open Scope Z_scope.

(** An optional int32 and an optional string. *)
Definition pair_marshal (v : option Z) (s : option bytes) : bytes + gerr :=
  let tail := match s with None => [] | Some b => x01 :: b end in
  match v with
  | None => inl (x00 :: tail)
  | Some v => if (- 2 ^ 31 <=? v) && (v <? 2 ^ 31) then inl (x01 :: le_bytes 4 v ++ tail)
              else inr (Foreign 1)
  end.

Definition pair_unmarshal (b : bytes) : (option Z * option bytes) + gerr :=
  let tail t := match t with [] => None | _ :: s => Some s end in
  match b with
  | x00 :: t => inl (None, tail t)
  | x01 :: a :: b :: c :: d :: t => inl (Some (to_int32 (le_val [a; b; c; d])), tail t)
  | _ => inr (Foreign 1)
  end.

Lemma to_int32_le_val v : - 2 ^ 31 <= v < 2 ^ 31 -> to_int32 (le_val (le_bytes 4 v)) = v.
Proof.
  intros Hv. rewrite le_val_bytes. change (256 ^ Z.of_nat 4) with (2 ^ 32).
  unfold to_int32, wrap_s. rewrite Z.mod_mod by done. apply wrap_s_id; [done|].
  change (2 ^ (32 - 1)) with (2 ^ 31). lia.
Qed.

Lemma pair_roundtrip v s b : pair_marshal v s = inl b -> pair_unmarshal b = inl (v, s).
Proof.
  unfold pair_marshal. destruct v as [v|].
  - destruct (Z.leb_spec (- 2 ^ 31) v), (Z.ltb_spec v (2 ^ 31)); cbn [andb]; try done.
    intros Hi. assert (b = x01 :: le_bytes 4 v ++ match s with None => [] | Some b => x01 :: b end) as ->
      by congruence. clear Hi.
    transitivity (@inl (option Z * option bytes) gerr
      (Some (to_int32 (le_val (le_bytes 4 v))), s)); [by destruct s|].
    by rewrite to_int32_le_val by lia.
  - intros Hi. assert (b = x00 :: match s with None => [] | Some b => x01 :: b end) as -> by congruence.
    by destruct s.
Qed.

Definition seq_marshal (m : SequenceHeader) : bytes + gerr :=
  match SequenceHeader_SequenceNumber m with
  | None => inl []
  | Some v => if (- 2 ^ 31 <=? v) && (v <? 2 ^ 31) then inl (le_bytes 4 v) else inr (Foreign 1)
  end.

Lemma seq_roundtrip m b : seq_marshal m = inl b ->
  (match b with [] => inl (MkSequenceHeader None)
   | _ => inl (MkSequenceHeader (Some (to_int32 (le_val b)))) end) = @inl _ gerr m.
Proof.
  destruct m as [[v|]]; cbn [seq_marshal SequenceHeader_SequenceNumber]; [|by intros [= <-]].
  unfold seq_marshal. cbn [SequenceHeader_SequenceNumber].
  destruct (Z.leb_spec (- 2 ^ 31) v), (Z.ltb_spec v (2 ^ 31)); cbn [andb]; try done.
  intros Hi. assert (b = le_bytes 4 v) as -> by congruence. clear Hi.
  transitivity (@inl SequenceHeader gerr (MkSequenceHeader (Some (to_int32 (le_val (le_bytes 4 v))))));
    [done|]. by rewrite to_int32_le_val by lia.
Qed.

Definition marshal_size {M} (marshal : M -> bytes + gerr) (m : M) : Z :=
  match marshal m with inl b => zlen b | inr _ => 0 end.

Lemma marshal_size_exact {M} (marshal : M -> bytes + gerr) m b :
  marshal m = inl b -> marshal_size marshal m = zlen b.
Proof. unfold marshal_size. by intros ->. Qed.

Definition seq_codec : ProtoMessage SequenceHeader := {|
  proto_Marshal := seq_marshal;
  proto_Size := marshal_size seq_marshal;
  proto_Unmarshal b := match b with [] => inl (MkSequenceHeader None)
    | _ => inl (MkSequenceHeader (Some (to_int32 (le_val b)))) end;
  proto_Size_exact := marshal_size_exact _;
  proto_roundtrip := seq_roundtrip
|}.

Definition catchup_marshal (m : CatchupBuffer) : bytes + gerr :=
  if forallb (fun x => zlen x <=? MaxFrameSize) (CatchupBuffer_Buffer m)
  then inl (wire_bytes (CatchupBuffer_Buffer m)) else inr (Foreign 2).

Lemma catchup_roundtrip m b : catchup_marshal m = inl b ->
  inl (MkCatchupBuffer (received b)) = @inl _ gerr m.
Proof.
  unfold catchup_marshal. destruct (forallb _ _) eqn:Hall; [|done]. intros [= <-].
  destruct (received_fuel (CatchupBuffer_Buffer m) (S (length (wire_bytes (CatchupBuffer_Buffer m))))
    (wire_bytes (CatchupBuffer_Buffer m)) []) as (k & _ & Hr & _ & Hk); [|lia|by rewrite app_nil_r|].
  - apply Forall_forall. intros x Hx. rewrite forallb_forall in Hall.
    apply list_elem_of_In, Hall in Hx. by apply Z.leb_le.
  - unfold received. rewrite Hr, (Hk eq_refl), firstn_all. by destruct m.
Qed.

Definition catchup_codec : ProtoMessage CatchupBuffer := {|
  proto_Marshal := catchup_marshal;
  proto_Size := marshal_size catchup_marshal;
  proto_Unmarshal b := inl (MkCatchupBuffer (received b));
  proto_Size_exact := marshal_size_exact _;
  proto_roundtrip := catchup_roundtrip
|}.

Definition req_marshal (m : ConnectRequest) : bytes + gerr :=
  pair_marshal (ConnectRequest_Version m) (ConnectRequest_ClientId m).

Definition req_unmarshal (b : bytes) : ConnectRequest + gerr :=
  match pair_unmarshal b with inl (v, s) => inl (MkConnectRequest s v) | inr e => inr e end.

Lemma req_roundtrip m b : req_marshal m = inl b -> req_unmarshal b = inl m.
Proof. unfold req_marshal, req_unmarshal. intros ->%pair_roundtrip. by destruct m. Qed.

Definition req_codec : ProtoMessage ConnectRequest := {|
  proto_Marshal := req_marshal;
  proto_Size := marshal_size req_marshal;
  proto_Unmarshal := req_unmarshal;
  proto_Size_exact := marshal_size_exact _;
  proto_roundtrip := req_roundtrip
|}.

Definition resp_marshal (m : ConnectResponse) : bytes + gerr :=
  pair_marshal (ConnectResponse_Status m) (ConnectResponse_Error m).

Definition resp_unmarshal (b : bytes) : ConnectResponse + gerr :=
  match pair_unmarshal b with inl (v, s) => inl (MkConnectResponse v s) | inr e => inr e end.

Lemma resp_roundtrip m b : resp_marshal m = inl b -> resp_unmarshal b = inl m.
Proof. unfold resp_marshal, resp_unmarshal. intros ->%pair_roundtrip. by destruct m. Qed.

Definition resp_codec : ProtoMessage ConnectResponse := {|
  proto_Marshal := resp_marshal;
  proto_Size := marshal_size resp_marshal;
  proto_Unmarshal := resp_unmarshal;
  proto_Size_exact := marshal_size_exact _;
  proto_roundtrip := resp_roundtrip
|}.

(** ** The messages of a session

    Each through a pair of an optional int32 and an optional string; a value
    with other fields set has no encoding here. *)

Section Through.
Context {M : Type} (to : M -> option (option Z * option bytes)) (from : option Z * option bytes -> M).
Hypothesis from_to : forall m p, to m = Some p -> from p = m.

Definition through_marshal (m : M) : bytes + gerr :=
  match to m with Some (v, s) => pair_marshal v s | None => inr (Foreign 3) end.

Definition through_unmarshal (b : bytes) : M + gerr :=
  match pair_unmarshal b with inl p => inl (from p) | inr e => inr e end.

Lemma through_roundtrip m b : through_marshal m = inl b -> through_unmarshal b = inl m.
Proof.
  unfold through_marshal, through_unmarshal. destruct (to m) as [[v s]|] eqn:Ht; [|done].
  intros ->%pair_roundtrip. by rewrite (from_to _ _ Ht).
Qed.

Definition through_codec : ProtoMessage M := {|
  proto_Marshal := through_marshal;
  proto_Size := marshal_size through_marshal;
  proto_Unmarshal := through_unmarshal;
  proto_Size_exact := marshal_size_exact _;
  proto_roundtrip := through_roundtrip
|}.
End Through.

Definition tb_to (m : TerminalBuffer) : option (option Z * option bytes) :=
  match TerminalBuffer_IsStderr m with None => Some (None, TerminalBuffer_Buffer m) | Some _ => None end.
Definition tb_from (p : option Z * option bytes) : TerminalBuffer := MkTerminalBuffer p.2 None.
Lemma tb_from_to m p : tb_to m = Some p -> tb_from p = m.
Proof. destruct m as [b [|]]; [done|]. by intros [= <-]. Qed.
Definition tb_codec : ProtoMessage TerminalBuffer := through_codec _ _ tb_from_to.

Definition exit_to (m : TerminalExitStatus) : option (option Z * option bytes) :=
  Some (TerminalExitStatus_Exitcode m, None).
Definition exit_from (p : option Z * option bytes) : TerminalExitStatus := MkTerminalExitStatus p.1.
Lemma exit_from_to m p : exit_to m = Some p -> exit_from p = m.
Proof. destruct m. by intros [= <-]. Qed.
Definition exit_codec : ProtoMessage TerminalExitStatus := through_codec _ _ exit_from_to.

Definition iresp_to (m : InitialResponse) : option (option Z * option bytes) :=
  Some (None, InitialResponse_Error m).
Definition iresp_from (p : option Z * option bytes) : InitialResponse := MkInitialResponse p.2.
Lemma iresp_from_to m p : iresp_to m = Some p -> iresp_from p = m.
Proof. destruct m. by intros [= <-]. Qed.
Definition iresp_codec : ProtoMessage InitialResponse := through_codec _ _ iresp_from_to.

Definition ipay_to (m : InitialPayload) : option (option Z * option bytes) :=
  match m with
  | MkInitialPayload None [] env None None s None =>
      if bool_decide (env = ∅) then Some ((fun b : bool => if b then 1 else 0) <$> s, None) else None
  | _ => None
  end.
Definition ipay_from (p : option Z * option bytes) : InitialPayload :=
  MkInitialPayload None [] ∅ None None ((fun z => z =? 1) <$> p.1) None.
Lemma ipay_from_to m p : ipay_to m = Some p -> ipay_from p = m.
Proof.
  destruct m as [[] [] env [] [] s []]; try done. cbn. case_bool_decide; [|done]. subst env.
  destruct s as [[]|]; by intros [= <-].
Qed.
Definition ipay_codec : ProtoMessage InitialPayload := through_codec _ _ ipay_from_to.

Definition in_int32 (v : Z) : bool := (- 2 ^ 31 <=? v) && (v <? 2 ^ 31).
Definition ti_to (m : TerminalInfo) : option (option Z * option bytes) :=
  match m with
  | MkTerminalInfo None (Some r) (Some c) (Some w) (Some h) =>
      if in_int32 r && in_int32 c && in_int32 w && in_int32 h
      then Some (None, Some (le_bytes 4 r ++ le_bytes 4 c ++ le_bytes 4 w ++ le_bytes 4 h)) else None
  | _ => None
  end.
Definition ti_field (i : nat) (b : bytes) : option Z := Some (to_int32 (le_val (take 4 (drop (4 * i) b)))).
Definition ti_from (p : option Z * option bytes) : TerminalInfo :=
  let b := default [] p.2 in
  MkTerminalInfo None (ti_field 0 b) (ti_field 1 b) (ti_field 2 b) (ti_field 3 b).
Lemma ti_from_to m p : ti_to m = Some p -> ti_from p = m.
Proof.
  destruct m as [[] [r|] [c|] [w|] [h|]]; try done. unfold ti_to, in_int32.
  destruct (_ && _) eqn:Hr; [|done]. intros [= <-].
  repeat match goal with H : _ && _ = true |- _ => apply andb_true_iff in H as [? ?] end.
  transitivity (MkTerminalInfo None (Some (to_int32 (le_val (le_bytes 4 r))))
    (Some (to_int32 (le_val (le_bytes 4 c)))) (Some (to_int32 (le_val (le_bytes 4 w))))
    (Some (to_int32 (le_val (le_bytes 4 h))))); [reflexivity|].
  rewrite !to_int32_le_val by lia. done.
Qed.
Definition ti_codec : ProtoMessage TerminalInfo := through_codec _ _ ti_from_to.
