(* ===== verification/Recover.v ===== *)
(** * internal/etcp/recover.go: the recover exchange

    On a redial both sides state how many packets they received and resend
    what the other misses.  The client reads the peer's two messages while it
    writes its own; the model runs the reader's half on what the connection
    yields and the writer's half on what its Writes report, and takes the
    ring and the Conn as callers have left them at each critical section
    ([at_snapshot], [at_commit]). *)

From S2P Require Export LinkWriter Backoff.
From S2P Require Import Codecs.
Local Open Scope Z_scope.

Definition maxCatchupSize : Z := MaxMessageSize.

Definition readerErrWins (err rerr : gerr) : bool :=
  if errors_Is rerr ErrTooLarge || errors_Is rerr ErrMalformed then true
  else errors_Is err net_ErrClosed || errors_Is err io_ErrClosedPipe.

Section Recover.
Context `{HB : SecretBox} {PSeq : ProtoMessage SequenceHeader} {PCat : ProtoMessage CatchupBuffer}.

Definition SequenceHeader_zero : SequenceHeader := MkSequenceHeader None.
Definition CatchupBuffer_zero : CatchupBuffer := MkCatchupBuffer [].

(** A message or the error of reading it; [ReadMessage] neither panics nor
    runs out of steps. *)
Definition read_message {M} `{ProtoMessage M} (r : reader) : (M + gerr) * reader :=
  match ReadMessage r with
  | (Ok m, _, r) => (inl m, r)
  | (Err e, _, r) => (inr e, r)
  | (Panic, _, r) | (OutOfFuel, _, r) => (inr (Foreign 0), r)
  end.

(** The reading goroutine: the peer's position, its catchup, and the errors it
    puts into gotSeq and gotAll. *)
Record recover_read := MkRecoverRead {
  rr_peer : SequenceHeader;
  rr_theirs : CatchupBuffer;
  rr_gotSeq : option gerr;
  rr_gotAll : option gerr
}.

Definition recover_reader (r : reader) : recover_read :=
  match read_message r with
  | (inr e, _) => MkRecoverRead SequenceHeader_zero CatchupBuffer_zero (Some e) (Some e)
  | (inl peer, r) =>
      match read_message r with
      | (inr e, _) => MkRecoverRead peer CatchupBuffer_zero None (Some e)
      | (inl theirs, _) => MkRecoverRead peer theirs None None
      end
  end.

Definition writeRecover (recvSeq : Z) (w : writer) (gotSeq : option gerr) (peer : SequenceHeader)
  (at_snapshot : ring) : res Z * writer :=
  if MaxInt32 <? recvSeq then
    (Err (Errorf "%w: received %d packets, more than the protocol's int32 sequence number can express"
            [Sentinel ErrReplayExceeded]), w)
  else
    let mine := SetSequenceNumber (to_int32 recvSeq) SequenceHeader_zero in
    match WriteMessage w mine with
    | (Some e, w) => (Err (Errorf "etcp: write sequence: %w" [e]), w)
    | (None, w) =>
        match gotSeq with
        | Some e => (Err (Errorf "etcp: read sequence: %w" [e]), w)
        | None =>
            let snap := ring_next at_snapshot in
            match since at_snapshot (GetSequenceNumber peer) snap with
            | None => (Panic, w)
            | Some None =>
                (Err (Errorf "%w: peer is at %d, retained window is [%d, %d]"
                        [Sentinel ErrReplayExceeded]), w)
            | Some (Some ours) =>
                let cb := SetCatchup ours CatchupBuffer_zero in
                if proto_Size cb >? maxCatchupSize then
                  (Err (Errorf "%w: catchup of %d bytes exceeds the %d-byte message limit"
                          [Sentinel ErrReplayExceeded]), w)
                else
                  match WriteMessage w cb with
                  | (Some e, w) => (Err (Errorf "etcp: write catchup: %w" [e]), w)
                  | (None, w) => (Ok snap, w)
                  end
            end
        end
    end.

(** The last critical section: the new link starts at [snap], and everything
    from the position the server acknowledged is held. *)
Definition recover_commit (snap peerSeq : Z) (c : Conn) : option Conn :=
  let o := c_out c in let r := o_ring o in
  between ← bytesBetween r (o_flushed o) snap;
  let r := MkRing (r_first r) (r_entries r) (r_bytes r) (r_limit r) true peerSeq in
  let '(o, room) := releaseLocked
    (MkOutbound (o_out o) r snap (o_unsent o - between) (o_lastProbe o)) in
  let c := set_out o c in
  Some (if room then signal_space c else c).

Definition recover (r : reader) (w : writer) (at_snapshot at_commit : Conn)
  : res (list bytes) * Conn * writer :=
  let rr := recover_reader r in
  let '(wr, w) := writeRecover (i_recvSeq (c_in at_snapshot)) w (rr_gotSeq rr) (rr_peer rr)
                    (o_ring (c_out at_snapshot)) in
  let read_err rerr := (Err (Errorf "etcp: read recover message: %w" [rerr]), at_commit, w) in
  match wr with
  | Panic => (Panic, at_commit, w)
  | OutOfFuel => (OutOfFuel, at_commit, w)
  | Err err =>
      match rr_gotAll rr with
      | Some rerr => if readerErrWins err rerr then read_err rerr else (Err err, at_commit, w)
      | None => (Err err, at_commit, w)
      end
  | Ok snap =>
      match rr_gotAll rr with
      | Some rerr => read_err rerr
      | None =>
          match recover_commit snap (GetSequenceNumber (rr_peer rr)) at_commit with
          | Some c => (Ok (GetCatchup (rr_theirs rr)), c, w)
          | None => (Panic, at_commit, w)
          end
      end
  end.

(** ** What a successful exchange leaves *)

Lemma recover_commit_ok key probe limit ps snap peerSeq c :
  outbound_ok key probe limit ps (c_out c) -> o_flushed (c_out c) <= snap <= zlen ps ->
  exists c', recover_commit snap peerSeq c = Some c' /\
    outbound_ok key probe limit ps (c_out c') /\ o_flushed (c_out c') = snap /\
    r_held (o_ring (c_out c')) = true /\ r_hold (o_ring (c_out c')) = peerSeq /\
    c_in c' = c_in c /\ (o_unsent (c_out c') <= limit -> c_space c' = true).
Proof.
  intros [Ho _] Hs. pose proof (ok_flushed _ _ _ _ _ Ho) as Hf. pose proof (ok_ring _ _ _ _ _ Ho) as Hr.
  unfold recover_commit. rewrite (bytesBetween_of_log _ _ _ _ Hr) by (rewrite ?sealed_log_zlen; lia).
  cbn [mbind option_bind]. rewrite (ok_unsent _ _ _ _ _ Ho).
  match goal with |- context[?a - (?a - ?b)] => replace (a - (a - b)) with b by lia end.
  pose proof (release_ok _ _ _ _ _ snap true peerSeq Ho ltac:(lia)) as Hok. cbv zeta in Hok.
  match goal with |- context[releaseLocked ?x] => pose proof (releaseLocked_room x) as [Hroom Hfl];
    assert (r_held (o_ring (fst (releaseLocked x))) = true /\
            r_hold (o_ring (fst (releaseLocked x))) = peerSeq) as [Hh1 Hh2]
      by (unfold releaseLocked, trim; cbn; by destruct (trim_loop _ _ _ _ _ _));
    destruct (releaseLocked x) as [o' room] end.
  cbn [fst snd] in *. rewrite (ok_limit _ _ _ _ _ (proj1 Hok)) in Hroom.
  eexists. split; [done|]. destruct room; cbn; split_and!; try done.
  intros ?. symmetry in Hroom. apply Z.leb_gt in Hroom. lia.
Qed.

Lemma recover_result key probe limit ps more r w at_snapshot at_commit x c' w' :
  outbound_ok key probe limit ps (c_out at_snapshot) ->
  outbound_ok key probe limit (ps ++ more) (c_out at_commit) ->
  o_flushed (c_out at_commit) = o_flushed (c_out at_snapshot) ->
  recover r w at_snapshot at_commit = (x, c', w') ->
  match x with
  | Ok catchup => exists peer theirs w1,
      let seq := GetSequenceNumber peer in
      let log := sealed_log key ClientToServer ps in
      recover_reader r = MkRecoverRead peer theirs None None /\ catchup = GetCatchup theirs /\
      i_recvSeq (c_in at_snapshot) <= MaxInt32 /\
      WriteMessage w (MkSequenceHeader (Some (to_int32 (i_recvSeq (c_in at_snapshot))))) = (None, w1) /\
      r_first (o_ring (c_out at_snapshot)) <= seq <= zlen ps /\
      WriteMessage w1 (MkCatchupBuffer (zdrop seq log)) = (None, w') /\
      outbound_ok key probe limit (ps ++ more) (c_out c') /\
      o_flushed (c_out c') = zlen ps /\ c_in c' = c_in at_commit /\
      r_held (o_ring (c_out c')) = true /\ r_hold (o_ring (c_out c')) = seq
  | Err _ => c' = at_commit
  | Panic | OutOfFuel => False
  end.
Proof.
  intros [Ho _] Hc Hfl. pose proof (ok_ring _ _ _ _ _ Ho) as Hr.
  pose proof (ok_flushed _ _ _ _ _ Ho) as Hf.
  pose proof (ring_of_log_next _ _ Hr) as Hn. rewrite sealed_log_zlen in Hn.
  unfold recover, writeRecover. destruct (recover_reader r) as [peer theirs gotSeq gotAll] eqn:Hrr.
  cbn [rr_peer rr_theirs rr_gotSeq rr_gotAll].
  assert (forall err w2, (match gotAll with
    | Some rerr => if readerErrWins err rerr
        then (Err (Errorf "etcp: read recover message: %w" [rerr]), at_commit, w2)
        else (Err err, at_commit, w2)
    | None => (Err err, at_commit, w2) end) = (x, c', w') -> match x with Err _ => c' = at_commit | _ => False end) as Herr.
  { intros err w2. destruct gotAll as [rerr|]; [destruct (readerErrWins err rerr)|]; by intros [= <- <- _]. }
  destruct (Z.ltb_spec MaxInt32 (i_recvSeq (c_in at_snapshot))) as [|Hmax];
    [intros Hx%Herr; by destruct x|].
  destruct (WriteMessage w _) as [[e|] w1] eqn:Hw1; [intros Hx%Herr; by destruct x|].
  destruct gotSeq as [e|]; [intros Hx%Herr; by destruct x|].
  rewrite (since_log _ _ _ _ Hr), Hn. rewrite sealed_log_zlen.
  case_decide as Hwin; [|intros Hx%Herr; by destruct x].
  rewrite Z.gtb_ltb. destruct (maxCatchupSize <? _); [intros Hx%Herr; by destruct x|].
  destruct (WriteMessage w1 _) as [[e|] w2] eqn:Hw2; [intros Hx%Herr; by destruct x|].
  destruct gotAll as [rerr|]; [by intros [= <- <- _]|].
  pose proof (zlen_nonneg more). pose proof (zlen_app ps more) as Hza.
  destruct (recover_commit_ok key probe limit (ps ++ more) (zlen ps) (GetSequenceNumber peer) at_commit
    Hc ltac:(lia)) as (c2 & -> & Hok & Hfl2 & Hh1 & Hh2 & Hin & _).
  intros [= <- <- <-]. exists peer, theirs, w1. cbv zeta. split_and!; try done; try lia.
  rewrite <- Hw2. do 2 f_equal. unfold SetCatchup. f_equal. symmetry. apply ztake_ge.
  rewrite zlen_zdrop, sealed_log_zlen. assert (0 <= r_first (o_ring (c_out at_snapshot))) by (destruct Hr; lia). lia.
Qed.

(** [C30] A successful exchange sent this side's count and exactly the packets from
    the peer's position to the end of the log, each byte for byte as sealed;
    it returns the peer's catchup, moves the sending position behind what was
    sent, and holds everything the peer had not acknowledged.  A failed one
    leaves the outbound state as it was; there is no panic. *)
Theorem recover_spec key probe limit ps more r w at_snapshot at_commit x c' w' :
  outbound_ok key probe limit ps (c_out at_snapshot) ->
  outbound_ok key probe limit (ps ++ more) (c_out at_commit) ->
  o_flushed (c_out at_commit) = o_flushed (c_out at_snapshot) ->
  recover r w at_snapshot at_commit = (x, c', w') ->
  match x with
  | Ok catchup => exists peer theirs w1,
      let seq := GetSequenceNumber peer in
      let log := sealed_log key ClientToServer ps in
      recover_reader r = MkRecoverRead peer theirs None None /\ catchup = GetCatchup theirs /\
      i_recvSeq (c_in at_snapshot) <= MaxInt32 /\
      WriteMessage w (MkSequenceHeader (Some (to_int32 (i_recvSeq (c_in at_snapshot))))) = (None, w1) /\
      r_first (o_ring (c_out at_snapshot)) <= seq <= zlen ps /\
      WriteMessage w1 (MkCatchupBuffer (zdrop seq log)) = (None, w') /\
      outbound_ok key probe limit (ps ++ more) (c_out c') /\
      o_flushed (c_out c') = zlen ps /\ c_in c' = c_in at_commit /\
      r_held (o_ring (c_out c')) = true /\ r_hold (o_ring (c_out c')) = seq
  | Err _ => c' = at_commit
  | Panic | OutOfFuel => False
  end.
Proof. exact (recover_result key probe limit ps more r w at_snapshot at_commit x c' w'). Qed.

(** ** The size of the ring *)

Lemma ring_bytes_bound key probe limit ps o :
  outbound_ok key probe limit ps o ->
  r_bytes (o_ring o) <= 3 * limit + MaxFrameSize + probe_size probe.
Proof.
  intros [Ho Hw]. pose proof (ok_backlog _ _ _ _ _ Ho) as Hb. pose proof (ok_limit_pos _ _ _ _ _ Ho).
  assert (0 <= probe_size probe)
    by (unfold probe_size, Overhead; pose proof (zlen_nonneg (p_Payload probe)); lia).
  destruct (r_held _), (_ <=? _); lia.
Qed.

Lemma sizes_entries l : Forall entry_ok l -> (2 + Overhead) * zlen l <= sizes l.
Proof.
  induction 1 as [|e l [He _] _ IH]; [done|]. rewrite zlen_cons. cbn [sizes foldr].
  fold (sizes l). lia.
Qed.

Lemma ring_entries_bound key probe limit ps o :
  outbound_ok key probe limit ps o -> zlen (p_Payload probe) <= maxPayload ->
  (2 + Overhead) * (zlen ps - r_first (o_ring o)) <= 3 * limit + 2 * MaxFrameSize.
Proof.
  intros Hok Hp. pose proof (ring_bytes_bound _ _ _ _ _ Hok) as Hb.
  pose proof (maxPayload_fits _ Hp). destruct Hok as [Ho _].
  pose proof (ok_ring _ _ _ _ _ Ho) as (Hf & He & Hby).
  assert (Forall entry_ok (r_entries (o_ring o))) as Hent.
  { rewrite He. apply Forall_drop, sealed_from_entry_ok, Ho. }
  apply sizes_entries in Hent. rewrite <- Hby in Hent.
  assert (zlen (r_entries (o_ring o)) = zlen ps - r_first (o_ring o)) as <-; [|lia].
  rewrite He, zlen_zdrop, sealed_log_zlen in *. lia.
Qed.

(** A position past the int32 range wraps to one the ring has long evicted. *)
Lemma wrapped_before_ring key probe limit ps o pos :
  outbound_ok key probe limit ps o -> limit <= 64 * 1024 * 1024 ->
  zlen (p_Payload probe) <= maxPayload -> 0 <= pos <= zlen ps ->
  MaxInt32 < pos -> to_int32 pos < r_first (o_ring o).
Proof.
  intros Hok Hlim Hp Hpos Hbig.
  pose proof (ring_entries_bound _ _ _ _ _ Hok Hp) as Hb. change (2 + Overhead) with 18 in Hb.
  change MaxFrameSize with 16777216 in Hb. unfold MaxInt32 in *.
  destruct (wrap_s_congr 32 pos ltac:(lia)) as [k Hk].
  pose proof (wrap_s_range 32 pos ltac:(lia)) as Hrg.
  change (2 ^ 32) with 4294967296 in Hk. change (2 ^ (32 - 1)) with 2147483648 in Hrg.
  unfold to_int32. rewrite Hk in *. lia.
Qed.

(** A server that received more packets than an int32 counts states a wrapped
    position; with any ReplayLimit that Dial accepts the exchange then ends
    the session with ErrReplayExceeded instead of replaying from a wrong
    place.  The same holds for this side's own count, which is never sent
    wrapped. *)
Theorem wrapped_position_refused key probe limit ps o recvSeq w peer pos :
  outbound_ok key probe limit ps o -> limit <= 64 * 1024 * 1024 ->
  zlen (p_Payload probe) <= maxPayload -> 0 <= pos <= zlen ps ->
  GetSequenceNumber peer = to_int32 pos ->
  (MaxInt32 < pos -> forall snap, fst (writeRecover recvSeq w None peer (o_ring o)) <> Ok snap) /\
  (MaxInt32 < pos -> forall w1, recvSeq <= MaxInt32 ->
     WriteMessage w (MkSequenceHeader (Some (to_int32 recvSeq))) = (None, w1) ->
     exists e, writeRecover recvSeq w None peer (o_ring o) = (Err e, w1) /\
       errors_Is e ErrReplayExceeded = true) /\
  (MaxInt32 < recvSeq -> exists e, writeRecover recvSeq w None peer (o_ring o) = (Err e, w) /\
     errors_Is e ErrReplayExceeded = true).
Proof.
  intros Hok Hlim Hp Hpos Hpeer.
  pose proof (ok_ring _ _ _ _ _ (proj1 Hok)) as Hr.
  pose proof (wrapped_before_ring _ _ _ _ _ _ Hok Hlim Hp Hpos) as Hwrap.
  unfold writeRecover. rewrite Hpeer, (since_log _ _ _ _ Hr).
  unfold SetSequenceNumber. split_and!.
  - intros Hbig snap. specialize (Hwrap Hbig). destruct (MaxInt32 <? recvSeq); [done|].
    destruct (WriteMessage w _) as [[e|] w1]; [done|].
    rewrite decide_False by lia. done.
  - intros Hbig w1 Hmax Hw. specialize (Hwrap Hbig).
    destruct (Z.ltb_spec MaxInt32 recvSeq); [lia|]. rewrite Hw.
    rewrite decide_False by lia. eexists. by split.
  - intros Hmax. destruct (Z.ltb_spec MaxInt32 recvSeq); [|lia]. eexists. by split.
Qed.

(** ** The outbound state under any interleaving *)

(** One step of any goroutine on the outbound state: a caller's WritePacket,
    the watcher's probe, the writer's commit of some run of entries, the
    reader's release of the hold, and the commit of a recover exchange with
    whatever position the peer stated.  The log of sealed packets is carried
    beside the Conn. *)
Inductive out_step (key : bytes) : list Packet * Conn -> list Packet * Conn -> Prop :=
| step_write ps c p c' :
    zlen (p_Payload p) <= maxPayload -> WritePacket_attempt p c = (c', Written) ->
    out_step key (ps, c) (ps ++ [p], c')
| step_probe ps c :
    o_lastProbe (c_out c) < o_flushed (c_out c) ->
    out_step key (ps, c) (ps ++ [c_probe c], probeOnce c)
| step_probe_waiting ps c :
    o_flushed (c_out c) <= o_lastProbe (c_out c) -> out_step key (ps, c) (ps, probeOnce c)
| step_commit ps c sent :
    0 <= sent -> o_flushed (c_out c) + sent <= zlen ps ->
    out_step key (ps, c)
      (ps, writeLoop_commit sent (sizes (batch_of key ps (o_flushed (c_out c)) sent)) c)
| step_release ps c : out_step key (ps, c) (ps, releaseHold c)
| step_recover ps c snap seq c' :
    o_flushed (c_out c) <= snap <= zlen ps -> r_first (o_ring (c_out c)) <= seq <= snap ->
    recover_commit snap seq c = Some c' -> out_step key (ps, c) (ps, c').

(** While a hold is on, everything from it on is retained, unless more than
    twice the limit was written since. *)
Definition hold_kept (key : bytes) (limit : Z) (ps : list Packet) (o : outbound) : Prop :=
  r_held (o_ring o) = true ->
  r_first (o_ring o) <= r_hold (o_ring o) \/
  2 * limit < sizes (batch_of key ps (r_hold (o_ring o)) (o_flushed o - r_hold (o_ring o))).

Definition out_inv (key : bytes) (limit : Z) (pc : list Packet * Conn) : Prop :=
  outbound_ok key (c_probe (snd pc)) limit (fst pc) (c_out (snd pc)) /\
  hold_kept key limit (fst pc) (c_out (snd pc)) /\
  (r_held (o_ring (c_out (snd pc))) = true ->
   0 <= r_hold (o_ring (c_out (snd pc))) <= o_flushed (c_out (snd pc))).

(** The outbound state with [flushed] moved to [f] and the hold set. *)
Definition moved (o : outbound) (held : bool) (hold f unsent : Z) : outbound :=
  let r := o_ring o in
  MkOutbound (o_out o) (MkRing (r_first r) (r_entries r) (r_bytes r) (r_limit r) held hold) f unsent
    (o_lastProbe o).

Lemma moved_hold_kept key probe limit ps o f held hold :
  outbound_core key probe limit ps o -> o_flushed o <= f <= zlen ps ->
  (held = true -> 0 <= hold <= f /\
     (r_first (o_ring o) <= hold \/ 2 * limit < sizes (batch_of key ps hold (f - hold)))) ->
  let o' := fst (releaseLocked (moved o held hold f (sizes (zdrop f (sealed_log key ClientToServer ps))))) in
  hold_kept key limit ps o' /\
  (r_held (o_ring o') = true -> 0 <= r_hold (o_ring o') <= o_flushed o').
Proof.
  intros Ho Hf Hh. cbv zeta. unfold releaseLocked, set_ring, moved.
  cbn [o_out o_ring o_flushed o_unsent o_lastProbe fst].
  match goal with |- context[trim ?r _ _] => set (R := r) end.
  pose proof (ok_ring _ _ _ _ _ Ho) as Hr. pose proof (ok_flushed _ _ _ _ _ Ho).
  pose proof (ok_limit_pos _ _ _ _ _ Ho). pose proof (ok_limit _ _ _ _ _ Ho) as Hlim.
  assert (ring_of_log R (sealed_log key ClientToServer ps)) as HR by apply Hr.
  pose proof HR as (Hfirst & Hent & _). cbn [R r_first] in Hfirst.
  pose proof (trim_props R f (sizes (zdrop f (sealed_log key ClientToServer ps)))
    (ring_of_log_wf _ _ HR)) as Ht.
  rewrite (ring_of_log_next _ _ HR), sealed_log_zlen in Ht. specialize (Ht ltac:(cbn; lia) ltac:(cbn; lia)).
  destruct Ht as (_ & _ & _ & _ & _ & Hdrop).
  { rewrite Hent, zdrop_zdrop by (cbn; lia). do 2 f_equal. lia. }
  assert (r_held (trim R f (sizes (zdrop f (sealed_log key ClientToServer ps)))) = held /\
          r_hold (trim R f (sizes (zdrop f (sealed_log key ClientToServer ps)))) = hold) as [Hheld Hhold]
    by (unfold trim; by destruct (trim_loop _ _ _ _ _ _)).
  set (R' := trim R f _) in *. split; cbn [o_ring o_flushed]; rewrite ?Hheld, ?Hhold; [|naive_solver].
  intros Hh'. cbn [o_ring] in Hh'. rewrite Hheld in Hh'. specialize (Hh Hh') as [Hrange [Hle|Hlt]]; [|right; cbn; by rewrite Hhold].
  cbn [o_ring o_flushed]. rewrite Hhold.
  destruct (Z.le_gt_cases (r_first R') hold) as [|Hgt]; [by left|right].
  destruct (Hdrop hold) as [_ H2]; [cbn; lia|]. specialize (H2 Hh' ltac:(cbn; lia)).
  unfold written_from in H2. rewrite Hent, zdrop_zdrop in H2 by (cbn; lia). cbn [R r_limit r_first] in H2.
  replace (hold - r_first (o_ring o) + r_first (o_ring o)) with hold in H2 by lia.
  rewrite Hlim in H2. exact H2.
Qed.

Lemma batch_of_mono key ps a f f' :
  0 <= a -> f <= f' -> sizes (batch_of key ps a (f - a)) <= sizes (batch_of key ps a (f' - a)).
Proof.
  intros Ha Hf. destruct (Z.le_gt_cases f a).
  { unfold batch_of at 1. rewrite ztake_0 by lia. apply sizes_nonneg. }
  rewrite (sizes_take_drop (f - a) (batch_of key ps a (f' - a))), batch_of_ztake by lia.
  pose proof (sizes_nonneg (zdrop (f - a) (batch_of key ps a (f' - a)))). lia.
Qed.

(** Steps that only move [flushed] forward keep the hold. *)
Lemma hold_forward key limit ps o f :
  hold_kept key limit ps o -> (r_held (o_ring o) = true -> 0 <= r_hold (o_ring o) <= o_flushed o) ->
  o_flushed o <= f ->
  r_held (o_ring o) = true -> 0 <= r_hold (o_ring o) <= f /\
    (r_first (o_ring o) <= r_hold (o_ring o) \/
     2 * limit < sizes (batch_of key ps (r_hold (o_ring o)) (f - r_hold (o_ring o)))).
Proof.
  intros Hk Hr Hf Hh. specialize (Hr Hh). split; [lia|].
  destruct (Hk Hh) as [|Hlt]; [by left|right].
  pose proof (batch_of_mono key ps (r_hold (o_ring o)) (o_flushed o) f). lia.
Qed.

(** An enqueue keeps the hold, since only unwritten entries are added. *)
Lemma enqueue_hold_kept key limit ps o p o' :
  hold_kept key limit ps o -> (r_held (o_ring o) = true -> 0 <= r_hold (o_ring o) <= o_flushed o) ->
  o_flushed o <= zlen ps ->
  r_first (o_ring o') = r_first (o_ring o) -> r_held (o_ring o') = r_held (o_ring o) ->
  r_hold (o_ring o') = r_hold (o_ring o) -> o_flushed o' = o_flushed o ->
  hold_kept key limit (ps ++ [p]) o' /\
  (r_held (o_ring o') = true -> 0 <= r_hold (o_ring o') <= o_flushed o').
Proof.
  intros Hk Hr Hf E1 E2 E3 E4. unfold hold_kept. rewrite E1, E2, E3, E4. split; [|done].
  intros Hh. specialize (Hr Hh). destruct (Hk Hh) as [|Hlt]; [by left|right].
  by rewrite batch_of_app by lia.
Qed.

Lemma enqueueLocked_ring p o :
  r_first (o_ring (enqueueLocked p o)) = r_first (o_ring o) /\
  r_held (o_ring (enqueueLocked p o)) = r_held (o_ring o) /\
  r_hold (o_ring (enqueueLocked p o)) = r_hold (o_ring o) /\
  o_flushed (enqueueLocked p o) = o_flushed o.
Proof. unfold enqueueLocked. by destruct (Seal _ _ _). Qed.

Lemma WritePacket_attempt_Written p c c' :
  WritePacket_attempt p c = (c', Written) ->
  o_unsent (c_out c) <= r_limit (o_ring (c_out c)) /\
  c_out c' = enqueueLocked p (c_out c) /\ c_probe c' = c_probe c.
Proof.
  unfold WritePacket_attempt. destruct (c_ctx c); [done|].
  destruct (Z.leb_spec (o_unsent (c_out c)) (r_limit (o_ring (c_out c)))); [|done].
  destruct (_ <=? _); by intros [= <-].
Qed.

Lemma writeLoop_commit_moved key probe limit ps sent c :
  outbound_core key probe limit ps (c_out c) -> 0 <= sent -> o_flushed (c_out c) + sent <= zlen ps ->
  let f := o_flushed (c_out c) + sent in
  let r := o_ring (c_out c) in
  let c' := writeLoop_commit sent (sizes (batch_of key ps (o_flushed (c_out c)) sent)) c in
  c_out c' = fst (releaseLocked (moved (c_out c) (r_held r) (r_hold r) f
    (sizes (zdrop f (sealed_log key ClientToServer ps))))) /\ c_probe c' = c_probe c.
Proof.
  intros Ho Hs Hle. cbv zeta. unfold writeLoop_commit.
  assert (0 <= o_flushed (c_out c)) by (destruct Ho as [_ Hrl _ _ ? _ _ _ _ _]; destruct Hrl; lia).
  assert (o_unsent (c_out c) - sizes (batch_of key ps (o_flushed (c_out c)) sent) =
    sizes (zdrop (o_flushed (c_out c) + sent) (sealed_log key ClientToServer ps))) as ->.
  { rewrite (ok_unsent _ _ _ _ _ Ho). unfold batch_of.
    pose proof (sizes_take_drop sent (zdrop (o_flushed (c_out c)) (sealed_log key ClientToServer ps))) as Hsz.
    rewrite zdrop_zdrop, Z.add_comm in Hsz by lia. rewrite (Z.add_comm _ sent). lia. }
  unfold moved. replace (MkRing _ _ _ _ _ _) with (o_ring (c_out c)) by (by destruct (o_ring (c_out c))).
  destruct (releaseLocked _) as [o' room]. by destruct room.
Qed.

Lemma releaseHold_moved key probe limit ps c :
  outbound_core key probe limit ps (c_out c) -> r_held (o_ring (c_out c)) = true ->
  c_out (releaseHold c) = fst (releaseLocked (moved (c_out c) false (r_hold (o_ring (c_out c)))
    (o_flushed (c_out c)) (sizes (zdrop (o_flushed (c_out c)) (sealed_log key ClientToServer ps))))) /\
  c_probe (releaseHold c) = c_probe c.
Proof.
  intros Ho Hh. unfold releaseHold. rewrite Hh. cbn [c_out set_out c_probe]. split; [|done].
  unfold releaseLocked, moved, set_ring. cbn [fst o_out o_ring o_flushed o_unsent o_lastProbe].
  by rewrite (ok_unsent _ _ _ _ _ Ho).
Qed.

Lemma recover_commit_moved key probe limit ps snap seq c c' :
  outbound_core key probe limit ps (c_out c) -> o_flushed (c_out c) <= snap <= zlen ps ->
  recover_commit snap seq c = Some c' ->
  c_out c' = fst (releaseLocked (moved (c_out c) true seq snap
    (sizes (zdrop snap (sealed_log key ClientToServer ps))))) /\ c_probe c' = c_probe c.
Proof.
  intros Ho Hs. pose proof (ok_flushed _ _ _ _ _ Ho). pose proof (ok_ring _ _ _ _ _ Ho) as Hr.
  unfold recover_commit. rewrite (bytesBetween_of_log _ _ _ _ Hr) by (rewrite ?sealed_log_zlen; lia).
  cbn [mbind option_bind]. rewrite (ok_unsent _ _ _ _ _ Ho).
  match goal with |- context[?a - (?a - ?b)] => replace (a - (a - b)) with b by lia end.
  unfold moved. destruct (releaseLocked _) as [o' room]. intros [= <-]. by destruct room.
Qed.

Lemma out_step_inv key limit a b :
  zlen (p_Payload (c_probe (snd a))) <= maxPayload -> zlen (fst b) < 2 ^ 184 ->
  out_step key a b -> out_inv key limit a ->
  out_inv key limit b /\ c_probe (snd b) = c_probe (snd a).
Proof.
  intros Hpr Hsz Hstep (Hok & Hk & Hr).
  destruct Hstep as [ps c p c' Hp Hw|ps c Hlp|ps c Hlp|ps c sent Hs Hle|ps c|ps c snap seq c' Hsn Hseq Hrc];
    cbn [fst snd] in *; unfold out_inv; cbn [fst snd];
    pose proof (ok_flushed _ _ _ _ _ (proj1 Hok)) as Hf;
    pose proof (ok_limit _ _ _ _ _ (proj1 Hok)) as Hlim;
    assert (0 <= r_first (o_ring (c_out c)))
      by (destruct (ok_ring _ _ _ _ _ (proj1 Hok)); lia).
  - rewrite zlen_app in Hsz. change (zlen [p]) with 1 in Hsz.
    apply WritePacket_attempt_Written in Hw as (Hu & -> & ->). rewrite Hlim in Hu.
    split; [|done]. split; [apply enqueueLocked_ok; done || lia|].
    destruct (enqueueLocked_ring p (c_out c)) as (?&?&?&?). eapply enqueue_hold_kept; done || lia.
  - rewrite zlen_app in Hsz. change (zlen [c_probe c]) with 1 in Hsz.
    unfold probeOnce. rewrite Z.geb_leb.
    destruct (Z.leb_spec (o_flushed (c_out c)) (o_lastProbe (c_out c))); [lia|].
    cbn [c_out c_probe set_out signal_wake set_signals]. split; [|done].
    split; [apply enqueueLocked_probe_ok; done || lia|].
    match goal with |- context[enqueueLocked ?p ?o] => destruct (enqueueLocked_ring p o) as (?&?&?&?) end.
    eapply enqueue_hold_kept; done || lia.
  - unfold probeOnce. rewrite Z.geb_leb.
    destruct (Z.leb_spec (o_flushed (c_out c)) (o_lastProbe (c_out c))); [done|lia].
  - destruct (writeLoop_commit_moved _ _ _ _ sent c (proj1 Hok) Hs Hle) as [-> ->].
    split; [|done]. split; [apply release_ok; [apply Hok|lia]|].
    eapply moved_hold_kept; [apply Hok|lia|]. apply hold_forward; done || lia.
  - destruct (r_held (o_ring (c_out c))) eqn:Hh;
      [|unfold releaseHold; rewrite Hh; split; [|done]; split_and!; [done|done|by rewrite Hh]].
    destruct (releaseHold_moved _ _ _ _ c (proj1 Hok) Hh) as [-> ->].
    split; [|done]. split; [apply release_ok; [apply Hok|lia]|].
    eapply moved_hold_kept; [apply Hok|lia|done].
  - destruct (recover_commit_moved _ _ _ _ _ _ _ _ (proj1 Hok) Hsn Hrc) as [-> ->].
    split; [|done]. split; [apply release_ok; [apply Hok|lia]|].
    eapply moved_hold_kept; [apply Hok|lia|]. intros _. split; [lia|]. left. lia.
Qed.

Lemma out_step_grows key a b : out_step key a b -> zlen (fst a) <= zlen (fst b).
Proof. intros []; cbn [fst]; rewrite ?zlen_app; zlia. Qed.

(** [C15] Whatever the callers, the goroutines and the peer do, in any interleaving:
    the ring keeps the whole unwritten backlog and a run of the log before it;
    it never holds more than three times ReplayLimit plus one packet and one
    probe; and while the server has not spoken since a recover exchange, what
    it had not acknowledged then can be replayed again, up to the cut-off that
    [trim] sets: once more than twice ReplayLimit of it is written, its oldest
    entries may go. *)
Theorem outbound_safe key limit c ps' c' :
  outbound_ok key (c_probe c) limit [] (c_out c) -> r_held (o_ring (c_out c)) = false ->
  zlen (p_Payload (c_probe c)) <= maxPayload ->
  rtc (out_step key) ([], c) (ps', c') -> zlen ps' < 2 ^ 184 ->
  let r := o_ring (c_out c') in
  ring_of_log r (sealed_log key ClientToServer ps') /\ r_first r <= o_flushed (c_out c') /\
  r_bytes r <= 3 * limit + MaxFrameSize + probe_size (c_probe c) /\
  (r_held r = true -> r_first r <= r_hold r \/
     2 * limit < sizes (batch_of key ps' (r_hold r) (o_flushed (c_out c') - r_hold r))).
Proof.
  intros Hok Hh Hp Hrtc Hsz.
  assert (out_inv key limit (ps', c') /\ c_probe c' = c_probe c) as [(Hok' & Hk & _) Hpr].
  { assert (forall a b, rtc (out_step key) a b -> zlen (fst b) < 2 ^ 184 ->
      out_inv key limit a -> c_probe (snd a) = c_probe c ->
      out_inv key limit b /\ c_probe (snd b) = c_probe c) as Hall.
    { intros a b Hab. induction Hab as [x|x y z Hxy Hyz IH]; [done|]. intros Hz Hx Hpx.
      assert (zlen (fst y) <= zlen (fst z)) as Hyz'.
      { clear -Hyz. induction Hyz as [|u v t Huv _ IH]; [done|].
        apply out_step_grows in Huv. lia. }
      destruct (out_step_inv key limit x y) as [? Hpy]; [by rewrite Hpx|lia|done|done|].
      apply IH; [done|done|congruence]. }
    apply (Hall _ _ Hrtc Hsz); [|done]. unfold out_inv, hold_kept. cbn [fst snd]. by rewrite Hh. }
  cbn [fst snd] in *. rewrite Hpr in Hok'. split_and!.
  - apply Hok'.
  - apply (proj1 Hok').
  - by eapply ring_bytes_bound.
  - exact Hk.
Qed.
End Recover.

(** ** Witnesses *)

#[local] Existing Instances seq_codec catchup_codec.
#[local] Existing Instance toy_box.

(** A Conn that queued one packet, and a peer that received none of it. *)
Definition written_conn : Conn :=
  fst (WritePacket_attempt (MkPacket x01 (bs "hi")) example_conn).

Lemma written_conn_ok :
  outbound_ok (bs "key") (MkPacket x00 []) 20 [MkPacket x01 (bs "hi")] (c_out written_conn).
Proof.
  pose proof (WritePacket_attempt_cases (bs "key") 20 [] example_conn (MkPacket x01 (bs "hi"))
    example_conn_log ltac:(by vm_compute)) as Ha.
  assert (snd (WritePacket_attempt (MkPacket x01 (bs "hi")) example_conn) = Written) as Hw by reflexivity.
  unfold written_conn. destruct (WritePacket_attempt _ example_conn) as [c1 a]. cbn [snd fst] in *. subst a.
  apply Ha.
Qed.

Definition sent_message {M} `{ProtoMessage M} (m : M) : bytes :=
  concat (w_calls (snd (WriteMessage (Writer [] []) m))).

Definition example_peer : reader :=
  Reader [sent_message (MkSequenceHeader (Some 0)); sent_message (MkCatchupBuffer [])] false
    (Sentinel io_EOF).

Lemma recover_spec_witness :
  exists c' w', recover example_peer (Writer [] []) written_conn written_conn = (Ok [], c', w') /\
    o_flushed (c_out c') = 1 /\ r_held (o_ring (c_out c')) = true.
Proof.
  destruct (recover example_peer (Writer [] []) written_conn written_conn) as [[x c'] w'] eqn:He.
  pose proof (recover_spec (bs "key") (MkPacket x00 []) 20 [MkPacket x01 (bs "hi")] [] example_peer
    (Writer [] []) written_conn written_conn x c' w' written_conn_ok written_conn_ok eq_refl He) as Hs.
  assert (x = Ok []) as -> by (apply (f_equal (fun t => fst (fst t))) in He; vm_compute in He; by symmetry).
  destruct Hs as (peer & theirs & w1 & _ & _ & _ & _ & _ & _ & _ & Hf & _ & Hh & _).
  exists c', w'. split; [reflexivity|]. split; [exact Hf|exact Hh].
Defined.

Lemma wrapped_position_refused_witness :
  exists e, writeRecover 2147483648 (Writer [] []) None (MkSequenceHeader (Some 0))
      (o_ring (c_out written_conn)) = (Err e, Writer [] []) /\ errors_Is e ErrReplayExceeded = true.
Proof.
  assert (20 <= 64 * 1024 * 1024) as H1 by lia.
  assert (zlen (p_Payload (MkPacket x00 [])) <= maxPayload) as H2 by by vm_compute.
  assert (0 <= 0 <= zlen [MkPacket x01 (bs "hi")]) as H3 by (split; by vm_compute).
  exact (proj2 (proj2 (wrapped_position_refused (bs "key") (MkPacket x00 []) 20 [MkPacket x01 (bs "hi")]
    (c_out written_conn) 2147483648 (Writer [] []) (MkSequenceHeader (Some 0)) 0
    written_conn_ok H1 H2 H3 eq_refl)) ltac:(by vm_compute)).
Defined.

Lemma outbound_safe_witness :
  r_bytes (o_ring (c_out (writeLoop_commit 1 20 written_conn))) <=
    3 * 20 + MaxFrameSize + probe_size (MkPacket x00 []).
Proof.
  assert (rtc (out_step (bs "key")) ([], example_conn)
    ([MkPacket x01 (bs "hi")], writeLoop_commit 1 20 written_conn)) as Hrtc.
  { eapply rtc_l; [eapply (step_write _ [] _ (MkPacket x01 (bs "hi")) written_conn);
      [by vm_compute|reflexivity]|].
    eapply rtc_l; [|apply rtc_refl].
    exact (step_commit (bs "key") [MkPacket x01 (bs "hi")] written_conn 1 ltac:(lia) ltac:(by vm_compute)). }
  assert (zlen (p_Payload (c_probe example_conn)) <= maxPayload) as Hp by by vm_compute.
  assert (zlen [MkPacket x01 (bs "hi")] < 2 ^ 184) as Hs by by vm_compute.
  exact (proj1 (proj2 (proj2 (outbound_safe (bs "key") 20 example_conn _ _
    (proj1 example_conn_log) eq_refl Hp Hrtc Hs)))).
Defined.
