(* ===== verification/Dialer.v ===== *)
(** * internal/etcp/dialer.go, idleconn.go and the supervisor of recover.go

    Dialing, the connect handshake, the classification of its errors, and the
    loop that redials.  The network is what each attempt finds: the result of
    the dial, the bytes the connection yields and takes, and where the
    contexts ended.  [idleConn] is the handshake's connection with a deadline
    that moves with progress. *)

From S2P Require Export Recover.
From S2P Require Import Codecs.
Local Open Scope Z_scope.

(** ** idleConn *)

Definition handshakeIdle : Z := 30 * 1000000000.
Definition idleChunk : Z := Z.shiftl 64 10.

(** A connection with its two deadlines. *)
Record idle_state := MkIdle {
  id_w : writer;
  id_readDeadline : Z;
  id_writeDeadline : Z
}.

(** What one iteration of [Write] meets: the clock before and after its Write,
    and the error of setting the deadline on a closed connection. *)
Record idle_iter := MkIter { it_before : Z; it_set : option gerr; it_after : Z }.

(** [Read] after the connection's own Read returned [n] bytes at [after]. *)
Definition idleConn_Read (timeout before : Z) (set : option gerr) (n : Z) (err : option gerr)
  (after : Z) (st : idle_state) : idle_state * Z * option gerr :=
  match set with
  | Some e => (st, 0, Some e)
  | None =>
      let st := MkIdle (id_w st) (before + timeout) (id_writeDeadline st) in
      ((if n >? 0 then MkIdle (id_w st) (id_readDeadline st) (after + timeout) else st), n, err)
  end.

(** One iteration per element of [its]; [None] when more are needed. *)
Fixpoint idleConn_Write (timeout : Z) (p : bytes) (n : Z) (st : idle_state) (its : list idle_iter)
  : idle_state * option (Z * option gerr) :=
  if zlen p >? 0 then
    match its with
    | [] => (st, None)
    | it :: its =>
        match it_set it with
        | Some e => (st, Some (n, Some e))
        | None =>
            let '(m, err, w) := Write (id_w st) (ztake (Z.min (zlen p) idleChunk) p) in
            let n := n + Z.of_nat m in
            let st := MkIdle w (if Z.of_nat m >? 0 then it_after it + timeout else id_readDeadline st)
                        (it_before it + timeout) in
            match err with
            | Some e => (st, Some (n, Some e))
            | None => idleConn_Write timeout (drop m p) n st its
            end
        end
    end
  else (st, Some (n, None)).

(** ** Dialing *)

Definition defaultKeepAlive : Z := 5 * 1000000000.
Definition defaultReplayLimit : Z := Z.shiftl 64 20.
Definition dialTimeout : Z := 10 * 1000000000.
Definition minKeepAlive : Z := 100 * 1000000.
Definition maxReplayLimit : Z := defaultReplayLimit.

(** The options that reach the Conn; the dialer and the logger are not state. *)
Record Dialer := MkDialer {
  d_KeepAlive : Z;
  d_Probe : Packet;
  d_ReplayLimit : Z
}.

(** [cmp.Or] of a value and its default. *)
Definition cmp_Or (a b : Z) : Z := if a =? 0 then b else a.

(** What [Dial] refuses before it dials. *)
Definition Dial_refused (d : Dialer) (passkey : bytes) : option gerr :=
  if negb (zlen passkey =? 32) then Some (Errorf "etcp: passkey must be 32 bytes, got %d" [])
  else if zlen (p_Payload (d_Probe d)) >? maxPayload
  then Some (Errorf "etcp: probe payload of %d bytes: %w" [Sentinel ErrTooLarge])
  else if (d_KeepAlive d <? 0) || ((d_KeepAlive d >? 0) && (d_KeepAlive d <? minKeepAlive))
  then Some (Errorf "etcp: KeepAlive %v: must be 0 (the default) or at least %v" [])
  else if (d_ReplayLimit d <? 0) || (d_ReplayLimit d >? maxReplayLimit)
  then Some (Errorf "etcp: ReplayLimit %d: must be between 0 (the default) and %d" [])
  else None.

(** [copy(key[:], passkey)] into 32 zero bytes. *)
Definition key_of (passkey : bytes) : bytes :=
  ztake 32 passkey ++ zdrop (zlen passkey) (replicate 32 x00).

Definition newConn (d : Dialer) (id passkey : bytes) : res Conn :=
  match New (Some (key_of passkey)) ClientToServer, New (Some (key_of passkey)) ServerToClient with
  | Ok out, Ok inn =>
      Ok (MkConn id (cmp_Or (d_KeepAlive d) defaultKeepAlive) (d_Probe d) None
            (MkOutbound out (MkRing 0 [] 0 (cmp_Or (d_ReplayLimit d) defaultReplayLimit) false 0)
               0 0 (-1))
            (MkInbound inn 0 []) false [] false false)
  | _, _ => Panic
  end.

Definition isFatal (err : gerr) : bool :=
  existsb (errors_Is err) [ErrSessionEnded; ErrVersion; ErrReplayExceeded; ErrRejected; ErrIntegrity].

Section Dial.
Context `{HB : SecretBox} {PSeq : ProtoMessage SequenceHeader} {PCat : ProtoMessage CatchupBuffer}
  {PReq : ProtoMessage ConnectRequest} {PResp : ProtoMessage ConnectResponse}.

Definition handshake (first : bool) (r : reader) (w : writer) (at_snapshot at_commit : Conn)
  : res (list bytes) * Conn * writer :=
  let req := SetVersion Version (SetClientId (c_id at_snapshot) ConnectRequest_zero) in
  match WriteMessage w req with
  | (Some e, w) => (Err (Errorf "etcp: connect request: %w" [e]), at_commit, w)
  | (None, w) =>
      match read_message r with
      | (inr e, _) => (Err (Errorf "etcp: connect response: %w" [e]), at_commit, w)
      | (inl resp, r) =>
          let status := GetStatus resp in
          if status =? NEW_CLIENT then
            if first then (Ok [], at_commit, w)
            else (Err (Errorf "%w: server answered NEW_CLIENT to a returning client"
                         [Sentinel ErrRejected]), at_commit, w)
          else if status =? RETURNING_CLIENT then recover r w at_snapshot at_commit
          else if status =? INVALID_KEY then
            if first
            then (Err (Errorf "%w: server does not know this client" [Sentinel ErrRejected]), at_commit, w)
            else (Err (Sentinel ErrSessionEnded), at_commit, w)
          else if status =? MISMATCHED_PROTOCOL then
            (Err (Errorf "%w: server does not speak protocol version %d" [Sentinel ErrVersion]), at_commit, w)
          else (Err (Errorf "%w: unexpected status %v" [Sentinel ErrRejected]), at_commit, w)
      end
  end.

(** What one [connect] meets.  [cn_ctx_dial] and [cn_ctx_end] are the cause of
    ctx when it had ended at the two places the code looks; [cn_stopped] is the
    result of [stop()], false when ctx had already closed the connection. *)
Record connect_env := MkConnectEnv {
  cn_dial : (reader * writer) + gerr;
  cn_ctx_dial : option gerr;
  cn_at_snapshot : Conn;
  cn_at_commit : Conn;
  cn_stopped : bool;
  cn_ctx_stop : gerr;
  cn_deadline : option gerr;
  cn_ctx_end : option gerr
}.

Definition connect (first : bool) (env : connect_env) : res (list bytes) * Conn :=
  match cn_dial env with
  | inr err =>
      (Err (Errorf "etcp: dial: %w" [default err (cn_ctx_dial env)]), cn_at_commit env)
  | inl (r, w) =>
      let '(x, c, _) := handshake first r w (cn_at_snapshot env) (cn_at_commit env) in
      let failed err :=
        let err := if errors_Is err ErrTooLarge || errors_Is err ErrMalformed
                   then Errorf "%w: %w" [Sentinel ErrIntegrity; err] else err in
        match cn_ctx_end env with
        | Some cause => if negb (isFatal err) then Err (Errorf "etcp: connect: %w" [cause]) else Err err
        | None => Err err
        end in
      match x with
      | Panic => (Panic, c)
      | OutOfFuel => (OutOfFuel, c)
      | Err err => (failed err, c)
      | Ok catchup =>
          if negb (cn_stopped env) then (failed (cn_ctx_stop env), c)
          else match cn_deadline env with
               | Some err => (failed err, c)
               | None => (Ok catchup, c)
               end
      end
  end.

(** [Dial] up to starting the supervisor: the Conn and the first catchup, or
    the error and the Conn it cancelled with it. *)
Definition Dial (d : Dialer) (id passkey : bytes) (env : Conn -> connect_env)
  : res (Conn * list bytes) :=
  match Dial_refused d passkey with
  | Some err => Err err
  | None =>
      match newConn d id passkey with
      | Ok c =>
          match connect true (env c) with
          | (Ok catchup, c) => Ok (c, catchup)
          | (Err err, _) => Err err
          | (Panic, _) => Panic
          | (OutOfFuel, _) => OutOfFuel
          end
      | Err err => Err err
      | Panic => Panic
      | OutOfFuel => OutOfFuel
      end
  end.

(** ** Redialing *)

(** One iteration of [reconnect]: the jitter, the Conn's cause if it ended
    while the timer ran, what connecting met, and its cause after it failed. *)
Record attempt_env := MkAttempt {
  at_jitter : dyadic;
  at_timer : option gerr;
  at_connect : connect_env;
  at_ctx : option gerr
}.

Inductive reconnected :=
| Trying (b : backoff)
| Linked (b : backoff) (c : Conn) (catchup : list bytes)
| GaveUp (b : backoff) (c : option Conn) (e : gerr)
| ReconnectPanic.

Fixpoint reconnect (fused : bool) (b : backoff) (attempts : list attempt_env) : reconnected :=
  match attempts with
  | [] => Trying b
  | a :: rest =>
      let '(b, d) := backoff_next fused b (at_jitter a) in
      match (if d >? 0 then at_timer a else None) with
      | Some cause => GaveUp b None cause
      | None =>
          match connect false (at_connect a) with
          | (Ok catchup, c) => Linked b c catchup
          | (Err err, c) =>
              if isFatal err || bool_decide (is_Some (at_ctx a)) then GaveUp b (Some c) err
              else reconnect fused b rest
          | (Panic, _) | (OutOfFuel, _) => ReconnectPanic
          end
      end
  end.

(** One round of [supervise]: what [runLink] makes of the Conn and the catchup
    it starts with, how long the link lasted and the attempts that follow. *)
Record round := MkRound {
  rd_run : Conn -> list bytes -> Conn;
  rd_lasted : Z;
  rd_attempts : list attempt_env
}.

Inductive supervised :=
| Running (b : backoff) (c : Conn) (catchup : list bytes)
| Redialing (b : backoff) (c : Conn)
| Ended (c : Conn)
| SupervisePanic.

Fixpoint supervise (fused : bool) (b : backoff) (c : Conn) (catchup : list bytes)
  (rounds : list round) : supervised :=
  match rounds with
  | [] => Running b c catchup
  | rd :: rest =>
      let c := rd_run rd c catchup in
      match c_ctx c with
      | Some _ => Ended (set_readerDone true c)
      | None =>
          let b := if rd_lasted rd >=? backoffReset then backoff_reset b else b in
          match reconnect fused b (rd_attempts rd) with
          | Trying b => Redialing b c
          | Linked b c catchup => supervise fused b c catchup rest
          | GaveUp b c' err => Ended (set_readerDone true (Conn.cancel err (default c c')))
          | ReconnectPanic => SupervisePanic
          end
      end
  end.

(** ** Which errors end the Conn *)

Lemma isFatal_wrap f e : isFatal (Errorf f [e]) = isFatal e.
Proof. unfold isFatal. cbn [existsb]. by rewrite !errors_Is_wrap1. Qed.

(** The answers [handshake] does not accept, and the sentinel for each. *)
Definition rejection (first : bool) (status : ConnectStatus) : option sentinel :=
  if status =? NEW_CLIENT then if first then None else Some ErrRejected
  else if status =? RETURNING_CLIENT then None
  else if status =? INVALID_KEY then Some (if first then ErrRejected else ErrSessionEnded)
  else if status =? MISMATCHED_PROTOCOL then Some ErrVersion
  else Some ErrRejected.

Lemma handshake_rejected first r w c1 c2 w1 resp r1 t :
  WriteMessage w (SetVersion Version (SetClientId (c_id c1) ConnectRequest_zero)) = (None, w1) ->
  read_message r = (inl resp, r1) -> rejection first (GetStatus resp) = Some t ->
  exists e, handshake first r w c1 c2 = (Err e, c2, w1) /\ errors_Is e t = true /\ isFatal e = true /\
    errors_Is e ErrTooLarge = false /\ errors_Is e ErrMalformed = false.
Proof.
  intros Hw Hr. unfold handshake, rejection. rewrite Hw, Hr.
  repeat case_match; intros [= <-]; eexists; (split; [reflexivity|]); by vm_compute.
Qed.

Lemma connect_rejected first env r w w1 resp r1 t :
  cn_dial env = inl (r, w) ->
  WriteMessage w (SetVersion Version (SetClientId (c_id (cn_at_snapshot env)) ConnectRequest_zero))
    = (None, w1) ->
  read_message r = (inl resp, r1) -> rejection first (GetStatus resp) = Some t ->
  exists e, connect first env = (Err e, cn_at_commit env) /\ errors_Is e t = true /\ isFatal e = true.
Proof.
  unfold connect. intros -> Hw Hr Hrej.
  destruct (handshake_rejected first r w _ (cn_at_commit env) _ _ _ _ Hw Hr Hrej)
    as (e & -> & Ht & Hf & Hl & Hm).
  rewrite Hl, Hm. cbn [orb]. rewrite Hf. exists e. by destruct (cn_ctx_end env).
Qed.

(** ** Redialing *)

(** An attempt that is followed by another: its timer ran out and connecting
    failed with an error that is not fatal, the Conn still open. *)
Definition retried (fused : bool) (b : backoff) (a : attempt_env) : Prop :=
  (0 < snd (backoff_next fused b (at_jitter a)) -> at_timer a = None) /\
  exists err c, connect false (at_connect a) = (Err err, c) /\ isFatal err = false /\ at_ctx a = None.

Fixpoint all_retried (fused : bool) (b : backoff) (l : list attempt_env) : Prop :=
  match l with
  | [] => True
  | a :: l => retried fused b a /\ all_retried fused (fst (backoff_next fused b (at_jitter a))) l
  end.

(** Redialing goes on through every failure that is not fatal, spaced by the
    backoff schedule, and stops only with a link, a fatal error or the end of
    the Conn: a fatal error is never retried and a transient one never ends
    the session. *)
Theorem reconnect_spec fused b attempts :
  match reconnect fused b attempts with
  | Trying b' => all_retried fused b attempts /\ b_attempt b' = b_attempt b + zlen attempts
  | Linked b' c catchup => exists pre a rest, attempts = pre ++ a :: rest /\
      all_retried fused b pre /\ connect false (at_connect a) = (Ok catchup, c)
  | GaveUp b' c e => exists pre a rest, attempts = pre ++ a :: rest /\ all_retried fused b pre /\
      (c = None /\ at_timer a = Some e \/
       exists c', c = Some c' /\ connect false (at_connect a) = (Err e, c') /\
         (isFatal e = true \/ is_Some (at_ctx a)))
  | ReconnectPanic => exists pre a rest, attempts = pre ++ a :: rest /\
      (fst (connect false (at_connect a)) = Panic \/ fst (connect false (at_connect a)) = OutOfFuel)
  end.
Proof.
  revert b. induction attempts as [|a rest IH]; intros b; cbn [reconnect].
  { split; [done|]. rewrite zlen_nil. lia. }
  destruct (backoff_next fused b (at_jitter a)) as [b1 d] eqn:Hn.
  assert (b_attempt b1 = b_attempt b + 1) as Hb1.
  { unfold backoff_next in Hn. destruct (_ =? 0); by injection Hn as <- _. }
  rewrite Z.gtb_ltb. destruct (if 0 <? d then at_timer a else None) as [cause|] eqn:Ht.
  { exists [], a, rest. split_and!; [done|done|left]. by destruct (0 <? d). }
  destruct (connect false (at_connect a)) as [x c] eqn:Hc.
  destruct x as [catchup|err| |].
  - exists [], a, rest. by rewrite Hc.
  - destruct (isFatal err) eqn:Hf; cbn [orb].
    { exists [], a, rest. split_and!; [done|done|right]. exists c. rewrite Hc. auto. }
    destruct (bool_decide_reflect (is_Some (at_ctx a))) as [Hx|Hx].
    { exists [], a, rest. split_and!; [done|done|right]. exists c. rewrite Hc. auto. }
    assert (retried fused b a) as Hr.
    { split; [rewrite Hn; cbn [snd]; intros ?; by destruct (Z.ltb_spec 0 d); [|lia]|].
      exists err, c. rewrite Hc. split_and!; try done. by apply eq_None_not_Some. }
    specialize (IH b1). destruct (reconnect fused b1 rest).
    + destruct IH as [? ->]. cbn [all_retried]. rewrite Hn, zlen_cons. cbn [fst]. split; [done|lia].
    + destruct IH as (pre & a' & r & -> & ? & ?). exists (a :: pre), a', r.
      cbn [all_retried]. rewrite Hn. done.
    + destruct IH as (pre & a' & r & -> & ? & ?). exists (a :: pre), a', r.
      cbn [all_retried]. rewrite Hn. done.
    + destruct IH as (pre & a' & r & -> & ?). by exists (a :: pre), a', r.
  - exists [], a, rest. rewrite Hc. auto.
  - exists [], a, rest. rewrite Hc. auto.
Qed.

(** ** Dial *)

(** What Dial lets through. *)
Lemma Dial_refused_None d passkey :
  Dial_refused d passkey = None <->
  zlen passkey = 32 /\ zlen (p_Payload (d_Probe d)) <= maxPayload /\
  (d_KeepAlive d = 0 \/ minKeepAlive <= d_KeepAlive d) /\
  0 <= d_ReplayLimit d <= maxReplayLimit.
Proof.
  unfold Dial_refused. assert (0 < minKeepAlive) by by vm_compute. rewrite !Z.gtb_ltb.
  repeat match goal with
  | |- context[(?a =? ?b)%Z] => destruct (Z.eqb_spec a b); cbn [negb]
  | |- context[(?a <? ?b)%Z] => destruct (Z.ltb_spec a b); cbn [orb andb]
  end; split; try done; try lia; intros; exfalso; lia.
Qed.

Lemma cmp_Or_range a b lo : 0 < b -> lo <= b -> (a = 0 \/ lo <= a) -> lo <= cmp_Or a b.
Proof. unfold cmp_Or. intros. destruct (Z.eqb_spec a 0); lia. Qed.

Lemma key_of_exact passkey : zlen passkey = 32 -> key_of passkey = passkey.
Proof.
  intros H32. unfold key_of. rewrite H32, ztake_ge, zdrop_ge by (rewrite ?H32; done || lia).
  apply app_nil_r.
Qed.

Lemma newConn_ok d id passkey :
  Dial_refused d passkey = None ->
  exists c, newConn d id passkey = Ok c /\ c_id c = id /\ c_probe c = d_Probe d /\
    minKeepAlive <= c_keepAlive c /\ c_ctx c = None /\ c_inbox c = [] /\
    c_in c = MkInbound (state_at passkey ServerToClient 0) 0 [] /\
    0 < r_limit (o_ring (c_out c)) <= maxReplayLimit /\
    outbound_ok passkey (d_Probe d) (r_limit (o_ring (c_out c))) [] (c_out c).
Proof.
  intros (H32 & Hp & Hk & Hl)%Dial_refused_None. eexists. split.
  { unfold newConn, New. cbn [negb andb Z.eqb]. rewrite key_of_exact by done. reflexivity. }
  cbn [c_id c_probe c_keepAlive c_ctx c_inbox c_in c_out o_ring r_limit].
  assert (0 < cmp_Or (d_ReplayLimit d) defaultReplayLimit <= maxReplayLimit).
  { unfold cmp_Or, maxReplayLimit in *. change defaultReplayLimit with 67108864 in *.
    destruct (Z.eqb_spec (d_ReplayLimit d) 0); lia. }
  split_and!; try done; try lia.
  - apply cmp_Or_range; by vm_compute.
  - apply outbound_new_ok. lia.
Qed.

(** A first connect leaves the fresh Conn as it was, up to the hold. *)
Definition first_result (key : bytes) (probe : Packet) (limit : Z) (c0 : Conn)
  (x : res (list bytes)) (c : Conn) : Prop :=
  match x with
  | Ok _ => c_in c = c_in c0 /\ outbound_ok key probe limit [] (c_out c)
  | Err _ => True
  | Panic | OutOfFuel => False
  end.

Lemma handshake_first key probe limit r w c0 x c w1 :
  outbound_ok key probe limit [] (c_out c0) -> handshake true r w c0 c0 = (x, c, w1) ->
  first_result key probe limit c0 x c.
Proof.
  intros Hok Hh. unfold handshake in Hh. destruct (WriteMessage w _) as [[e|] w2]; [by simplify_eq|].
  destruct (read_message r) as [[resp|e] r1]; [|by simplify_eq].
  destruct (_ =? NEW_CLIENT); [by simplify_eq|].
  destruct (_ =? RETURNING_CLIENT); [|repeat case_match; by simplify_eq].
  apply (recover_result key probe limit [] []) in Hh; [|done..].
  destruct x; try done. destruct Hh as (?&?&?&?&?&?&?&?&?&?&?&?&_). done.
Qed.

Lemma connect_first key probe limit c0 env x c :
  outbound_ok key probe limit [] (c_out c0) -> cn_at_snapshot env = c0 -> cn_at_commit env = c0 ->
  connect true env = (x, c) -> first_result key probe limit c0 x c.
Proof.
  intros Hok Hs Hc Hx. unfold connect in Hx.
  destruct (cn_dial env) as [[r w]|e]; [|by injection Hx as <- _].
  rewrite Hs, Hc in Hx. destruct (handshake true r w c0 c0) as [[y c1] w1] eqn:Hh.
  apply (handshake_first key probe limit) in Hh; [|done].
  destruct y as [l|e| |]; [|repeat case_match; by simplify_eq|done|done].
  destruct (cn_stopped env); cbn [negb] in Hx; [|repeat case_match; by simplify_eq].
  destruct (cn_deadline env); [repeat case_match; by simplify_eq|].
  injection Hx as <- <-. done.
Qed.

(** Dial refuses, before dialing, a passkey, probe, KeepAlive or ReplayLimit
    out of range; otherwise the Conn it returns has the passkey as its key,
    both streams at their start, a positive limit and keepalive within bounds,
    and satisfies the outbound invariant, also when the server answered the
    first connect with RETURNING_CLIENT and the recover exchange ran. *)
Theorem Dial_spec d id passkey env :
  (forall c, cn_at_snapshot (env c) = c /\ cn_at_commit (env c) = c) ->
  (forall e, Dial_refused d passkey = Some e -> Dial d id passkey env = Err e) /\
  (forall c catchup, Dial d id passkey env = Ok (c, catchup) ->
     zlen passkey = 32 /\ c_in c = MkInbound (state_at passkey ServerToClient 0) 0 [] /\
     exists limit, 0 < limit <= maxReplayLimit /\
       outbound_ok passkey (d_Probe d) limit [] (c_out c)) /\
  Dial d id passkey env <> Panic /\ Dial d id passkey env <> OutOfFuel.
Proof.
  intros Henv. unfold Dial. destruct (Dial_refused d passkey) as [err|] eqn:Hr.
  { split_and!; try done. by intros e [= ->]. }
  destruct (newConn_ok d id passkey Hr) as (c0 & -> & _ & _ & _ & _ & _ & Hin & Hlim & Hok).
  apply Dial_refused_None in Hr as [H32 _].
  destruct (Henv c0) as [Hs Hc].
  destruct (connect true (env c0)) as [x c] eqn:Hx.
  pose proof (connect_first passkey (d_Probe d) _ c0 _ _ _ Hok Hs Hc Hx) as Hres.
  destruct x as [l|e| |]; [|by split_and!|done|done].
  split_and!; try done. intros c' catchup [= <- _]. destruct Hres as [-> Hok'].
  split_and!; [done|done|]. by exists (r_limit (o_ring (c_out c0))).
Qed.

(** [C17] When the remote shell exited, the redial is answered with INVALID_KEY:
    the supervisor ends the Conn with ErrSessionEnded at once, and ReadPacket
    then returns every packet that had arrived, in order, and after them
    io.EOF. *)
Theorem session_end_is_eof fused b c catchup rd rest a more r w w1 resp r1 ks rs :
  let c1 := rd_run rd c catchup in
  c_ctx c1 = None -> rd_attempts rd = a :: more -> at_timer a = None ->
  cn_dial (at_connect a) = inl (r, w) -> cn_at_commit (at_connect a) = c1 ->
  WriteMessage w (SetVersion Version (SetClientId (c_id (cn_at_snapshot (at_connect a)))
    ConnectRequest_zero)) = (None, w1) ->
  read_message r = (inl resp, r1) -> GetStatus resp = INVALID_KEY ->
  exists c2, supervise fused b c catchup (rd :: rest) = Ended c2 /\
    (reads ks c2 = Some rs ->
     let tail := c_inbox c1 ++ i_pending (c_in c1) in
     exists e, errors_Is e io_EOF = true /\ errors_Is e ErrSessionEnded = true /\
       rs = map inl (take (length ks) tail) ++ replicate (length ks - length tail) (inr e)).
Proof.
  intros c1 Hctx Hat Htm Hdial Hcm Hw Hr Hst. cbn [supervise]. fold c1. rewrite Hctx, Hat.
  cbn [reconnect]. destruct (backoff_next _ _ _) as [b1 d].
  assert ((if d >? 0 then at_timer a else None) = None) as -> by (rewrite Htm; by destruct (d >? 0)).
  destruct (connect_rejected false (at_connect a) r w w1 resp r1 ErrSessionEnded Hdial Hw Hr)
    as (e & Hc & He & Hf); [unfold rejection; by rewrite Hst|].
  rewrite Hc, Hf. cbn [orb default]. rewrite Hcm. eexists. split; [done|]. intros Hreads.
  exists e. split_and!; [|done|].
  - clear -He. induction e as [s| | |f ws IH] using gerr_ind'; try done.
    + by destruct s.
    + apply errors_Is_Errorf in He as (w & Hin & Hw). apply errors_Is_Errorf. exists w.
      split; [done|]. rewrite Forall_forall in IH. auto.
  - assert (c_ctx (Conn.cancel e c1) = Some e) as Hce by (by rewrite cancel_first, Hctx).
    destruct (cancel_fields e c1) as (Hf1 & Hf2 & _).
    pose proof (reads_tail ks (set_readerDone true (Conn.cancel e c1)) e rs
      Hce eq_refl Hreads) as Ht. cbn in Ht. by rewrite Hf1, Hf2 in Ht.
Qed.
End Dial.

(** ** idleConn *)

(** A net.Conn's Write: all of the piece, or an error with fewer bytes. *)
Definition conforming (script : list (nat * option gerr)) (pieces : list bytes) : Prop :=
  forall i n e piece, script !! i = Some (n, e) -> pieces !! i = Some piece ->
    (n <= length piece)%nat /\ (e = None -> n = length piece).

(** The chunks [p] is sent in. *)
Fixpoint idle_chunks (fuel : nat) (p : bytes) : list bytes :=
  match fuel with
  | O => []
  | S fuel =>
      if zlen p >? 0
      then ztake (Z.min (zlen p) idleChunk) p :: idle_chunks fuel (zdrop (Z.min (zlen p) idleChunk) p)
      else []
  end.

Lemma idleChunk_pos : 0 < idleChunk.
Proof. done. Qed.

Lemma idleConn_Write_loop timeout its : forall fuel p n0 st,
  (length p < fuel)%nat -> conforming (w_script (id_w st)) (idle_chunks fuel p) ->
  (length (idle_chunks fuel p) <= length its)%nat ->
  exists st' n err k, idleConn_Write timeout p n0 st its = (st', Some (n0 + n, err)) /\
    0 <= n <= zlen p /\ (err = None -> n = zlen p /\ concat (take k (idle_chunks fuel p)) = p) /\
    w_calls (id_w st') = w_calls (id_w st) ++ take k (idle_chunks fuel p) /\
    (st' = st \/ exists it, it ∈ its /\ id_writeDeadline st' = it_before it + timeout).
Proof.
  pose proof idleChunk_pos.
  induction its as [|it its IH]; intros fuel p n0 st Hf Hc Hl; destruct fuel as [|fuel]; try lia;
    cbn [idle_chunks] in *; rewrite Z.gtb_ltb in *; cbn [idleConn_Write]; rewrite Z.gtb_ltb;
    pose proof (zlen_nonneg p); destruct (Z.ltb_spec 0 (zlen p)) as [Hp|Hp];
    try (cbn in Hl; lia);
    try (assert (p = []) as -> by (apply zlen_zero; lia);
         exists st, 0, None, 0%nat; rewrite Z.add_0_r, app_nil_r;
         split_and!; try done; by left).
  set (piece := ztake (Z.min (zlen p) idleChunk) p) in *.
  assert (zlen piece = Z.min (zlen p) idleChunk) as Hpl by (unfold piece; rewrite zlen_ztake; lia).
  destruct (it_set it) as [e|].
  { exists st, 0, (Some e), 0%nat. rewrite Z.add_0_r, app_nil_r. split_and!; try done. by left. }
  assert (exists m err s', Write (id_w st) piece = (m, err, Writer (w_calls (id_w st) ++ [piece]) s') /\
    (m <= length piece)%nat /\ (err = None -> m = length piece) /\
    conforming s' (idle_chunks fuel (zdrop (Z.min (zlen p) idleChunk) p))) as (m & err & s' & -> & Hm & Hmn & Hc').
  { unfold Write. destruct (w_script (id_w st)) as [|[m e] scr].
    - exists (length piece), None, []. split_and!; try done.
    - exists m, e, scr. destruct (Hc 0%nat m e piece) as [? ?]; [done|done|]. split_and!; try done.
      intros i. exact (Hc (S i)). }
  destruct err as [e|].
  { eexists _, (Z.of_nat m), (Some e), 1%nat. cbn [id_w w_calls take id_writeDeadline].
    unfold zlen in Hpl. split_and!; try done; try (unfold zlen; lia). right. exists it. by split; [left|]. }
  rewrite (Hmn eq_refl). assert (drop (length piece) p = zdrop (Z.min (zlen p) idleChunk) p) as ->.
  { unfold zdrop. f_equal. rewrite <- Hpl. unfold zlen. lia. }
  destruct (IH fuel (zdrop (Z.min (zlen p) idleChunk) p) (n0 + Z.of_nat (length piece))
    (MkIdle (Writer (w_calls (id_w st) ++ [piece]) s')
       (if Z.of_nat (length piece) >? 0 then it_after it + timeout else id_readDeadline st)
       (it_before it + timeout))) as (st' & n & err & k & Heq & Hn & Hok & Hcalls & Hd).
  - unfold zdrop. rewrite length_drop. unfold zlen in Hp |- *. lia.
  - done.
  - cbn in Hl. lia.
  - rewrite zlen_zdrop in Hn, Hok. cbn [id_w w_calls id_writeDeadline] in *. rewrite Heq.
    exists st', (zlen piece + n), err, (S k). cbn [take concat].
    split; [unfold zlen; by rewrite Z.add_assoc|]. split; [lia|]. split.
    { intros He. destruct (Hok He) as [Hn' Hcat]. split; [lia|]. rewrite Hcat. apply ztake_zdrop. }
    split; [by rewrite Hcalls, <- app_assoc|]. right.
    destruct Hd as [->|(it' & ? & ?)]; [exists it; by split; [left|]|exists it'; by split; [right|]].
Qed.

(** With a conforming connection, [Write] sends [p] in idleChunk pieces in
    order, each with a deadline that starts when it does; it reports exactly
    the bytes the connection took, all of [p] when there is no error, and
    needs no more than one iteration per piece. *)
Theorem idleConn_Write_spec timeout p its st :
  conforming (w_script (id_w st)) (idle_chunks (S (length p)) p) ->
  (length (idle_chunks (S (length p)) p) <= length its)%nat ->
  exists st' n err k, idleConn_Write timeout p 0 st its = (st', Some (n, err)) /\
    0 <= n <= zlen p /\
    (err = None -> n = zlen p /\ concat (take k (idle_chunks (S (length p)) p)) = p) /\
    w_calls (id_w st') = w_calls (id_w st) ++ take k (idle_chunks (S (length p)) p) /\
    (st' = st \/ exists it, it ∈ its /\ id_writeDeadline st' = it_before it + timeout).
Proof. intros Hc Hl. exact (idleConn_Write_loop timeout its (S (length p)) p 0 st ltac:(lia) Hc Hl). Qed.

Lemma idleConn_Write_spec_witness :
  exists st' n err k, idleConn_Write 30 (bs "hello") 0 (MkIdle (Writer [] [(5%nat, None)]) 0 0)
      [MkIter 100 None 101] = (st', Some (n, err)) /\ 0 <= n <= 5 /\
    w_calls (id_w st') = [] ++ take k (idle_chunks 6 (bs "hello")).
Proof.
  assert (conforming [(5%nat, None)] (idle_chunks 6 (bs "hello"))) as Hc.
  { intros [|[|i]] n e piece Hs Hp; cbn in Hs; try discriminate Hs.
    injection Hs as <- <-. vm_compute in Hp. injection Hp as <-. split; [reflexivity|done]. }
  destruct (idleConn_Write_spec 30 (bs "hello") [MkIter 100 None 101]
    (MkIdle (Writer [] [(5%nat, None)]) 0 0) Hc ltac:(vm_compute; lia))
    as (st' & n & err & k & He & Hn & _ & Hw & _).
  exists st', n, err, k. split; [exact He|]. split; [exact Hn|exact Hw].
Defined.

(** ** Witnesses *)

#[local] Existing Instances toy_box seq_codec catchup_codec req_codec resp_codec.

Definition example_env (status : ConnectStatus) (c : Conn) : connect_env :=
  MkConnectEnv (inl (Reader [sent_message (MkConnectResponse (Some status) None)] true (Sentinel io_EOF),
                     Writer [] [])) None c c true (Foreign 9) None None.

Definition example_dialer : Dialer := MkDialer 0 (MkPacket x00 []) 0.
Definition example_passkey : bytes := bs "0123456789abcdef0123456789abcdef".

Lemma Dial_spec_witness :
  exists c, Dial example_dialer (bs "id") example_passkey (example_env NEW_CLIENT) = Ok (c, []) /\
    exists limit, 0 < limit <= maxReplayLimit /\
      outbound_ok example_passkey (MkPacket x00 []) limit [] (c_out c).
Proof.
  assert (forall c, cn_at_snapshot (example_env NEW_CLIENT c) = c /\
    cn_at_commit (example_env NEW_CLIENT c) = c) as He by (intros c; split; reflexivity).
  destruct (Dial_spec example_dialer (bs "id") example_passkey (example_env NEW_CLIENT) He)
    as (_ & Hok & _).
  eexists. split; [vm_compute; reflexivity|].
  exact (proj2 (proj2 (Hok _ [] ltac:(vm_compute; reflexivity)))).
Defined.

Lemma session_end_is_eof_witness :
  exists c2, supervise false (MkBackoff 0) example_conn []
      [MkRound (fun c _ => set_inbox [MkPacket x01 (bs "bye")] c) 7
         [MkAttempt (Dyadic 0 53) None
            (example_env INVALID_KEY (set_inbox [MkPacket x01 (bs "bye")] example_conn)) None]] = Ended c2 /\
    exists e, errors_Is e io_EOF = true /\
      reads [ReadTail; ReadTail] c2 = Some [inl (MkPacket x01 (bs "bye")); inr e].
Proof.
  set (c1 := set_inbox [MkPacket x01 (bs "bye")] example_conn).
  set (a := MkAttempt (Dyadic 0 53) None (example_env INVALID_KEY c1) None).
  set (rd := MkRound (fun c _ => set_inbox [MkPacket x01 (bs "bye")] c) 7 [a]).
  set (resp := MkConnectResponse (Some INVALID_KEY) None).
  set (r := Reader [sent_message resp] true (Sentinel io_EOF)).
  set (req := SetVersion Version (SetClientId (bs "id") ConnectRequest_zero)).
  assert (WriteMessage (Writer [] []) req = (None, snd (WriteMessage (Writer [] []) req))) as Hw
    by (vm_compute; reflexivity).
  assert (read_message r = (inl resp, snd (read_message (M := ConnectResponse) r))) as Hrd0
    by (vm_compute; reflexivity).
  destruct (session_end_is_eof false (MkBackoff 0) example_conn [] rd [] a [] r (Writer [] []) _
    resp _ [ReadTail; ReadTail] [inl (MkPacket x01 (bs "bye")); inr (Sentinel ErrSessionEnded)]
    eq_refl eq_refl eq_refl eq_refl eq_refl Hw Hrd0 eq_refl) as (c2 & Hs & Hr).
  exists c2. split; [exact Hs|].
  assert (reads [ReadTail; ReadTail] c2 =
    Some [inl (MkPacket x01 (bs "bye")); inr (Sentinel ErrSessionEnded)]) as Hrd.
  { vm_compute in Hs. injection Hs as <-. reflexivity. }
  destruct (Hr Hrd) as (e & He & _ & Heq). exists e. split; [exact He|].
  rewrite Hrd. f_equal. exact Heq.
Defined.
