(* ===== verification/DialErrors.v ===== *)
(** * internal/etcp/dialer.go: which failures end the Conn

    [connect_verdict] says, from the bytes the peer sent, this side's ring and
    counts, and how its Writes went, whether an attempt met an answer that no
    redial can change, and which.  It reads the peer's messages with its own
    parser [parse_message] and never looks at an error.  The theorem of the
    file is that the error [connect] returns, [isFatal] and [reconnect] follow
    it exactly. *)

From S2P Require Export Dialer.
From S2P Require Import Codecs.
Local Open Scope Z_scope.

(** ** Errors that come from outside the module *)

(** The sentinels this module's wire and etcp packages classify by. *)
Definition own_sentinels : list sentinel :=
  [ErrTooLarge; ErrMalformed; ErrSessionEnded; ErrVersion; ErrReplayExceeded; ErrRejected; ErrIntegrity].

(** An error of the network, of the protobuf runtime or of a context: it wraps
    none of them. *)
Definition outside (e : gerr) : Prop := forall t, t ∈ own_sentinels -> errors_Is e t = false.

Lemma outside_wrap f e : outside e -> outside (Errorf f [e]).
Proof. intros He t Ht. rewrite errors_Is_wrap1. by apply He. Qed.

Lemma outside_cut e : outside e -> outside (cut e).
Proof.
  unfold cut. destruct (errors_Is e io_EOF); [|done]. intros _ t Ht.
  repeat (apply elem_of_cons in Ht as [->|Ht]; [done|]). by apply elem_of_nil in Ht.
Qed.

Lemma outside_fatal e : outside e -> isFatal e = false.
Proof.
  intros He. unfold isFatal. cbn [existsb]. by rewrite !He by (unfold own_sentinels; set_solver).
Qed.

Lemma outside_bad e : outside e -> errors_Is e ErrTooLarge || errors_Is e ErrMalformed = false.
Proof. intros He. by rewrite !He by (unfold own_sentinels; set_solver). Qed.

(** A writer whose calls report only such errors. *)
Definition outside_writer (w : writer) : Prop :=
  Forall (fun '(_, e) => forall err, e = Some err -> outside err) (w_script w).

Lemma outside_short : outside (Sentinel io_ErrShortWrite).
Proof.
  intros t Ht. repeat (apply elem_of_cons in Ht as [->|Ht]; [done|]). by apply elem_of_nil in Ht.
Qed.

(** ** One message *)

(** What the peer's bytes hold: a message nothing can be made of, one that was
    cut off, or one, and the bytes behind it. *)
Inductive parsed (M : Type) := Bad | CutOff | Got (m : M) (rest : bytes).
Arguments Bad {M}.
Arguments CutOff {M}.
Arguments Got {M} m rest.

Section Message.
Context {M : Type} `{HM : ProtoMessage M}.

Definition parse_message (s : bytes) : parsed M :=
  if zlen s <? 8 then CutOff
  else
    let n := to_int64 (Uint64_le (ztake 8 s)) in
    if (n <? 0) || (MaxMessageSize <? n) then Bad
    else if zlen s <? 8 + n then CutOff
    else match proto_Unmarshal (ztake n (zdrop 8 s)) with
         | inl m => Got m (zdrop (8 + n) s)
         | inr _ => Bad
         end.

(** The runtime's own failure to encode is not one of this module's. *)
Definition runtime_errors : Prop := forall (m : M) e, proto_Marshal m = inr e -> outside e.

Lemma read_message_parsed r :
  outside (r_err r) ->
  match parse_message (stream r) with
  | Got m rest => exists r', read_message r = (inl m, r') /\ stream r' = rest /\ r_err r' = r_err r
  | Bad => exists e r', read_message r = (inr e, r') /\
      errors_Is e ErrTooLarge || errors_Is e ErrMalformed = true
  | CutOff => exists e r', read_message r = (inr e, r') /\ outside e
  end.
Proof.
  intros Ho. destruct (ReadMessage_refines r) as (allocs & r' & Heq & _ & Hrest).
  unfold read_message, parse_message. rewrite Heq. unfold message_outcome, message_consumed in *.
  pose proof (zlen_nonneg (stream r)).
  destruct (Z.ltb_spec (zlen (stream r)) 8) as [Hs|Hs].
  { destruct (Z.eqb_spec (zlen (stream r)) 0).
    - destruct (errors_Is (r_err r) io_EOF) eqn:He; do 2 eexists; (split; [done|]); apply outside_wrap;
        [|by apply outside_cut]. intros t Ht.
      repeat (apply elem_of_cons in Ht as [->|Ht]; [done|]). by apply elem_of_nil in Ht.
    - do 2 eexists. split; [done|]. by apply outside_wrap, outside_cut. }
  destruct (Z.eqb_spec (zlen (stream r)) 0); [lia|].
  generalize dependent (to_int64 (Uint64_le (ztake 8 (stream r)))). intros k Heq Hrest.
  destruct ((k <? 0) || (MaxMessageSize <? k)); [by do 2 eexists|].
  destruct (Z.ltb_spec (zlen (stream r) - 8) k), (Z.ltb_spec (zlen (stream r)) (8 + k)); try lia.
  { do 2 eexists. split; [done|]. by apply outside_wrap, outside_cut. }
  destruct (proto_Unmarshal _) as [m|e] eqn:Hm.
  - destruct (Hrest m eq_refl) as [K1 K2]. by exists r'.
  - do 2 eexists. split; [done|]. rewrite !errors_Is_wrap2. cbn. by rewrite orb_true_r.
Qed.

(** Whether this side's own message is too large to be written. *)
Definition oversized (m : M) : bool := MaxMessageSize <? proto_Size m.

Lemma WriteMessage_class w m e w' :
  runtime_errors -> outside_writer w -> WriteMessage w m = (e, w') ->
  (e = None -> oversized m = false /\ outside_writer w') /\
  (forall err, e = Some err ->
     if oversized m then exists f, err = Errorf f [Sentinel ErrTooLarge] else outside err).
Proof.
  intros Hrt Hw. unfold WriteMessage, oversized.
  destruct (MaxMessageSize <? proto_Size m) eqn:Hsz; [by intros [= <- <-]; split; [|intros err [= <-]; eexists]|].
  destruct (proto_Marshal m) as [enc|err0] eqn:Hm.
  2: { intros [= <- <-]. split; [done|]. intros err [= <-]. by eapply outside_wrap, Hrt. }
  rewrite <- (proto_Size_exact _ _ Hm), Hsz. unfold writeChecked, Write.
  destruct w as [calls [|[n oe] script]]; cbn [w_script w_calls].
  { rewrite Nat.eqb_refl. intros [= <- <-]. split; [|done]. split; [done|constructor]. }
  apply Forall_cons in Hw as [He Hs]. destruct oe as [err1|].
  { intros [= <- <-]. split; [done|]. intros err [= <-]. by apply outside_wrap, He. }
  destruct (Nat.eqb _ _); intros [= <- <-]; (split; [|done || intros err [= <-]]); try done.
  apply outside_wrap, outside_short.
Qed.
End Message.

(** ** The verdict *)

Section Verdict.
Context `{HB : SecretBox} {PSeq : ProtoMessage SequenceHeader} {PCat : ProtoMessage CatchupBuffer}
  {PReq : ProtoMessage ConnectRequest} {PResp : ProtoMessage ConnectResponse}.

(** Whether the peer's position can be replayed: it must lie in the ring, and
    the catchup from it must fit in one message. *)
Definition replay_verdict (peer : SequenceHeader) (c : Conn) : option sentinel :=
  match since (o_ring (c_out c)) (GetSequenceNumber peer) (ring_next (o_ring (c_out c))) with
  | Some (Some ours) => if oversized (SetCatchup ours CatchupBuffer_zero) then Some ErrReplayExceeded else None
  | _ => Some ErrReplayExceeded
  end.

(** This side's half; [got] is the peer's position once it was read. *)
Definition writer_verdict (w : writer) (got : option SequenceHeader) (c : Conn) : option sentinel :=
  let mine := SetSequenceNumber (to_int32 (i_recvSeq (c_in c))) SequenceHeader_zero in
  if MaxInt32 <? i_recvSeq (c_in c) then Some ErrReplayExceeded
  else if oversized mine then Some ErrIntegrity
  else match WriteMessage w mine, got with
       | (None, _), Some peer => replay_verdict peer c
       | _, _ => None
       end.

(** The exchange: a bad message of the peer counts before anything else. *)
Definition recover_verdict (s : bytes) (w : writer) (c : Conn) : option sentinel :=
  match parse_message (M := SequenceHeader) s with
  | Bad => Some ErrIntegrity
  | CutOff => writer_verdict w None c
  | Got peer s =>
      match parse_message (M := CatchupBuffer) s with
      | Bad => Some ErrIntegrity
      | _ => writer_verdict w (Some peer) c
      end
  end.

Definition handshake_verdict (first : bool) (s : bytes) (w : writer) (c : Conn) : option sentinel :=
  let req := SetVersion Version (SetClientId (c_id c) ConnectRequest_zero) in
  if oversized req then Some ErrIntegrity
  else match WriteMessage w req with
  | (Some _, _) => None
  | (None, w) =>
      match parse_message (M := ConnectResponse) s with
      | Bad => Some ErrIntegrity
      | CutOff => None
      | Got resp s =>
          if GetStatus resp =? RETURNING_CLIENT then recover_verdict s w c
          else rejection first (GetStatus resp)
      end
  end.

Definition connect_verdict (first : bool) (env : connect_env) : option sentinel :=
  match cn_dial env with
  | inr _ => None
  | inl (r, w) => handshake_verdict first (stream r) w (cn_at_snapshot env)
  end.

(** Everything that reports an error to [connect] is outside the module. *)
Record outside_env (env : connect_env) : Prop := {
  oe_dial : match cn_dial env with inr e => outside e | inl (r, w) => outside (r_err r) /\ outside_writer w end;
  oe_stop : outside (cn_ctx_stop env);
  oe_deadline : forall e, cn_deadline env = Some e -> outside e
}.

(** The cause of the context, where [connect] asks for it. *)
Definition connect_cause (env : connect_env) : option gerr :=
  match cn_dial env with inr _ => cn_ctx_dial env | inl _ => cn_ctx_end env end.

(** What a verdict says of the error of a handshake. *)
Definition follows (v : option sentinel) (err : gerr) : Prop :=
  match v with
  | Some ErrIntegrity => errors_Is err ErrTooLarge || errors_Is err ErrMalformed = true
  | Some t => errors_Is err t = true /\ isFatal err = true /\
      errors_Is err ErrTooLarge || errors_Is err ErrMalformed = false
  | None => outside err
  end.

Hypothesis runtime_req : runtime_errors (M := ConnectRequest).
Hypothesis runtime_seq : runtime_errors (M := SequenceHeader).
Hypothesis runtime_cat : runtime_errors (M := CatchupBuffer).

(** What [readerErrWins] asks of the writer's error when the reader met no bad
    message. *)
Definition closed_conn (err : gerr) : bool := errors_Is err net_ErrClosed || errors_Is err io_ErrClosedPipe.

Lemma readerErrWins_bad err rerr :
  errors_Is rerr ErrTooLarge || errors_Is rerr ErrMalformed = true -> readerErrWins err rerr = true.
Proof. unfold readerErrWins. by intros ->. Qed.

Lemma readerErrWins_outside err rerr : outside rerr -> readerErrWins err rerr = closed_conn err.
Proof. intros Ho. unfold readerErrWins. by rewrite (outside_bad _ Ho). Qed.

Lemma since_no_panic r from : since r from (ring_next r) <> None.
Proof.
  unfold since, appendRange, slice, ring_next. rewrite !Z.gtb_ltb.
  repeat match goal with |- context[(?a <? ?b)%Z] => destruct (Z.ltb_spec a b); cbn [orb]; try done end.
  pose proof (zlen_nonneg (r_entries r)).
  repeat match goal with |- context[(?a <=? ?b)%Z] => destruct (Z.leb_spec a b); cbn [andb]; try lia end. done.
Qed.

Lemma writeRecover_no_panic recvSeq w gotSeq peer r res w' :
  writeRecover recvSeq w gotSeq peer r = (res, w') -> res <> Panic /\ res <> OutOfFuel.
Proof.
  unfold writeRecover. pose proof (since_no_panic r (GetSequenceNumber peer)) as Hs.
  repeat case_match; intros [= <- <-]; done.
Qed.

(** The writer's half, when the peer sent no bad message. *)
Lemma writeRecover_class c w gotSeq peer res w' :
  outside_writer w -> (forall e, gotSeq = Some e -> outside e) ->
  writeRecover (i_recvSeq (c_in c)) w gotSeq peer (o_ring (c_out c)) = (res, w') ->
  let v := writer_verdict w (match gotSeq with None => Some peer | Some _ => None end) c in
  match res with
  | Err err => follows v err /\ (v <> None -> closed_conn err = false)
  | Ok _ => v = None
  | Panic | OutOfFuel => False
  end.
Proof.
  intros Hw Hg. unfold writeRecover, writer_verdict. cbv zeta.
  destruct (MaxInt32 <? i_recvSeq (c_in c)); [by intros [= <- <-]|].
  destruct (WriteMessage w _) as [[e|] w1] eqn:Hm;
    destruct (WriteMessage_class _ _ _ _ runtime_seq Hw Hm) as [Hok Herr].
  { intros [= <- <-]. specialize (Herr e eq_refl). destruct (oversized _); [by destruct Herr as [f ->]|].
    split; [by apply outside_wrap|done]. }
  destruct (Hok eq_refl) as [-> Hw1]. destruct gotSeq as [e|].
  { intros [= <- <-]. split; [by apply outside_wrap, Hg|done]. }
  pose proof (since_no_panic (o_ring (c_out c)) (GetSequenceNumber peer)) as Hnp. unfold replay_verdict.
  destruct (since _ _ _) as [[ours|]|]; [|by intros [= <- <-]|done].
  rewrite Z.gtb_ltb. change (maxCatchupSize <? proto_Size (SetCatchup ours CatchupBuffer_zero)) with (oversized (SetCatchup ours CatchupBuffer_zero)).
  destruct (oversized (SetCatchup _ _)) eqn:Hov; [by intros [= <- <-]|].
  destruct (WriteMessage w1 _) as [[e|] w2] eqn:Hc; intros [= <- <-]; [|done].
  destruct (WriteMessage_class _ _ _ _ runtime_cat Hw1 Hc) as [_ Herr2].
  specialize (Herr2 e eq_refl). rewrite Hov in Herr2.
  split; [by apply outside_wrap|done].
Qed.
(** A bad message decides, whatever the writer met. *)
Lemma follows_bad e : errors_Is e ErrTooLarge || errors_Is e ErrMalformed = true ->
  follows (Some ErrIntegrity) (Errorf "etcp: read recover message: %w" [e]).
Proof. cbn. by rewrite !orb_false_r. Qed.

(** The end of [recover], from what its two halves report. *)
Definition settle (rr : recover_read) (wr : res Z) (c : Conn) : res (list bytes) :=
  let read_err rerr := Err (Errorf "etcp: read recover message: %w" [rerr]) in
  match wr, rr_gotAll rr with
  | Panic, _ => Panic
  | OutOfFuel, _ => OutOfFuel
  | Err err, Some rerr => if readerErrWins err rerr then read_err rerr else Err err
  | Err err, None => Err err
  | Ok _, Some rerr => read_err rerr
  | Ok snap, None => match recover_commit snap (GetSequenceNumber (rr_peer rr)) c with
                     | Some _ => Ok (GetCatchup (rr_theirs rr))
                     | None => Panic
                     end
  end.

Definition result_follows (v : option sentinel) (x : res (list bytes)) : Prop :=
  match x with Err err => follows v err | Ok _ | Panic | OutOfFuel => v = None end.

Lemma recover_settle r w c1 c2 x c' w' :
  recover r w c1 c2 = (x, c', w') ->
  let rr := recover_reader r in
  exists wr, writeRecover (i_recvSeq (c_in c1)) w (rr_gotSeq rr) (rr_peer rr) (o_ring (c_out c1)) = (wr, w') /\
    x = settle rr wr c2.
Proof.
  unfold recover, settle. destruct (writeRecover _ _ _ _ _) as [wr w2]. intros H. exists wr.
  destruct wr, (rr_gotAll (recover_reader r)); repeat case_match; by injection H as <- _ <-.
Qed.

(** The writer's verdict stands when the reader met no bad message. *)
Lemma settle_good rr c w wr w' c2 :
  outside_writer w -> (forall e, rr_gotSeq rr = Some e -> outside e) -> (forall e, rr_gotAll rr = Some e -> outside e) ->
  writeRecover (i_recvSeq (c_in c)) w (rr_gotSeq rr) (rr_peer rr) (o_ring (c_out c)) = (wr, w') ->
  result_follows (writer_verdict w (match rr_gotSeq rr with None => Some (rr_peer rr) | Some _ => None end) c)
    (settle rr wr c2).
Proof.
  intros Hw Hgs Hga Hwr. pose proof (writeRecover_class _ _ _ _ _ _ Hw Hgs Hwr) as Hcl. cbv zeta in Hcl.
  unfold settle, result_follows. destruct wr as [snap|err| |]; [| |done..].
  - rewrite Hcl. destruct (rr_gotAll rr) as [e|]; [by apply outside_wrap, Hga|].
    by destruct (recover_commit _ _ _).
  - destruct Hcl as [Hf Hv]. destruct (rr_gotAll rr) as [e|]; [|done].
    rewrite readerErrWins_outside by by apply Hga. destruct (closed_conn err) eqn:Hc; [|done].
    destruct (writer_verdict _ _ _); [by specialize (Hv ltac:(done))|]. by apply outside_wrap, Hga.
Qed.

Lemma settle_bad rr c w wr w' c2 e :
  rr_gotAll rr = Some e -> errors_Is e ErrTooLarge || errors_Is e ErrMalformed = true ->
  writeRecover (i_recvSeq (c_in c)) w (rr_gotSeq rr) (rr_peer rr) (o_ring (c_out c)) = (wr, w') ->
  result_follows (Some ErrIntegrity) (settle rr wr c2).
Proof.
  intros Hga He Hwr. destruct (writeRecover_no_panic _ _ _ _ _ _ _ Hwr) as [N1 N2].
  unfold settle, result_follows. rewrite Hga. destruct wr as [snap|err| |]; [| |done..];
    rewrite ?readerErrWins_bad by done; by apply follows_bad.
Qed.

(** The whole exchange. *)
Lemma recover_class r w c1 c2 x c' w' :
  outside (r_err r) -> outside_writer w -> recover r w c1 c2 = (x, c', w') ->
  result_follows (recover_verdict (stream r) w c1) x.
Proof.
  intros Hr Hw (wr & Hwr & ->)%recover_settle. unfold recover_verdict.
  pose proof (read_message_parsed (M := SequenceHeader) r Hr) as Hp. unfold recover_reader in *.
  destruct (parse_message (stream r)) as [| |peer rest].
  - destruct Hp as (e & r1 & Heq & He). rewrite Heq in *. by eapply settle_bad.
  - destruct Hp as (e & r1 & Heq & He). rewrite Heq in *.
    apply (settle_good (MkRecoverRead SequenceHeader_zero CatchupBuffer_zero (Some e) (Some e)) _ _ _ w');
      try done; by intros ? [= <-].
  - destruct Hp as (r1 & Heq & <- & Hr1). rewrite Heq in *.
    pose proof (read_message_parsed (M := CatchupBuffer) r1 ltac:(by rewrite Hr1)) as Hp.
    destruct (parse_message (stream r1)) as [| |theirs rest].
    + destruct Hp as (e & r2 & Heq2 & He). rewrite Heq2 in *. by eapply settle_bad.
    + destruct Hp as (e & r2 & Heq2 & He). rewrite Heq2 in *.
      apply (settle_good (MkRecoverRead peer CatchupBuffer_zero None (Some e)) _ _ _ w'); try done; by intros ? [= <-].
    + destruct Hp as (r2 & Heq2 & _ & _). rewrite Heq2 in *.
      by apply (settle_good (MkRecoverRead peer theirs None None) _ _ _ w').
Qed.
Lemma handshake_class first r w c1 c2 x c' w' :
  outside (r_err r) -> outside_writer w -> handshake first r w c1 c2 = (x, c', w') ->
  result_follows (handshake_verdict first (stream r) w c1) x.
Proof.
  intros Hr Hw. unfold handshake, handshake_verdict.
  destruct (WriteMessage w _) as [[e|] w1] eqn:Hm;
    destruct (WriteMessage_class _ _ _ _ runtime_req Hw Hm) as [Hok Herr].
  { specialize (Herr e eq_refl). intros [= <- _ _]. unfold result_follows.
    destruct (oversized _); [by destruct Herr as [f ->]|by apply outside_wrap]. }
  destruct (Hok eq_refl) as [-> Hw1]. pose proof (read_message_parsed (M := ConnectResponse) r Hr) as Hp.
  destruct (parse_message (stream r)) as [| |resp rest].
  - destruct Hp as (e & r1 & -> & He). intros [= <- _ _]. cbn. by rewrite !orb_false_r.
  - destruct Hp as (e & r1 & -> & He). intros [= <- _ _]. by apply outside_wrap.
  - destruct Hp as (r1 & -> & <- & Hr1). unfold rejection.
    destruct (Z.eqb_spec (GetStatus resp) NEW_CLIENT) as [->|]; [by destruct first; intros [= <- _ _]|].
    destruct (GetStatus resp =? RETURNING_CLIENT); [intros H; eapply recover_class; [by rewrite Hr1|done|exact H]|].
    repeat case_match; by intros [= <- _ _].
Qed.

(** What [connect] makes of the error of a handshake. *)
Lemma failed_class env err v :
  follows v err ->
  let err' := if errors_Is err ErrTooLarge || errors_Is err ErrMalformed
              then Errorf "%w: %w" [Sentinel ErrIntegrity; err] else err in
  let x := match cn_ctx_end env with
           | Some cause => if negb (isFatal err') then Errorf "etcp: connect: %w" [cause] else err'
           | None => err'
           end in
  match v with
  | Some t => errors_Is x t = true /\ isFatal x = true
  | None => match cn_ctx_end env with
            | Some cause => forall t, errors_Is x t = errors_Is cause t
            | None => isFatal x = false
            end
  end.
Proof.
  cbv zeta. destruct v as [t|]; cbn [follows].
  - intros Hf. assert (exists e', (if errors_Is err ErrTooLarge || errors_Is err ErrMalformed
      then Errorf "%w: %w" [Sentinel ErrIntegrity; err] else err) = e' /\ errors_Is e' t = true /\ isFatal e' = true)
      as (e' & -> & He & Hfat).
    { destruct (errors_Is err ErrTooLarge || errors_Is err ErrMalformed) eqn:Hb.
      - eexists. split; [done|]. destruct t; try (by destruct Hf as (_ & _ & ?)).
        unfold isFatal. cbn [existsb]. rewrite !errors_Is_wrap2. cbn. by rewrite !orb_true_r.
      - eexists. split; [done|]. destruct t; try (by destruct Hf as (? & ? & _)); done. }
    rewrite Hfat. by destruct (cn_ctx_end env).
  - intros Ho. rewrite (outside_bad _ Ho), (outside_fatal _ Ho). cbn [negb].
    destruct (cn_ctx_end env); [intros t; apply errors_Is_wrap1|by apply outside_fatal].
Qed.

(** The class of the error of one [connect]. *)
Definition classified (first : bool) (env : connect_env) : Prop :=
  match connect_verdict first env with
  | Some t => exists e, fst (connect first env) = Err e /\ errors_Is e t = true /\ isFatal e = true
  | None => forall e, fst (connect first env) = Err e ->
      match connect_cause env with
      | Some cause => forall t, errors_Is e t = errors_Is cause t
      | None => isFatal e = false
      end
  end.

Lemma connect_classified first env : outside_env env -> classified first env.
Proof.
  intros [Hd Hstop Hdl]. unfold classified, connect_verdict, connect_cause, connect.
  destruct (cn_dial env) as [[r w]|err].
  2: { intros e [= <-]. destruct (cn_ctx_dial env); [intros t; apply errors_Is_wrap1|].
       by apply outside_fatal, outside_wrap. }
  destruct Hd as [Hr Hw]. destruct (handshake _ _ _ _ _) as [[x c] w'] eqn:Hh.
  apply handshake_class in Hh; [|done..]. destruct x as [catchup|err| |]; cbn [result_follows] in Hh.
  - rewrite Hh. intros e. pose proof (failed_class env (cn_ctx_stop env) None Hstop) as Hs. cbv zeta in Hs.
    destruct (cn_stopped env); cbn [negb].
    + destruct (cn_deadline env) as [err|] eqn:He; [|done].
      pose proof (failed_class env err None (Hdl _ eq_refl)) as Hx. cbv zeta in Hx.
      repeat case_match; by intros [= <-].
    + repeat case_match; by intros [= <-].
  - pose proof (failed_class env err _ Hh) as Hx. cbv zeta in Hx.
    destruct (handshake_verdict first (stream r) w (cn_at_snapshot env)) as [t|].
    + repeat case_match; by eexists.
    + intros e. repeat case_match; by intros [= <-].
  - rewrite Hh. done.
  - rewrite Hh. done.
Qed.

(** What [reconnect] does after an attempt that failed while the Conn lived. *)
Lemma reconnect_follows fused b a rest e c :
  outside_env (at_connect a) -> connect_cause (at_connect a) = None -> at_ctx a = None -> at_timer a = None ->
  connect false (at_connect a) = (Err e, c) ->
  let b' := fst (backoff_next fused b (at_jitter a)) in
  reconnect fused b (a :: rest) =
    match connect_verdict false (at_connect a) with
    | Some _ => GaveUp b' (Some c) e
    | None => reconnect fused b' rest
    end.
Proof.
  intros Ho Hc Hx Ht He. pose proof (connect_classified false _ Ho) as Hcl. unfold classified in Hcl.
  cbn [reconnect]. destruct (backoff_next _ _ _) as [b' d]. rewrite Ht, He, Hx, Hc in *.
  assert ((if d >? 0 then @None gerr else None) = None) as -> by by destruct (d >? 0).
  cbn [fst] in *. destruct (connect_verdict _ _) as [t|].
  - destruct Hcl as (e' & [= <-] & _ & ->). done.
  - by rewrite (Hcl e eq_refl).
Qed.

(** [C16] Which failures of a connect end the Conn and which are retried.
    [connect_verdict] looks only at the bytes of the peer, this side's ring
    and counts and how the Writes went.  When it finds an answer no redial can
    change (a rejection, a version mismatch, the end of the session, a
    position or catchup that cannot be replayed, or an oversized or malformed
    message), [connect] returns that error, it is fatal, and it is kept even
    if the context ended meanwhile.  Any other failure (of the dial, of the
    network in the middle of the handshake, of the deadline) is not fatal, or
    is the cause of the context once that ended.  So while the Conn lives
    [reconnect] gives up exactly after the first kind and tries again exactly
    after the second.  The errors of the network and of the protobuf runtime
    are assumed to wrap none of this module's sentinels. *)
Theorem connect_error_class first env :
  outside_env env ->
  match connect_verdict first env with
  | Some t => exists e, fst (connect first env) = Err e /\ errors_Is e t = true /\ isFatal e = true
  | None => forall e, fst (connect first env) = Err e ->
      match connect_cause env with
      | Some cause => forall t, errors_Is e t = errors_Is cause t
      | None => isFatal e = false
      end
  end /\
  (forall fused b a rest e c, at_connect a = env -> connect_cause env = None ->
     at_ctx a = None -> at_timer a = None -> connect false env = (Err e, c) ->
     let b' := fst (backoff_next fused b (at_jitter a)) in
     reconnect fused b (a :: rest) =
       match connect_verdict false env with
       | Some _ => GaveUp b' (Some c) e
       | None => reconnect fused b' rest
       end).
Proof.
  intros Ho. split; [by apply connect_classified|].
  intros fused b a rest e c <- Hc Hx Ht He. by apply reconnect_follows.
Qed.
End Verdict.

(** ** Witness *)

#[local] Existing Instances toy_box seq_codec catchup_codec req_codec resp_codec.

(** The peer answers RETURNING_CLIENT and claims to have received a packet
    that was never sent. *)
Definition ahead_env : connect_env :=
  MkConnectEnv (inl (Reader [sent_message (MkConnectResponse (Some RETURNING_CLIENT) None);
                             sent_message (MkSequenceHeader (Some 7))] true (Foreign 3), Writer [] []))
    None example_conn example_conn true (Foreign 9) None None.

Lemma connect_error_class_witness :
  connect_verdict false ahead_env = Some ErrReplayExceeded /\
  exists e, fst (connect false ahead_env) = Err e /\ errors_Is e ErrReplayExceeded = true /\ isFatal e = true.
Proof.
  assert (outside_env ahead_env) as Ho.
  { split; [split; [done|constructor]|done|done]. }
  assert (runtime_errors (M := ConnectRequest) /\ runtime_errors (M := SequenceHeader) /\
    runtime_errors (M := CatchupBuffer)) as (R1 & R2 & R3).
  { split_and!; intros m e; cbn; unfold req_marshal, pair_marshal, seq_marshal, catchup_marshal;
      repeat (case_match; simplify_eq); intros; by simplify_eq. }
  pose proof (proj1 (connect_error_class R1 R2 R3 false ahead_env Ho)) as H.
  assert (connect_verdict false ahead_env = Some ErrReplayExceeded) as Hv by (vm_compute; reflexivity).
  rewrite Hv in H. exact (conj Hv H).
Defined.
