(* ===== verification/Server.v ===== *)
(** * internal/etservertest: the fake etserver and its network

    An independent implementation of the peer, from upstream's semantics: it
    keeps every sealed packet it ever sent and replays any suffix of them.
    [Serve] is split at its blocking points into [admit], [takeOver], the
    steps of [recover], and the bodies of the two stream loops; [EndToEnd]
    runs them against the client.  [take] and [pipeEnd_Write] are the
    network's fault injection. *)

From S2P Require Export Recover.
Local Open Scope Z_scope.

Record Server := MkServer {
  s_id : bytes;
  s_registered : bool;
  s_known : bool;
  s_echo : bool;
  s_out : state;
  s_sent : list bytes;
  s_in : state;
  s_recvSeq : Z;
  s_queue : list Packet;
  s_notify : bool;
  s_wake : bool
}.

(** [NewServer] panics on a passkey that is not 32 bytes. *)
Definition NewServer (id passkey : bytes) : res Server :=
  if negb (zlen passkey =? 32) then Panic
  else match New (Some passkey) ServerToClient, New (Some passkey) ClientToServer with
       | Ok out, Ok inn => Ok (MkServer id true false true out [] inn 0 [] false false)
       | _, _ => Panic
       end.

(** [admit]: the status of a connect request; the error text is not modelled. *)
Definition admit_req (s : Server) (clientId : bytes) (version : Z) : Server * ConnectStatus :=
  if negb (version =? Version) then (s, MISMATCHED_PROTOCOL)
  else if negb (bool_decide (clientId = s_id s)) || negb (s_registered s) then (s, INVALID_KEY)
  else if negb (s_known s) then
    (MkServer (s_id s) (s_registered s) true (s_echo s) (s_out s) (s_sent s) (s_in s) (s_recvSeq s)
       (s_queue s) (s_notify s) (s_wake s), NEW_CLIENT)
  else (s, RETURNING_CLIENT).

Section Server.
Context `{HB : SecretBox}.

Definition server_enqueueLocked (p : Packet) (s : Server) : Server :=
  let '(out, sealed) := Seal (s_out s) [] (p_Payload p) in
  MkServer (s_id s) (s_registered s) (s_known s) (s_echo s) out
    (s_sent s ++ [append_packet [] true (p_Header p) sealed]) (s_in s) (s_recvSeq s) (s_queue s)
    (s_notify s) (s_wake s).

Definition server_signal (notify wake : bool) (s : Server) : Server :=
  MkServer (s_id s) (s_registered s) (s_known s) (s_echo s) (s_out s) (s_sent s) (s_in s)
    (s_recvSeq s) (s_queue s) (s_notify s || notify) (s_wake s || wake).

Definition set_server_in (inn : state) (n : Z) (queue : list Packet) (s : Server) : Server :=
  MkServer (s_id s) (s_registered s) (s_known s) (s_echo s) (s_out s) (s_sent s) inn n queue
    (s_notify s) (s_wake s).

(** [accept]: open one sealed packet, count and queue it, and echo a keepalive. *)
Definition accept (b : bytes) (s : Server) : Server * option gerr :=
  match ParsePacket b with
  | Ok (encrypted, h, payload) =>
      if negb encrypted then (s, Some (Errorf "etservertest: unencrypted packet" []))
      else
        let '(inn, plain) := Open (s_in s) [] payload in
        match plain with
        | Ok plain =>
            let s := set_server_in inn (s_recvSeq s + 1) (s_queue s ++ [MkPacket h plain]) s in
            let s := server_signal true false s in
            (if bool_decide (h = HeaderKeepAlive) && s_echo s
             then server_signal false true (server_enqueueLocked (MkPacket HeaderKeepAlive []) s)
             else s, None)
        | Err e => (set_server_in inn (s_recvSeq s) (s_queue s) s, Some (Errorf "etservertest: %w" [e]))
        | Panic | OutOfFuel => (s, Some (Foreign 0))
        end
  | Err e => (s, Some (Errorf "etservertest: %w" [e]))
  | Panic | OutOfFuel => (s, Some (Foreign 0))
  end.

(** The answer of [recover] to the client's position: the catchup and the
    sequence number the link's writer starts from. *)
Definition recover_catchup (from : Z) (s : Server) : option (list bytes * Z) :=
  if (from <? 0) || (from >? zlen (s_sent s)) then None
  else Some (zdrop from (s_sent s), zlen (s_sent s)).

(** What the writer's next pass has to send. *)
Definition server_pending (flushed : Z) (s : Server) : option (list bytes) :=
  slice (s_sent s) flushed (zlen (s_sent s)).

(** One turn of [writeLoop]: it wrote what was pending, waits for [wake] or its
    context, or returns. *)
Inductive write_turn :=
| TurnWrote (flushed : Z) (w : writer)
| TurnWait
| TurnEnded (err : gerr) (w : writer)
| TurnPanics.

Fixpoint write_frames (fs : list bytes) (w : writer) : option gerr * writer :=
  match fs with
  | [] => (None, w)
  | f :: fs =>
      match WriteFrame w f with
      | (Some e, w) => (Some (Errorf "etservertest: write: %w" [e]), w)
      | (None, w) => write_frames fs w
      end
  end.

Definition server_writeLoop (flushed : Z) (w : writer) (s : Server) : write_turn :=
  match server_pending flushed s with
  | None => TurnPanics
  | Some [] => if s_registered s then TurnWait else TurnEnded (Errorf "etservertest: session ended" []) w
  | Some pending =>
      match write_frames pending w with
      | (Some e, w) => TurnEnded e w
      | (None, w) => TurnWrote (flushed + zlen pending) w
      end
  end.

(** [Recv]; [None] when it would block, [ctx] is the cause of an ended context. *)
Definition Recv (ctx : option gerr) (s : Server) : option (Server * (Packet + gerr)) :=
  match s_queue s with
  | [] => match ctx with Some cause => Some (s, inr cause) | None => None end
  | p :: q => Some (set_server_in (s_in s) (s_recvSeq s) q s, inl p)
  end.

Definition Send (ctx : option gerr) (p : Packet) (s : Server) : Server * option gerr :=
  match ctx with
  | Some cause => (s, Some cause)
  | None => (server_signal false true (server_enqueueLocked p s), None)
  end.
End Server.

Definition EndSession (s : Server) : Server :=
  server_signal false true
    (MkServer (s_id s) false (s_known s) (s_echo s) (s_out s) (s_sent s) (s_in s) (s_recvSeq s)
       (s_queue s) (s_notify s) (s_wake s)).

Definition EchoKeepAlive (on : bool) (s : Server) : Server :=
  MkServer (s_id s) (s_registered s) (s_known s) on (s_out s) (s_sent s) (s_in s) (s_recvSeq s)
    (s_queue s) (s_notify s) (s_wake s).

(** ** The network's byte budget *)

(** [pair.take]: a negative budget is unlimited. *)
Definition take_budget (remaining n : Z) : Z * Z * bool :=
  if remaining <? 0 then (remaining, n, false)
  else
    let allowed := Z.min n remaining in
    (remaining - allowed, allowed, remaining - allowed =? 0).

(** [pipeEnd.Write], over what the pipe's own Write reports for the bytes
    allowed; the last component says whether the pair is cut. *)
Definition pipeEnd_Write (remaining : Z) (b : bytes) (pipe : bytes -> Z * option gerr)
  : Z * (Z * option gerr) * bool :=
  let '(remaining, allowed, cut) := take_budget remaining (zlen b) in
  let '(n, err) := pipe (ztake allowed b) in
  let err := match err with
             | None => if cut && (n <? zlen b) then Some (Sentinel io_ErrClosedPipe) else None
             | Some e => Some e
             end in
  (remaining, (n, err), cut).

(** ** Facts *)

Section ServerFacts.
Context `{HB : SecretBox}.

(** The server's side of the two logs: it received [ps] so far and sent [qs]. *)
Definition server_ok (key : bytes) (ps qs : list Packet) (s : Server) : Prop :=
  s_in s = state_at key ClientToServer (s_recvSeq s) /\ s_recvSeq s = zlen ps /\
  s_out s = state_at key ServerToClient (zlen qs) /\
  s_sent s = sealed_log key ServerToClient qs.

Lemma server_enqueueLocked_ok key ps qs s p :
  server_ok key ps qs s -> zlen qs + 1 < 2 ^ 184 ->
  server_ok key ps (qs ++ [p]) (server_enqueueLocked p s).
Proof.
  intros (Hi & Hr & Ho & Hs) Hsz. unfold server_enqueueLocked, Seal. rewrite Ho.
  pose proof (zlen_nonneg qs). rewrite step_state_at by lia.
  split_and!; cbn [s_in s_recvSeq s_out s_sent]; try done.
  - by rewrite zlen_app.
  - rewrite Hs, sealed_log_snoc. done.
Qed.

Lemma server_signal_ok key ps qs a b s :
  server_ok key ps qs s -> server_ok key ps qs (server_signal a b s).
Proof. done. Qed.

Lemma writeChecked_calls w b w' : writeChecked w b = (None, w') -> w_calls w' = w_calls w ++ [b].
Proof.
  unfold writeChecked, Write. destruct w as [calls [|[n [e|]] script]]; [| |]; cbn -[Nat.eqb]; try done;
    destruct (Nat.eqb _ _); intros [=]; by subst.
Qed.

Lemma WriteFrame_calls w f w' : WriteFrame w f = (None, w') -> w_calls w' = w_calls w ++ [frame_bytes f].
Proof.
  unfold WriteFrame, frame_bytes. destruct (MaxFrameSize <? zlen f); [done|].
  destruct (AppendFrame [] f) as [buf [e|]]; [done|].
  destruct (writeChecked w buf) as [[e|] w1] eqn:Hw; [done|]. intros [= <-]. by apply writeChecked_calls.
Qed.

Lemma write_frames_ok fs w w' :
  write_frames fs w = (None, w') -> w_calls w' = w_calls w ++ map frame_bytes fs.
Proof.
  revert w. induction fs as [|f fs IH]; intros w; cbn [write_frames].
  - intros [= <-]. by rewrite app_nil_r.
  - destruct (WriteFrame w f) as [[e|] w1] eqn:Hw; [done|]. intros H.
    rewrite (IH _ H), (WriteFrame_calls _ _ _ Hw), <- app_assoc. done.
Qed.

(** A turn that wrote sent every packet from [flushed] on, framed, one Write
    each, and nothing else. *)
Lemma server_writeLoop_wrote flushed w s flushed' w' :
  server_writeLoop flushed w s = TurnWrote flushed' w' ->
  flushed' = zlen (s_sent s) /\ flushed < flushed' /\
  w_calls w' = w_calls w ++ map frame_bytes (zdrop flushed (s_sent s)).
Proof.
  unfold server_writeLoop, server_pending, slice. destruct (_ && _) eqn:Hb; [|done].
  apply andb_true_iff in Hb as [Hb _]. apply andb_true_iff in Hb as [H0%Z.leb_le Hf%Z.leb_le].
  rewrite ztake_ge by (rewrite zlen_zdrop; lia).
  destruct (zdrop flushed (s_sent s)) as [|f fs] eqn:Hd; [by destruct (s_registered s)|].
  destruct (write_frames _ _) as [[e|] w1] eqn:Hw; [done|]. intros [= <- <-].
  apply write_frames_ok in Hw. rewrite <- Hd in *. rewrite zlen_zdrop.
  assert (0 < zlen (zdrop flushed (s_sent s))) as Hp by (rewrite Hd; cbn; unfold zlen; cbn; lia).
  rewrite zlen_zdrop in Hp. split_and!; [lia|lia|done].
Qed.

(** A packet sealed for the server's next position is accepted, queued and
    counted; a keepalive adds its echo to what the server sends. *)
Lemma accept_sealed key ps qs s p :
  server_ok key ps qs s -> zlen ps + 1 < 2 ^ 184 -> zlen qs + 1 < 2 ^ 184 ->
  exists s' qs', accept (sealed_at key ClientToServer (zlen ps) p) s = (s', None) /\
    server_ok key (ps ++ [p]) (qs ++ qs') s' /\ s_queue s' = s_queue s ++ [p] /\
    s_known s' = s_known s /\ s_registered s' = s_registered s /\ s_id s' = s_id s /\
    (qs' = [] \/ qs' = [MkPacket HeaderKeepAlive []]).
Proof.
  intros Hok Hp Hq. pose proof (zlen_nonneg ps). unfold accept, sealed_at.
  rewrite ParsePacket_append. cbn [negb]. unfold Open. pose proof Hok as (Hi & Hr & Ho & Hs).
  rewrite Hi, Hr, step_state_at by lia. cbn [state_at st_key st_nonce].
  rewrite secretbox_open_seal. cbn [app].
  set (s1 := server_signal true false (set_server_in _ _ _ s)).
  assert (server_ok key (ps ++ [p]) qs s1) as Hok1.
  { split_and!; cbn; try done; by rewrite zlen_app. }
  assert (s_queue s1 = s_queue s ++ [p]) as Hq1 by (by destruct p).
  destruct (bool_decide _ && _).
  - exists (server_signal false true (server_enqueueLocked (MkPacket HeaderKeepAlive []) s1)),
      [MkPacket HeaderKeepAlive []].
    split_and!; try done; [|by right].
    apply server_signal_ok. by apply server_enqueueLocked_ok.
  - exists s1, []. rewrite app_nil_r. split_and!; try done. by left.
Qed.
End ServerFacts.
