(* ===== verification/EndToEnd.v ===== *)
(** * Client, network and server together

    The client of [internal/etcp] and the server of [internal/etservertest]
    as one transition system.  A connection is two first-in first-out
    streams: the handshake messages of the protocol, then bytes.  What is
    written stays recorded with how much of it the other side has read, and a
    cut fixes how much will ever arrive, at any byte; writes after a cut
    succeed and are lost.  Old connections stay readable for the server until
    a new one takes over, and either side may drop a connection at any time.
    Steps are the critical sections of both programs, so every interleaving
    of their goroutines is a run.  The messages of a handshake arrive whole or
    not at all ([Wire] has their encoding); in the stream after it the reader
    meets whatever bytes have arrived, a length beyond the limit included. *)

From S2P Require Export Server.
Local Open Scope Z_scope.

(** ** Connections *)

(** Client to server: the request is written on dialing; then the position,
    the catchup and the stream.  [u_start] is the sequence number of the
    first packet in the stream. *)
Record upipe := MkUp {
  u_seq : option Z;
  u_cat : option (list bytes);
  u_bytes : bytes;
  u_start : Z;
  u_read : nat;
  u_pos : Z;
  u_cut : option (nat * Z)
}.

(** Server to client: the response, the position, the catchup, the stream. *)
Record dpipe := MkDown {
  d_resp : option ConnectStatus;
  d_seq : option Z;
  d_cat : option (list bytes);
  d_bytes : bytes;
  d_start : Z;
  d_read : nat;
  d_pos : Z;
  d_cut : option (nat * Z)
}.

(** Message [i] of a stream arrives; the bytes of it that arrive. *)
Definition arrives (cut : option (nat * Z)) (i : nat) : Prop :=
  match cut with None => True | Some (n, _) => (i < n)%nat end.
Definition arriving (cut : option (nat * Z)) (b : bytes) : bytes :=
  match cut with None => b | Some (_, j) => ztake j b end.

Definition up_unread (u : upipe) : bytes := zdrop (u_pos u) (arriving (u_cut u) (u_bytes u)).
Definition down_unread (d : dpipe) : bytes := zdrop (d_pos d) (arriving (d_cut d) (d_bytes d)).

(** Where the server's Serve is on a connection. *)
Inductive sphase :=
| SReq                                    (* reading the connect request *)
| STake (status : ConnectStatus)          (* answered, about to take over *)
| SReadSeq                                (* wrote its position, reading the client's *)
| SCatchup (flushed : Z)                  (* wrote its catchup, reading the client's *)
| SAccept (rest : list bytes) (flushed : Z)
| SRun (flushed : Z)                      (* the stream loops; next packet to write *)
| SDead
| SFailed.                                (* a packet did not open *)

Record conn := MkLk { lk_up : upipe; lk_down : dpipe; lk_ph : sphase }.

Definition no_conn : conn :=
  MkLk (MkUp None None [] 0 0 0 None) (MkDown None None None [] 0 0 0 None) SDead.
Definition new_conn : conn :=
  MkLk (MkUp None None [] 0 0 0 None) (MkDown None None None [] 0 0 0 None) SReq.

(** ** The system *)

(** A batch the writer is sending: the bytes still to write, and how many
    entries and bytes the commit will count. *)
Record batch := MkBatch { b_todo : bytes; b_sent : Z; b_n : Z }.

(** Where the client's supervisor is. *)
Inductive cphase :=
| CIdle
| CReq (l : nat)
| CRec (l : nat) (peer : option Z) (snap : option Z) (theirs : option (list bytes))
| CRun (l : nat) (catchup : list bytes) (released : bool) (w : option batch)
| CDone.

Record sys := MkSys {
  y_c : Conn;
  y_taken : list Packet;      (* returned by ReadPacket *)
  y_ps : list Packet;         (* sealed by the client, probes included *)
  y_ph : cphase;
  y_first : bool;             (* no link has run yet *)
  y_s : Server;
  y_got : list Packet;        (* returned by Recv *)
  y_qs : list Packet;         (* sealed by the server, echoes included *)
  y_cur : option nat;         (* the connection that took over last *)
  y_links : nat -> conn;
  y_next : nat
}.

Definition set_client (c : Conn) (taken ps : list Packet) (ph : cphase) (y : sys) : sys :=
  MkSys c taken ps ph (y_first y) (y_s y) (y_got y) (y_qs y) (y_cur y) (y_links y) (y_next y).
Definition set_ph (ph : cphase) (y : sys) : sys :=
  set_client (y_c y) (y_taken y) (y_ps y) ph y.
Definition set_running (ph : cphase) (c : Conn) (y : sys) : sys :=
  MkSys c (y_taken y) (y_ps y) ph false (y_s y) (y_got y) (y_qs y) (y_cur y) (y_links y) (y_next y).
Definition set_server (s : Server) (got qs : list Packet) (y : sys) : sys :=
  MkSys (y_c y) (y_taken y) (y_ps y) (y_ph y) (y_first y) s got qs (y_cur y) (y_links y) (y_next y).
Definition set_link (l : nat) (k : conn) (y : sys) : sys :=
  MkSys (y_c y) (y_taken y) (y_ps y) (y_ph y) (y_first y) (y_s y) (y_got y) (y_qs y) (y_cur y)
    (fun i => if decide (i = l) then k else y_links y i) (y_next y).
Definition set_cur (l : nat) (y : sys) : sys :=
  MkSys (y_c y) (y_taken y) (y_ps y) (y_ph y) (y_first y) (y_s y) (y_got y) (y_qs y) (Some l)
    (y_links y) (y_next y).
Definition set_next (n : nat) (y : sys) : sys :=
  MkSys (y_c y) (y_taken y) (y_ps y) (y_ph y) (y_first y) (y_s y) (y_got y) (y_qs y) (y_cur y)
    (y_links y) n.

Definition with_up (u : upipe) (k : conn) : conn := MkLk u (lk_down k) (lk_ph k).
Definition with_down (d : dpipe) (k : conn) : conn := MkLk (lk_up k) d (lk_ph k).
Definition with_phase (ph : sphase) (k : conn) : conn := MkLk (lk_up k) (lk_down k) ph.

Definition up_written (seq : option Z) (cat : option (list bytes)) (b : bytes) (start : Z) (u : upipe)
  : upipe := MkUp seq cat b start (u_read u) (u_pos u) (u_cut u).
Definition up_taken (read : nat) (pos : Z) (u : upipe) : upipe :=
  MkUp (u_seq u) (u_cat u) (u_bytes u) (u_start u) read pos (u_cut u).
Definition down_written (resp : option ConnectStatus) (seq : option Z) (cat : option (list bytes))
  (b : bytes) (start : Z) (d : dpipe) : dpipe :=
  MkDown resp seq cat b start (d_read d) (d_pos d) (d_cut d).
Definition down_taken (read : nat) (pos : Z) (d : dpipe) : dpipe :=
  MkDown (d_resp d) (d_seq d) (d_cat d) (d_bytes d) (d_start d) read pos (d_cut d).

(** The connection the client is on. *)
Definition client_link (ph : cphase) : option nat :=
  match ph with
  | CReq l | CRec l _ _ _ | CRun l _ _ _ => Some l
  | CIdle | CDone => None
  end.

(** The Conn ended with [e], its supervisor gone. *)
Definition finished (e : gerr) (c : Conn) : Conn := set_readerDone true (Conn.cancel e c).

(** Where a reader's outcome leaves the client: a link that ended is redialed,
    unless the reader failed the Conn. *)
Definition after_read {A} (o : outcome A) (c : Conn) (ph : cphase) : cphase :=
  match o with
  | Stop _ => match c_ctx c with None => CIdle | Some _ => CDone end
  | _ => ph
  end.

Section System.
Context `{HB : SecretBox}.

Definition reader_at (y : sys) (c : Conn) (ev : handover) : rstate :=
  MkR c newLink (y_taken y) [ev].

Inductive client_step : sys -> sys -> Prop :=
| cs_write y p c' :
    zlen (p_Payload p) <= maxPayload -> WritePacket_attempt p (y_c y) = (c', Written) ->
    client_step y (set_client c' (y_taken y) (y_ps y ++ [p]) (y_ph y) y)
| cs_probe y l cu rel w :
    y_ph y = CRun l cu rel w -> sealedNone (y_c y) = false ->
    client_step y (set_client (probeOnce (y_c y)) (y_taken y)
      (if o_lastProbe (c_out (y_c y)) >=? o_flushed (c_out (y_c y)) then y_ps y
       else y_ps y ++ [c_probe (y_c y)]) (y_ph y) y)
| cs_read y k p c' :
    ReadPacket None k (y_c y) = Some (c', inl p) ->
    client_step y (set_client c' (y_taken y ++ [p]) (y_ps y) (y_ph y) y)
| cs_dial y :
    y_ph y = CIdle ->
    client_step y (set_next (S (y_next y)) (set_ph (CReq (y_next y)) (set_link (y_next y) new_conn y)))
| cs_new y l :
    y_ph y = CReq l -> y_first y = true ->
    let d := lk_down (y_links y l) in
    d_resp d = Some NEW_CLIENT -> arrives (d_cut d) 0 ->
    client_step y (set_link l (with_down (down_taken 1 0 d) (y_links y l))
      (set_running (CRun l [] false None) (y_c y) y))
| cs_returning y l :
    y_ph y = CReq l ->
    let d := lk_down (y_links y l) in
    d_resp d = Some RETURNING_CLIENT -> arrives (d_cut d) 0 ->
    i_recvSeq (c_in (y_c y)) <= MaxInt32 ->
    client_step y (set_ph (CRec l None None None)
      (set_link l (MkLk (up_written (Some (to_int32 (i_recvSeq (c_in (y_c y))))) None [] 0
                           (lk_up (y_links y l))) (down_taken 1 0 d) (lk_ph (y_links y l))) y))
| cs_peer y l snap :
    y_ph y = CRec l None snap None ->
    let d := lk_down (y_links y l) in
    forall n, d_seq d = Some n -> arrives (d_cut d) 1 ->
    client_step y (set_ph (CRec l (Some n) snap None)
      (set_link l (with_down (down_taken 2 0 d) (y_links y l)) y))
| cs_catchup_write y l n theirs ours :
    y_ph y = CRec l (Some n) None theirs ->
    let snap := ring_next (o_ring (c_out (y_c y))) in
    since (o_ring (c_out (y_c y))) n snap = Some (Some ours) ->
    client_step y (set_ph (CRec l (Some n) (Some snap) theirs)
      (set_link l (with_up (up_written (u_seq (lk_up (y_links y l))) (Some ours) [] snap
                              (lk_up (y_links y l))) (y_links y l)) y))
| cs_theirs y l n snap :
    y_ph y = CRec l (Some n) snap None ->
    let d := lk_down (y_links y l) in
    forall t, d_cat d = Some t -> arrives (d_cut d) 2 ->
    client_step y (set_ph (CRec l (Some n) snap (Some t))
      (set_link l (with_down (down_taken 3 0 d) (y_links y l)) y))
| cs_commit y l n snap t c' :
    y_ph y = CRec l (Some n) (Some snap) (Some t) -> recover_commit snap n (y_c y) = Some c' ->
    client_step y (set_running (CRun l t false None) c' y)
| cs_pending y l cu rel w p rest ev s' :
    y_ph y = CRun l cu rel w -> i_pending (c_in (y_c y)) = p :: rest ->
    handOver p (reader_at y (y_c y) ev) = (s', Ret tt) ->
    client_step y (set_client
      (set_in (MkInbound (i_in (c_in (rs_conn s'))) (i_recvSeq (c_in (rs_conn s'))) rest) (rs_conn s'))
      (rs_taken s') (y_ps y) (y_ph y) y)
| cs_deliver y l b cu rel w ev s' o :
    y_ph y = CRun l (b :: cu) rel w -> i_pending (c_in (y_c y)) = [] ->
    deliver b (reader_at y (y_c y) ev) = (s', o) -> o <> Wait ->
    client_step y (set_client (rs_conn s') (rs_taken s') (y_ps y)
      (after_read o (rs_conn s') (CRun l cu rel w)) y)
| cs_frame y l rel w frame ev s' o :
    y_ph y = CRun l [] rel w -> i_pending (c_in (y_c y)) = [] ->
    let d := lk_down (y_links y l) in
    frame_outcome (down_unread d) (Sentinel io_EOF) = Ok frame ->
    deliver frame (reader_at y (if rel then y_c y else releaseHold (y_c y)) ev) = (s', o) -> o <> Wait ->
    client_step y (set_link l
      (with_down (down_taken (d_read d) (d_pos d + frame_consumed (down_unread d)) d) (y_links y l))
      (set_client (rs_conn s') (rs_taken s') (y_ps y)
         (after_read o (rs_conn s') (CRun l [] true w)) y))
| cs_read_failed y l rel w err e s' (o : outcome unit) :   (* the connection failed with [err] *)
    y_ph y = CRun l [] rel w -> i_pending (c_in (y_c y)) = [] -> errors_Is err ErrTooLarge = false ->
    frame_outcome (down_unread (lk_down (y_links y l))) err = Err e ->
    frame_failed e (MkR (y_c y) newLink (y_taken y) []) = (s', o) ->
    client_step y (set_client (rs_conn s') (rs_taken s') (y_ps y) (after_read o (rs_conn s') (y_ph y)) y)
| cs_batch y l cu rel base probe bt f :
    y_ph y = CRun l cu rel None ->
    writeLoop_snapshot (c_out (y_c y)) = Some (base, probe, bt) -> bt <> [] ->
    frame_batch base probe bt frame_init = inl f ->
    client_step y (set_ph (CRun l cu rel (Some (MkBatch (f_buf f) (f_sent f) (f_n f)))) y)
| cs_piece y l cu rel w k :
    y_ph y = CRun l cu rel (Some w) -> 0 < k ->
    let u := lk_up (y_links y l) in
    client_step y (set_ph (CRun l cu rel (Some (MkBatch (zdrop k (b_todo w)) (b_sent w) (b_n w))))
      (set_link l (with_up (up_written (u_seq u) (u_cat u) (u_bytes u ++ ztake k (b_todo w)) (u_start u) u)
                     (y_links y l)) y))
| cs_sent y l cu rel w :
    y_ph y = CRun l cu rel (Some w) -> b_todo w = [] ->
    client_step y (set_client (writeLoop_commit (b_sent w) (b_n w) (y_c y)) (y_taken y) (y_ps y)
      (CRun l cu rel None) y)
| cs_down y l :
    client_link (y_ph y) = Some l -> y_first y = false -> client_step y (set_ph CIdle y)
| cs_end y e :   (* Close, or a handshake's final answer *)
    c_ctx (y_c y) = None -> errors_Is e ErrIntegrity = false ->
    client_step y (set_client (finished e (y_c y)) (y_taken y) (y_ps y) CDone y).

Inductive server_step : sys -> sys -> Prop :=
| ss_req y l s' st :
    lk_ph (y_links y l) = SReq -> arrives (u_cut (lk_up (y_links y l))) 0 ->
    admit_req (y_s y) (c_id (y_c y)) Version = (s', st) ->
    let d := lk_down (y_links y l) in
    server_step y (set_link l
      (MkLk (up_taken 1 0 (lk_up (y_links y l)))
         (down_written (Some st) (d_seq d) (d_cat d) (d_bytes d) (d_start d) d)
         (if (st =? NEW_CLIENT) || (st =? RETURNING_CLIENT) then STake st else SDead))
      (set_server s' (y_got y) (y_qs y) y))
| ss_take_new y l :
    lk_ph (y_links y l) = STake NEW_CLIENT ->
    match y_cur y with None => True | Some k => (k < l)%nat end ->
    server_step y (set_link l (with_phase (SRun 0) (y_links y l))
      (set_cur l (match y_cur y with
                  | None => y
                  | Some k => set_link k (with_phase SDead (y_links y k)) y
                  end)))
| ss_take_returning y l :
    lk_ph (y_links y l) = STake RETURNING_CLIENT ->
    match y_cur y with None => True | Some k => (k < l)%nat end ->
    let d := lk_down (y_links y l) in
    server_step y (set_link l
      (MkLk (lk_up (y_links y l))
         (down_written (d_resp d) (Some (to_int32 (s_recvSeq (y_s y)))) (d_cat d) (d_bytes d) (d_start d) d)
         SReadSeq)
      (set_cur l (match y_cur y with
                  | None => y
                  | Some k => set_link k (with_phase SDead (y_links y k)) y
                  end)))
| ss_seq y l n cat f :
    lk_ph (y_links y l) = SReadSeq ->
    let u := lk_up (y_links y l) in let d := lk_down (y_links y l) in
    u_seq u = Some n -> arrives (u_cut u) 1 -> recover_catchup n (y_s y) = Some (cat, f) ->
    server_step y (set_link l
      (MkLk (up_taken 2 0 u) (down_written (d_resp d) (d_seq d) (Some cat) (d_bytes d) f d) (SCatchup f)) y)
| ss_cat y l f cat :
    lk_ph (y_links y l) = SCatchup f ->
    let u := lk_up (y_links y l) in
    u_cat u = Some cat -> arrives (u_cut u) 2 ->
    server_step y (set_link l (MkLk (up_taken 3 0 u) (lk_down (y_links y l)) (SAccept cat f)) y)
| ss_accept y l b rest f s' e qs' :
    lk_ph (y_links y l) = SAccept (b :: rest) f -> accept b (y_s y) = (s', e) ->
    (qs' = [] \/ qs' = [MkPacket HeaderKeepAlive []]) ->
    zlen (s_sent s') = zlen (s_sent (y_s y)) + zlen qs' ->
    server_step y (set_link l
      (with_phase (match e with None => SAccept rest f | Some _ => SFailed end) (y_links y l))
      (set_server s' (y_got y) (y_qs y ++ qs') y))
| ss_accepted y l f :
    lk_ph (y_links y l) = SAccept [] f ->
    server_step y (set_link l (with_phase (SRun f) (y_links y l)) y)
| ss_frame y l f frame s' e qs' :
    lk_ph (y_links y l) = SRun f ->
    let u := lk_up (y_links y l) in
    frame_outcome (up_unread u) (Sentinel io_EOF) = Ok frame ->
    accept frame (y_s y) = (s', e) ->
    (qs' = [] \/ qs' = [MkPacket HeaderKeepAlive []]) ->
    zlen (s_sent s') = zlen (s_sent (y_s y)) + zlen qs' ->
    server_step y (set_link l
      (MkLk (up_taken (u_read u) (u_pos u + frame_consumed (up_unread u)) u) (lk_down (y_links y l))
         (match e with None => SRun f | Some _ => SFailed end))
      (set_server s' (y_got y) (y_qs y ++ qs') y))
| ss_write y l f b :
    lk_ph (y_links y l) = SRun f -> 0 <= f -> s_sent (y_s y) !! Z.to_nat f = Some b ->
    let d := lk_down (y_links y l) in
    server_step y (set_link l
      (MkLk (lk_up (y_links y l))
         (down_written (d_resp d) (d_seq d) (d_cat d) (d_bytes d ++ frame_bytes b) (d_start d) d)
         (SRun (f + 1))) y)
| ss_die y l :
    (l < y_next y)%nat -> server_step y (set_link l (with_phase SDead (y_links y l)) y)
| ss_send y p :
    zlen (p_Payload p) <= maxPayload ->
    server_step y (set_server (fst (Send None p (y_s y))) (y_got y) (y_qs y ++ [p]) y)
| ss_recv y ctx p s' :
    Recv ctx (y_s y) = Some (s', inl p) -> server_step y (set_server s' (y_got y ++ [p]) (y_qs y) y)
| ss_end y : server_step y (set_server (EndSession (y_s y)) (y_got y) (y_qs y) y)
| ss_echo y on : server_step y (set_server (EchoKeepAlive on (y_s y)) (y_got y) (y_qs y) y).

(** A cut: [n] messages and [j] bytes of a direction arrive, no more. *)
Inductive net_step : sys -> sys -> Prop :=
| ns_cut_up y l n j :
    let u := lk_up (y_links y l) in
    u_cut u = None -> (l < y_next y)%nat -> (u_read u <= n)%nat -> u_pos u <= j ->
    net_step y (set_link l (with_up (MkUp (u_seq u) (u_cat u) (u_bytes u) (u_start u) (u_read u)
      (u_pos u) (Some (n, j))) (y_links y l)) y)
| ns_cut_down y l n j :
    let d := lk_down (y_links y l) in
    d_cut d = None -> (l < y_next y)%nat -> (d_read d <= n)%nat -> d_pos d <= j ->
    net_step y (set_link l (with_down (MkDown (d_resp d) (d_seq d) (d_cat d) (d_bytes d) (d_start d)
      (d_read d) (d_pos d) (Some (n, j))) (y_links y l)) y).

Definition sys_step (y y' : sys) : Prop := client_step y y' \/ server_step y y' \/ net_step y y'.
End System.

(** ** Segments of a log *)

Definition seg {A} (X : list A) (a b : Z) : list A := ztake (b - a) (zdrop a X).

Section Segments.
Context {A : Type}.
Implicit Types X Y : list A.

Lemma seg_nil X a b : b <= a -> seg X a b = [].
Proof. intros ?. unfold seg. apply ztake_0. lia. Qed.

Lemma seg_app X Y a b : 0 <= a -> b <= zlen X -> seg (X ++ Y) a b = seg X a b.
Proof.
  intros Ha Hb. destruct (Z.le_gt_cases b a); [by rewrite !seg_nil|].
  unfold seg. rewrite zdrop_app_le by lia. apply ztake_app_le. rewrite zlen_zdrop. lia.
Qed.

Lemma seg_cat X a b c : 0 <= a <= b -> b <= c -> seg X a b ++ seg X b c = seg X a c.
Proof.
  intros ??. unfold seg. replace (c - a) with ((b - a) + (c - b)) by lia.
  rewrite (ztake_plus (b - a) (c - b)) by lia. rewrite zdrop_zdrop by lia. do 3 f_equal. lia.
Qed.

Lemma seg_rest X a b : 0 <= a <= b -> seg X a b ++ zdrop b X = zdrop a X.
Proof.
  intros ?. unfold seg. rewrite <- (ztake_zdrop (b - a) (zdrop a X)) at 2.
  rewrite zdrop_zdrop by lia. do 2 f_equal. lia.
Qed.

Lemma seg_zlen X a b : 0 <= a <= b -> b <= zlen X -> zlen (seg X a b) = b - a.
Proof. intros ??. unfold seg. rewrite zlen_ztake, zlen_zdrop. lia. Qed.

Lemma seg_all X a : 0 <= a <= zlen X -> seg X a (zlen X) = zdrop a X.
Proof. intros ?. unfold seg. apply ztake_ge. rewrite zlen_zdrop. lia. Qed.

Lemma seg_snoc X a b x :
  0 <= a <= b -> X !! Z.to_nat b = Some x -> seg X a (b + 1) = seg X a b ++ [x].
Proof.
  intros ? Hx. rewrite <- (seg_cat X a b (b + 1)) by lia. f_equal. unfold seg.
  replace (b + 1 - b) with 1 by lia. unfold ztake, zdrop.
  rewrite <- (take_drop_middle X _ _ Hx), drop_app_length'; [done|].
  rewrite length_take_le; [done|]. apply lookup_lt_Some in Hx. lia.
Qed.

Lemma seg_cons X a b x r :
  0 <= a -> seg X a b = x :: r -> X !! Z.to_nat a = Some x /\ a < b /\ r = seg X (a + 1) b.
Proof.
  intros Ha Hs. destruct (Z.le_gt_cases b a); [by rewrite seg_nil in Hs|].
  unfold seg in *. destruct (zdrop a X) as [|y t] eqn:Hd; [unfold ztake in Hs; by rewrite take_nil in Hs|].
  assert (ztake (b - a) (y :: t) = y :: ztake (b - (a + 1)) t) as Hk.
  { unfold ztake. by replace (Z.to_nat (b - a)) with (S (Z.to_nat (b - (a + 1)))) by lia. }
  rewrite Hk in Hs. injection Hs as <- <-. split_and!; [|lia|].
  - assert (zdrop a X !! 0%nat = Some y) as H0 by by rewrite Hd.
    unfold zdrop in H0. by rewrite lookup_drop, Nat.add_0_r in H0.
  - f_equal. rewrite Z.add_comm, <- zdrop_zdrop, Hd by lia. done.
Qed.
End Segments.

(** ** Streams of frames *)

Lemma wire_prefix X a b :
  0 <= a <= b -> wire_bytes (seg X a b) `prefix_of` wire_bytes (zdrop a X).
Proof. intros ?. rewrite <- (seg_rest X a b) by lia. rewrite wire_bytes_app. by exists (wire_bytes (zdrop b X)). Qed.

Lemma wire_prefix_app X Y a b : 0 <= a <= zlen X ->
  b `prefix_of` wire_bytes (zdrop a X) -> b `prefix_of` wire_bytes (zdrop a (X ++ Y)).
Proof.
  intros ? [t Ht]. rewrite zdrop_app_le, wire_bytes_app, Ht by lia. exists (t ++ wire_bytes Y).
  by rewrite app_assoc.
Qed.

Lemma arriving_prefix cut b : arriving cut b `prefix_of` b.
Proof. destruct cut as [[n j]|]; cbn; [apply prefix_take|done]. Qed.

(** The next frame of a prefix of a stream is the stream's next packet. *)
Lemma frame_next s X e x :
  Forall (fun x => zlen x <= MaxFrameSize) X -> s `prefix_of` wire_bytes X ->
  frame_outcome s e = Ok x ->
  exists X', X = x :: X' /\ frame_consumed s = zlen (frame_bytes x) /\
    frame_bytes x `prefix_of` s.
Proof.
  intros Hfit [lost Hs] Hx. apply frame_outcome_Ok in Hx as [Hx Hc].
  destruct X as [|y X].
  { apply (f_equal zlen) in Hs. rewrite zlen_app in Hs. change (zlen (wire_bytes [])) with 0 in Hs.
    pose proof (zlen_nonneg s). pose proof (zlen_nonneg lost). lia. }
  apply Forall_cons in Hfit as [Hy _].
  assert (s ++ lost = frame_bytes y ++ wire_bytes X) as Hs' by (rewrite <- Hs; done).
  destruct (Z.lt_ge_cases (zlen s) (4 + zlen y)) as [Hl|Hl].
  { destruct (frame_outcome_cut s lost y _ Hy Hs' Hl) as [Hno _]. by rewrite Hx in Hno. }
  assert (exists t, s = frame_bytes y ++ t) as [t ->].
  { exists (zdrop (zlen (frame_bytes y)) s).
    rewrite <- (ztake_zdrop (zlen (frame_bytes y)) s) at 1. f_equal.
    rewrite <- (ztake_app_le _ s lost) by (rewrite frame_bytes_zlen; lia).
    rewrite Hs'. by apply ztake_app_eq. }
  rewrite frame_bytes_eq, <- app_assoc in Hx |- * by done.
  rewrite frame_outcome_append in Hx by done. injection Hx as ->.
  exists X. split; [done|]. rewrite frame_consumed_append by done. split.
  - by rewrite frame_bytes_zlen.
  - rewrite frame_bytes_eq by done. rewrite app_assoc. by exists t.
Qed.

(** No length in a prefix of a stream is beyond the limit. *)
Lemma frame_fits s X err e :
  Forall (fun x => zlen x <= MaxFrameSize) X -> s `prefix_of` wire_bytes X -> errors_Is err ErrTooLarge = false ->
  frame_outcome s err = Err e -> errors_Is e ErrTooLarge = false.
Proof.
  intros Hfit [lost Hs] He Hx.
  assert (~ (4 <= zlen s /\ MaxFrameSize < Uint32_be (ztake 4 s))) as Hno.
  { destruct X as [|y X].
    { symmetry in Hs. apply app_nil in Hs as [-> _]. by intros [[] _]. }
    apply Forall_cons in Hfit as [Hy _].
    assert (s ++ lost = frame_bytes y ++ wire_bytes X) as Hs' by (rewrite <- Hs; done).
    destruct (Z.lt_ge_cases (zlen s) (4 + zlen y)) as [Hl|Hl];
      [by destruct (frame_outcome_cut s lost y _ Hy Hs' Hl)|].
    intros [H4 Hgt]. assert (ztake 4 s = ztake 4 (s ++ lost)) as Heq by by rewrite ztake_app_le.
    rewrite Hs', frame_bytes_eq, <- app_assoc, ztake_app_eq in Heq by done.
    rewrite Heq, Uint32_be_bytes, Z.mod_small in Hgt; [lia|].
    change MaxFrameSize with 16777216 in Hy. pose proof (zlen_nonneg y). lia. }
  assert (errors_Is (cut err) ErrTooLarge = false) as Hcut by (unfold cut; by destruct (errors_Is err io_EOF)).
  unfold frame_outcome in Hx. pose proof (zlen_nonneg s).
  repeat case_match; try done; injection Hx as <-; cbn; rewrite ?orb_false_r; try done.
  exfalso. apply Hno. lia.
Qed.

(** What is unread of a stream that stands at packet [r]. *)
Lemma stream_prefix X start r b pos cut :
  0 <= start <= r -> r <= zlen X -> b `prefix_of` wire_bytes (zdrop start X) ->
  0 <= pos <= zlen b -> ztake pos b = wire_bytes (seg X start r) ->
  zdrop pos (arriving cut b) `prefix_of` zdrop pos b /\ zdrop pos b `prefix_of` wire_bytes (zdrop r X).
Proof.
  intros Hsr Hr [lost Hb] Hpos Htk. split.
  - destruct (arriving_prefix cut b) as [t Ht]. generalize dependent (arriving cut b). intros a Ht.
    rewrite Ht. destruct (Z.le_gt_cases pos (zlen a)).
    + rewrite zdrop_app_le by lia. by exists t.
    + rewrite zdrop_ge by lia. apply prefix_nil.
  - exists lost. rewrite <- (seg_rest X start r), wire_bytes_app, <- Htk in Hb by lia.
    rewrite <- (ztake_zdrop pos b) in Hb at 2. rewrite <- app_assoc in Hb.
    by apply app_inv_head in Hb.
Qed.

(** Reading the next frame of a stream that stands at packet [r]. *)
Lemma stream_next X start r b pos cut e x :
  Forall (fun x => zlen x <= MaxFrameSize) X -> 0 <= start <= r -> r <= zlen X ->
  b `prefix_of` wire_bytes (zdrop start X) -> 0 <= pos <= zlen b ->
  ztake pos b = wire_bytes (seg X start r) ->
  frame_outcome (zdrop pos (arriving cut b)) e = Ok x ->
  X !! Z.to_nat r = Some x /\
  pos + frame_consumed (zdrop pos (arriving cut b)) <= zlen b /\
  ztake (pos + frame_consumed (zdrop pos (arriving cut b))) b = wire_bytes (seg X start (r + 1)).
Proof.
  intros Hfit Hsr Hr Hb Hpos Htk Hx.
  destruct (stream_prefix _ _ _ _ _ cut Hsr Hr Hb Hpos Htk) as [Hpre2 Hpre].
  generalize dependent (arriving cut b). intros a Hx Hpre2.
  assert (Forall (fun x => zlen x <= MaxFrameSize) (zdrop r X)) as Hfit' by by apply Forall_drop.
  destruct (frame_next _ _ _ _ Hfit' (transitivity Hpre2 Hpre) Hx) as (X' & HX & Hc & Hfb).
  assert (X !! Z.to_nat r = Some x) as Hl.
  { assert (zdrop r X !! 0%nat = Some x) as H0 by by rewrite HX.
    unfold zdrop in H0. by rewrite lookup_drop, Nat.add_0_r in H0. }
  split; [done|]. rewrite Hc. pose proof (zlen_nonneg (frame_bytes x)).
  destruct (transitivity Hfb Hpre2) as [v Hv].
  assert (zlen (zdrop pos b) = zlen (frame_bytes x) + zlen v) as Hzl by (by rewrite Hv, zlen_app).
  rewrite zlen_zdrop in Hzl. pose proof (zlen_nonneg v). split; [lia|].
  rewrite ztake_plus by lia. rewrite Htk, Hv, ztake_app_eq by done.
  rewrite (seg_snoc X start r x), wire_bytes_app, wire_bytes_single by (done || lia). done.
Qed.
