(* ===== verification/DeliveryInv.v ===== *)
(** * Exactly-once delivery across reconnects

    The invariant of the system of [EndToEnd] and what follows from it: in
    every reachable state each side has received a prefix of what the other
    sealed, in order and once each, no packet ever fails to open, and when a
    live link has nothing left in transit nothing is missing.

    The invariant has a part per connection that only grows ([link_base]), a
    part by the server's phase on it ([server_view]) and a part for the
    connection the client is on ([client_view]); each step touches one of
    them. *)

From S2P Require Export EndToEnd.
Local Open Scope Z_scope.

Section DeliveryInv.
Context `{HB : SecretBox}.
Variable key : bytes.
Variable limit : Z.

Local Notation up_log ps := (sealed_log key ClientToServer ps).
Local Notation down_log qs := (sealed_log key ServerToClient qs).

Record up_base (ps : list Packet) (u : upipe) : Prop := {
  ub_start : 0 <= u_start u <= zlen ps;
  ub_bytes : u_bytes u `prefix_of` wire_bytes (zdrop (u_start u) (up_log ps));
  ub_pos : 0 <= u_pos u <= zlen (u_bytes u);
  ub_cat : u_cat u = None -> u_start u = 0
}.

Record down_base (qs : list Packet) (d : dpipe) : Prop := {
  db_start : 0 <= d_start d <= zlen qs;
  db_bytes : d_bytes d `prefix_of` wire_bytes (zdrop (d_start d) (down_log qs));
  db_pos : 0 <= d_pos d <= zlen (d_bytes d);
  db_cat : d_cat d = None -> d_start d = 0;
  db_new : d_resp d = Some NEW_CLIENT -> d_cat d = None
}.

Record link_base (ps qs : list Packet) (k : conn) : Prop := {
  lb_up : up_base ps (lk_up k);
  lb_down : down_base qs (lk_down k);
  lb_seq : u_seq (lk_up k) = None -> d_cat (lk_down k) = None
}.

(** The client's catchup, while the server has not read it. *)
Definition cat_ok (r : Z) (ps : list Packet) (u : upipe) : Prop :=
  match u_cat u with
  | None => u_bytes u = []
  | Some cat => cat = seg (up_log ps) r (u_start u) /\ r <= u_start u
  end.

(** What the server's phase says of its connection, when it has received [r]
    packets. *)
Definition server_view (cur : option nat) (r : Z) (ps qs : list Packet) (l : nat) (k : conn) : Prop :=
  let u := lk_up k in let d := lk_down k in
  match lk_ph k with
  | SReq => u_pos u = 0 /\ u_seq u = None /\ u_cat u = None /\ u_bytes u = [] /\
      d_resp d = None /\ d_seq d = None /\ d_cat d = None /\ d_bytes d = []
  | STake st => u_pos u = 0 /\ u_cat u = None /\ d_resp d = Some st /\ d_seq d = None /\
      d_cat d = None /\ d_bytes d = [] /\
      (st = NEW_CLIENT /\ l = 0%nat \/ st = RETURNING_CLIENT /\ u_bytes u = [])
  | SReadSeq => cur = Some l /\ u_pos u = 0 /\ d_resp d = Some RETURNING_CLIENT /\
      d_seq d = Some (to_int32 r) /\ d_cat d = None /\ d_bytes d = [] /\ cat_ok r ps u
  | SCatchup f => cur = Some l /\ u_pos u = 0 /\ d_resp d = Some RETURNING_CLIENT /\
      d_seq d = Some (to_int32 r) /\ d_start d = f /\ d_bytes d = [] /\ d_cat d <> None /\ cat_ok r ps u
  | SAccept rest f => cur = Some l /\ u_pos u = 0 /\ d_start d = f /\ d_bytes d = [] /\
      u_cat u <> None /\ d_cat d <> None /\
      rest = seg (up_log ps) r (u_start u) /\ r <= u_start u
  | SRun f => cur = Some l /\ d_start d <= f <= zlen qs /\
      (d_resp d = Some NEW_CLIENT \/ u_cat u <> None /\ d_cat d <> None) /\
      d_bytes d = wire_bytes (seg (down_log qs) (d_start d) f) /\
      ztake (u_pos u) (u_bytes u) = wire_bytes (seg (up_log ps) (u_start u) r) /\ u_start u <= r
  | SDead => True
  | SFailed => False
  end.

(** What the client's phase says of the connection it is on. *)
Definition client_view (c : Conn) (ps qs : list Packet) (links : nat -> conn) (next : nat)
  (ph : cphase) : Prop :=
  let rc := i_recvSeq (c_in c) in let fl := o_flushed (c_out c) in
  match ph with
  | CIdle | CDone => True
  | CReq l =>
      let u := lk_up (links l) in let d := lk_down (links l) in
      (l < next)%nat /\ u_seq u = None /\ u_cat u = None /\ u_bytes u = [] /\ d_pos d = 0
  | CRec l peer snap theirs =>
      let u := lk_up (links l) in let d := lk_down (links l) in
      (l < next)%nat /\ u_seq u = Some rc /\ rc <= MaxInt32 /\ u_bytes u = [] /\ d_pos d = 0 /\
      d_resp d = Some RETURNING_CLIENT /\
      (forall t, d_cat d = Some t -> t = seg (down_log qs) rc (d_start d) /\ rc <= d_start d) /\
      (forall n, peer = Some n -> d_seq d = Some n) /\
      (peer = None -> snap = None /\ theirs = None) /\
      (forall t, theirs = Some t -> d_cat d = Some t) /\
      match snap with
      | None => u_cat u = None
      | Some sn => u_cat u <> None /\ u_start u = sn /\ fl <= sn
      end
  | CRun l cu rel w =>
      let u := lk_up (links l) in let d := lk_down (links l) in
      (l < next)%nat /\
      (d_resp d = Some NEW_CLIENT \/
       d_resp d = Some RETURNING_CLIENT /\ u_cat u <> None /\ d_cat d <> None) /\
      cu = seg (down_log qs) rc (d_start d) /\
      ztake (d_pos d) (d_bytes d) = wire_bytes (seg (down_log qs) (d_start d) rc) /\
      u_start u <= fl /\
      match w with
      | None => u_bytes u = wire_bytes (seg (up_log ps) (u_start u) fl)
      | Some b => 0 <= b_sent b /\ fl + b_sent b <= zlen ps /\
          b_n b = sizes (batch_of key ps fl (b_sent b)) /\
          u_bytes u ++ b_todo b = wire_bytes (seg (up_log ps) (u_start u) (fl + b_sent b))
      end
  end.

Definition received_ok (qs : list Packet) (taken : list Packet) (c : Conn) : Prop :=
  i_in (c_in c) = state_at key ServerToClient (i_recvSeq (c_in c)) /\
  0 <= i_recvSeq (c_in c) <= zlen qs /\
  taken ++ c_inbox c ++ i_pending (c_in c) = ztake (i_recvSeq (c_in c)) qs.

(** Accepting a client marks it as known. *)
Definition resp_ok (known : bool) (k : conn) : Prop :=
  d_resp (lk_down k) = Some NEW_CLIENT \/ d_resp (lk_down k) = Some RETURNING_CLIENT -> known = true.

(** The part that does not look at the client's phase. *)
Record core (y : sys) : Prop := {
  v_out : outbound_ok key (c_probe (y_c y)) limit (y_ps y) (c_out (y_c y));
  v_probe : zlen (p_Payload (c_probe (y_c y))) <= maxPayload;
  v_in : received_ok (y_qs y) (y_taken y) (y_c y);
  v_srv : server_ok key (y_got y ++ s_queue (y_s y)) (y_qs y) (y_s y);
  v_got : y_got y ++ s_queue (y_s y) = ztake (s_recvSeq (y_s y)) (y_ps y);
  v_seq : 0 <= s_recvSeq (y_s y) <= zlen (y_ps y);
  v_fit : Forall (fun q => zlen (p_Payload q) <= maxPayload) (y_qs y);
  v_next : forall l, (y_next y <= l)%nat -> y_links y l = no_conn;
  v_cur : match y_cur y with Some k => (k < y_next y)%nat | None => s_recvSeq (y_s y) = 0 end;
  v_known : y_first y = false -> s_known (y_s y) = true;
  v_resp : forall l, resp_ok (s_known (y_s y)) (y_links y l);
  v_link : forall l, link_base (y_ps y) (y_qs y) (y_links y l) /\
             server_view (y_cur y) (s_recvSeq (y_s y)) (y_ps y) (y_qs y) l (y_links y l)
}.

(** The part about the client's phase. *)
Record cli (y : sys) : Prop := {
  v_ctx : match y_ph y with
          | CDone => exists e, c_ctx (y_c y) = Some e /\ errors_Is e ErrIntegrity = false
          | _ => c_ctx (y_c y) = None
          end;
  v_first : y_first y = true -> (y_next y <= 1)%nat /\ i_recvSeq (c_in (y_c y)) = 0 /\
              o_flushed (c_out (y_c y)) = 0 /\
              match y_ph y with CIdle => y_next y = 0%nat | CRun _ _ _ _ => False | _ => True end;
  v_client : client_view (y_c y) (y_ps y) (y_qs y) (y_links y) (y_next y) (y_ph y)
}.

Definition inv (y : sys) : Prop := core y /\ cli y.

(** ** Growth of the logs *)

Lemma up_log_app ps p : exists t, up_log (ps ++ p) = up_log ps ++ t.
Proof. unfold sealed_log. rewrite sealed_from_app. eauto. Qed.

Lemma down_log_app qs q : exists t, down_log (qs ++ q) = down_log qs ++ t.
Proof. unfold sealed_log. rewrite sealed_from_app. eauto. Qed.

Lemma up_seg_app ps p a b : 0 <= a -> b <= zlen ps -> seg (up_log (ps ++ p)) a b = seg (up_log ps) a b.
Proof. intros ??. destruct (up_log_app ps p) as [t ->]. apply seg_app; [done|]. by rewrite sealed_log_zlen. Qed.

Lemma down_seg_app qs q a b :
  0 <= a -> b <= zlen qs -> seg (down_log (qs ++ q)) a b = seg (down_log qs) a b.
Proof. intros ??. destruct (down_log_app qs q) as [t ->]. apply seg_app; [done|]. by rewrite sealed_log_zlen. Qed.

Lemma link_base_grow ps qs p q k : link_base ps qs k -> link_base (ps ++ p) (qs ++ q) k.
Proof.
  intros [[H1 H2 H3 H4] [D1 D2 D3 D4 D5] Hs]. split; [split|split|]; try done.
  - rewrite zlen_app. zlia.
  - destruct (up_log_app ps p) as [t ->]. apply wire_prefix_app; [rewrite sealed_log_zlen; lia|done].
  - rewrite zlen_app. zlia.
  - destruct (down_log_app qs q) as [t ->]. apply wire_prefix_app; [rewrite sealed_log_zlen; lia|done].
Qed.

Lemma cat_ok_grow r ps p u : 0 <= r -> up_base ps u -> cat_ok r ps u -> cat_ok r (ps ++ p) u.
Proof.
  intros Hr [H1 _ _ _]. unfold cat_ok. destruct (u_cat u); [|done]. intros [-> ?].
  split; [|done]. by rewrite up_seg_app by lia.
Qed.

Lemma server_view_grow cur r ps qs p q l k :
  link_base ps qs k -> 0 <= r <= zlen ps ->
  server_view cur r ps qs l k -> server_view cur r (ps ++ p) (qs ++ q) l k.
Proof.
  intros [Hu Hd _] Hr. pose proof Hu as [H1 _ _ _]. pose proof Hd as [D1 _ _ _ _].
  unfold server_view. destruct (lk_ph k); try done.
  - intros (?&?&?&?&?&?&?). split_and!; try done. apply cat_ok_grow; done || lia.
  - intros (?&?&?&?&?&?&?&?). split_and!; try done. apply cat_ok_grow; done || lia.
  - intros (?&?&?&?&?&?&->&?). split_and!; try done. by rewrite up_seg_app by lia.
  - intros (?&?&?&Hb&Ht&?). rewrite zlen_app. split_and!; try done; try zlia.
    + by rewrite down_seg_app by lia.
    + by rewrite up_seg_app by lia.
Qed.

Lemma client_view_grow c ps qs p q links next ph :
  (forall l, link_base ps qs (links l)) -> 0 <= i_recvSeq (c_in c) <= zlen qs ->
  0 <= o_flushed (c_out c) <= zlen ps ->
  client_view c ps qs links next ph -> client_view c (ps ++ p) (qs ++ q) links next ph.
Proof.
  intros Hl Hr Hf. unfold client_view. destruct ph as [|l|l peer snap theirs|l cu rel w|]; try done.
  - destruct (Hl l) as [_ [D1 _ _ _ _] _]. intros (?&?&?&?&?&?&Ht&?&?&?&?). split_and!; try done.
    intros t Hc. destruct (Ht t Hc) as [-> ?]. split; [|done]. by rewrite down_seg_app by lia.
  - destruct (Hl l) as [[U1 _ _ _] [D1 _ _ _ _] _]. intros (?&?&->&Hb&?&Hw). split_and!; try done.
    + by rewrite down_seg_app by lia.
    + by rewrite down_seg_app by lia.
    + destruct w as [b|]; [|by rewrite up_seg_app by lia].
      destruct Hw as (?&?&?&?). rewrite zlen_app. split_and!; try done; try zlia.
      * by rewrite batch_of_app by lia.
      * by rewrite up_seg_app by lia.
Qed.

(** ** Changing one part of the state *)

Lemma flushed_range probe ps o :
  outbound_ok key probe limit ps o -> 0 <= o_flushed o <= zlen ps.
Proof.
  intros [Ho _]. pose proof (ok_flushed _ _ _ _ _ Ho). destruct (ok_ring _ _ _ _ _ Ho). lia.
Qed.

Lemma core_client y c taken p ph :
  core y -> outbound_ok key (c_probe c) limit (y_ps y ++ p) (c_out c) ->
  c_probe c = c_probe (y_c y) -> received_ok (y_qs y) taken c ->
  core (set_client c taken (y_ps y ++ p) ph y).
Proof.
  intros H Ho Hp Hr. destruct H. split; cbn; try done.
  - by rewrite Hp.
  - rewrite v_got0, ztake_app_le by lia. done.
  - rewrite zlen_app. pose proof (zlen_nonneg p). lia.
  - intros l. destruct (v_link0 l) as [Hb Hv].
    pose proof (link_base_grow (y_ps y) (y_qs y) p [] _ Hb) as Hb'.
    pose proof (server_view_grow _ _ _ _ p [] _ _ Hb v_seq0 Hv) as Hv'.
    rewrite app_nil_r in Hb', Hv'. done.
Qed.

Lemma core_link y l k :
  core y -> (l < y_next y)%nat -> resp_ok (s_known (y_s y)) k -> link_base (y_ps y) (y_qs y) k ->
  server_view (y_cur y) (s_recvSeq (y_s y)) (y_ps y) (y_qs y) l k -> core (set_link l k y).
Proof.
  intros H Hl Hk Hb Hv. destruct H. split; cbn; try done.
  - intros i Hi. rewrite decide_False by lia. auto.
  - intros i. destruct (decide (i = l)) as [->|]; auto.
  - intros i. destruct (decide (i = l)) as [->|]; auto.
Qed.

(** Any step of the server's state: it received [p] on the connection that
    took over last, or nothing, and sealed [q]. *)
Lemma core_server y s got q :
  core y -> server_ok key (got ++ s_queue s) (y_qs y ++ q) s ->
  got ++ s_queue s = y_got y ++ s_queue (y_s y) -> s_recvSeq s = s_recvSeq (y_s y) ->
  (s_known (y_s y) = true -> s_known s = true) ->
  Forall (fun q => zlen (p_Payload q) <= maxPayload) q ->
  core (set_server s got (y_qs y ++ q) y).
Proof.
  intros H Hs Hg Hr Hk Hq. destruct H. split; cbn; try done.
  - destruct v_in0 as (? & ? & Hh). split_and!; try done; try lia.
    + rewrite zlen_app. pose proof (zlen_nonneg q). lia.
    + by rewrite ztake_app_le by lia.
  - by rewrite Hr, Hg.
  - by rewrite Hr.
  - by apply Forall_app.
  - destruct (y_cur y); [done|]. by rewrite Hr.
  - auto.
  - intros l Hl. apply Hk, (v_resp0 l Hl).
  - intros l. destruct (v_link0 l) as [Hb Hv]. rewrite Hr.
    pose proof (link_base_grow (y_ps y) (y_qs y) [] q _ Hb) as Hb'.
    pose proof (server_view_grow _ _ _ _ [] q _ _ Hb v_seq0 Hv) as Hv'.
    rewrite app_nil_r in Hb', Hv'. done.
Qed.

(** The client's view looks at the Conn only through its two positions, and at
    its connection only through what was written and its own reads. *)
Definition same_for_client (k k' : conn) : Prop :=
  u_seq (lk_up k') = u_seq (lk_up k) /\ u_cat (lk_up k') = u_cat (lk_up k) /\
  u_bytes (lk_up k') = u_bytes (lk_up k) /\ u_start (lk_up k') = u_start (lk_up k) /\
  d_resp (lk_down k') = d_resp (lk_down k) /\ d_seq (lk_down k') = d_seq (lk_down k) /\
  d_cat (lk_down k') = d_cat (lk_down k) /\ d_bytes (lk_down k') = d_bytes (lk_down k) /\
  d_start (lk_down k') = d_start (lk_down k) /\ d_pos (lk_down k') = d_pos (lk_down k).

Lemma client_view_same c c' ps qs links links' next ph :
  i_recvSeq (c_in c') = i_recvSeq (c_in c) -> o_flushed (c_out c') = o_flushed (c_out c) ->
  (forall l, client_link ph = Some l -> same_for_client (links l) (links' l)) ->
  client_view c ps qs links next ph -> client_view c' ps qs links' next ph.
Proof.
  intros Hr Hf Hl. unfold client_view. rewrite Hr, Hf.
  destruct ph as [|l|l peer snap theirs|l cu rel w|]; try done;
    destruct (Hl l eq_refl) as (E1&E2&E3&E4&E5&E6&E7&E8&E9&E10);
    rewrite ?E1, ?E2, ?E3, ?E4, ?E5, ?E6, ?E7, ?E8, ?E9, ?E10; done.
Qed.

Lemma same_for_client_refl k : same_for_client k k.
Proof. done. Qed.

(** A change of one connection that the client does not see. *)
Lemma cli_link y l k :
  cli y -> (client_link (y_ph y) = Some l -> same_for_client (y_links y l) k) -> cli (set_link l k y).
Proof.
  intros [H1 H2 H3] Hs. split; cbn; try done.
  eapply client_view_same; [done|done| |exact H3]. intros i Hi. cbn.
  destruct (decide (i = l)) as [->|]; [by apply Hs|done].
Qed.

Lemma cli_server y s got q :
  core y -> cli y -> cli (set_server s got (y_qs y ++ q) y).
Proof.
  intros H [H1 H2 H3]. split; cbn; try done.
  pose proof (client_view_grow (y_c y) (y_ps y) (y_qs y) [] q (y_links y) (y_next y) (y_ph y)) as Hg.
  rewrite app_nil_r in Hg. apply Hg; [intros l; apply (v_link _ H)|apply (v_in _ H)|
    eapply flushed_range; apply (v_out _ H)|done].
Qed.
End DeliveryInv.

(** The key and the limit follow from the hypotheses. *)
#[global] Arguments v_out {HB key limit}.
#[global] Arguments v_probe {HB key limit}.
#[global] Arguments v_in {HB key limit}.
#[global] Arguments v_srv {HB key limit}.
#[global] Arguments v_got {HB key limit}.
#[global] Arguments v_seq {HB key limit}.
#[global] Arguments v_fit {HB key limit}.
#[global] Arguments v_next {HB key limit}.
#[global] Arguments v_cur {HB key limit}.
#[global] Arguments v_known {HB key limit}.
#[global] Arguments v_resp {HB key limit}.
#[global] Arguments v_link {HB key limit}.
#[global] Arguments flushed_range {HB key limit}.
#[global] Arguments core_client {HB key limit}.
#[global] Arguments core_link {HB key limit}.
#[global] Arguments core_server {HB key limit}.
#[global] Arguments cli_server {HB key limit}.
#[global] Arguments ub_start {HB key}.
#[global] Arguments ub_bytes {HB key}.
#[global] Arguments ub_pos {HB key}.
#[global] Arguments ub_cat {HB key}.
#[global] Arguments db_start {HB key}.
#[global] Arguments db_bytes {HB key}.
#[global] Arguments db_pos {HB key}.
#[global] Arguments db_cat {HB key}.
#[global] Arguments db_new {HB key}.
#[global] Arguments lb_up {HB key}.
#[global] Arguments lb_down {HB key}.
#[global] Arguments lb_seq {HB key}.
#[global] Arguments v_ctx {HB key}.
#[global] Arguments v_first {HB key}.
#[global] Arguments v_client {HB key}.
#[global] Arguments up_log_app {HB key}.
#[global] Arguments down_log_app {HB key}.
#[global] Arguments up_seg_app {HB key}.
#[global] Arguments down_seg_app {HB key}.
#[global] Arguments link_base_grow {HB key}.
#[global] Arguments cat_ok_grow {HB key}.
#[global] Arguments server_view_grow {HB key}.
#[global] Arguments client_view_grow {HB key}.
#[global] Arguments client_view_same {HB key}.
#[global] Arguments cli_link {HB key}.
