(* ===== verification/DeliveryClient.v ===== *)
(** * The client's steps keep the delivery invariant

    One lemma per rule of [client_step]: enqueueing, the handshake of a new
    and of a returning client, the reader and the writer of the link. *)

From S2P Require Export DeliveryInv.
Local Open Scope Z_scope.

Section DeliveryClient.
Context `{HB : SecretBox}.
Variable key : bytes.
Variable limit : Z.

Local Notation up_log ps := (sealed_log key ClientToServer ps).
Local Notation down_log qs := (sealed_log key ServerToClient qs).
Local Notation inv := (inv key limit).
Local Notation core := (core key limit).
Local Notation cli := (cli key).
Local Notation link_base := (link_base key).
Local Notation server_view := (server_view key).
Local Notation client_view := (client_view key).
Local Notation received_ok := (received_ok key).
Local Notation cat_ok := (cat_ok key).

Lemma WritePacket_attempt_frame p c c' :
  WritePacket_attempt p c = (c', Written) ->
  c_out c' = enqueueLocked p (c_out c) /\ c_in c' = c_in c /\ c_inbox c' = c_inbox c /\
  c_ctx c' = c_ctx c /\ c_probe c' = c_probe c /\ c_id c' = c_id c /\
  o_unsent (c_out c) <= r_limit (o_ring (c_out c)).
Proof.
  unfold WritePacket_attempt. destruct (c_ctx c) eqn:Hc; [done|].
  destruct (Z.leb_spec (o_unsent (c_out c)) (r_limit (o_ring (c_out c)))); [|done].
  destruct (_ <=? _); intros [= <-]; cbn; by rewrite Hc.
Qed.

Lemma client_view_out c c' ps p qs links next ph :
  (forall l, link_base ps qs (links l)) -> 0 <= i_recvSeq (c_in c) <= zlen qs ->
  0 <= o_flushed (c_out c) <= zlen ps -> c_in c' = c_in c -> o_flushed (c_out c') = o_flushed (c_out c) ->
  client_view c ps qs links next ph -> client_view c' (ps ++ p) qs links next ph.
Proof.
  intros Hl Hr Hf Hi Ho Hv.
  pose proof (client_view_grow c ps qs p [] links next ph Hl Hr Hf Hv) as Hg. rewrite app_nil_r in Hg.
  eapply client_view_same; [|done| |exact Hg]; [by rewrite Hi|done].
Qed.

(** A step of the outbound state that appends [p] and leaves [flushed]. *)
Lemma inv_enqueue y c p :
  inv y -> outbound_ok key (c_probe c) limit (y_ps y ++ p) (c_out c) ->
  c_probe c = c_probe (y_c y) -> c_in c = c_in (y_c y) -> c_inbox c = c_inbox (y_c y) ->
  c_ctx c = c_ctx (y_c y) -> o_flushed (c_out c) = o_flushed (c_out (y_c y)) ->
  inv (set_client c (y_taken y) (y_ps y ++ p) (y_ph y) y).
Proof.
  intros [Hc [H1 H2 H3]] Ho Hp Hi Hx Ht Hf. split.
  - apply core_client; try done. destruct (v_in _ Hc) as (?&?&?). unfold received_ok. by rewrite Hi, Hx.
  - split; cbn.
    + by rewrite Ht.
    + by rewrite Hi, Hf.
    + eapply client_view_out; [intros l; apply (v_link _ Hc)|apply (v_in _ Hc)|
        eapply flushed_range; apply (v_out _ Hc)|done|done|done].
Qed.

Lemma step_write_inv y p c' :
  inv y -> zlen (y_ps y ++ [p]) < 2 ^ 184 ->
  zlen (p_Payload p) <= maxPayload -> WritePacket_attempt p (y_c y) = (c', Written) ->
  inv (set_client c' (y_taken y) (y_ps y ++ [p]) (y_ph y) y).
Proof.
  intros Hi Hsz Hp Hw. apply WritePacket_attempt_frame in Hw as (Ho & Hin & Hx & Ht & Hpr & _ & Hu).
  pose proof (v_out _ (proj1 Hi)) as Hok. rewrite (ok_limit _ _ _ _ _ (proj1 Hok)) in Hu.
  rewrite zlen_app in Hsz. change (zlen [p]) with 1 in Hsz.
  apply inv_enqueue; try done.
  - rewrite Hpr, Ho. by apply enqueueLocked_ok.
  - rewrite Ho. apply enqueueLocked_ring.
Qed.

Lemma step_probe_inv y l cu rel w :
  inv y -> y_ph y = CRun l cu rel w ->
  let ps' := if o_lastProbe (c_out (y_c y)) >=? o_flushed (c_out (y_c y)) then y_ps y
             else y_ps y ++ [c_probe (y_c y)] in
  zlen ps' < 2 ^ 184 ->
  inv (set_client (probeOnce (y_c y)) (y_taken y) ps' (y_ph y) y).
Proof.
  intros Hi Hph. cbv zeta. unfold probeOnce. rewrite Z.geb_leb.
  pose proof (v_out _ (proj1 Hi)) as Hok. pose proof (v_probe _ (proj1 Hi)) as Hpr.
  destruct (Z.leb_spec (o_flushed (c_out (y_c y))) (o_lastProbe (c_out (y_c y)))); intros Hsz.
  - pose proof (inv_enqueue y (y_c y) [] Hi) as Hg. rewrite app_nil_r in Hg. by apply Hg.
  - rewrite zlen_app in Hsz. change (zlen [c_probe (y_c y)]) with 1 in Hsz.
    apply inv_enqueue; try done; cbn [c_out set_out signal_wake set_signals c_probe].
    + by apply enqueueLocked_probe_ok.
Qed.

Lemma step_read_inv y k p c' :
  inv y -> ReadPacket None k (y_c y) = Some (c', inl p) ->
  inv (set_client c' (y_taken y ++ [p]) (y_ps y) (y_ph y) y).
Proof.
  intros [Hc [H1 H2 H3]] Hr.
  assert (c_out c' = c_out (y_c y) /\ c_probe c' = c_probe (y_c y) /\ c_ctx c' = c_ctx (y_c y) /\
    i_in (c_in c') = i_in (c_in (y_c y)) /\ i_recvSeq (c_in c') = i_recvSeq (c_in (y_c y)) /\
    c_inbox (y_c y) ++ i_pending (c_in (y_c y)) = p :: c_inbox c' ++ i_pending (c_in c'))
    as (Ho & Hp & Hx & Hi & Hs & Hh).
  { unfold ReadPacket in Hr. destruct k; cbn in Hr.
    - destruct (c_inbox (y_c y)) as [|q rest] eqn:Hb; [done|]. by injection Hr as <- <-.
    - done.
    - destruct (c_ctx (y_c y)) eqn:Hx; [|done]. cbn in Hr. destruct (c_readerDone (y_c y)); [|done].
      destruct (c_inbox (y_c y)) as [|q rest] eqn:Hb.
      + destruct (i_pending (c_in (y_c y))) as [|q rest] eqn:Hq; [done|].
        injection Hr as <- <-. cbn. by rewrite Hb.
      + by injection Hr as <- <-.
    - destruct (c_ctx (y_c y)); [|done]. cbn in Hr. by destruct (c_readerDone (y_c y)). }
  destruct (v_in _ Hc) as (Hin & Hrg & Hhist). split.
  - pose proof (core_client y c' (y_taken y ++ [p]) [] (y_ph y) Hc) as Hg. rewrite app_nil_r in Hg.
    apply Hg; [by rewrite Hp, Ho; apply (v_out _ Hc)|done|].
    unfold received_ok. rewrite Hi, Hs. split_and!; try done; try lia.
    rewrite <- Hhist, <- app_assoc. by rewrite Hh.
  - split; cbn.
    + by rewrite Hx.
    + by rewrite Hs, Ho.
    + eapply client_view_same; [done|by rewrite Ho|done|done].
Qed.

Lemma no_conn_base ps qs : link_base ps qs no_conn /\ link_base ps qs new_conn.
Proof.
  pose proof (zlen_nonneg ps). pose proof (zlen_nonneg qs).
  split; (split; [split|split|]); cbn; try done; try lia; apply prefix_nil.
Qed.

Lemma step_dial_inv y :
  inv y -> y_ph y = CIdle ->
  inv (set_next (S (y_next y)) (set_ph (CReq (y_next y)) (set_link (y_next y) new_conn y))).
Proof.
  intros [Hc [H1 H2 H3]] Hph. rewrite Hph in *. split.
  - destruct Hc. split; cbn; try done.
    + intros l Hl. rewrite decide_False by lia. apply v_next. lia.
    + destruct (y_cur y); [lia|done].
    + intros l. destruct (decide (l = y_next y)) as [->|]; [|auto]. by intros [].
    + intros l. destruct (decide (l = y_next y)) as [->|]; [|auto].
      split; [apply no_conn_base|]. by cbn.
  - split; cbn; try done.
    + intros Hf. destruct (H2 Hf) as (? & ? & ? & ->). split_and!; try done; lia.
    + rewrite decide_True by done. split_and!; try done. lia.
Qed.

Lemma client_link_next y l : inv y -> client_link (y_ph y) = Some l -> (l < y_next y)%nat.
Proof.
  intros [_ [_ _ H3]] Hl. unfold client_view, client_link in *.
  destruct (y_ph y); try done; injection Hl as <-; by destruct H3.
Qed.

Lemma inv_server_view y l :
  inv y -> server_view (y_cur y) (s_recvSeq (y_s y)) (y_ps y) (y_qs y) l (y_links y l).
Proof. intros [Hc _]. apply (v_link _ Hc). Qed.

Lemma inv_link_base y l : inv y -> link_base (y_ps y) (y_qs y) (y_links y l).
Proof. intros [Hc _]. apply (v_link _ Hc). Qed.

(** The server does not see how far the client has read. *)
Lemma base_down_taken ps qs n j k :
  link_base ps qs k -> 0 <= j <= zlen (d_bytes (lk_down k)) ->
  link_base ps qs (with_down (down_taken n j (lk_down k)) k).
Proof. intros [Hu [D1 D2 D3 D4 D5] Hs] Hj. split; [done|split|]; done. Qed.

Lemma view_down_taken cur r ps qs l n j k :
  server_view cur r ps qs l k -> server_view cur r ps qs l (with_down (down_taken n j (lk_down k)) k).
Proof. exact (fun H => H). Qed.

Lemma core_running y c ph first' :
  core y -> (first' = false -> s_known (y_s y) = true) ->
  outbound_ok key (c_probe c) limit (y_ps y) (c_out c) -> c_probe c = c_probe (y_c y) ->
  c_in c = c_in (y_c y) -> c_inbox c = c_inbox (y_c y) ->
  core (MkSys c (y_taken y) (y_ps y) ph first' (y_s y) (y_got y) (y_qs y) (y_cur y) (y_links y) (y_next y)).
Proof.
  intros H Hk Ho Hp Hi Hx. destruct H. split; cbn; try done; [by rewrite Hp|].
  unfold received_ok in *. by rewrite Hi, Hx.
Qed.

(** The client starts on a connection: [k] is what it made of it. *)
Lemma inv_start y l k c ph first' :
  inv y -> (l < y_next y)%nat -> resp_ok (s_known (y_s y)) k ->
  (first' = false -> s_known (y_s y) = true) ->
  outbound_ok key (c_probe c) limit (y_ps y) (c_out c) -> c_probe c = c_probe (y_c y) ->
  c_in c = c_in (y_c y) -> c_inbox c = c_inbox (y_c y) ->
  link_base (y_ps y) (y_qs y) k ->
  server_view (y_cur y) (s_recvSeq (y_s y)) (y_ps y) (y_qs y) l k ->
  cli (set_link l k (MkSys c (y_taken y) (y_ps y) ph first' (y_s y) (y_got y) (y_qs y) (y_cur y)
         (y_links y) (y_next y))) ->
  inv (set_link l k (MkSys c (y_taken y) (y_ps y) ph first' (y_s y) (y_got y) (y_qs y) (y_cur y)
         (y_links y) (y_next y))).
Proof. intros [Hc _] ??????????. split; [|done]. apply core_link; try done. by apply core_running. Qed.

Lemma step_new_inv y l :
  inv y -> y_ph y = CReq l -> y_first y = true ->
  d_resp (lk_down (y_links y l)) = Some NEW_CLIENT ->
  inv (set_link l (with_down (down_taken 1 0 (lk_down (y_links y l))) (y_links y l))
    (set_running (CRun l [] false None) (y_c y) y)).
Proof.
  intros Hi Hph Hf Hr. pose proof (inv_link_base y l Hi) as Hb. pose proof (inv_server_view y l Hi) as Hv.
  pose proof Hi as [Hc [H1 H2 H3]]. rewrite Hph in H1, H2, H3. destruct H3 as (Hl & Hs & Hcat & Hby & Hpos).
  destruct (H2 Hf) as (Hn & Hrc & Hfl & _). pose proof Hb as [[U1 U2 U3 U4] [D1 D2 D3 D4 D5] _].
  specialize (U4 Hcat). specialize (D4 (D5 Hr)).
  apply inv_start; try done.
  - exact (v_resp _ Hc l).
  - intros _. apply (v_resp _ Hc l). by left.
  - apply (v_out _ Hc).
  - apply base_down_taken; [done|lia].
  - split; cbn; try done. rewrite decide_True by done. cbn. rewrite D4, U4, Hrc, Hfl, Hby.
    rewrite !seg_nil by lia. split_and!; try done; try lia. by left.
Qed.

Lemma to_int32_small n : 0 <= n <= MaxInt32 -> to_int32 n = n.
Proof. intros ?. unfold to_int32. apply wrap_s_id; [done|]. unfold MaxInt32 in *. cbn. lia. Qed.

Lemma step_returning_inv y l :
  inv y -> y_ph y = CReq l -> d_resp (lk_down (y_links y l)) = Some RETURNING_CLIENT ->
  i_recvSeq (c_in (y_c y)) <= MaxInt32 ->
  inv (set_ph (CRec l None None None)
    (set_link l (MkLk (up_written (Some (to_int32 (i_recvSeq (c_in (y_c y))))) None [] 0
        (lk_up (y_links y l))) (down_taken 1 0 (lk_down (y_links y l))) (lk_ph (y_links y l))) y)).
Proof.
  intros Hi Hph Hr Hmax. pose proof (inv_link_base y l Hi) as Hb. pose proof (inv_server_view y l Hi) as Hv.
  pose proof Hi as [Hc [H1 H2 H3]]. rewrite Hph in H1, H2, H3. destruct H3 as (Hl & Hs & Hcat & Hby & Hpos).
  pose proof Hb as [[U1 U2 U3 U4] [D1 D2 D3 D4 D5] Hd]. specialize (U4 Hcat). specialize (Hd Hs).
  destruct (v_in _ Hc) as (_ & Hrg & _). rewrite Hby in U3. change (zlen []) with 0 in U3.
  apply (inv_start y l _ (y_c y) (CRec l None None None) (y_first y)); try done.
  - exact (v_resp _ Hc l).
  - apply (v_known _ Hc).
  - apply (v_out _ Hc).
  - split; [split|split|]; cbn; try done; try lia; apply prefix_nil.
  - unfold server_view in *. cbn. destruct (lk_ph (y_links y l)) as [|st| |f|rest f|f| |]; try done.
    + destruct Hv as (_&_&_&_&?&_). congruence.
    + destruct Hv as (?&?&?&?&?&?&[?|[? ?]]); split_and!; try done; [by left|right; done].
    + destruct Hv as (?&?&?&?&?&?&Hco). split_and!; try done.
    + destruct Hv as (_&_&_&_&_&_&?&_). congruence.
    + destruct Hv as (_&_&_&_&?&_). congruence.
    + destruct Hv as (_&_&[Hn|[? _]]&_); [|congruence]. by rewrite Hr in Hn.
  - split; cbn; try done. rewrite decide_True by done. cbn.
    rewrite to_int32_small by lia. split_and!; try done. intros t Ht. congruence.
Qed.

Lemma step_peer_inv y l snap n :
  inv y -> y_ph y = CRec l None snap None -> d_seq (lk_down (y_links y l)) = Some n ->
  inv (set_ph (CRec l (Some n) snap None)
    (set_link l (with_down (down_taken 2 0 (lk_down (y_links y l))) (y_links y l)) y)).
Proof.
  intros Hi Hph Hn. pose proof (inv_link_base y l Hi) as Hb. pose proof (inv_server_view y l Hi) as Hv.
  pose proof Hi as [Hc [H1 H2 H3]]. rewrite Hph in H1, H2, H3.
  destruct H3 as (Hl&?&?&?&Hpos&?&?&?&Hnone&?&?). destruct (Hnone eq_refl) as [-> _].
  apply (inv_start y l _ (y_c y) (CRec l (Some n) None None) (y_first y)); try done.
  - exact (v_resp _ Hc l).
  - apply (v_known _ Hc).
  - apply (v_out _ Hc).
  - apply base_down_taken; [done|]. pose proof (db_pos _ _ (lb_down _ _ _ Hb)). lia.
  - split; cbn; try done. rewrite decide_True by done. cbn. split_and!; try done. by intros ? [= <-].
Qed.

Lemma step_theirs_inv y l n snap t :
  inv y -> y_ph y = CRec l (Some n) snap None -> d_cat (lk_down (y_links y l)) = Some t ->
  inv (set_ph (CRec l (Some n) snap (Some t))
    (set_link l (with_down (down_taken 3 0 (lk_down (y_links y l))) (y_links y l)) y)).
Proof.
  intros Hi Hph Hn. pose proof (inv_link_base y l Hi) as Hb. pose proof (inv_server_view y l Hi) as Hv.
  pose proof Hi as [Hc [H1 H2 H3]]. rewrite Hph in H1, H2, H3.
  destruct H3 as (Hl&?&?&?&Hpos&?&?&?&_&?&?).
  apply (inv_start y l _ (y_c y) (CRec l (Some n) snap (Some t)) (y_first y)); try done.
  - exact (v_resp _ Hc l).
  - apply (v_known _ Hc).
  - apply (v_out _ Hc).
  - apply base_down_taken; [done|]. pose proof (db_pos _ _ (lb_down _ _ _ Hb)). lia.
  - split; cbn; try done. rewrite decide_True by done. cbn. split_and!; try done. by intros ? [= <-].
Qed.
(** A step that leaves the logs. *)
Lemma core_client_same y c taken ph :
  core y -> outbound_ok key (c_probe c) limit (y_ps y) (c_out c) ->
  c_probe c = c_probe (y_c y) -> received_ok (y_qs y) taken c ->
  core (set_client c taken (y_ps y) ph y).
Proof.
  intros Hc. pose proof (core_client y c taken [] ph Hc) as Hg. by rewrite app_nil_r in Hg.
Qed.

Lemma step_catchup_write_inv y l n theirs ours :
  inv y -> limit <= 64 * 1024 * 1024 -> y_ph y = CRec l (Some n) None theirs ->
  let snap := ring_next (o_ring (c_out (y_c y))) in
  since (o_ring (c_out (y_c y))) n snap = Some (Some ours) ->
  inv (set_ph (CRec l (Some n) (Some snap) theirs)
    (set_link l (with_up (up_written (u_seq (lk_up (y_links y l))) (Some ours) [] snap
       (lk_up (y_links y l))) (y_links y l)) y)).
Proof.
  intros Hi Hlim Hph snap Hs. pose proof (inv_link_base y l Hi) as Hb. pose proof (inv_server_view y l Hi) as Hv.
  pose proof Hi as [Hc [H1 H2 H3]]. rewrite Hph in H1, H2, H3.
  destruct H3 as (Hl&?&?&Hub&Hpos&Hr&?&Hpeer&?&?&Hcat). specialize (Hpeer n eq_refl).
  pose proof (v_out _ Hc) as Hok. pose proof (ok_ring _ _ _ _ _ (proj1 Hok)) as Hrl.
  pose proof (ok_flushed _ _ _ _ _ (proj1 Hok)) as Hfl.
  assert (snap = zlen (y_ps y)) as Hsnap by (unfold snap; by rewrite (ring_of_log_next _ _ Hrl), sealed_log_zlen).
  rewrite (since_log _ _ _ _ Hrl), Hsnap in Hs. injection Hs as Hs.
  case_decide as Hrange; [|done]. injection Hs as <-. rewrite sealed_log_zlen in Hrange.
  pose proof Hb as [[U1 U2 U3 U4] Hd Hseq]. pose proof (db_pos _ _ Hd) as Hdp.
  rewrite Hub in U3. change (zlen []) with 0 in U3. rewrite Hsnap.
  apply (inv_start y l _ (y_c y) (CRec l (Some n) (Some (zlen (y_ps y))) theirs) (y_first y)); try done.
  - exact (v_resp _ Hc l).
  - apply (v_known _ Hc).
  - split; [split|done|done]; cbn; try done; try lia. apply prefix_nil.
  - assert (d_seq (lk_down (y_links y l)) = Some (to_int32 (s_recvSeq (y_s y))) ->
      n = s_recvSeq (y_s y)) as Hn.
    { intros Hds. rewrite Hpeer in Hds. injection Hds as ->.
      destruct (Z.le_gt_cases (s_recvSeq (y_s y)) MaxInt32); [apply to_int32_small; pose proof (v_seq _ Hc); lia|].
      pose proof (wrapped_before_ring _ _ _ _ _ _ Hok Hlim (v_probe _ Hc) (v_seq _ Hc)). lia. }
    unfold DeliveryInv.server_view, DeliveryInv.cat_ok in *. cbn.
    destruct (lk_ph (y_links y l)) as [|st| |f|rest f|f| |]; try done.
    + destruct Hv as (_&_&_&_&?&_). congruence.
    + destruct Hv as (_&_&_&?&_). congruence.
    + destruct Hv as (?&?&?&Hds&?&?&_). specialize (Hn Hds).
      split_and!; try done; try lia. by rewrite Hn.
    + destruct Hv as (?&?&?&Hds&?&?&?&_). specialize (Hn Hds).
      split_and!; try done; try lia. by rewrite Hn.
    + destruct Hv as (_&_&_&_&?&_). congruence.
    + destruct Hv as (_&_&[Hnw|[? _]]&_); [|congruence]. by rewrite Hr in Hnw.
  - split; cbn; try done. rewrite decide_True by done. cbn. split_and!; try done; try lia.
    by intros ? [= <-].
Qed.

Lemma recover_commit_frame snap n c c' :
  recover_commit snap n c = Some c' ->
  c_in c' = c_in c /\ c_inbox c' = c_inbox c /\ c_ctx c' = c_ctx c /\ c_probe c' = c_probe c.
Proof.
  unfold recover_commit. destruct (bytesBetween _ _ _); [|done]. cbn.
  intros [= <-]. by case_match.
Qed.

Lemma step_commit_inv y l n snap t c' :
  inv y -> y_ph y = CRec l (Some n) (Some snap) (Some t) -> recover_commit snap n (y_c y) = Some c' ->
  inv (set_running (CRun l t false None) c' y).
Proof.
  intros Hi Hph Hcm. pose proof (inv_link_base y l Hi) as Hb.
  pose proof Hi as [Hc [H1 H2 H3]]. rewrite Hph in H1, H2, H3.
  destruct H3 as (Hl&?&?&Hub&Hpos&Hr&Ht&_&_&Hth&Huc&Hus&Hfs).
  pose proof (v_out _ Hc) as Hok. pose proof (ub_start _ _ (lb_up _ _ _ Hb)) as Hust.
  destruct (recover_commit_ok _ _ _ _ snap n _ Hok ltac:(lia)) as (c'' & Hcm' & Hok' & Hfl' & _).
  rewrite Hcm in Hcm'. injection Hcm' as <-.
  destruct (recover_commit_frame _ _ _ _ Hcm) as (E1 & E2 & E3 & E4).
  specialize (Hth t eq_refl). destruct (Ht t Hth) as [Hteq Hle].
  split.
  - apply core_running; try done; [|by rewrite E4]. intros _. apply (v_resp _ Hc l). by right.
  - split; cbn; try done; [by rewrite E3|].
    rewrite E1, Hfl', Hpos, Hub, Hteq, <- Hus.
    split_and!; try done; try lia.
    + right. split_and!; try done. congruence.
    + by rewrite !seg_nil.
    + by rewrite !seg_nil by lia.
Qed.
(** ** The link's reader *)

Lemma step_pending_inv y l cu rel w p rest ev s' :
  inv y -> y_ph y = CRun l cu rel w -> i_pending (c_in (y_c y)) = p :: rest ->
  handOver p (reader_at y (y_c y) ev) = (s', Ret tt) ->
  inv (set_client
    (set_in (MkInbound (i_in (c_in (rs_conn s'))) (i_recvSeq (c_in (rs_conn s'))) rest) (rs_conn s'))
    (rs_taken s') (y_ps y) (y_ph y) y).
Proof.
  intros [Hc [H1 H2 H3]] Hph Hp Hh. apply handOver_cases in Hh as (inbox' & Hcn & Htk & _).
  cbn in Htk. rewrite Hcn. cbn [set_inbox c_in c_out].
  pose proof (v_in _ Hc) as (Hin & Hrg & Hhist). split.
  - apply core_client_same; try done; cbn; [apply (v_out _ Hc)|].
    split_and!; cbn; try done; try lia. rewrite <- Hhist, Hp, app_assoc, Htk, <- !app_assoc. done.
  - split; cbn; try done.
Qed.

(** The next packet of the server's log, read by the client. *)
Lemma read_next y c q b ev s' o :
  core y -> zlen (y_qs y) < 2 ^ 184 ->
  c_in c = c_in (y_c y) -> c_inbox c = c_inbox (y_c y) ->
  i_pending (c_in c) = [] -> y_qs y !! Z.to_nat (i_recvSeq (c_in c)) = Some q ->
  b = sealed_at key ServerToClient (i_recvSeq (c_in c)) q ->
  deliver b (reader_at y c ev) = (s', o) -> o <> Wait ->
  c_out (rs_conn s') = c_out c /\ c_probe (rs_conn s') = c_probe c /\ c_ctx (rs_conn s') = c_ctx c /\
  received_ok (y_qs y) (rs_taken s') (rs_conn s') /\
  (o = Ret tt -> i_recvSeq (c_in (rs_conn s')) = i_recvSeq (c_in c) + 1).
Proof.
  intros Hc Hsz Hin Hbx Hp Hq -> Hd Ho. pose proof (v_in _ Hc) as (Hst & Hrg & Hhist).
  pose proof (lookup_lt_Some _ _ _ Hq) as Hlt. unfold zlen in Hrg, Hsz.
  rewrite Hin in Hlt.
  assert (zlen (p_Payload q) <= maxPayload) as Hfit
    by exact (proj1 (Forall_lookup _ _) (v_fit _ Hc) _ _ Hq).
  pose proof (deliver_probe _ _ _ _ Hd) as Hpr. apply deliver_delivered in Hd as [Hd Hout]; [|done].
  destruct (delivered_sealed key ServerToClient (i_recvSeq (c_in c)) [q] _ (reader_at y c ev) s' o ltac:(rewrite Hin; lia)
    ltac:(change (zlen [q]) with 1; rewrite Hin; lia) ltac:(by constructor) ltac:(cbn; by rewrite Hin) ltac:(done) Hd)
    as (n & hand & Hn & Hh & Hr & Hi & Hx & Hhand & Hret).
  rewrite (Hhand Ho), app_nil_r in Hh. unfold history in Hh. cbn [reader_at rs_taken rs_conn] in *.
  cbn [length sealed_from] in Hn. split_and!; try done.
  - assert (ztake (i_recvSeq (c_in c) + Z.of_nat n) (y_qs y) =
      ztake (i_recvSeq (c_in c)) (y_qs y) ++ take n [q]) as Htk.
    { destruct n as [|[|]]; [by rewrite Z.add_0_r, app_nil_r| |lia].
      unfold ztake. replace (Z.to_nat _) with (S (Z.to_nat (i_recvSeq (c_in c)))) by (rewrite Hin; lia).
      by rewrite (take_S_r _ _ _ Hq). }
    split_and!; [by rewrite Hi, Hr|rewrite Hr, Hin; lia|unfold zlen; rewrite Hr, Hin; lia|].
    rewrite Hh, Hr, Htk, Hbx, Hin, Hhist. done.
  - intros ->. destruct Hret as [-> _]. cbn in Hr. lia.
Qed.

Lemma step_deliver_inv y l b cu rel w ev s' o :
  inv y -> zlen (y_qs y) < 2 ^ 184 -> y_ph y = CRun l (b :: cu) rel w -> i_pending (c_in (y_c y)) = [] ->
  deliver b (reader_at y (y_c y) ev) = (s', o) -> o <> Wait ->
  inv (set_client (rs_conn s') (rs_taken s') (y_ps y) (after_read o (rs_conn s') (CRun l cu rel w)) y).
Proof.
  intros Hi Hsz Hph Hp Hd Ho. pose proof (inv_link_base y l Hi) as Hb.
  pose proof Hi as [Hc [H1 H2 H3]]. rewrite Hph in H1, H2, H3.
  destruct H3 as (Hl & Hst & Hcu & Htk & Hrest). pose proof (v_in _ Hc) as (_ & Hrg & _).
  destruct (seg_cons (down_log (y_qs y)) _ _ _ _ (proj1 Hrg) (eq_sym Hcu)) as (Hlk & Hlt & Hcu').
  unfold sealed_log in Hlk. rewrite sealed_from_lookup in Hlk.
  destruct (y_qs y !! Z.to_nat (i_recvSeq (c_in (y_c y)))) as [q|] eqn:Hq; [|done].
  injection Hlk as Hbq. rewrite Z2Nat.id, Z.add_0_l in Hbq by lia.
  destruct (read_next y (y_c y) q b ev s' o Hc Hsz eq_refl eq_refl Hp Hq (eq_sym Hbq) Hd Ho)
    as (E1 & E2 & E3 & E4 & E5).
  split; [apply core_client_same; try done; by rewrite E2, E1; apply (v_out _ Hc)|].
  destruct o as [[]|e|]; [|cbn; rewrite E3, H1|done]; cbn.
  - split; cbn; [by rewrite E3|by intros Hf; destruct (H2 Hf) as (_&_&_&?)|].
    rewrite (E5 eq_refl), E1. split_and!; try done; try apply Hrest.
    assert (forall x, i_recvSeq (c_in (y_c y)) < x ->
      seg (down_log (y_qs y)) x (i_recvSeq (c_in (y_c y)) + 1) =
      seg (down_log (y_qs y)) x (i_recvSeq (c_in (y_c y)))) as Hnil by (intros x ?; by rewrite !seg_nil by lia).
    by rewrite Hnil by lia.
  - split; cbn; [by rewrite E3|by intros Hf; destruct (H2 Hf) as (_&_&_&?)|done].
Qed.
Lemma releaseHold_frame ps c :
  outbound_ok key (c_probe c) limit ps (c_out c) ->
  let c' := releaseHold c in
  outbound_ok key (c_probe c') limit ps (c_out c') /\ o_flushed (c_out c') = o_flushed (c_out c) /\
  c_in c' = c_in c /\ c_inbox c' = c_inbox c /\ c_ctx c' = c_ctx c /\ c_probe c' = c_probe c.
Proof.
  intros Hok. cbv zeta. destruct (r_held (o_ring (c_out c))) eqn:Hh.
  - destruct (releaseHold_moved _ _ _ _ _ (proj1 Hok) Hh) as [Ho Hp].
    pose proof (ok_flushed _ _ _ _ _ (proj1 Hok)).
    pose proof (release_ok _ _ _ _ _ (o_flushed (c_out c)) false (r_hold (o_ring (c_out c)))
      (proj1 Hok) ltac:(lia)) as Hr.
    rewrite Hp, Ho. split_and!; try done; unfold releaseHold; by rewrite Hh.
  - unfold releaseHold. by rewrite Hh.
Qed.

Lemma down_log_fits y : core y -> Forall (fun x => zlen x <= MaxFrameSize) (down_log (y_qs y)).
Proof. intros Hc. apply sealed_from_fits, (v_fit _ Hc). Qed.

Lemma up_log_fits y : core y -> Forall (fun x => zlen x <= MaxFrameSize) (up_log (y_ps y)).
Proof. intros Hc. apply sealed_from_fits, (v_out _ Hc). Qed.

(** What the client stands at: the start of its link's stream is not behind it. *)
Lemma down_start y l rel w :
  inv y -> y_ph y = CRun l [] rel w ->
  d_start (lk_down (y_links y l)) <= i_recvSeq (c_in (y_c y)).
Proof.
  intros Hi Hph. pose proof (inv_link_base y l Hi) as [_ [D1 D2 D3 _ _] _].
  pose proof Hi as [Hc [_ _ H3]]. rewrite Hph in H3. destruct H3 as (_ & _ & Hcu & _).
  pose proof (v_in _ Hc) as (_ & Hrg & _).
  destruct (Z.le_gt_cases (d_start (lk_down (y_links y l))) (i_recvSeq (c_in (y_c y)))) as [|Hgt]; [done|]. exfalso.
  apply (f_equal zlen) in Hcu. change (zlen []) with 0 in Hcu.
  rewrite seg_zlen in Hcu by (rewrite ?sealed_log_zlen; lia). lia.
Qed.

(** The frame at the client's position is the next packet of the server's log. *)
Lemma down_next y l rel w frame :
  inv y -> y_ph y = CRun l [] rel w ->
  let d := lk_down (y_links y l) in let rc := i_recvSeq (c_in (y_c y)) in
  frame_outcome (down_unread d) (Sentinel io_EOF) = Ok frame ->
  exists q, y_qs y !! Z.to_nat rc = Some q /\ frame = sealed_at key ServerToClient rc q /\
    0 <= d_pos d + frame_consumed (down_unread d) <= zlen (d_bytes d) /\
    d_start d <= rc /\
    ztake (d_pos d + frame_consumed (down_unread d)) (d_bytes d) =
      wire_bytes (seg (down_log (y_qs y)) (d_start d) (rc + 1)).
Proof.
  intros Hi Hph d rc Hf. pose proof (inv_link_base y l Hi) as [_ [D1 D2 D3 _ _] _].
  pose proof Hi as [Hc [_ _ H3]]. rewrite Hph in H3. destruct H3 as (_ & _ & Hcu & Htk & _).
  pose proof (v_in _ Hc) as (_ & Hrg & _). fold d rc in Hcu, Htk. fold rc in Hrg. fold d in D1, D2, D3.
  pose proof (down_start _ _ _ _ Hi Hph) as Hle. fold d rc in Hle.
  destruct (stream_next (down_log (y_qs y)) (d_start d) rc (d_bytes d) (d_pos d) (d_cut d) _ _
    (down_log_fits _ Hc) ltac:(lia) ltac:(rewrite sealed_log_zlen; lia) D2 D3 Htk Hf) as (Hlk & Hpos & Htk').
  unfold sealed_log in Hlk. rewrite sealed_from_lookup in Hlk.
  destruct (y_qs y !! Z.to_nat rc) as [q|] eqn:Hq; [|done].
  injection Hlk as Hbq. rewrite Z2Nat.id, Z.add_0_l in Hbq by lia.
  apply frame_outcome_Ok in Hf as [_ Hc0]. exists q. split_and!; try done. fold (down_unread d) in *. lia.
Qed.

Lemma step_frame_inv y l rel w frame ev s' o :
  inv y -> zlen (y_qs y) < 2 ^ 184 -> y_ph y = CRun l [] rel w -> i_pending (c_in (y_c y)) = [] ->
  let d := lk_down (y_links y l) in
  frame_outcome (down_unread d) (Sentinel io_EOF) = Ok frame ->
  deliver frame (reader_at y (if rel then y_c y else releaseHold (y_c y)) ev) = (s', o) -> o <> Wait ->
  inv (set_link l
    (with_down (down_taken (d_read d) (d_pos d + frame_consumed (down_unread d)) d) (y_links y l))
    (set_client (rs_conn s') (rs_taken s') (y_ps y) (after_read o (rs_conn s') (CRun l [] true w)) y)).
Proof.
  intros Hi Hsz Hph Hp d Hf Hd Ho. pose proof (inv_link_base y l Hi) as Hb. pose proof (inv_server_view y l Hi) as Hv.
  destruct (down_next y l rel w frame Hi Hph Hf) as (q & Hq & Hfr & Hpos & Hle & Htk'). fold d in Hpos, Hle, Htk'.
  pose proof Hi as [Hc [H1 H2 H3]]. rewrite Hph in H1, H2, H3. destruct H3 as (Hl & Hst & _ & _ & Hrest).
  set (c := if rel then y_c y else releaseHold (y_c y)) in *.
  assert (outbound_ok key (c_probe c) limit (y_ps y) (c_out c) /\
    o_flushed (c_out c) = o_flushed (c_out (y_c y)) /\ c_in c = c_in (y_c y) /\
    c_inbox c = c_inbox (y_c y) /\ c_ctx c = c_ctx (y_c y) /\ c_probe c = c_probe (y_c y))
    as (Hok & Hfl & Hin & Hbx & Hcx & Hpr).
  { unfold c. destruct rel; [split_and!; try done; apply (v_out _ Hc)|].
    apply releaseHold_frame, (v_out _ Hc). }
  rewrite <- Hin in Hp, Hq, Hfr.
  destruct (read_next y c q frame ev s' o Hc Hsz Hin Hbx Hp Hq Hfr Hd Ho) as (E1 & E2 & E3 & E4 & E5).
  split.
  - apply core_link; cbn; try done.
    + apply core_client_same; try done; congruence.
    + exact (v_resp _ Hc l).
    + by apply base_down_taken.
  - destruct o as [[]|e|]; [|cbn; rewrite E3, Hcx, H1|done]; cbn.
    + split; cbn; [by rewrite E3, Hcx|by intros Hff; destruct (H2 Hff) as (_&_&_&?)|].
      rewrite decide_True by done. cbn. rewrite (E5 eq_refl), E1, Hin, Hfl. fold d.
      split_and!; try done; try apply Hrest. by rewrite seg_nil by lia.
    + split; cbn; [by rewrite E3, Hcx|by intros Hff; destruct (H2 Hff) as (_&_&_&?)|done].
Qed.

(** The server's stream announces no frame beyond the limit, so a ReadFrame
    that fails leaves the Conn alive. *)
Lemma step_read_failed_inv y l rel w err e s' (o : outcome unit) :
  inv y -> y_ph y = CRun l [] rel w -> i_pending (c_in (y_c y)) = [] -> errors_Is err ErrTooLarge = false ->
  frame_outcome (down_unread (lk_down (y_links y l))) err = Err e ->
  frame_failed e (MkR (y_c y) newLink (y_taken y) []) = (s', o) ->
  inv (set_client (rs_conn s') (rs_taken s') (y_ps y) (after_read o (rs_conn s') (y_ph y)) y).
Proof.
  intros Hi Hph Hp Herr He Hs. pose proof (inv_link_base y l Hi) as [_ [D1 D2 D3 _ _] _].
  pose proof (down_start _ _ _ _ Hi Hph) as Hle. pose proof Hi as [Hc [H1 H2 H3]].
  rewrite Hph in H3. destruct H3 as (_ & _ & _ & Htk & _). pose proof (v_in _ Hc) as (_ & Hrg & _).
  destruct (stream_prefix (down_log (y_qs y)) _ (i_recvSeq (c_in (y_c y))) _ _ (d_cut (lk_down (y_links y l)))
    ltac:(split; [apply D1|exact Hle]) ltac:(rewrite sealed_log_zlen; lia) D2 D3 Htk) as [Hpre1 Hpre2].
  unfold down_unread in He. apply (frame_fits _ _ _ _ ltac:(by apply Forall_drop, (down_log_fits _ Hc))
    (transitivity Hpre1 Hpre2) Herr) in He.
  unfold frame_failed in Hs. rewrite He in Hs. injection Hs as <- <-. cbn.
  rewrite Hph in H1, H2. rewrite H1. split.
  - apply core_client_same; try done; [apply (v_out _ Hc)|apply (v_in _ Hc)].
  - split; cbn; [done|by intros Hff; destruct (H2 Hff) as (_&_&_&?)|done].
Qed.

(** ** The link's writer *)

Lemma batch_of_seg ps a k : 0 <= k -> batch_of key ps a k = seg (up_log ps) a (a + k).
Proof. intros ?. unfold batch_of, seg. do 2 f_equal. lia. Qed.

Lemma step_batch_inv y l cu rel base probe bt f :
  inv y -> y_ph y = CRun l cu rel None ->
  writeLoop_snapshot (c_out (y_c y)) = Some (base, probe, bt) ->
  frame_batch base probe bt frame_init = inl f ->
  inv (set_ph (CRun l cu rel (Some (MkBatch (f_buf f) (f_sent f) (f_n f)))) y).
Proof.
  intros [Hc [H1 H2 H3]] Hph Hs Hf. rewrite Hph in H1, H2, H3.
  destruct H3 as (Hl & Hst & Hcu & Htk & Hus & Hub). pose proof (v_out _ Hc) as Hok.
  destruct (writeLoop_snapshot_ok _ _ _ _ _ (proj1 Hok)) as (k0 & Hk0 & Hle & _ & Hs' & Hent & Hzl).
  rewrite Hs in Hs'. injection Hs' as -> -> ->.
  destruct (frame_batch_spec (o_flushed (c_out (y_c y))) (o_lastProbe (c_out (y_c y))) _ Hent)
    as (k & Hk & _ & Hf' & _).
  rewrite Hf in Hf'. injection Hf' as ->. rewrite Hzl in Hk.
  assert (zlen (batch_of key (y_ps y) (o_flushed (c_out (y_c y))) k) = k) as Hzk.
  { rewrite <- (batch_of_ztake _ _ _ k0) by lia. rewrite zlen_ztake. lia. }
  pose proof (flushed_range _ _ _ Hok) as Hfl. rewrite batch_of_ztake by lia. split.
  - apply core_client_same; try done. apply (v_in _ Hc).
  - split; cbn; try done. rewrite Hzk. split_and!; try done; try lia.
    rewrite Hub, <- wire_bytes_app, batch_of_seg, seg_cat by (pose proof (ub_start _ _ (lb_up _ _ _ (proj1 (v_link _ Hc l)))); lia).
    done.
Qed.

Lemma step_piece_inv y l cu rel w k :
  inv y -> y_ph y = CRun l cu rel (Some w) ->
  let u := lk_up (y_links y l) in
  inv (set_ph (CRun l cu rel (Some (MkBatch (zdrop k (b_todo w)) (b_sent w) (b_n w))))
    (set_link l (with_up (up_written (u_seq u) (u_cat u) (u_bytes u ++ ztake k (b_todo w)) (u_start u) u)
                   (y_links y l)) y)).
Proof.
  intros Hi Hph u. pose proof (inv_link_base y l Hi) as Hb. pose proof (inv_server_view y l Hi) as Hv.
  pose proof Hi as [Hc [H1 H2 H3]]. rewrite Hph in H1, H2, H3.
  destruct H3 as (Hl & Hst & Hcu & Htk & Hus & Hs0 & Hle & Hn & Hub). fold u in Hst, Hus, Hub.
  pose proof Hb as [[U1 U2 U3 U4] Hd Hseq]. fold u in U1, U2, U3, U4, Hseq.
  pose proof (flushed_range _ _ _ (v_out _ Hc)) as Hfl.
  assert ((u_bytes u ++ ztake k (b_todo w)) ++ zdrop k (b_todo w) =
    wire_bytes (seg (up_log (y_ps y)) (u_start u) (o_flushed (c_out (y_c y)) + b_sent w))) as Hub'
    by by rewrite <- app_assoc, ztake_zdrop.
  pose proof (zlen_nonneg (ztake k (b_todo w))) as Hz.
  apply (inv_start y l _ (y_c y) (CRun l cu rel (Some (MkBatch (zdrop k (b_todo w)) (b_sent w) (b_n w)))) (y_first y)); try done.
  - exact (v_resp _ Hc l).
  - apply (v_known _ Hc).
  - apply (v_out _ Hc).
  - split; [split|done|done]; cbn; try done; [|rewrite zlen_app; lia].
    pose proof (wire_prefix (up_log (y_ps y)) (u_start u) (o_flushed (c_out (y_c y)) + b_sent w) ltac:(lia)) as Hpre.
    rewrite <- Hub' in Hpre. eapply transitivity, Hpre. apply prefix_app_r, reflexivity.
  - unfold DeliveryInv.server_view, DeliveryInv.cat_ok in *. cbn. fold u in Hv.
    destruct (lk_ph (y_links y l)) as [|st| |f|rest f|f| |]; try done.
    + destruct Hv as (_&_&_&_&Hr&_). rewrite Hr in Hst. by destruct Hst as [?|[? _]].
    + destruct Hv as (?&?&Hr&?&Hdc&?&[?|[-> ?]]); split_and!; try done; [by left|].
      rewrite Hr in Hst. by destruct Hst as [?|(_ & _ & ?)].
    + destruct Hv as (_&_&Hr&_&Hdc&_). rewrite Hr in Hst. by destruct Hst as [?|(_ & _ & ?)].
    + destruct Hv as (?&?&Hr&?&?&?&?&Hco). split_and!; try done.
      rewrite Hr in Hst. destruct Hst as [?|(_ & ? & _)]; [done|]. by destruct (u_cat u).
    + destruct Hv as (?&?&?&?&Htk'&?). split_and!; try done; try lia. rewrite ztake_app_le by lia. done.
  - split; cbn; try done. rewrite decide_True by done. cbn. fold u. split_and!; try done.
Qed.

Lemma writeLoop_commit_frame sent n c :
  let c' := writeLoop_commit sent n c in
  c_in c' = c_in c /\ c_inbox c' = c_inbox c /\ c_ctx c' = c_ctx c /\ c_probe c' = c_probe c.
Proof. unfold writeLoop_commit. cbv zeta. destruct (releaseLocked _) as [o room]. by destruct room. Qed.

Lemma step_sent_inv y l cu rel w :
  inv y -> y_ph y = CRun l cu rel (Some w) -> b_todo w = [] ->
  inv (set_client (writeLoop_commit (b_sent w) (b_n w) (y_c y)) (y_taken y) (y_ps y) (CRun l cu rel None) y).
Proof.
  intros [Hc [H1 H2 H3]] Hph Ht. rewrite Hph in H1, H2, H3.
  destruct H3 as (Hl & Hst & Hcu & Htk & Hus & Hs0 & Hle & Hn & Hub). rewrite Ht, app_nil_r in Hub.
  destruct (writeLoop_commit_ok _ _ _ _ _ _ (v_out _ Hc) Hs0 Hle) as (Hok & Hfl & _). rewrite <- Hn in Hok, Hfl.
  destruct (writeLoop_commit_frame (b_sent w) (b_n w) (y_c y)) as (E1 & E2 & E3 & E4).
  generalize dependent (writeLoop_commit (b_sent w) (b_n w) (y_c y)). intros c' Hok Hfl E1 E2 E3 E4. split.
  - apply core_client_same; try done; [by rewrite E4|].
    unfold DeliveryInv.received_ok. rewrite E1, E2. apply (v_in _ Hc).
  - split; cbn; [by rewrite E3|by intros Hf; destruct (H2 Hf) as (_&_&_&?)|].
    rewrite E1, Hfl. split_and!; try done. lia.
Qed.

(** ** The end of a link and of the Conn *)

Lemma step_down_inv y l :
  inv y -> client_link (y_ph y) = Some l -> y_first y = false -> inv (set_ph CIdle y).
Proof.
  intros [Hc [H1 H2 H3]] Hl Hf. split.
  - apply core_client_same; try done; [apply (v_out _ Hc)|apply (v_in _ Hc)].
  - split; cbn; [by destruct (y_ph y)|by rewrite Hf|done].
Qed.

Lemma step_end_inv y e :
  inv y -> c_ctx (y_c y) = None -> errors_Is e ErrIntegrity = false ->
  inv (set_client (finished e (y_c y)) (y_taken y) (y_ps y) CDone y).
Proof.
  intros [Hc [H1 H2 H3]] Hx He. destruct (cancel_fields e (y_c y)) as (E1 & E2 & E3). split.
  - apply core_client_same; try done; cbn.
    + rewrite E3. unfold Conn.cancel. rewrite Hx. apply (v_out _ Hc).
    + unfold Conn.cancel. by rewrite Hx.
    + unfold DeliveryInv.received_ok. cbn. rewrite E1, E2. apply (v_in _ Hc).
  - split; cbn; [|rewrite E1, E3; intros Hf; destruct (H2 Hf) as (?&?&?&_); done|done].
    exists e. unfold Conn.cancel. by rewrite Hx.
Qed.
End DeliveryClient.
