(* ===== verification/DeliveryServer.v ===== *)
(** * The server's and the network's steps keep the delivery invariant

    One lemma per rule of [server_step]: admission, takeover, the three
    messages of the recovery, accepting packets, writing them, and the calls
    of the test that drives the server; and the cuts of [net_step]. *)

From S2P Require Export DeliveryClient.
Local Open Scope Z_scope.

Section DeliveryServer.
Context `{HB : SecretBox}.
Variable key : bytes.
Variable limit : Z.

Local Notation up_log ps := (sealed_log key ClientToServer ps).
Local Notation down_log qs := (sealed_log key ServerToClient qs).
Local Notation inv := (inv key limit).
Local Notation core := (core key limit).
Local Notation cli := (cli key).
Local Notation link_base := (link_base key).
Local Notation server_view := (server_view key).
Local Notation client_view := (client_view key).
Local Notation received_ok := (received_ok key).
Local Notation cat_ok := (cat_ok key).

(** A connection with a phase is one the client dialed. *)
Lemma live_next y l : core y -> lk_ph (y_links y l) <> SDead -> (l < y_next y)%nat.
Proof.
  intros Hc Hp. destruct (decide (l < y_next y)%nat) as [|Hn]; [done|].
  rewrite (v_next _ Hc) in Hp by lia. done.
Qed.

(** A connection that is not the last to take over is in no phase that depends
    on what the server received. *)
Lemma view_stale cur cur' r r' ps qs l k :
  server_view cur r ps qs l k -> cur <> Some l -> server_view cur' r' ps qs l k.
Proof. unfold DeliveryInv.server_view. intros Hv Hn. destruct (lk_ph k); try done; by destruct Hv as [? _]. Qed.

(** The connection a step changes, and what the client sees of it. *)
Lemma inv_link y l k :
  inv y -> (l < y_next y)%nat -> resp_ok (s_known (y_s y)) k -> link_base (y_ps y) (y_qs y) k ->
  server_view (y_cur y) (s_recvSeq (y_s y)) (y_ps y) (y_qs y) l k ->
  (client_link (y_ph y) = Some l ->
   client_view (y_c y) (y_ps y) (y_qs y) (fun i => if decide (i = l) then k else y_links y i)
     (y_next y) (y_ph y)) ->
  inv (set_link l k y).
Proof.
  intros [Hc [H1 H2 H3]] Hl Hk Hb Hv Hcv. split; [by apply core_link|]. split; cbn; try done.
  destruct (decide (client_link (y_ph y) = Some l)) as [Hcl|Hcl]; [by apply Hcv|].
  eapply client_view_same; [done|done| |exact H3]. intros i Hi.
  rewrite decide_False by congruence. done.
Qed.

Lemma step_req_inv y l s' st :
  inv y -> lk_ph (y_links y l) = SReq -> admit_req (y_s y) (c_id (y_c y)) Version = (s', st) ->
  let d := lk_down (y_links y l) in
  inv (set_link l
    (MkLk (up_taken 1 0 (lk_up (y_links y l)))
       (down_written (Some st) (d_seq d) (d_cat d) (d_bytes d) (d_start d) d)
       (if (st =? NEW_CLIENT) || (st =? RETURNING_CLIENT) then STake st else SDead))
    (set_server s' (y_got y) (y_qs y) y)).
Proof.
  intros Hi Hph Ha d. pose proof (inv_link_base key limit y l Hi) as Hb.
  pose proof (inv_server_view key limit y l Hi) as Hv. unfold DeliveryInv.server_view in Hv. rewrite Hph in Hv.
  destruct Hv as (Hup & Hus & Huc & Hub & Hdr & Hds & Hdc & Hdb). fold d in Hdr, Hds, Hdc, Hdb.
  assert (l < y_next y)%nat as Hl by (apply live_next; [apply Hi|by rewrite Hph]).
  assert (server_ok key (y_got y ++ s_queue s') (y_qs y) s' /\ s_queue s' = s_queue (y_s y) /\
    s_recvSeq s' = s_recvSeq (y_s y) /\ (s_known (y_s y) = true -> s_known s' = true) /\
    (st = NEW_CLIENT -> s_known s' = true /\ s_known (y_s y) = false) /\
    (st = RETURNING_CLIENT -> s_known s' = true)) as (Hok & Hq & Hr & Hk & Hnew & Hret).
  { pose proof (v_srv _ (proj1 Hi)) as Hok. unfold admit_req in Ha. repeat case_match;
      injection Ha as <- <-; split_and!; try done; intros; try done; by destruct (s_known (y_s y)). }
  assert (inv (set_server s' (y_got y) (y_qs y) y)) as Hi'.
  { pose proof (core_server y s' (y_got y) [] (proj1 Hi)) as Hcs.
    pose proof (cli_server y s' (y_got y) [] (proj1 Hi) (proj2 Hi)) as Hcl.
    rewrite app_nil_r in Hcs, Hcl. split; [|done]. apply Hcs; try done. by rewrite Hq. }
  pose proof Hb as [[U1 U2 U3 U4] [D1 D2 D3 D4 D5] Hsq]. fold d in D1, D2, D3, D4, D5, Hsq.
  rewrite Hub in U3. change (zlen []) with 0 in U3.
  apply inv_link; cbn; try done.
  - intros [[= ->]|[= ->]]; [by apply Hnew|by apply Hret].
  - split; [split|split|]; cbn; try done. rewrite Hub. by change (zlen []) with 0.
  - destruct (Z.eqb_spec st NEW_CLIENT) as [->|]; [|destruct (Z.eqb_spec st RETURNING_CLIENT) as [->|]]; cbn; try done.
    + split_and!; try done. left. split; [done|]. destruct (Hnew eq_refl) as [_ Hkn].
      destruct (y_first y) eqn:Hf; [|by rewrite (v_known _ (proj1 Hi) Hf) in Hkn].
      destruct (v_first _ (proj2 Hi) Hf). lia.
    + split_and!; try done. by right.
  - intros Hcl. pose proof (v_client _ (proj2 Hi)) as H3. unfold DeliveryInv.client_view, client_link in *.
    destruct (y_ph y) as [|i|i peer snap theirs|i cu rel w|]; try done; injection Hcl as ->;
      rewrite decide_True by done; cbn; fold d in H3; try done.
    + destruct H3 as (_&_&_&_&_&H3&_). by rewrite Hdr in H3.
    + destruct H3 as (_&H3&_). rewrite Hdr in H3. by destruct H3 as [?|[? _]].
Qed.

(** ** Takeover *)

(** The state in which [l] has taken over, the connection before it closed. *)
Definition taken_over (l : nat) (y : sys) : sys :=
  set_cur l (match y_cur y with
             | None => y
             | Some k => set_link k (with_phase SDead (y_links y k)) y
             end).

Lemma step_take_inv y l k :
  inv y -> (l < y_next y)%nat -> y_cur y <> Some l ->
  resp_ok (s_known (y_s y)) k -> link_base (y_ps y) (y_qs y) k ->
  server_view (Some l) (s_recvSeq (y_s y)) (y_ps y) (y_qs y) l k ->
  (client_link (y_ph y) = Some l ->
   client_view (y_c y) (y_ps y) (y_qs y) (fun i => if decide (i = l) then k else y_links y i)
     (y_next y) (y_ph y)) ->
  inv (set_link l k (taken_over l y)).
Proof.
  intros [Hc [H1 H2 H3]] Hl Hcur Hk Hb Hv Hcv.
  assert (forall i, i <> l -> exists p, y_links (taken_over l y) i = MkLk (lk_up (y_links y i)) (lk_down (y_links y i)) p /\
    (p = lk_ph (y_links y i) /\ y_cur y <> Some i \/ p = SDead)) as Hoth.
  { intros i Hil. unfold taken_over. cbn. destruct (y_cur y) as [j|]; cbn.
    - destruct (decide (i = j)) as [->|]; [by eexists; split; [done|right]|].
      exists (lk_ph (y_links y i)). split; [by destruct (y_links y i)|left; split; [done|congruence]].
    - exists (lk_ph (y_links y i)). split; [by destruct (y_links y i)|by left]. }
  set (z := taken_over l y) in *.
  assert (y_c z = y_c y /\ y_taken z = y_taken y /\ y_ps z = y_ps y /\ y_ph z = y_ph y /\ y_first z = y_first y /\
    y_s z = y_s y /\ y_got z = y_got y /\ y_qs z = y_qs y /\ y_cur z = Some l /\ y_next z = y_next y)
    as (E1&E2&E3&E4&E5&E6&E7&E8&E9&E10) by (unfold z, taken_over; by destruct (y_cur y)).
  split.
  - destruct Hc. split; cbn [set_link y_c y_taken y_ps y_ph y_first y_s y_got y_qs y_cur y_links y_next];
      rewrite ?E1, ?E2, ?E3, ?E5, ?E6, ?E7, ?E8, ?E9, ?E10; try done.
    + intros i Hi. rewrite decide_False by lia. destruct (Hoth i ltac:(lia)) as (p & -> & Hp).
      rewrite v_next by done. destruct Hp as [[-> _]| ->]; [by rewrite v_next|done].
    + intros i. destruct (decide (i = l)) as [->|Hil]; [done|].
      destruct (Hoth i Hil) as (p & -> & _). apply v_resp.
    + intros i. destruct (decide (i = l)) as [->|Hil]; [done|].
      destruct (Hoth i Hil) as (p & -> & Hp), (v_link i) as [Hbi Hvi].
      split; [destruct Hbi; by split|]. destruct Hp as [[-> Hn]| ->]; [|done].
      apply (view_stale (y_cur y) _ (s_recvSeq (y_s y))); [|done]. by destruct (y_links y i).
  - split; cbn [set_link y_c y_taken y_ps y_ph y_first y_s y_got y_qs y_cur y_links y_next];
      rewrite ?E1, ?E3, ?E4, ?E5, ?E8, ?E10; try done.
    destruct (decide (client_link (y_ph y) = Some l)) as [Hcl|Hcl].
    + eapply client_view_same; [done|done| |by apply Hcv]. intros i Hi. cbn.
      rewrite Hcl in Hi. injection Hi as <-. by rewrite !decide_True.
    + eapply client_view_same; [done|done| |exact H3]. intros i Hi.
      rewrite decide_False by congruence. destruct (Hoth i ltac:(congruence)) as (p & -> & _). done.
Qed.
(** Only an older connection is replaced. *)
Lemma older_not_cur (cur : option nat) l :
  match cur with None => True | Some k => (k < l)%nat end -> cur <> Some l.
Proof. destruct cur; [|done]. intros ? [= ->]. lia. Qed.

Lemma step_take_new_inv y l :
  inv y -> lk_ph (y_links y l) = STake NEW_CLIENT ->
  match y_cur y with None => True | Some k => (k < l)%nat end ->
  inv (set_link l (with_phase (SRun 0) (y_links y l)) (taken_over l y)).
Proof.
  intros Hi Hph Hcur. pose proof (inv_link_base key limit y l Hi) as Hb.
  pose proof (inv_server_view key limit y l Hi) as Hv. unfold DeliveryInv.server_view in Hv. rewrite Hph in Hv.
  destruct Hv as (Hup & Huc & Hdr & Hds & Hdc & Hdb & [[_ ->]|[? _]]); [|done].
  pose proof (v_cur _ (proj1 Hi)) as Hr.
  assert (y_cur y = None) as Hnone by (destruct (y_cur y); [lia|done]). rewrite Hnone in Hr.
  pose proof Hb as [[U1 U2 U3 U4] [D1 D2 D3 D4 D5] _].
  apply step_take_inv; try done.
  - apply live_next; [apply Hi|by rewrite Hph].
  - by rewrite Hnone.
  - apply (v_resp _ (proj1 Hi)).
  - unfold DeliveryInv.server_view. cbn. rewrite Hr, Hup, Hdb, (U4 Huc), (D4 Hdc), !seg_nil by lia.
    split_and!; try done; try lia. by left.
  - intros _. eapply client_view_same; [done|done| |apply (v_client _ (proj2 Hi))].
    intros i _. by destruct (decide (i = 0%nat)) as [->|].
Qed.

Lemma step_take_returning_inv y l :
  inv y -> lk_ph (y_links y l) = STake RETURNING_CLIENT ->
  match y_cur y with None => True | Some k => (k < l)%nat end ->
  let d := lk_down (y_links y l) in
  inv (set_link l
    (MkLk (lk_up (y_links y l))
       (down_written (d_resp d) (Some (to_int32 (s_recvSeq (y_s y)))) (d_cat d) (d_bytes d) (d_start d) d)
       SReadSeq) (taken_over l y)).
Proof.
  intros Hi Hph Hcur d. pose proof (inv_link_base key limit y l Hi) as Hb.
  pose proof (inv_server_view key limit y l Hi) as Hv. unfold DeliveryInv.server_view in Hv. rewrite Hph in Hv.
  destruct Hv as (Hup & Huc & Hdr & Hds & Hdc & Hdb & [[? _]|[_ Hub]]); [done|].
  fold d in Hdr, Hds, Hdc, Hdb.
  apply step_take_inv; try done.
  - apply live_next; [apply Hi|by rewrite Hph].
  - by apply older_not_cur.
  - apply (v_resp _ (proj1 Hi)).
  - destruct Hb as [Hu Hd Hs]. split; try done. destruct Hd. by split.
  - unfold DeliveryInv.server_view, DeliveryInv.cat_ok. cbn. by rewrite Huc.
  - intros Hcl. pose proof (v_client _ (proj2 Hi)) as H3. unfold DeliveryInv.client_view, client_link in *.
    destruct (y_ph y) as [|i|i peer snap theirs|i cu rel w|]; try done; injection Hcl as ->;
      rewrite decide_True by done; cbn; fold d in H3.
    + done.
    + destruct H3 as (?&?&?&?&?&?&?&Hpr&?&?&?). split_and!; try done.
      intros n Hn. specialize (Hpr n Hn). congruence.
    + destruct H3 as (_&[Hr|(_&_&?)]&_); [by rewrite Hdr in Hr|done].
Qed.

(** ** The recovery *)

Lemma step_seq_inv y l n cat f :
  inv y -> lk_ph (y_links y l) = SReadSeq ->
  let u := lk_up (y_links y l) in let d := lk_down (y_links y l) in
  u_seq u = Some n -> recover_catchup n (y_s y) = Some (cat, f) ->
  inv (set_link l
    (MkLk (up_taken 2 0 u) (down_written (d_resp d) (d_seq d) (Some cat) (d_bytes d) f d) (SCatchup f)) y).
Proof.
  intros Hi Hph u d Hn Hcat. pose proof (inv_link_base key limit y l Hi) as Hb.
  pose proof (inv_server_view key limit y l Hi) as Hv. unfold DeliveryInv.server_view in Hv. rewrite Hph in Hv.
  destruct Hv as (Hcur & Hup & Hdr & Hds & Hdc & Hdb & Hco). fold u d in Hdr, Hds, Hdc, Hdb, Hco, Hup.
  destruct (v_srv _ (proj1 Hi)) as (_ & _ & _ & Hsent).
  unfold recover_catchup in Hcat. rewrite Z.gtb_ltb in Hcat.
  destruct (Z.ltb_spec n 0); [done|]. destruct (Z.ltb_spec (zlen (s_sent (y_s y))) n); [done|].
  injection Hcat as <- <-. rewrite Hsent, sealed_log_zlen in *.
  pose proof Hb as [[U1 U2 U3 U4] [D1 D2 D3 D4 D5] Hsq]. fold u in U1, U2, U3, U4. fold d in D1, D2, D3, D4, D5.
  apply inv_link; try done.
  - apply live_next; [apply Hi|by rewrite Hph].
  - apply (v_resp _ (proj1 Hi)).
  - split; [split|split|]; cbn; try done; try lia.
    + rewrite Hdb. apply prefix_nil.
    + fold d. by rewrite Hdr.
    + fold u. by rewrite Hn.
  - intros Hcl. pose proof (v_client _ (proj2 Hi)) as H3. unfold DeliveryInv.client_view, client_link in *.
    destruct (y_ph y) as [|i|i peer snap theirs|i cu rel w|]; try done; injection Hcl as ->;
      rewrite decide_True by done; cbn; fold u d in H3.
    + destruct H3 as (_&H3&_). congruence.
    + destruct H3 as (?&Hsq'&?&?&?&?&_&?&?&Hth&?). rewrite Hn in Hsq'. injection Hsq' as ->.
      split_and!; try done.
      * intros t [= <-]. rewrite <- (sealed_log_zlen key ServerToClient), seg_all; [|rewrite sealed_log_zlen; lia].
        split; [done|]. by rewrite sealed_log_zlen.
      * intros t Ht. specialize (Hth t Ht). congruence.
    + destruct H3 as (_&[Hr|(_&_&?)]&_); [by rewrite Hdr in Hr|done].
Qed.

Lemma step_cat_inv y l f cat :
  inv y -> lk_ph (y_links y l) = SCatchup f ->
  let u := lk_up (y_links y l) in
  u_cat u = Some cat ->
  inv (set_link l (MkLk (up_taken 3 0 u) (lk_down (y_links y l)) (SAccept cat f)) y).
Proof.
  intros Hi Hph u Hcat. pose proof (inv_link_base key limit y l Hi) as Hb.
  pose proof (inv_server_view key limit y l Hi) as Hv. unfold DeliveryInv.server_view in Hv. rewrite Hph in Hv.
  destruct Hv as (Hcur & Hup & Hdr & Hds & Hst & Hdb & Hdc & Hco). fold u in Hco, Hup.
  unfold DeliveryInv.cat_ok in Hco. rewrite Hcat in Hco. destruct Hco as [-> Hle].
  apply inv_link; try done.
  - apply live_next; [apply Hi|by rewrite Hph].
  - apply (v_resp _ (proj1 Hi)).
  - destruct Hb as [[U1 U2 U3 U4] Hd Hs]. fold u in U1, U2, U3, U4, Hs. rewrite Hup in U3.
    by split.
  - unfold DeliveryInv.server_view. cbn. split_and!; try done. by rewrite Hcat.
  - intros _. eapply client_view_same; [done|done| |apply (v_client _ (proj2 Hi))].
    intros i _. by destruct (decide (i = l)) as [->|].
Qed.

Lemma step_accepted_inv y l f :
  inv y -> lk_ph (y_links y l) = SAccept [] f ->
  inv (set_link l (with_phase (SRun f) (y_links y l)) y).
Proof.
  intros Hi Hph. pose proof (inv_link_base key limit y l Hi) as Hb.
  pose proof (inv_server_view key limit y l Hi) as Hv. unfold DeliveryInv.server_view in Hv. rewrite Hph in Hv.
  destruct Hv as (Hcur & Hup & Hst & Hdb & Huc & Hdc & Hrest & Hle).
  pose proof (v_seq _ (proj1 Hi)) as Hr. pose proof Hb as [[U1 U2 U3 U4] [D1 D2 D3 D4 D5] Hsq].
  assert (s_recvSeq (y_s y) = u_start (lk_up (y_links y l))) as Heq.
  { apply (f_equal zlen) in Hrest. change (zlen []) with 0 in Hrest.
    rewrite seg_zlen in Hrest by (rewrite ?sealed_log_zlen; lia). lia. }
  apply inv_link; try done.
  - apply live_next; [apply Hi|by rewrite Hph].
  - apply (v_resp _ (proj1 Hi)).
  - unfold DeliveryInv.server_view. cbn. rewrite Hdb, Hup, Heq, !seg_nil by lia.
    split_and!; try done; try lia. by right.
  - intros _. eapply client_view_same; [done|done| |apply (v_client _ (proj2 Hi))].
    intros i _. by destruct (decide (i = l)) as [->|].
Qed.
(** ** Accepting packets *)

(** The sealed packet at the server's position is accepted; [k] is what the
    step makes of the connection. *)
Lemma accept_inv y l p s' e qs' :
  inv y -> y_cur y = Some l -> y_ps y !! Z.to_nat (s_recvSeq (y_s y)) = Some p ->
  zlen (y_ps y) < 2 ^ 184 -> zlen (y_qs y) + 1 < 2 ^ 184 ->
  accept (sealed_at key ClientToServer (s_recvSeq (y_s y)) p) (y_s y) = (s', e) ->
  (qs' = [] \/ qs' = [MkPacket HeaderKeepAlive []]) ->
  zlen (s_sent s') = zlen (s_sent (y_s y)) + zlen qs' ->
  e = None /\
  forall k, resp_ok (s_known (y_s y)) k ->
    link_base (y_ps y) (y_qs y) k -> same_for_client (y_links y l) k ->
    server_view (Some l) (s_recvSeq (y_s y) + 1) (y_ps y) (y_qs y) l k ->
    inv (set_link l k (set_server s' (y_got y) (y_qs y ++ qs') y)).
Proof.
  intros [Hc Hcli] Hcur Hp Hps Hqs Ha Hq Hzl. pose proof (v_srv _ Hc) as Hok.
  pose proof (v_seq _ Hc) as Hr. pose proof Hok as (_ & Hrz & _ & Hsent).
  pose proof (lookup_lt_Some _ _ _ Hp) as Hlt.
  assert (s_recvSeq (y_s y) < zlen (y_ps y)) as Hrlt by (unfold zlen; lia).
  assert (zlen (y_got y ++ s_queue (y_s y)) + 1 < 2 ^ 184) as Hgot by (rewrite <- Hrz; lia).
  destruct (accept_sealed key _ _ _ p Hok Hgot Hqs) as (s1 & q1 & Ha' & Hok' & Hqueue & Hkn & _ & _ & Hq1).
  rewrite Hrz, Ha' in Ha. injection Ha as -> <-. split; [done|].
  assert (q1 = qs') as ->.
  { destruct Hok' as (_ & _ & _ & Hs'). rewrite Hs', Hsent, !sealed_log_zlen, zlen_app in Hzl.
    destruct Hq as [->| ->], Hq1 as [->| ->]; try done; cbv [zlen length] in Hzl; lia. }
  intros k Hk Hb Hsame Hv.
  assert (zlen (y_got y ++ s_queue (y_s y)) = s_recvSeq (y_s y)) as Hzg by done.
  assert (s_recvSeq s' = s_recvSeq (y_s y) + 1) as Hr'.
  { destruct Hok' as (_ & -> & _). rewrite zlen_app, <- Hrz. done. }
  assert (Forall (fun q => zlen (p_Payload q) <= maxPayload) qs') as Hfit.
  { destruct Hq1 as [->| ->]; repeat constructor. by vm_compute. }
  split; [|by apply cli_link; [eapply cli_server|]].
  pose proof (link_base_grow (y_ps y) (y_qs y) [] qs' _ Hb) as Hbg.
  assert (0 <= s_recvSeq (y_s y) + 1 <= zlen (y_ps y)) as Hr1 by lia.
  pose proof (server_view_grow _ _ _ _ [] qs' _ _ Hb Hr1 Hv) as Hvg.
  rewrite app_nil_r in Hbg, Hvg. destruct Hc. split; cbn; try done.
  - destruct v_in as (? & ? & Hh). split_and!; try done; try lia.
    + rewrite zlen_app. pose proof (zlen_nonneg qs'). lia.
    + by rewrite ztake_app_le by lia.
  - by rewrite Hqueue, app_assoc.
  - rewrite Hqueue, app_assoc, v_got, Hr'. unfold ztake.
    replace (Z.to_nat (s_recvSeq (y_s y) + 1)) with (S (Z.to_nat (s_recvSeq (y_s y)))) by lia.
    by rewrite (take_S_r _ _ _ Hp).
  - lia.
  - by apply Forall_app.
  - intros i Hi. rewrite Hcur in v_cur. rewrite decide_False by lia. auto.
  - by rewrite Hcur in *.
  - by rewrite Hkn.
  - intros i. rewrite Hkn. destruct (decide (i = l)); auto.
  - intros i. rewrite Hr', Hcur. destruct (decide (i = l)) as [->|Hil]; [done|].
    destruct (v_link i) as [Hbi Hvi].
    pose proof (link_base_grow (y_ps y) (y_qs y) [] qs' _ Hbi) as Hbi'.
    pose proof (server_view_grow _ _ _ _ [] qs' _ _ Hbi Hr Hvi) as Hvi'.
    rewrite app_nil_r in Hbi', Hvi'. split; [done|].
    eapply view_stale; [exact Hvi'|]. rewrite Hcur. congruence.
Qed.

(** The packet of the log at a position, as sealed. *)
Lemma up_log_lookup ps r b :
  0 <= r -> up_log ps !! Z.to_nat r = Some b ->
  exists p, ps !! Z.to_nat r = Some p /\ b = sealed_at key ClientToServer r p.
Proof.
  intros Hr. unfold sealed_log. rewrite sealed_from_lookup. destruct (ps !! Z.to_nat r) as [p|]; [|done].
  intros [= <-]. exists p. by rewrite Z2Nat.id by lia.
Qed.

Lemma step_accept_inv y l b rest f s' e qs' :
  inv y -> zlen (y_ps y) < 2 ^ 184 -> zlen (y_qs y) + 1 < 2 ^ 184 ->
  lk_ph (y_links y l) = SAccept (b :: rest) f -> accept b (y_s y) = (s', e) ->
  (qs' = [] \/ qs' = [MkPacket HeaderKeepAlive []]) ->
  zlen (s_sent s') = zlen (s_sent (y_s y)) + zlen qs' ->
  inv (set_link l (with_phase (match e with None => SAccept rest f | Some _ => SFailed end) (y_links y l))
    (set_server s' (y_got y) (y_qs y ++ qs') y)).
Proof.
  intros Hi Hps Hqs Hph Ha Hq Hzl. pose proof (inv_link_base key limit y l Hi) as Hb.
  pose proof (inv_server_view key limit y l Hi) as Hv. unfold DeliveryInv.server_view in Hv. rewrite Hph in Hv.
  destruct Hv as (Hcur & Hup & Hst & Hdb & Huc & Hdc & Hrest & Hle). pose proof (v_seq _ (proj1 Hi)) as Hr.
  destruct (seg_cons _ _ _ _ _ (proj1 Hr) (eq_sym Hrest)) as (Hlk & Hlt & Hrest').
  apply up_log_lookup in Hlk as (p & Hp & ->); [|lia].
  destruct (accept_inv y l p s' e qs' Hi Hcur Hp Hps Hqs Ha Hq Hzl) as [-> Hinv].
  apply Hinv; try done.
  - apply (v_resp _ (proj1 Hi)).
  - by destruct Hb.
  - unfold DeliveryInv.server_view. cbn. split_and!; try done. lia.
Qed.

Lemma step_server_frame_inv y l f frame s' e qs' :
  inv y -> zlen (y_ps y) < 2 ^ 184 -> zlen (y_qs y) + 1 < 2 ^ 184 ->
  lk_ph (y_links y l) = SRun f ->
  let u := lk_up (y_links y l) in
  frame_outcome (up_unread u) (Sentinel io_EOF) = Ok frame -> accept frame (y_s y) = (s', e) ->
  (qs' = [] \/ qs' = [MkPacket HeaderKeepAlive []]) ->
  zlen (s_sent s') = zlen (s_sent (y_s y)) + zlen qs' ->
  inv (set_link l
    (MkLk (up_taken (u_read u) (u_pos u + frame_consumed (up_unread u)) u) (lk_down (y_links y l))
       (match e with None => SRun f | Some _ => SFailed end))
    (set_server s' (y_got y) (y_qs y ++ qs') y)).
Proof.
  intros Hi Hps Hqs Hph u Hf Ha Hq Hzl. pose proof (inv_link_base key limit y l Hi) as Hb.
  pose proof (inv_server_view key limit y l Hi) as Hv. unfold DeliveryInv.server_view in Hv. rewrite Hph in Hv.
  destruct Hv as (Hcur & Hst & Hkind & Hdb & Htk & Hle). pose proof (v_seq _ (proj1 Hi)) as Hr.
  pose proof Hb as [[U1 U2 U3 U4] Hd Hs]. fold u in U1, U2, U3, U4, Hs, Hkind, Htk, Hle.
  destruct (stream_next (up_log (y_ps y)) (u_start u) (s_recvSeq (y_s y)) (u_bytes u) (u_pos u) (u_cut u) _ _
    (up_log_fits _ _ _ (proj1 Hi)) ltac:(lia) ltac:(rewrite sealed_log_zlen; lia) U2 U3 Htk Hf) as (Hlk & Hpos & Htk').
  apply up_log_lookup in Hlk as (p & Hp & ->); [|lia]. fold (up_unread u) in *.
  pose proof (proj2 (frame_outcome_Ok _ _ _ Hf)) as Hcon.
  destruct (accept_inv y l p s' e qs' Hi Hcur Hp Hps Hqs Ha Hq Hzl) as [-> Hinv].
  apply Hinv; try done.
  - apply (v_resp _ (proj1 Hi)).
  - split; [split|done|done]; cbn; try done. lia.
  - unfold DeliveryInv.server_view. cbn. split_and!; try done; lia.
Qed.
(** ** Writing, and the end of a connection *)

Lemma step_server_write_inv y l f b :
  inv y -> lk_ph (y_links y l) = SRun f -> 0 <= f -> s_sent (y_s y) !! Z.to_nat f = Some b ->
  let d := lk_down (y_links y l) in
  inv (set_link l
    (MkLk (lk_up (y_links y l))
       (down_written (d_resp d) (d_seq d) (d_cat d) (d_bytes d ++ frame_bytes b) (d_start d) d)
       (SRun (f + 1))) y).
Proof.
  intros Hi Hph Hf Hlk d. pose proof (inv_link_base key limit y l Hi) as Hb.
  pose proof (inv_server_view key limit y l Hi) as Hv. unfold DeliveryInv.server_view in Hv. rewrite Hph in Hv.
  destruct Hv as (Hcur & Hst & Hkind & Hdb & Htk & Hle). fold d in Hst, Hkind, Hdb.
  destruct (v_srv _ (proj1 Hi)) as (_ & _ & _ & Hsent). rewrite Hsent in Hlk.
  pose proof (lookup_lt_Some _ _ _ Hlk) as Hlt.
  assert (f < zlen (y_qs y)) as Hfq by (rewrite <- (sealed_log_zlen key ServerToClient); unfold zlen; lia).
  pose proof Hb as [Hu [D1 D2 D3 D4 D5] Hs]. fold d in D1, D2, D3, D4, D5, Hs.
  pose proof (zlen_nonneg (frame_bytes b)).
  assert (d_bytes d ++ frame_bytes b = wire_bytes (seg (down_log (y_qs y)) (d_start d) (f + 1))) as Hdb'.
  { rewrite (seg_snoc _ (d_start d) f b), wire_bytes_app, wire_bytes_single, Hdb by (done || lia). done. }
  apply inv_link; try done.
  - apply live_next; [apply Hi|by rewrite Hph].
  - apply (v_resp _ (proj1 Hi)).
  - split; [done|split|done]; cbn; try done.
    + rewrite Hdb'. apply wire_prefix. lia.
    + rewrite zlen_app. fold d. lia.
  - unfold DeliveryInv.server_view. cbn. split_and!; try done; lia.
  - intros Hcl. pose proof (v_client _ (proj2 Hi)) as H3. unfold DeliveryInv.client_view, client_link in *.
    destruct (y_ph y) as [|i|i peer snap theirs|i cu rel w|]; try done; injection Hcl as ->;
      rewrite decide_True by done; cbn; fold d in H3; try done.
    destruct H3 as (?&?&?&?&?&?). split_and!; try done. fold d. rewrite ztake_app_le by lia. done.
Qed.

Lemma step_die_inv y l :
  inv y -> (l < y_next y)%nat -> inv (set_link l (with_phase SDead (y_links y l)) y).
Proof.
  intros Hi Hl. pose proof (inv_link_base key limit y l Hi) as Hb. apply inv_link; try done.
  - apply (v_resp _ (proj1 Hi)).
  - by destruct Hb.
  - intros _. eapply client_view_same; [done|done| |apply (v_client _ (proj2 Hi))].
    intros i _. by destruct (decide (i = l)) as [->|].
Qed.

(** ** The test that drives the server *)

Lemma step_send_inv y p :
  inv y -> zlen (y_qs y) + 1 < 2 ^ 184 -> zlen (p_Payload p) <= maxPayload ->
  inv (set_server (fst (Send None p (y_s y))) (y_got y) (y_qs y ++ [p]) y).
Proof.
  intros [Hc Hcl] Hsz Hp. split; [|by eapply cli_server].
  pose proof (server_enqueueLocked_ok _ _ _ _ p (v_srv _ Hc) Hsz) as Hok.
  apply core_server; try done; cbn [Send fst].
  by constructor.
Qed.

Lemma set_server_inv y s got :
  inv y -> server_ok key (got ++ s_queue s) (y_qs y) s ->
  got ++ s_queue s = y_got y ++ s_queue (y_s y) -> s_recvSeq s = s_recvSeq (y_s y) ->
  (s_known (y_s y) = true -> s_known s = true) ->
  inv (set_server s got (y_qs y) y).
Proof.
  intros [Hc Hcl] ????. pose proof (core_server y s got [] Hc) as Hcs.
  pose proof (cli_server y s got [] Hc Hcl) as Hcv. rewrite app_nil_r in Hcs, Hcv.
  split; [|done]. by apply Hcs.
Qed.

Lemma step_recv_inv y ctx p s' :
  inv y -> Recv ctx (y_s y) = Some (s', inl p) -> inv (set_server s' (y_got y ++ [p]) (y_qs y) y).
Proof.
  intros Hi Hr. pose proof (v_srv _ (proj1 Hi)) as Hok. unfold Recv in Hr.
  destruct (s_queue (y_s y)) as [|q rest] eqn:Hq; [by destruct ctx|]. injection Hr as <- <-.
  apply set_server_inv; cbn; try done.
  - by rewrite <- app_assoc.
  - by rewrite <- app_assoc, Hq.
Qed.

Lemma step_flags_inv y :
  inv y -> inv (set_server (EndSession (y_s y)) (y_got y) (y_qs y) y) /\
  forall on, inv (set_server (EchoKeepAlive on (y_s y)) (y_got y) (y_qs y) y).
Proof.
  intros Hi. pose proof (v_srv _ (proj1 Hi)) as Hok.
  split; [|intros on]; by apply set_server_inv.
Qed.

(** ** Cuts *)

Lemma step_cut_up_inv y l cut :
  inv y -> (l < y_next y)%nat ->
  let u := lk_up (y_links y l) in
  inv (set_link l (with_up (MkUp (u_seq u) (u_cat u) (u_bytes u) (u_start u) (u_read u) (u_pos u) cut)
    (y_links y l)) y).
Proof.
  intros Hi Hl u. pose proof (inv_link_base key limit y l Hi) as [[U1 U2 U3 U4] Hd Hs].
  pose proof (inv_server_view key limit y l Hi) as Hv. apply inv_link; try done.
  - apply (v_resp _ (proj1 Hi)).
  - intros _. eapply client_view_same; [done|done| |apply (v_client _ (proj2 Hi))].
    intros i _. by destruct (decide (i = l)) as [->|].
Qed.

Lemma step_cut_down_inv y l cut :
  inv y -> (l < y_next y)%nat ->
  let d := lk_down (y_links y l) in
  inv (set_link l (with_down (MkDown (d_resp d) (d_seq d) (d_cat d) (d_bytes d) (d_start d) (d_read d)
    (d_pos d) cut) (y_links y l)) y).
Proof.
  intros Hi Hl d. pose proof (inv_link_base key limit y l Hi) as [Hu [D1 D2 D3 D4 D5] Hs].
  pose proof (inv_server_view key limit y l Hi) as Hv. apply inv_link; try done.
  - apply (v_resp _ (proj1 Hi)).
  - intros _. eapply client_view_same; [done|done| |apply (v_client _ (proj2 Hi))].
    intros i _. by destruct (decide (i = l)) as [->|].
Qed.
End DeliveryServer.
