(* ===== verification/Delivery.v ===== *)
(** * Exactly-once delivery across reconnects

    What the invariant of [DeliveryInv] gives for every run of client, network
    and server from the states that [newConn] and [NewServer] return: each
    side has received a prefix of what the other sealed, in order and once
    each, through any cuts, takeovers and replays; no packet ever fails to
    open; and on a live link with nothing in transit nothing is missing. *)

From S2P Require Export DeliveryServer Dialer.
Local Open Scope Z_scope.

Section Runs.
Context `{HB : SecretBox}.

Lemma step_inv key limit y y' :
  limit <= 64 * 1024 * 1024 -> inv key limit y -> sys_step y y' ->
  zlen (y_ps y') < 2 ^ 184 -> zlen (y_qs y') + 1 < 2 ^ 184 -> inv key limit y'.
Proof.
  intros Hlim Hi [Hs|[Hs|Hs]] Hps Hqs; destruct Hs; cbn [set_client y_ps] in Hps.
  - by eapply step_write_inv.
  - by eapply step_probe_inv.
  - by eapply step_read_inv.
  - by apply step_dial_inv.
  - by apply step_new_inv.
  - by apply step_returning_inv.
  - by apply step_peer_inv.
  - by apply step_catchup_write_inv.
  - by apply step_theirs_inv.
  - by eapply step_commit_inv.
  - by eapply step_pending_inv.
  - eapply step_deliver_inv; try done. cbn in Hqs. lia.
  - eapply step_frame_inv; try done. cbn in Hqs. lia.
  - by eapply step_read_failed_inv.
  - by eapply step_batch_inv.
  - by eapply step_piece_inv.
  - by apply step_sent_inv.
  - by eapply step_down_inv.
  - by apply step_end_inv.
  - by eapply step_req_inv.
  - by apply step_take_new_inv.
  - by apply step_take_returning_inv.
  - by eapply step_seq_inv.
  - by eapply step_cat_inv.
  - cbn in Hqs, Hps. rewrite zlen_app in Hqs. pose proof (zlen_nonneg qs'). eapply step_accept_inv; try done. lia.
  - by apply step_accepted_inv.
  - cbn in Hqs, Hps. rewrite zlen_app in Hqs. pose proof (zlen_nonneg qs'). eapply step_server_frame_inv; try done. lia.
  - by apply step_server_write_inv.
  - by apply step_die_inv.
  - cbn in Hqs. rewrite zlen_app in Hqs. change (zlen [p]) with 1 in Hqs. apply step_send_inv; try done. lia.
  - by eapply step_recv_inv.
  - by apply step_flags_inv.
  - by apply step_flags_inv.
  - by apply step_cut_up_inv.
  - by apply step_cut_down_inv.
Qed.

(** The logs only grow. *)
Lemma step_logs y y' :
  sys_step y y' -> y_ps y `prefix_of` y_ps y' /\ y_qs y `prefix_of` y_qs y'.
Proof.
  intros [Hs|[Hs|Hs]]; destruct Hs; cbn; try (split; done || by apply prefix_app_r); try done;
    repeat case_match; split; try done; by apply prefix_app_r.
Qed.

Lemma run_inv key limit y y' :
  limit <= 64 * 1024 * 1024 -> inv key limit y -> rtc sys_step y y' ->
  zlen (y_ps y') < 2 ^ 184 -> zlen (y_qs y') + 1 < 2 ^ 184 -> inv key limit y'.
Proof.
  intros Hlim Hi Hr Hps Hqs. induction Hr as [|x y z Hs Hr IH]; [done|]. apply IH; try done.
  assert (y_ps y `prefix_of` y_ps z /\ y_qs y `prefix_of` y_qs z) as [Hp Hq].
  { clear -Hr. induction Hr as [|a b c Hab _ [IHp IHq]]; [done|].
    destruct (step_logs _ _ Hab). split; by etransitivity. }
  apply prefix_length in Hp, Hq. unfold zlen in *. eapply step_inv; try done; unfold zlen; lia.
Qed.

(** The client of [newConn] before its first connect, a server that knows the
    same key, and no connection yet. *)
Definition sys_start (c : Conn) (s : Server) : sys :=
  MkSys c [] [] CIdle true s [] [] None (fun _ => no_conn) 0.

Lemma start_inv d id passkey sid c s :
  Dial_refused d passkey = None -> newConn d id passkey = Ok c -> NewServer sid passkey = Ok s ->
  exists limit, limit <= 64 * 1024 * 1024 /\ inv passkey limit (sys_start c s).
Proof.
  intros Hd Hc Hs. pose proof (proj1 (Dial_refused_None _ _) Hd) as (H32 & Hp & _).
  destruct (newConn_ok d id passkey Hd) as (c' & Hc' & _ & Hpr & _ & Hx & Hb & Hin & Hl & Hok).
  rewrite Hc in Hc'. injection Hc' as <-. exists (r_limit (o_ring (c_out c))).
  split; [by destruct Hl|]. unfold NewServer in Hs. rewrite H32 in Hs. cbn in Hs.
  injection Hs as <-. split.
  - split; cbn; try done.
    + by rewrite Hpr.
    + by rewrite Hpr.
    + by split_and!; cbn; rewrite ?Hin, ?Hb; cbn.
    + by intros l [?|?].
  - split; cbn; try done. intros _. rewrite Hin. split_and!; try done; [lia|].
    pose proof (flushed_range _ _ _ Hok) as Hf. change (zlen []) with 0 in Hf. lia.
Qed.

(** Every run of a session. *)
Definition session_run (d : Dialer) (id passkey sid : bytes) (c : Conn) (s : Server) (y : sys) : Prop :=
  Dial_refused d passkey = None /\ newConn d id passkey = Ok c /\ NewServer sid passkey = Ok s /\
  rtc sys_step (sys_start c s) y /\ zlen (y_ps y) < 2 ^ 184 /\ zlen (y_qs y) + 1 < 2 ^ 184.

Lemma session_inv d id passkey sid c s y :
  session_run d id passkey sid c s y -> exists limit, limit <= 64 * 1024 * 1024 /\ inv passkey limit y.
Proof.
  intros (Hd & Hc & Hs & Hr & Hps & Hqs).
  destruct (start_inv d id passkey sid c s Hd Hc Hs) as (limit & Hlim & Hi).
  exists limit. split; [done|]. by eapply run_inv.
Qed.

(** [C6] Exactly-once, in-order delivery in both directions, in every state that
    client, network and server can reach through any interleaving of writes,
    reads, probes, cuts at any byte, reconnects, takeovers and replays: what
    the server has received is the first [s_recvSeq] packets the client
    sealed; what callers of ReadPacket got, followed by what waits for them,
    is the first [recvSeq] packets the server sealed.  No packet fails to
    open on either side and no length is beyond the limit: neither ends the
    Conn with ErrIntegrity. *)
Theorem exactly_once d id passkey sid c s y :
  session_run d id passkey sid c s y ->
  y_got y ++ s_queue (y_s y) = ztake (s_recvSeq (y_s y)) (y_ps y) /\
  y_taken y ++ c_inbox (y_c y) ++ i_pending (c_in (y_c y)) = ztake (i_recvSeq (c_in (y_c y))) (y_qs y) /\
  (forall l, lk_ph (y_links y l) <> SFailed) /\
  (forall e, c_ctx (y_c y) = Some e -> errors_Is e ErrIntegrity = false).
Proof.
  intros Hrun. destruct (session_inv _ _ _ _ _ _ _ Hrun) as (limit & _ & Hc & Hcl). split_and!.
  - apply (v_got _ Hc).
  - apply (v_in _ Hc).
  - intros l Hf. destruct (v_link _ Hc l) as [_ Hv]. unfold server_view in Hv. by rewrite Hf in Hv.
  - intros e He. pose proof (v_ctx _ Hcl) as Hx. rewrite He in Hx.
    destruct (y_ph y); try done. by destruct Hx as (e' & [= <-] & ?).
Qed.

(** Frames are not empty, so a stream tells how many packets it holds. *)
Lemma wire_bytes_nil X : Forall (fun x => zlen x <= MaxFrameSize) X -> wire_bytes X = [] -> X = [].
Proof.
  intros Hfit H. destruct Hfit as [|x X Hx _]; [done|].
  change (x :: X) with ([x] ++ X) in H. rewrite wire_bytes_app, wire_bytes_single in H.
  apply (f_equal zlen) in H. rewrite zlen_app, frame_bytes_zlen in H by done. change (zlen []) with 0 in H.
  pose proof (zlen_nonneg x). pose proof (zlen_nonneg (wire_bytes X)). lia.
Qed.

Lemma wire_seg_inj (X : list bytes) a b c :
  Forall (fun x => zlen x <= MaxFrameSize) X ->
  0 <= a <= b -> b <= c -> c <= zlen X -> wire_bytes (seg X a b) = wire_bytes (seg X a c) -> b = c.
Proof.
  intros Hfit Hab Hbc Hc H. rewrite <- (seg_cat X a b c), wire_bytes_app in H by lia.
  rewrite <- (app_nil_r (wire_bytes (seg X a b))) in H at 1. apply app_inv_head in H.
  symmetry in H. apply wire_bytes_nil, (f_equal zlen) in H; [|by apply Forall_take, Forall_drop].
  change (zlen []) with 0 in H. rewrite seg_zlen in H by lia. lia.
Qed.

(** Nothing in transit on an uncut connection, all of it read. *)
Definition drained (pos : Z) (b : bytes) (cut : option (nat * Z)) : Prop := cut = None /\ zdrop pos b = [].

Lemma drained_logs d id passkey sid c s y l rel f :
  session_run d id passkey sid c s y ->
  y_ph y = CRun l [] rel None -> writeLoop_snapshot (c_out (y_c y)) = Some (zlen (y_ps y), o_lastProbe (c_out (y_c y)), []) ->
  lk_ph (y_links y l) = SRun f -> zlen (s_sent (y_s y)) <= f ->
  let u := lk_up (y_links y l) in let dn := lk_down (y_links y l) in
  drained (u_pos u) (u_bytes u) (u_cut u) -> drained (d_pos dn) (d_bytes dn) (d_cut dn) ->
  y_got y ++ s_queue (y_s y) = y_ps y /\
  y_taken y ++ c_inbox (y_c y) ++ i_pending (c_in (y_c y)) = y_qs y.
Proof.
  intros Hrun Hph Hw Hsp Hf u dn [_ Hu] [_ Hd].
  destruct (session_inv _ _ _ _ _ _ _ Hrun) as (limit & _ & Hc & Hcl).
  destruct (v_link _ Hc l) as [Hb Hv]. pose proof (v_client _ Hcl) as H3.
  unfold server_view in Hv. rewrite Hsp in Hv. unfold client_view in H3. rewrite Hph in H3.
  destruct Hv as (_ & Hst & _ & Hdb & Htk & Hle). destruct H3 as (_ & _ & Hcu & Hdt & Hus & Hub).
  destruct (v_srv _ Hc) as (_ & _ & _ & Hsent). rewrite Hsent, sealed_log_zlen in Hf.
  pose proof (v_seq _ Hc) as Hr. pose proof (v_in _ Hc) as (_ & Hrc & Hhist).
  destruct Hb as [[U1 U2 U3 U4] [D1 D2 D3 D4 D5] Hs].
  fold u in U1, U3, Htk, Hle, Hus, Hub. fold dn in D1, D3, Hst, Hdb, Hdt, Hcu.
  rewrite <- (ztake_zdrop (u_pos u) (u_bytes u)), Hu, app_nil_r, Htk in Hub.
  rewrite <- (ztake_zdrop (d_pos dn) (d_bytes dn)), Hd, app_nil_r, Hdt in Hdb.
  assert (o_flushed (c_out (y_c y)) = zlen (y_ps y)) as Hfl.
  { destruct (writeLoop_snapshot_ok _ _ _ _ _ (proj1 (v_out _ Hc))) as (k & _ & _ & _ & Hw' & _).
    rewrite Hw in Hw'. by injection Hw'. }
  assert (d_start dn <= i_recvSeq (c_in (y_c y))) as Hds.
  { destruct (Z.le_gt_cases (d_start dn) (i_recvSeq (c_in (y_c y)))); [done|].
    apply (f_equal zlen) in Hcu. change (zlen []) with 0 in Hcu.
    rewrite seg_zlen in Hcu by (rewrite ?sealed_log_zlen; lia). lia. }
  split.
  - rewrite (v_got _ Hc). rewrite Hfl in Hub.
    apply wire_seg_inj in Hub; [|by eapply up_log_fits|lia|lia|rewrite sealed_log_zlen; lia]. rewrite Hub. by apply ztake_ge.
  - rewrite Hhist. assert (f = zlen (y_qs y)) as -> by lia.
    apply wire_seg_inj in Hdb; [|by eapply down_log_fits|lia|lia|rewrite sealed_log_zlen; lia]. rewrite Hdb. by apply ztake_ge.
Qed.

(** [C7] Nothing is lost: on a live link whose streams are drained, when the
    client's writer has flushed its ring and the server's has written its
    log, both sides have received everything the other ever sealed, however
    many links the session has been through. *)
Theorem drained_complete d id passkey sid c s y l rel f :
  session_run d id passkey sid c s y ->
  y_ph y = CRun l [] rel None -> writeLoop_snapshot (c_out (y_c y)) = Some (zlen (y_ps y), o_lastProbe (c_out (y_c y)), []) ->
  lk_ph (y_links y l) = SRun f -> zlen (s_sent (y_s y)) <= f ->
  let u := lk_up (y_links y l) in let dn := lk_down (y_links y l) in
  drained (u_pos u) (u_bytes u) (u_cut u) -> drained (d_pos dn) (d_bytes dn) (d_cut dn) ->
  y_got y ++ s_queue (y_s y) = y_ps y /\
  y_taken y ++ c_inbox (y_c y) ++ i_pending (c_in (y_c y)) = y_qs y.
Proof. exact (drained_logs d id passkey sid c s y l rel f). Qed.
End Runs.

(** ** A session on concrete values *)

Section Example.
#[local] Existing Instance toy_box.

Definition example_passkey : bytes := replicate 32 x61.
Definition example_p : Packet := MkPacket x01 (bs "ls").
Definition example_q : Packet := MkPacket x02 (bs "out").

(** Evaluate the state a run has reached. *)
Ltac eval_state := match goal with |- rtc _ ?a _ => let a' := eval vm_compute in a in change a with a' end.

(** One packet each way over the first link. *)
Lemma example_session :
  exists c s y, session_run (MkDialer 0 (MkPacket HeaderKeepAlive []) 0) (bs "id") example_passkey (bs "id") c s y /\
    y_ps y = [example_p] /\ y_qs y = [example_q] /\
    y_ph y = CRun 0 [] true None /\ y_cur y = Some 0%nat /\
    writeLoop_snapshot (c_out (y_c y)) = Some (zlen (y_ps y), o_lastProbe (c_out (y_c y)), []) /\
    lk_ph (y_links y 0) = SRun 1 /\ zlen (s_sent (y_s y)) = 1 /\
    drained (u_pos (lk_up (y_links y 0))) (u_bytes (lk_up (y_links y 0))) (u_cut (lk_up (y_links y 0))) /\
    drained (d_pos (lk_down (y_links y 0))) (d_bytes (lk_down (y_links y 0))) (d_cut (lk_down (y_links y 0))).
Proof.
  eexists _, _, _. split.
  - split_and!; [by vm_compute|vm_compute; reflexivity|vm_compute; reflexivity| | |].
    + eapply rtc_l; [left; eapply (cs_write _ example_p); [by vm_compute|vm_compute; reflexivity]|]; eval_state.
      eapply rtc_l; [left; apply cs_dial; vm_compute; reflexivity|]; eval_state.
      eapply rtc_l; [right; left; eapply (ss_req _ 0); [vm_compute; reflexivity|exact I|vm_compute; reflexivity]|]; eval_state.
      eapply rtc_l; [left; eapply (cs_new _ 0); [vm_compute; reflexivity|vm_compute; reflexivity|vm_compute; reflexivity|exact I]|]; eval_state.
      eapply rtc_l; [right; left; eapply (ss_take_new _ 0); [vm_compute; reflexivity|exact I]|]; eval_state.
      eapply rtc_l; [left; eapply cs_batch; [vm_compute; reflexivity|vm_compute; reflexivity|done|vm_compute; reflexivity]|]; eval_state.
      eapply rtc_l; [left; eapply (cs_piece _ _ _ _ _ 100); [vm_compute; reflexivity|done]|]; eval_state.
      eapply rtc_l; [left; eapply cs_sent; [vm_compute; reflexivity|vm_compute; reflexivity]|]; eval_state.
      eapply rtc_l; [right; left; eapply (ss_frame _ 0); [vm_compute; reflexivity|vm_compute; reflexivity|vm_compute; reflexivity|by left|vm_compute; reflexivity]|]; eval_state.
      eapply rtc_l; [right; left; eapply (ss_send _ example_q); by vm_compute|]; eval_state.
      eapply rtc_l; [right; left; eapply (ss_write _ 0); [vm_compute; reflexivity|done|vm_compute; reflexivity]|]; eval_state.
      eapply rtc_l; [left; eapply (cs_frame _ 0 _ _ _ (Sent 0)); [vm_compute; reflexivity|vm_compute; reflexivity|vm_compute; reflexivity|vm_compute; reflexivity|done]|]; eval_state.
      apply rtc_refl.
    + by vm_compute.
    + by vm_compute.
  - split_and!; by vm_compute.
Qed.

Lemma exactly_once_witness :
  exists c s y, session_run (MkDialer 0 (MkPacket HeaderKeepAlive []) 0) (bs "id") example_passkey (bs "id") c s y /\
    y_ps y = [example_p] /\
    y_got y ++ s_queue (y_s y) = ztake (s_recvSeq (y_s y)) (y_ps y) /\ lk_ph (y_links y 0) <> SFailed.
Proof.
  destruct example_session as (c & s & y & Hrun & Hps & _). exists c, s, y.
  pose proof (exactly_once _ _ _ _ _ _ _ Hrun) as (Hgot & _ & Hf & _).
  split; [exact Hrun|]. split; [exact Hps|]. split; [exact Hgot|exact (Hf 0%nat)].
Defined.

Lemma drained_complete_witness :
  exists c s y, session_run (MkDialer 0 (MkPacket HeaderKeepAlive []) 0) (bs "id") example_passkey (bs "id") c s y /\
    y_got y ++ s_queue (y_s y) = [example_p] /\
    y_taken y ++ c_inbox (y_c y) ++ i_pending (c_in (y_c y)) = [example_q].
Proof.
  destruct example_session as (c & s & y & Hrun & Hps & Hqs & Hph & _ & Hw & Hsp & Hz & Hu & Hd).
  assert (zlen (s_sent (y_s y)) <= 1) as Hle by (rewrite Hz; done).
  pose proof (drained_complete _ _ _ _ _ _ _ 0%nat true 1 Hrun Hph Hw Hsp Hle Hu Hd) as [H1 H2].
  exists c, s, y. rewrite Hps in H1. rewrite Hqs in H2. exact (conj Hrun (conj H1 H2)).
Defined.
End Example.
