(* ===== verification/Escape.v ===== *)
(** * internal/session/escape.go: the local escape

    [escapeFilter_filter] is the byte-at-a-time state machine of the source.  Its
    reference, [typed_result], reads the whole keyboard stream at once with
    two bytes of lookahead; [filter_reference] says that the two agree
    however the stream is split into reads. *)

From S2P Require Export Prelude.
Local Open Scope Z_scope.

Record escapeFilter := MkEscape { midLine : bool; tilde : bool }.

Definition esc_init : escapeFilter := MkEscape false false.

Definition is_tilde (b : byte) : bool := bool_decide (b = x7e).
Definition is_dot (b : byte) : bool := bool_decide (b = x2e).
(** CR or LF. *)
Definition ends_line (b : byte) : bool := bool_decide (b = x0d) || bool_decide (b = x0a).

(** One iteration of the loop; [true] ends it with a detach. *)
Definition filter_byte (f : escapeFilter) (dst : bytes) (b : byte) : escapeFilter * bytes * bool :=
  let append := fun f dst => (MkEscape (negb (ends_line b)) (tilde f), dst ++ [b], false) in
  if tilde f then
    let f := MkEscape (midLine f) false in
    if is_dot b then (f, dst, true)
    else if is_tilde b then (MkEscape true (tilde f), dst ++ [x7e], false)
    else append f (dst ++ [x7e])
  else if negb (midLine f) && is_tilde b then (MkEscape (midLine f) true, dst, false)
  else append f dst.

(** [escapeFilter_filter]: the state, the bytes for the server, whether the user detached. *)
Fixpoint escapeFilter_filter (f : escapeFilter) (dst src : bytes) : escapeFilter * bytes * bool :=
  match src with
  | [] => (f, dst, false)
  | b :: src =>
      match filter_byte f dst b with
      | (f, dst, true) => (f, dst, true)
      | (f, dst, false) => escapeFilter_filter f dst src
      end
  end.

(** The reads of a session, one after another, until the user detaches. *)
Fixpoint filter_reads (f : escapeFilter) (reads : list bytes) : escapeFilter * bytes * bool :=
  match reads with
  | [] => (f, [], false)
  | r :: reads =>
      let '(f, out, detach) := escapeFilter_filter f [] r in
      if detach then (f, out, true)
      else let '(f, rest, detach) := filter_reads f reads in (f, out ++ rest, detach)
  end.

(** ** Reference *)

(** [start]: at the start of the input or right after CR or LF.  A line that
    starts with "~." detaches, "~~" stands for one "~", a "~" at the end of
    the input waits for the next byte; all else is sent as typed. *)
Fixpoint typed_result (start : bool) (src : bytes) : bytes * bool :=
  match src with
  | [] => ([], false)
  | b :: rest =>
      let plain := let '(out, d) := typed_result (ends_line b) rest in (b :: out, d) in
      if start && is_tilde b then
        match rest with
        | [] => ([], false)
        | b2 :: rest2 =>
            if is_dot b2 then ([], true)
            else if is_tilde b2
            then let '(out, d) := typed_result false rest2 in (x7e :: out, d)
            else plain
        end
      else plain
  end.

(** ** Facts *)

Lemma filter_dst f dst src :
  escapeFilter_filter f dst src = let '(f', out, d) := escapeFilter_filter f [] src in (f', dst ++ out, d).
Proof.
  revert f dst. induction src as [|b src IH]; intros f dst; cbn [escapeFilter_filter]; [by rewrite app_nil_r|].
  assert (forall d, filter_byte f d b =
    let '(g, out, e) := filter_byte f [] b in (g, d ++ out, e)) as Hb.
  { intros d. unfold filter_byte. repeat case_match; simplify_eq; by rewrite ?app_nil_r, <- ?app_assoc. }
  rewrite (Hb dst). destruct (filter_byte f [] b) as [[g out] []]; [done|].
  rewrite (IH g (dst ++ out)), (IH g out). destruct (escapeFilter_filter g [] src) as [[g' out'] e]. by rewrite app_assoc.
Qed.

Lemma escapeFilter_filter_app f src1 src2 :
  escapeFilter_filter f [] (src1 ++ src2) =
    let '(g, out, d) := escapeFilter_filter f [] src1 in
    if d then (g, out, true) else let '(h, out2, d) := escapeFilter_filter g [] src2 in (h, out ++ out2, d).
Proof.
  revert f. induction src1 as [|b src1 IH]; intros f; cbn [app escapeFilter_filter].
  - by destruct (escapeFilter_filter f [] src2) as [[g out] d].
  - destruct (filter_byte f [] b) as [[g out] []]; [done|].
    rewrite filter_dst, IH. rewrite (filter_dst g out src1).
    destruct (escapeFilter_filter g [] src1) as [[h out1] []]; [done|].
    destruct (escapeFilter_filter h [] src2) as [[h2 out2] d2]. by rewrite app_assoc.
Qed.

(** Reading in pieces is reading at once. *)
Lemma filter_reads_concat f reads : filter_reads f reads = escapeFilter_filter f [] (concat reads).
Proof.
  revert f. induction reads as [|r reads IH]; intros f; cbn [filter_reads concat]; [done|].
  rewrite escapeFilter_filter_app. destruct (escapeFilter_filter f [] r) as [[g out] []]; [done|]. by rewrite IH.
Qed.


Lemma filter_typed src start :
  let '(f, out, d) := escapeFilter_filter (MkEscape (negb start) false) [] src in (out, d) = typed_result start src.
Proof.
  remember (length src) as n eqn:Hn. assert (length src <= n)%nat as Hle by lia. clear Hn.
  revert src start Hle. induction n as [|n IH]; intros [|b rest] start Hle; cbn in Hle; try done; try lia.
  assert (forall out, (let '(f, o, d) := escapeFilter_filter (MkEscape (negb (ends_line b)) false) out rest in (o, d)) =
    let '(o, d) := typed_result (ends_line b) rest in (out ++ o, d)) as Hplain.
  { intros out. specialize (IH rest (ends_line b) ltac:(lia)). rewrite filter_dst.
    destruct (escapeFilter_filter _ [] rest) as [[g o] d]. by rewrite <- IH. }
  cbn [escapeFilter_filter typed_result]. unfold filter_byte at 1. cbn [tilde midLine]. rewrite negb_involutive.
  destruct (start && is_tilde b) eqn:Ht; cbn [andb negb].
  2: { specialize (Hplain [b]). cbn [app] in Hplain |- *.
       destruct (escapeFilter_filter _ [b] rest) as [[g o] d]. rewrite Hplain. by destruct (typed_result _ rest). }
  apply andb_true_iff in Ht as [-> Hb]. apply bool_decide_eq_true in Hb as ->.
  destruct rest as [|b2 rest2]; [done|]. cbn [escapeFilter_filter]. unfold filter_byte. cbn [tilde midLine negb].
  destruct (is_dot b2) eqn:Hd; [done|]. destruct (is_tilde b2) eqn:H2.
  - cbn in Hle. specialize (IH rest2 false ltac:(lia)). rewrite filter_dst. cbn [negb] in IH.
    destruct (escapeFilter_filter _ [] rest2) as [[g o] d]. by rewrite <- IH.
  - cbn [typed_result]. change (ends_line x7e) with false in *. cbn [andb].
    cbn in Hle. specialize (IH rest2 (ends_line b2) ltac:(lia)). rewrite filter_dst.
    destruct (escapeFilter_filter _ [] rest2) as [[g o] d]. by rewrite <- IH.
Qed.

(** [C18] However the keyboard stream is split into reads, what reaches the server
    and whether the user detached is what the reference says of the whole
    stream: an escape split over two reads works, nothing else is changed,
    held back or reordered. *)
Theorem filter_reference reads :
  let '(_, out, detach) := filter_reads esc_init reads in
  (out, detach) = typed_result true (concat reads).
Proof.
  rewrite filter_reads_concat. exact (filter_typed (concat reads) true).
Qed.

(** A stream without "~" at a line start is sent as it is. *)
Fixpoint no_tilde_start (start : bool) (src : bytes) : bool :=
  match src with
  | [] => true
  | b :: rest => negb (start && is_tilde b) && no_tilde_start (ends_line b) rest
  end.

Lemma typed_result_plain start src :
  no_tilde_start start src = true -> typed_result start src = (src, false).
Proof.
  revert start. induction src as [|b rest IH]; intros start; cbn [no_tilde_start typed_result]; [done|].
  intros [Ht Hr]%andb_true_iff. apply negb_true_iff in Ht. rewrite Ht, (IH _ Hr). done.
Qed.

Example typed_escape : typed_result true (bs "a~." ++ [x0d] ++ bs "~~x" ++ [x0a] ++ bs "~.rest") =
  (bs "a~." ++ [x0d] ++ bs "~x" ++ [x0a], true).
Proof. reflexivity. Qed.
