(* ===== verification/Console.v ===== *)
(** * internal/console/console.go: sizes and the resize check *)

From S2P Require Export Protocol.
Local Open Scope Z_scope.

Record Size := MkSize { Rows : Z; Cols : Z; Width : Z; Height : Z }.
#[export] Instance Size_eq_dec : EqDecision Size.
Proof. solve_decision. Defined.

Definition Size_zero : Size := MkSize 0 0 0 0.

(** [resizeCheck]: what [size] returned, the last size, whether ctx ended and
    what yield answers.  The results are the last size, the size yielded and
    whether the caller's loop goes on. *)
Definition resizeCheck (ctx_ended : bool) (size : Size + gerr) (last : Size) (yield : bool)
  : Size * option Size * bool :=
  match size with
  | inr err => if errors_Is err os_ErrClosed then (last, None, false) else (last, None, true)
  | inl sz =>
      if bool_decide (sz = last) then (last, None, true)
      else if ctx_ended then (sz, None, false) else (sz, Some sz, yield)
  end.

(** A loop over checks; [yielded] are the sizes the consumer got. *)
Fixpoint resize_loop (last : Size) (checks : list (bool * (Size + gerr) * bool))
  : Size * list Size * bool :=
  match checks with
  | [] => (last, [], true)
  | (ctx_ended, size, yield) :: checks =>
      let '(last, y, go) := resizeCheck ctx_ended size last yield in
      if go then let '(last, ys, go) := resize_loop last checks in (last, option_list y ++ ys, go)
      else (last, option_list y, false)
  end.

(** The sizes a run of checks reads, up to where it stopped. *)
Definition sizes_read (checks : list (bool * (Size + gerr) * bool)) : list Size :=
  omap (fun c => match c.1.2 with inl s => Some s | inr _ => None end) checks.

(** Drop each element equal to the one before it. *)
Fixpoint changes (last : Size) (l : list Size) : list Size :=
  match l with
  | [] => []
  | s :: l => if bool_decide (s = last) then changes last l else s :: changes s l
  end.

(** While ctx lives and the consumer takes everything, a loop of checks yields
    exactly the changes among the sizes read, starting from the baseline;
    errors other than os.ErrClosed skip a check. *)
Lemma resize_loop_changes last checks :
  Forall (fun c => c.1.1 = false /\ c.2 = true /\
    forall e, c.1.2 = inr e -> errors_Is e os_ErrClosed = false) checks ->
  exists last', resize_loop last checks = (last', changes last (sizes_read checks), true).
Proof.
  intros H. revert last. induction H as [|[[ce sz] yl] checks (Hc & Hy & He) _ IH]; intros last;
    [by eexists|]. cbn in Hc, Hy, He. subst ce yl. cbn [resize_loop resizeCheck].
  destruct sz as [sz|e]; cbn.
  - destruct (bool_decide (sz = last)); [by destruct (IH last) as [l' ->]; eexists|].
    destruct (IH sz) as [l' ->]. by eexists.
  - rewrite (He e eq_refl). destruct (IH last) as [l' ->]. by eexists.
Qed.

(** After ctx ended nothing is yielded, whatever the sizes. *)
Lemma resizeCheck_after_ctx size last yield :
  (resizeCheck true size last yield).1.2 = None.
Proof. unfold resizeCheck. by repeat case_match. Qed.

(** ** The terminal's modes, on every platform

    What a Console promises its caller about the terminal's modes: a call that
    reports no error did its work, [restore] and [Close] return the terminal
    to the baseline of [Open] whatever it is in, and once closed the Console
    leaves it alone.  Any call to the system may fail.  [RawTerminal] is the
    promise; each platform's file has its instance, and [modes_after_close] is
    proved against it. *)

Class RawTerminal (C W : Type) := {
  rt_closed : C -> bool;
  rt_at_base : C -> W -> Prop;
  rt_raw : C -> W -> Prop;
  (** The mode calls succeed from here on. *)
  rt_works : W -> Prop;
  (** Calls that set a mode so far. *)
  rt_sets : W -> nat;
  rt_MakeRaw : C -> W -> W * option gerr;
  rt_restore : C -> W -> W * option gerr;
  rt_Close : C -> W -> C * W * option gerr;
  rt_raw_open : forall c w, rt_closed c = false ->
    let '(w', e) := rt_MakeRaw c w in (rt_works w -> e = None) /\ (e = None -> rt_raw c w');
  rt_raw_closed : forall c w, rt_closed c = true ->
    exists e, rt_MakeRaw c w = (w, Some e) /\ errors_Is e os_ErrClosed = true;
  rt_restore_open : forall c w, rt_closed c = false ->
    let '(w', e) := rt_restore c w in (rt_works w -> e = None) /\ (e = None -> rt_at_base c w');
  rt_restore_base : forall c w, rt_at_base c w -> rt_sets (fst (rt_restore c w)) = rt_sets w;
  rt_restore_closed : forall c w, rt_closed c = true -> rt_restore c w = (w, None);
  rt_Close_open : forall c w, rt_closed c = false ->
    let '(c', w', e) := rt_Close c w in rt_closed c' = true /\ (rt_works w \/ e = None -> rt_at_base c w') /\
      (forall v, rt_at_base c' v <-> rt_at_base c v);
  rt_Close_closed : forall c w, rt_closed c = true -> rt_Close c w = (c, w, None)
}.

Section RawTerminal.
Context {C W : Type} `{RawTerminal C W}.

Inductive mode_op := OpMakeRaw | OpRestore | OpClose | OpOther (w : W).

(** One operation on a Console, or a change of the world by someone else. *)
Definition mode_step (op : mode_op) (s : C * W) : C * W :=
  let '(c, w) := s in
  match op with
  | OpMakeRaw => (c, fst (rt_MakeRaw c w))
  | OpRestore => (c, fst (rt_restore c w))
  | OpClose => fst (rt_Close c w)
  | OpOther w => (c, w)
  end.

Definition run_ops (ops : list mode_op) (s : C * W) : C * W := foldl (fun s op => mode_step op s) s ops.

Definition own_op (op : mode_op) : Prop := match op with OpOther _ => False | _ => True end.

(** No operation changes the baseline. *)
Lemma run_ops_base ops c w v : rt_at_base (fst (run_ops ops (c, w))) v <-> rt_at_base c v.
Proof.
  revert c w. induction ops as [|op ops IH]; intros c w; [done|]. cbn [run_ops foldl].
  change (foldl _ ?s ops) with (run_ops ops s). destruct op; cbn [mode_step]; [apply IH..| |apply IH].
  destruct (rt_closed c) eqn:Hc; [rewrite rt_Close_closed by done; apply IH|].
  pose proof (rt_Close_open c w Hc) as Hcl. destruct (rt_Close c w) as [[c1 w1] e].
  destruct Hcl as (_ & _ & <-). apply IH.
Qed.

(** Closed, a Console changes nothing. *)
Lemma run_ops_closed ops c w :
  rt_closed c = true -> Forall own_op ops -> run_ops ops (c, w) = (c, w).
Proof.
  intros Hc Ho. induction Ho as [|op ops Hop _ IH]; [done|]. cbn [run_ops foldl].
  assert (mode_step op (c, w) = (c, w)) as ->; [|exact IH].
  destruct op; cbn [mode_step]; [|by rewrite rt_restore_closed|by rewrite rt_Close_closed|done].
  by destruct (rt_raw_closed c w Hc) as (e & -> & _).
Qed.

(** Whatever happened to the terminal before, calls that failed included, and
    whoever else changed its modes: after a Close whose mode calls succeed, or
    that reports no error, it is in the state [Open] recorded, and nothing the
    Console is asked to do afterwards changes it again; a MakeRaw then fails
    with os.ErrClosed. *)
Theorem modes_after_close before after c w :
  let '(c1, w1) := run_ops before (c, w) in
  rt_closed c1 = false -> Forall own_op after ->
  let '(_, w2, e) := rt_Close c1 w1 in
  let '(c', w') := run_ops (before ++ OpClose :: after) (c, w) in
  w' = w2 /\ (rt_works w1 \/ e = None -> rt_at_base c w') /\
  exists e, rt_MakeRaw c' w' = (w', Some e) /\ errors_Is e os_ErrClosed = true.
Proof.
  unfold run_ops at 2. rewrite foldl_app. fold (run_ops before (c, w)).
  pose proof (run_ops_base before c w) as Hb. destruct (run_ops before (c, w)) as [c1 w1].
  intros Hc Ha. cbn [foldl]. fold (run_ops after (mode_step OpClose (c1, w1))).
  pose proof (rt_Close_open c1 w1 Hc) as Hcl. cbn [mode_step].
  destruct (rt_Close c1 w1) as [[c2 w2] e]. destruct Hcl as (Hc2 & Hat & _). cbn [fst] in *.
  rewrite run_ops_closed by done. split; [done|]. split; [|by apply rt_raw_closed].
  intros Hw. apply Hb. by apply Hat.
Qed.
End RawTerminal.
