(* ===== verification/Terminal.v ===== *)
(** * internal/session/terminal.go: the interactive terminal

    The keyboard reader, the pending buffer, the window size and the sender as
    functions per critical section ([push_turn], [take], ...), and
    [term_step], the interleavings of the reader, the sender, the resize
    goroutine and the end of the context.  [term_inv] is their invariant:
    what was sent, what the sender holds and what is pending is what was kept
    of the keyboard input, in order, and no wake-up is lost. *)

From S2P Require Export Wire Escape Console.
Local Open Scope Z_scope.

Definition MaxInputPacket : Z := 65536.
Definition maxPending : Z := 1048576.
Definition term_readBufSize : Z := 32768.
Definition defaultSize : Size := MkSize 24 80 0 0.

(** ** The pending buffer *)

Record pendingInput := MkPending {
  pi_buf : bytes;
  pi_stalled : bool;
  pi_max : Z;
  pi_ready : bool;
  pi_space : bool
}.

Definition new_pending : pendingInput := MkPending [] false maxPending false false.

Definition pending_ready (b : bool) (p : pendingInput) : pendingInput :=
  MkPending (pi_buf p) (pi_stalled p) (pi_max p) b (pi_space p).
Definition pending_space (b : bool) (p : pendingInput) : pendingInput :=
  MkPending (pi_buf p) (pi_stalled p) (pi_max p) (pi_ready p) b.

(** Where a [push] is: at the head of its loop, about to signal [ready],
    waiting for room, or returned; with the bytes it still has to place. *)
Inductive push_at :=
| PushLoop (b : bytes)
| PushSignal (b : bytes)
| PushWait (b : bytes)
| PushDone (dropped : bytes).

(** The locked section of [push] and the branch after it. *)
Definition push_turn (b : bytes) (p : pendingInput) : pendingInput * push_at :=
  if zlen b <=? 0 then (p, PushDone [])
  else
    let n := Z.min (zlen b) (pi_max p - zlen (pi_buf p)) in
    let p' := MkPending (pi_buf p ++ ztake n b) (pi_stalled p) (pi_max p) (pi_ready p) (pi_space p) in
    if n >? 0 then (p', PushSignal (zdrop n b))
    else if pi_stalled p then (p', PushDone b)
    else (p', PushWait b).

(** The three ways a wait ends. *)
Definition push_grace (b : bytes) (p : pendingInput) : pendingInput * push_at :=
  (MkPending (pi_buf p) true (pi_max p) (pi_ready p) (pi_space p), PushDone b).
Definition push_room (b : bytes) (p : pendingInput) : pendingInput * push_at :=
  (pending_space false p, PushLoop b).
Definition push_ctx (b : bytes) (p : pendingInput) : pendingInput * push_at := (p, PushDone b).

(** The locked section of [take]; the signal of [space] follows it when it
    took something. *)
Definition take (limit : Z) (p : pendingInput) : pendingInput * bytes :=
  let n := Z.min limit (zlen (pi_buf p)) in
  if n =? 0 then (p, [])
  else (MkPending (zdrop n (pi_buf p)) false (pi_max p) (pi_ready p) (pi_space p), ztake n (pi_buf p)).

(** ** The window size *)

Record latestSize := MkLatest { ls_sz : Size; ls_dirty : bool; ls_changed : bool }.
Definition new_latest : latestSize := MkLatest Size_zero false false.
Definition latestSize_set (sz : Size) (l : latestSize) : latestSize := MkLatest sz true true.
Definition latestSize_take (l : latestSize) : latestSize * option Size :=
  if negb (ls_dirty l) then (l, None)
  else (MkLatest (ls_sz l) false (ls_changed l), Some (ls_sz l)).

Definition terminalInfo (sz : Size) : TerminalInfo :=
  let sz := if (Rows sz =? 0) || (Cols sz =? 0)
            then MkSize (Rows defaultSize) (Cols defaultSize) (Width sz) (Height sz) else sz in
  SetHeight (to_int32 (Height sz)) (SetWidth (to_int32 (Width sz))
    (SetColumn (to_int32 (Cols sz)) (SetRow (to_int32 (Rows sz)) TerminalInfo_zero))).

(** ** Sending and receiving *)

Section Messages.
Context {M : Type} `{ProtoMessage M}.

(** [write]: [ctx] is the cause of an ended context, [wp] the transport. *)
Definition write (ctx : option gerr) (wp : Packet -> option gerr) (h : Header) (m : M) : option gerr :=
  match proto_Marshal m with
  | inr err => Some (Errorf "session: encode %v: %w" [err])
  | inl b =>
      match wp (MkPacket h b) with
      | Some err => match ctx with Some cause => Some cause | None => Some (Errorf "session: send %v: %w" [err]) end
      | None => None
      end
  end.
End Messages.

(** [output] over the packets its iterator yields; the results are the buffers
    written to the terminal and the error. *)
Section Output.
Context `{ProtoMessage TerminalBuffer}.
Fixpoint output (ctx : option gerr) (term_write : bytes -> option gerr) (ps : list Packet)
  : list bytes * option gerr :=
  match ps with
  | [] => ([], None)
  | p :: ps =>
      match proto_Unmarshal (p_Payload p) with
      | inr err => ([], Some (Errorf "session: decode terminal buffer: %w" [err]))
      | inl tb =>
          match term_write (GetBuffer tb) with
          | Some err => ([GetBuffer tb], match ctx with
                           | Some cause => Some cause
                           | None => Some (Errorf "session: write terminal: %w" [err])
                           end)
          | None => let '(out, err) := output ctx term_write ps in (GetBuffer tb :: out, err)
          end
      end
  end.
End Output.

(** What [read] returns for an error of the terminal's Read. *)
Definition read_error (ctx : option gerr) (err : gerr) : gerr :=
  match ctx with
  | Some cause => cause
  | None => if errors_Is err io_EOF then Errorf "session: terminal input closed: %w" [err]
            else Errorf "session: read terminal: %w" [err]
  end.

(** ** The goroutines together *)

(** The reader: about to read, or pushing what one read gave. *)
Inductive reader_at :=
| RRead
| RPush (at_ : push_at) (detach : bool) (err : option gerr)
| RDone (err : gerr).

(** The sender: in its select, taking the size, writing it, at the head of the
    input loop, about to signal [space] with a chunk in hand, writing it.  A
    write is about to call WritePacket, or in a call that passed its first
    checks. *)
Inductive sender_at :=
| SIdle
| SSize
| SSizeWrite (sz : Size)
| SSizeCall (sz : Size)
| SChunks
| SSpace (chunk : bytes)
| SChunkWrite (chunk : bytes)
| SChunkCall (chunk : bytes)
| SDone (err : option gerr).

Record term := MkTerm {
  t_ctx : option gerr;
  t_esc : escapeFilter;
  t_reads : list bytes;          (* what Read returned so far *)
  t_reader : reader_at;
  t_pending : pendingInput;
  t_size : latestSize;
  t_sender : sender_at;
  t_sent : list Packet;          (* what WritePacket accepted *)
  t_infos : list Size;           (* the sizes in it *)
  t_chunks : list bytes;         (* the input in it *)
  t_kept : bytes;                (* input the pending buffer accepted *)
  t_sizes : list Size;           (* every size set *)
  t_drops : nat                  (* pushes that dropped input *)
}.

Definition in_reader (esc : escapeFilter) (reads : list bytes) (r : reader_at) (p : pendingInput)
  (kept : bytes) (drops : nat) (t : term) : term :=
  MkTerm (t_ctx t) esc reads r p (t_size t) (t_sender t) (t_sent t) (t_infos t) (t_chunks t) kept
    (t_sizes t) drops.
Definition in_sender (p : pendingInput) (l : latestSize) (s : sender_at) (t : term) : term :=
  MkTerm (t_ctx t) (t_esc t) (t_reads t) (t_reader t) p l s (t_sent t) (t_infos t) (t_chunks t)
    (t_kept t) (t_sizes t) (t_drops t).
Definition sent (p : Packet) (infos : list Size) (chunks : list bytes) (s : sender_at) (t : term) : term :=
  MkTerm (t_ctx t) (t_esc t) (t_reads t) (t_reader t) (t_pending t) (t_size t) s (t_sent t ++ [p])
    (t_infos t ++ infos) (t_chunks t ++ chunks) (t_kept t) (t_sizes t) (t_drops t).

(** What [push] placed in one turn. *)
Definition placed (b : bytes) (p : pendingInput) : bytes :=
  ztake (Z.min (zlen b) (pi_max p - zlen (pi_buf p))) b.

Definition drops_more (at_ : push_at) : nat :=
  match at_ with PushDone (_ :: _) => 1 | _ => 0 end.

(** What the goroutines meet: what the terminal's Read may return now, which
    sizes Resizes may report, and the transport's WritePacket: the error of
    its first checks under a context, and the errors that may now end a call
    that passed them. *)
Record term_env := TermEnv {
  te_read : bytes -> option gerr -> Prop;
  te_resize : Size -> Prop;
  te_enter : option gerr -> Packet -> option gerr;
  te_fail : option gerr -> Packet -> gerr -> Prop
}.

(** Whatever is possible in one is possible in the other. *)
Record env_le (E F : term_env) : Prop := {
  le_read : forall data err, te_read E data err -> te_read F data err;
  le_resize : forall sz, te_resize E sz -> te_resize F sz;
  le_enter : te_enter E = te_enter F;
  le_fail : forall ctx p err, te_fail E ctx p err -> te_fail F ctx p err
}.

Section Steps.
Context `{ProtoMessage TerminalBuffer} `{ProtoMessage TerminalInfo}.
Variable E : term_env.

Inductive term_step : term -> term -> Prop :=
| ts_read t data err esc out detach :
    t_reader t = RRead -> te_read E data err -> zlen data <= term_readBufSize -> data <> [] ->
    escapeFilter_filter (t_esc t) [] data = (esc, out, detach) ->
    term_step t (in_reader esc (t_reads t ++ [data]) (RPush (PushLoop out) detach err) (t_pending t)
                   (t_kept t) (t_drops t) t)
| ts_read_none t err :
    t_reader t = RRead -> te_read E [] err ->
    term_step t (in_reader (t_esc t) (t_reads t)
                   (match err with None => RRead | Some e => RDone (read_error (t_ctx t) e) end)
                   (t_pending t) (t_kept t) (t_drops t) t)
| ts_push_turn t b detach err p at_ :
    t_reader t = RPush (PushLoop b) detach err -> push_turn b (t_pending t) = (p, at_) ->
    term_step t (in_reader (t_esc t) (t_reads t) (RPush at_ detach err) p
                   (t_kept t ++ placed b (t_pending t)) (t_drops t + drops_more at_) t)
| ts_push_signal t b detach err :
    t_reader t = RPush (PushSignal b) detach err ->
    term_step t (in_reader (t_esc t) (t_reads t) (RPush (PushLoop b) detach err)
                   (pending_ready true (t_pending t)) (t_kept t) (t_drops t) t)
| ts_push_room t b detach err p at_ :
    t_reader t = RPush (PushWait b) detach err -> pi_space (t_pending t) = true ->
    push_room b (t_pending t) = (p, at_) ->
    term_step t (in_reader (t_esc t) (t_reads t) (RPush at_ detach err) p (t_kept t) (t_drops t) t)
| ts_push_grace t b detach err p at_ :
    t_reader t = RPush (PushWait b) detach err -> push_grace b (t_pending t) = (p, at_) ->
    term_step t (in_reader (t_esc t) (t_reads t) (RPush at_ detach err) p (t_kept t)
                   (t_drops t + drops_more at_) t)
| ts_push_ctx t b detach err p at_ :
    t_reader t = RPush (PushWait b) detach err -> t_ctx t <> None -> push_ctx b (t_pending t) = (p, at_) ->
    term_step t (in_reader (t_esc t) (t_reads t) (RPush at_ detach err) p (t_kept t)
                   (t_drops t + drops_more at_) t)
| ts_pushed t d detach err :
    t_reader t = RPush (PushDone d) detach err ->
    term_step t (in_reader (t_esc t) (t_reads t)
                   (if (detach : bool) then RDone (Sentinel ErrDetached)
                    else match err with None => RRead | Some e => RDone (read_error (t_ctx t) e) end)
                   (t_pending t) (t_kept t) (t_drops t) t)
| ts_resize t sz :
    te_resize E sz ->
    term_step t (MkTerm (t_ctx t) (t_esc t) (t_reads t) (t_reader t) (t_pending t)
                   (latestSize_set sz (t_size t)) (t_sender t) (t_sent t) (t_infos t) (t_chunks t)
                   (t_kept t) (t_sizes t ++ [sz]) (t_drops t))
| ts_wake_ready t :
    t_sender t = SIdle -> pi_ready (t_pending t) = true ->
    term_step t (in_sender (pending_ready false (t_pending t)) (t_size t) SSize t)
| ts_wake_changed t :
    t_sender t = SIdle -> ls_changed (t_size t) = true ->
    term_step t (in_sender (t_pending t) (MkLatest (ls_sz (t_size t)) (ls_dirty (t_size t)) false) SSize t)
| ts_wake_ctx t :
    t_sender t = SIdle -> t_ctx t <> None ->
    term_step t (in_sender (t_pending t) (t_size t) (SDone None) t)
| ts_take_size t l o :
    t_sender t = SSize -> latestSize_take (t_size t) = (l, o) ->
    term_step t (in_sender (t_pending t) l (match o with Some sz => SSizeWrite sz | None => SChunks end) t)
| ts_size_call t sz b :
    t_sender t = SSizeWrite sz -> proto_Marshal (terminalInfo sz) = inl b ->
    te_enter E (t_ctx t) (MkPacket HeaderTerminalInfo b) = None ->
    term_step t (in_sender (t_pending t) (t_size t) (SSizeCall sz) t)
| ts_size_refused t sz e :
    t_sender t = SSizeWrite sz -> write (t_ctx t) (te_enter E (t_ctx t)) HeaderTerminalInfo (terminalInfo sz) = Some e ->
    term_step t (in_sender (t_pending t) (t_size t) (SDone (Some e)) t)
| ts_size_sent t sz b :
    t_sender t = SSizeCall sz -> proto_Marshal (terminalInfo sz) = inl b ->
    term_step t (sent (MkPacket HeaderTerminalInfo b) [sz] [] SChunks t)
| ts_size_failed t sz b err e :
    t_sender t = SSizeCall sz -> proto_Marshal (terminalInfo sz) = inl b ->
    te_fail E (t_ctx t) (MkPacket HeaderTerminalInfo b) err ->
    write (t_ctx t) (fun _ => Some err) HeaderTerminalInfo (terminalInfo sz) = Some e ->
    term_step t (in_sender (t_pending t) (t_size t) (SDone (Some e)) t)
| ts_take t p chunk :
    t_sender t = SChunks -> take MaxInputPacket (t_pending t) = (p, chunk) ->
    term_step t (in_sender p (t_size t) (match chunk with [] => SIdle | _ => SSpace chunk end) t)
| ts_space t chunk :
    t_sender t = SSpace chunk ->
    term_step t (in_sender (pending_space true (t_pending t)) (t_size t) (SChunkWrite chunk) t)
| ts_chunk_call t chunk b :
    t_sender t = SChunkWrite chunk -> proto_Marshal (SetBuffer chunk TerminalBuffer_zero) = inl b ->
    te_enter E (t_ctx t) (MkPacket HeaderTerminalBuffer b) = None ->
    term_step t (in_sender (t_pending t) (t_size t) (SChunkCall chunk) t)
| ts_chunk_refused t chunk e :
    t_sender t = SChunkWrite chunk ->
    write (t_ctx t) (te_enter E (t_ctx t)) HeaderTerminalBuffer (SetBuffer chunk TerminalBuffer_zero) = Some e ->
    term_step t (in_sender (t_pending t) (t_size t) (SDone (Some e)) t)
| ts_chunk_sent t chunk b :
    t_sender t = SChunkCall chunk -> proto_Marshal (SetBuffer chunk TerminalBuffer_zero) = inl b ->
    term_step t (sent (MkPacket HeaderTerminalBuffer b) [] [chunk] SChunks t)
| ts_chunk_failed t chunk b err e :
    t_sender t = SChunkCall chunk -> proto_Marshal (SetBuffer chunk TerminalBuffer_zero) = inl b ->
    te_fail E (t_ctx t) (MkPacket HeaderTerminalBuffer b) err ->
    write (t_ctx t) (fun _ => Some err) HeaderTerminalBuffer (SetBuffer chunk TerminalBuffer_zero) = Some e ->
    term_step t (in_sender (t_pending t) (t_size t) (SDone (Some e)) t)
| ts_cancel t cause :
    t_ctx t = None ->
    term_step t (MkTerm (Some cause) (t_esc t) (t_reads t) (t_reader t) (t_pending t) (t_size t)
                   (t_sender t) (t_sent t) (t_infos t) (t_chunks t) (t_kept t) (t_sizes t) (t_drops t)).

End Steps.

(** More is possible in a larger environment. *)
Lemma term_step_mono `{ProtoMessage TerminalBuffer} `{ProtoMessage TerminalInfo} E F t t' :
  env_le E F -> term_step E t t' -> term_step F t t'.
Proof.
  intros [Hrd Hrs He Hf] Hs. destruct Hs; rewrite ?He in *.
  - eapply ts_read; eauto.
  - eapply ts_read_none; eauto.
  - eapply ts_push_turn; eauto.
  - eapply ts_push_signal; eauto.
  - eapply ts_push_room; eauto.
  - eapply ts_push_grace; eauto.
  - eapply ts_push_ctx; eauto.
  - eapply ts_pushed; eauto.
  - eapply ts_resize; eauto.
  - eapply ts_wake_ready; eauto.
  - eapply ts_wake_changed; eauto.
  - eapply ts_wake_ctx; eauto.
  - eapply ts_take_size; eauto.
  - eapply ts_size_call; eauto.
  - eapply ts_size_refused; eauto.
  - eapply ts_size_sent; eauto.
  - eapply ts_size_failed; eauto.
  - eapply ts_take; eauto.
  - eapply ts_space; eauto.
  - eapply ts_chunk_call; eauto.
  - eapply ts_chunk_refused; eauto.
  - eapply ts_chunk_sent; eauto.
  - eapply ts_chunk_failed; eauto.
  - eapply ts_cancel; eauto.
Qed.

(** [start]: the service as it is when its goroutines begin; the first size is
    the terminal's, or the zero size when it could not be read. *)
Definition term_start (size : Size + gerr) : term :=
  let sz := match size with inl sz => sz | inr _ => Size_zero end in
  MkTerm None esc_init [] RRead new_pending (latestSize_set sz new_latest) SIdle [] [] [] [] [sz] 0.

(** ** Their invariant *)

Section Invariant.
Context `{PTB : ProtoMessage TerminalBuffer} `{PTI : ProtoMessage TerminalInfo}.

Definition remaining (r : reader_at) : bytes :=
  match r with RPush (PushLoop b | PushSignal b | PushWait b) _ _ => b | _ => [] end.
Definition in_hand (s : sender_at) : bytes :=
  match s with SSpace c | SChunkWrite c | SChunkCall c => c | _ => [] end.
Definition detached (r : reader_at) : Prop :=
  match r with RPush _ detach _ => detach = true | RDone e => e = Sentinel ErrDetached | RRead => False end.

(** The terminal packets the server receives, decoded. *)
Definition decode_input (p : Packet) : option bytes :=
  if bool_decide (p_Header p = HeaderTerminalBuffer)
  then match proto_Unmarshal (p_Payload p) with inl tb => Some (GetBuffer tb) | inr _ => None end
  else None.
Definition decode_info (p : Packet) : option TerminalInfo :=
  if bool_decide (p_Header p = HeaderTerminalInfo)
  then match proto_Unmarshal (p_Payload p) with inl ti => Some ti | inr _ => None end
  else None.

Definition chunk_ok (c : bytes) : Prop := 0 < zlen c <= MaxInputPacket.

Record term_inv (t : term) : Prop := {
  ti_esc : exists out detach, filter_reads esc_init (t_reads t) = (t_esc t, out, detach) /\
    (detach = true -> detached (t_reader t)) /\
    t_kept t ++ remaining (t_reader t) `sublist_of` out /\
    (t_drops t = 0%nat -> t_kept t ++ remaining (t_reader t) = out);
  ti_fifo : exists lost, concat (t_chunks t) ++ in_hand (t_sender t) ++ lost ++ pi_buf (t_pending t) = t_kept t /\
    (lost <> [] -> exists e, t_sender t = SDone (Some e));
  ti_chunks : Forall chunk_ok (t_chunks t) /\
    match t_sender t with SSpace c | SChunkWrite c | SChunkCall c => chunk_ok c | _ => True end;
  ti_buf : pi_max (t_pending t) = maxPending /\ zlen (pi_buf (t_pending t)) <= maxPending;
  ti_ready : t_sender t = SIdle -> pi_buf (t_pending t) <> [] -> pi_ready (t_pending t) = false ->
    exists b d e, t_reader t = RPush (PushSignal b) d e;
  ti_wait : forall b d e, t_reader t = RPush (PushWait b) d e -> pi_space (t_pending t) = false ->
    zlen (pi_buf (t_pending t)) = maxPending \/ exists c, t_sender t = SSpace c;
  ti_size : last (t_sizes t) = Some (ls_sz (t_size t)) /\
    (ls_dirty (t_size t) = true -> ls_changed (t_size t) = true \/ t_sender t = SSize) /\
    (ls_dirty (t_size t) = false ->
     match t_sender t with
     | SSizeWrite sz | SSizeCall sz => sz = ls_sz (t_size t)
     | SDone _ => True
     | _ => last (t_infos t) = Some (ls_sz (t_size t))
     end);
  ti_sent : omap decode_input (t_sent t) = t_chunks t /\
    omap decode_info (t_sent t) = terminalInfo <$> t_infos t
}.

Lemma term_start_inv size : term_inv (term_start size).
Proof.
  split; try done.
  - by exists [], false.
  - by exists [].
  - split_and!; try done. by left.
Qed.

(** Several reads on, when none so far detached. *)
Lemma filter_reads_snoc f reads r g out :
  filter_reads f reads = (g, out, false) ->
  filter_reads f (reads ++ [r]) = let '(h, o, d) := escapeFilter_filter g [] r in (h, out ++ o, d).
Proof.
  intros H. rewrite filter_reads_concat in H |- *. rewrite concat_app, escapeFilter_filter_app.
  cbn [concat]. rewrite app_nil_r, H. by destruct (escapeFilter_filter g [] r) as [[h o] d].
Qed.

(** ** Preservation, a group of steps at a time *)

(** The reader's part of the invariant. *)
Definition input_ok (t : term) : Prop :=
  exists out detach, filter_reads esc_init (t_reads t) = (t_esc t, out, detach) /\
    (detach = true -> detached (t_reader t)) /\
    t_kept t ++ remaining (t_reader t) `sublist_of` out /\
    (t_drops t = 0%nat -> t_kept t ++ remaining (t_reader t) = out).

(** A reader step that leaves the buffer's bytes. *)
Lemma inv_reader t esc reads r p kept drops :
  term_inv t ->
  pi_buf p = pi_buf (t_pending t) -> pi_max p = pi_max (t_pending t) -> kept = t_kept t ->
  (pi_ready (t_pending t) = true -> pi_ready p = true) ->
  (forall b d e, t_reader t = RPush (PushSignal b) d e -> pi_ready p = true \/ exists b d e, r = RPush (PushSignal b) d e) ->
  (forall b d e, r = RPush (PushWait b) d e -> t_reader t = RPush (PushWait b) d e /\ pi_space p = pi_space (t_pending t)) ->
  input_ok (in_reader esc reads r p kept drops t) ->
  term_inv (in_reader esc reads r p kept drops t).
Proof.
  intros [] Hb Hm -> Hr Hs Hw Hin. split; cbn; rewrite ?Hb, ?Hm; try done.
  - intros Hi Hne Hrd. destruct (pi_ready (t_pending t)) eqn:He; [by rewrite Hr in Hrd|].
    destruct (ti_ready0 Hi Hne eq_refl) as (b & d & e & Hsig).
    destruct (Hs _ _ _ Hsig) as [?|?]; [congruence|done].
  - intros b d e Hrw Hsp. destruct (Hw _ _ _ Hrw) as [Hrw' Hsp']. rewrite Hsp' in Hsp. by eapply ti_wait0.
Qed.

Lemma drops_more_nil at_ : drops_more at_ = 0%nat -> forall d, at_ = PushDone d -> d = [].
Proof. by destruct at_ as [| | |[|]]; intros ? ? [= <-]. Qed.

Lemma placed_bounds b p :
  pi_max p = maxPending -> zlen (pi_buf p) <= maxPending ->
  zlen (pi_buf p ++ placed b p) <= maxPending.
Proof.
  intros Hm Hb. unfold placed. rewrite zlen_app, zlen_ztake, Hm. lia.
Qed.

Lemma push_turn_inv t b detach err p at_ :
  term_inv t -> t_reader t = RPush (PushLoop b) detach err -> push_turn b (t_pending t) = (p, at_) ->
  term_inv (in_reader (t_esc t) (t_reads t) (RPush at_ detach err) p
    (t_kept t ++ placed b (t_pending t)) (t_drops t + drops_more at_) t).
Proof.
  intros Hi Hr Hp. pose proof Hi as []. destruct ti_buf0 as [Hm Hb].
  destruct ti_esc0 as (out & det & Hf & Hd & Hsub & Heq). rewrite Hr in Hd, Hsub, Heq. cbn in Hsub, Heq.
  assert (pi_buf p = pi_buf (t_pending t) ++ placed b (t_pending t) /\ pi_max p = maxPending /\
    pi_ready p = pi_ready (t_pending t) /\
    ((exists b', at_ = PushSignal b' /\ b = placed b (t_pending t) ++ b') \/
     placed b (t_pending t) = [] /\ (at_ = PushDone b \/
       at_ = PushWait b /\ zlen (pi_buf (t_pending t)) = maxPending))) as (Hpb & Hpm & Hpr & Hcases).
  { unfold push_turn in Hp. rewrite Z.gtb_ltb in Hp. pose proof (zlen_nonneg b). unfold placed. rewrite Hm in *.
    destruct (Z.leb_spec (zlen b) 0).
    - assert (b = []) as -> by (destruct b; [done|]; exfalso; unfold zlen in *; cbn in *; lia).
      injection Hp as <- <-. unfold ztake. rewrite take_nil, app_nil_r. split_and!; try done. by right; split; [|left].
    - destruct (Z.ltb_spec 0 (Z.min (zlen b) (maxPending - zlen (pi_buf (t_pending t))))).
      + injection Hp as <- <-. split_and!; try done. left. eexists. split; [done|]. by rewrite ztake_zdrop.
      + assert (ztake (Z.min (zlen b) (maxPending - zlen (pi_buf (t_pending t)))) b = []) as Hnil by (apply ztake_0; lia).
        rewrite Hnil in *. destruct (pi_stalled (t_pending t)); injection Hp as <- <-; split_and!; try done;
          right; (split; [done|]); [by left|right; split; [done|lia]]. }
  split; cbn; try done.
  - exists out, det. split_and!; try done.
    + destruct Hcases as [(b' & -> & Hb')|(Hn & [->|[-> _]])]; cbn.
      * rewrite <- app_assoc, <- Hb'. done.
      * rewrite Hn, !app_nil_r. etransitivity; [|exact Hsub]. by apply sublist_inserts_r.
      * by rewrite Hn, app_nil_r.
    + intros Hz. destruct Hcases as [(b' & -> & Hb')|(Hn & [->|[-> _]])]; cbn in *.
      * rewrite <- app_assoc, <- Hb'. apply Heq. lia.
      * rewrite Hn, !app_nil_r. destruct b; [|lia]. rewrite app_nil_r in Heq. apply Heq. lia.
      * rewrite Hn, app_nil_r. apply Heq. lia.
  - destruct ti_fifo0 as (lost & Hk & Hl). exists lost. split; [|done]. rewrite Hpb, <- Hk, <- !app_assoc. done.
  - rewrite Hpb, Hpm. split; [done|]. by apply placed_bounds.
  - intros Hid Hne Hrd. destruct Hcases as [(b' & -> & Hb')|(Hn & Hat)]; [by eexists _, _, _|].
    rewrite Hpb, Hn, app_nil_r in Hne. rewrite Hpr in Hrd.
    destruct (ti_ready0 Hid Hne Hrd) as (? & ? & ? & ?). congruence.
  - intros b0 d0 e0 [= -> -> ->] _. left. destruct Hcases as [(?&?&_)|(Hn & [?|[[= ->] Hz]])]; try done.
    by rewrite Hpb, Hn, app_nil_r.
Qed.

Lemma read_inv t data err esc out detach :
  term_inv t -> t_reader t = RRead -> escapeFilter_filter (t_esc t) [] data = (esc, out, detach) ->
  term_inv (in_reader esc (t_reads t ++ [data]) (RPush (PushLoop out) detach err) (t_pending t)
    (t_kept t) (t_drops t) t).
Proof.
  intros Hi Hr He. apply inv_reader; try done.
  - intros b d e Hs. congruence.
  - destruct Hi. destruct ti_esc0 as (o & det & Hf & Hd & Hsub & Heq). rewrite Hr in Hd, Hsub, Heq.
    cbn [remaining] in Hsub, Heq. rewrite app_nil_r in Hsub, Heq. destruct det; [by destruct (Hd eq_refl)|].
    pose proof (filter_reads_snoc _ _ data _ _ Hf) as Hf'. rewrite He in Hf'.
    exists (o ++ out), detach. split_and!; cbn; try done.
    + by apply sublist_app.
    + intros Hz. by rewrite (Heq Hz).
Qed.

(** A reader step between pushes: what is left to place is dropped or kept. *)
Lemma reader_move_inv t r p drops :
  term_inv t -> pi_buf p = pi_buf (t_pending t) -> pi_max p = pi_max (t_pending t) ->
  (pi_ready (t_pending t) = true -> pi_ready p = true) ->
  (forall b d e, t_reader t = RPush (PushSignal b) d e -> pi_ready p = true) ->
  (forall b d e, r <> RPush (PushWait b) d e) ->
  (detached (t_reader t) -> detached r) ->
  (remaining r = remaining (t_reader t) /\ drops = t_drops t \/
   remaining r = [] /\ (drops = 0%nat -> t_drops t = 0%nat /\ remaining (t_reader t) = [])) ->
  term_inv (in_reader (t_esc t) (t_reads t) r p (t_kept t) drops t).
Proof.
  intros Hi Hb Hm Hr Hs Hw Hd Hrem. apply inv_reader; try done.
  - intros b d e Hsig. left. by eapply Hs.
  - intros b d e ->. by destruct (Hw b d e).
  - destruct Hi. destruct ti_esc0 as (o & det & Hf & Hdet & Hsub & Heq).
    exists o, det. split_and!; cbn; try done; [auto| |].
    + destruct Hrem as [[-> _]|[-> _]]; [done|]. rewrite app_nil_r. etransitivity; [|exact Hsub].
      by apply sublist_inserts_r.
    + destruct Hrem as [[-> ->]|[-> Hz]]; [done|]. intros H0. destruct (Hz H0) as [H1 H2].
      rewrite <- (Heq H1), H2. done.
Qed.

Lemma reader_steps_inv t :
  term_inv t ->
  (forall err, t_reader t = RRead -> term_inv (in_reader (t_esc t) (t_reads t)
     (match err with None => RRead | Some e => RDone (read_error (t_ctx t) e) end) (t_pending t) (t_kept t) (t_drops t) t)) /\
  (forall b d e, t_reader t = RPush (PushSignal b) d e -> term_inv (in_reader (t_esc t) (t_reads t)
     (RPush (PushLoop b) d e) (pending_ready true (t_pending t)) (t_kept t) (t_drops t) t)) /\
  (forall b d e, t_reader t = RPush (PushWait b) d e -> term_inv (in_reader (t_esc t) (t_reads t)
     (RPush (PushLoop b) d e) (pending_space false (t_pending t)) (t_kept t) (t_drops t) t)) /\
  (forall b d e p, t_reader t = RPush (PushWait b) d e ->
     p = t_pending t \/ p = fst (push_grace b (t_pending t)) -> term_inv (in_reader (t_esc t) (t_reads t)
     (RPush (PushDone b) d e) p (t_kept t) (t_drops t + drops_more (PushDone b)) t)) /\
  (forall b (d : bool) e, t_reader t = RPush (PushDone b) d e -> term_inv (in_reader (t_esc t) (t_reads t)
     (if d then RDone (Sentinel ErrDetached)
      else match e with None => RRead | Some e => RDone (read_error (t_ctx t) e) end)
     (t_pending t) (t_kept t) (t_drops t) t)).
Proof.
  intros Hi. split_and!.
  - intros err Hr. apply reader_move_inv; try done; rewrite ?Hr; try done; [by destruct err|]. left. by destruct err.
  - intros b d e Hr. apply reader_move_inv; try done; rewrite ?Hr; try done. by left.
  - intros b d e Hr. apply reader_move_inv; try done; rewrite ?Hr; try done. by left.
  - intros b d e p Hr [->| ->]; (apply reader_move_inv; try done; rewrite ?Hr; try done; right; split; [done|];
      destruct b; cbn; lia || (intros; split; [lia|done])).
  - intros b d e Hr. apply reader_move_inv; try done; rewrite ?Hr; try done.
    + intros. by destruct d, e.
    + cbn. by intros ->.
    + left. by destruct d, e.
Qed.

(** ** The sender *)

Lemma sender_move_inv t p l s :
  term_inv t -> pi_buf p = pi_buf (t_pending t) -> pi_max p = pi_max (t_pending t) ->
  in_hand s = in_hand (t_sender t) \/ (exists e, s = SDone (Some e)) ->
  (s = SIdle -> pi_buf p = []) -> (ls_dirty l = true -> ls_changed l = true \/ s = SSize) ->
  (forall c, s = SSpace c -> t_sender t = SSpace c) ->
  (forall c, s = SChunkWrite c \/ s = SChunkCall c -> chunk_ok c) ->
  (pi_space (t_pending t) = true -> pi_space p = true) ->
  (forall c, t_sender t = SSpace c -> pi_space p = true \/ s = SSpace c) ->
  ls_sz l = ls_sz (t_size t) ->
  (ls_dirty l = false -> match s with
     | SSizeWrite sz | SSizeCall sz => sz = ls_sz l | SDone _ => True | _ => last (t_infos t) = Some (ls_sz l) end) ->
  (forall e, t_sender t <> SDone e) ->
  term_inv (in_sender p l s t).
Proof.
  intros [] Hb Hm Hh Hidle Hdy Hsp Hcw Hsp1 Hsp2 Hsz Hd Hnd. split; cbn; rewrite ?Hb, ?Hm; try done.
  - destruct ti_fifo0 as (lost & Hk & Hl). destruct Hh as [->|[e ->]].
    + exists lost. split; [done|]. intros Hne. destruct (Hl Hne) as [e He]. by destruct (Hnd (Some e)).
    + exists (in_hand (t_sender t)). split; [|by eexists]. cbn. rewrite <- Hk.
      destruct lost as [|x lost]; [done|]. destruct (Hl ltac:(done)) as [e' He']. by destruct (Hnd (Some e')).
  - split; [apply ti_chunks0|]. destruct s; try done; [|apply Hcw; auto..].
    pose proof (proj2 ti_chunks0) as Hc. by rewrite (Hsp _ eq_refl) in Hc.
  - intros Hs Hne. specialize (Hidle Hs). congruence.
  - intros b d e Hr Hspf. destruct (pi_space (t_pending t)) eqn:Hs; [by rewrite Hsp1 in Hspf|].
    destruct (ti_wait0 _ _ _ Hr eq_refl) as [?|[c Hc]]; [by left|].
    right. destruct (Hsp2 _ Hc); [congruence|by eexists].
  - rewrite Hsz. destruct ti_size0 as (? & _ & _). split_and!; [done|done|by rewrite <- Hsz].
Qed.

Lemma take_cases p p' chunk :
  take MaxInputPacket p = (p', chunk) ->
  pi_max p' = pi_max p /\ pi_ready p' = pi_ready p /\ pi_space p' = pi_space p /\
  pi_buf p = chunk ++ pi_buf p' /\ zlen (pi_buf p') <= zlen (pi_buf p) /\
  (chunk = [] -> pi_buf p = []) /\ (chunk <> [] -> chunk_ok chunk).
Proof.
  unfold take, chunk_ok. pose proof (zlen_nonneg (pi_buf p)).
  assert (0 < MaxInputPacket) by done.
  destruct (Z.eqb_spec (Z.min MaxInputPacket (zlen (pi_buf p))) 0) as [Hz|Hz]; intros [= <- <-]; cbn.
  - split_and!; try done. intros _. destruct (pi_buf p); [done|]. unfold zlen in *. cbn in *. lia.
  - split_and!; try done.
    + by rewrite ztake_zdrop.
    + rewrite zlen_zdrop. lia.
    + intros Hn. exfalso. apply (f_equal zlen) in Hn. rewrite zlen_ztake in Hn.
      change (zlen []) with 0 in Hn. lia.
    + intros _. rewrite zlen_ztake. lia.
Qed.

Lemma take_inv t p chunk :
  term_inv t -> t_sender t = SChunks -> take MaxInputPacket (t_pending t) = (p, chunk) ->
  term_inv (in_sender p (t_size t) (match chunk with [] => SIdle | _ => SSpace chunk end) t).
Proof.
  intros [] Hs Ht. apply take_cases in Ht as (Hm & Hr & Hsp & Hb & Hl & Hnil & Hok).
  rewrite Hs in *. cbn in *.
  assert (in_hand (match chunk with [] => SIdle | _ => SSpace chunk end) = chunk) as Hh by by destruct chunk.
  split; cbn; try done.
  - destruct ti_fifo0 as (lost & Hk & Hlost). rewrite Hh. exists [].
    assert (lost = []) as -> by (destruct lost; [done|]; by destruct Hlost). cbn in Hk |- *.
    rewrite <- Hk, Hb. done.
  - split; [apply ti_chunks0|]. destruct chunk; [done|]. by apply Hok.
  - rewrite Hm. split; [apply ti_buf0|]. destruct ti_buf0. lia.
  - intros Hi Hne. destruct chunk; [|done]. cbn in Hb. by rewrite <- Hb, Hnil in Hne.
  - intros b d e Hrd Hspf. destruct chunk as [|x chunk]; [|right; by eexists]. cbn in Hb.
    rewrite Hsp in Hspf. destruct (ti_wait0 _ _ _ Hrd Hspf) as [Hz|[? ?]]; [|done]. left. by rewrite <- Hb.
  - destruct ti_size0 as (? & Hd & Hsz). split_and!; [done| |].
    + intros Hdy. destruct (Hd Hdy) as [?|?]; [by left|done].
    + intros Hdy. specialize (Hsz Hdy). by destruct chunk.
Qed.

Lemma sent_inv t p infos chunks :
  term_inv t ->
  omap decode_input [p] = chunks -> omap decode_info [p] = terminalInfo <$> infos ->
  concat chunks = in_hand (t_sender t) -> Forall chunk_ok chunks ->
  (forall e, t_sender t <> SDone e) -> t_sender t <> SSize -> (forall c, t_sender t <> SSpace c) ->
  match t_sender t with SSizeWrite _ => False | SSizeCall sz => infos = [sz] | _ => infos = [] end ->
  term_inv (sent p infos chunks SChunks t).
Proof.
  intros [] Hin Hif Hc Hcok Hnd Hns Hnsp Hinf. split; cbn; try done.
  - destruct ti_fifo0 as (lost & Hk & Hl). exists lost. split.
    + rewrite concat_app, Hc, <- Hk, <- app_assoc. done.
    + intros Hne. destruct (Hl Hne) as [e ?]. by destruct (Hnd (Some e)).
  - split; [|done]. apply Forall_app. by destruct ti_chunks0.
  - intros b d e Hr Hsp. destruct (ti_wait0 _ _ _ Hr Hsp) as [?|[c ?]]; [by left|by destruct (Hnsp c)].
  - destruct ti_size0 as (? & Hd & Hsz). split_and!; [done| |].
    + intros Hdy. destruct (Hd Hdy); [by left|done].
    + intros Hdy. specialize (Hsz Hdy). destruct (t_sender t); try congruence; try done; subst infos;
        rewrite ?app_nil_r; try done; by rewrite last_snoc, Hsz.
  - rewrite !omap_app, fmap_app, Hin, Hif. destruct ti_sent0 as [-> ->]. done.
Qed.

(** The sender gives up, or goes into its call: the pending input and the size
    stay. *)
Lemma sender_fails_inv t e :
  term_inv t -> (forall e, t_sender t <> SDone e) -> t_sender t <> SSize -> (forall c, t_sender t <> SSpace c) ->
  term_inv (in_sender (t_pending t) (t_size t) (SDone (Some e)) t).
Proof.
  intros Hi Hd Hs Hsp. pose proof (ti_size _ Hi) as (_ & Hz & _).
  apply sender_move_inv; try done; [right; by eexists| |intros c [?|?]; done|].
  - intros Hdy. destruct (Hz Hdy) as [?|?]; [by left|done].
  - intros c Hc. by destruct (Hsp c).
Qed.

Lemma sender_calls_inv t s :
  term_inv t ->
  (exists sz, t_sender t = SSizeWrite sz /\ s = SSizeCall sz) \/
  (exists c, t_sender t = SChunkWrite c /\ s = SChunkCall c) ->
  term_inv (in_sender (t_pending t) (t_size t) s t).
Proof.
  intros Hi Hc. pose proof (ti_size _ Hi) as (_ & Hz & Hz3). pose proof (proj2 (ti_chunks _ Hi)) as Hch.
  destruct Hc as [(x & Hs & ->)|(x & Hs & ->)]; rewrite Hs in *;
    apply sender_move_inv; try done; rewrite ?Hs; try done; try (by left).
  - intros Hdy. destruct (Hz Hdy); [by left|done].
  - intros c [?|?]; congruence.
  - intros Hdy. destruct (Hz Hdy); [by left|done].
  - intros c [?|?]; congruence.
Qed.

Lemma term_step_inv E t t' : term_inv t -> term_step E t t' -> term_inv t'.
Proof.
  intros Hi Hs. pose proof (reader_steps_inv t Hi) as (R1 & R2 & R3 & R4 & R5).
  pose proof (ti_size _ Hi) as (Hz1 & Hz2 & Hz3). pose proof (proj2 (ti_chunks _ Hi)) as Hc. destruct Hs.
  - by eapply read_inv.
  - by apply R1.
  - by eapply push_turn_inv.
  - by eapply R2.
  - match goal with H : push_room _ _ = _ |- _ => injection H as <- <- end. by eapply R3.
  - match goal with H : push_grace _ _ = _ |- _ => injection H as <- <- end. eapply R4; [done|by right].
  - match goal with H : push_ctx _ _ = _ |- _ => injection H as <- <- end. eapply R4; [done|by left].
  - by eapply R5.
  - destruct Hi. split; cbn; try done. split_and!; [by rewrite last_snoc|by left|done].
  - rename H into Hsd. apply sender_move_inv; try done; rewrite ?Hsd in *; try done; [by left|auto|by intros c [?|?]].
  - rename H into Hsd. apply sender_move_inv; try done; cbn; rewrite ?Hsd in *; try done; [by left|by right|by intros c [?|?]].
  - rename H into Hsd. apply sender_move_inv; try done; cbn; rewrite ?Hsd in *; try done; [by left| |by intros c [?|?]].
    intros Hd. destruct (Hz2 Hd) as [?|?]; [by left|done].
  - rename H into Hsd. unfold latestSize_take in *. destruct (ls_dirty (t_size t)) eqn:Hd; cbn [negb] in *;
      match goal with H : (_, _) = _ |- _ => injection H as <- <- end;
      apply sender_move_inv; try done; cbn; rewrite ?Hsd, ?Hd in *; try done; auto; by intros c [?|?].
  - apply sender_calls_inv; [done|]. left. eauto.
  - apply sender_fails_inv; rewrite ?H; done.
  - rename H into Hsd. eapply sent_inv; rewrite ?Hsd; try done; cbn.
    unfold decode_info. cbn. by rewrite (proto_roundtrip _ _ H0).
  - apply sender_fails_inv; rewrite ?H; done.
  - by eapply take_inv.
  - rename H into Hsd. rewrite Hsd in Hc.
    apply sender_move_inv; try done; cbn; rewrite ?Hsd in *; try done; [by left| | |].
    + intros Hd. destruct (Hz2 Hd) as [?|?]; [by left|done].
    + by intros c [[= <-]|?].
    + intros c [= <-]. by left.
  - apply sender_calls_inv; [done|]. right. eauto.
  - apply sender_fails_inv; rewrite ?H; done.
  - rename H into Hsd. rewrite Hsd in Hc.
    eapply sent_inv; rewrite ?Hsd; try done; cbn.
    + unfold decode_input. cbn. by rewrite (proto_roundtrip _ _ H0).
    + by rewrite app_nil_r.
    + by constructor.
  - apply sender_fails_inv; rewrite ?H; done.
  - by destruct Hi.
Qed.

Lemma term_run_inv E size t : rtc (term_step E) (term_start size) t -> term_inv t.
Proof.
  intros Hr. assert (term_inv (term_start size)) as Hi by apply term_start_inv.
  revert Hi. induction Hr as [|x y z Hs _ IH]; [done|]. intros Hi. apply IH. by eapply term_step_inv.
Qed.

Lemma input_order E size t :
  rtc (term_step E) (term_start size) t ->
  let typed := fst (typed_result true (concat (t_reads t))) in
  omap decode_input (t_sent t) = t_chunks t /\ Forall chunk_ok (t_chunks t) /\
  zlen (pi_buf (t_pending t)) <= maxPending /\
  exists lost, let kept := concat (t_chunks t) ++ in_hand (t_sender t) ++ lost ++ pi_buf (t_pending t) in
    (lost <> [] -> exists e, t_sender t = SDone (Some e)) /\
    kept ++ remaining (t_reader t) `sublist_of` typed /\
    (t_drops t = 0%nat -> kept ++ remaining (t_reader t) = typed).
Proof.
  intros Hr typed. destruct (term_run_inv _ _ _ Hr). split_and!; [apply ti_sent0|apply ti_chunks0|apply ti_buf0|].
  destruct ti_fifo0 as (lost & Hk & Hl). exists lost. cbv zeta. rewrite Hk. split; [done|].
  destruct ti_esc0 as (out & det & Hf & _ & Hsub & Heq).
  pose proof (filter_reference (t_reads t)) as Href. rewrite Hf in Href. unfold typed. by rewrite <- Href.
Qed.

(** What was typed and reaches the server or waits to, in every interleaving
    of the keyboard, the sender, resizes and the end of the session: the
    TERMINAL_BUFFER packets written, what the sender holds and what is
    pending are, in order, the keyboard input through the local escape, less
    only what [push] dropped or a failed write lost; nothing is missing if no
    push dropped anything and no write failed.  Every packet carries between
    1 byte and MaxInputPacket, and no more than maxPending bytes wait. *)
Theorem terminal_input_order E size t :
  rtc (term_step E) (term_start size) t ->
  let typed := fst (typed_result true (concat (t_reads t))) in
  omap decode_input (t_sent t) = t_chunks t /\ Forall chunk_ok (t_chunks t) /\
  zlen (pi_buf (t_pending t)) <= maxPending /\
  exists lost, let kept := concat (t_chunks t) ++ in_hand (t_sender t) ++ lost ++ pi_buf (t_pending t) in
    (lost <> [] -> exists e, t_sender t = SDone (Some e)) /\
    kept ++ remaining (t_reader t) `sublist_of` typed /\
    (t_drops t = 0%nat -> kept ++ remaining (t_reader t) = typed).
Proof. exact (input_order E size t). Qed.

Lemma idle_complete E size t :
  rtc (term_step E) (term_start size) t ->
  t_sender t = SIdle -> pi_ready (t_pending t) = false -> ls_changed (t_size t) = false ->
  (t_reader t = RRead \/ exists b d e, t_reader t = RPush (PushWait b) d e /\ pi_space (t_pending t) = false) ->
  t_reader t = RRead /\
  (t_drops t = 0%nat ->
   concat (omap decode_input (t_sent t)) = fst (typed_result true (concat (t_reads t)))) /\
  last (omap decode_info (t_sent t)) = terminalInfo <$> last (t_sizes t).
Proof.
  intros Hr Hs Hrd Hch Hread. destruct (term_run_inv _ _ _ Hr).
  assert (pi_buf (t_pending t) = []) as Hb.
  { destruct (pi_buf (t_pending t)) eqn:Hb; [done|].
    destruct (ti_ready0 Hs ltac:(done) Hrd) as (b1 & d1 & e1 & Hx).
    destruct Hread as [?|(?&?&?&?&_)]; congruence. }
  assert (t_reader t = RRead) as Hrr.
  { destruct Hread as [|(b & d & e & Hw & Hsp)]; [done|]. destruct (ti_wait0 _ _ _ Hw Hsp) as [Hz|[c Hc]]; [|congruence].
    by rewrite Hb in Hz. }
  split; [done|]. rewrite (proj1 ti_sent0), (proj2 ti_sent0). split.
  - intros Hd. destruct ti_fifo0 as (lost & Hk & Hl). destruct ti_esc0 as (out & det & Hf & _ & _ & Heq).
    assert (lost = []) as -> by (destruct lost; [done|]; destruct Hl as [e He]; [done|congruence]).
    pose proof (filter_reference (t_reads t)) as Href. rewrite Hf in Href. rewrite <- Href. cbn [fst].
    rewrite <- (Heq Hd), Hrr, <- Hk, Hb, Hs. cbn. by rewrite !app_nil_r.
  - destruct ti_size0 as (-> & Hd & Hsz). rewrite fmap_last. rewrite Hs in *.
    destruct (ls_dirty (t_size t)); [|by rewrite (Hsz eq_refl)]. destruct (Hd eq_refl); congruence.
Qed.

(** No wake-up is lost.  When the sender waits and neither of its signals is
    set, and the reader is blocked in Read or waits for room nobody
    signalled, then the reader waits for nothing but the keyboard, everything
    kept was sent, and the last TERMINAL_INFO sent is of the newest size. *)
Theorem terminal_idle_complete E size t :
  rtc (term_step E) (term_start size) t ->
  t_sender t = SIdle -> pi_ready (t_pending t) = false -> ls_changed (t_size t) = false ->
  (t_reader t = RRead \/ exists b d e, t_reader t = RPush (PushWait b) d e /\ pi_space (t_pending t) = false) ->
  t_reader t = RRead /\
  (t_drops t = 0%nat ->
   concat (omap decode_input (t_sent t)) = fst (typed_result true (concat (t_reads t)))) /\
  last (omap decode_info (t_sent t)) = terminalInfo <$> last (t_sizes t).
Proof. exact (idle_complete E size t). Qed.
End Invariant.

(** ** A run on concrete values *)

From S2P Require Import Codecs.

Section Example.
#[local] Existing Instances tb_codec ti_codec.

Ltac eval_term := match goal with |- rtc _ ?a _ => let a' := eval vm_compute in a in change a with a' end.

(** A transport that never refuses, and a terminal that reads anything. *)
Definition example_env : term_env := TermEnv (fun _ _ => True) (fun _ => True) (fun _ _ => None) (fun _ _ _ => True).

(** The first size is sent, then a line typed in two reads with an escape. *)
Lemma example_terminal : exists t, rtc (term_step example_env) (term_start (inr (Foreign 0))) t /\
  t_sender t = SIdle /\ pi_ready (t_pending t) = false /\ ls_changed (t_size t) = false /\
  t_reader t = RRead /\ t_drops t = 0%nat /\ t_reads t = [bs "~"; bs "~ls"] /\
  concat (omap decode_input (t_sent t)) = bs "~ls".
Proof.
  eexists. split.
  - eapply rtc_l; [apply ts_wake_changed; reflexivity|]; eval_term.
    eapply rtc_l; [eapply ts_take_size; reflexivity|]; eval_term.
    eapply rtc_l; [eapply (ts_size_call _ _ Size_zero); [reflexivity|vm_compute; reflexivity|reflexivity]|]; eval_term.
    eapply rtc_l; [eapply (ts_size_sent _ _ Size_zero); vm_compute; reflexivity|]; eval_term.
    eapply rtc_l; [eapply ts_take; [reflexivity|vm_compute; reflexivity]|]; eval_term.
    eapply rtc_l; [eapply (ts_read _ _ (bs "~") None); [reflexivity|exact I|by vm_compute|done|vm_compute; reflexivity]|]; eval_term.
    eapply rtc_l; [eapply ts_push_turn; [reflexivity|vm_compute; reflexivity]|]; eval_term.
    eapply rtc_l; [eapply ts_pushed; reflexivity|]; eval_term.
    eapply rtc_l; [eapply (ts_read _ _ (bs "~ls") None); [reflexivity|exact I|by vm_compute|done|vm_compute; reflexivity]|]; eval_term.
    eapply rtc_l; [eapply ts_push_turn; [reflexivity|vm_compute; reflexivity]|]; eval_term.
    eapply rtc_l; [eapply ts_push_signal; reflexivity|]; eval_term.
    eapply rtc_l; [eapply ts_push_turn; [reflexivity|vm_compute; reflexivity]|]; eval_term.
    eapply rtc_l; [eapply ts_pushed; reflexivity|]; eval_term.
    eapply rtc_l; [apply ts_wake_ready; reflexivity|]; eval_term.
    eapply rtc_l; [eapply ts_take_size; reflexivity|]; eval_term.
    eapply rtc_l; [eapply ts_take; [reflexivity|vm_compute; reflexivity]|]; eval_term.
    eapply rtc_l; [eapply ts_space; reflexivity|]; eval_term.
    eapply rtc_l; [eapply ts_chunk_call; [reflexivity|vm_compute; reflexivity|reflexivity]|]; eval_term.
    eapply rtc_l; [eapply ts_chunk_sent; [reflexivity|vm_compute; reflexivity]|]; eval_term.
    eapply rtc_l; [eapply ts_take; [reflexivity|vm_compute; reflexivity]|]; eval_term.
    apply rtc_refl.
  - split_and!; vm_compute; reflexivity.
Qed.

Lemma terminal_input_order_witness : exists t, rtc (term_step example_env) (term_start (inr (Foreign 0))) t /\
  omap decode_input (t_sent t) = t_chunks t /\ t_reads t = [bs "~"; bs "~ls"].
Proof.
  destruct example_terminal as (t & Hr & _ & _ & _ & _ & _ & Hrd & _). exists t.
  exact (conj Hr (conj (proj1 (terminal_input_order _ _ t Hr)) Hrd)).
Defined.

Lemma terminal_idle_complete_witness : exists t, rtc (term_step example_env) (term_start (inr (Foreign 0))) t /\
  concat (omap decode_input (t_sent t)) = fst (typed_result true (bs "~~ls")).
Proof.
  destruct example_terminal as (t & Hr & Hs & Hrd & Hch & Hread & Hd & Hreads & _). exists t. split; [exact Hr|].
  pose proof (proj1 (proj2 (terminal_idle_complete _ _ t Hr Hs Hrd Hch (or_introl Hread))) Hd) as H.
  rewrite Hreads in H. exact H.
Defined.
End Example.
