(* ===== verification/Router.v ===== *)
(** * internal/session/router.go: the packet router

    [newRouter] registers each service's headers; [router_step] interleaves
    the router's loop ([dispatch] is its switch on a packet), the services
    that range over their queues, and the end of the context.  A queue is a
    bounded channel that the router closes on a normal end. *)

From S2P Require Export Wire Protocol.
Local Open Scope Z_scope.

Definition queueLen : Z := 64.

Definition sessionHeader (h : Header) : bool :=
  bool_decide (h = HeaderKeepAlive) || bool_decide (h = HeaderTerminalExitStatus) ||
  bool_decide (h = HeaderTerminalClose).

(** The routes, header to the index of its service. *)
Fixpoint lookup_route (routes : list (Header * nat)) (h : Header) : option nat :=
  match routes with
  | [] => None
  | (h', s) :: routes => if bool_decide (h' = h) then Some s else lookup_route routes h
  end.

Fixpoint register (s : nat) (headers : list Header) (routes : list (Header * nat))
  : list (Header * nat) + gerr :=
  match headers with
  | [] => inl routes
  | h :: headers =>
      if sessionHeader h then inr (Errorf "session: header %v is handled by the router" [])
      else match lookup_route routes h with
           | Some _ => inr (Errorf "session: header %v registered twice" [])
           | None => register s headers (routes ++ [(h, s)])
           end
  end.

Fixpoint register_all (s : nat) (services : list (list Header)) (routes : list (Header * nat))
  : list (Header * nat) + gerr :=
  match services with
  | [] => inl routes
  | headers :: services =>
      match register s headers routes with
      | inl routes => register_all (S s) services routes
      | inr e => inr e
      end
  end.

Definition newRouter (services : list (list Header)) : list (Header * nat) + gerr :=
  register_all 0 services [].

(** ** The run *)

Inductive phase :=
| Reading
| Sending (q : nat) (p : Packet)
| Draining (todo : list nat)
| Returned (err : gerr) (normal : bool).

(** One service: its queue, what its iterator yielded, and whether it still
    ranges; [q_cut] when it stopped before the queue was closed and empty. *)
Record squeue := MkQueue { q_ch : list Packet; q_got : list Packet; q_drained : bool; q_cut : bool }.

Definition new_queue : squeue := MkQueue [] [] false false.

Record router := MkRouter {
  r_routes : list (Header * nat);
  r_queues : list squeue;
  r_closed : bool;
  r_exit : option Z;
  r_phase : phase;
  r_ctx : option gerr;
  r_read : list Packet
}.

Definition with_queues (qs : list squeue) (ph : phase) (r : router) : router :=
  MkRouter (r_routes r) qs (r_closed r) (r_exit r) ph (r_ctx r) (r_read r).

(** [ended]: every queue closed, then wait for all of them. *)
Definition ended (r : router) : router :=
  MkRouter (r_routes r) (r_queues r) true (r_exit r) (Draining (seq 0 (length (r_queues r))))
    (r_ctx r) (r_read r).

(** The error a normal end returns. *)
Definition end_error (exit : option Z) : gerr :=
  match exit with Some c => ExitError c | None => Sentinel errEnded end.

Section Router.
Context `{PES : ProtoMessage TerminalExitStatus}.

(** The switch on a packet's header. *)
Definition dispatch (p : Packet) (r : router) : router :=
  let r := MkRouter (r_routes r) (r_queues r) (r_closed r) (r_exit r) (r_phase r) (r_ctx r) (r_read r ++ [p]) in
  let go := fun ph exit => MkRouter (r_routes r) (r_queues r) (r_closed r) exit ph (r_ctx r) (r_read r) in
  if bool_decide (p_Header p = HeaderKeepAlive) then r
  else if bool_decide (p_Header p = HeaderTerminalExitStatus) then
    match proto_Unmarshal (p_Payload p) with
    | inr err => go (Returned (Errorf "session: decode exit status: %w" [err]) false) (r_exit r)
    | inl st => if HasExitcode st then go (r_phase r) (Some (GetExitcode st)) else r
    end
  else if bool_decide (p_Header p = HeaderTerminalClose) then ended r
  else match lookup_route (r_routes r) (p_Header p) with
       | None => r
       | Some q => go (Sending q p) (r_exit r)
       end.

(** A ReadPacket that failed. *)
Definition read_failed (err : gerr) (r : router) : router :=
  match r_ctx r with
  | Some cause => with_queues (r_queues r) (Returned cause false) r
  | None => if errors_Is err io_EOF then ended r
            else with_queues (r_queues r) (Returned (Errorf "session: read: %w" [err]) false) r
  end.

Definition set_queue (i : nat) (q : squeue) (r : router) : list squeue := <[i := q]> (r_queues r).

Inductive router_step : router -> router -> Prop :=
| rs_packet r p : r_phase r = Reading -> router_step r (dispatch p r)
| rs_read_err r err : r_phase r = Reading -> router_step r (read_failed err r)
| rs_send r i p q :
    r_phase r = Sending i p -> r_queues r !! i = Some q -> zlen (q_ch q) < queueLen ->
    router_step r (with_queues (set_queue i (MkQueue (q_ch q ++ [p]) (q_got q) (q_drained q) (q_cut q)) r) Reading r)
| rs_send_ctx r i p cause :
    r_phase r = Sending i p -> r_ctx r = Some cause -> router_step r (with_queues (r_queues r) (Returned cause false) r)
| rs_drained r todo1 i todo2 q :
    r_phase r = Draining (todo1 ++ i :: todo2) -> r_queues r !! i = Some q -> q_drained q = true ->
    router_step r (with_queues (r_queues r) (Draining (todo1 ++ todo2)) r)
| rs_drain_ctx r i todo cause :
    r_phase r = Draining (i :: todo) -> r_ctx r = Some cause ->
    router_step r (with_queues (r_queues r) (Returned cause false) r)
| rs_ended r :
    r_phase r = Draining [] -> router_step r (with_queues (r_queues r) (Returned (end_error (r_exit r)) true) r)
| rs_yield r i q p rest (more : bool) :
    r_queues r !! i = Some q -> q_drained q = false -> q_ch q = p :: rest ->
    router_step r (with_queues (set_queue i (MkQueue rest (q_got q ++ [p]) (negb more) (negb more)) r) (r_phase r) r)
| rs_closed r i q :
    r_queues r !! i = Some q -> q_drained q = false -> q_ch q = [] -> r_closed r = true ->
    router_step r (with_queues (set_queue i (MkQueue [] (q_got q) true false) r) (r_phase r) r)
| rs_yield_ctx r i q :
    r_queues r !! i = Some q -> q_drained q = false -> r_ctx r <> None ->
    router_step r (with_queues (set_queue i (MkQueue (q_ch q) (q_got q) true true) r) (r_phase r) r)
| rs_cancel r cause :
    r_ctx r = None ->
    router_step r (MkRouter (r_routes r) (r_queues r) (r_closed r) (r_exit r) (r_phase r) (Some cause) (r_read r)).

Definition router_start (routes : list (Header * nat)) (n : nat) : router :=
  MkRouter routes (replicate n new_queue) false None Reading None [].

(** ** What a run delivers *)

(** The packets of a stream that go to service [i]. *)
Definition routed (routes : list (Header * nat)) (i : nat) (ps : list Packet) : list Packet :=
  List.filter (fun p => bool_decide (lookup_route routes (p_Header p) = Some i)) ps.

#[local] Arguments routed : simpl never.

(** The exit status a stream reports: the last one with a code. *)
Fixpoint exit_of (exit : option Z) (ps : list Packet) : option Z :=
  match ps with
  | [] => exit
  | p :: ps =>
      exit_of (if bool_decide (p_Header p = HeaderTerminalExitStatus)
               then match proto_Unmarshal (p_Payload p) with
                    | inl st => if HasExitcode st then Some (GetExitcode st) else exit
                    | inr _ => exit
                    end
               else exit) ps
  end.

Definition sending (i : nat) (ph : phase) : list Packet :=
  match ph with Sending j p => if bool_decide (j = i) then [p] else [] | _ => [] end.

Record router_inv (n : nat) (r : router) : Prop := {
  ri_len : length (r_queues r) = n;
  ri_range : forall h i, lookup_route (r_routes r) h = Some i -> (i < n)%nat;
  ri_sess : forall h, sessionHeader h = true -> lookup_route (r_routes r) h = None;
  ri_bound : forall i q, r_queues r !! i = Some q -> zlen (q_ch q) <= queueLen;
  ri_queue : forall i q, r_queues r !! i = Some q -> exists lost,
    q_got q ++ q_ch q ++ sending i (r_phase r) ++ lost = routed (r_routes r) i (r_read r) /\
    (lost <> [] -> exists e, r_phase r = Returned e false);
  ri_drained : forall i q, r_queues r !! i = Some q -> q_drained q = true -> q_cut q = false ->
    q_ch q = [] /\ r_closed r = true;
  ri_phase : match r_phase r with
    | Draining todo => r_closed r = true /\
        forall i q, r_queues r !! i = Some q -> i ∈ todo \/ q_drained q = true
    | Returned e true => e = end_error (r_exit r) /\ r_closed r = true /\
        forall i q, r_queues r !! i = Some q -> q_drained q = true
    | Returned _ false => True
    | _ => r_closed r = false
    end;
  ri_exit : r_exit r = exit_of None (r_read r)
}.

(** ** Registration *)

Lemma lookup_route_app routes h s k :
  lookup_route (routes ++ [(h, s)]) k =
    match lookup_route routes k with Some i => Some i | None => if bool_decide (h = k) then Some s else None end.
Proof.
  induction routes as [|[h' s'] routes IH]; cbn; [done|]. by destruct (bool_decide (h' = k)).
Qed.

Lemma register_ok s headers routes routes' :
  register s headers routes = inl routes' ->
  (forall h, sessionHeader h = true -> lookup_route routes h = None) ->
  (forall h, sessionHeader h = true -> lookup_route routes' h = None) /\
  (forall h, lookup_route routes' h = match lookup_route routes h with
     | Some i => Some i | None => if bool_decide (h ∈ headers) then Some s else None end).
Proof.
  revert routes. induction headers as [|h headers IH]; intros routes; cbn [register].
  - intros [= <-] Hs. split; [done|]. intros k. by destruct (lookup_route routes k).
  - destruct (sessionHeader h) eqn:Hh; [done|]. destruct (lookup_route routes h) eqn:Hl; [done|].
    intros Hr Hs. destruct (IH _ Hr) as [H1 H2].
    { intros k Hk. rewrite lookup_route_app, Hs by done. rewrite bool_decide_false; [done|]. intros ->. congruence. }
    split; [done|]. intros k. rewrite H2, lookup_route_app. destruct (lookup_route routes k); [done|].
    case_bool_decide as Hk.
    + subst. by rewrite bool_decide_true by set_solver.
    + case_bool_decide; [by rewrite bool_decide_true by set_solver|rewrite bool_decide_false; [done|set_solver]].
Qed.

Lemma register_all_ok s services routes routes' :
  register_all s services routes = inl routes' ->
  (forall h, sessionHeader h = true -> lookup_route routes h = None) ->
  (forall h, sessionHeader h = true -> lookup_route routes' h = None) /\
  (forall h i, lookup_route routes h = Some i -> lookup_route routes' h = Some i) /\
  (forall h i, lookup_route routes' h = Some i -> lookup_route routes h = Some i \/
     exists hs, services !! (i - s)%nat = Some hs /\ (s <= i)%nat /\ h ∈ hs) /\
  (forall j hs h, services !! j = Some hs -> h ∈ hs -> lookup_route routes' h = Some (s + j)%nat).
Proof.
  revert s routes. induction services as [|hs services IH]; intros s routes; cbn [register_all].
  - intros [= <-] Hs. split_and!; try done. auto.
  - destruct (register s hs routes) as [routes1|] eqn:Hreg; [|done]. intros Hall Hs.
    destruct (register_ok _ _ _ _ Hreg Hs) as [H1 H2]. destruct (IH _ _ Hall H1) as (K1 & K2 & K3 & K4).
    split_and!; try done.
    + intros h i Hi. apply K2. by rewrite H2, Hi.
    + intros h i Hi. destruct (K3 _ _ Hi) as [Hr1|(hs' & Hl & Hle & Hin)].
      * rewrite H2 in Hr1. destruct (lookup_route routes h); [by left|].
        case_bool_decide; [|done]. injection Hr1 as <-. right. exists hs. by rewrite Nat.sub_diag.
      * right. exists hs'. split_and!; try done; [|lia].
        replace (i - s)%nat with (S (i - S s)) by lia. done.
    + intros [|j] hs' h; cbn.
      * intros [= ->] Hin. rewrite Nat.add_0_r. apply K2. rewrite H2.
        destruct (lookup_route routes h) as [i|] eqn:Hr; [|by rewrite bool_decide_true].
        exfalso. clear -Hreg Hr Hin.
        revert routes Hr Hreg. induction hs' as [|h' hs' IHh]; intros routes Hr Hreg; [set_solver|].
        cbn in Hreg. destruct (sessionHeader h'); [done|]. destruct (lookup_route routes h') eqn:Hl; [done|].
        apply elem_of_cons in Hin as [->|Hin]; [congruence|].
        eapply IHh; [done| |exact Hreg]. by rewrite lookup_route_app, Hr.
      * intros Hl Hin. rewrite <- Nat.add_succ_comm. by apply (K4 j hs' h).
Qed.

(** ** The invariant is kept *)

Lemma routed_snoc routes i ps p :
  routed routes i (ps ++ [p]) =
    routed routes i ps ++ (if bool_decide (lookup_route routes (p_Header p) = Some i) then [p] else []).
Proof. unfold routed. rewrite List.filter_app. cbn. by case_bool_decide. Qed.

Lemma exit_of_snoc exit ps p :
  exit_of exit (ps ++ [p]) = exit_of (exit_of exit ps) [p].
Proof. revert exit. induction ps as [|q ps IH]; intros exit; cbn [app exit_of]; [done|]. by rewrite IH. Qed.

Lemma router_start_inv services routes :
  newRouter services = inl routes -> router_inv (length services) (router_start routes (length services)).
Proof.
  intros Hn. destruct (register_all_ok _ _ _ _ Hn ltac:(done)) as (H1 & _ & H3 & _).
  assert (forall i q, replicate (length services) new_queue !! i = Some q -> q = new_queue) as Hq
    by (intros i q Hl; by apply lookup_replicate in Hl as [-> _]).
  split; cbn; try done.
  - by rewrite length_replicate.
  - intros h i Hi. destruct (H3 _ _ Hi) as [?|(hs & Hl & _ & _)]; [done|].
    rewrite Nat.sub_0_r in Hl. by apply lookup_lt_Some in Hl.
  - by intros i q ->%Hq.
  - intros i q ->%Hq. by exists [].
  - by intros i q ->%Hq.
Qed.

(** The queues stay, the phase moves: nothing a service was sent is touched. *)
Lemma phase_inv n r ph :
  router_inv n r ->
  (forall i, exists lost, sending i (r_phase r) = sending i ph ++ lost /\ (lost <> [] -> exists e, ph = Returned e false)) ->
  (match r_phase r with Returned _ _ => False | _ => True end) ->
  match ph with
  | Draining todo => r_closed r = true /\
      forall i q, r_queues r !! i = Some q -> i ∈ todo \/ q_drained q = true
  | Returned e true => e = end_error (r_exit r) /\ r_closed r = true /\
      forall i q, r_queues r !! i = Some q -> q_drained q = true
  | Returned _ false => True
  | _ => r_closed r = false
  end ->
  router_inv n (with_queues (r_queues r) ph r).
Proof.
  intros [] Hs Hnr Hph. split; cbn; try done.
  intros i q Hq. destruct (ri_queue0 i q Hq) as (lost & Hk & Hl). destruct (Hs i) as (lost2 & Hsend & Hl2).
  assert (lost = []) as -> by (destruct lost; [done|]; destruct Hl as [e He]; [done|by rewrite He in Hnr]).
  exists lost2. split; [|done]. by rewrite <- Hk, app_nil_r, Hsend.
Qed.

(** One queue changes, and what it holds of the stream does not. *)
Lemma queue_inv n r i q q' ph :
  router_inv n r -> r_queues r !! i = Some q ->
  zlen (q_ch q') <= queueLen ->
  q_got q' ++ q_ch q' ++ sending i ph = q_got q ++ q_ch q ++ sending i (r_phase r) ->
  (forall j, j <> i -> sending j ph = sending j (r_phase r)) ->
  (q_drained q = true -> q_drained q' = true) ->
  (q_drained q' = true -> q_cut q' = false -> q_ch q' = [] /\ r_closed r = true) ->
  (ph = r_phase r \/ exists p, r_phase r = Sending i p /\ ph = Reading) ->
  router_inv n (with_queues (set_queue i q' r) ph r).
Proof.
  intros Hinv Hq Hb Hk Hoth Hd Hdr Hph. pose proof Hinv as [].
  assert (forall j q0, set_queue i q' r !! j = Some q0 ->
    j = i /\ q0 = q' \/ j <> i /\ r_queues r !! j = Some q0) as Hlk.
  { intros j q0 Hj. unfold set_queue in Hj. apply list_lookup_insert_Some in Hj as [(-> & <- & _)|[? ?]]; auto. }
  split; cbn; try done.
  - unfold set_queue. by rewrite length_insert.
  - intros j q0 Hj. destruct (Hlk j q0 Hj) as [[-> ->]|[Hne Hj']]; eauto.
  - intros j q0 Hj. destruct (Hlk j q0 Hj) as [[-> ->]|[Hne Hj']].
    + destruct (ri_queue0 i q Hq) as (lost & Hk0 & Hl). exists lost. split.
      * rewrite <- Hk0, (app_assoc (q_ch q')), (app_assoc (q_got q')), Hk, <- !app_assoc. done.
      * intros Hne. destruct (Hl Hne) as [e He]. destruct Hph as [->|(p & He' & _)]; [eauto|congruence].
    + destruct (ri_queue0 j q0 Hj') as (lost & Hk0 & Hl). exists lost. rewrite Hoth by done. split; [done|].
      intros Hne'. destruct (Hl Hne') as [e He]. destruct Hph as [->|(p & He' & _)]; [eauto|congruence].
  - intros j q0 Hj. destruct (Hlk j q0 Hj) as [[-> ->]|[Hne Hj']]; [done|by apply (ri_drained0 j)].
  - destruct Hph as [->|(p & Hs & ->)]; [|by rewrite Hs in ri_phase0].
    destruct (r_phase r) as [| |todo|e [|]]; try done.
    + destruct ri_phase0 as [? Hleft]. split; [done|]. intros j q0 Hj.
      destruct (Hlk j q0 Hj) as [[-> ->]|[Hne Hj']]; [|by eapply Hleft].
      destruct (Hleft i q Hq); [by left|right; by apply Hd].
    + destruct ri_phase0 as (? & ? & Hall). split_and!; try done. intros j q0 Hj.
      destruct (Hlk j q0 Hj) as [[-> ->]|[Hne Hj']]; [by apply Hd, (Hall i q)|by eapply Hall].
Qed.

Lemma ended_inv n r :
  router_inv n r -> r_phase r = Reading -> router_inv n (ended r).
Proof.
  intros [] Hr. rewrite Hr in *. split; cbn; try done.
  - intros i q Hq. destruct (ri_queue0 i q Hq) as (lost & Hk & Hl). exists lost. split; [done|].
    intros Hne. by destruct (Hl Hne).
  - intros i q Hq Hd Hc. by destruct (ri_drained0 i q Hq Hd Hc).
  - split; [done|]. intros i q Hq. left. apply elem_of_seq. apply lookup_lt_Some in Hq. lia.
Qed.

Lemma dispatch_inv n r p : router_inv n r -> r_phase r = Reading -> router_inv n (dispatch p r).
Proof.
  intros Hi Hr. unfold dispatch.
  set (r1 := MkRouter (r_routes r) (r_queues r) (r_closed r) (r_exit r) (r_phase r) (r_ctx r) (r_read r ++ [p])).
  pose proof Hi as []. pose proof (ri_exit0) as Hex.
  (* the read packet is not routed, the exit status follows the stream *)
  assert (forall ph exit, lookup_route (r_routes r) (p_Header p) = None -> (ph = Reading \/ exists e, ph = Returned e false) ->
    exit = exit_of (r_exit r) [p] ->
    router_inv n (MkRouter (r_routes r) (r_queues r) (r_closed r) exit ph (r_ctx r) (r_read r ++ [p]))) as Hplain.
  { intros ph exit Hno Hph He. rewrite Hr in ri_queue0, ri_phase0. split; cbn; try done.
    - intros i q Hq. destruct (ri_queue0 i q Hq) as (lost & Hk & Hl). cbn [sending] in Hk.
      assert (lost = []) as -> by (destruct lost; [done|]; by destruct Hl). exists [].
      rewrite routed_snoc, Hno, bool_decide_false, <- Hk, !app_nil_r by done.
      destruct Hph as [->|[e ->]]; cbn; by rewrite ?app_nil_r.
    - by destruct Hph as [->|[e ->]].
    - by rewrite He, Hex, exit_of_snoc. }
  assert (forall h, sessionHeader h = true -> p_Header p = h -> lookup_route (r_routes r) (p_Header p) = None) as Hsess
    by (intros h Hh ->; by apply ri_sess0).
  case_bool_decide as Hka.
  { unfold r1. apply Hplain; [by apply (Hsess HeaderKeepAlive)|by left|]. cbn. rewrite bool_decide_false; [done|]. by rewrite Hka. }
  case_bool_decide as Hes.
  { assert (lookup_route (r_routes r) (p_Header p) = None) as Hno by by apply (Hsess HeaderTerminalExitStatus).
    destruct (proto_Unmarshal (p_Payload p)) as [st|err] eqn:Hu.
    - destruct (HasExitcode st) eqn:Hh; apply Hplain; try done; try (by left); cbn; rewrite bool_decide_true, Hu, Hh by done; done.
    - apply Hplain; [done|right; by eexists|]. cbn. by rewrite bool_decide_true, Hu by done. }
  assert (exit_of (r_exit r) [p] = r_exit r) as Hex1 by (cbn; by rewrite bool_decide_false by done).
  case_bool_decide as Htc.
  { apply ended_inv; [|done]. unfold r1. apply Hplain; [by apply (Hsess HeaderTerminalClose)|by left|done]. }
  destruct (lookup_route (r_routes r1) (p_Header p)) as [s|] eqn:Hl; cbn in Hl; [|by apply Hplain; [|left|]].
  rewrite Hr in ri_queue0, ri_phase0. split; cbn; try done.
  - intros i q Hq. destruct (ri_queue0 i q Hq) as (lost & Hk & Hlost). cbn [sending] in Hk.
    assert (lost = []) as -> by (destruct lost; [done|]; by destruct Hlost). exists []. split; [|done].
    rewrite routed_snoc, <- Hk, !app_nil_r, Hl, <- app_assoc. do 2 f_equal.
    destruct (decide (s = i)) as [->|Hne]; [by rewrite !bool_decide_true|].
    rewrite !bool_decide_false; [done|congruence|done].
  - by rewrite exit_of_snoc, <- Hex, Hex1.
Qed.

Lemma router_step_inv n r r' : router_inv n r -> router_step r r' -> router_inv n r'.
Proof.
  intros Hi Hs. pose proof Hi as []. destruct Hs.
  - by apply dispatch_inv.
  - unfold read_failed. destruct (r_ctx r) as [cause|]; [|destruct (errors_Is err io_EOF); [by apply ended_inv|]];
      (apply phase_inv; try done; rewrite ?H; try done; intros i; by exists []).
  - eapply queue_inv; try done; rewrite ?H; cbn.
    + rewrite zlen_app. change (zlen [p]) with 1. lia.
    + rewrite bool_decide_true by done. by rewrite app_nil_r.
    + intros j Hne. by rewrite bool_decide_false.
    + intros Hd Hc. rewrite H in ri_phase0. destruct (ri_drained0 _ _ H0 Hd Hc). congruence.
    + right. by eexists.
  - apply phase_inv; try done; rewrite ?H; try done. intros j. cbn. eexists. split; [done|by eexists].
  - rewrite H in ri_phase0. apply phase_inv; try done; rewrite ?H; try done; [intros j; by exists []|].
    destruct ri_phase0 as [? Hleft]. split; [done|]. intros j q0 Hj.
    destruct (Hleft j q0 Hj) as [Hin|]; [|by right]. apply elem_of_app in Hin as [Hin|Hin]; [left; set_solver|].
    apply elem_of_cons in Hin as [->|Hin]; [right; congruence|left; set_solver].
  - apply phase_inv; try done; rewrite ?H; try done. intros j. by exists [].
  - rewrite H in ri_phase0. apply phase_inv; try done; rewrite ?H; try done; [intros j; by exists []|].
    destruct ri_phase0 as [? Hleft]. split_and!; try done. intros j q0 Hj. destruct (Hleft j q0 Hj); [set_solver|done].
  - eapply queue_inv; try done; cbn.
    + pose proof (ri_bound0 _ _ H) as Hb. rewrite H1, zlen_cons in Hb. lia.
    + by rewrite H1, <- app_assoc.
    + congruence.
    + by destruct more.
    + by left.
  - eapply queue_inv; try done; cbn; [by rewrite H1|by left].
  - eapply queue_inv; try done; cbn; [by apply (ri_bound0 i)|by left].
  - by destruct Hi.
Qed.

Lemma router_run_inv n r r' :
  router_inv n r -> rtc router_step r r' -> router_inv n r' /\ r_routes r' = r_routes r.
Proof.
  intros Hi Hr. induction Hr as [|x y z Hs _ IH]; [done|].
  destruct (IH (router_step_inv _ _ _ Hi Hs)) as [H1 H2]. split; [done|]. rewrite H2. clear IH H1 H2.
  destruct Hs; unfold dispatch, read_failed, ended, with_queues; by repeat case_match.
Qed.

Lemma router_stream services routes r :
  newRouter services = inl routes -> rtc router_step (router_start routes (length services)) r ->
  (forall i q, r_queues r !! i = Some q ->
     q_got q `prefix_of` routed routes i (r_read r) /\ zlen (q_ch q) <= queueLen) /\
  (forall e, r_phase r = Returned e true ->
     e = match exit_of None (r_read r) with Some c => ExitError c | None => Sentinel errEnded end /\
     forall i q, r_queues r !! i = Some q -> q_cut q = false -> q_got q = routed routes i (r_read r)).
Proof.
  intros Hn Hr. destruct (router_run_inv _ _ _ (router_start_inv _ _ Hn) Hr) as [[] Hrt].
  cbn in Hrt. rewrite Hrt in *. split.
  - intros i q Hq. split; [|by apply (ri_bound0 i)]. destruct (ri_queue0 i q Hq) as (lost & <- & _). by eexists.
  - intros e He. rewrite He in *. destruct ri_phase0 as (-> & _ & Hall). split; [by rewrite ri_exit0|].
    intros i q Hq Hc. destruct (ri_drained0 i q Hq (Hall i q Hq) Hc) as [Hch _].
    destruct (ri_queue0 i q Hq) as (lost & <- & Hl). rewrite Hch. cbn.
    assert (lost = []) as -> by (destruct lost; [done|]; destruct Hl as [e' [=]]; done).
    by rewrite app_nil_r.
Qed.

(** [C19] Routing, in every interleaving of the router, the services and the end of
    the context.  A service's iterator yields the packets of its headers
    exactly in the order the transport returned them, and no queue exceeds
    its bound.  When the run ends normally its error is the exit status of
    the last packet that reported one, or errEnded, and by then every
    service that ranged to the end has been yielded every packet routed to
    it: output sent just before the end is not lost. *)
Theorem router_delivers services routes r :
  newRouter services = inl routes -> rtc router_step (router_start routes (length services)) r ->
  (forall i q, r_queues r !! i = Some q ->
     q_got q `prefix_of` routed routes i (r_read r) /\ zlen (q_ch q) <= queueLen) /\
  (forall e, r_phase r = Returned e true ->
     e = match exit_of None (r_read r) with Some c => ExitError c | None => Sentinel errEnded end /\
     forall i q, r_queues r !! i = Some q -> q_cut q = false -> q_got q = routed routes i (r_read r)).
Proof. exact (router_stream services routes r). Qed.

(** Registration refuses the session's own headers and duplicates, and
    otherwise routes each header to the service that listed it and no other. *)
Lemma newRouter_routes services routes :
  newRouter services = inl routes ->
  (forall h, sessionHeader h = true -> lookup_route routes h = None) /\
  (forall i hs h, services !! i = Some hs -> h ∈ hs -> lookup_route routes h = Some i) /\
  (forall h i, lookup_route routes h = Some i -> exists hs, services !! i = Some hs /\ h ∈ hs).
Proof.
  intros Hn. destruct (register_all_ok _ _ _ _ Hn ltac:(done)) as (H1 & _ & H3 & H4). split_and!; [done|exact H4|].
  intros h i Hi. destruct (H3 _ _ Hi) as [?|(hs & Hl & _ & Hin)]; [done|].
  rewrite Nat.sub_0_r in Hl. by exists hs.
Qed.
End Router.

From S2P Require Import Codecs.

Section Example.
#[local] Existing Instance exit_codec.

Ltac eval_router := match goal with |- rtc _ ?a _ => let a' := eval vm_compute in a in change a with a' end.

(** A keepalive, output, an exit status, output, and the end of the session. *)
Lemma example_router : exists r,
  rtc router_step (router_start [(HeaderTerminalBuffer, 0%nat)] 1) r /\ r_phase r = Returned (ExitError 3) true /\
  r_queues r !! 0%nat = Some (MkQueue [] [MkPacket x01 (bs "a"); MkPacket x01 (bs "b")] true false).
Proof.
  eexists. split.
  - eapply rtc_l; [apply (rs_packet _ (MkPacket x00 [])); reflexivity|]; eval_router.
    eapply rtc_l; [apply (rs_packet _ (MkPacket x01 (bs "a"))); reflexivity|]; eval_router.
    eapply rtc_l; [eapply rs_send; [reflexivity|reflexivity|by vm_compute]|]; eval_router.
    eapply rtc_l; [apply (rs_packet _ (MkPacket x0c (x01 :: le_bytes 4 3))); reflexivity|]; eval_router.
    eapply rtc_l; [apply (rs_packet _ (MkPacket x01 (bs "b"))); reflexivity|]; eval_router.
    eapply rtc_l; [eapply rs_send; [reflexivity|reflexivity|by vm_compute]|]; eval_router.
    eapply rtc_l; [apply (rs_read_err _ (Sentinel ErrSessionEnded)); reflexivity|]; eval_router.
    eapply rtc_l; [eapply (rs_yield _ 0 _ _ _ true); reflexivity|]; eval_router.
    eapply rtc_l; [eapply (rs_yield _ 0 _ _ _ true); reflexivity|]; eval_router.
    eapply rtc_l; [eapply (rs_closed _ 0); reflexivity|]; eval_router.
    eapply rtc_l; [eapply (rs_drained _ [] 0 []); reflexivity|]; eval_router.
    eapply rtc_l; [apply rs_ended; reflexivity|]; eval_router.
    apply rtc_refl.
  - split; vm_compute; reflexivity.
Qed.

Lemma router_delivers_witness : exists r,
  rtc router_step (router_start [(HeaderTerminalBuffer, 0%nat)] 1) r /\
  ExitError 3 = match exit_of None (r_read r) with Some c => ExitError c | None => Sentinel errEnded end.
Proof.
  destruct example_router as (r & Hr & Hph & _). exists r. split; [exact Hr|].
  exact (proj1 (proj2 (router_delivers [[HeaderTerminalBuffer]] _ r eq_refl Hr) _ Hph)).
Defined.
End Example.
