(* ===== verification/Utf8.v ===== *)
(** * unicode/utf8 and unicode/utf16, as far as the sources use them

    Runes are Z.  [DecodeRune], [FullRune] and the two [AppendRune]s follow
    the standard library's documentation: an invalid byte decodes as U+FFFD
    of width one, surrogates and values past U+10FFFF encode as U+FFFD. *)

From S2P Require Export Prelude.
Local Open Scope Z_scope.

Definition RuneError : Z := 0xFFFD.
Definition UTFMax : Z := 4.

Definition is_scalar (r : Z) : bool :=
  ((0 <=? r) && (r <? 0xD800)) || ((0xE000 <=? r) && (r <=? 0x10FFFF)).

(** Width of a sequence by its first byte, and the range of its second. *)
Definition lead (b : Z) : Z * Z * Z :=
  if (b <? 0xC2) || (0xF4 <? b) then (1, 0, 0)
  else if b <? 0xE0 then (2, 0x80, 0xBF)
  else if b =? 0xE0 then (3, 0xA0, 0xBF)
  else if b =? 0xED then (3, 0x80, 0x9F)
  else if b <? 0xF0 then (3, 0x80, 0xBF)
  else if b =? 0xF0 then (4, 0x90, 0xBF)
  else if b =? 0xF4 then (4, 0x80, 0x8F)
  else (4, 0x80, 0xBF).

Definition in_range (b : byte) (lo hi : Z) : bool := (lo <=? b2z b) && (b2z b <=? hi).
Definition cont (b : byte) : bool := in_range b 0x80 0xBF.
Definition low6 (b : byte) : Z := b2z b - 0x80.

(** [DecodeRune]: the rune and its width. *)
Definition DecodeRune (p : bytes) : Z * Z :=
  match p with
  | [] => (RuneError, 0)
  | b0 :: t =>
      let '(n, lo, hi) := lead (b2z b0) in
      if n =? 1 then (if b2z b0 <? 0x80 then b2z b0 else RuneError, 1)
      else match t with
      | b1 :: t =>
          if negb (in_range b1 lo hi) then (RuneError, 1)
          else if n =? 2 then ((b2z b0 - 0xC0) * 64 + low6 b1, 2)
          else match t with
          | b2 :: t =>
              if negb (cont b2) then (RuneError, 1)
              else if n =? 3 then ((b2z b0 - 0xE0) * 4096 + low6 b1 * 64 + low6 b2, 3)
              else match t with
              | b3 :: _ =>
                  if negb (cont b3) then (RuneError, 1)
                  else ((b2z b0 - 0xF0) * 262144 + low6 b1 * 4096 + low6 b2 * 64 + low6 b3, 4)
              | [] => (RuneError, 1)
              end
          | [] => (RuneError, 1)
          end
      | [] => (RuneError, 1)
      end
  end.

(** [FullRune]: whether [p] begins with a complete encoding; an invalid one
    counts as complete. *)
Definition FullRune (p : bytes) : bool :=
  match p with
  | [] => false
  | b0 :: t =>
      let '(n, lo, hi) := lead (b2z b0) in
      if n <=? zlen p then true
      else match t with
      | b1 :: t =>
          if negb (in_range b1 lo hi) then true
          else match t with b2 :: _ => negb (cont b2) | [] => false end
      | [] => false
      end
  end.

(** [utf8.AppendRune], the bytes it appends. *)
Definition utf8_rune (r : Z) : bytes :=
  let r := if is_scalar r then r else RuneError in
  if r <? 0x80 then [z2b r]
  else if r <? 0x800 then [z2b (0xC0 + r / 64); z2b (0x80 + r mod 64)]
  else if r <? 0x10000 then [z2b (0xE0 + r / 4096); z2b (0x80 + r / 64 mod 64); z2b (0x80 + r mod 64)]
  else [z2b (0xF0 + r / 262144); z2b (0x80 + r / 4096 mod 64); z2b (0x80 + r / 64 mod 64); z2b (0x80 + r mod 64)].

(** [utf16.AppendRune], the units it appends, and [utf16.DecodeRune]. *)
Definition utf16_rune (r : Z) : list Z :=
  let r := if is_scalar r then r else RuneError in
  if r <? 0x10000 then [r]
  else [0xD800 + (r - 0x10000) / 1024; 0xDC00 + (r - 0x10000) mod 1024].
Definition utf16_DecodeRune (hi lo : Z) : Z := (hi - 0xD800) * 1024 + (lo - 0xDC00) + 0x10000.

Definition utf8_bytes (rs : list Z) : bytes := concat (utf8_rune <$> rs).
Definition utf16_units (rs : list Z) : list Z := concat (utf16_rune <$> rs).

(** ** Facts *)

Lemma is_scalar_spec r :
  is_scalar r = true <-> 0 <= r < 0xD800 \/ 0xE000 <= r <= 0x10FFFF.
Proof. unfold is_scalar. rewrite orb_true_iff, !andb_true_iff, !Z.leb_le, !Z.ltb_lt. lia. Qed.

Lemma lead_size b : let '(n, lo, hi) := lead b in 1 <= n <= 4.
Proof. unfold lead. repeat match goal with |- context[if ?c then _ else _] => destruct c end; lia. Qed.

(** Both look at no more than [UTFMax] bytes. *)
Lemma DecodeRune_prefix p q : 4 <= zlen p -> DecodeRune (p ++ q) = DecodeRune p.
Proof.
  intros Hl. destruct p as [|a [|b [|c [|d p]]]]; try (cbv [zlen length] in Hl; lia). done.
Qed.

Lemma FullRune_long p : 4 <= zlen p -> FullRune p = true.
Proof.
  intros Hl. destruct p as [|a p]; [cbv [zlen length] in Hl; lia|]. unfold FullRune.
  pose proof (lead_size (b2z a)). destruct (lead (b2z a)) as [[n lo] hi].
  rewrite (proj2 (Z.leb_le _ _)) by lia. done.
Qed.

(** A complete encoding decodes the same however more bytes follow. *)
Lemma DecodeRune_full p q : FullRune p = true -> DecodeRune (p ++ q) = DecodeRune p /\ FullRune (p ++ q) = true.
Proof.
  destruct p as [|a p]; [done|]. cbn [app FullRune DecodeRune].
  pose proof (lead_size (b2z a)). destruct (lead (b2z a)) as [[n lo] hi].
  pose proof (zlen_nonneg q).
  destruct (Z.leb_spec n (zlen (a :: p))) as [Hn|Hn]; intros Hf.
  - split.
    + destruct (Z.eqb_spec n 1); [done|].
      destruct p as [|b p]; [cbv [zlen length] in Hn; lia|]. cbn [app].
      destruct (negb _); [done|]. destruct (Z.eqb_spec n 2); [done|].
      destruct p as [|c p]; [cbv [zlen length] in Hn; lia|]. cbn [app].
      destruct (negb _); [done|]. destruct (Z.eqb_spec n 3); [done|].
      destruct p as [|d p]; [cbv [zlen length] in Hn; lia|]. done.
    + rewrite (proj2 (Z.leb_le _ _)); [done|]. change (a :: p ++ q) with ((a :: p) ++ q). rewrite zlen_app. lia.
  - assert (n <> 1) by (rewrite zlen_cons in Hn; pose proof (zlen_nonneg p); lia).
    destruct (Z.eqb_spec n 1); [done|].
    destruct p as [|b p]; [done|]. cbn [app].
    destruct (negb (in_range b lo hi)) eqn:Hb; [split; [done|by destruct (n <=? _)]|].
    destruct p as [|c p]; [done|]. cbn [app]. rewrite Hf.
    assert (n <> 2) by (rewrite !zlen_cons in Hn; pose proof (zlen_nonneg p); lia).
    destruct (Z.eqb_spec n 2); [done|]. split; [done|by destruct (n <=? _)].
Qed.

Lemma DecodeRune_width p : p <> [] -> 1 <= (DecodeRune p).2 <= zlen p.
Proof.
  destruct p as [|a p]; [done|]. intros _. unfold DecodeRune.
  destruct (lead (b2z a)) as [[n lo] hi]. pose proof (zlen_nonneg p).
  repeat case_match; cbn [snd]; rewrite ?zlen_cons; repeat match goal with
    | |- context[zlen ?l] => lazymatch goal with H : 0 <= zlen l |- _ => fail | _ => pose proof (zlen_nonneg l) end end; lia.
Qed.

(** ** Encoding and decoding *)

Lemma b2z_z2b_small x : 0 <= x < 256 -> b2z (z2b x) = x.
Proof. intros ?. by rewrite b2z_z2b, Z.mod_small. Qed.

Ltac zcmp := repeat match goal with
  | |- context[(?a <? ?b)%Z] => destruct (Z.ltb_spec a b); try lia
  | |- context[(?a <=? ?b)%Z] => destruct (Z.leb_spec a b); try lia
  | |- context[(?a =? ?b)%Z] => destruct (Z.eqb_spec a b); try lia
  end.

Lemma cont_low6 x : 0 <= x < 64 -> cont (z2b (0x80 + x)) = true /\ low6 (z2b (0x80 + x)) = x.
Proof. intros ?. unfold cont, in_range, low6. rewrite !b2z_z2b_small by lia. split; [|lia]. zcmp; done. Qed.

Lemma in_range_z2b x lo hi : 0 <= x < 256 -> lo <= x <= hi -> in_range (z2b x) lo hi = true.
Proof. intros ??. unfold in_range. rewrite b2z_z2b_small by done. zcmp; done. Qed.

(** The digits of a rune in base 64. *)
Lemma digits64 r : 0 <= r ->
  r = r / 64 * 64 + r mod 64 /\ 0 <= r mod 64 < 64 /\
  r / 64 = r / 4096 * 64 + r / 64 mod 64 /\ 0 <= r / 64 mod 64 < 64 /\
  r / 4096 = r / 262144 * 64 + r / 4096 mod 64 /\ 0 <= r / 4096 mod 64 < 64 /\
  0 <= r / 262144.
Proof. intros ?. Z.to_euclidean_division_equations. lia. Qed.

Lemma DecodeRune_rune r q :
  is_scalar r = true -> DecodeRune (utf8_rune r ++ q) = (r, zlen (utf8_rune r)).
Proof.
  intros Hs. unfold utf8_rune. rewrite Hs. apply is_scalar_spec in Hs.
  destruct (digits64 r ltac:(lia)) as (E1 & B1 & E2 & B2 & E3 & B3 & B4).
  destruct (cont_low6 _ B1) as [C1 L1]. destruct (cont_low6 _ B2) as [C2 L2]. destruct (cont_low6 _ B3) as [C3 L3].
  destruct (Z.ltb_spec r 0x80); [|destruct (Z.ltb_spec r 0x800); [|destruct (Z.ltb_spec r 0x10000)]].
  - cbn [app DecodeRune]. rewrite b2z_z2b_small by lia. unfold lead. zcmp; done.
  - cbn [app DecodeRune]. rewrite b2z_z2b_small by lia.
    assert (lead (0xC0 + r / 64) = (2, 0x80, 0xBF)) as -> by (unfold lead; zcmp; done).
    cbn [Z.eqb Pos.eqb]. change (in_range _ 0x80 0xBF) with (cont (z2b (0x80 + r mod 64))). rewrite C1, L1. cbn [negb].
    f_equal. lia.
  - cbn [app DecodeRune]. rewrite b2z_z2b_small by lia.
    assert (forall lo hi, lead (0xE0 + r / 4096) = (3, lo, hi) -> lo <= 0x80 + r / 64 mod 64 <= hi) as Hr.
    { intros lo hi. unfold lead. zcmp; intros [= <- <-]; lia. }
    destruct (lead (0xE0 + r / 4096)) as [[n lo] hi] eqn:Hl.
    assert (n = 3) as -> by (revert Hl; unfold lead; zcmp; by intros [= <- _ _]).
    rewrite in_range_z2b by (lia || by apply Hr). cbn [Z.eqb negb Pos.eqb]. rewrite C1, L1, L2. cbn [negb].
    f_equal. lia.
  - cbn [app DecodeRune]. rewrite b2z_z2b_small by lia.
    assert (forall lo hi, lead (0xF0 + r / 262144) = (4, lo, hi) -> lo <= 0x80 + r / 4096 mod 64 <= hi) as Hr.
    { intros lo hi. unfold lead. zcmp; intros [= <- <-]; lia. }
    destruct (lead (0xF0 + r / 262144)) as [[n lo] hi] eqn:Hl.
    assert (n = 4) as -> by (revert Hl; unfold lead; zcmp; by intros [= <- _ _]).
    rewrite in_range_z2b by (lia || by apply Hr). cbn [Z.eqb negb Pos.eqb]. rewrite C2, C1, L1, L2, L3. cbn [negb].
    f_equal. lia.
Qed.

Lemma FullRune_rune r q : is_scalar r = true -> FullRune (utf8_rune r ++ q) = true.
Proof.
  intros Hs. assert (FullRune (utf8_rune r) = true) as Hf; [|by apply DecodeRune_full].
  unfold utf8_rune. rewrite Hs. apply is_scalar_spec in Hs.
  destruct (digits64 r ltac:(lia)) as (E1 & B1 & E2 & B2 & E3 & B3 & B4).
  destruct (Z.ltb_spec r 0x80); [|destruct (Z.ltb_spec r 0x800); [|destruct (Z.ltb_spec r 0x10000)]];
    cbn [FullRune]; rewrite b2z_z2b_small by lia; unfold lead; cbv [zlen length]; zcmp; done.
Qed.

Lemma utf8_rune_nonempty r : utf8_rune r <> [].
Proof. unfold utf8_rune. repeat match goal with |- context[if ?c then _ else _] => destruct c end; done. Qed.
