(* ===== verification/GoStrings.v ===== *)
(** * strings, bytes, unicode and strconv, as far as the sources use them

    The functions of the Go standard library that the bootstrap and the
    command use on strings and byte slices, executable, with the lemmas that
    characterise them.  A string is ranged over by [runes], where an invalid
    byte is one U+FFFD. *)

From S2P Require Export Prelude Utf8.
Local Open Scope Z_scope.

Definition beq (a b : bytes) : bool := bool_decide (a = b).

Fixpoint HasPrefix (s p : bytes) : bool :=
  match p, s with
  | [], _ => true
  | c :: p', d :: s' => bool_decide (c = d) && HasPrefix s' p'
  | _ :: _, [] => false
  end.

Definition HasSuffix (s p : bytes) : bool := HasPrefix (reverse s) (reverse p).

(** [Cut] at the first occurrence, [None] when there is none. *)
Fixpoint Cut (s sep : bytes) : option (bytes * bytes) :=
  if HasPrefix s sep then Some ([], drop (length sep) s)
  else match s with
       | [] => None
       | c :: s' => match Cut s' sep with Some (b, a) => Some (c :: b, a) | None => None end
       end.

(** [CutLast]: the last occurrence is the first one of the reversed string. *)
Definition CutLast (s sep : bytes) : option (bytes * bytes) :=
  match Cut (reverse s) (reverse sep) with
  | Some (b, a) => Some (reverse a, reverse b)
  | None => None
  end.

Definition CutPrefix (s p : bytes) : option bytes :=
  if HasPrefix s p then Some (drop (length p) s) else None.

Definition Contains (s sub : bytes) : bool := bool_decide (is_Some (Cut s sub)).

(** [IndexByte(s, c) >= 0], and [ContainsAny] for an ASCII set. *)
Definition has_byte (s : bytes) (c : byte) : bool := existsb (fun d => bool_decide (d = c)) s.
Definition ContainsAny (s chars : bytes) : bool := existsb (has_byte chars) s.

(** [Count] of a one-byte string. *)
Definition count_byte (s : bytes) (c : byte) : Z := zlen (filter (fun d => d = c) s).

(** ** Runes *)

Fixpoint runes_fuel (fuel : nat) (s : bytes) : list Z :=
  match fuel, s with
  | S fuel, _ :: _ => let '(r, w) := DecodeRune s in r :: runes_fuel fuel (zdrop (Z.max 1 w) s)
  | _, _ => []
  end.
Definition runes (s : bytes) : list Z := runes_fuel (length s) s.
Definition ContainsFunc (s : bytes) (f : Z -> bool) : bool := existsb f (runes s).

(** [unicode.IsSpace] and [unicode.IsControl]. *)
Definition IsSpace (r : Z) : bool :=
  ((0x09 <=? r) && (r <=? 0x0D)) || (r =? 0x20) || (r =? 0x85) || (r =? 0xA0) ||
  (r =? 0x1680) || ((0x2000 <=? r) && (r <=? 0x200A)) ||
  (r =? 0x2028) || (r =? 0x2029) || (r =? 0x202F) || (r =? 0x205F) || (r =? 0x3000).
Definition IsControl (r : Z) : bool :=
  ((0 <=? r) && (r <? 0x20)) || ((0x7F <=? r) && (r <? 0xA0)).

Definition RuneStart (b : byte) : bool := negb (cont b).

(** The start of the last rune, searched over the last [UTFMax] bytes: [t] is
    the string reversed and [k] the bytes already passed. *)
Fixpoint last_start (t : bytes) (k : nat) : nat :=
  match t with
  | [] => k
  | b :: t' => if RuneStart b || bool_decide (3 <= k)%nat then S k else last_start t' (S k)
  end.

Definition DecodeLastRune (p : bytes) : Z * Z :=
  match reverse p with
  | [] => (RuneError, 0)
  | b :: t =>
      if b2z b <? 0x80 then (b2z b, 1)
      else let k := Z.of_nat (last_start t 1) in
           let '(r, w) := DecodeRune (zdrop (zlen p - k) p) in
           if w =? k then (r, w) else (RuneError, 1)
  end.

Fixpoint trim_left (fuel : nat) (s : bytes) : bytes :=
  match fuel, s with
  | S fuel, _ :: _ =>
      let '(r, w) := DecodeRune s in if IsSpace r then trim_left fuel (zdrop (Z.max 1 w) s) else s
  | _, _ => s
  end.
Fixpoint trim_right (fuel : nat) (s : bytes) : bytes :=
  match fuel, s with
  | S fuel, _ :: _ =>
      let '(r, w) := DecodeLastRune s in
      if IsSpace r then trim_right fuel (ztake (zlen s - Z.max 1 w) s) else s
  | _, _ => s
  end.
Definition TrimSpace (s : bytes) : bytes :=
  let s := trim_left (length s) s in trim_right (length s) s.

(** [bytes.Lines]: each line with its newline. *)
Fixpoint Lines (s : bytes) : list bytes :=
  match s with
  | [] => []
  | c :: s' =>
      if bool_decide (c = "010"%byte) then [c] :: Lines s'
      else match Lines s' with [] => [[c]] | l :: ls => (c :: l) :: ls end
  end.

(** ** Numbers *)

Definition digit (d : Z) : byte := z2b (48 + d).
Fixpoint digits (fuel : nat) (n : Z) (acc : bytes) : bytes :=
  match fuel with
  | O => acc
  | S fuel => let acc := digit (n mod 10) :: acc in if n <? 10 then acc else digits fuel (n / 10) acc
  end.
(** [strconv.Itoa] of a 64-bit int: at most 19 digits. *)
Definition Itoa (n : Z) : bytes :=
  if n <? 0 then bs "-" ++ digits 19 (- n) [] else digits 19 n [].

Definition is_digit (c : byte) : bool := (48 <=? b2z c) && (b2z c <=? 57).
Definition decimal (s : bytes) : Z := fold_left (fun n c => 10 * n + (b2z c - 48)) s 0.

(** [strconv.Atoi]: an optional sign and decimal digits, within 64 bits;
    [None] is its error. *)
Definition Atoi (s : bytes) : option Z :=
  let '(neg, ds) := match s with
                    | "-"%byte :: t => (true, t)
                    | "+"%byte :: t => (false, t)
                    | _ => (false, s)
                    end in
  if beq ds [] || negb (forallb is_digit ds) then None
  else let n := if (neg : bool) then - decimal ds else decimal ds in
       if (- 2 ^ 63 <=? n) && (n <? 2 ^ 63) then Some n else None.

(** ** Lemmas *)

Lemma beq_spec (a b : bytes) : reflect (a = b) (beq a b).
Proof. apply bool_decide_reflect. Qed.
Lemma beq_refl (a : bytes) : beq a a = true.
Proof. by destruct (beq_spec a a). Qed.
Lemma beq_false (a b : bytes) : a <> b -> beq a b = false.
Proof. by destruct (beq_spec a b). Qed.

Lemma HasPrefix_spec s p : HasPrefix s p = true <-> p `prefix_of` s.
Proof.
  revert s. induction p as [|c p IH]; intros s; [split; [intros; apply prefix_nil|destruct s; done]|].
  destruct s as [|d s]; [split; [done|intros [k Hk]; done]|]. cbn [HasPrefix].
  rewrite andb_true_iff, bool_decide_eq_true, IH. split.
  - intros [-> ?]. by apply prefix_cons.
  - intros Hp. split; [by apply prefix_cons_inv_1 in Hp|by apply prefix_cons_inv_2 in Hp].
Qed.

Lemma HasPrefix_false s p : HasPrefix s p = false <-> ~ p `prefix_of` s.
Proof. rewrite <- HasPrefix_spec. by destruct (HasPrefix s p). Qed.

Lemma HasPrefix_app p s : HasPrefix (p ++ s) p = true.
Proof. apply HasPrefix_spec. by exists s. Qed.

(** [Cut] finds the first occurrence. *)
Lemma Cut_spec s sep b a :
  Cut s sep = Some (b, a) <->
  s = b ++ sep ++ a /\ forall b' a', s = b' ++ sep ++ a' -> (length b <= length b')%nat.
Proof.
  revert b. induction s as [|c s IH]; intros b.
  - destruct sep as [|x sep]; simpl.
    + split; [intros [= <- <-]; split; [done|simpl; lia]|].
      intros [H _]. destruct b, a; done.
    + split; [done|]. intros [H _]. by destruct b.
  - assert (Cut (c :: s) sep =
      if HasPrefix (c :: s) sep then Some ([], drop (length sep) (c :: s))
      else match Cut s sep with Some (b, a) => Some (c :: b, a) | None => None end) as -> by done.
    destruct (HasPrefix (c :: s) sep) eqn:Hp.
    + apply HasPrefix_spec in Hp as [k Hk]. rewrite Hk, drop_app_length. split.
      * intros [= <- <-]. split; [done|simpl; lia].
      * intros [H Hmin]. specialize (Hmin [] k eq_refl). destruct b; [|simpl in Hmin; lia].
        simpl in H. apply app_inv_head in H. by subst.
    + apply HasPrefix_false in Hp. split.
      * destruct (Cut s sep) as [[b0 a0]|] eqn:Hc; [|done]. intros [= <- ->].
        destruct (proj1 (IH b0) eq_refl) as [-> Hmin]. split; [done|]. intros b' a' H.
        destruct b' as [|d b']; [destruct Hp; by exists a'|].
        simpl in H. injection H as <- H. apply Hmin in H. simpl. lia.
      * intros [H Hmin]. destruct b as [|d b]; [destruct Hp; by exists a|].
        simpl in H. injection H as <- ->.
        rewrite (proj2 (IH b)); [done|]. split; [done|]. intros b' a' H'.
        specialize (Hmin (c :: b') a'). simpl in Hmin. rewrite H' in Hmin. specialize (Hmin eq_refl). lia.
Qed.

Lemma Cut_None s sep : Cut s sep = None <-> forall b a, s <> b ++ sep ++ a.
Proof.
  induction s as [|c s IH].
  - destruct sep as [|x sep]; simpl; split; try done.
    + intros H. by destruct (H [] []).
    + intros _ b a. by destruct b.
  - cbn [Cut]. destruct (HasPrefix (c :: s) sep) eqn:Hp.
    + apply HasPrefix_spec in Hp as [k Hk]. split; [done|]. intros H. by destruct (H [] k).
    + apply HasPrefix_false in Hp. split.
      * destruct (Cut s sep) as [[]|] eqn:Hc; [done|]. intros _ b a H.
        destruct b as [|d b]; [destruct Hp; by exists a|]. injection H as _ H. by apply (proj1 IH eq_refl b a).
      * intros H. destruct (Cut s sep) as [[b a]|] eqn:Hc; [|done].
        apply Cut_spec in Hc as [-> _]. by destruct (H (c :: b) a).
Qed.

Lemma Contains_spec s sub : Contains s sub = true <-> exists b a, s = b ++ sub ++ a.
Proof.
  unfold Contains. rewrite bool_decide_eq_true. split.
  - intros [[b a] H]. apply Cut_spec in H as [? _]. eauto.
  - intros (b & a & H). destruct (Cut s sub) as [x|] eqn:Hc; [by eexists|].
    by apply (proj1 (Cut_None _ _) Hc) in H.
Qed.

Lemma has_byte_spec s c : has_byte s c = true <-> c ∈ s.
Proof.
  unfold has_byte. rewrite existsb_exists, list_elem_of_In. split.
  - intros (d & Hd & H). apply bool_decide_eq_true in H. by subst.
  - intros H. exists c. split; [done|]. by rewrite bool_decide_eq_true.
Qed.

Lemma ContainsAny_false s chars :
  ContainsAny s chars = false <-> forall c, c ∈ s -> c ∉ chars.
Proof.
  unfold ContainsAny. split.
  - intros H c Hc Hch. enough (existsb (has_byte chars) s = true) by congruence.
    rewrite existsb_exists. exists c. by rewrite <- list_elem_of_In, has_byte_spec.
  - intros H. destruct (existsb _ s) eqn:He; [|done]. apply existsb_exists in He as (c & Hc & Hb).
    rewrite <- list_elem_of_In in Hc. apply has_byte_spec in Hb. by destruct (H c Hc).
Qed.

(** A byte that does not occur before is first found where it stands. *)
Lemma first_byte (b a : bytes) c :
  c ∉ b -> forall b' a', b ++ [c] ++ a = b' ++ [c] ++ a' -> (length b <= length b')%nat.
Proof.
  intros Hb b' a'. revert b Hb. induction b' as [|d b' IH]; intros [|x b] Hb; simpl; try lia.
  - intros [= -> _]. destruct Hb. by left.
  - intros [= -> H]. apply not_elem_of_cons in Hb as [_ Hb]. apply IH in H; [lia|done].
Qed.

(** Cutting at a single byte. *)
Lemma Cut_byte s c b a : Cut s [c] = Some (b, a) <-> s = b ++ c :: a /\ c ∉ b.
Proof.
  rewrite Cut_spec. split; (intros [-> H]; split; [done|]).
  - intros Hc. apply list_elem_of_split in Hc as (b1 & b2 & ->).
    specialize (H b1 (b2 ++ c :: a)). rewrite <- app_assoc in H. specialize (H eq_refl).
    rewrite length_app in H. simpl in H. lia.
  - intros b' a'. by apply first_byte.
Qed.

Lemma Cut_byte_None s c : Cut s [c] = None <-> c ∉ s.
Proof.
  rewrite Cut_None. split.
  - intros H Hc. apply list_elem_of_split in Hc as (b & a & ->). by apply (H b a).
  - intros Hc b a ->. apply Hc. rewrite !elem_of_app. right. left. by left.
Qed.

Lemma CutLast_byte s c b a : CutLast s [c] = Some (b, a) <-> s = b ++ c :: a /\ c ∉ a.
Proof.
  unfold CutLast. rewrite reverse_singleton. split.
  - destruct (Cut (reverse s) [c]) as [[x y]|] eqn:H; [|done]. intros [= <- <-].
    apply Cut_byte in H as [H Hc]. split; [|by rewrite elem_of_reverse].
    rewrite <- (reverse_involutive s), H, reverse_app, reverse_cons, <- app_assoc. done.
  - intros [-> Hc]. rewrite (proj2 (Cut_byte _ c (reverse a) (reverse b))); [by rewrite !reverse_involutive|].
    rewrite reverse_app, reverse_cons, <- app_assoc, elem_of_reverse. done.
Qed.

Lemma CutLast_byte_None s c : CutLast s [c] = None <-> c ∉ s.
Proof.
  unfold CutLast. rewrite reverse_singleton, <- (elem_of_reverse c s), <- Cut_byte_None.
  by destruct (Cut (reverse s) [c]) as [[]|].
Qed.

Lemma count_byte_app a b c : count_byte (a ++ b) c = count_byte a c + count_byte b c.
Proof. unfold count_byte. by rewrite filter_app, zlen_app. Qed.

Lemma count_byte_cons d s c : count_byte (d :: s) c = (if decide (d = c) then 1 else 0) + count_byte s c.
Proof. unfold count_byte. rewrite filter_cons. destruct (decide (d = c)); [by rewrite zlen_cons|done]. Qed.

Lemma count_byte_0 s c : count_byte s c = 0 <-> c ∉ s.
Proof.
  induction s as [|d s IH]; [split; [intros _; apply not_elem_of_nil|done]|].
  rewrite count_byte_cons, not_elem_of_cons, <- IH. pose proof (zlen_nonneg (filter (fun d => d = c) s)).
  unfold count_byte. destruct (decide (d = c)); [subst; split; [lia|tauto]|]. split; [intros; split; [congruence|lia]|lia].
Qed.

Lemma count_byte_nonneg s c : 0 <= count_byte s c.
Proof. apply zlen_nonneg. Qed.

(** Trimming and the like return a piece of their argument. *)
Definition piece_of {A} (p s : list A) : Prop := exists b a, s = b ++ p ++ a.

#[export] Instance piece_of_preorder {A} : PreOrder (@piece_of A).
Proof.
  split; [intros s; exists [], []; by rewrite app_nil_r|].
  intros p q s (b & a & ->) (b' & a' & ->). exists (b' ++ b), (a ++ a'). by rewrite <- !app_assoc.
Qed.

Lemma piece_of_zdrop {A} n (s : list A) : piece_of (zdrop n s) s.
Proof. exists (ztake n s), []. rewrite app_nil_r. symmetry. apply ztake_zdrop. Qed.
Lemma piece_of_ztake {A} n (s : list A) : piece_of (ztake n s) s.
Proof. exists [], (zdrop n s). simpl. symmetry. apply ztake_zdrop. Qed.

Lemma trim_left_piece fuel s : piece_of (trim_left fuel s) s.
Proof.
  revert s. induction fuel as [|fuel IH]; intros s; [reflexivity|]. destruct s as [|c s]; [reflexivity|].
  cbn [trim_left]. destruct (DecodeRune (c :: s)) as [r w]. destruct (IsSpace r); [|reflexivity].
  etrans; [apply IH|apply piece_of_zdrop].
Qed.

Lemma trim_right_piece fuel s : piece_of (trim_right fuel s) s.
Proof.
  revert s. induction fuel as [|fuel IH]; intros s; [reflexivity|]. destruct s as [|c s]; [reflexivity|].
  cbn [trim_right]. destruct (DecodeLastRune (c :: s)) as [r w]. destruct (IsSpace r); [|reflexivity].
  etrans; [apply IH|apply piece_of_ztake].
Qed.

Lemma TrimSpace_piece s : piece_of (TrimSpace s) s.
Proof. unfold TrimSpace. etrans; [apply trim_right_piece|apply trim_left_piece]. Qed.

(** ** Examples *)

Example Cut_example : Cut (bs "a::b::c") (bs "::") = Some (bs "a", bs "b::c").
Proof. reflexivity. Qed.
Example CutLast_example : CutLast (bs "a@b@c") (bs "@") = Some (bs "a@b", bs "c").
Proof. reflexivity. Qed.
Example TrimSpace_example : TrimSpace (bs "	 a b  ") = bs "a b".
Proof. vm_compute. reflexivity. Qed.
Example TrimSpace_unicode :
  TrimSpace ([xe2; x80; x83] ++ bs "x" ++ [xc2; xa0] ++ [xe2; x80; xa9]) = bs "x".
Proof. vm_compute. reflexivity. Qed.
Example Atoi_examples :
  (Atoi (bs "2022"), Atoi (bs "+7"), Atoi (bs "-3"), Atoi (bs "1_0"), Atoi (bs ""), Atoi (bs "9223372036854775808"))
  = (Some 2022, Some 7, Some (-3), None, None, None).
Proof. vm_compute. reflexivity. Qed.
Example Itoa_example : (Itoa 0, Itoa 65535, Itoa (-12)) = (bs "0", bs "65535", bs "-12").
Proof. vm_compute. reflexivity. Qed.
Example Lines_example : length (Lines (bs "a" ++ ["010"%byte] ++ bs "b")) = 2%nat.
Proof. vm_compute. reflexivity. Qed.
