(* ===== verification/Session.v ===== *)
(** * internal/session: Start and Run

    [Start] is the handshake as a function of what the transport answers.
    [run_step] is Run with the goroutines it started as they return: the
    first error or the end of the context is the cause, the terminal is
    closed, everything is joined, and the cause is what Run returns, nil for
    a normal end. *)

From S2P Require Export Router Terminal Utf8.
Local Open Scope Z_scope.

Definition maxRejectText : Z := 256.

(** [strings.ToValidUTF8] with an empty replacement. *)
Fixpoint valid_utf8 (fuel : nat) (s : bytes) : bytes :=
  match fuel with
  | O => []
  | S fuel =>
      match s with
      | [] => []
      | _ => let '(r, size) := DecodeRune s in
             (if (r =? RuneError) && (size =? 1) then [] else ztake size s) ++ valid_utf8 fuel (zdrop size s)
      end
  end.
Definition ToValidUTF8 (s : bytes) : bytes := valid_utf8 (length s) s.

(** The text of a rejection that ends up, quoted, in the error. *)
Definition reject_text (msg : bytes) : bytes :=
  if zlen msg >? maxRejectText then ToValidUTF8 (ztake maxRejectText msg) else msg.

Section Start.
Context `{ProtoMessage InitialPayload} `{ProtoMessage InitialResponse}.

(** [Start]: [write] and [read] are the transport's answers and [rctx] the
    cause of the read context when the read failed.  The results are the
    packet sent, the error and the text it quotes. *)
Definition Start (write : Packet -> option gerr) (read : Packet + gerr) (rctx : option gerr)
  : option Packet * option gerr * option bytes :=
  let payload := SetSupportsExitStatus true InitialPayload_zero in
  match proto_Marshal payload with
  | inr e => (None, Some (Errorf "session: encode initial payload: %w" [e]), None)
  | inl b =>
      let p := MkPacket HeaderInitialPayload b in
      match write p with
      | Some e => (Some p, Some (Errorf "session: send initial payload: %w" [e]), None)
      | None =>
          match read with
          | inr e =>
              (Some p, Some (match rctx with
                             | Some cause => if errors_Is cause ErrStartTimeout then Sentinel ErrStartTimeout
                                             else Errorf "session: wait for initial response: %w" [e]
                             | None => Errorf "session: wait for initial response: %w" [e]
                             end), None)
          | inl q =>
              if negb (bool_decide (p_Header q = HeaderInitialResponse))
              then (Some p, Some (Errorf "session: expected INITIAL_RESPONSE, got %v" []), None)
              else match proto_Unmarshal (p_Payload q) with
              | inr e => (Some p, Some (Errorf "session: decode initial response: %w" [e]), None)
              | inl resp =>
                  let msg := InitialResponse_GetError resp in
                  if bool_decide (msg = []) then (Some p, None, None)
                  else (Some p, Some (Errorf "%w: %q" [Sentinel ErrStartRejected]), Some (reject_text msg))
              end
          end
      end
  end.
End Start.

(** ** Run *)

Inductive run_at :=
| RunWaiting                           (* <-ctx.Done() *)
| RunJoining (readerStuck : bool)      (* the terminal is closed *)
| RunReturned (err : option gerr).

(** The goroutines of the group and the keyboard reader, [true] while they
    run; [n_errs] are the errors they returned, in order, and [n_close] what
    closing the terminal returned, once it was closed. *)
Record run := MkRun {
  n_ctx : option gerr;                 (* the cause, once the context ended *)
  n_live : list bool;
  n_reader : bool;
  n_at : run_at;
  n_errs : list gerr;
  n_close : option (option gerr)
}.

(** A cancel func keeps only the first cause. *)
Definition cancel_cause (ctx : option gerr) (e : gerr) : option gerr :=
  match ctx with Some c => Some c | None => Some e end.

(** [goIn]: a goroutine that returns an error cancels the session with it. *)
Definition goroutine_returned (err : option gerr) (live : list bool) (reader : bool) (r : run) : run :=
  MkRun (match err with Some e => cancel_cause (n_ctx r) e | None => n_ctx r end)
    live reader (n_at r) (n_errs r ++ option_list err) (n_close r).

Definition Run_result (cause : gerr) : option gerr := if errors_Is cause errEnded then None else Some cause.

Section Run.
(** GOOS is windows; whether the session has a terminal. *)
Variable closeMayStrandReader : bool.
Variable terminal : bool.

(** [readerStuck] after Close returned [closeErr]. *)
Definition readerStuck (closeErr : option gerr) : bool :=
  terminal && match closeErr with Some _ => closeMayStrandReader | None => false end.

Inductive run_step : run -> run -> Prop :=
| ns_return r i (err : option gerr) :
    n_live r !! i = Some true ->
    run_step r (goroutine_returned err (<[i := false]> (n_live r)) (n_reader r) r)
| ns_reader_return r (err : option gerr) :
    n_reader r = true ->
    run_step r (goroutine_returned err (n_live r) false r)
| ns_parent r cause :
    run_step r (MkRun (cancel_cause (n_ctx r) cause) (n_live r) (n_reader r) (n_at r) (n_errs r ++ [cause]) (n_close r))
| ns_close r (closeErr : option gerr) :
    n_at r = RunWaiting -> n_ctx r <> None ->
    run_step r (MkRun (n_ctx r) (n_live r) (n_reader r) (RunJoining (readerStuck closeErr)) (n_errs r)
                  (if terminal then Some closeErr else None))
| ns_join r stuck cause :
    n_at r = RunJoining stuck -> Forall (fun b => b = false) (n_live r) ->
    (terminal = true -> stuck = false -> n_reader r = false) -> n_ctx r = Some cause ->
    run_step r (MkRun (n_ctx r) (n_live r) (n_reader r) (RunReturned (Run_result cause)) (n_errs r) (n_close r)).

Definition run_start (n : nat) : run := MkRun None (replicate n true) terminal RunWaiting [] None.

(** The terminal, if there is one, was closed, and [stuck] is what Run made of
    that. *)
Definition close_known (r : run) (stuck : bool) : Prop :=
  if terminal then exists closeErr, n_close r = Some closeErr /\ stuck = readerStuck closeErr
  else n_close r = None.

Record run_inv (n : nat) (r : run) : Prop := {
  rn_len : length (n_live r) = n;
  rn_ctx : n_ctx r = head (n_errs r);
  rn_at : match n_at r with
    | RunWaiting => n_close r = None
    | RunJoining stuck => n_ctx r <> None /\ close_known r stuck
    | RunReturned err => Forall (fun b => b = false) (n_live r) /\
        (exists stuck, close_known r stuck /\ (terminal = true -> stuck = false -> n_reader r = false)) /\
        exists cause, n_ctx r = Some cause /\ err = Run_result cause
    end
}.

Lemma head_app_option {A} (l : list A) (o : option A) (c : option A) :
  c = head l -> match o with Some e => match c with Some x => Some x | None => Some e end | None => c end
    = head (l ++ option_list o).
Proof. intros ->. destruct l, o; done. Qed.

(** A step of a goroutine or of the parent leaves Run where it is. *)
Lemma run_moved_inv n r ctx live reader errs :
  run_inv n r -> length live = n -> ctx = head errs -> (n_ctx r <> None -> ctx = n_ctx r) ->
  (n_reader r = false -> reader = false) ->
  (Forall (fun b => b = false) (n_live r) -> Forall (fun b => b = false) live) ->
  run_inv n (MkRun ctx live reader (n_at r) errs (n_close r)).
Proof.
  intros [H1 H2 H3] Hl Hc Hk Hrd Hlv. split; [done|done|]. cbn.
  destruct (n_at r) as [|stuck|e]; [done| |].
  - destruct H3 as [H3 H4]. split; [by rewrite Hk|done].
  - destruct H3 as (Hall & (stuck & Hst & Hr) & cause & Hctx & He).
    split_and!; [auto| |exists cause; split; [|done]; rewrite Hk; by rewrite ?Hctx].
    exists stuck. split; [done|]. intros Ht Hs. by apply Hrd, Hr.
Qed.

Lemma run_step_inv n r r' : run_inv n r -> run_step r r' -> run_inv n r'.
Proof.
  intros Hi Hs. pose proof Hi as [H1 H2 H3]. destruct Hs.
  - apply run_moved_inv; try done.
    + by rewrite length_insert.
    + unfold cancel_cause. by apply head_app_option.
    + by destruct err, (n_ctx r).
    + intros. by apply Forall_insert.
  - apply run_moved_inv; try done.
    + unfold cancel_cause. by apply head_app_option.
    + by destruct err, (n_ctx r).
  - apply run_moved_inv; try done.
    + unfold cancel_cause. rewrite H2. by destruct (n_errs r).
    + unfold cancel_cause. by destruct (n_ctx r).
  - split; [done|done|]. cbn. split; [done|]. unfold close_known. cbn. destruct terminal; [by eexists|done].
  - match goal with H : n_at r = RunJoining _ |- _ => rewrite H in H3 end. destruct H3 as [_ Hst].
    split; [done|done|]. cbn. split_and!; [done|by exists stuck|by exists cause].
Qed.

Lemma run_reach_inv n r : rtc run_step (run_start n) r -> run_inv n r.
Proof.
  assert (run_inv n (run_start n)) as Hi by (split; cbn; rewrite ?length_replicate; done).
  intros Hr. revert Hi. induction Hr as [|x y z Hs _ IH]; [done|]. intros Hi. apply IH. by eapply run_step_inv.
Qed.

Lemma run_ctx n r : rtc run_step (run_start n) r -> n_ctx r = head (n_errs r).
Proof. intros Hr. apply (rn_ctx _ _ (run_reach_inv _ _ Hr)). Qed.

Lemma Run_cause n r err :
  rtc run_step (run_start n) r -> n_at r = RunReturned err ->
  (exists cause, head (n_errs r) = Some cause /\ err = Run_result cause) /\
  Forall (fun b => b = false) (n_live r) /\
  (terminal = true -> exists closeErr, n_close r = Some closeErr /\
     (n_reader r = false \/ is_Some closeErr /\ closeMayStrandReader = true)).
Proof.
  intros Hr Hat. destruct (run_reach_inv _ _ Hr) as [_ Hc Hx].
  rewrite Hat in Hx. destruct Hx as (Hall & (stuck & Hst & Hrd) & cause & Hctx & He).
  split_and!; [exists cause; by rewrite <- Hc|done|]. intros Ht. unfold close_known, readerStuck in Hst.
  rewrite Ht in Hst. destruct Hst as (ce & Hce & ->). exists ce. split; [done|].
  destruct ce, closeMayStrandReader; cbn in Hrd; auto.
Qed.

(** [C20] What Run returns, for any order in which its goroutines end, the context
    ends and the terminal closes: the first error decides, and is nil
    exactly for the router's normal end without an exit status.  By then
    every goroutine of the group has returned and the terminal, if the session
    has one, was closed; the keyboard reader has returned too, unless closing
    the terminal returned an error and this is Windows. *)
Theorem Run_first_cause n r err :
  rtc run_step (run_start n) r -> n_at r = RunReturned err ->
  (exists cause, head (n_errs r) = Some cause /\ err = Run_result cause) /\
  Forall (fun b => b = false) (n_live r) /\
  (terminal = true -> exists closeErr, n_close r = Some closeErr /\
     (n_reader r = false \/ is_Some closeErr /\ closeMayStrandReader = true)).
Proof. exact (Run_cause n r err). Qed.
End Run.

(** How the ends of a session look to the caller of Run. *)
Lemma Run_result_cases :
  Run_result (end_error None) = None /\
  (forall c, Run_result (end_error (Some c)) = Some (ExitError c)) /\
  Run_result (Sentinel ErrDetached) = Some (Sentinel ErrDetached).
Proof. split_and!; done. Qed.

(** The text of a rejection is bounded. *)
Lemma reject_text_bounded msg : zlen (reject_text msg) <= maxRejectText.
Proof.
  unfold reject_text. rewrite Z.gtb_ltb. destruct (Z.ltb_spec maxRejectText (zlen msg)); [|lia].
  unfold ToValidUTF8. assert (forall f s, zlen (valid_utf8 f s) <= zlen s) as Hv.
  { induction f as [|f IH]; intros s; [cbn; apply zlen_nonneg|]. cbn [valid_utf8].
    destruct s as [|a s]; [done|]. pose proof (DecodeRune_width (a :: s) ltac:(done)) as Hw.
    destruct (DecodeRune (a :: s)) as [rn size]. cbn [snd] in Hw. rewrite zlen_app.
    specialize (IH (zdrop size (a :: s))). rewrite zlen_zdrop in IH.
    destruct (_ && _); [change (zlen []) with 0; lia|]. rewrite zlen_ztake. lia. }
  specialize (Hv (length (ztake maxRejectText msg)) (ztake maxRejectText msg)). rewrite zlen_ztake in Hv.
  unfold maxRejectText in *. lia.
Qed.

(** The user detaches while output flows, on Windows: the reader's error is the
    cause. *)
Lemma Run_first_cause_witness : exists r,
  rtc (run_step true true) (run_start true 2) r /\
  n_at r = RunReturned (Some (Sentinel ErrDetached)) /\ n_reader r = false.
Proof.
  assert (exists r, rtc (run_step true true) (run_start true 2) r /\
    n_at r = RunReturned (Some (Sentinel ErrDetached)) /\ n_close r = Some None) as (r & Hr & Hat & Hcl).
  { eexists. split.
    - eapply rtc_l; [apply (ns_reader_return _ _ _ (Some (Sentinel ErrDetached))); reflexivity|]. cbn.
      eapply rtc_l; [apply (ns_close _ _ _ None); [reflexivity|done]|]. cbn.
      eapply rtc_l; [apply (ns_return _ _ _ 0 (Some (Foreign 1))); reflexivity|]. cbn.
      eapply rtc_l; [apply (ns_return _ _ _ 1 None); reflexivity|]. cbn.
      eapply rtc_l; [eapply ns_join; [reflexivity|repeat constructor|done|reflexivity]|].
      apply rtc_refl.
    - split; reflexivity. }
  exists r. split; [exact Hr|]. split; [exact Hat|].
  destruct (proj2 (proj2 (Run_first_cause true true 2 r _ Hr Hat)) eq_refl) as (ce & Hce & [Hrd|[Hs _]]); [exact Hrd|].
  exfalso. rewrite Hcl in Hce. injection Hce as <-. by destruct Hs.
Defined.
