(* ===== verification/Bootstrap.v ===== *)
(** * internal/bootstrap: starting etterminal over ssh

    The credentials and their redaction, the placeholder, the validation of
    a [Config], the ssh command line, the parser of etterminal's output and
    [Run] with what it reports on failure.  The started process, PATH and
    crypto/rand are inputs: what ssh wrote, how it ended, the state of the
    context when [Run] looks, and the texts [rand.Text] returned.

    A message that quotes data keeps it: [piece]s are the literal, [%s], [%q]
    and [%d] parts of a format in order. *)

From S2P Require Export GoErr GoStrings.
Local Open Scope Z_scope.

Inductive piece := Lit (s : string) | Str (s : bytes) | Quoted (s : bytes) | Num (n : Z).

(** ** parse.go *)

Definition marker : bytes := bs "IDPASSKEY:".
Definition idLen : Z := 16.
Definition passkeyLen : Z := 32.

Definition byte_in (c lo hi : byte) : bool := (b2z lo <=? b2z c) && (b2z c <=? b2z hi).
Definition isAlnum (c : byte) : bool :=
  byte_in c "0" "9" || byte_in c "a" "z" || byte_in c "A" "Z".

Fixpoint alnumRun (b : bytes) : bytes :=
  match b with
  | c :: b' => if isAlnum c then c :: alnumRun b' else []
  | [] => []
  end.

Definition onlyAlnumOr (s extra : bytes) : bool :=
  negb (beq s []) && forallb (fun c => isAlnum c || has_byte extra c) s.

(** ** credentials.go *)

(** The pointer is nil in the zero value. *)
Record Credentials := MkCredentials { ID : bytes; passkey : option bytes }.
Definition NewCredentials (id passkey : bytes) : Credentials := MkCredentials id (Some passkey).
Definition Passkey (c : Credentials) : bytes := default [] (passkey c).

Definition redacted : string := "REDACTED".
Definition Credentials_String (c : Credentials) : bytes :=
  bs "{ID:" ++ ID c ++ bs " Passkey:" ++ bs redacted ++ bs "}".
(** [Format] for a verb, [sharp] being its [#] flag. *)
Definition Credentials_Format (verb : byte) (sharp : bool) (c : Credentials) : list piece :=
  if bool_decide (verb = "v"%byte) && sharp
  then [Lit "bootstrap.Credentials{ID:"; Quoted (ID c); Lit ", Passkey:"; Quoted (bs redacted); Lit "}"]
  else [Str (Credentials_String c)].
(** The attributes of [LogValue], and the fields [MarshalJSON] encodes. *)
Definition Credentials_fields (c : Credentials) : list (string * bytes) :=
  [("id", ID c); ("passkey", bs redacted)]%string.
Definition MarshalText (c : Credentials) : bytes := Credentials_String c.

Definition malformed (what : string) : gerr := Errorf what [Sentinel ErrNoCredentials].

Definition parseCredentials (out : bytes) : Credentials + gerr :=
  match Cut out marker with
  | None => inr (Sentinel ErrNoCredentials)
  | Some (_, rest) =>
      let id := alnumRun rest in
      let n := zlen id in
      if negb (n =? idLen) then inr (malformed "%w: malformed id after %q")
      else match zdrop n rest with
      | "/"%byte :: rest =>
          let pk := alnumRun rest in
          if negb (zlen pk =? passkeyLen) then inr (malformed "%w: malformed passkey after %q")
          else inl (NewCredentials id pk)
      | _ => inr (malformed "%w: malformed id after %q")
      end
  end.

(** ** placeholder.go *)

Definition regeneratePrefix : bytes := bs "XXX".
(** [texts] are what three calls of [rand.Text] returned; [None] is a slice
    out of range. *)
Definition placeholder (texts : bytes * bytes * bytes) : option (bytes * bytes) :=
  let '(t1, t2, t3) := texts in
  match slice t1 0 (idLen - zlen regeneratePrefix), slice (t2 ++ t3) 0 passkeyLen with
  | Some id, Some pk => Some (regeneratePrefix ++ id, pk)
  | _, _ => None
  end.

(** ** command.go *)

Record Config := MkConfig {
  Destination : bytes; User : bytes; TerminalPath : bytes; Term : bytes;
  SSHOptions : list bytes; SSH : bytes
}.

Definition defaultTerm : bytes := bs "xterm-256color".
Definition defaultTerminalPath : bytes := bs "etterminal".
Definition termExtra : bytes := bs ".+-".
Definition terminalPathExtra : bytes := bs "._/~-".
Definition dquote : byte := x22.
Definition shellMeta : bytes := bs "'`" ++ dquote :: bs "$\;&<>|(){}*?[]".
Definition userMeta : bytes := bs "'`" ++ dquote :: bs ";&<>|(){}".

Definition applyDefaults (cfg : Config) : Config :=
  MkConfig (Destination cfg) (User cfg)
    (if beq (TerminalPath cfg) [] then defaultTerminalPath else TerminalPath cfg)
    (if beq (Term cfg) [] then defaultTerm else Term cfg)
    (SSHOptions cfg) (SSH cfg).

Definition hasSpaceOrControl (s : bytes) : bool := ContainsFunc s (fun r => IsSpace r || IsControl r).
Definition hasControl (s : bytes) : bool := ContainsFunc s IsControl.

Definition invalid (format : string) : option gerr := Some (Errorf format [Sentinel ErrInvalidConfig]).

Fixpoint validate_options (opts : list bytes) : option gerr :=
  match opts with
  | [] => None
  | opt :: opts =>
      if beq opt [] || hasControl opt
      then invalid "%w: ssh option %q is empty or contains control characters"
      else validate_options opts
  end.

Definition validate (cfg : Config) : option gerr :=
  if beq (Destination cfg) [] then invalid "%w: destination is empty"
  else if HasPrefix (Destination cfg) (bs "-") then invalid "%w: destination %q starts with '-'"
  else if hasSpaceOrControl (Destination cfg) then invalid "%w: destination %q contains whitespace or control characters"
  else if ContainsAny (Destination cfg) shellMeta then invalid "%w: destination %q contains a shell metacharacter"
  else if HasPrefix (User cfg) (bs "-") || hasSpaceOrControl (User cfg) then invalid "%w: user %q is not a valid user name"
  else if ContainsAny (User cfg) userMeta then invalid "%w: user %q contains a shell metacharacter"
  else if HasSuffix (User cfg) (bs "\") then invalid "%w: user %q ends in a backslash"
  else if negb (beq (User cfg) []) && has_byte (Destination cfg) "@"
    then invalid "%w: user %q given but destination %q already names a user"
  else if negb (onlyAlnumOr (Term cfg) termExtra) then invalid "%w: TERM %q must be letters, digits and %s only"
  else if negb (onlyAlnumOr (TerminalPath cfg) terminalPathExtra)
    then invalid "%w: terminal path %q must be letters, digits and %s only"
  else validate_options (SSHOptions cfg).

Definition remoteCommand (id passkey term terminalPath : bytes) : bytes :=
  bs "echo '" ++ id ++ bs "/" ++ passkey ++ bs "_" ++ term ++ bs "' | " ++ terminalPath ++ bs " --verbose=0".

Definition sshArgs (cfg : Config) (remote : bytes) : list bytes :=
  ((fun opt => bs "-o" ++ opt) <$> SSHOptions cfg)
  ++ (if beq (User cfg) [] then [] else [bs "-l"; User cfg])
  ++ [bs "--"; Destination cfg; remote].

(** ** bootstrap.go *)

Definition maxOutput : Z := 2 ^ 20.
Definition excerptLen : Z := 512.
Definition minPiece : Z := 4.
Definition withheldOutput : bytes := bs "[withheld: the output contains part of the generated session key]".

Record cappedBuffer := MkCapped { cb_buf : bytes; cb_max : Z; cb_dropped : Z }.
(** [Write] always reports the whole of [p] written. *)
Definition capped_Write (c : cappedBuffer) (p : bytes) : cappedBuffer :=
  let kept := Z.min (zlen p) (Z.max (cb_max c - zlen (cb_buf c)) 0) in
  MkCapped (cb_buf c ++ ztake kept p) (cb_max c) (cb_dropped c + (zlen p - kept)).
Definition capped (max : Z) : cappedBuffer := MkCapped [] max 0.

(** The loop from [i] over the pieces of the secret. *)
Fixpoint containsPiece_from (out secret : bytes) : bool :=
  if minPiece <=? zlen secret
  then if Contains out (ztake minPiece secret) then true
       else match secret with _ :: secret' => containsPiece_from out secret' | [] => false end
  else false.
Definition containsPiece (out secret : bytes) : bool := containsPiece_from out secret.

Fixpoint skip_cont (b : bytes) : bytes :=
  match b with
  | c :: b' => if RuneStart c then b else skip_cont b'
  | [] => []
  end.

Definition before_marker (out : bytes) : bytes :=
  match Cut out marker with Some (b, _) => b | None => out end.

Definition excerpt (out : bytes) : bytes :=
  let b := TrimSpace (before_marker out) in
  if zlen b <=? excerptLen then b
  else bs "..." ++ skip_cont (zdrop (zlen b - excerptLen) b).

(** How a process that ran ended: [exec.ExitError], with the number and the
    description of the signal on the systems that report one. *)
Inductive exit_err := Exited (code : Z) | Signaled (sig : Z) (description : bytes).
Definition ExitCode (x : exit_err) : Z := match x with Exited c => c | Signaled _ _ => -1 end.
Definition killedBy (x : exit_err) : option bytes :=
  match x with
  | Exited _ => None
  | Signaled sig d => Some (Itoa sig ++ bs " (" ++ d ++ bs ")")
  end.

Definition failure_status (exitErr : option exit_err) : list piece :=
  let code := match exitErr with Some x => ExitCode x | None => 0 end in
  match exitErr ≫= killedBy with
  | Some sig => [Lit "was killed by signal "; Str sig]
  | None => [Lit "exited with status "; Num code]
  end
  ++ (if code =? 127 then [Lit ": etterminal was not found on the server; install Eternal Terminal there or pass --terminal-path"]
      else if code =? 255 then [Lit ": ssh could not connect or authenticate; check that plain ssh to this host works"]
      else []).

(** The error and the text of its [%s]. *)
Definition describeFailure (exitErr : option exit_err) (parseErr : gerr) (out : bytes) (overflowed : bool)
  : gerr * list piece :=
  (Errorf "%w: %s" [parseErr],
   [Lit "ssh "] ++ failure_status exitErr
   ++ (if overflowed then [Lit "; output exceeded "; Num (Z.shiftr maxOutput 20); Lit " MiB; the credentials may have been cut off"] else [])
   ++ (if beq (excerpt out) [] then [] else [Lit "; output: "; Quoted (excerpt out)])).

(** The error of [cmd.Run]. *)
Inductive run_err := RunExit (x : exit_err) | RunOther (e : gerr).

(** The [Cancel] of ssh's command: interrupt it, or kill it where that fails. *)
Definition ssh_Cancel (interrupt kill : option gerr) : option gerr :=
  match interrupt with Some _ => kill | None => None end.

(** The command [newCommand] prepares: whose standard streams it has, the
    buffer its stdout is, how it is cancelled and how long Run waits then. *)
Inductive stream := ProcessStdin | ProcessStderr.
Record command := MkCommand {
  cmd_Path : bytes; cmd_Args : list bytes; cmd_Stdin : stream; cmd_Stderr : stream; cmd_Stdout : cappedBuffer;
  cmd_Cancel : option gerr -> option gerr -> option gerr; cmd_WaitDelay : Z
}.
Definition waitDelay : Z := 2 * 10 ^ 9.
Definition newCommand (sshPath : bytes) (args : list bytes) : command :=
  MkCommand sshPath (sshPath :: args) ProcessStdin ProcessStderr (capped maxOutput) ssh_Cancel waitDelay.

(** What [Run] meets: PATH, the random texts, what ssh wrote and how it
    ended, and the context once it did: its error, with its cause. *)
Record run_env := MkRunEnv {
  re_LookPath : bytes + gerr;
  re_texts : bytes * bytes * bytes;
  re_ssh : bytes -> list bytes -> list bytes * option run_err;
  re_ctx : option (sentinel * gerr)
}.

(** The outcome: credentials, with whether the no-regeneration warning was
    logged, or an error with the quoted text it carries.  [RunPanics] is a
    slice out of range. *)
Inductive run_result :=
| Started (c : Credentials) (warned : bool)
| Failed (e : gerr) (text : list piece)
| RunPanics.

(** After ssh ended with [runErr], having written [out]. *)
Definition Run_finished (ctx : option (sentinel * gerr)) (sshPath id pk : bytes)
    (out : cappedBuffer) (runErr : option run_err) : run_result :=
  match parseCredentials (cb_buf out), ctx with
  | inl creds, None => Started creds (beq (ID creds) id)
  | _, Some (ctxErr, cause) =>
      if errors_Is cause ctxErr then Failed (Errorf "bootstrap: ssh interrupted: %w" [cause]) []
      else Failed (Errorf "bootstrap: ssh interrupted: %w: %w" [Sentinel ctxErr; cause]) []
  | inr parseErr, None =>
      let describe exitErr :=
        let shown := if containsPiece (cb_buf out) pk then withheldOutput else cb_buf out in
        let '(e, text) := describeFailure exitErr parseErr shown (0 <? cb_dropped out) in
        Failed e text in
      match runErr with
      | Some (RunOther e) =>
          if errors_Is e exec_ErrWaitDelay then describe None
          else Failed (Errorf "bootstrap: run %s: %w" [e]) [Str sshPath]
      | Some (RunExit x) => describe (Some x)
      | None => describe None
      end
  end.

Definition Run (env : run_env) (cfg : Config) : run_result :=
  let cfg := applyDefaults cfg in
  match validate cfg with
  | Some e => Failed e []
  | None =>
      match (if beq (SSH cfg) [] then re_LookPath env else inl (SSH cfg)) with
      | inr e => Failed (Errorf "bootstrap: ssh not found on PATH (install OpenSSH): %w" [e]) []
      | inl sshPath =>
          match placeholder (re_texts env) with
          | None => RunPanics
          | Some (id, pk) =>
              let cmd := newCommand sshPath (sshArgs cfg (remoteCommand id pk (Term cfg) (TerminalPath cfg))) in
              let '(writes, runErr) := re_ssh env (cmd_Path cmd) (tail (cmd_Args cmd)) in
              Run_finished (re_ctx env) sshPath id pk (foldl capped_Write (cmd_Stdout cmd) writes) runErr
          end
      end
  end.

(** ** What the parser accepts *)

Definition alnum (s : bytes) : bool := forallb isAlnum s.
Definition run_ends (s : bytes) : Prop := match s with c :: _ => isAlnum c = false | [] => True end.

(** [out] holds [id/pk] right after its first marker, with nothing
    alphanumeric following. *)
Definition announces (out id pk : bytes) : Prop :=
  exists before after,
    out = before ++ marker ++ id ++ bs "/" ++ pk ++ after /\
    (forall b a, out = b ++ marker ++ a -> (length before <= length b)%nat) /\
    zlen id = idLen /\ zlen pk = passkeyLen /\ alnum id = true /\ alnum pk = true /\ run_ends after.

Lemma alnumRun_app a s : alnum a = true -> run_ends s -> alnumRun (a ++ s) = a.
Proof.
  intros Ha Hs. induction a as [|c a IH]; simpl in *.
  - destruct s as [|c s]; simpl in *; [done|by rewrite Hs].
  - apply andb_true_iff in Ha as [-> Ha]. by rewrite IH.
Qed.

Lemma alnumRun_split s :
  exists t, s = alnumRun s ++ t /\ alnum (alnumRun s) = true /\ run_ends t.
Proof.
  induction s as [|c s (t & H & Ha & Ht)]; simpl; [by exists []|].
  destruct (isAlnum c) eqn:Hc; [|by exists (c :: s)].
  exists t. simpl. rewrite Hc, <- H. done.
Qed.

Lemma parseCredentials_view (out : bytes) :
  (forall c, parseCredentials out = inl c <->
     exists id pk, c = NewCredentials id pk /\ announces out id pk) /\
  (forall e, parseCredentials out = inr e -> errors_Is e ErrNoCredentials = true).
Proof.
  split.
  - intros c. unfold parseCredentials. split.
    + destruct (Cut out marker) as [[before rest]|] eqn:Hcut; [|done].
      apply Cut_spec in Hcut as [Hout Hfirst].
      destruct (alnumRun_split rest) as (t & Hrest & Hid & Ht).
      destruct (Z.eqb_spec (zlen (alnumRun rest)) idLen) as [Hlid|]; [|done]. cbn [negb].
      assert (zdrop (zlen (alnumRun rest)) rest = t) as -> by (rewrite Hrest at 2; by apply zdrop_app_eq).
      destruct t as [|x t]; [done|]. destruct (decide (x = "/"%byte)) as [->|Hx]; [|by destruct x].
      destruct (alnumRun_split t) as (after & Ht' & Hpk & Hafter).
      destruct (Z.eqb_spec (zlen (alnumRun t)) passkeyLen) as [Hlpk|]; [|done]. cbn [negb].
      intros [= <-]. exists (alnumRun rest), (alnumRun t). split; [done|].
      exists before, after. split_and!; try done. rewrite Hout, Hrest at 1. by rewrite Ht' at 1.
    + intros (id & pk & -> & before & after & Hout & Hfirst & Hlid & Hlpk & Hid & Hpk & Hafter).
      rewrite (proj2 (Cut_spec out marker before (id ++ bs "/" ++ pk ++ after)) (conj Hout Hfirst)).
      rewrite alnumRun_app by done. rewrite Hlid at 1. cbn [negb].
      rewrite (zdrop_app_eq (zlen id)) by done. cbn [bs app String.list_byte_of_string].
      change (bs "/" ++ pk ++ after) with ("/"%byte :: pk ++ after). cbn iota beta.
      rewrite alnumRun_app by done. by rewrite Hlpk.
  - intros e. unfold parseCredentials.
    destruct (Cut out marker) as [[before rest]|]; [|by intros [= <-]].
    destruct (negb _); [by intros [= <-]|].
    destruct (zdrop _ rest) as [|x t]; [by intros [= <-]|].
    destruct (decide (x = "/"%byte)) as [->|]; [destruct (negb _)|]; intros [=]; subst; try done.
    destruct x; by simplify_eq.
Qed.

(** [C25] [parseCredentials] succeeds exactly on an announcement, and every failure
    is [ErrNoCredentials]. *)
Theorem parseCredentials_spec (out : bytes) :
  (forall c, parseCredentials out = inl c <->
     exists id pk, c = NewCredentials id pk /\ announces out id pk) /\
  (forall e, parseCredentials out = inr e -> errors_Is e ErrNoCredentials = true).
Proof. apply parseCredentials_view. Qed.

(** ** What ssh and the remote shell make of the command line *)

(** [rand.Text]: at least 26 characters of the base32 alphabet. *)
Definition base32 (c : byte) : bool := byte_in c "A" "Z" || byte_in c "2" "7".
Definition rand_text (t : bytes) : Prop := 26 <= zlen t /\ forallb base32 t = true.
Definition rand_texts (texts : bytes * bytes * bytes) : Prop :=
  let '(t1, t2, t3) := texts in rand_text t1 /\ rand_text t2 /\ rand_text t3.

(** ssh's options as getopt reads them, for the two the code passes: the
    values of [-o], the last [-l], and the arguments after ["--"]. *)
Fixpoint getopt (args : list bytes) : option (list bytes * option bytes * list bytes) :=
  match args with
  | [] => None
  | a :: rest =>
      if beq a (bs "--") then Some ([], None, rest)
      else if beq a (bs "-o") then
        match rest with
        | o :: rest => '(os, u, l) ← getopt rest; Some (o :: os, u, l)
        | [] => None
        end
      else if HasPrefix a (bs "-o") then '(os, u, l) ← getopt rest; Some (drop 2 a :: os, u, l)
      else if beq a (bs "-l") then
        match rest with
        | u :: rest => '(os, u', l) ← getopt rest; Some (os, Some (default u u'), l)
        | [] => None
        end
      else None
  end.

(** A POSIX shell's tokens, for lines of ordinary characters, single quotes,
    blanks and pipes; [None] for anything else. *)
Inductive token := Word (w : bytes) | PipeOp.
Definition ordinary (c : byte) : bool := isAlnum c || has_byte (bs "._/~-=+,:@%") c.
Definition flush (cur : option bytes) (ts : list token) : list token :=
  match cur with Some w => Word w :: ts | None => ts end.

Fixpoint shell_lex (s : bytes) (cur : option bytes) (quoted : bool) : option (list token) :=
  match s with
  | [] => if quoted then None else Some (flush cur [])
  | c :: s =>
      if quoted then
        if bool_decide (c = "'"%byte) then shell_lex s cur false
        else shell_lex s (Some (default [] cur ++ [c])) true
      else if bool_decide (c = "'"%byte) then shell_lex s (Some (default [] cur)) true
      else if bool_decide (c = " "%byte) then flush cur <$> shell_lex s None false
      else if bool_decide (c = "|"%byte) then (fun ts => flush cur (PipeOp :: ts)) <$> shell_lex s None false
      else if ordinary c then shell_lex s (Some (default [] cur ++ [c])) false
      else None
  end.

Lemma ordinary_not c : ordinary c = true -> c <> "'"%byte /\ c <> " "%byte /\ c <> "|"%byte.
Proof. intros H. split_and!; intros ->; done. Qed.

Lemma lex_ordinary w s cur :
  forallb ordinary w = true ->
  shell_lex (w ++ s) (Some cur) false = shell_lex s (Some (cur ++ w)) false.
Proof.
  revert cur. induction w as [|c w IH]; intros cur; [by rewrite app_nil_r|].
  cbn [forallb app shell_lex]. intros [Hc Hw]%andb_true_iff.
  destruct (ordinary_not c Hc) as (? & ? & ?). rewrite !bool_decide_false, Hc by done.
  rewrite IH by done. simpl. by rewrite <- app_assoc.
Qed.

Lemma lex_quoted w s cur :
  "'"%byte ∉ w ->
  shell_lex (w ++ "'"%byte :: s) (Some cur) true = shell_lex s (Some (cur ++ w)) false.
Proof.
  revert cur. induction w as [|c w IH]; intros cur Hw.
  - cbn [app shell_lex]. rewrite bool_decide_true, app_nil_r by done. done.
  - apply not_elem_of_cons in Hw as [Hc Hw]. cbn [app shell_lex]. rewrite bool_decide_false by done.
    rewrite IH by done. simpl. by rewrite <- app_assoc.
Qed.

Lemma lex_start c w s :
  ordinary c = true -> shell_lex (c :: w ++ s) None false = shell_lex (w ++ s) (Some [c]) false.
Proof.
  intros Hc. destruct (ordinary_not c Hc) as (? & ? & ?). cbn [shell_lex].
  by rewrite !bool_decide_false, Hc by done.
Qed.

Lemma lex_word w s ts :
  w <> [] -> forallb ordinary w = true ->
  shell_lex s None false = Some ts ->
  shell_lex (w ++ " "%byte :: s) None false = Some (Word w :: ts).
Proof.
  intros Hne Hw Hs. destruct w as [|c w]; [done|]. cbn [forallb] in Hw.
  apply andb_true_iff in Hw as [Hc Hw]. rewrite <- app_comm_cons, lex_start, lex_ordinary by done.
  cbn [shell_lex]. by rewrite bool_decide_false, bool_decide_true, Hs by done.
Qed.

Lemma forallb_impl {A} (f g : A -> bool) l :
  (forall x, f x = true -> g x = true) -> forallb f l = true -> forallb g l = true.
Proof. intros H. rewrite !forallb_forall. eauto. Qed.

Lemma isAlnum_ordinary c : isAlnum c = true -> ordinary c = true.
Proof. unfold ordinary. by intros ->. Qed.

Lemma base32_isAlnum c : base32 c = true -> isAlnum c = true.
Proof. destruct c; done. Qed.

Lemma onlyAlnumOr_ordinary s extra :
  forallb ordinary extra = true -> onlyAlnumOr s extra = true ->
  s <> [] /\ forallb ordinary s = true.
Proof.
  unfold onlyAlnumOr. intros He [Hne H]%andb_true_iff. split.
  - intros ->. done.
  - revert H. apply forallb_impl. intros c [Hc|Hc]%orb_true_iff; [by apply isAlnum_ordinary|].
    rewrite forallb_forall in He. apply He. rewrite <- list_elem_of_In. by apply has_byte_spec.
Qed.

Lemma ordinary_no_quote w : forallb ordinary w = true -> "'"%byte ∉ w.
Proof.
  intros Hw Hin. rewrite forallb_forall in Hw. rewrite list_elem_of_In in Hin.
  by specialize (Hw _ Hin).
Qed.

(** The remote command is one pipeline of the two intended commands. *)
Lemma remoteCommand_lex line path :
  "'"%byte ∉ line -> path <> [] -> forallb ordinary path = true ->
  shell_lex (bs "echo '" ++ line ++ bs "' | " ++ path ++ bs " --verbose=0") None false
  = Some [Word (bs "echo"); Word line; PipeOp; Word path; Word (bs "--verbose=0")].
Proof.
  intros Hq Hne Hp.
  change (bs "echo '" ++ line ++ bs "' | " ++ path ++ bs " --verbose=0") with
    (bs "echo" ++ " "%byte :: ("'"%byte :: line ++ "'"%byte :: bs " | " ++ path ++ bs " --verbose=0")).
  apply lex_word; [done|done|]. cbn [shell_lex]. rewrite bool_decide_true by done.
  change (Some (default [] None)) with (Some (@nil byte)). rewrite lex_quoted by done. cbn [app].
  change (bs " | " ++ path ++ bs " --verbose=0") with
    (" "%byte :: "|"%byte :: " "%byte :: path ++ " "%byte :: bs "--verbose=0").
  cbn [shell_lex]. rewrite ?bool_decide_true by done.
  repeat (rewrite bool_decide_false by done). rewrite ?bool_decide_true by done.
  rewrite (lex_word path (bs "--verbose=0") [Word (bs "--verbose=0")]); [done..|].
  vm_compute. reflexivity.
Qed.

Lemma placeholder_spec texts :
  rand_texts texts ->
  exists id pk, placeholder texts = Some (regeneratePrefix ++ id, pk) /\
    zlen id = 13 /\ zlen pk = passkeyLen /\ forallb base32 id = true /\ forallb base32 pk = true.
Proof.
  destruct texts as [[t1 t2] t3]. intros ([L1 B1] & [L2 B2] & [L3 B3]). unfold placeholder.
  change (idLen - zlen regeneratePrefix) with 13. unfold passkeyLen.
  rewrite !slice_Some by zlia. rewrite !Z.sub_0_r, !zdrop_0 by lia. do 2 eexists. split; [done|].
  split_and!; [zlia|zlia| |].
  - rewrite <- (ztake_zdrop 13 t1), forallb_app in B1. by apply andb_true_iff in B1 as [? _].
  - assert (forallb base32 (t2 ++ t3) = true) as B by (by rewrite forallb_app, B2, B3).
    rewrite <- (ztake_zdrop 32 (t2 ++ t3)), forallb_app in B. by apply andb_true_iff in B as [? _].
Qed.

(** What [validate] accepts. *)
Lemma validate_None cfg :
  validate cfg = None ->
  Destination cfg <> [] /\ ~ bs "-" `prefix_of` Destination cfg /\
  (forall c, c ∈ Destination cfg -> c ∉ shellMeta) /\
  (forall c, c ∈ User cfg -> c ∉ userMeta) /\ ~ bs "-" `prefix_of` User cfg /\
  (User cfg <> [] -> "@"%byte ∉ Destination cfg) /\
  onlyAlnumOr (Term cfg) termExtra = true /\ onlyAlnumOr (TerminalPath cfg) terminalPathExtra = true /\
  (forall opt, opt ∈ SSHOptions cfg -> opt <> [] /\ hasControl opt = false) /\
  hasSpaceOrControl (Destination cfg) = false /\ hasSpaceOrControl (User cfg) = false.
Proof.
  unfold validate, invalid.
  destruct (beq_spec (Destination cfg) []) as [|Hd]; [by intros [=]|].
  destruct (HasPrefix (Destination cfg) (bs "-")) eqn:Hp; [by intros [=]|].
  destruct (hasSpaceOrControl (Destination cfg)) eqn:Hsp; [by intros [=]|].
  destruct (ContainsAny (Destination cfg) shellMeta) eqn:Hm; [by intros [=]|].
  destruct (HasPrefix (User cfg) (bs "-")) eqn:Hup; [by intros [=]|].
  destruct (hasSpaceOrControl (User cfg)) eqn:Husp; [by intros [=]|]. cbn [orb].
  destruct (ContainsAny (User cfg) userMeta) eqn:Hum; [by intros [=]|].
  destruct (HasSuffix (User cfg) (bs "\")); [by intros [=]|].
  destruct (negb _ && _) eqn:Hat; [by intros [=]|].
  destruct (onlyAlnumOr (Term cfg) termExtra); [|by intros [=]].
  destruct (onlyAlnumOr (TerminalPath cfg) terminalPathExtra); [|by intros [=]]. cbn [negb]. intros Hopts.
  split_and!; try done.
  - by apply HasPrefix_false.
  - by apply ContainsAny_false.
  - by apply ContainsAny_false.
  - by apply HasPrefix_false.
  - intros Hu Hin%has_byte_spec. rewrite Hin, beq_false in Hat by done. done.
  - revert Hopts. induction (SSHOptions cfg) as [|o opts IH]; [by intros _ ? ?%elem_of_nil|].
    cbn [validate_options]. unfold invalid. destruct (beq_spec o []); [by intros [=]|].
    destruct (hasControl o) eqn:Ho; [by intros [=]|]. cbn [orb]. intros Hrest opt [->|Hin]%elem_of_cons; auto.
Qed.

Lemma validate_error cfg e : validate cfg = Some e -> errors_Is e ErrInvalidConfig = true.
Proof.
  unfold validate, invalid. repeat (case_match; [by intros [= <-]|]).
  induction (SSHOptions cfg) as [|o opts IH]; [done|]. cbn [validate_options]. unfold invalid.
  destruct (beq o [] || hasControl o); [by intros [= <-]|done].
Qed.

Lemma getopt_sshArgs cfg remote :
  (forall opt, opt ∈ SSHOptions cfg -> opt <> []) ->
  getopt (sshArgs cfg remote) =
    Some (SSHOptions cfg, if beq (User cfg) [] then None else Some (User cfg), [Destination cfg; remote]).
Proof.
  unfold sshArgs. induction (SSHOptions cfg) as [|o opts IH]; intros Hne.
  - cbn [fmap list_fmap app]. destruct (beq_spec (User cfg) []); done.
  - rewrite fmap_cons, <- app_comm_cons. cbn [getopt].
    assert (o <> []) as Ho by (apply Hne; by left).
    rewrite !beq_false by (by destruct o).
    rewrite HasPrefix_app, IH by (intros opt Hopt; apply Hne; by right). done.
Qed.

(** [C24] With a valid [Config], ssh reads exactly the given options, user and
    destination and one command, and the remote shell reads that command as
    [echo] of the id, passkey and TERM piped into the terminal path, whatever
    the user typed; etterminal's split at '_' gives exactly two tokens, and
    the destination is neither an option nor shell syntax where ssh
    substitutes it. *)
Theorem ssh_command_safe (config : Config) (texts : bytes * bytes * bytes)
    (Hvalid : validate (applyDefaults config) = None) (Htexts : rand_texts texts) :
  let cfg := applyDefaults config in
  exists id pk,
    let line := id ++ bs "/" ++ pk ++ bs "_" ++ Term cfg in
    let remote := remoteCommand id pk (Term cfg) (TerminalPath cfg) in
    placeholder texts = Some (id, pk) /\
    zlen id = idLen /\ zlen pk = passkeyLen /\ HasPrefix id regeneratePrefix = true /\
    getopt (sshArgs cfg remote) =
      Some (SSHOptions cfg, if beq (User cfg) [] then None else Some (User cfg), [Destination cfg; remote]) /\
    shell_lex remote None false =
      Some [Word (bs "echo"); Word line; PipeOp; Word (TerminalPath cfg); Word (bs "--verbose=0")] /\
    CutLast line (bs "_") = Some (id ++ bs "/" ++ pk, Term cfg) /\
    Cut line (bs "_") = Some (id ++ bs "/" ++ pk, Term cfg) /\
    Destination cfg <> [] /\ ~ bs "-" `prefix_of` Destination cfg /\
    (forall c, c ∈ Destination cfg -> c ∉ shellMeta).
Proof.
  intros cfg. destruct (placeholder_spec texts Htexts) as (id & pk & Hph & Hid & Hpk & Bid & Bpk).
  destruct (validate_None _ Hvalid) as (Hd & Hp & Hm & _ & _ & _ & Hterm & Hpath & Hopts & _).
  fold cfg in Hd, Hp, Hm, Hterm, Hpath, Hopts.
  apply onlyAlnumOr_ordinary in Hterm as Ht; [|done]. destruct Ht as [Htne Hto].
  apply onlyAlnumOr_ordinary in Hpath as [Hpne Hpo]; [|done].
  assert ("_"%byte ∉ Term cfg) as Hus.
  { unfold onlyAlnumOr in Hterm. apply andb_true_iff in Hterm as [_ Hall].
    rewrite forallb_forall in Hall. intros Hin. rewrite list_elem_of_In in Hin. by specialize (Hall _ Hin). }
  assert (forall x, forallb base32 x = true -> forallb ordinary x = true) as Hbo.
  { intros x. apply forallb_impl. intros c Hc. by apply isAlnum_ordinary, base32_isAlnum. }
  assert (forall x, forallb base32 x = true -> "_"%byte ∉ x) as Hbu.
  { intros x Hx Hin. rewrite forallb_forall in Hx. rewrite list_elem_of_In in Hin. by specialize (Hx _ Hin). }
  exists (regeneratePrefix ++ id), pk. cbn zeta.
  set (who := (regeneratePrefix ++ id) ++ bs "/" ++ pk).
  assert ((regeneratePrefix ++ id) ++ bs "/" ++ pk ++ bs "_" ++ Term cfg = who ++ bs "_" ++ Term cfg) as Hline.
  { unfold who. by rewrite <- !app_assoc. }
  assert ("_"%byte ∉ who) as Huw.
  { unfold who. rewrite !not_elem_of_app. split_and!; auto; by intros Hin%has_byte_spec. }
  split_and!; try done.
  - unfold zlen in *. rewrite length_app. cbn. unfold idLen. lia.
  - apply HasPrefix_app.
  - apply getopt_sshArgs. intros opt Hopt. by apply Hopts.
  - unfold remoteCommand.
    replace (bs "echo '" ++ (regeneratePrefix ++ id) ++ bs "/" ++ pk ++ bs "_" ++ Term cfg ++ bs "' | " ++ TerminalPath cfg ++ bs " --verbose=0")
      with (bs "echo '" ++ (who ++ bs "_" ++ Term cfg) ++ bs "' | " ++ TerminalPath cfg ++ bs " --verbose=0")
      by (unfold who; by rewrite <- !app_assoc).
    rewrite Hline. apply remoteCommand_lex; [|done..]. apply ordinary_no_quote.
    unfold who. rewrite !forallb_app, (Hbo id), (Hbo pk), Hto by done. done.
  - rewrite Hline. unfold CutLast. rewrite !reverse_app, <- app_assoc.
    rewrite (proj2 (Cut_spec _ _ (reverse (Term cfg)) (reverse who))); [by rewrite !reverse_involutive|].
    split; [done|]. apply first_byte. by rewrite elem_of_reverse.
  - rewrite Hline. apply Cut_spec. split; [done|]. by apply first_byte.
Qed.

(** ** What a failure quotes *)

(** The capped buffer holds the first [max] bytes and counts the others. *)
Lemma capped_writes max writes :
  0 <= max ->
  let c := foldl capped_Write (capped max) writes in
  cb_max c = max /\ cb_buf c = ztake max (concat writes) /\
  cb_dropped c = Z.max 0 (zlen (concat writes) - max).
Proof.
  intros Hmax. cbn zeta. induction writes as [|p writes IH] using rev_ind.
  - simpl. split_and!; [done| |]; [by unfold ztake; rewrite take_nil|change (0 = Z.max 0 (0 - max)); lia].
  - rewrite foldl_app. cbn [foldl]. revert IH. generalize (foldl capped_Write (capped max) writes).
    intros c (H1 & H2 & H3). unfold capped_Write.
    rewrite H1, H2, H3. cbn [cb_max cb_buf cb_dropped]. rewrite concat_app. cbn [concat]. rewrite app_nil_r.
    set (l := concat writes). split_and!; [done| |].
    + destruct (Z.leb_spec (zlen l) max) as [Hl|Hl].
      * rewrite (ztake_ge max l) by done.
        replace max with (zlen l + (max - zlen l)) at 2 by lia.
        rewrite ztake_plus by zlia. rewrite ztake_app_eq, zdrop_app_eq by done. f_equal.
        destruct (Z.leb_spec (zlen p) (max - zlen l)).
        -- rewrite !ztake_ge by lia. done.
        -- f_equal. lia.
      * rewrite zlen_ztake, (ztake_app_le max) by lia. rewrite (ztake_0 p) by lia. apply app_nil_r.
    + rewrite zlen_ztake. zlia.
Qed.

Lemma containsPiece_from_false out secret p :
  containsPiece_from out secret = false -> piece_of p secret -> zlen p = minPiece -> ~ piece_of p out.
Proof.
  unfold minPiece. induction secret as [|c s IH]; intros Hc (b & a & Hs) Hp.
  - destruct b; [|done]. destruct p; [done|]. done.
  - cbn [containsPiece_from] in Hc. unfold minPiece in Hc.
    destruct (Z.leb_spec 4 (zlen (c :: s))) as [Hl|Hl].
    + destruct (Contains out (ztake 4 (c :: s))) eqn:Hin; [done|].
      destruct b as [|d b].
      * simpl in Hs. rewrite Hs, ztake_app_eq in Hin by done.
        intros (b' & a' & H). assert (Contains out p = true) by (apply Contains_spec; eauto). congruence.
      * injection Hs as <- Hs. apply IH; [done|by exists b, a|done].
    + rewrite Hs in Hl. rewrite !zlen_app in Hl. zlia.
Qed.

(** A piece that avoids the head of a string lies in its tail. *)
Lemma piece_of_tail {A} (p s : list A) c :
  piece_of p (c :: s) -> p <> [] -> c ∉ p -> piece_of p s.
Proof.
  intros ([|d b] & a & H) Hne Hc.
  - destruct p as [|x p]; [done|]. injection H as <- _. destruct Hc. by left.
  - injection H as <- H. by exists b, a.
Qed.

Lemma piece_of_elem {A} (p s : list A) x : piece_of p s -> x ∈ p -> x ∈ s.
Proof. intros (b & a & ->) H. rewrite !elem_of_app. auto. Qed.

Lemma skip_cont_piece b : piece_of (skip_cont b) b.
Proof.
  induction b as [|c b IH]; [reflexivity|]. cbn [skip_cont]. destruct (RuneStart c); [reflexivity|].
  etrans; [exact IH|]. by exists [c], []; rewrite app_nil_r.
Qed.

(** An excerpt is a bounded piece of the output before the first marker,
    after "..." when it was cut. *)
Lemma excerpt_spec out :
  exists core, (excerpt out = core \/ excerpt out = bs "..." ++ core) /\
    zlen core <= excerptLen /\ piece_of core (before_marker out).
Proof.
  unfold excerpt. pose proof (TrimSpace_piece (before_marker out)) as Ht.
  set (b := TrimSpace (before_marker out)) in *.
  destruct (Z.leb_spec (zlen b) excerptLen) as [Hl|Hl]; [exists b; auto|].
  exists (skip_cont (zdrop (zlen b - excerptLen) b)). split; [auto|].
  pose proof (skip_cont_piece (zdrop (zlen b - excerptLen) b)) as Hs. split.
  - destruct Hs as (x & y & Hs). apply (f_equal zlen) in Hs.
    rewrite zlen_zdrop, !zlen_app in Hs. unfold excerptLen in *. zlia.
  - etrans; [exact Hs|]. etrans; [apply piece_of_zdrop|exact Ht].
Qed.

Lemma before_marker_piece out : piece_of (before_marker out) out.
Proof.
  unfold before_marker. destruct (Cut out marker) as [[b a]|] eqn:H; [|reflexivity].
  apply Cut_spec in H as [-> _]. by exists [], (marker ++ a).
Qed.

Lemma base32_not_in p s :
  forallb base32 p = true -> p <> [] -> forallb (fun c => negb (base32 c)) s = true -> ~ piece_of p s.
Proof.
  destruct p as [|x p]; [done|]. simpl. intros [Hx _]%andb_true_iff _ Hs Hp.
  apply (piece_of_elem _ _ x) in Hp; [|by left].
  rewrite forallb_forall in Hs. rewrite list_elem_of_In in Hp. specialize (Hs _ Hp). by rewrite Hx in Hs.
Qed.

(** What [Run_finished] shows of the output has no piece of the passkey. *)
Lemma shown_excerpt_clean out pk p :
  let shown := if containsPiece out pk then withheldOutput else out in
  forallb base32 pk = true -> piece_of p pk -> zlen p = minPiece -> ~ piece_of p (excerpt shown).
Proof.
  intros shown Hpk Hp Hl.
  assert (p <> []) as Hne by (intros ->; done).
  assert (forallb base32 p = true) as Hb.
  { destruct Hp as (b & a & ->). rewrite !forallb_app in Hpk. by repeat apply andb_true_iff in Hpk as [? Hpk]. }
  assert (~ piece_of p shown) as Hs.
  { unfold shown. destruct (containsPiece out pk) eqn:Hc.
    - by apply base32_not_in.
    - by eapply containsPiece_from_false. }
  assert ("."%byte ∉ p) as Hdot.
  { intros Hin. rewrite forallb_forall in Hb. rewrite list_elem_of_In in Hin. by specialize (Hb _ Hin). }
  destruct (excerpt_spec shown) as (core & Hx & _ & Hcore). intros He. apply Hs.
  etrans; [|apply before_marker_piece]. etrans; [|exact Hcore].
  destruct Hx as [Hx|Hx]; rewrite Hx in He; [done|].
  change (bs "..." ++ core) with ("."%byte :: "."%byte :: "."%byte :: core) in He.
  by do 3 (apply piece_of_tail in He; [|done..]).
Qed.

(** ** Run *)

(** How [Run] must end once ssh has: the context first, then the
    credentials, then a start failure, and otherwise the failure report. *)
Inductive outcome_spec (ctx : option (sentinel * gerr)) (out id : bytes) (runErr : option run_err)
  : run_result -> Prop :=
| out_interrupted x cause e :
    ctx = Some (x, cause) -> errors_Is e x = true ->
    (forall t, errors_Is cause t = true -> errors_Is e t = true) ->
    outcome_spec ctx out id runErr (Failed e [])
| out_started new pk :
    ctx = None -> announces out new pk ->
    outcome_spec ctx out id runErr (Started (NewCredentials new pk) (beq new id))
| out_not_run e0 e text :
    ctx = None -> (forall new pk, ~ announces out new pk) ->
    runErr = Some (RunOther e0) -> errors_Is e0 exec_ErrWaitDelay = false ->
    (forall t, errors_Is e t = errors_Is e0 t) ->
    outcome_spec ctx out id runErr (Failed e text)
| out_reported e text :
    ctx = None -> (forall new pk, ~ announces out new pk) ->
    (forall e0, runErr = Some (RunOther e0) -> errors_Is e0 exec_ErrWaitDelay = true) ->
    errors_Is e ErrNoCredentials = true ->
    (forall q, Quoted q ∈ text -> zlen q <= excerptLen + 3) ->
    outcome_spec ctx out id runErr (Failed e text).

Lemma zlen_excerpt out : zlen (excerpt out) <= excerptLen + 3.
Proof.
  destruct (excerpt_spec out) as (core & [-> | ->] & Hl & _); [lia|].
  rewrite zlen_app. change (zlen (bs "...")) with 3. lia.
Qed.

(** Only the excerpt is quoted. *)
Lemma describeFailure_quoted exitErr parseErr out o q :
  Quoted q ∈ (describeFailure exitErr parseErr out o).2 -> q = excerpt out.
Proof.
  unfold describeFailure, failure_status. cbn [snd]. rewrite !elem_of_app. intros [H|[[H|H]|[H|H]]].
  - by apply list_elem_of_singleton in H.
  - destruct (exitErr ≫= killedBy); repeat (apply elem_of_cons in H as [H|H]; [done|]); by apply elem_of_nil in H.
  - repeat case_match; repeat (apply elem_of_cons in H as [H|H]; [done|]); by apply elem_of_nil in H.
  - destruct o; repeat (apply elem_of_cons in H as [H|H]; [done|]); by apply elem_of_nil in H.
  - destruct (beq _ _); [by apply elem_of_nil in H|].
    apply elem_of_cons in H as [H|H]; [done|]. apply list_elem_of_singleton in H. congruence.
Qed.

Lemma Run_finished_spec ctx sshPath id pk out runErr :
  outcome_spec ctx (cb_buf out) id runErr (Run_finished ctx sshPath id pk out runErr).
Proof.
  destruct (parseCredentials_view (cb_buf out)) as [Hok Herr]. unfold Run_finished.
  destruct ctx as [[x cause]|].
  - assert (forall r, (match parseCredentials (cb_buf out) with inl _ => r | inr _ => r end : run_result) = r) as E
      by (intros; by destruct (parseCredentials _)).
    rewrite E. destruct (errors_Is cause x) eqn:Hx; eapply out_interrupted; try done.
    + by rewrite errors_Is_wrap1.
    + intros t. by rewrite errors_Is_wrap1.
    + by rewrite errors_Is_wrap2, errors_Is_self.
    + intros t Ht. by rewrite errors_Is_wrap2, Ht, orb_true_r.
  - destruct (parseCredentials (cb_buf out)) as [c|pe] eqn:Hp.
    + destruct (proj1 (Hok c) eq_refl) as (new & pk' & -> & Ha). by apply out_started.
    + assert (forall new pk', ~ announces (cb_buf out) new pk') as Hno.
      { intros new pk' Ha. enough (inr pe = inl (NewCredentials new pk')) by done. apply Hok. eauto. }
      set (shown := if containsPiece _ _ then _ else _).
      assert (forall x, (forall e0, runErr = Some (RunOther e0) -> errors_Is e0 exec_ErrWaitDelay = true) ->
        outcome_spec None (cb_buf out) id runErr
          (let '(e, text) := describeFailure x pe shown (0 <? cb_dropped out) in Failed e text)) as Hd.
      { intros x Hx. destruct (describeFailure _ _ _ _) as [e text] eqn:Hdf. apply out_reported; try done.
        - injection Hdf as <- _. rewrite errors_Is_wrap1. by apply Herr.
        - intros q Hq. assert (Quoted q ∈ (describeFailure x pe shown (0 <? cb_dropped out)).2) as Hq'
            by (by rewrite Hdf). apply describeFailure_quoted in Hq' as ->. apply zlen_excerpt. }
      destruct runErr as [[x|e0]|]; [by apply Hd| |by apply Hd].
      destruct (errors_Is e0 exec_ErrWaitDelay) eqn:Hw; [apply Hd; by intros e1 [= <-]|].
      eapply out_not_run; try done. intros t. apply errors_Is_wrap1.
Qed.

(** [C27] [Run]: a configuration that does not validate is refused before ssh runs;
    otherwise, with ssh found, the placeholder never fails and the outcome is
    the specified one for the first MiB of the output. *)
Theorem Run_spec (env : run_env) (config : Config) (Htexts : rand_texts (re_texts env)) :
  let cfg := applyDefaults config in
  (forall e, validate cfg = Some e ->
     Run env config = Failed e [] /\ errors_Is e ErrInvalidConfig = true) /\
  (validate cfg = None ->
   match (if beq (SSH cfg) [] then re_LookPath env else inl (SSH cfg)) with
   | inr e => exists e', Run env config = Failed e' [] /\ forall t, errors_Is e' t = errors_Is e t
   | inl sshPath =>
       exists id pk, placeholder (re_texts env) = Some (id, pk) /\
         let '(writes, runErr) := re_ssh env sshPath (sshArgs cfg (remoteCommand id pk (Term cfg) (TerminalPath cfg))) in
         outcome_spec (re_ctx env) (ztake maxOutput (concat writes)) id runErr (Run env config)
   end).
Proof.
  intros cfg. unfold Run. fold cfg. split.
  - intros e He. rewrite He. split; [done|]. by eapply validate_error.
  - intros Hv. rewrite Hv. destruct (if beq (SSH cfg) [] then _ else _) as [sshPath|e].
    + destruct (placeholder_spec _ Htexts) as (id & pk & Hph & _). rewrite Hph.
      eexists _, _. split; [done|]. unfold newCommand. cbn [cmd_Path cmd_Args cmd_Stdout tail].
      destruct (re_ssh env sshPath _) as [writes runErr].
      destruct (capped_writes maxOutput writes) as (_ & <- & _); [done|]. apply Run_finished_spec.
    + eexists. split; [done|]. intros t. apply errors_Is_wrap1.
Qed.

(** [C26] Whatever ssh wrote, however it was split, wrapped or truncated, what a
    failure of [Run] quotes contains no four-byte piece of the generated
    passkey. *)
Theorem Run_never_quotes_passkey (env : run_env) (config : Config) (id pk : bytes) (e : gerr)
    (text : list piece) (Htexts : rand_texts (re_texts env))
    (Hph : placeholder (re_texts env) = Some (id, pk)) (Hrun : Run env config = Failed e text) :
  forall q p, Quoted q ∈ text -> piece_of p pk -> zlen p = minPiece -> ~ piece_of p q.
Proof.
  intros q p Hq Hp Hl.
  destruct (placeholder_spec _ Htexts) as (id' & pk' & Hph' & _ & _ & _ & Hb).
  rewrite Hph in Hph'. injection Hph' as -> ->.
  unfold Run in Hrun. rewrite Hph in Hrun.
  destruct (validate _); [injection Hrun as _ <-; by apply elem_of_nil in Hq|].
  destruct (if beq _ _ then _ else _); [|injection Hrun as _ <-; by apply elem_of_nil in Hq].
  destruct (re_ssh env _ _) as [writes runErr]. revert Hrun. unfold Run_finished.
  set (out := foldl capped_Write _ _).
  assert (forall x pe, (let '(e, text) := describeFailure x pe
      (if containsPiece (cb_buf out) pk' then withheldOutput else cb_buf out) (0 <? cb_dropped out) in
      Failed e text) = Failed e text -> ~ piece_of p q) as Hd.
  { intros x pe. destruct (describeFailure _ _ _ _) as [e1 text1] eqn:Hdf. intros [= _ ->].
    assert (Quoted q ∈ (e1, text).2) as Hq' by done. rewrite <- Hdf in Hq'.
    apply describeFailure_quoted in Hq' as ->. by apply shown_excerpt_clean. }
  destruct (parseCredentials (cb_buf out)), (re_ctx env) as [[x cause]|]; try done;
    try (destruct (errors_Is cause x); intros [= _ <-]; by apply elem_of_nil in Hq).
  destruct runErr as [[x|e0]|]; [apply Hd| |apply Hd].
  destruct (errors_Is e0 _); [apply Hd|]. intros [= _ <-]. by apply list_elem_of_singleton in Hq.
Qed.

(** ** Examples and witnesses *)

Definition example_texts : bytes * bytes * bytes :=
  (bs "ABCDEFGHIJKLMNOPQRSTUVWXYZ", bs "QRSTUVWXYZ234567ABCDEFGHIJ", bs "ZYXWVUTSRQPONMLKJIHGFEDCBA").
Definition example_config : Config :=
  MkConfig (bs "host.example") (bs "alice@corp.example") (bs "~/bin/etterminal") [] [bs "Port=2200"] (bs "/usr/bin/ssh").

Lemma example_texts_ok : rand_texts example_texts.
Proof. split_and!; (split; [by apply Z.leb_le|done]). Qed.

(** ssh with the remote shell tracing, cut off in the passkey. *)
Definition example_env (writes : list bytes) (err : option run_err) : run_env :=
  MkRunEnv (inl (bs "/usr/bin/ssh")) example_texts (fun _ _ => (writes, err)) None.

Definition traced : list bytes := [bs "+ echo XXXABCDEFGHIJKLM/QRSTUVW"; bs "XYZ234"].
Definition announced : list bytes :=
  [bs "motd 1"; bs " IDPASSKEY:0123456789abcdef/"; bs "0123456789abcdef0123456789abcdef"; ["010"%byte]].

Example Run_announced :
  Run (example_env announced (Some (RunExit (Exited 1)))) example_config
  = Started (NewCredentials (bs "0123456789abcdef") (bs "0123456789abcdef0123456789abcdef")) false.
Proof. vm_compute. reflexivity. Qed.

Lemma ssh_command_safe_witness :
  exists id pk, placeholder example_texts = Some (id, pk) /\
    let cfg := applyDefaults example_config in
    getopt (sshArgs cfg (remoteCommand id pk (Term cfg) (TerminalPath cfg)))
    = Some ([bs "Port=2200"], Some (bs "alice@corp.example"),
            [bs "host.example"; remoteCommand id pk (Term cfg) (TerminalPath cfg)]).
Proof.
  destruct (ssh_command_safe example_config example_texts) as (id & pk & H1 & _ & _ & _ & H2 & _);
    [vm_compute; reflexivity|exact example_texts_ok|].
  exists id, pk. split; [exact H1|exact H2].
Defined.

Lemma Run_spec_witness :
  exists id, outcome_spec None (concat traced) id (Some (RunExit (Exited 127)))
    (Run (example_env traced (Some (RunExit (Exited 127)))) example_config).
Proof.
  destruct (Run_spec (example_env traced (Some (RunExit (Exited 127)))) example_config example_texts_ok) as [_ H].
  assert (validate (applyDefaults example_config) = None) as Hv by (vm_compute; reflexivity).
  destruct (H Hv) as (id & pk & _ & Ho). exists id.
  cbn [example_env re_ssh re_ctx] in Ho. rewrite ztake_ge in Ho by (vm_compute; discriminate). exact Ho.
Defined.

Lemma Run_never_quotes_passkey_witness :
  Run (example_env traced (Some (RunExit (Exited 127)))) example_config
  = Failed (Errorf "%w: %s" [Sentinel ErrNoCredentials])
      [Lit "ssh "; Lit "exited with status "; Num 127;
       Lit ": etterminal was not found on the server; install Eternal Terminal there or pass --terminal-path";
       Lit "; output: "; Quoted withheldOutput] /\
  ~ piece_of (bs "QRST") withheldOutput.
Proof.
  assert (Run (example_env traced (Some (RunExit (Exited 127)))) example_config
  = Failed (Errorf "%w: %s" [Sentinel ErrNoCredentials])
      [Lit "ssh "; Lit "exited with status "; Num 127;
       Lit ": etterminal was not found on the server; install Eternal Terminal there or pass --terminal-path";
       Lit "; output: "; Quoted withheldOutput]) as H by (vm_compute; reflexivity).
  split; [exact H|].
  apply (Run_never_quotes_passkey (example_env traced (Some (RunExit (Exited 127)))) example_config
    (bs "XXXABCDEFGHIJKLM") (bs "QRSTUVWXYZ234567ABCDEFGHIJZYXWVU") _ _ example_texts_ok
    ltac:(vm_compute; reflexivity) H).
  - do 5 right. left.
  - exists [], (bs "UVWXYZ234567ABCDEFGHIJZYXWVU"). reflexivity.
  - reflexivity.
Defined.
