(* ===== verification/Flags.v ===== *)
(** * cmd/et/flags.go: the command line

    The [flag] package as far as [parseArgs] uses it, [strconv.ParseInt] of
    base 0 and [ParseBool] with their syntax, [parseDestination] and
    [parseArgs].  What the flag package prints to stderr is left out. *)

From S2P Require Export GoErr GoStrings.
Local Open Scope Z_scope.

(** ** strconv *)

Definition lower (c : byte) : byte := z2b (Z.lor (b2z c) 32).

(** The value of a digit or letter in base 36. *)
Definition digit_value (c : byte) : option Z :=
  if is_digit c then Some (b2z c - 48)
  else if (97 <=? b2z (lower c)) && (b2z (lower c) <=? 122) then Some (b2z (lower c) - 87)
  else None.

(** The digits of [s] in [base], underscores passed over; the value is [None]
    for a syntax error. *)
Fixpoint digits_value (base : Z) (s : bytes) (n : Z) : option Z :=
  match s with
  | [] => Some n
  | "_"%byte :: s => digits_value base s n
  | c :: s =>
      match digit_value c with
      | Some d => if d <? base then digits_value base s (n * base + d) else None
      | None => None
      end
  end.

Definition base_prefix (s : bytes) : option Z :=
  match s with
  | "0"%byte :: c :: _ =>
      if bool_decide (lower c = "b"%byte) then Some 2
      else if bool_decide (lower c = "o"%byte) then Some 8
      else if bool_decide (lower c = "x"%byte) then Some 16
      else None
  | _ => None
  end.

(** The scan of [underscoreOK]: [prev] is '0' after a digit, '_' after an
    underscore, '^' at the start and '!' otherwise. *)
Fixpoint underscores (hex : bool) (s : bytes) (prev : byte) : bool :=
  match s with
  | [] => negb (bool_decide (prev = "_"%byte))
  | c :: s =>
      if is_digit c || (hex && (97 <=? b2z (lower c)) && (b2z (lower c) <=? 102))
      then underscores hex s "0"%byte
      else if bool_decide (c = "_"%byte)
      then if bool_decide (prev = "0"%byte) then underscores hex s "_"%byte else false
      else if bool_decide (prev = "_"%byte) then false else underscores hex s "!"%byte
  end.
Definition underscoreOK (s : bytes) : bool :=
  match base_prefix s with
  | Some b => underscores (b =? 16) (drop 2 s) "0"%byte
  | None => underscores false s "^"%byte
  end.

Definition ParseUint0 (s : bytes) : option Z :=
  match s with
  | [] => None
  | c :: t =>
      let '(base, rest) :=
        if bool_decide (c = "0"%byte) then
          match base_prefix s with
          | Some b => if 3 <=? zlen s then (b, drop 2 s) else (8, t)
          | None => (8, t)
          end
        else (10, s) in
      match digits_value base rest 0 with
      | Some n => if has_byte s "_" && negb (underscoreOK s) then None else Some n
      | None => None
      end
  end.

(** [ParseInt(s, 0, 64)]; [None] is a syntax or a range error. *)
Definition ParseInt0 (s : bytes) : option Z :=
  let '(neg, t) := match s with
                   | "-"%byte :: t => (true, t)
                   | "+"%byte :: t => (false, t)
                   | _ => (false, s)
                   end in
  match ParseUint0 t with
  | Some n => if (neg : bool) then (if n <=? 2 ^ 63 then Some (- n) else None)
              else (if n <? 2 ^ 63 then Some n else None)
  | None => None
  end.

Definition ParseBool (s : bytes) : option bool :=
  if bool_decide (s ∈ bs <$> ["1"; "t"; "T"; "true"; "TRUE"; "True"]%string) then Some true
  else if bool_decide (s ∈ bs <$> ["0"; "f"; "F"; "false"; "FALSE"; "False"]%string) then Some false
  else None.

(** ** The flags *)

(** The variables that the flags write, and the names that were set. *)
Record flag_vars := MkVars {
  v_user : bytes; v_port : Z; v_terminalPath : bytes; v_sshOptions : list bytes;
  v_keepAlive : Z; v_verbose : bool; v_logFile : bytes; v_showVersion : bool;
  v_actual : list bytes
}.

Definition defaultPort : Z := 2022.
Definition flag_defaults : flag_vars := MkVars [] defaultPort [] [] 5 false [] false [].

Inductive flag := FUser | FPort | FTerminalPath | FSSHOption | FKeepAlive | FVerbose | FLogFile | FVersion.

Definition formal_flags : list (bytes * flag) :=
  [(bs "u", FUser); (bs "username", FUser); (bs "p", FPort); (bs "port", FPort);
   (bs "terminal-path", FTerminalPath); (bs "ssh-option", FSSHOption);
   (bs "k", FKeepAlive); (bs "keepalive", FKeepAlive);
   (bs "v", FVerbose); (bs "verbose", FVerbose); (bs "log-file", FLogFile); (bs "version", FVersion)].

Definition formal (name : bytes) : option flag :=
  match list_find (fun p => p.1 = name) formal_flags with
  | Some (_, (_, f)) => Some f
  | None => None
  end.

Definition IsBoolFlag (f : flag) : bool := match f with FVerbose | FVersion => true | _ => false end.

(** [flag.Value.Set]. *)
Definition flag_Set (f : flag) (value : bytes) (v : flag_vars) : option flag_vars :=
  let '(MkVars u p t o k vb l sv a) := v in
  match f with
  | FUser => Some (MkVars value p t o k vb l sv a)
  | FPort => n ← ParseInt0 value; Some (MkVars u n t o k vb l sv a)
  | FTerminalPath => Some (MkVars u p value o k vb l sv a)
  | FSSHOption => Some (MkVars u p t (o ++ [value]) k vb l sv a)
  | FKeepAlive => n ← ParseInt0 value; Some (MkVars u p t o n vb l sv a)
  | FVerbose => b ← ParseBool value; Some (MkVars u p t o k b l sv a)
  | FLogFile => Some (MkVars u p t o k vb value sv a)
  | FVersion => b ← ParseBool value; Some (MkVars u p t o k vb l b a)
  end.

Definition mark (name : bytes) (v : flag_vars) : flag_vars :=
  let '(MkVars u p t o k vb l sv a) := v in MkVars u p t o k vb l sv (name :: a).

(** [name=value] with the equals sign not first. *)
Definition split_value (name : bytes) : bytes * option bytes :=
  match name with
  | c :: t => match Cut t (bs "=") with Some (b, a) => (c :: b, Some a) | None => (name, None) end
  | [] => ([], None)
  end.

Definition flag_error (format : string) : gerr := Errorf format [].

(** [FlagSet.Parse]: the variables and the arguments after the flags. *)
Fixpoint Parse (args : list bytes) (v : flag_vars) : (flag_vars * list bytes) + gerr :=
  match args with
  | [] => inl (v, [])
  | s :: rest =>
      match s with
      | "-"%byte :: c :: t =>
          if beq s (bs "--") then inl (v, rest)
          else
            let name := if bool_decide (c = "-"%byte) then t else c :: t in
            if HasPrefix name (bs "-") || HasPrefix name (bs "=") || beq name []
            then inr (flag_error "bad flag syntax: %s")
            else
              let '(name, value) := split_value name in
              match formal name with
              | None =>
                  if beq name (bs "help") || beq name (bs "h") then inr (Sentinel flag_ErrHelp)
                  else inr (flag_error "flag provided but not defined: -%s")
              | Some f =>
                  if IsBoolFlag f then
                    match flag_Set f (default (bs "true") value) v with
                    | Some v => Parse rest (mark name v)
                    | None => inr (flag_error "invalid boolean value %q for -%s: %v")
                    end
                  else
                    match value, rest with
                    | Some x, _ =>
                        match flag_Set f x v with
                        | Some v => Parse rest (mark name v)
                        | None => inr (flag_error "invalid value %q for flag -%s: %v")
                        end
                    | None, x :: rest =>
                        match flag_Set f x v with
                        | Some v => Parse rest (mark name v)
                        | None => inr (flag_error "invalid value %q for flag -%s: %v")
                        end
                    | None, [] => inr (flag_error "flag needs an argument: -%s")
                    end
              end
      | _ => inl (v, args)
      end
  end.

(** ** parseDestination *)

Record destination := MkDest { d_User : bytes; d_Host : bytes; d_Port : Z }.

(** The host and the text of the port, empty when there is none. *)
Definition split_host (s : bytes) : bytes * bytes + gerr :=
  if HasPrefix s (bs "[") then
    match Cut (drop 1 s) (bs "]") with
    | None => inr (flag_error "missing ] in destination %q")
    | Some (host, rest) =>
        if beq rest [] then inl (host, [])
        else match CutPrefix rest (bs ":") with
        | None => inr (flag_error "unexpected %q after ] in destination")
        | Some p => if beq p [] then inr (flag_error "empty port after : in destination %q") else inl (host, p)
        end
    end
  else if count_byte s ":" >? 1 then inl (s, [])
  else match Cut s (bs ":") with
  | None => inl (s, [])
  | Some (host, p) => if beq p [] then inr (flag_error "empty port after : in destination %q") else inl (host, p)
  end.

Definition parse_hostport (user s : bytes) : destination + gerr :=
  match split_host s with
  | inr e => inr e
  | inl (host, portText) =>
      if beq host [] then inr (flag_error "empty host in destination")
      else if HasPrefix host (bs "-") then inr (flag_error "host %q looks like an option in destination %q")
      else if beq portText [] then inl (MkDest user host 0)
      else match Atoi portText with
      | None => inr (flag_error "invalid port %q in destination")
      | Some p => if (p <? 1) || (p >? 65535) then inr (flag_error "invalid port %q in destination")
                  else inl (MkDest user host p)
      end
  end.

Definition parseDestination (s : bytes) : destination + gerr :=
  if Contains s (bs "://") then inr (flag_error "ssh:// URIs are not supported, use [user@]host[:port]: %q")
  else match CutLast s (bs "@") with
  | Some (before, after) =>
      if beq before [] then inr (flag_error "empty user in destination %q")
      else if HasPrefix before (bs "-") then inr (flag_error "user %q looks like an option in destination %q")
      else parse_hostport before after
  | None => parse_hostport [] s
  end.

(** ** parseArgs *)

Record options := MkOptions {
  o_dest : destination; o_terminalPath : bytes; o_sshOptions : list bytes;
  o_keepAlive : Z; o_verbose : bool; o_logFile : bytes; o_version : bool
}.

Definition second : Z := 1000000000.
Definition usage (format : string) : options + gerr := inr (Errorf format [Sentinel errUsage]).

Definition parseArgs (args : list bytes) : options + gerr :=
  match Parse args flag_defaults with
  | inr err =>
      if errors_Is err flag_ErrHelp then inr err else inr (Errorf "%w: %w" [Sentinel errUsage; err])
  | inl (v, rest) =>
      if v_showVersion v then inl (MkOptions (MkDest [] [] 0) [] [] 0 false [] true)
      else match rest with
      | [arg] =>
          match parseDestination arg with
          | inr err => inr (Errorf "%w: %w" [Sentinel errUsage; err])
          | inl dest =>
              let portSet := bool_decide (bs "p" ∈ v_actual v \/ bs "port" ∈ v_actual v) in
              if negb (d_Port dest =? 0) && portSet && negb (d_Port dest =? v_port v)
              then usage "%w: port %d in the destination conflicts with -p %d"
              else
                let port := if d_Port dest =? 0 then v_port v else d_Port dest in
                if (port <? 1) || (port >? 65535) then usage "%w: port %d out of range"
                else if negb (beq (d_User dest) []) && negb (beq (v_user v) []) && negb (beq (d_User dest) (v_user v))
                then usage "%w: user %q in the destination conflicts with -u %q"
                else
                  let user := if beq (d_User dest) [] then v_user v else d_User dest in
                  if HasPrefix user (bs "-") then usage "%w: user %q looks like an option"
                  else if (v_keepAlive v <? 1) || (v_keepAlive v >? 5)
                  then usage "%w: keepalive must be 1-5 seconds, got %d"
                  else inl (MkOptions (MkDest user (d_Host dest) port) (v_terminalPath v) (v_sshOptions v)
                              (v_keepAlive v * second) (v_verbose v) (v_logFile v) false)
          end
      | _ => usage "%w: expected exactly one destination, got %d arguments"
      end
  end.

Example ParseInt0_examples :
  (ParseInt0 <$> (bs <$> ["2022"; "0x1_0"; "-5"; "010"; "0o17"; "1__0"; "_1"; "1_"; "0x"; "9223372036854775808"; ""]%string))
  = [Some 2022; Some 16; Some (-5); Some 8; Some 15; None; None; None; None; None; None].
Proof. vm_compute. reflexivity. Qed.

(** ** The grammar of destinations *)

Definition port_ok (p : Z) : Prop := 1 <= p <= 65535.

(** [host], [host:port], [[host]], [[host]:port] and a bare IPv6 literal. *)
Inductive hostport : bytes -> bytes -> Z -> Prop :=
| hp_bracket h : "]"%byte ∉ h -> hostport (bs "[" ++ h ++ bs "]") h 0
| hp_bracket_port h t p :
    "]"%byte ∉ h -> Atoi t = Some p -> port_ok p ->
    hostport (bs "[" ++ h ++ bs "]:" ++ t) h p
| hp_bare h : ~ bs "[" `prefix_of` h -> 1 < count_byte h ":" -> hostport h h 0
| hp_plain h : ~ bs "[" `prefix_of` h -> ":"%byte ∉ h -> hostport h h 0
| hp_port h t p :
    ~ bs "[" `prefix_of` (h ++ bs ":" ++ t) -> ":"%byte ∉ h -> ":"%byte ∉ t ->
    Atoi t = Some p -> port_ok p -> hostport (h ++ bs ":" ++ t) h p.

(** [[user@]host[:port]], the user ending at the last '@', neither part like
    an option, and no URI. *)
Inductive destination_text (s : bytes) : destination -> Prop :=
| dest_no_user h p :
    "@"%byte ∉ s -> hostport s h p -> h <> [] -> ~ bs "-" `prefix_of` h ->
    destination_text s (MkDest [] h p)
| dest_user u rest h p :
    s = u ++ bs "@" ++ rest -> "@"%byte ∉ rest -> u <> [] -> ~ bs "-" `prefix_of` u ->
    hostport rest h p -> h <> [] -> ~ bs "-" `prefix_of` h ->
    destination_text s (MkDest u h p).

Lemma Atoi_nonempty t p : Atoi t = Some p -> t <> [].
Proof. by intros H ->. Qed.

(** The port part of [parse_hostport]: absent, or a number in range. *)
Definition port_text (t : bytes) (p : Z) : Prop :=
  (t = [] /\ p = 0) \/ (Atoi t = Some p /\ port_ok p).

Lemma split_host_hostport s h t p :
  split_host s = inl (h, t) -> port_text t p -> hostport s h p.
Proof.
  unfold split_host, port_text. destruct (HasPrefix s (bs "[")) eqn:Hb.
  - apply HasPrefix_spec in Hb as [s' ->]. change (drop 1 (bs "[" ++ s')) with s'.
    destruct (Cut s' (bs "]")) as [[host rest]|] eqn:Hc; [|done]. apply Cut_byte in Hc as [-> Hh].
    destruct (beq_spec rest []) as [->|Hr].
    + intros [= <- <-] [[_ ->]|[Ha _]]; [by apply hp_bracket|done].
    + unfold CutPrefix. destruct (HasPrefix rest (bs ":")) eqn:Hp; [|done].
      apply HasPrefix_spec in Hp as [t' ->]. change (drop (length (bs ":")) (bs ":" ++ t')) with t'.
      destruct (beq_spec t' []) as [|Ht']; [done|]. intros [= <- <-] [[? _]|[Ha Hp]]; [done|].
      change (bs "[" ++ host ++ "]"%byte :: bs ":" ++ t') with (bs "[" ++ host ++ bs "]:" ++ t').
      by apply hp_bracket_port.
  - apply HasPrefix_false in Hb. destruct (Z.gtb_spec (count_byte s ":") 1) as [Hc|Hc].
    + intros [= <- <-] [[_ ->]|[Ha _]]; [by apply hp_bare; [|lia]|done].
    + destruct (Cut s (bs ":")) as [[host t']|] eqn:Hcut.
      * apply Cut_byte in Hcut as [-> Hh]. destruct (beq_spec t' []) as [|Ht']; [done|].
        intros [= <- <-] [[? _]|[Ha Hp]]; [done|]. apply (hp_port host t' p); try done.
        apply count_byte_0. rewrite count_byte_app, count_byte_cons in Hc.
        rewrite decide_True in Hc by done. pose proof (count_byte_nonneg host ":").
        pose proof (count_byte_nonneg t' ":"). lia.
      * apply Cut_byte_None in Hcut. intros [= <- <-] [[_ ->]|[Ha _]]; [by apply hp_plain|done].
Qed.

Lemma hostport_split_host s h p :
  hostport s h p -> exists t, split_host s = inl (h, t) /\ port_text t p.
Proof.
  unfold split_host, port_text. intros [h' Hh|h' t p' Hh Ha Hp|h' Hb Hc|h' Hb Hc|h' t p' Hb Hh Ht Ha Hp].
  - rewrite HasPrefix_app. change (drop 1 (bs "[" ++ h' ++ bs "]")) with (h' ++ bs "]").
    assert (Cut (h' ++ bs "]") (bs "]") = Some (h', [])) as -> by (by apply Cut_byte). exists []. auto.
  - rewrite HasPrefix_app. change (drop 1 (bs "[" ++ h' ++ bs "]:" ++ t)) with (h' ++ bs "]:" ++ t).
    assert (Cut (h' ++ bs "]:" ++ t) (bs "]") = Some (h', bs ":" ++ t)) as -> by (by apply Cut_byte).
    rewrite beq_false by done. unfold CutPrefix. rewrite HasPrefix_app.
    change (drop (length (bs ":")) (bs ":" ++ t)) with t.
    rewrite beq_false by (by eapply Atoi_nonempty). eauto.
  - rewrite (proj2 (HasPrefix_false _ _)) by done. destruct (Z.gtb_spec (count_byte h' ":") 1); [|lia]. eauto.
  - rewrite (proj2 (HasPrefix_false _ _)) by done. apply count_byte_0 in Hc as Hc'. rewrite Hc'.
    assert (Cut h' (bs ":") = None) as -> by (by apply Cut_byte_None). eauto.
  - rewrite (proj2 (HasPrefix_false _ _)) by done.
    apply count_byte_0 in Hh as Hh'. apply count_byte_0 in Ht as Ht'.
    rewrite !count_byte_app, Hh', Ht'. change (count_byte (bs ":") ":") with 1. cbn [Z.add Z.gtb Z.compare].
    change (0 + (1 + 0) >? 1) with false. cbn iota.
    assert (Cut (h' ++ bs ":" ++ t) (bs ":") = Some (h', t)) as -> by (by apply Cut_byte).
    rewrite beq_false by (by eapply Atoi_nonempty). eauto.
Qed.

Lemma parse_hostport_spec user s d :
  parse_hostport user s = inl d <->
  exists h p, d = MkDest user h p /\ hostport s h p /\ h <> [] /\ ~ bs "-" `prefix_of` h.
Proof.
  unfold parse_hostport. split.
  - destruct (split_host s) as [[h t]|] eqn:Hs; [|done].
    destruct (beq_spec h []) as [|Hh]; [done|].
    destruct (HasPrefix h (bs "-")) eqn:Hd; [done|]. apply HasPrefix_false in Hd.
    destruct (beq_spec t []) as [->|Ht].
    + intros [= <-]. exists h, 0. split_and!; try done. eapply split_host_hostport; [done|]. by left.
    + destruct (Atoi t) as [p|] eqn:Ha; [|done].
      destruct (Z.ltb_spec p 1); [done|]. destruct (Z.gtb_spec p 65535); [done|].
      intros [= <-]. exists h, p. split_and!; try done. eapply split_host_hostport; [done|]. right.
      split; [done|]. unfold port_ok. lia.
  - intros (h & p & -> & Hs & Hh & Hd). apply hostport_split_host in Hs as (t & -> & Ht).
    rewrite beq_false, (proj2 (HasPrefix_false _ _)) by done.
    destruct Ht as [[-> ->]|[Ha Hp]]; [done|].
    rewrite beq_false, Ha by (by eapply Atoi_nonempty). unfold port_ok in Hp.
    destruct (Z.ltb_spec p 1); [lia|]. destruct (Z.gtb_spec p 65535); [lia|]. done.
Qed.

Lemma parseDestination_view (s : bytes) (d : destination) :
  parseDestination s = inl d <-> (Contains s (bs "://") = false /\ destination_text s d).
Proof.
  unfold parseDestination. destruct (Contains s (bs "://")) eqn:Hu; [split; [done|by intros []]|].
  destruct (CutLast s (bs "@")) as [[u rest]|] eqn:Hc.
  - apply CutLast_byte in Hc as [-> Hr]. split.
    + destruct (beq_spec u []) as [|Hne]; [done|].
      destruct (HasPrefix u (bs "-")) eqn:Hd; [done|]. apply HasPrefix_false in Hd.
      intros (h & p & -> & ? & ? & ?)%parse_hostport_spec. split; [done|]. by apply (dest_user _ u rest).
    + intros [_ [h p Hn _ _ _|u' rest' h p Heq Hr' Hne Hd Hh Hhn Hhd]].
      * destruct Hn. rewrite elem_of_app. right. by left.
      * assert (CutLast (u ++ "@"%byte :: rest) (bs "@") = Some (u', rest')) as H1 by (by apply CutLast_byte).
        assert (CutLast (u ++ "@"%byte :: rest) (bs "@") = Some (u, rest)) as H2 by (by apply CutLast_byte).
        rewrite H1 in H2. injection H2 as -> ->.
        rewrite beq_false, (proj2 (HasPrefix_false _ _)) by done.
        apply parse_hostport_spec. exists h, p. by split_and!.
  - apply CutLast_byte_None in Hc. split.
    + intros (h & p & -> & ? & ? & ?)%parse_hostport_spec. split; [done|]. by apply dest_no_user.
    + intros [_ [h p _ Hh Hhn Hhd|u' rest' h p Heq Hr' Hne Hd Hh Hhn Hhd]].
      * apply parse_hostport_spec. exists h, p. by split_and!.
      * destruct Hc. rewrite Heq, elem_of_app. right. by left.
Qed.

(** [C35] [parseDestination] accepts exactly the texts of the documented form that
    hold no "://", with exactly the parts they name. *)
Theorem parseDestination_spec (s : bytes) (d : destination) :
  parseDestination s = inl d <-> (Contains s (bs "://") = false /\ destination_text s d).
Proof. apply parseDestination_view. Qed.

(** ** parseArgs *)

(** A parsed command line that asks for a session has one destination of the
    documented form; its port and user are those of every place that names
    them, never two different ones; they and the keepalive are in range and
    neither host nor user can be taken for an option. *)
Record valid_options (o : options) (v : flag_vars) (d : destination) : Prop := {
  vo_host : d_Host (o_dest o) = d_Host d /\ d_Host d <> [] /\ ~ bs "-" `prefix_of` d_Host d;
  vo_port : port_ok (d_Port (o_dest o));
  vo_port_dest : d_Port d <> 0 -> d_Port (o_dest o) = d_Port d;
  vo_port_flag : (bs "p" ∈ v_actual v \/ bs "port" ∈ v_actual v) \/ d_Port d = 0 ->
                 d_Port (o_dest o) = v_port v;
  vo_user_dest : d_User d <> [] -> d_User (o_dest o) = d_User d;
  vo_user_flag : v_user v <> [] \/ d_User d = [] -> d_User (o_dest o) = v_user v;
  vo_user : ~ bs "-" `prefix_of` d_User (o_dest o);
  vo_keepAlive : second <= o_keepAlive o <= 5 * second
}.

Lemma destination_text_host s d :
  destination_text s d -> d_Host d <> [] /\ ~ bs "-" `prefix_of` d_Host d.
Proof. by intros []. Qed.

(** The flag package's own errors are never errUsage. *)
Lemma Parse_error args v e : Parse args v = inr e -> errors_Is e errUsage = false.
Proof.
  revert v. induction args as [args IH] using (induction_ltof1 _ (@length bytes)). unfold ltof in IH.
  intros v. destruct args as [|s rest]; [done|]. cbn [Parse].
  repeat (case_match; simplify_eq; try done); intros ?; simplify_eq; try done;
    (eapply IH; [|done]); simpl; lia.
Qed.

Lemma parseArgs_view (args : list bytes) :
  match parseArgs args with
  | inr e => (errors_Is e flag_ErrHelp = true /\ errors_Is e errUsage = false)
             \/ errors_Is e errUsage = true
  | inl o => o_version o = true \/
      exists v s d, Parse args flag_defaults = inl (v, [s]) /\ destination_text s d /\ valid_options o v d
  end.
Proof.
  unfold parseArgs. destruct (Parse args flag_defaults) as [[v rest]|err] eqn:HP.
  2:{ destruct (errors_Is err flag_ErrHelp) eqn:Hh.
      - left. split; [done|]. by eapply Parse_error.
      - right. by rewrite errors_Is_wrap2, errors_Is_self. }
  destruct (v_showVersion v); [by left|].
  destruct rest as [|s [|]]; try (right; done).
  destruct (parseDestination s) as [d|e] eqn:Hd; [|right; by rewrite errors_Is_wrap2, errors_Is_self].
  apply parseDestination_view in Hd as [_ Hd].
  destruct (bool_decide_reflect (bs "p" ∈ v_actual v \/ bs "port" ∈ v_actual v)) as [Hset|Hset];
  destruct (Z.eqb_spec (d_Port d) 0) as [Hp0|Hp0];
  destruct (Z.eqb_spec (d_Port d) (v_port v)) as [Hpv|Hpv]; cbn [negb andb]; try (right; done).
  all: repeat match goal with |- context[?a <? ?b] => destruct (Z.ltb_spec a b); try (right; done) end.
  all: repeat match goal with |- context[?a >? ?b] => destruct (Z.gtb_spec a b); try (right; done) end.
  all: destruct (beq_spec (d_User d) []) as [Hu|Hu]; destruct (beq_spec (v_user v) []) as [Hv|Hv];
    destruct (beq_spec (d_User d) (v_user v)) as [Huv|Huv]; cbn [negb andb orb]; try (right; done).
  all: destruct (HasPrefix _ (bs "-")) eqn:Hpre; try (right; done); apply HasPrefix_false in Hpre.
  all: cbn [orb]; try (right; done).
  all: right; exists v, s, d; split; [done|]; split; [done|].
  all: apply destination_text_host in Hd.
  all: split; cbn [o_dest o_keepAlive d_Host d_Port d_User]; unfold port_ok, second; try tauto; try lia; try congruence.
  all: intros [?|?]; congruence.
Qed.

(** [C36] Every command line is either refused, with flag.ErrHelp or an error that
    is errUsage, or asks for the version, or gives options as
    [valid_options] says. *)
Theorem parseArgs_spec (args : list bytes) :
  match parseArgs args with
  | inr e => (errors_Is e flag_ErrHelp = true /\ errors_Is e errUsage = false)
             \/ errors_Is e errUsage = true
  | inl o => o_version o = true \/
      exists v s d, Parse args flag_defaults = inl (v, [s]) /\ destination_text s d /\ valid_options o v d
  end.
Proof. apply parseArgs_view. Qed.

Example parseArgs_example :
  parseArgs (bs <$> ["-p"; "0x7e6"; "--ssh-option=Port=22"; "-v"; "-k=3"; "--ssh-option"; "A=b"; "bob@[::1]:2022"]%string)
  = inl (MkOptions (MkDest (bs "bob") (bs "::1") 2022) [] [bs "Port=22"; bs "A=b"] (3 * second) true [] false).
Proof. vm_compute. reflexivity. Qed.
Example parseArgs_conflict :
  match parseArgs (bs <$> ["-p"; "2023"; "box:2022"]%string) with
  | inr e => errors_Is e errUsage | inl _ => false end = true.
Proof. vm_compute. reflexivity. Qed.
