(* ===== verification/Cmd.v ===== *)
(** * cmd/et: resolve.go, logging.go and run.go

    The query of ssh's configuration, the choice of the log, and [connect]
    with its deferred calls.  What [connect] calls is an [env], as in the
    source; each call and each deferred one is an event of the trace, so the
    order of what happens to the console and the connection is in the
    result. *)

From S2P Require Export Bootstrap Flags Dialer.
Local Open Scope Z_scope.

(** ** resolve.go *)

Definition resolve_args (user host : bytes) (opts : list bytes) : list bytes :=
  ((fun opt => bs "-o" ++ opt) <$> opts)
  ++ (if beq user [] then [] else [bs "-l"; user]) ++ [bs "-G"; bs "--"; host].

Fixpoint hostname_line (lines : list bytes) : bytes :=
  match lines with
  | [] => []
  | line :: lines =>
      match Cut (TrimSpace line) (bs " ") with
      | Some (key, val) => if beq key (bs "hostname") then TrimSpace val else hostname_line lines
      | None => hostname_line lines
      end
  end.
Definition sshConfigHostname (out : bytes) : bytes := hostname_line (Lines out).

(** [ssh] is what the process wrote and how it ended. *)
Definition resolveHost (ssh : list bytes -> bytes * option gerr) (user host : bytes) (opts : list bytes) : bytes :=
  let '(out, err) := ssh (resolve_args user host opts) in
  let from_output := let h := sshConfigHostname out in if beq h [] then host else h in
  match err with
  | Some e => if errors_Is e exec_ErrWaitDelay then from_output else host
  | None => from_output
  end.

(** ** logging.go *)

Inductive log_level := LevelInfo | LevelDebug.
(** [filepath.Join] of its elements. *)
Definition path := list bytes.

Definition defaultLogPath (windows : bool) (getenv : bytes -> bytes) (home : bytes + gerr) : path + gerr :=
  if windows then
    let dir := getenv (bs "LOCALAPPDATA") in
    if beq dir [] then inr (Errorf "LOCALAPPDATA is not set; use --log-file" [])
    else inl [dir; bs "et-go"; bs "et.log"]
  else
    let dir := getenv (bs "XDG_STATE_HOME") in
    if beq dir [] then
      match home with
      | inr e => inr (Errorf "find home directory: %w" [e])
      | inl h => inl [h; bs ".local"; bs "state"; bs "et-go"; bs "et.log"]
      end
    else inl [dir; bs "et-go"; bs "et.log"].

(** [None]: the logger discards.  [mkdir] and [open] are the answers of the
    file system. *)
Definition newLogger (verbose : bool) (logFile : bytes) (default_path : path + gerr)
    (mkdir open : path -> option gerr) : option (path * log_level) + gerr :=
  if negb verbose && beq logFile [] then inl None
  else match (if beq logFile [] then default_path else inl [logFile]) with
  | inr e => inr e
  | inl p =>
      match mkdir p with
      | Some e => inr (Errorf "create log directory: %w" [e])
      | None =>
          match open p with
          | Some e => inr (Errorf "open log file: %w" [e])
          | None => inl (Some (p, if verbose then LevelDebug else LevelInfo))
          end
      end
  end.

(** ** run.go: connect *)

(** [net.JoinHostPort]. *)
Definition JoinHostPort (host port : bytes) : bytes :=
  if has_byte host ":" then bs "[" ++ host ++ bs "]:" ++ port else host ++ bs ":" ++ port.

(** How [session.Run] left: with its result, or unwinding a panic. *)
Inductive run_exit := RunReturned (err : option gerr) | RunPanicked.

Record env := MkEnv {
  e_bootstrap : Config -> Credentials + gerr;
  e_resolveHost : bytes -> bytes -> list bytes -> bytes;
  e_dial : Dialer -> bytes -> Credentials -> option gerr;
  e_openConsole : option gerr;
  e_getenv : bytes -> bytes;
  e_Start : option gerr;      (* session.Start *)
  e_MakeRaw : option gerr;
  e_Run : run_exit            (* session.Run *)
}.

Inductive event :=
| OpenConsole | Bootstrapped (cfg : Config) | Resolve | Dialed (d : Dialer) (addr : bytes) (creds : Credentials)
| SessionStart | OnBreak | Raw | SessionRun
| Restore | OffBreak | CloseConn | CloseConsole | Cancel.

Inductive deferred := defer_cancel | defer_console | defer_conn | defer_onBreak | defer_restore.

(** The trace, the deferred calls, the last first, and [runStarted]. *)
Record frame := MkFrame { fr_trace : list event; fr_defers : list deferred; fr_runStarted : bool }.

Inductive exit := Returned (err : option gerr) | Repanicked.

(** A step of the body: go on with a value, or return with an error. *)
Definition M (A : Type) : Type := frame -> (A + exit) * frame.
Definition mret {A} (a : A) : M A := fun f => (inl a, f).
Definition leave {A} (x : exit) : M A := fun f => (inr x, f).
Definition bind {A B} (m : M A) (k : A -> M B) : M B :=
  fun f => match m f with (inl a, f) => k a f | (inr x, f) => (inr x, f) end.
Definition emit (e : event) : M unit :=
  fun f => (inl tt, MkFrame (fr_trace f ++ [e]) (fr_defers f) (fr_runStarted f)).
Definition defer (d : deferred) : M unit :=
  fun f => (inl tt, MkFrame (fr_trace f) (d :: fr_defers f) (fr_runStarted f)).
Definition start_run : M unit :=
  fun f => (inl tt, MkFrame (fr_trace f) (fr_defers f) true).
(** [if err != nil { return err }] *)
Definition check (err : option gerr) : M unit :=
  match err with Some e => leave (Returned (Some e)) | None => mret tt end.

Local Notation "x <- m ; k" := (bind m (fun x => k)) (at level 100, m at next level, right associativity).
Local Notation "m ;; k" := (bind m (fun _ => k)) (at level 100, right associativity).

Definition run_deferred (started : bool) (d : deferred) : list event :=
  match d with
  | defer_cancel => [Cancel]
  | defer_console => if started then [] else [CloseConsole]
  | defer_conn => [CloseConn]
  | defer_onBreak => [OffBreak]
  | defer_restore => [Restore]     (* and re-panics *)
  end.

Definition connect_Config (e : env) (o : options) : Config :=
  MkConfig (d_Host (o_dest o)) (d_User (o_dest o)) (o_terminalPath o) (e_getenv e (bs "TERM"))
    (o_sshOptions o) [].
(** The Dialer; the zero [ReplayLimit] is the default. *)
Definition connect_Dialer (o : options) : Dialer :=
  MkDialer (o_keepAlive o) (MkPacket HeaderKeepAlive []) 0.

Definition connect_body (e : env) (o : options) : M exit :=
  defer defer_cancel;;
  check (e_openConsole e);;
  emit OpenConsole;; defer defer_console;;
  emit (Bootstrapped (connect_Config e o));;
  creds <- (match e_bootstrap e (connect_Config e o) with
            | inl c => mret c
            | inr err => leave (Returned (Some err))
            end);
  emit Resolve;;
  let addr := JoinHostPort (e_resolveHost e (d_User (o_dest o)) (d_Host (o_dest o)) (o_sshOptions o))
                (Itoa (d_Port (o_dest o))) in
  check ((fun err => Errorf "connect to etserver at %s: %w" [err]) <$> e_dial e (connect_Dialer o) addr creds);;
  emit (Dialed (connect_Dialer o) addr creds);; defer defer_conn;;
  emit SessionStart;; check (e_Start e);;
  emit OnBreak;; defer defer_onBreak;;
  check (e_MakeRaw e);;
  emit Raw;; defer defer_restore;;
  start_run;; emit SessionRun;;
  match e_Run e with
  | RunReturned err => mret (Returned err)
  | RunPanicked => leave Repanicked
  end.

(** The body, then the deferred calls, the last deferred first. *)
Definition connect (e : env) (o : options) : exit * list event :=
  let '(r, f) := connect_body e o (MkFrame [] [] false) in
  (match r with inl x | inr x => x end,
   fr_trace f ++ concat (run_deferred (fr_runStarted f) <$> fr_defers f)).

(** ** run.go: the exit status *)

Definition exitCode (err : option gerr) : Z :=
  match err with
  | None => 0
  | Some err =>
      match AsExitError err with
      | Some code => if (code <? 0) || (code >? 255) then 255 else code
      | None => if errors_Is err ErrDetached then 0 else 255
      end
  end.

(** [runWith]; [None] is a panic leaving it. *)
Definition runWith (args : list bytes) (e : env)
    (logger : bool -> bytes -> option (path * log_level) + gerr) : option Z * list event :=
  match parseArgs args with
  | inr err => (Some (if errors_Is err flag_ErrHelp then 0 else 2), [])
  | inl o =>
      if o_version o then (Some 0, [])
      else match logger (o_verbose o) (o_logFile o) with
      | inr _ => (Some 255, [])
      | inl _ =>
          let '(x, trace) := connect e o in
          (match x with Returned err => Some (exitCode err) | Repanicked => None end, trace)
      end
  end.

(** ** What connect owns *)

(** The resources a trace holds, the last acquired first.  Each is released
    once, in the reverse order; ssh starts while only the console is open, in
    its own mode; the session runs with everything held and closes the
    console itself. *)
Inductive held := HConsole | HConn | HBreak | HRaw.
#[export] Instance held_eq_dec : EqDecision held.
Proof. solve_decision. Defined.

Fixpoint owns (trace : list event) (st : list held) : option (list held) :=
  match trace with
  | [] => Some st
  | e :: trace =>
      match e, st with
      | OpenConsole, [] => owns trace [HConsole]
      | Bootstrapped _, [HConsole] | Resolve, [HConsole] => owns trace st
      | Dialed _ _ _, [HConsole] => owns trace [HConn; HConsole]
      | SessionStart, [HConn; HConsole] => owns trace st
      | OnBreak, [HConn; HConsole] => owns trace (HBreak :: st)
      | Raw, [HBreak; HConn; HConsole] => owns trace (HRaw :: st)
      | SessionRun, [HRaw; HBreak; HConn; HConsole] => owns trace [HRaw; HBreak; HConn]
      | Restore, HRaw :: st | OffBreak, HBreak :: st
      | CloseConn, HConn :: st | CloseConsole, HConsole :: st => owns trace st
      | Cancel, [] => owns trace []
      | _, _ => None
      end
  end.

(** The result of a [connect] in which the session ran is the session's. *)
Definition session_exit (r : run_exit) : exit :=
  match r with RunReturned err => Returned err | RunPanicked => Repanicked end.

Lemma connect_owns (e : env) (o : options) :
  let '(x, trace) := connect e o in
  owns trace [] = Some [] /\
  (SessionRun ∈ trace -> x = session_exit (e_Run e)) /\
  (SessionRun ∈ trace \/ exists err, x = Returned (Some err)).
Proof.
  unfold connect, connect_body, bind, defer, emit, check, start_run, leave, mret.
  destruct (e_openConsole e); cbn; [split_and!; [done|set_solver|right; eauto]|].
  destruct (e_bootstrap e _) as [creds|]; cbn; [|split_and!; [done|set_solver|right; eauto]].
  destruct (e_dial e _ _ creds); cbn; [split_and!; [done|set_solver|right; eauto]|].
  destruct (e_Start e); cbn; [split_and!; [done|set_solver|right; eauto]|].
  destruct (e_MakeRaw e); cbn; [split_and!; [done|set_solver|right; eauto]|].
  destruct (e_Run e); cbn; (split_and!; [done|done|left; set_solver]).
Qed.

Lemma connect_dials (e : env) (o : options) d addr creds :
  Dialed d addr creds ∈ (connect e o).2 ->
  d = connect_Dialer o /\ e_bootstrap e (connect_Config e o) = inl creds /\
  addr = JoinHostPort (e_resolveHost e (d_User (o_dest o)) (d_Host (o_dest o)) (o_sshOptions o))
           (Itoa (d_Port (o_dest o))).
Proof.
  unfold connect, connect_body, bind, defer, emit, check, start_run, leave, mret.
  destruct (e_openConsole e); cbn; [set_solver|].
  destruct (e_bootstrap e _) as [c|]; cbn; [|set_solver].
  destruct (e_dial e _ _ c); cbn; [set_solver|].
  destruct (e_Start e); cbn; [set_solver|].
  destruct (e_MakeRaw e); cbn; [set_solver|].
  destruct (e_Run e); cbn; set_solver.
Qed.

(** A session that ran was dialed with the credentials of the bootstrap, and
    started. *)
Lemma connect_session (e : env) (o : options) :
  SessionRun ∈ (connect e o).2 ->
  exists creds addr, e_bootstrap e (connect_Config e o) = inl creds /\
    Dialed (connect_Dialer o) addr creds ∈ (connect e o).2 /\
    e_dial e (connect_Dialer o) addr creds = None /\
    e_openConsole e = None /\ e_Start e = None /\ e_MakeRaw e = None.
Proof.
  unfold connect, connect_body, bind, defer, emit, check, start_run, leave, mret.
  destruct (e_openConsole e) eqn:Hop; cbn; [set_solver|].
  destruct (e_bootstrap e _) as [c|] eqn:Hb; cbn; [|set_solver].
  destruct (e_dial e _ _ c) eqn:Hd; cbn; [set_solver|].
  destruct (e_Start e) eqn:Hst; cbn; [set_solver|].
  destruct (e_MakeRaw e) eqn:Hr; cbn; [set_solver|].
  destruct (e_Run e); cbn; intros _; eexists _, _; split_and!; try done; set_solver.
Qed.

Lemma exitCode_range err : 0 <= exitCode err <= 255.
Proof.
  unfold exitCode. destruct err as [err|]; [|lia]. destruct (AsExitError err) as [c|].
  - destruct (Z.ltb_spec c 0), (Z.gtb_spec c 255); cbn; lia.
  - destruct (errors_Is err ErrDetached); lia.
Qed.

(** The passkey of started credentials is one [Dial] takes. *)
Lemma Run_passkey re cfg c w : Run re cfg = Started c w -> zlen (Passkey c) = 32.
Proof.
  unfold Run. destruct (validate _); [done|]. destruct (if beq _ _ then _ else _); [|done].
  destruct (placeholder _) as [[id pk]|]; [|done]. destruct (re_ssh re _ _) as [writes err].
  unfold Run_finished. set (out := foldl _ _ _).
  destruct (parseCredentials (cb_buf out)) as [c'|] eqn:Hp.
  - destruct (re_ctx re) as [[]|]; [by case_match|]. intros [= -> _].
    apply parseCredentials_view in Hp as (id' & pk' & -> & b & a & _ & _ & _ & H & _). exact H.
  - destruct (re_ctx re) as [[]|]; [by case_match|].
    destruct err as [[x|e0]|]; by repeat case_match.
Qed.

Lemma runWith_owned (args : list bytes) (e : env)
    (logger : bool -> bytes -> option (path * log_level) + gerr) :
  let '(status, trace) := runWith args e logger in
  owns trace [] = Some [] /\
  match status with
  | Some n => 0 <= n <= 255 /\
      (SessionRun ∈ trace -> exists err, e_Run e = RunReturned err /\ n = exitCode err)
  | None => SessionRun ∈ trace /\ e_Run e = RunPanicked
  end.
Proof.
  unfold runWith. destruct (parseArgs args) as [o|err].
  - destruct (o_version o); [split_and!; first [done|lia|set_solver]|].
    destruct (logger _ _); [|split_and!; first [done|lia|set_solver]].
    pose proof (connect_owns e o) as H. destruct (connect e o) as [x trace].
    destruct H as (Ho & Hran & Hnot). split; [done|]. destruct x as [err|].
    + split; [apply exitCode_range|]. intros Hr. specialize (Hran Hr).
      destruct (e_Run e); [|done]. injection Hran as ->. eauto.
    + destruct Hnot as [Hr|[err Hr]]; [|done]. split; [done|]. specialize (Hran Hr). by destruct (e_Run e).
  - destruct (errors_Is err flag_ErrHelp); (split_and!; first [done|lia|set_solver]).
Qed.

(** [C34] [runWith] on any command line and with any environment: what it acquires
    it releases once and in reverse order, the terminal's mode before the
    connection and the console, on errors and on a panic of the session as
    well; the exit status is that of [exitCode] for the session's result and
    fits a byte; and only a panic of the session leaves without one. *)
Theorem runWith_releases (args : list bytes) (e : env)
    (logger : bool -> bytes -> option (path * log_level) + gerr) :
  let '(status, trace) := runWith args e logger in
  owns trace [] = Some [] /\
  match status with
  | Some n => 0 <= n <= 255 /\
      (SessionRun ∈ trace -> exists err, e_Run e = RunReturned err /\ n = exitCode err)
  | None => SessionRun ∈ trace /\ e_Run e = RunPanicked
  end.
Proof. exact (runWith_owned args e logger). Qed.

Lemma dials_accepted (args : list bytes) (o : options) (e : env) (d : Dialer) (addr : bytes)
    (creds : Credentials)
    (Hargs : parseArgs args = inl o) (Hsession : o_version o = false)
    (Hboot : forall cfg c, e_bootstrap e cfg = inl c -> exists re w, Run re cfg = Started c w)
    (Hdial : Dialed d addr creds ∈ (connect e o).2) :
  Dial_refused d (Passkey creds) = None /\
  (exists host, addr = JoinHostPort host (Itoa (d_Port (o_dest o)))) /\
  1 <= d_Port (o_dest o) <= 65535.
Proof.
  pose proof (parseArgs_view args) as H. rewrite Hargs in H.
  destruct H as [H|(v & s & dst & _ & _ & Hv)]; [congruence|].
  apply connect_dials in Hdial as (-> & Hb & ->). apply Hboot in Hb as (re & w & Hb).
  apply Run_passkey in Hb. destruct Hv as [_ Hport _ _ _ _ _ Hk].
  split; [|split; [eauto|exact Hport]].
  unfold Dial_refused, connect_Dialer. rewrite Hb. cbn [d_KeepAlive d_Probe d_ReplayLimit p_Payload].
  unfold second, minKeepAlive in *. change (zlen [] >? maxPayload) with false. cbn [negb Z.eqb].
  destruct (Z.ltb_spec (o_keepAlive o) 0); [lia|]. destruct (Z.gtb_spec (o_keepAlive o) 0); [|lia].
  destruct (Z.ltb_spec (o_keepAlive o) (100 * 1000000)); [lia|]. done.
Qed.

(** Every dial the client makes is one [Dial] does not refuse: the command
    line's keepalive is in its range, the probe fits, and the passkey
    [bootstrap.Run] returned has the key's length; the address has the port
    of the command line. *)
Theorem client_dials_accepted (args : list bytes) (o : options) (e : env) (d : Dialer) (addr : bytes)
    (creds : Credentials)
    (Hargs : parseArgs args = inl o) (Hsession : o_version o = false)
    (Hboot : forall cfg c, e_bootstrap e cfg = inl c -> exists re w, Run re cfg = Started c w)
    (Hdial : Dialed d addr creds ∈ (connect e o).2) :
  Dial_refused d (Passkey creds) = None /\
  (exists host, addr = JoinHostPort host (Itoa (d_Port (o_dest o)))) /\
  1 <= d_Port (o_dest o) <= 65535.
Proof. exact (dials_accepted args o e d addr creds Hargs Hsession Hboot Hdial). Qed.

(** ** Examples and the witness *)

Definition example_args : list bytes := bs <$> ["-k"; "3"; "alice@box:2023"]%string.
Definition example_options : options :=
  MkOptions (MkDest (bs "alice") (bs "box") 2023) [] [] (3 * second) false [] false.

(** The client with [bootstrap.Run] and a session that ends with status 300. *)
Definition example_client (session : run_exit) : env :=
  MkEnv (fun cfg => match Run (Bootstrap.example_env announced None) cfg with
                    | Started c _ => inl c
                    | Failed err _ => inr err
                    | RunPanics => inr (Foreign 0)
                    end)
    (resolveHost (fun _ => (bs "user alice" ++ "010"%byte :: bs "hostname ::1" ++ ["010"%byte], None)))
    (fun _ _ _ => None) None (fun _ => []) None None session.

Example runWith_session :
  (runWith example_args (example_client (RunReturned (Some (ExitError 300)))) (fun _ _ => inl None)).1 = Some 255.
Proof. vm_compute. reflexivity. Qed.
Example runWith_usage :
  runWith (bs <$> ["--port=2022"]%string) (example_client RunPanicked) (fun _ _ => inl None) = (Some 2, []).
Proof. vm_compute. reflexivity. Qed.

Lemma client_dials_accepted_witness :
  Dial_refused (connect_Dialer example_options) (bs "0123456789abcdef0123456789abcdef") = None /\
  exists host, bs "[::1]:2023" = JoinHostPort host (Itoa 2023).
Proof.
  destruct (client_dials_accepted example_args example_options (example_client (RunReturned None))
    (connect_Dialer example_options) (bs "[::1]:2023")
    (NewCredentials (bs "0123456789abcdef") (bs "0123456789abcdef0123456789abcdef")))
    as (H1 & H2 & _).
  - vm_compute. reflexivity.
  - reflexivity.
  - intros cfg c. cbn [example_client e_bootstrap]. intros H.
    exists (Bootstrap.example_env announced None). destruct (Run _ cfg) as [c' w| |]; [|discriminate H|discriminate H].
    injection H as ->. exists w. reflexivity.
  - vm_compute. do 3 right. left.
  - split; [exact H1|exact H2].
Defined.
