(* ===== verification/Client.v ===== *)
(** * cmd/et as a whole: the environment of [run]

    [defaultEnv] wires [connect] to bootstrap.Run, resolveHost and
    Dialer.Dial.  The kernel, ssh and the network stay arguments; how the
    session went is [session], which [Shell] is about. *)

From S2P Require Import Cmd.
Local Open Scope Z_scope.

Section Client.
Context `{HB : SecretBox} `{PSeq : ProtoMessage SequenceHeader} `{PCat : ProtoMessage CatchupBuffer}
  `{PReq : ProtoMessage ConnectRequest} `{PResp : ProtoMessage ConnectResponse}.

(** A panic would leave [run]; neither call has one ([client_session]). *)
Definition bootstrap_result (re : run_env) (cfg : Config) : Credentials + gerr :=
  match Bootstrap.Run re cfg with
  | Started c _ => inl c
  | Failed e _ => inr e
  | RunPanics => inr (Foreign 0)
  end.

(** [net] is what dialing an address meets. *)
Definition dial_result (net : bytes -> Conn -> connect_env) (d : Dialer) (addr : bytes) (creds : Credentials)
  : option gerr :=
  match Dial d (ID creds) (Passkey creds) (net addr) with
  | Ok _ => None
  | Err e => Some e
  | Panic | OutOfFuel => Some (Foreign 0)
  end.

Definition defaultEnv (re : run_env) (ssh : list bytes -> bytes * option gerr)
    (net : bytes -> Conn -> connect_env) (getenv : bytes -> bytes)
    (console_Open session_Start console_MakeRaw : option gerr) (session : run_exit) : env :=
  MkEnv (bootstrap_result re) (resolveHost ssh) (dial_result net) console_Open getenv
    session_Start console_MakeRaw session.

(** [run]; [logger] is the choice of the log. *)
Definition run (args : list bytes) (re : run_env) (ssh : list bytes -> bytes * option gerr)
    (net : bytes -> Conn -> connect_env) (getenv : bytes -> bytes)
    (console_Open session_Start console_MakeRaw : option gerr) (session : run_exit)
    (logger : bool -> bytes -> option (path * log_level) + gerr) : option Z * list event :=
  runWith args (defaultEnv re ssh net getenv console_Open session_Start console_MakeRaw session) logger.

(** [C40] A session of the client runs only on a connection that [Dial] made with the
    credentials the bootstrap obtained for the destination of the command
    line, at a port of the command line's range; [Dial] refused nothing, its
    probe is a keepalive and its Conn is the one [newConn] makes, so the
    session is one that [Shell] is about.  The process exits with the status
    of that session's result, and without one only if the session panics. *)
Theorem client_session args re ssh net getenv console_Open session_Start console_MakeRaw session logger :
  SessionRun ∈ (run args re ssh net getenv console_Open session_Start console_MakeRaw session logger).2 ->
  exists o creds warned host conn catchup,
    parseArgs args = inl o /\
    Bootstrap.Run re (connect_Config (defaultEnv re ssh net getenv console_Open session_Start console_MakeRaw session) o)
      = Started creds warned /\
    1 <= d_Port (o_dest o) <= 65535 /\
    Dial (connect_Dialer o) (ID creds) (Passkey creds) (net (JoinHostPort host (Itoa (d_Port (o_dest o)))))
      = Ok (conn, catchup) /\
    Dial_refused (connect_Dialer o) (Passkey creds) = None /\
    is_Some (match newConn (connect_Dialer o) (ID creds) (Passkey creds) with Ok c => Some c | _ => None end) /\
    p_Header (d_Probe (connect_Dialer o)) = HeaderKeepAlive /\
    console_Open = None /\ session_Start = None /\ console_MakeRaw = None /\
    (run args re ssh net getenv console_Open session_Start console_MakeRaw session logger).1 =
      match session with RunReturned err => Some (exitCode err) | RunPanicked => None end.
Proof.
  set (e := defaultEnv re ssh net getenv console_Open session_Start console_MakeRaw session).
  unfold run, runWith. fold e. destruct (parseArgs args) as [o|err] eqn:Hargs; [|cbn; set_solver].
  destruct (o_version o) eqn:Hv; [cbn; set_solver|]. destruct (logger _ _); [|cbn; set_solver].
  pose proof (connect_session e o) as Hs. pose proof (connect_owns e o) as Ho.
  destruct (connect e o) as [x trace] eqn:Hc. cbn [fst snd] in *. intros Hrun.
  destruct (Hs Hrun) as (creds & addr & Hb & Hd & Hdial & H1 & H2 & H3). destruct Ho as (_ & Hx & _).
  specialize (Hx Hrun). cbn in Hb, Hdial, H1, H2, H3.
  assert (exists w, Bootstrap.Run re (connect_Config e o) = Started creds w) as [w Hstart].
  { unfold bootstrap_result in Hb. destruct (Bootstrap.Run re _) as [c w| |] eqn:Hr; try done.
    injection Hb as ->. by exists w. }
  assert (forall cfg c, e_bootstrap e cfg = inl c -> exists re w, Bootstrap.Run re cfg = Started c w) as Hboot.
  { cbn. intros cfg c. unfold bootstrap_result. destruct (Bootstrap.Run re cfg) as [c' w'| |] eqn:Hr; intros; try done.
    simplify_eq. by exists re, w'. }
  assert (Dialed (connect_Dialer o) addr creds ∈ (connect e o).2) as Hin by by rewrite Hc.
  destruct (dials_accepted args o e _ _ _ Hargs Hv Hboot Hin) as (Href & [host Haddr] & Hport).
  unfold dial_result in Hdial. rewrite Haddr in Hdial.
  destruct (Dial _ _ _ _) as [[conn catchup]| | |] eqn:Hok; try done.
  destruct (newConn_ok _ (ID creds) _ Href) as (c0 & Hnew & _).
  exists o, creds, w, host, conn, catchup. rewrite Hnew. split_and!; try done; [apply Hport|apply Hport|].
  rewrite Hx. by destruct session.
Qed.
End Client.

(** ** A run on concrete values *)

From S2P Require Import Codecs.

Section Example.
Local Open Scope Z_scope.
#[local] Existing Instances toy_box seq_codec catchup_codec req_codec resp_codec.

Lemma client_session_witness : exists o conn catchup,
  parseArgs example_args = inl o /\
  Dial (connect_Dialer o) (bs "0123456789abcdef") (bs "0123456789abcdef0123456789abcdef")
    (fun c => Dialer.example_env NEW_CLIENT c) = Ok (conn, catchup) /\
  (run example_args (Bootstrap.example_env announced None)
     (fun _ => (bs "hostname ::1", None)) (fun _ c => Dialer.example_env NEW_CLIENT c) (fun _ => []) None None None
     (RunReturned (Some (ExitError 3))) (fun _ _ => inl None)).1 = Some 3.
Proof.
  destruct (client_session example_args (Bootstrap.example_env announced None)
     (fun _ => (bs "hostname ::1", None)) (fun _ c => Dialer.example_env NEW_CLIENT c) (fun _ => []) None None None
     (RunReturned (Some (ExitError 3))) (fun _ _ => inl None))
    as (o & creds & w & host & conn & catchup & Ho & Hb & _ & Hd & _ & _ & _ & _ & _ & _ & Hs).
  - vm_compute. do 7 right. left.
  - exists o, conn, catchup. split; [exact Ho|]. split; [|exact Hs].
    vm_compute in Ho. injection Ho as <-. vm_compute in Hb. injection Hb as <- _. exact Hd.
Defined.
End Example.
