(* ===== verification/Shell.v ===== *)
(** * The client end to end: keyboard to server, server to screen

    The session of [Session] over the connection of [EndToEnd]: one
    transition system whose state is the network with client Conn and server,
    the terminal's goroutines, the router, the terminal's output loop and
    [Run], which share one context.  A packet the terminal or [Start] writes
    is one WritePacket of the Conn; a packet the router dispatches is the
    next one ReadPacket returned, [Start] having taken the first.  The
    theorems are about the two ends: what is typed against what the server
    receives, and what the server sends against the screen and the exit
    status. *)

From S2P Require Import Delivery Terminal Router Session Cmd.
Local Open Scope Z_scope.

(** The session's one service and what [newRouter] makes of it. *)
Definition terminal_headers : list (list Header) := [[HeaderTerminalBuffer]].
Definition terminal_routes : list (Header * nat) := [(HeaderTerminalBuffer, 0%nat)].

(** Start not begun, waiting for INITIAL_RESPONSE after its packet, Run, or a
    Start that failed. *)
Inductive stage := StBegin | StWait (p : Packet) | StRun | StFailed (err : gerr).

(** The output goroutine: what it gave the terminal's Write, and how it ended. *)
Record screen := MkScreen { sc_written : list bytes; sc_done : option (option gerr) }.

Record shell := MkShell {
  h_net : sys;
  h_stage : stage;
  h_term : term;
  h_router : router;
  h_screen : screen;
  h_run : run
}.

Definition with_net (y : sys) (h : shell) : shell :=
  MkShell y (h_stage h) (h_term h) (h_router h) (h_screen h) (h_run h).
Definition with_stage (st : stage) (h : shell) : shell :=
  MkShell (h_net h) st (h_term h) (h_router h) (h_screen h) (h_run h).
Definition with_term (t : term) (h : shell) : shell :=
  MkShell (h_net h) (h_stage h) t (h_router h) (h_screen h) (h_run h).
Definition with_router (r : router) (h : shell) : shell :=
  MkShell (h_net h) (h_stage h) (h_term h) r (h_screen h) (h_run h).
Definition with_screen (o : screen) (h : shell) : shell :=
  MkShell (h_net h) (h_stage h) (h_term h) (h_router h) o (h_run h).

(** The context of the terminal and of the router is Run's. *)
Definition term_ctx (ctx : option gerr) (t : term) : term :=
  MkTerm ctx (t_esc t) (t_reads t) (t_reader t) (t_pending t) (t_size t) (t_sender t) (t_sent t)
    (t_infos t) (t_chunks t) (t_kept t) (t_sizes t) (t_drops t).
Definition router_ctx (ctx : option gerr) (r : router) : router :=
  MkRouter (r_routes r) (r_queues r) (r_closed r) (r_exit r) (r_phase r) ctx (r_read r).
Definition with_run (n : run) (h : shell) : shell :=
  MkShell (h_net h) (h_stage h) (term_ctx (n_ctx n) (h_term h)) (router_ctx (n_ctx n) (h_router h))
    (h_screen h) n.

(** Run's goroutines, in the order it starts them. *)
Definition g_router : nat := 0.
Definition g_output : nat := 1.
Definition g_send : nat := 2.
Definition g_resizes : nat := 3.

(** Goroutine [i] of the group has returned [err]. *)
Definition returned (i : nat) (err : option gerr) (h : shell) : Prop :=
  i = g_router /\ (exists e normal, r_phase (h_router h) = Router.Returned e normal /\ err = Some e) \/
  i = g_output /\ sc_done (h_screen h) = Some err \/
  i = g_send /\ t_sender (h_term h) = SDone err \/
  i = g_resizes /\ n_ctx (h_run h) <> None /\ err = None.

Section Shell.
Context `{HB : SecretBox} `{PTB : ProtoMessage TerminalBuffer} `{PTI : ProtoMessage TerminalInfo}.
Context `{PES : ProtoMessage TerminalExitStatus} `{PIP : ProtoMessage InitialPayload} `{PIR : ProtoMessage InitialResponse}.
(** GOOS is windows. *)
Variable closeMayStrandReader : bool.

(** WritePacket accepts [p]. *)
Definition accepted (p : Packet) (y y' : sys) : Prop :=
  zlen (p_Payload p) <= maxPayload /\
  exists c', WritePacket_attempt p (y_c y) = (c', Written) /\
    y' = set_client c' (y_taken y) (y_ps y ++ [p]) (y_ph y) y.

(** A step of the connection in which nobody writes: at most a probe is sealed. *)
Definition unwritten (y y' : sys) : Prop :=
  sys_step y y' /\ (y_ps y' = y_ps y \/ y_ps y' = y_ps y ++ [c_probe (y_c y)]).

(** A step of the terminal in which nothing is sent and the context stays. *)
Definition unsent (E : term_env) (t t' : term) : Prop :=
  term_step E t t' /\ t_sent t' = t_sent t /\ t_ctx t' = t_ctx t.

(** What may end the select of a WritePacket that is blocked on [c] now. *)
Definition ready_now (ctx : option gerr) (c : Conn) (w : wakeup) : Prop :=
  match w with
  | WokenBySpace _ => False
  | WokenByCtx now cause => now = c /\ ctx = Some cause
  | WokenByConn now => now = c /\ c_ctx c <> None
  end.

(** A call of WritePacket that passed its first checks returns [err] now. *)
Definition call_fails (c : Conn) (ctx : option gerr) (p : Packet) (err : gerr) : Prop :=
  exists ws c', Forall (ready_now ctx c) ws /\ WritePacket_loop p c ws = (c', Some (Some err)).

(** The terminal's environment in the session: its transport is the Conn. *)
Definition conn_env (reads : bytes -> option gerr -> Prop) (resizes : Console.Size -> Prop) (h : shell) : term_env :=
  TermEnv reads resizes WritePacket_enter (call_fails (y_c (h_net h))).

(** A step of the router between its reads, with no packet yielded. *)
Definition internal (r r' : router) : Prop :=
  router_step r r' /\ r_read r' = r_read r /\ r_ctx r' = r_ctx r /\
  q_got <$> r_queues r' = q_got <$> r_queues r /\ (r_phase r = Reading -> r_phase r' = Reading).

(** The queue of the terminal after it yielded its head. *)
Definition yielded (q : squeue) (p : Packet) (rest : list Packet) (more : bool) (r : router) : router :=
  with_queues (set_queue 0 (MkQueue rest (q_got q ++ [p]) (negb more) (negb more)) r) (r_phase r) r.

(** What surrounds the session: whether the connection's goroutines, the
    network and the server run, whether Run's parent context may end, and what
    the terminal's goroutines meet. *)
Record surroundings := MkSurroundings {
  su_net : Prop;
  su_parent : Prop;
  su_term : shell -> term_env
}.

Section Step.
Variable E : surroundings.

Inductive step_in : shell -> shell -> Prop :=
| sh_net h y :
    su_net E -> unwritten (h_net h) y -> step_in h (with_net y h)
(* Start *)
| sh_start_send h p y read :
    h_stage h = StBegin -> (Start (fun _ => None) read None).1.1 = Some p -> accepted p (h_net h) y ->
    step_in h (with_net y (with_stage (StWait p) h))
| sh_start_answer h p q rest err text :
    h_stage h = StWait p -> y_taken (h_net h) = q :: rest ->
    Start (fun _ => None) (inl q) None = (Some p, err, text) ->
    step_in h (with_stage (match err with None => StRun | Some e => StFailed e end) h)
| sh_start_fail h write e rctx p err text :
    (h_stage h = StBegin \/ exists p, h_stage h = StWait p) ->
    Start write (inr e) rctx = (p, Some err, text) -> step_in h (with_stage (StFailed err) h)
(* the terminal *)
| sh_term h t :
    h_stage h = StRun -> unsent (su_term E h) (h_term h) t -> step_in h (with_term t h)
| sh_send h t p y :
    h_stage h = StRun -> term_step (su_term E h) (h_term h) t -> t_sent t = t_sent (h_term h) ++ [p] ->
    accepted p (h_net h) y -> step_in h (with_net y (with_term t h))
(* the router *)
| sh_route h p :
    h_stage h = StRun -> r_phase (h_router h) = Reading ->
    y_taken (h_net h) !! S (length (r_read (h_router h))) = Some p ->
    step_in h (with_router (dispatch p (h_router h)) h)
| sh_route_fail h k c err :
    h_stage h = StRun -> r_phase (h_router h) = Reading ->
    y_taken (h_net h) !! S (length (r_read (h_router h))) = None ->
    ReadPacket (r_ctx (h_router h)) k (y_c (h_net h)) = Some (c, inr err) ->
    step_in h (with_router (read_failed err (h_router h)) h)
| sh_router h r :
    h_stage h = StRun -> internal (h_router h) r -> step_in h (with_router r h)
(* the body of output's loop *)
| sh_output h q p rest term_write out err :
    h_stage h = StRun -> r_queues (h_router h) !! 0%nat = Some q -> q_drained q = false ->
    q_ch q = p :: rest -> output (r_ctx (h_router h)) term_write [p] = (out, err) ->
    step_in h (with_screen (MkScreen (sc_written (h_screen h) ++ out) (Some <$> err))
      (with_router (yielded q p rest (bool_decide (err = None)) (h_router h)) h))
| sh_output_done h q :
    h_stage h = StRun -> r_queues (h_router h) !! 0%nat = Some q -> q_drained q = true ->
    sc_done (h_screen h) = None ->
    step_in h (with_screen (MkScreen (sc_written (h_screen h)) (Some None)) h)
(* Run *)
| sh_return h i err :
    h_stage h = StRun -> n_live (h_run h) !! i = Some true -> returned i err h ->
    step_in h (with_run (goroutine_returned err (<[i := false]> (n_live (h_run h))) (n_reader (h_run h)) (h_run h)) h)
| sh_reader_return h err :
    h_stage h = StRun -> n_reader (h_run h) = true -> t_reader (h_term h) = RDone err ->
    step_in h (with_run (goroutine_returned (Some err) (n_live (h_run h)) false (h_run h)) h)
| sh_run h n :
    h_stage h = StRun -> run_step closeMayStrandReader true (h_run h) n ->
    n_live n = n_live (h_run h) -> n_reader n = n_reader (h_run h) ->
    su_parent E \/ n_errs n = n_errs (h_run h) ->
    step_in h (with_run n h).
End Step.

(** Anything may happen: the keyboard, the window and the network do what they
    want, and Read may fail at any time. *)
Definition live : surroundings :=
  MkSurroundings True True (conn_env (fun _ _ => True) (fun _ => True)).
Definition shell_step : shell -> shell -> Prop := step_in live.


(** [Start] about to begin on a connection that was just dialed. *)
Definition shell_start (c : Conn) (s : Server) (size : Console.Size + gerr) : shell :=
  MkShell (sys_start c s) StBegin (term_start size) (router_start terminal_routes 1)
    (MkScreen [] None) (run_start true 4).

(** Every run of a session from the start. *)
Definition shell_run (d : Dialer) (id passkey sid : bytes) (c : Conn) (s : Server) (size : Console.Size + gerr)
  (h : shell) : Prop :=
  Dial_refused d passkey = None /\ newConn d id passkey = Ok c /\ NewServer sid passkey = Ok s /\
  p_Header (d_Probe d) = HeaderKeepAlive /\ rtc shell_step (shell_start c s size) h /\
  zlen (y_ps (h_net h)) < 2 ^ 184 /\ zlen (y_qs (h_net h)) + 1 < 2 ^ 184.

(** ** What a step of the connection keeps *)

Lemma handOver_taken p s s' o :
  handOver p s = (s', o) -> rs_taken s `prefix_of` rs_taken s' /\ c_probe (rs_conn s') = c_probe (rs_conn s).
Proof.
  unfold handOver, handOver_select, Link.seq, set_delivering, on_link, callers_take, stop, on_conn.
  destruct s as [c l taken evs]. cbn. destruct evs as [|[n|n e] evs]; cbn.
  - by intros [= <- <-].
  - case_decide; intros [= <- <-]; cbn; split; done || by apply prefix_app_r.
  - intros [= <- <-]; cbn; split; done || by apply prefix_app_r.
Qed.

Lemma deliver_taken b s s' o :
  deliver b s = (s', o) -> rs_taken s `prefix_of` rs_taken s'.
Proof.
  unfold deliver, Link.seq. destruct (deliver_open b s) as [s1 o1] eqn:Ho.
  apply deliver_open_cases in Ho as (_ & Ht & _ & Ho). rewrite <- Ht.
  destruct o1 as [p|e|]; [|by intros [= <- <-]|done].
  destruct (handOver p s1) as [s2 o2] eqn:Hh. apply handOver_taken in Hh as [Hp _].
  by destruct o2; intros [= <- <-].
Qed.

(** The probe packet is fixed, and what ReadPacket returned only grows. *)
Definition kept (y y' : sys) : Prop :=
  y_taken y `prefix_of` y_taken y' /\ c_probe (y_c y') = c_probe (y_c y).

Lemma recover_commit_probe snap n c c' : recover_commit snap n c = Some c' -> c_probe c' = c_probe c.
Proof.
  unfold recover_commit. destruct (bytesBetween _ _ _); cbn [mbind option_bind]; [|done].
  case_match. case_match; by intros [= <-].
Qed.

Lemma writeLoop_commit_probe a b c : c_probe (writeLoop_commit a b c) = c_probe c.
Proof. unfold writeLoop_commit. case_match. by case_match. Qed.

Lemma ReadPacket_probe ctx k c c' r : ReadPacket ctx k c = Some (c', r) -> c_probe c' = c_probe c.
Proof.
  unfold ReadPacket. intros H. repeat case_match; simplify_option_eq; done.
Qed.

Lemma sys_step_kept y y' : sys_step y y' -> kept y y'.
Proof.
  unfold kept. intros [Hs|[Hs|Hs]]; destruct Hs; cbn; try done.
  - split; [done|]. by eapply WritePacket_attempt_Written.
  - split; [done|]. unfold probeOnce. by case_match.
  - split; [by apply prefix_app_r|]. by eapply ReadPacket_probe.
  - split; [done|]. by eapply recover_commit_probe.
  - match goal with H : handOver _ _ = _ |- _ => apply handOver_taken in H end. done.
  - match goal with H : deliver _ _ = _ |- _ => pose proof (deliver_probe _ _ _ _ H); apply deliver_taken in H end. done.
  - match goal with H : deliver _ _ = _ |- _ => pose proof (deliver_probe _ _ _ _ H) as Hp; apply deliver_taken in H end.
    split; [done|]. rewrite Hp. cbn. destruct rel; [done|]. unfold releaseHold. by case_match.
  - match goal with H : frame_failed _ _ = _ |- _ => revert H end. unfold frame_failed, stop_fail, stop, fail, Conn.cancel.
    case_match; intros [= <- _]; cbn; [by destruct (c_ctx _)|done].
  - split; [done|]. apply writeLoop_commit_probe.
  - split; [done|]. unfold finished, Conn.cancel. by destruct (c_ctx _).
  - by destruct (y_cur y).
  - by destruct (y_cur y).
Qed.

(** ** What the parts' steps do to what the others see *)

(** The packets of the terminal, among all the client seals. *)
Definition terminal_packet (p : Packet) : bool :=
  bool_decide (p_Header p = HeaderTerminalBuffer) || bool_decide (p_Header p = HeaderTerminalInfo).
Definition terminal_packets (ps : list Packet) : list Packet := List.filter terminal_packet ps.
#[local] Arguments terminal_packets : simpl never.

Lemma terminal_packets_snoc ps p :
  terminal_packets (ps ++ [p]) = terminal_packets ps ++ (if terminal_packet p then [p] else []).
Proof. unfold terminal_packets. rewrite List.filter_app. cbn. done. Qed.

Lemma omap_terminal {B} (f : Packet -> option B) ps :
  (forall p, terminal_packet p = false -> f p = None) -> omap f (terminal_packets ps) = omap f ps.
Proof.
  intros Hf. unfold terminal_packets. induction ps as [|p ps IH]; [done|]. cbn.
  destruct (terminal_packet p) eqn:Hp; cbn; rewrite IH; [done|]. by rewrite Hf.
Qed.

Lemma input_terminal ps : omap decode_input (terminal_packets ps) = omap decode_input ps.
Proof.
  apply omap_terminal. intros p Hp. unfold decode_input. rewrite bool_decide_false; [done|].
  intros He. unfold terminal_packet in Hp. by rewrite He in Hp.
Qed.

Lemma info_terminal ps : omap decode_info (terminal_packets ps) = omap decode_info ps.
Proof.
  apply omap_terminal. intros p Hp. unfold decode_info. rewrite bool_decide_false; [done|].
  intros He. unfold terminal_packet in Hp. by rewrite He in Hp.
Qed.

Lemma keepalive_not_terminal p : p_Header p = HeaderKeepAlive -> terminal_packet p = false.
Proof. unfold terminal_packet. by intros ->. Qed.

Lemma Start_packet read p :
  (Start (fun _ => None) read None).1.1 = Some p -> terminal_packet p = false.
Proof.
  unfold Start. destruct (proto_Marshal _) as [b|]; [|done]. intros H.
  assert (p = MkPacket HeaderInitialPayload b) as -> by (repeat case_match; by injection H). done.
Qed.

Lemma Start_answer q p text :
  Start (fun _ => None) (inl q) None = (Some p, None, text) -> p_Header q = HeaderInitialResponse.
Proof.
  unfold Start. intros H. destruct (proto_Marshal _); [|done].
  destruct (bool_decide (p_Header q = HeaderInitialResponse)) eqn:Hq; [|done]. by apply bool_decide_eq_true in Hq.
Qed.

Lemma term_step_sent E t t' p :
  term_step E t t' -> t_sent t' = t_sent t ++ [p] -> terminal_packet p = true /\ t_ctx t' = t_ctx t.
Proof.
  assert (forall l : list Packet, l <> l ++ [p]) as Hne.
  { intros l Hl. apply (f_equal length) in Hl. rewrite length_app in Hl. cbn in Hl. lia. }
  destruct 1; cbn; intros He; try (by destruct (Hne _ He)).
  all: apply app_inj_tail in He as [_ <-]; done.
Qed.

(** A context that ends, or stays. *)
Definition ends (c c' : option gerr) : Prop := c' = c \/ c = None /\ is_Some c'.

Lemma run_step_ctx n n' : run_step closeMayStrandReader true n n' -> ends (n_ctx n) (n_ctx n').
Proof.
  unfold ends, goroutine_returned, cancel_cause. destruct 1; cbn; try (by left);
    try destruct err; destruct (n_ctx r); eauto.
Qed.

(** The terminal by itself, its transport the Conn's in any state. *)
Definition any_env : term_env := TermEnv (fun _ _ => True) (fun _ => True) WritePacket_enter (fun _ _ _ => True).

Lemma conn_env_any reads resizes h t t' : term_step (conn_env reads resizes h) t t' -> term_step any_env t t'.
Proof. by apply term_step_mono. Qed.

Lemma term_ctx_run t c : ends (t_ctx t) c -> rtc (term_step any_env) t (term_ctx c t).
Proof.
  intros [->|[Hn [e ->]]]; [by destruct t|]. apply rtc_once. by apply ts_cancel.
Qed.

Lemma router_ctx_run r c : ends (r_ctx r) c -> rtc router_step r (router_ctx c r).
Proof.
  intros [->|[Hn [e ->]]]; [by destruct r|]. apply rtc_once. by apply rs_cancel.
Qed.

Lemma dispatch_read p r :
  r_read (dispatch p r) = r_read r ++ [p] /\ r_queues (dispatch p r) = r_queues r /\
  r_ctx (dispatch p r) = r_ctx r.
Proof. unfold dispatch, ended. by repeat case_match. Qed.

Lemma read_failed_read e r :
  r_read (read_failed e r) = r_read r /\ r_queues (read_failed e r) = r_queues r /\
  r_ctx (read_failed e r) = r_ctx r.
Proof. unfold read_failed, ended. by repeat case_match. Qed.

(** What the router's own steps leave of the terminal's queue. *)
Lemma internal_queue r r' q :
  internal r r' -> r_queues r !! 0%nat = Some q ->
  exists q', r_queues r' !! 0%nat = Some q' /\ q_got q' = q_got q /\
    (q_cut q' = true -> q_cut q = true \/ r_ctx r <> None).
Proof.
  intros (Hs & _ & _ & Hg & _) Hq.
  assert (exists q', r_queues r' !! 0%nat = Some q' /\ q_got q' = q_got q) as (q' & Hq' & Hgot).
  { assert ((q_got <$> r_queues r') !! 0%nat = Some (q_got q)) as H by (rewrite Hg, list_lookup_fmap, Hq; done).
    rewrite list_lookup_fmap in H. destruct (r_queues r' !! 0%nat) as [q'|]; [|done].
    injection H as H. by exists q'. }
  exists q'. split_and!; try done. intros Hc.
  assert (forall i (q1 q2 : squeue), r_queues r !! i = Some q1 -> set_queue i q2 r !! 0%nat = Some q' ->
    q' = q2 /\ q = q1 \/ q' = q) as Hlk.
  { unfold set_queue. intros i q1 q2 H1 H2. destruct i as [|i].
    - rewrite list_lookup_insert_eq in H2 by by eapply lookup_lt_Some. left. split; congruence.
    - rewrite list_lookup_insert_ne in H2 by done. right. congruence. }
  destruct Hs; cbn in Hq', Hg; try (left; congruence).
  - left. unfold dispatch, ended in Hq'. repeat case_match; cbn in Hq'; congruence.
  - left. unfold read_failed, ended in Hq'. repeat case_match; cbn in Hq'; congruence.
  - destruct (Hlk _ _ _ H0 Hq') as [[-> ->]| ->]; by left.
  - destruct (Hlk _ _ _ H Hq') as [[-> ->]| ->]; [|by left]. cbn in Hgot.
    apply (f_equal length) in Hgot. rewrite length_app in Hgot. cbn in Hgot. lia.
  - destruct (Hlk _ _ _ H Hq') as [[-> ->]| ->]; by left.
  - right. done.
Qed.

Lemma prefix_next {A} (l : list A) k (x : A) : l `prefix_of` k -> k !! length l = Some x -> l ++ [x] `prefix_of` k.
Proof.
  intros [t ->] H. rewrite lookup_app_r, Nat.sub_diag in H by done. destruct t as [|y t]; [done|].
  injection H as ->. exists t. by rewrite <- app_assoc.
Qed.

Lemma output_one ctx tw p out err :
  output ctx tw [p] = (out, err) -> p_Header p = HeaderTerminalBuffer -> out = omap decode_input [p].
Proof.
  intros H Hp. cbn in H |- *. unfold decode_input. rewrite bool_decide_true by done.
  destruct (proto_Unmarshal _); [|by injection H as <- <-]. by destruct (tw _); injection H as <- <-.
Qed.

(** ** The invariant *)

Section Invariant.
Variables (c0 : Conn) (s0 : Server) (size : Console.Size + gerr).
Hypothesis probe_keepalive : p_Header (c_probe c0) = HeaderKeepAlive.

(** What [Start] and the router have read of what ReadPacket returned. *)
Definition stage_ok (st : stage) (taken heard : list Packet) : Prop :=
  match st with
  | StRun => exists q rest, taken = q :: rest /\ p_Header q = HeaderInitialResponse /\ heard `prefix_of` rest
  | _ => heard = []
  end.

(** Every part is in a state of its own runs; they share Run's context; what
    the connection sealed of the terminal's packets is what the terminal
    sent; the screen has what the output loop was yielded. *)
Record shell_inv (h : shell) : Prop := {
  si_net : rtc sys_step (sys_start c0 s0) (h_net h);
  si_term : rtc (term_step any_env) (term_start size) (h_term h);
  si_router : rtc router_step (router_start terminal_routes 1) (h_router h);
  si_run : rtc (run_step closeMayStrandReader true) (run_start true 4) (h_run h);
  si_probe : c_probe (y_c (h_net h)) = c_probe c0;
  si_ctx : t_ctx (h_term h) = n_ctx (h_run h) /\ r_ctx (h_router h) = n_ctx (h_run h);
  si_sent : terminal_packets (y_ps (h_net h)) = t_sent (h_term h);
  si_stage : stage_ok (h_stage h) (y_taken (h_net h)) (r_read (h_router h));
  si_screen : exists q, r_queues (h_router h) !! 0%nat = Some q /\
    sc_written (h_screen h) = omap decode_input (q_got q) /\
    (q_cut q = true -> n_ctx (h_run h) <> None \/ exists e, sc_done (h_screen h) = Some (Some e))
}.

Lemma shell_start_inv : shell_inv (shell_start c0 s0 size).
Proof. split; try done. by exists new_queue. Qed.

Lemma stage_ok_grow st taken taken' heard :
  taken `prefix_of` taken' -> stage_ok st taken heard -> stage_ok st taken' heard.
Proof.
  intros [t ->]. destruct st; cbn; try done. intros (q & rest & -> & Hq & Hh).
  exists q, (rest ++ t). split_and!; try done. by apply prefix_app_r.
Qed.

Lemma accepted_step p y y' :
  accepted p y y' -> sys_step y y' /\ y_ps y' = y_ps y ++ [p].
Proof. intros (Hp & c' & Hw & ->). split; [|done]. left. by apply cs_write. Qed.

(** The connection moves, sealing what the terminal sends. *)
Lemma net_inv h y ps st t :
  shell_inv h -> sys_step (h_net h) y -> y_ps y = y_ps (h_net h) ++ ps ->
  rtc (term_step any_env) (h_term h) t -> t_ctx t = t_ctx (h_term h) ->
  t_sent t = t_sent (h_term h) ++ terminal_packets ps ->
  stage_ok st (y_taken (h_net h)) (r_read (h_router h)) ->
  shell_inv (with_net y (with_term t (with_stage st h))).
Proof.
  intros [] Hs Hps Ht Hc Hsent Hst. destruct (sys_step_kept _ _ Hs) as [Htk Hpr].
  split; cbn; try done.
  - by eapply rtc_r.
  - by etransitivity.
  - by rewrite Hpr.
  - by rewrite Hc.
  - rewrite Hps, Hsent, <- si_sent0. unfold terminal_packets. by rewrite List.filter_app.
  - by eapply stage_ok_grow.
Qed.

(** The router or the screen moves. *)
Lemma router_inv_step h r o :
  shell_inv h -> rtc router_step (h_router h) r -> r_ctx r = r_ctx (h_router h) ->
  stage_ok (h_stage h) (y_taken (h_net h)) (r_read r) ->
  (exists q, r_queues r !! 0%nat = Some q /\ sc_written o = omap decode_input (q_got q) /\
    (q_cut q = true -> n_ctx (h_run h) <> None \/ exists e, sc_done o = Some (Some e))) ->
  shell_inv (with_screen o (with_router r h)).
Proof.
  intros [] Hr Hc Hst Hq. split; cbn; try done; [by etransitivity|]. by rewrite Hc.
Qed.

(** Run moves, its context with it. *)
Lemma run_inv_step h n :
  shell_inv h -> run_step closeMayStrandReader true (h_run h) n -> shell_inv (with_run n h).
Proof.
  intros [] Hn. pose proof (run_step_ctx _ _ Hn) as Hc. destruct si_ctx0 as [Hct Hcr]. split; cbn; try done.
  - etransitivity; [done|]. apply term_ctx_run. by rewrite Hct.
  - etransitivity; [done|]. apply router_ctx_run. by rewrite Hcr.
  - by eapply rtc_r.
  - destruct si_screen0 as (q & Hq & Hw & Hcut). exists q. split_and!; try done.
    intros Hx. destruct (Hcut Hx) as [?|?]; [left|by right]. destruct Hc as [->|[? _]]; done.
Qed.

(** What the terminal's queue holds is the terminal's. *)
Lemma queue_header h q p :
  shell_inv h -> r_queues (h_router h) !! 0%nat = Some q -> p ∈ q_ch q -> p_Header p = HeaderTerminalBuffer.
Proof.
  intros [] Hq Hp.
  destruct (router_run_inv _ _ _ (router_start_inv terminal_headers terminal_routes eq_refl) si_router0) as [Hri Hrt].
  destruct (ri_queue _ _ Hri _ _ Hq) as (lost & Hk & _).
  assert (p ∈ routed (r_routes (h_router h)) 0 (r_read (h_router h))) as Hin by (rewrite <- Hk; set_solver).
  apply list_elem_of_In, filter_In in Hin as [_ Hl]. apply bool_decide_eq_true in Hl. rewrite Hrt in Hl.
  cbn in Hl. by case_bool_decide.
Qed.

Lemma output_inv h q p rest tw out err :
  shell_inv h -> h_stage h = StRun -> r_queues (h_router h) !! 0%nat = Some q -> q_drained q = false ->
  q_ch q = p :: rest -> output (r_ctx (h_router h)) tw [p] = (out, err) ->
  shell_inv (with_screen (MkScreen (sc_written (h_screen h) ++ out) (Some <$> err))
      (with_router (yielded q p rest (bool_decide (err = None)) (h_router h)) h)).
Proof.
  intros Hi Hst Hq Hd Hch Ho. pose proof (queue_header h q p Hi Hq ltac:(rewrite Hch; set_solver)) as Hp.
  destruct (si_screen h Hi) as (q' & Hq' & Hw & Hcut). rewrite Hq in Hq'. injection Hq' as <-.
  apply router_inv_step; try done.
  - apply rtc_once. by eapply rs_yield.
  - apply (si_stage h Hi).
  - eexists. split; [by apply list_lookup_insert_eq; eapply lookup_lt_Some|].
    cbn [sc_written sc_done q_got q_cut]. split.
    + by rewrite omap_app, Hw, (output_one _ _ _ _ _ Ho Hp).
    + destruct err as [e|]; cbn; [right; by exists e|done].
Qed.

Lemma shell_step_inv h h' : shell_inv h -> shell_step h h' -> shell_inv h'.
Proof.
  intros Hi Hs. pose proof Hi as []. destruct Hs.
  - destruct H0 as [Hs Hps]. assert (exists ps, y_ps y = y_ps (h_net h) ++ ps /\ terminal_packets ps = []) as (ps & Hy & Ht).
    { destruct Hps as [->| ->]; [exists []; by rewrite app_nil_r|]. eexists. split; [done|].
      unfold terminal_packets. cbn. by rewrite si_probe0, (keepalive_not_terminal _ probe_keepalive). }
    replace (with_net y h) with (with_net y (with_term (h_term h) (with_stage (h_stage h) h))) by by destruct h.
    apply net_inv with ps; try done. by rewrite Ht, app_nil_r.
  - apply accepted_step in H1 as [Hs Hy]. apply Start_packet in H0.
    replace (with_stage _ h) with (with_term (h_term h) (with_stage (StWait p) h)) by by destruct h.
    apply net_inv with [p]; try done.
    + unfold terminal_packets. cbn. by rewrite H0, app_nil_r.
    + by rewrite H in si_stage0.
  - split; try done. rewrite H in si_stage0. cbn in si_stage0. destruct err as [e|]; cbn; [done|].
    apply Start_answer in H1. exists q, rest. rewrite si_stage0. split_and!; try done. apply prefix_nil.
  - split; try done. cbn. by destruct H as [H|[p0 H]]; rewrite H in si_stage0.
  - destruct H0 as (Ht & Hsent & Hc). apply conn_env_any in Ht.
    split; cbn; try done; [by eapply rtc_r|by rewrite Hc|by rewrite Hsent].
  - apply accepted_step in H2 as [Hs Hy]. destruct (term_step_sent _ _ _ _ H0 H1) as [Hk Hc]. apply conn_env_any in H0.
    replace (with_term t h) with (with_term t (with_stage (h_stage h) h)) by by destruct h.
    apply net_inv with [p]; try done; [by apply rtc_once|]. rewrite H1. unfold terminal_packets. cbn. by rewrite Hk.
  - replace (with_router _ h) with (with_screen (h_screen h) (with_router (dispatch p (h_router h)) h)) by by destruct h.
    destruct (dispatch_read p (h_router h)) as (Hr & Hq & Hc).
    apply router_inv_step; try done; [by apply rtc_once, rs_packet| |by rewrite Hq].
    rewrite H in *. destruct si_stage0 as (q & rest & Htk & Hh & Hpre). exists q, rest. split_and!; try done.
    rewrite Hr. apply prefix_next; [done|]. by rewrite Htk in H1.
  - replace (with_router _ h) with (with_screen (h_screen h) (with_router (read_failed err (h_router h)) h)) by by destruct h.
    destruct (read_failed_read err (h_router h)) as (Hr & Hq & Hc).
    apply router_inv_step; try done; [by apply rtc_once, rs_read_err|by rewrite Hr|by rewrite Hq].
  - replace (with_router _ h) with (with_screen (h_screen h) (with_router r h)) by by destruct h.
    pose proof H0 as (Hs & Hr & Hc & _). destruct si_screen0 as (q & Hq & Hw & Hcut).
    apply router_inv_step; try done; [by apply rtc_once|by rewrite Hr|].
    destruct (internal_queue _ _ _ H0 Hq) as (q' & Hq' & Hg & Hx). exists q'. rewrite Hg. split_and!; try done.
    intros Hq1. destruct (Hx Hq1) as [?|Hn]; [by apply Hcut|]. left. destruct si_ctx0 as [_ <-]. done.
  - by eapply output_inv.
  - split; try done. destruct si_screen0 as (q1 & Hq & Hw & Hcut). exists q1. split_and!; try done.
    intros Hx. destruct (Hcut Hx) as [?|[e He]]; [by left|]. congruence.
  - apply run_inv_step; [done|]. by apply ns_return.
  - apply run_inv_step; [done|]. by apply ns_reader_return.
  - by apply run_inv_step.
Qed.

Lemma shell_reach_inv h : rtc shell_step (shell_start c0 s0 size) h -> shell_inv h.
Proof.
  intros Hr. pose proof shell_start_inv as Hi. revert Hi.
  induction Hr as [|x y z Hs _ IH]; [done|]. intros Hi. apply IH. by eapply shell_step_inv.
Qed.

End Invariant.

(** ** Keyboard to server, server to screen *)

Lemma omap_prefix {A B} (f : A -> option B) l k : l `prefix_of` k -> omap f l `prefix_of` omap f k.
Proof. intros [t ->]. rewrite omap_app. by eexists. Qed.

Lemma concat_prefix {A} (l k : list (list A)) : l `prefix_of` k -> concat l `prefix_of` concat k.
Proof. intros [t ->]. rewrite concat_app. by eexists. Qed.

Lemma routed_input ps : omap decode_input (routed terminal_routes 0 ps) = omap decode_input ps.
Proof.
  unfold routed. induction ps as [|p ps IH]; [done|]. cbn -[decode_input]. rewrite <- IH.
  destruct (bool_decide (HeaderTerminalBuffer = p_Header p)) eqn:Hp; cbn -[decode_input]; [done|].
  apply bool_decide_eq_false in Hp. by replace (decode_input p) with (@None bytes)
    by (unfold decode_input; rewrite bool_decide_false; done).
Qed.

(** The screen against what the router has read. *)
Lemma screen_heard c s size h :
  shell_inv c s size h ->
  sc_written (h_screen h) `prefix_of` omap decode_input (r_read (h_router h)) /\
  (forall q, r_queues (h_router h) !! 0%nat = Some q ->
   q_got q = routed terminal_routes 0 (r_read (h_router h)) ->
   sc_written (h_screen h) = omap decode_input (r_read (h_router h))).
Proof.
  intros []. destruct si_screen0 as (q & Hq & Hw & _).
  destruct (router_stream terminal_headers terminal_routes _ eq_refl si_router0) as [Hgot _].
  destruct (Hgot _ _ Hq) as [Hpre _]. rewrite Hw, <- (routed_input (r_read _)). split; [by apply omap_prefix|].
  intros q' Hq' Heq. rewrite Hq in Hq'. injection Hq' as <-. by rewrite Heq.
Qed.

Lemma shell_run_inv d id passkey sid c s size h :
  shell_run d id passkey sid c s size h ->
  shell_inv c s size h /\ session_run d id passkey sid c s (h_net h).
Proof.
  intros (Hd & Hc & Hs & Hp & Hr & Hps & Hqs).
  assert (shell_inv c s size h) as Hi.
  { eapply shell_reach_inv; [|done]. destruct (newConn_ok d id passkey Hd) as (c' & Hc' & _ & Hpr & _).
    rewrite Hc in Hc'. injection Hc' as <-. by rewrite Hpr. }
  split; [done|]. by pose proof (si_net _ _ _ _ Hi).
Qed.

(** What the server received is a first part of what the terminal sent. *)
Lemma received_sent d id passkey sid c s size h :
  shell_run d id passkey sid c s size h ->
  omap decode_input (y_got (h_net h) ++ s_queue (y_s (h_net h))) `prefix_of` t_chunks (h_term h) /\
  omap decode_info (y_got (h_net h) ++ s_queue (y_s (h_net h))) `prefix_of` omap decode_info (t_sent (h_term h)).
Proof.
  intros Hr. destruct (shell_run_inv _ _ _ _ _ _ _ _ Hr) as [Hi Hs].
  destruct (session_inv _ _ _ _ _ _ _ Hs) as (limit & _ & Hc & _). rewrite (v_got _ Hc).
  destruct (term_run_inv _ _ _ (si_term _ _ _ _ Hi)) as [].
  assert (ztake (s_recvSeq (y_s (h_net h))) (y_ps (h_net h)) `prefix_of` y_ps (h_net h)) as Hp
    by (eexists; by rewrite ztake_zdrop).
  split.
  - rewrite <- (proj1 ti_sent), <- (si_sent _ _ _ _ Hi), input_terminal. by apply omap_prefix.
  - rewrite <- (si_sent _ _ _ _ Hi), info_terminal. by apply omap_prefix.
Qed.

Lemma taken_sent d id passkey sid c s size h :
  shell_run d id passkey sid c s size h -> y_taken (h_net h) `prefix_of` y_qs (h_net h).
Proof.
  intros Hr. destruct (shell_run_inv _ _ _ _ _ _ _ _ Hr) as [Hi Hs].
  destruct (session_inv _ _ _ _ _ _ _ Hs) as (limit & _ & Hc & _).
  pose proof (v_in _ Hc) as (_ & _ & Hh). etransitivity.
  - by apply prefix_app_r.
  - rewrite Hh. eexists. by rewrite ztake_zdrop.
Qed.

(** [C1] From the keyboard of the client to the server, across the sender, the
    replay ring, any cuts, reconnects and takeovers: the input the server
    has received is part of what was typed through the local escape, in order
    and nothing of it twice; and as long as [push] dropped nothing it is a
    first part of what was typed, with no gap.  Every packet
    carries between 1 and MaxInputPacket bytes. *)
Theorem keystrokes_reach_server d id passkey sid c s size h :
  shell_run d id passkey sid c s size h ->
  let typed := fst (typed_result true (concat (t_reads (h_term h)))) in
  let received := omap decode_input (y_got (h_net h) ++ s_queue (y_s (h_net h))) in
  concat received `sublist_of` typed /\ Forall chunk_ok received /\
  (t_drops (h_term h) = 0%nat -> concat received `prefix_of` typed).
Proof.
  intros Hr typed received. destruct (received_sent _ _ _ _ _ _ _ _ Hr) as [Hp _]. fold received in Hp.
  destruct (shell_run_inv _ _ _ _ _ _ _ _ Hr) as [Hi _].
  destruct (input_order _ _ _ (si_term _ _ _ _ Hi)) as (_ & Hok & _ & lost & _ & Hsub & Heq). fold typed in Hsub, Heq.
  apply concat_prefix in Hp as [t Ht] . destruct (received_sent _ _ _ _ _ _ _ _ Hr) as [[u Hu] _]. fold received in Hu.
  rewrite Ht, <- !app_assoc in Hsub, Heq. split_and!.
  - etransitivity; [|exact Hsub]. by apply sublist_inserts_r.
  - rewrite Hu in Hok. by apply Forall_app in Hok as [? _].
  - intros Hd. rewrite <- (Heq Hd). by eexists.
Qed.

(** [C2] From the server to the screen: what the terminal was given to write is, in
    order and once, a first part of the output the server sent, through the
    reconnects, the inbox, the router and the queue of the service. *)
Theorem output_reaches_screen d id passkey sid c s size h :
  shell_run d id passkey sid c s size h ->
  sc_written (h_screen h) `prefix_of` omap decode_input (y_qs (h_net h)) /\
  (sc_written (h_screen h) <> [] ->
   exists q, head (y_qs (h_net h)) = Some q /\ p_Header q = HeaderInitialResponse).
Proof.
  intros Hr. pose proof (taken_sent _ _ _ _ _ _ _ _ Hr) as Htk.
  destruct (shell_run_inv _ _ _ _ _ _ _ _ Hr) as [Hi _].
  destruct (screen_heard _ _ _ _ Hi) as [Hsc _]. pose proof (si_stage _ _ _ _ Hi) as Hst. unfold stage_ok in Hst.
  destruct (h_stage h).
  3: { destruct Hst as (q & rest & Hq & Hq0 & Hh). split.
    - etransitivity; [exact Hsc|]. apply (omap_prefix decode_input) in Hh. etransitivity; [exact Hh|].
      etransitivity; [|by apply omap_prefix]. rewrite Hq. cbn. unfold decode_input at 2. by rewrite Hq0.
    - intros _. exists q. destruct Htk as [t ->]. by rewrite Hq. }
  all: rewrite Hst in Hsc; apply prefix_nil_inv in Hsc as ->; split; [apply prefix_nil|done].
Qed.

(** *** The end of a session *)

(** A router that returned normally is done: nothing it or the output loop
    holds changes any more. *)
Lemma returned_stable e h h' :
  r_phase (h_router h) = Router.Returned e true ->
  (forall i q, r_queues (h_router h) !! i = Some q -> q_drained q = true) ->
  shell_step h h' ->
  r_phase (h_router h') = r_phase (h_router h) /\ r_queues (h_router h') = r_queues (h_router h) /\
  r_read (h_router h') = r_read (h_router h) /\ sc_written (h_screen h') = sc_written (h_screen h).
Proof.
  intros He Hd Hs.
  assert (forall i q, r_queues (h_router h) !! i = Some q -> q_drained q = false -> False) as Hno
    by (intros i q Hq Hf; apply Hd in Hq; congruence).
  destruct Hs; cbn; try done; try congruence; [|by edestruct Hno].
  match goal with H : internal _ _ |- _ => destruct H as (Hs & Hrd & _) end.
  destruct Hs; cbn in *; try done; try congruence; by edestruct Hno.
Qed.

Lemma returned_stays e h h' :
  r_phase (h_router h) = Router.Returned e true ->
  (forall i q, r_queues (h_router h) !! i = Some q -> q_drained q = true) ->
  rtc shell_step h h' ->
  r_read (h_router h') = r_read (h_router h) /\ sc_written (h_screen h') = sc_written (h_screen h).
Proof.
  intros He Hd Hr. induction Hr as [|x y z Hs _ IH]; [done|].
  destruct (returned_stable _ _ _ He Hd Hs) as (E1 & E2 & E3 & E4).
  destruct IH as [-> ->]; [by rewrite E1|by rewrite E2|done].
Qed.

(** Errors of Run are only added. *)
Lemma errs_grow h h' : rtc shell_step h h' -> n_errs (h_run h) `prefix_of` n_errs (h_run h').
Proof.
  induction 1 as [|x y z Hs _ IH]; [done|]. etransitivity; [|exact IH]. clear IH.
  destruct Hs; cbn; try done; try (by apply prefix_app_r).
  match goal with H : run_step _ _ _ _ |- _ => destruct H; cbn; try done; by apply prefix_app_r end.
Qed.

(** The run of [Run] goes on with the shell's. *)
Lemma shell_step_run h h' :
  shell_step h h' -> rtc (run_step closeMayStrandReader true) (h_run h) (h_run h').
Proof.
  destruct 1; cbn; try done; apply rtc_once; [by apply ns_return|by apply ns_reader_return|done].
Qed.

Lemma runs_on n h h' :
  rtc (run_step closeMayStrandReader true) n (h_run h) -> rtc shell_step h h' ->
  rtc (run_step closeMayStrandReader true) n (h_run h').
Proof.
  intros Hn Hr. induction Hr as [|x y z Hs _ IH]; [done|]. apply IH. etransitivity; [done|]. by apply shell_step_run.
Qed.

(** Nothing has failed while Run's context stands. *)
Lemma first_cause m n : rtc (run_step closeMayStrandReader true) (run_start true m) n -> n_ctx n = None -> n_errs n = [].
Proof.
  intros Hn Hc. pose proof (run_ctx _ _ _ _ Hn) as Hx. rewrite Hc in Hx. by destruct (n_errs n).
Qed.

(** What a normal end of the router says. *)
Lemma normal_end c s size h e :
  shell_inv c s size h -> r_phase (h_router h) = Router.Returned e true ->
  (forall i q, r_queues (h_router h) !! i = Some q -> q_drained q = true) /\
  e = end_error (exit_of None (r_read (h_router h))) /\
  (forall i q, r_queues (h_router h) !! i = Some q -> q_cut q = false ->
   q_got q = routed terminal_routes i (r_read (h_router h))).
Proof.
  intros Hi He.
  destruct (router_run_inv _ _ _ (router_start_inv terminal_headers terminal_routes eq_refl)
    (si_router _ _ _ _ Hi)) as [Hri _].
  pose proof (ri_phase _ _ Hri) as Hph. rewrite He in Hph. destruct Hph as (_ & _ & Hdr).
  destruct (router_stream terminal_headers terminal_routes _ eq_refl (si_router _ _ _ _ Hi)) as [_ Hend].
  by destruct (Hend e He) as [Hee Hfull].
Qed.

(** [C4] The status the client exits with is the one the server sent.  When the
    router's normal end is what ends the session, [Run] returns the last exit
    status among what the server sent after INITIAL_RESPONSE and the router
    read, nil when there was none, and the process exits with it (255 when
    it does not fit a byte).  The screen has by then everything of the
    output that came before the end, unless the output goroutine stopped at
    an error of its own. *)
Theorem shell_exit_status d id passkey sid c s size h h' e err :
  shell_run d id passkey sid c s size h -> h_stage h = StRun ->
  r_phase (h_router h) = Router.Returned e true ->
  n_ctx (h_run h) = None -> n_live (h_run h) !! g_router = Some true ->
  rtc shell_step (with_run (goroutine_returned (Some e) (<[g_router := false]> (n_live (h_run h)))
    (n_reader (h_run h)) (h_run h)) h) h' ->
  n_at (h_run h') = Session.RunReturned err ->
  exists q heard, q :: heard `prefix_of` y_qs (h_net h) /\ p_Header q = HeaderInitialResponse /\
    err = ExitError <$> exit_of None heard /\
    exitCode err = match exit_of None heard with
                   | Some c => if bool_decide (0 <= c <= 255) then c else 255
                   | None => 0
                   end /\
    (sc_written (h_screen h') = omap decode_input heard \/
     exists e', sc_done (h_screen h) = Some (Some e')).
Proof.
  intros Hr Hst He Hctx Hlive Hrun Hat.
  destruct (shell_run_inv _ _ _ _ _ _ _ _ Hr) as [Hi _].
  pose proof (si_stage _ _ _ _ Hi) as Hso. rewrite Hst in Hso. destruct Hso as (q & rest & Htk & Hq & Hh).
  set (h1 := with_run _ h) in Hrun.
  assert (rtc shell_step h h') as Hreach by (eapply rtc_l; [|exact Hrun]; apply sh_return; try done; left; eauto).
  destruct (normal_end _ _ _ _ _ Hi He) as (Hdr & Hee & Hfull).
  destruct (returned_stays e h h' He Hdr Hreach) as [Hread Hscr].
  assert (err = ExitError <$> exit_of None (r_read (h_router h))) as Herr.
  { pose proof (si_run _ _ _ _ Hi) as Hn0.
    assert (rtc (run_step closeMayStrandReader true) (run_start true 4) (h_run h')) as Hn1.
    { eapply runs_on; [exact Hn0|exact Hreach]. }
    destruct (Run_cause _ _ _ _ _ Hn1 Hat) as ((cause & Hc & ->) & _).
    apply errs_grow in Hrun as [t Ht]. cbn in Ht.
    rewrite Ht, (first_cause _ _ Hn0 Hctx) in Hc. injection Hc as <-. rewrite Hee.
    by destruct (exit_of None _). }
  exists q, (r_read (h_router h)). split_and!; try done.
  - etransitivity; [|by eapply taken_sent]. rewrite Htk. by apply prefix_cons.
  - rewrite Herr. destruct (exit_of None _) as [x|]; cbn; [|done].
    case_bool_decide; destruct (Z.ltb_spec x 0), (Z.gtb_spec x 255); cbn; done || lia.
  - destruct (si_screen _ _ _ _ Hi) as (sq & Hsq & _ & Hcut). destruct (q_cut sq) eqn:Hc.
    + right. by destruct (Hcut eq_refl).
    + left. rewrite Hscr. eapply (screen_heard _ _ _ _ Hi); [exact Hsq|]. by apply Hfull.
Qed.

(** *** When everything is at rest *)

(** The client runs on link [l], nothing is in transit in either direction,
    and every goroutine of the session waits: the sender for a signal, the
    keyboard reader in Read, the router for a packet, the output loop for its
    queue. *)
Record quiet (l : nat) (rel : bool) (f : Z) (h : shell) : Prop := {
  qt_client : y_ph (h_net h) = CRun l [] rel None;
  qt_flushed : let o := c_out (y_c (h_net h)) in
    writeLoop_snapshot o = Some (zlen (y_ps (h_net h)), o_lastProbe o, []);
  qt_server : lk_ph (y_links (h_net h) l) = SRun f /\ zlen (s_sent (y_s (h_net h))) <= f;
  qt_up : let u := lk_up (y_links (h_net h) l) in drained (u_pos u) (u_bytes u) (u_cut u);
  qt_down : let d := lk_down (y_links (h_net h) l) in drained (d_pos d) (d_bytes d) (d_cut d);
  qt_inbox : c_inbox (y_c (h_net h)) = [] /\ i_pending (c_in (y_c (h_net h))) = [];
  qt_sender : t_sender (h_term h) = SIdle /\ pi_ready (t_pending (h_term h)) = false /\
    ls_changed (t_size (h_term h)) = false;
  qt_reader : t_reader (h_term h) = RRead;
  qt_router : h_stage h = StRun /\ r_phase (h_router h) = Reading /\
    y_taken (h_net h) !! S (length (r_read (h_router h))) = None;
  qt_output : exists q, r_queues (h_router h) !! 0%nat = Some q /\ q_ch q = []
}.

Lemma prefix_end {A} (l k : list A) : l `prefix_of` k -> k !! length l = None -> l = k.
Proof.
  intros [t ->] H. rewrite lookup_app_r, Nat.sub_diag in H by done. destruct t; [|done]. by rewrite app_nil_r.
Qed.

(** [C3] Nothing is lost end to end: once all is at rest, however many links the
    session has been through, the server has received every byte typed, if
    no push dropped input, and the newest window size; and the screen has
    been given everything the server sent. *)
Theorem shell_quiet_complete d id passkey sid c s size h l rel f :
  shell_run d id passkey sid c s size h -> quiet l rel f h ->
  let received := y_got (h_net h) ++ s_queue (y_s (h_net h)) in
  (t_drops (h_term h) = 0%nat ->
   concat (omap decode_input received) = fst (typed_result true (concat (t_reads (h_term h))))) /\
  last (omap decode_info received) = terminalInfo <$> last (t_sizes (h_term h)) /\
  sc_written (h_screen h) = omap decode_input (y_qs (h_net h)).
Proof.
  intros Hr [Hph Hw [Hsp Hf] Hu Hd [Hin Hpe] (Hs & Hrd & Hch) Hread (Hst & Hrp & Hnext) (q & Hq & Hqc)] received.
  destruct (shell_run_inv _ _ _ _ _ _ _ _ Hr) as [Hi Hrun].
  destruct (drained_logs _ _ _ _ _ _ _ _ _ _ Hrun Hph Hw Hsp Hf Hu Hd) as [Hup Hdown].
  destruct (idle_complete _ _ _ (si_term _ _ _ _ Hi) Hs Hrd Hch (or_introl Hread)) as (_ & Htyped & Hsize).
  rewrite Hin, Hpe, app_nil_r in Hdown. unfold received. rewrite Hup.
  rewrite <- (input_terminal (y_ps _)), <- (info_terminal (y_ps _)), (si_sent _ _ _ _ Hi).
  split_and!; [done|done|]. rewrite <- Hdown.
  pose proof (si_stage _ _ _ _ Hi) as Hso. rewrite Hst in Hso. destruct Hso as (q0 & rest & Htk & Hq0 & Hh).
  rewrite Htk in Hnext |- *. apply prefix_end in Hh; [|done].
  destruct (router_run_inv _ _ _ (router_start_inv terminal_headers terminal_routes eq_refl)
    (si_router _ _ _ _ Hi)) as [Hri Hrt].
  destruct (ri_queue _ _ Hri _ _ Hq) as (lost & Hk & Hl). rewrite Hrp, Hqc, Hrt in Hk. cbn in Hk.
  assert (lost = []) as -> by (destruct lost; [done|]; destruct Hl as [e He]; [done|congruence]).
  rewrite app_nil_r in Hk. rewrite (proj2 (screen_heard _ _ _ _ Hi) q Hq Hk), Hh.
  cbn. unfold decode_input at 2. by rewrite Hq0.
Qed.

End Shell.

(** ** A session on concrete values *)

From S2P Require Import Codecs.

Section Example.
Local Open Scope Z_scope.
#[local] Existing Instances toy_box tb_codec ti_codec exit_codec ipay_codec iresp_codec.

Definition example_dialer : Dialer := MkDialer 0 (MkPacket HeaderKeepAlive []) 0.
Definition example_c : Conn :=
  ltac:(let c := eval vm_compute in (newConn example_dialer (bs "id") example_passkey) in
        match c with Ok ?c => exact c end).
Definition example_s : Server :=
  ltac:(let s := eval vm_compute in (NewServer (bs "id") example_passkey) in
        match s with Ok ?s => exact s end).

(** What the server sends: it accepts, prints, reports status 3 and closes. *)
Definition example_accept : Packet := MkPacket HeaderInitialResponse (x00 :: []).
Definition example_output : Packet := MkPacket HeaderTerminalBuffer (x00 :: x01 :: bs "out").
Definition example_exit : Packet := MkPacket HeaderTerminalExitStatus (x01 :: le_bytes 4 3).
Definition example_close : Packet := MkPacket HeaderTerminalClose [].

Local Notation steps := (rtc (shell_step false)).

Ltac eval_shell := match goal with |- rtc _ ?a _ => let a' := eval vm_compute in a in change a with a' end.
Ltac v := [> vm_compute; reflexivity ..].
Ltac step t := eapply rtc_l; [t|]; eval_shell.
Ltac net t := step ltac:(apply sh_net; [exact I|]; split; [t|first [left; reflexivity|right; reflexivity]]).
Ltac term t := step ltac:(apply sh_term; [reflexivity|split; [t|split; reflexivity]]).
Ltac accept := split; [by vm_compute|eexists; split; [v|reflexivity]].
Ltac send t := step ltac:(eapply sh_send; [reflexivity|t|reflexivity|accept]).
Ltac route t := step ltac:(apply sh_router; [reflexivity|split; [t|split_and!; v || done]]).
(** The writer flushes its ring and the server reads a packet. *)
Ltac flush :=
  net ltac:(left; eapply cs_batch; [v|v|done|v]);
  net ltac:(left; eapply (cs_piece _ _ _ _ _ 1000); [v|done]);
  net ltac:(left; eapply cs_sent; v).
Ltac serve := net ltac:(right; left; eapply (ss_frame _ 0); [v|v|v|by left|v]).
(** The server sends [p] and the router, or Start, has it from ReadPacket. *)
Ltac reply p :=
  net ltac:(right; left; eapply (ss_send _ p); by vm_compute);
  net ltac:(right; left; eapply (ss_write _ 0); [v|done|v]);
  net ltac:(left; eapply (cs_frame _ 0 _ _ _ (Sent 0)); [v|v|v|v|done]);
  net ltac:(left; eapply (cs_read _ ReadInbox); v).

(** The first connection is made and [Start] has its answer. *)
Definition example_started : { h | steps (shell_start example_c example_s (inr (Foreign 0))) h }.
Proof.
  eexists.
  step ltac:(eapply (sh_start_send _ _ _ _ _ (inr (Foreign 0))); [reflexivity|v|accept]).
  net ltac:(left; apply cs_dial; v).
  net ltac:(right; left; eapply (ss_req _ 0); [v|exact I|v]).
  net ltac:(left; eapply (cs_new _ 0); [v|v|v|exact I]).
  net ltac:(right; left; eapply (ss_take_new _ 0); [v|exact I]).
  flush. serve.
  reply example_accept.
  step ltac:(eapply sh_start_answer; [v|v|v]).
  apply rtc_refl.
Defined.
Definition example_shell : shell := Eval vm_compute in proj1_sig example_started.

(** The size goes out, a line is typed, and the server prints. *)
Definition example_at_rest : { h | steps example_shell h }.
Proof.
  eexists. eval_shell.
  term ltac:(apply ts_wake_changed; v). term ltac:(eapply ts_take_size; v).
  term ltac:(eapply (ts_size_call _ _ Size_zero); v). send ltac:(eapply (ts_size_sent _ _ Size_zero); v). term ltac:(eapply ts_take; v).
  term ltac:(eapply (ts_read _ _ (bs "ls") None); [v|exact I|by vm_compute|done|v]).
  term ltac:(eapply ts_push_turn; v). term ltac:(eapply ts_push_signal; v).
  term ltac:(eapply ts_push_turn; v). term ltac:(eapply ts_pushed; v).
  term ltac:(apply ts_wake_ready; v). term ltac:(eapply ts_take_size; v).
  term ltac:(eapply ts_take; v). term ltac:(eapply ts_space; v).
  term ltac:(eapply ts_chunk_call; v). send ltac:(eapply ts_chunk_sent; v). term ltac:(eapply ts_take; v).
  flush. serve. serve.
  reply example_output.
  step ltac:(eapply sh_route; v).
  route ltac:(eapply rs_send; v).
  step ltac:(eapply (sh_output _ _ _ _ _ _ (fun _ => None)); v).
  apply rtc_refl.
Defined.
Definition example_rest : shell := Eval vm_compute in proj1_sig example_at_rest.

(** The server reports a status and closes; the router ends normally. *)
Definition example_closed : { h | steps example_rest h }.
Proof.
  eexists. eval_shell.
  reply example_exit. step ltac:(eapply sh_route; v).
  reply example_close. step ltac:(eapply sh_route; v).
  route ltac:(eapply (rs_closed _ 0); v).
  step ltac:(eapply sh_output_done; v).
  route ltac:(eapply (rs_drained _ [] 0 []); v).
  route ltac:(apply rs_ended; v).
  apply rtc_refl.
Defined.
Definition example_ended : shell := Eval vm_compute in proj1_sig example_closed.

(** The router's return ends the context, and everything is joined. *)
Definition example_joined : { h | steps (with_run (goroutine_returned (Some (ExitError 3))
  (<[g_router := false]> (n_live (h_run example_ended))) (n_reader (h_run example_ended)) (h_run example_ended)) example_ended) h }.
Proof.
  eexists. eval_shell.
  step ltac:(eapply (sh_return _ _ _ g_output None); [v|v|right; left; split; v]).
  term ltac:(apply ts_wake_ctx; [v|done]).
  step ltac:(eapply (sh_return _ _ _ g_send None); [v|v|do 2 right; left; split; v]).
  step ltac:(eapply (sh_return _ _ _ g_resizes None); [v|v|do 3 right; done]).
  step ltac:(eapply sh_run; [v|apply (ns_close _ _ _ None); [v|done]|v|v|left; exact I]).
  term ltac:(apply (ts_read_none _ _ (Some (Foreign 2))); [v|exact I]).
  step ltac:(eapply sh_reader_return; v).
  step ltac:(eapply sh_run; [v|eapply ns_join; [v|repeat constructor|done|v]|v|v|left; exact I]).
  apply rtc_refl.
Defined.

Lemma example_reaches (h : shell) :
  steps (shell_start example_c example_s (inr (Foreign 0))) h ->
  zlen (y_ps (h_net h)) < 2 ^ 184 -> zlen (y_qs (h_net h)) + 1 < 2 ^ 184 ->
  shell_run false example_dialer (bs "id") example_passkey (bs "id") example_c example_s (inr (Foreign 0)) h.
Proof. intros. split_and!; try done; by vm_compute. Qed.

Lemma example_rest_run :
  shell_run false example_dialer (bs "id") example_passkey (bs "id") example_c example_s (inr (Foreign 0)) example_rest.
Proof.
  apply example_reaches; [|by vm_compute|by vm_compute].
  etransitivity; [exact (proj2_sig example_started)|exact (proj2_sig example_at_rest)].
Qed.

Lemma example_ended_run :
  shell_run false example_dialer (bs "id") example_passkey (bs "id") example_c example_s (inr (Foreign 0)) example_ended.
Proof.
  apply example_reaches; [|by vm_compute|by vm_compute].
  etransitivity; [apply example_rest_run|exact (proj2_sig example_closed)].
Qed.

(** Two bytes typed have reached the server. *)
Lemma keystrokes_reach_server_witness :
  concat (omap decode_input (y_got (h_net example_rest) ++ s_queue (y_s (h_net example_rest)))) = bs "ls" /\
  bs "ls" `prefix_of` fst (typed_result true (concat (t_reads (h_term example_rest)))).
Proof.
  split; [vm_compute; reflexivity|].
  exact (proj2 (proj2 (keystrokes_reach_server _ _ _ _ _ _ _ _ _ example_rest_run)) eq_refl).
Defined.

Lemma output_reaches_screen_witness :
  sc_written (h_screen example_rest) = [bs "out"] /\
  [bs "out"] `prefix_of` omap decode_input (y_qs (h_net example_rest)).
Proof.
  split; [vm_compute; reflexivity|].
  exact (proj1 (output_reaches_screen _ _ _ _ _ _ _ _ _ example_rest_run)).
Defined.

Lemma example_quiet : quiet 0 true 2 example_rest.
Proof.
  split; cbv zeta; try (by vm_compute); try (split_and!; by vm_compute).
  eexists. split; vm_compute; reflexivity.
Qed.

Lemma shell_quiet_complete_witness :
  concat (omap decode_input (y_got (h_net example_rest) ++ s_queue (y_s (h_net example_rest)))) = bs "ls" /\
  sc_written (h_screen example_rest) = omap decode_input [example_accept; example_output].
Proof.
  pose proof (shell_quiet_complete _ _ _ _ _ _ _ _ _ _ _ _ example_rest_run example_quiet) as (H1 & _ & H2).
  split; [exact (H1 eq_refl)|exact H2].
Defined.

Lemma shell_exit_status_witness :
  exitCode (Some (ExitError 3)) = 3 /\
  exists q heard, q :: heard `prefix_of` y_qs (h_net example_ended) /\
    Some (ExitError 3) = ExitError <$> exit_of None heard.
Proof.
  split; [reflexivity|].
  destruct (shell_exit_status _ _ _ _ _ _ _ _ example_ended (proj1_sig example_joined) (ExitError 3) (Some (ExitError 3))
    example_ended_run) as (q & heard & H1 & _ & H2 & _).
  - reflexivity.
  - reflexivity.
  - reflexivity.
  - reflexivity.
  - exact (proj2_sig example_joined).
  - vm_compute. reflexivity.
  - exists q, heard. exact (conj H1 H2).
Defined.
End Example.
