(* ===== verification/ShellEnd.v ===== *)
(** * The session always ends

    From every state of a session whose context has ended, every run comes to
    the return of [Run], in whatever order its goroutines are scheduled and
    however Close goes.  The steps are those of the program; of its
    surroundings only what they must do is assumed: closing the terminal ends
    its pending Read (not on Windows if Close failed, where Run does not wait
    for it), and the terminal's Write returns.  Keys, resizes, packets and
    whatever else the connection does may come in between, finitely often.
    No goroutine waits for another that waits for it: not the reader for room
    in the pending buffer, nor the sender for input or for the connection, nor
    the router for room in a queue or for a service to drain. *)

From S2P Require Import Delivery Terminal Router Session Cmd Shell.
Local Open Scope Z_scope.

Section End_.
Context `{HB : SecretBox} `{PTB : ProtoMessage TerminalBuffer} `{PTI : ProtoMessage TerminalInfo}.
Context `{PES : ProtoMessage TerminalExitStatus} `{PIP : ProtoMessage InitialPayload} `{PIR : ProtoMessage InitialResponse}.
Variable closeMayStrandReader : bool.
Local Notation shell_step := (shell_step closeMayStrandReader).

(** ** The program's own steps *)

(** Closing the terminal ended its pending Read. *)
Definition unblocked (h : shell) : Prop :=
  exists closeErr, n_close (h_run h) = Some closeErr /\ (closeErr = None \/ closeMayStrandReader = false).

(** Nothing comes from outside: no key, no resize, no packet, no signal.  Read
    returns only its error, and only once the terminal was closed. *)
Definition still : surroundings :=
  MkSurroundings False False
    (fun h => conn_env (fun data err => data = [] /\ err <> None /\ unblocked h) (fun _ => False) h).
Definition own_step : shell -> shell -> Prop := step_in closeMayStrandReader still.

(** ** What stays true while a session ends *)

(** A call of WritePacket is about a packet it does not refuse. *)
Definition call_ok (t : term) : Prop :=
  match t_sender t with
  | SSizeCall sz => exists b, proto_Marshal (terminalInfo sz) = inl b /\ zlen b <= maxPayload
  | SChunkCall c => exists b, proto_Marshal (SetBuffer c TerminalBuffer_zero) = inl b /\ zlen b <= maxPayload
  | _ => True
  end.

Lemma WritePacket_enter_fits ctx p : WritePacket_enter ctx p = None -> zlen (p_Payload p) <= maxPayload.
Proof. unfold WritePacket_enter. by destruct (Z.ltb_spec maxPayload (zlen (p_Payload p))); [|lia]. Qed.

Lemma term_step_call_ok E t t' : te_enter E = WritePacket_enter -> term_step E t t' -> call_ok t -> call_ok t'.
Proof.
  intros He Hs. unfold call_ok. destruct Hs; cbn; try done; rewrite ?He in *; repeat case_match; try done;
    intros _; (eexists; split; [done|]); by eapply (WritePacket_enter_fits _ (MkPacket _ _)).
Qed.

(** The goroutines share the ended context, the router has its one queue, and
    Run is in a state of its own runs. *)
Record ending (cause : gerr) (h : shell) : Prop := {
  en_stage : h_stage h = StRun;
  en_run : run_inv closeMayStrandReader true 4 (h_run h);
  en_ctx : n_ctx (h_run h) = Some cause;
  en_term : t_ctx (h_term h) = Some cause;
  en_router : r_ctx (h_router h) = Some cause;
  en_queue : length (r_queues (h_router h)) = 1%nat;
  en_call : call_ok (h_term h)
}.

Lemma run_step_cause n n' cause :
  run_step closeMayStrandReader true n n' -> n_ctx n = Some cause -> n_ctx n' = Some cause.
Proof. intros Hs Hc. destruct (run_step_ctx _ _ _ Hs) as [->|[Hn _]]; congruence. Qed.

Lemma term_step_cause E t t' cause : term_step E t t' -> t_ctx t = Some cause -> t_ctx t' = Some cause.
Proof. destruct 1; cbn; congruence. Qed.

Lemma internal_length r r' : internal r r' -> length (r_queues r') = length (r_queues r).
Proof. intros (_ & _ & _ & Hg & _). apply (f_equal length) in Hg. by rewrite !length_fmap in Hg. Qed.

Lemma with_run_ending cause h n :
  ending cause h -> run_step closeMayStrandReader true (h_run h) n -> ending cause (with_run n h).
Proof.
  intros [] Hn. pose proof (run_step_cause _ _ _ Hn en_ctx0) as Hc.
  split; cbn; try done. by eapply run_step_inv.
Qed.

Lemma step_ending E cause h h' :
  (forall h, te_enter (su_term E h) = WritePacket_enter) ->
  step_in closeMayStrandReader E h h' -> ending cause h -> ending cause h'.
Proof.
  intros Hent Hs He. pose proof He as []. destruct Hs; try (split; cbn; done); try congruence.
  - by destruct H as [|[? ?]]; congruence.
  - destruct H0 as (Ht & _ & Hc). split; cbn; try congruence. by eapply term_step_call_ok.
  - split; cbn; try done; [by eapply term_step_cause|by eapply term_step_call_ok].
  - destruct (dispatch_read p (h_router h)) as (_ & Hq & Hc). split; cbn; try done; by rewrite ?Hq, ?Hc.
  - destruct (read_failed_read err (h_router h)) as (_ & Hq & Hc). split; cbn; try done; by rewrite ?Hq, ?Hc.
  - pose proof (internal_length _ _ H0) as Hl. destruct H0 as (_ & _ & Hc & _).
    split; cbn; try done; by rewrite ?Hl, ?Hc.
  - split; cbn; try done. unfold set_queue. by rewrite length_insert.
  - apply with_run_ending; [done|]. by apply ns_return.
  - apply with_run_ending; [done|]. by apply ns_reader_return.
  - by apply with_run_ending.
Qed.

Lemma session_ending d id passkey sid c s size h cause :
  shell_run closeMayStrandReader d id passkey sid c s size h ->
  h_stage h = StRun -> n_ctx (h_run h) = Some cause -> ending cause h.
Proof.
  intros Hr Hst Hc. destruct (shell_run_inv _ _ _ _ _ _ _ _ _ Hr) as [Hi _].
  destruct (si_ctx _ _ _ _ _ Hi) as [Htc Hrc]. rewrite Hc in Htc, Hrc.
  destruct (router_run_inv _ _ _ (router_start_inv terminal_headers terminal_routes eq_refl)
    (si_router _ _ _ _ _ Hi)) as [Hri _].
  split; try done; [eapply run_reach_inv, (si_run _ _ _ _ _ Hi)|apply (ri_len _ _ Hri)|].
  eapply (rtc_inv (term_step any_env) call_ok); [|exact (si_term _ _ _ _ _ Hi)|done].
  intros a b. by apply term_step_call_ok.
Qed.

(** ** Every step of its own brings the end nearer *)

Definition flag (b : bool) (n : nat) : nat := if b then n else 0.

(** The steps a push, the sender and the signals between them still need. *)
Definition push_work (at_ : push_at) : nat :=
  match at_ with
  | PushLoop b => 12 * length b + 4
  | PushSignal b => 12 * length b + 9
  | PushWait b => 12 * length b + 3
  | PushDone _ => 2
  end.
Definition reader_work (r : reader_at) : nat :=
  match r with RRead => 1 | RPush at_ _ _ => push_work at_ | RDone _ => 0 end.
Definition sender_work (s : sender_at) : nat :=
  match s with
  | SDone _ => 0 | SIdle => 1 | SSize => 4 | SSizeWrite _ => 4 | SSizeCall _ => 3 | SChunks => 2
  | SSpace _ => 7 | SChunkWrite _ => 4 | SChunkCall _ => 3
  end.
Definition term_work (t : term) : nat :=
  reader_work (t_reader t) + sender_work (t_sender t) + 6 * length (pi_buf (t_pending t)) +
  flag (pi_ready (t_pending t)) 4 + flag (pi_space (t_pending t)) 2 +
  flag (ls_changed (t_size t)) 4 + flag (ls_dirty (t_size t)) 1.

Lemma push_turn_work b p p' at_ :
  push_turn b p = (p', at_) ->
  (push_work at_ + 6 * length (pi_buf p') < push_work (PushLoop b) + 6 * length (pi_buf p))%nat /\
  pi_ready p' = pi_ready p /\ pi_space p' = pi_space p.
Proof.
  unfold push_turn. destruct (Z.leb_spec (zlen b) 0); [intros [= <- <-]; cbn; split_and!; done || lia|].
  rewrite Z.gtb_ltb. set (n := Z.min (zlen b) (pi_max p - zlen (pi_buf p))).
  destruct (Z.ltb_spec 0 n).
  - intros [= <- <-]. cbn. split_and!; try done. rewrite length_app. unfold ztake, zdrop.
    rewrite length_take, length_drop. unfold zlen in *. lia.
  - assert (ztake n b = []) as Hz by by apply ztake_0.
    destruct (pi_stalled p); intros [= <- <-]; cbn; rewrite Hz, app_nil_r; split_and!; done || lia.
Qed.

(** A terminal that no key, resize or cancel reaches. *)
Definition calm (E : term_env) : Prop :=
  (forall data err, te_read E data err -> data = [] /\ err <> None) /\ (forall sz, ~ te_resize E sz).

Lemma term_step_work E t t' :
  calm E -> term_step E t t' -> t_ctx t' = t_ctx t -> (term_work t' < term_work t)%nat.
Proof.
  intros [Hrd Hrs] Hs Hc. unfold term_work. destruct Hs; cbn in Hc |- *;
    try match goal with H : t_reader t = _ |- _ => rewrite H end;
    try match goal with H : t_sender t = _ |- _ => rewrite H end; cbn [reader_work sender_work push_work flag].
  - by destruct (Hrd _ _ H0).
  - destruct (Hrd _ _ H0) as [_ He]. destruct err; [|done]. cbn. lia.
  - destruct (push_turn_work _ _ _ _ H0) as (Hw & -> & ->). cbn [push_work] in *. lia.
  - destruct (pi_ready (t_pending t)); cbn; lia.
  - injection H1 as <- <-. rewrite H0. cbn. lia.
  - injection H0 as <- <-. cbn. lia.
  - injection H1 as <- <-. cbn. lia.
  - destruct detach; [cbn; lia|]. destruct err; cbn; lia.
  - by destruct (Hrs sz).
  - rewrite H0. cbn. lia.
  - rewrite H0. cbn. lia.
  - lia.
  - unfold latestSize_take in H0. destruct (ls_dirty (t_size t)) eqn:Hd; injection H0 as <- <-; cbn; rewrite ?Hd; cbn; lia.
  - lia.
  - lia.
  - lia.
  - lia.
  - apply take_cases in H0 as (_ & -> & -> & Hb & _ & Hnil & _). rewrite Hb, length_app.
    destruct chunk; cbn; lia.
  - destruct (pi_space (t_pending t)); cbn; lia.
  - lia.
  - lia.
  - lia.
  - lia.
  - congruence.
Qed.

Definition phase_work (ph : phase) : nat :=
  match ph with
  | Router.Returned _ _ => 0 | Draining todo => 1 + length todo | Reading => 4 | Sending _ _ => 7
  end.
Definition squeue_work (q : squeue) : nat := 2 * length (q_ch q) + flag (negb (q_drained q)) 1.
Definition queue_work (qs : list squeue) : nat := sum_list_with squeue_work qs.
#[local] Arguments queue_work : simpl never.
Definition router_work (taken : list Packet) (r : router) : nat :=
  4 * (length taken - length (r_read r)) + phase_work (r_phase r) + queue_work (r_queues r).
Definition screen_work (o : screen) : nat := match sc_done o with None => 1 | Some _ => 0 end.
Definition run_work (n : run) : nat :=
  length (filter (fun b => b = true) (n_live n)) + flag (n_reader n) 1 +
  match n_at n with RunWaiting => 2 | RunJoining _ => 1 | Session.RunReturned _ => 0 end.
Definition own_work (h : shell) : nat :=
  term_work (h_term h) + router_work (y_taken (h_net h)) (h_router h) + screen_work (h_screen h) + run_work (h_run h).

Lemma set_queue_work r i q q' :
  r_queues r !! i = Some q ->
  (queue_work (set_queue i q' r) + squeue_work q = queue_work (r_queues r) + squeue_work q')%nat.
Proof.
  unfold set_queue, queue_work. generalize (r_queues r). intros l. revert i. induction l as [|q0 l IH]; intros [|i]; try done.
  - intros [= ->]. cbn. lia.
  - intros Hi. specialize (IH i Hi). change (<[S i:=q']> (q0 :: l)) with (q0 :: <[i:=q']> l). cbn [sum_list_with]. lia.
Qed.

Lemma dispatch_work p r :
  length (r_queues r) = 1%nat -> r_phase r = Reading ->
  (phase_work (r_phase (dispatch p r)) <= 7)%nat /\ r_queues (dispatch p r) = r_queues r.
Proof.
  intros Hl Hp. unfold dispatch, ended. repeat case_match; cbn; rewrite ?Hp, ?length_seq, ?Hl; cbn; split; done || lia.
Qed.

Lemma read_failed_work err r :
  length (r_queues r) = 1%nat ->
  (phase_work (r_phase (read_failed err r)) <= 2)%nat /\ r_queues (read_failed err r) = r_queues r /\
  r_read (read_failed err r) = r_read r.
Proof.
  intros Hl. unfold read_failed, ended. repeat case_match; cbn; rewrite ?length_seq, ?Hl; cbn; split_and!; done || lia.
Qed.

Lemma internal_work taken r r' :
  internal r r' -> length (r_queues r) = 1%nat -> (router_work taken r' < router_work taken r)%nat.
Proof.
  intros (Hs & Hrd & Hc & Hg & Hph) Hl. unfold router_work. rewrite Hrd. destruct Hs; cbn in *.
  - exfalso. destruct (dispatch_read p r) as (Hd & _). rewrite Hd in Hrd. apply (f_equal length) in Hrd.
    rewrite length_app in Hrd. cbn in Hrd. lia.
  - exfalso. specialize (Hph H). destruct (read_failed_work err r Hl) as [Hw _]. rewrite Hph in Hw. cbn in Hw. lia.
  - pose proof (set_queue_work _ _ _ (MkQueue (q_ch q ++ [p]) (q_got q) (q_drained q) (q_cut q)) H0) as Hw.
    unfold squeue_work in Hw. cbn in Hw. rewrite length_app in Hw. cbn in Hw. rewrite H. cbn. lia.
  - rewrite H. cbn. lia.
  - rewrite H. cbn. rewrite !length_app. cbn. lia.
  - rewrite H. cbn. lia.
  - rewrite H. cbn. lia.
  - exfalso. apply (f_equal (fun l => l !! i)) in Hg. unfold set_queue in Hg.
    rewrite !list_lookup_fmap, list_lookup_insert_eq, H in Hg by by eapply lookup_lt_Some.
    cbn in Hg. apply (f_equal (fun o => length (default [] o))) in Hg. cbn in Hg. rewrite length_app in Hg. cbn in Hg. lia.
  - pose proof (set_queue_work _ _ _ (MkQueue [] (q_got q) true false) H) as Hw.
    unfold squeue_work in Hw. rewrite H0, H1 in Hw. cbn in Hw. lia.
  - pose proof (set_queue_work _ _ _ (MkQueue (q_ch q) (q_got q) true true) H) as Hw.
    unfold squeue_work in Hw. rewrite H0 in Hw. cbn in Hw. lia.
  - congruence.
Qed.

(** A goroutine of the group returns. *)
Lemma live_returned (l : list bool) i :
  l !! i = Some true ->
  (length (filter (fun b => b = true) (<[i := false]> l)) < length (filter (fun b => b = true) l))%nat.
Proof.
  revert i. induction l as [|b l IH]; intros [|i] Hi; try done.
  - injection Hi as ->. change (<[0%nat := false]> (true :: l)) with (false :: l).
    rewrite !filter_cons. destruct (decide (true = true)), (decide (false = true)); cbn; done || lia.
  - change (<[S i := false]> (b :: l)) with (b :: <[i := false]> l). specialize (IH i Hi).
    rewrite !filter_cons. destruct (decide (b = true)); cbn [length]; lia.
Qed.

(** Run's own step. *)
Lemma run_step_work n n' :
  run_step closeMayStrandReader true n n' -> n_live n' = n_live n -> n_reader n' = n_reader n ->
  n_errs n' = n_errs n -> (run_work n' < run_work n)%nat.
Proof.
  unfold run_work. intros Hs Hl Hr He. destruct Hs; cbn in *; rewrite ?H; try lia.
  - apply live_returned in H. rewrite Hl in H. lia.
  - congruence.
  - apply (f_equal length) in He. rewrite length_app in He. cbn in He. lia.
Qed.

Lemma still_calm h : calm (su_term still h).
Proof. split; [by intros data err (? & ? & _)|by intros sz []]. Qed.

Lemma own_step_work cause h h' : ending cause h -> own_step h h' -> (own_work h' < own_work h)%nat.
Proof.
  intros [] Hs. unfold own_work. destruct Hs; cbn [h_net h_stage h_term h_router h_screen h_run
    with_net with_stage with_term with_router with_screen with_run]; try congruence.
  - done.
  - by destruct H as [|[? ?]]; congruence.
  - destruct H0 as (Ht & _ & Hc). pose proof (term_step_work _ _ _ (still_calm h) Ht Hc). lia.
  - destruct (term_step_sent _ _ _ _ H0 H1) as [_ Hc].
    pose proof (term_step_work _ _ _ (still_calm h) H0 Hc). destruct H2 as (_ & c' & _ & ->). cbn. lia.
  - destruct (dispatch_work p (h_router h)) as [Hw Hq]; [done..|].
    destruct (dispatch_read p (h_router h)) as (Hr & _). apply lookup_lt_Some in H1.
    unfold router_work. rewrite Hq, Hr, length_app, H0. cbn [phase_work length]. lia.
  - destruct (read_failed_work err (h_router h)) as (Hw & Hq & Hr); [done|].
    unfold router_work. rewrite Hq, Hr, H0. cbn [phase_work]. lia.
  - pose proof (internal_work (y_taken (h_net h)) _ _ H0 en_queue0). lia.
  - unfold router_work, screen_work, yielded. cbn [r_read r_queues r_phase with_queues sc_done].
    pose proof (set_queue_work _ _ _ (MkQueue rest (q_got q ++ [p]) (negb (bool_decide (err = None)))
      (negb (bool_decide (err = None)))) H0) as Hw.
    unfold squeue_work in Hw. rewrite H1, H2 in Hw. cbn [q_ch q_drained length negb flag] in Hw.
    destruct err; cbn [fmap option_fmap option_map bool_decide negb flag] in *;
      destruct (sc_done (h_screen h)); repeat case_bool_decide; cbn [negb flag] in *; try done; lia.
  - unfold screen_work. cbn [sc_done]. rewrite H2. lia.
  - unfold run_work. cbn [n_live n_reader n_at goroutine_returned]. apply live_returned in H0.
    unfold term_work, router_work; cbn. lia.
  - unfold run_work. cbn [n_live n_reader n_at goroutine_returned]. rewrite H0.
    unfold term_work, router_work; cbn. lia.
  - destruct H3 as [[]|He]. pose proof (run_step_work _ _ H0 H1 H2 He). unfold term_work, router_work; cbn. lia.
Qed.

(** ** Until Run has returned there is always a step *)

Definition moves (h : shell) : Prop := exists h', own_step h h'.

Lemma term_moves cause h t :
  ending cause h -> term_step (su_term still h) (h_term h) t -> t_sent t = t_sent (h_term h) ->
  t_ctx t = t_ctx (h_term h) -> moves h.
Proof. intros [] Hs H1 H2. eexists. apply sh_term; [done|]. by split. Qed.

(** A call that passed its checks is accepted or fails: at once if the
    connection has ended, and else because the context has. *)
Lemma call_moves cause c p :
  (exists c', WritePacket_attempt p c = (c', Written)) \/ exists err, call_fails c (Some cause) p err.
Proof.
  destruct (WritePacket_attempt p c) as [c' a] eqn:Ha.
  assert (a <> Written -> c' = c) as Hc.
  { unfold WritePacket_attempt in Ha. repeat case_match; by injection Ha as <- <-. }
  destruct a as [|err|]; [left; by eexists|right..].
  - exists err, [], c'. split; [constructor|]. cbn. by rewrite Ha.
  - exists cause, [WokenByCtx c cause], c. split; [by repeat constructor|]. cbn. by rewrite Ha.
Qed.

Lemma write_fails {M} `{ProtoMessage M} ctx err h (m : M) : exists e, write ctx (fun _ => Some err) h m = Some e.
Proof. unfold write. destruct (proto_Marshal m); [destruct ctx|]; by eexists. Qed.

Lemma accepted_moves cause h t p c' :
  ending cause h -> term_step (su_term still h) (h_term h) t -> t_sent t = t_sent (h_term h) ++ [p] ->
  zlen (p_Payload p) <= maxPayload -> WritePacket_attempt p (y_c (h_net h)) = (c', Written) -> moves h.
Proof. intros [] Hs Ht Hp Hw. eexists. eapply sh_send; [done|exact Hs|exact Ht|]. split; [done|]. by exists c'. Qed.

Lemma sender_moves cause h : ending cause h -> (forall e, t_sender (h_term h) <> SDone e) -> moves h.
Proof.
  intros He Hd. pose proof (en_call _ _ He) as Hok. pose proof (en_term _ _ He) as Hctx. unfold call_ok in Hok.
  destruct (t_sender (h_term h)) as [| |sz|sz| |c|c|c|e] eqn:Hs; [..|by destruct (Hd e)].
  - eapply term_moves; [done|by eapply ts_wake_ctx; [|rewrite Hctx]|done..].
  - destruct (latestSize_take (t_size (h_term h))) as [l o] eqn:Ht. eapply term_moves; [done|by eapply ts_take_size|done..].
  - destruct (write (t_ctx (h_term h)) (WritePacket_enter (t_ctx (h_term h))) HeaderTerminalInfo (terminalInfo sz))
      as [e|] eqn:Hw; [eapply term_moves; [done|by eapply ts_size_refused|done..]|].
    unfold write in Hw. destruct (proto_Marshal (terminalInfo sz)) as [b|] eqn:Hm; [|done].
    eapply term_moves; [done|eapply ts_size_call; [done..|]|done..]. cbn.
    destruct (WritePacket_enter _ _) eqn:Hx; [|done]. by destruct (t_ctx (h_term h)).
  - destruct Hok as (b & Hm & Hb). destruct (call_moves cause (y_c (h_net h)) (MkPacket HeaderTerminalInfo b))
      as [[c' Hw]|[err Hf]]; [by eapply accepted_moves; [done|by eapply ts_size_sent|..]|].
    destruct (write_fails (t_ctx (h_term h)) err HeaderTerminalInfo (terminalInfo sz)) as [e Hx].
    eapply term_moves; [done|eapply ts_size_failed; [done..| |done]|done..]. by rewrite Hctx.
  - destruct (Terminal.take MaxInputPacket (t_pending (h_term h))) as [p chunk] eqn:Ht.
    eapply term_moves; [done|by eapply ts_take|done..].
  - eapply term_moves; [done|by eapply ts_space|done..].
  - destruct (write (t_ctx (h_term h)) (WritePacket_enter (t_ctx (h_term h))) HeaderTerminalBuffer (SetBuffer c TerminalBuffer_zero))
      as [e|] eqn:Hw; [eapply term_moves; [done|by eapply ts_chunk_refused|done..]|].
    unfold write in Hw. destruct (proto_Marshal (SetBuffer c _)) as [b|] eqn:Hm; [|done].
    eapply term_moves; [done|eapply ts_chunk_call; [done..|]|done..]. cbn.
    destruct (WritePacket_enter _ _) eqn:Hx; [|done]. by destruct (t_ctx (h_term h)).
  - destruct Hok as (b & Hm & Hb). destruct (call_moves cause (y_c (h_net h)) (MkPacket HeaderTerminalBuffer b))
      as [[c' Hw]|[err Hf]]; [by eapply accepted_moves; [done|by eapply ts_chunk_sent|..]|].
    destruct (write_fails (t_ctx (h_term h)) err HeaderTerminalBuffer (SetBuffer c TerminalBuffer_zero)) as [e Hx].
    eapply term_moves; [done|eapply ts_chunk_failed; [done..| |done]|done..]. by rewrite Hctx.
Qed.

Lemma reader_moves cause h :
  ending cause h -> (forall e, t_reader (h_term h) <> RDone e) -> unblocked h -> moves h.
Proof.
  intros He Hd Hu. destruct (t_reader (h_term h)) as [|[b|b|b|d] dt e|e] eqn:Hr; [..|by destruct (Hd e)].
  - eapply term_moves; [done|apply (ts_read_none _ _ (Some (Foreign 0))); [done|by split_and!]|done..].
  - destruct (push_turn b (t_pending (h_term h))) as [p at_] eqn:Hp. eapply term_moves; [done|by eapply ts_push_turn|done..].
  - eapply term_moves; [done|by eapply ts_push_signal|done..].
  - eapply term_moves; [done|eapply ts_push_ctx; [done| |done]|done..]. by rewrite (en_term _ _ He).
  - eapply term_moves; [done|by eapply ts_pushed|done..].
Qed.

Lemma router_last cause h ph :
  ending cause h -> r_phase (h_router h) <> Reading ->
  router_step (h_router h) (with_queues (r_queues (h_router h)) ph (h_router h)) -> moves h.
Proof. intros [] Hp Hs. eexists. eapply sh_router; [done|]. by split_and!. Qed.

Lemma router_moves cause h : ending cause h -> (forall e normal, r_phase (h_router h) <> Router.Returned e normal) -> moves h.
Proof.
  intros He Hd. pose proof He as []. destruct (r_phase (h_router h)) as [|i p|[|i todo]|e normal] eqn:Hp.
  - destruct (y_taken (h_net h) !! S (length (r_read (h_router h)))) as [p|] eqn:Hl; [by eexists; eapply sh_route|].
    eexists. eapply (sh_route_fail _ _ _ ReadCtx); [done..|]. cbn. by rewrite en_router0.
  - eapply router_last; [done|congruence|by eapply rs_send_ctx].
  - eapply router_last; [done|congruence|by eapply rs_ended].
  - eapply router_last; [done|congruence|by eapply rs_drain_ctx].
  - by destruct (Hd e normal).
Qed.

Lemma screen_moves cause h : ending cause h -> sc_done (h_screen h) = None -> moves h.
Proof.
  intros He Hd. pose proof He as []. destruct (r_queues (h_router h) !! 0%nat) as [q|] eqn:Hq.
  2: { apply lookup_ge_None in Hq. lia. }
  destruct (q_drained q) eqn:Hdr; [by eexists; eapply sh_output_done|].
  eexists. apply sh_router; [done|]. split_and!.
  - apply (rs_yield_ctx _ 0 q); [done..|]. congruence.
  - done.
  - done.
  - cbn. unfold set_queue. rewrite list_fmap_insert. cbn. apply list_insert_id. by rewrite list_lookup_fmap, Hq.
  - done.
Qed.

(** Goroutine [i] of the group, which has not returned. *)
Lemma goroutine_moves cause h i : ending cause h -> n_live (h_run h) !! i = Some true -> moves h.
Proof.
  intros He Hl. pose proof He as []. assert (i < 4)%nat as Hi.
  { apply lookup_lt_Some in Hl. by rewrite (rn_len _ _ _ _ en_run0) in Hl. }
  assert (forall err, returned i err h -> moves h) as Hret by (intros err Hr; eexists; by eapply sh_return).
  destruct i as [|[|[|[|i]]]]; [| | | |lia].
  - destruct (r_phase (h_router h)) eqn:Hp; [by eapply router_moves; [|congruence]..|].
    eapply (Hret (Some err)). left. split; [done|]. by do 2 eexists.
  - destruct (sc_done (h_screen h)) as [err|] eqn:Hp; [|by eapply screen_moves].
    eapply Hret. right. left. done.
  - destruct (t_sender (h_term h)) eqn:Hp; [by eapply sender_moves; [|congruence]..|].
    eapply Hret. do 2 right. left. done.
  - apply (Hret None). do 3 right. split_and!; [done|congruence|done].
Qed.

Lemma own_progress cause h :
  ending cause h -> n_at (h_run h) = Session.RunReturned (Run_result cause) \/ moves h.
Proof.
  intros He. pose proof He as []. pose proof (rn_at _ _ _ _ en_run0) as Hat.
  destruct (n_at (h_run h)) as [|stuck|err] eqn:Hn.
  - right. eexists. eapply sh_run; [done|apply (ns_close _ _ _ None); [done|congruence]|done|done|by right].
  - right. destruct Hat as (_ & closeErr & Hce & Hst).
    destruct (list_find (fun b => b = true) (n_live (h_run h))) as [[i b]|] eqn:Hf.
    { apply list_find_Some in Hf as (Hi & -> & _). by eapply goroutine_moves. }
    apply list_find_None in Hf.
    assert (stuck = false -> n_reader (h_run h) = true -> moves h) as Hreader.
    { intros -> Hrd. destruct (t_reader (h_term h)) eqn:Hr;
        [by eapply reader_moves; [done|congruence|exists closeErr; split; [done|];
           destruct closeErr, closeMayStrandReader; auto; done]..|].
      eexists. by eapply sh_reader_return. }
    assert (stuck = true \/ n_reader (h_run h) = false -> moves h) as Hjoin.
    { intros Hor. eexists. eapply sh_run; [done|eapply (ns_join _ _ _ stuck cause); [done| | |done]|done|done|by right].
      - eapply Forall_impl; [exact Hf|]. by intros [].
      - intros _ Hs. destruct Hor; congruence. }
    destruct stuck; [by apply Hjoin; left|].
    destruct (n_reader (h_run h)); [by apply Hreader|by apply Hjoin; right].
  - left. destruct Hat as (_ & _ & c & Hc & ->). congruence.
Qed.

(** ** The theorem *)

(** [C5] Once the context of a session has ended, Run returns: every run of
    the program from there, in any order of its goroutines, from whatever
    they wait for, and whatever Close returns, is finite and comes to the
    return of the cause.  Closing the terminal is what ends the keyboard
    reader's Read; a WritePacket that is blocked ends with the context.  Up
    to [n] keys, resizes, packets, signals and steps of the connection may
    come in between, at any time. *)
Theorem shell_returns d id passkey sid c s size h cause n :
  shell_run closeMayStrandReader d id passkey sid c s size h ->
  h_stage h = StRun -> n_ctx (h_run h) = Some cause ->
  inevitable (disturbed own_step shell_step)
    (fun nh => n_at (h_run nh.2) = Session.RunReturned (Run_result cause)) (n, h).
Proof.
  intros Hr Hst Hc.
  apply (inevitable_measure own_step shell_step
    (fun h => n_at (h_run h) = Session.RunReturned (Run_result cause)) (ending cause) own_work).
  - intros a b Ha [Hs|Hs]; (eapply step_ending; [|exact Hs|exact Ha]; done).
  - intros a b. by apply own_step_work.
  - intros a Ha. by apply own_progress.
  - by eapply session_ending.
Qed.

End End_.

(** ** A signal ends a session at rest *)

From S2P Require Import Codecs.

Section Example.
#[local] Existing Instances toy_box tb_codec ti_codec exit_codec ipay_codec iresp_codec.

(** The session of [Shell.example_rest] after its parent context ended. *)
Definition example_run : run :=
  let n := h_run example_rest in
  MkRun (Some (Foreign 5)) (n_live n) (n_reader n) (n_at n) (n_errs n ++ [Foreign 5]) (n_close n).
Definition example_signalled : shell := Eval vm_compute in with_run example_run example_rest.

Lemma example_signalled_run :
  shell_run false example_dialer (bs "id") example_passkey (bs "id") example_c example_s (inr (Foreign 0)) example_signalled.
Proof.
  apply example_reaches; [|by vm_compute|by vm_compute].
  eapply rtc_r; [apply example_rest_run|].
  change example_signalled with (with_run example_run example_rest).
  apply sh_run; [reflexivity|exact (ns_parent _ _ (h_run example_rest) (Foreign 5))|reflexivity|reflexivity|left; exact I].
Qed.

(** The keyboard reader waits in Read and the router for a packet. *)
Lemma shell_returns_witness :
  n_at (h_run example_signalled) = RunWaiting /\ t_reader (h_term example_signalled) = RRead /\
  inevitable (disturbed (own_step false) (shell_step false))
    (fun nh => n_at (h_run nh.2) = Session.RunReturned (Some (Foreign 5))) (3%nat, example_signalled).
Proof.
  split; [reflexivity|]. split; [reflexivity|].
  exact (shell_returns false _ _ _ _ _ _ _ _ (Foreign 5) 3 example_signalled_run eq_refl eq_refl).
Defined.
End Example.
