(* ===== verification/RunLink.v ===== *)
(** * internal/etcp/link.go: runLink

    The reader, the writer and the watcher of one connection with the context
    they share.  The state of each is the point where it blocks, and its steps
    are the functions of [Link] and [LinkWriter] from there to the next such
    point: [handOver]'s select, [ReadFrame], the writer's wait and its Writes,
    the watcher's select.  [own_step] are the steps they take by themselves;
    [outside_step] is what comes from the peer, the timer and the callers of
    the Conn.  A Read or Write that is pending ends when the connection is
    closed, and a handover when the link's context ends; nothing else is
    assumed to end.  The theorem is that a link comes to its end. *)

From S2P Require Export LinkWriter.
Local Open Scope Z_scope.

(** ** Where the goroutines are *)

(** [readLoop]: before and in the handover of what an earlier link left, at
    the head of the loop over the catchup, handing over an opened packet, and
    in ReadFrame. *)
Inductive reader_next := NextCatchup (catchup : list bytes) | NextFrame (buf : rbuf).
Inductive reader_at :=
| RdPending (pending : list Packet) (catchup : list bytes)
| RdHandPending (p : Packet) (pending : list Packet) (catchup : list bytes)
| RdCatchup (catchup : list bytes)
| RdHand (p : Packet) (next : reader_next)
| RdFrames (buf : rbuf) (released : bool)
| RdDone.

Definition reader_after (next : reader_next) : reader_at :=
  match next with NextCatchup catchup => RdCatchup catchup | NextFrame buf => RdFrames buf true end.

(** [writeLoop]: at the head of its loop, in the select, in the Writes of the
    pass that began with the Conn [at_snapshot]. *)
Inductive writer_at :=
| WrPass
| WrWait
| WrWrite (at_snapshot : Conn)
| WrDone.

(** [watch]: in its select. *)
Inductive watch_at := WaWait (probed : bool) | WaDone.

(** [lr_ctx] is the link's context and [lr_errs] what it was cancelled with,
    in order; [lr_in] are the bytes that arrived and were not read yet. *)
Record link_run := MkLinkRun {
  lr_conn : Conn;
  lr_link : link;
  lr_ctx : option gerr;
  lr_errs : list gerr;
  lr_closed : bool;                   (* nc.Close was called *)
  lr_in : bytes;
  lr_reader : reader_at;
  lr_writer : writer_at;
  lr_watch : watch_at;
  lr_returned : option (option gerr)  (* what runLink returned *)
}.

Definition runLink_start (c : Conn) (catchup : list bytes) : link_run :=
  MkLinkRun c newLink None [] false [] (RdPending (i_pending (c_in c)) catchup) WrPass (WaWait false) None.

(** Only the first [cancel] has an effect. *)
Definition cancel_link (e : gerr) (r : link_run) : link_run :=
  MkLinkRun (lr_conn r) (lr_link r) (Some (default e (lr_ctx r))) (lr_errs r ++ [e]) (lr_closed r) (lr_in r)
    (lr_reader r) (lr_writer r) (lr_watch r) (lr_returned r).
Definition with_reader (c : Conn) (l : link) (inp : bytes) (a : reader_at) (r : link_run) : link_run :=
  MkLinkRun c l (lr_ctx r) (lr_errs r) (lr_closed r) inp a (lr_writer r) (lr_watch r) (lr_returned r).
Definition with_writer (c : Conn) (l : link) (a : writer_at) (r : link_run) : link_run :=
  MkLinkRun c l (lr_ctx r) (lr_errs r) (lr_closed r) (lr_in r) (lr_reader r) a (lr_watch r) (lr_returned r).
Definition with_watch (c : Conn) (l : link) (a : watch_at) (r : link_run) : link_run :=
  MkLinkRun c l (lr_ctx r) (lr_errs r) (lr_closed r) (lr_in r) (lr_reader r) (lr_writer r) a (lr_returned r).
Definition with_conn (c : Conn) (r : link_run) : link_run :=
  MkLinkRun c (lr_link r) (lr_ctx r) (lr_errs r) (lr_closed r) (lr_in r) (lr_reader r) (lr_writer r) (lr_watch r)
    (lr_returned r).
Definition with_input (closed : bool) (inp : bytes) (r : link_run) : link_run :=
  MkLinkRun (lr_conn r) (lr_link r) (lr_ctx r) (lr_errs r) closed inp (lr_reader r) (lr_writer r) (lr_watch r)
    (lr_returned r).
Definition with_returned (r : link_run) : link_run :=
  MkLinkRun (lr_conn r) (lr_link r) (lr_ctx r) (lr_errs r) true (lr_in r) (lr_reader r) (lr_writer r) (lr_watch r)
    (Some (lr_ctx r)).

(** A signal on l.alive, if the pass gave one. *)
Definition alive_signals (alive : list Z) (l : link) : link :=
  match alive with [] => l | _ => signal_alive l end.

Section RunLink.
Context `{HB : SecretBox}.

(** *** The reader *)

(** The part of [deliver] before its handover blocks, and from there on. *)
Definition deliver_enter (b : bytes) : reader_m Packet :=
  seq (deliver_open b) (fun p => seq (set_delivering true) (fun _ => ret p)).
Definition deliver_hand (p : Packet) : reader_m unit :=
  fun s => match handOver p s with
           | (s, Stop e) => seq (on_conn (keep_pending p)) (fun _ => stop e) s
           | r => r
           end.
(** One round of the loop over the packets an earlier link left. *)
Definition pending_hand (p : Packet) (rest : list Packet) : reader_m unit :=
  seq (handOver p)
    (fun _ => on_conn (fun c => set_in (MkInbound (i_in (c_in c)) (i_recvSeq (c_in c)) rest) c)).

(** What the select of a handover finds ready: the inbox, or the end of the
    link's context. *)
Definition hand_ready (ctx : option gerr) (ev : handover) : Prop :=
  match ev with Sent n => n = 0%nat | LinkEnded n cause => n = 0%nat /\ ctx = Some cause end.

(** The reader's state after a part of its code: it goes on, or its goroutine
    returns the error and cancels the link with it. *)
Definition reader_goes {A} (x : rstate * outcome A) (inp : bytes) (f : A -> reader_at) (r : link_run) : option link_run :=
  let '(s, o) := x in
  match o with
  | Ret a => Some (with_reader (rs_conn s) (rs_link s) inp (f a) r)
  | Stop e => Some (cancel_link e (with_reader (rs_conn s) (rs_link s) inp RdDone r))
  | Wait => None
  end.

Definition rstate_of (r : link_run) (evs : list handover) : rstate := MkR (lr_conn r) (lr_link r) [] evs.

(** What ReadFrame makes of the bytes that arrived, if the connection then
    fails with [err]. *)
Definition read_now (r : link_run) (err : gerr) (buf : rbuf) : res rbuf * bytes :=
  let '(x, _, rest) := ReadFrame (Reader [lr_in r] false err) buf in (x, stream rest).

(** *** The writer *)

(** A Write on the closed connection fails. *)
Definition closed_writer : writer := Writer [] [(0%nat, Some (Sentinel net_ErrClosed))].

(** How the Writes of a pass end. *)
Definition pass_ends (p : pass) (r : link_run) : option link_run :=
  match p with
  | Pass c alive _ => Some (with_writer c (alive_signals alive (lr_link r)) WrPass r)
  | PassFailed c e alive _ => Some (cancel_link e (with_writer c (alive_signals alive (lr_link r)) WrDone r))
  | Idle | PassPanic => None
  end.

(** *** The watcher *)

Definition watch_goes (x : watch_state * option Conn) (l : link) (r : link_run) : link_run :=
  let c := default (lr_conn r) (snd x) in
  match fst x with
  | Watching probed => with_watch c l (WaWait probed) r
  | WatchReturned e => cancel_link e (with_watch c l WaDone r)
  end.

(** ** The steps *)

Inductive own_step (r : link_run) : link_run -> Prop :=
(* readLoop *)
| rl_pending p ps cat :
    lr_reader r = RdPending (p :: ps) cat ->
    own_step r (with_reader (lr_conn r) (MkLink (l_alive (lr_link r)) true) (lr_in r) (RdHandPending p ps cat) r)
| rl_pending_done cat :
    lr_reader r = RdPending [] cat ->
    own_step r (with_reader (set_in (MkInbound (i_in (c_in (lr_conn r))) (i_recvSeq (c_in (lr_conn r))) []) (lr_conn r))
                  (lr_link r) (lr_in r) (RdCatchup cat) r)
| rl_hand_pending p ps cat ev r' :
    lr_reader r = RdHandPending p ps cat -> hand_ready (lr_ctx r) ev ->
    reader_goes (pending_hand p ps (rstate_of r [ev])) (lr_in r) (fun _ => RdPending ps cat) r = Some r' ->
    own_step r r'
| rl_catchup b cat r' :
    lr_reader r = RdCatchup (b :: cat) ->
    reader_goes (deliver_enter b (rstate_of r [])) (lr_in r) (fun p => RdHand p (NextCatchup cat)) r = Some r' ->
    own_step r r'
| rl_catchup_done :
    lr_reader r = RdCatchup [] ->
    own_step r (with_reader (lr_conn r) (lr_link r) (lr_in r) (RdFrames (RBuf [] 0) false) r)
| rl_hand p next ev r' :
    lr_reader r = RdHand p next -> hand_ready (lr_ctx r) ev ->
    reader_goes (deliver_hand p (rstate_of r [ev])) (lr_in r) (fun _ => reader_after next) r = Some r' ->
    own_step r r'
| rl_frame buf released err frame rest r' :
    lr_reader r = RdFrames buf released -> read_now r err buf = (Ok frame, rest) ->
    reader_goes (seq (first_frame released) (fun _ => deliver_enter (rb_data frame)) (rstate_of r [])) rest
      (fun p => RdHand p (NextFrame frame)) r = Some r' ->
    own_step r r'
| rl_read_failed buf released e rest r' :
    lr_reader r = RdFrames buf released -> lr_closed r = true ->
    read_now r (Sentinel net_ErrClosed) buf = (Err e, rest) ->
    reader_goes (frame_failed e (rstate_of r [])) rest id r = Some r' ->
    own_step r r'
(* writeLoop *)
| rl_idle base probe :
    lr_writer r = WrPass -> writeLoop_snapshot (c_out (lr_conn r)) = Some (base, probe, []) ->
    own_step r (with_writer (lr_conn r) (lr_link r) WrWait r)
| rl_batch base probe b batch f :
    lr_writer r = WrPass -> writeLoop_snapshot (c_out (lr_conn r)) = Some (base, probe, b :: batch) ->
    frame_batch base probe (b :: batch) frame_init = inl f ->
    own_step r (with_writer (lr_conn r) (lr_link r) (WrWrite (lr_conn r)) r)
| rl_corrupt base probe b batch e :
    lr_writer r = WrPass -> writeLoop_snapshot (c_out (lr_conn r)) = Some (base, probe, b :: batch) ->
    frame_batch base probe (b :: batch) frame_init = inr e ->
    own_step r (cancel_link e (with_writer (fst (fail e (lr_conn r))) (lr_link r) WrDone r))
| rl_wake :
    lr_writer r = WrWait -> c_wake (lr_conn r) = true ->
    own_step r (with_writer (set_signals false (c_space (lr_conn r)) (lr_conn r)) (lr_link r) WrPass r)
| rl_writer_ctx cause :
    lr_writer r = WrWait -> lr_ctx r = Some cause ->
    own_step r (cancel_link cause (with_writer (lr_conn r) (lr_link r) WrDone r))
| rl_write_closed c0 lp r' :
    lr_writer r = WrWrite c0 -> lr_closed r = true ->
    pass_ends (writeLoop_pass c0 closed_writer lp (lr_conn r)) r = Some r' -> own_step r r'
(* watch *)
| rl_watch_ctx probed cause :
    lr_watch r = WaWait probed -> lr_ctx r = Some cause ->
    own_step r (watch_goes (watch_step probed (WatchDone cause)) (lr_link r) r)
| rl_watch_alive probed :
    lr_watch r = WaWait probed -> l_alive (lr_link r) = true ->
    own_step r (watch_goes (watch_step probed WatchAlive) (MkLink false (l_delivering (lr_link r))) r)
(* runLink: the context of the Conn, context.AfterFunc, wg.Wait *)
| rl_parent cause :
    lr_ctx r = None -> c_ctx (lr_conn r) = Some cause -> own_step r (cancel_link cause r)
| rl_close k :
    lr_closed r = false -> lr_ctx r <> None -> own_step r (with_input true (take k (lr_in r)) r)
| rl_wait :
    lr_returned r = None -> lr_reader r = RdDone -> lr_writer r = WrDone -> lr_watch r = WaDone ->
    own_step r (with_returned r).

(** What callers of the Conn do to it: ReadPacket, WritePacket
    with the token it takes when it is woken, Close. *)
Definition caller_step (c c' : Conn) : Prop :=
  (exists ctx k x, ReadPacket ctx k c = Some (c', x)) \/ (exists p a, WritePacket_attempt p c = (c', a)) \/
  (exists e, c' = Conn.cancel e c) \/ c' = set_signals (c_wake c) false c.

Inductive outside_step (r : link_run) : link_run -> Prop :=
| ro_caller c : caller_step (lr_conn r) c -> outside_step r (with_conn c r)
| ro_arrive b : lr_closed r = false -> outside_step r (with_input false (lr_in r ++ b) r)
| ro_broken buf released err e rest r' :   (* the connection ended, or a length that is too large arrived *)
    lr_reader r = RdFrames buf released -> read_now r err buf = (Err e, rest) ->
    reader_goes (frame_failed e (rstate_of r [])) rest id r = Some r' -> outside_step r r'
| ro_progress c0 :                         (* a piece was written ahead of a probe *)
    lr_writer r = WrWrite c0 -> outside_step r (with_writer (lr_conn r) (signal_alive (lr_link r)) (WrWrite c0) r)
| ro_write c0 w lp r' :
    lr_writer r = WrWrite c0 -> pass_ends (writeLoop_pass c0 w lp (lr_conn r)) r = Some r' -> outside_step r r'
| ro_tick probed :
    lr_watch r = WaWait probed ->
    outside_step r (watch_goes (watch_step probed (WatchTick (l_delivering (lr_link r)) (lr_conn r))) (lr_link r) r).

Definition runLink_step (r r' : link_run) : Prop := own_step r r' \/ outside_step r r'.

(** ** What the steps leave of the Conn *)

(** The entries to be sent next are in the ring. *)
Definition window (c : Conn) : Prop :=
  r_first (o_ring (c_out c)) <= o_flushed (c_out c) <= ring_next (o_ring (c_out c)).

(** A step that only adds to the ring and never revives the Conn. *)
Record grows (c c' : Conn) : Prop := {
  gr_flushed : o_flushed (c_out c') = o_flushed (c_out c);
  gr_next : ring_next (o_ring (c_out c)) <= ring_next (o_ring (c_out c'));
  gr_window : window c -> window c';
  gr_ctx : c_ctx c <> None -> c_ctx c' <> None
}.
(** One that does not wake the writer either. *)
Definition keeps (c c' : Conn) : Prop := grows c c' /\ c_wake c' = c_wake c.

#[local] Instance grows_preorder : PreOrder grows.
Proof.
  split; [by split|]. intros a b c [A1 A2 A3 A4] [B1 B2 B3 B4]. split; [congruence|lia|auto|auto].
Qed.
#[local] Instance keeps_preorder : PreOrder keeps.
Proof.
  split; [by split|]. intros a b c [A1 A2] [B1 B2]. split; [by etransitivity|congruence].
Qed.

Lemma keeps_out c c' :
  c_out c' = c_out c -> c_wake c' = c_wake c -> (c_ctx c <> None -> c_ctx c' <> None) -> keeps c c'.
Proof. intros Ho Hw Hc. split; [|done]. split; unfold window; rewrite ?Ho; done || lia. Qed.

Lemma keeps_cancel e c : keeps c (Conn.cancel e c).
Proof. unfold Conn.cancel. destruct (c_ctx c) eqn:Hc; [reflexivity|]. apply keeps_out; cbn; congruence. Qed.

Lemma trim_window r keep unsent :
  r_first r <= keep <= ring_next r ->
  r_first (trim r keep unsent) <= keep /\ ring_next (trim r keep unsent) = ring_next r.
Proof.
  intros Hk. unfold trim. destruct (trim_loop r keep unsent (r_entries r) 0 (r_bytes r)) as [n total] eqn:Ht.
  apply trim_loop_spec in Ht as (k & -> & Hk0 & _ & Hkk & _ & _). unfold ring_next. cbn.
  rewrite zlen_zdrop. destruct (decide (k = 0)); lia.
Qed.

Lemma keeps_releaseHold c : window c -> keeps c (releaseHold c).
Proof.
  intros Hw. unfold releaseHold. destruct (r_held _); [|reflexivity].
  match goal with |- context[trim ?r ?k ?u] => destruct (trim_window r k u Hw) as [T1 T2] end.
  split; [|done]. split; [done|cbn; rewrite T2; cbn; unfold ring_next; cbn; lia| |done].
  intros _. unfold window. cbn [c_out set_out o_ring set_ring o_flushed]. rewrite T2. split; [done|apply Hw].
Qed.

Lemma grows_enqueue p c o :
  o_ring o = o_ring (c_out c) -> o_flushed o = o_flushed (c_out c) -> grows c (set_out (enqueueLocked p o) c).
Proof.
  intros Hr Hf. unfold enqueueLocked. destruct (Seal _ _ _) as [st data]. rewrite Hr, Hf.
  split; cbn [c_out set_out o_flushed o_ring c_ctx]; try done;
    unfold window, ring_next, push; cbn [c_out set_out o_flushed o_ring r_first r_entries];
    rewrite zlen_app; change (zlen [data]) with 1; lia.
Qed.

Lemma grows_signals w s c : grows c (set_signals w s c).
Proof. split; done || (cbn; lia). Qed.

Lemma grows_attempt p c c' a : WritePacket_attempt p c = (c', a) -> grows c c'.
Proof.
  unfold WritePacket_attempt. destruct (c_ctx c); [intros [= <- _]; reflexivity|].
  destruct (_ <=? _); [|intros [= <- _]; reflexivity].
  set (o := enqueueLocked p (c_out c)). set (c1 := set_out o c).
  assert (grows c c1) as H1 by by apply grows_enqueue.
  destruct (_ <=? _); intros [= <- _]; (etransitivity; [exact H1|]); [|apply grows_signals].
  etransitivity; [|apply grows_signals]. apply grows_signals.
Qed.

Lemma grows_probeOnce c : grows c (probeOnce c).
Proof.
  unfold probeOnce. destruct (_ >=? _); [reflexivity|].
  match goal with |- context[enqueueLocked ?p ?o] => transitivity (set_out (enqueueLocked p o) c) end;
    [by apply grows_enqueue|apply grows_signals].
Qed.

Lemma grows_caller c c' : caller_step c c' -> grows c c'.
Proof.
  intros [(ctx & k & x & Hr)|[(p & a & Hw)|[(e & ->)| ->]]];
    [|by eapply grows_attempt|apply keeps_cancel|apply grows_signals].
  unfold ReadPacket in Hr. repeat case_match; simplify_option_eq; apply keeps_out; done.
Qed.

(** ** The reader's parts *)

(** What a part of the reader leaves: a Conn that keeps its sending side, and
    a sign of life only where there was one. *)
Definition reader_keeps (s s' : rstate) : Prop :=
  keeps (rs_conn s) (rs_conn s') /\ l_alive (rs_link s') = l_alive (rs_link s).

Lemma reader_keeps_trans a b c : reader_keeps a b -> reader_keeps b c -> reader_keeps a c.
Proof. intros [A1 A2] [B1 B2]. split; [by etransitivity|congruence]. Qed.

Lemma deliver_enter_keeps b s s' o : deliver_enter b s = (s', o) -> reader_keeps s s' /\ o <> Wait.
Proof.
  unfold deliver_enter, seq. destruct (deliver_open b s) as [s1 o1] eqn:Ho.
  apply deliver_open_cases in Ho as (Hl & _ & _ & Ho).
  assert (keeps (rs_conn s) (rs_conn s1) /\ o1 <> Wait) as [Hk Hw].
  { destruct o1 as [p|e|]; [destruct Ho as [_ ->]|destruct Ho as [[_ [st ->]] _]|done]; (split; [|done]).
    - by apply keeps_out.
    - etransitivity; [|apply keeps_cancel]. by apply keeps_out. }
  destruct o1 as [p|e|]; [|intros [= <- <-]; by split; [split; [|by rewrite Hl]|]|done].
  unfold set_delivering, on_link, ret. intros [= <- <-]. split; [split; [done|by rewrite Hl]|done].
Qed.

Lemma handOver_keeps p s s' o :
  handOver p s = (s', o) -> reader_keeps s s'.
Proof.
  intros Hh. pose proof Hh as Hc. apply handOver_cases in Hc as (inbox' & Hc & _). split; [rewrite Hc; by apply keeps_out|].
  unfold handOver, handOver_select, seq, set_delivering, on_link, callers_take, on_conn, stop in Hh.
  destruct s as [c l tk [|[n|n cause] evs]]; cbn in Hh; [by injection Hh as <- _| |by injection Hh as <- _].
  destruct (decide _); by injection Hh as <- _.
Qed.

(** A handover whose link has ended returns, and one that returns either gave
    the packet or the cause. *)
Lemma handOver_ended p s cause :
  rs_events s = [LinkEnded 0 cause] -> exists s', handOver p s = (s', Stop cause).
Proof. destruct s as [c l tk evs]. cbn. intros ->. by eexists. Qed.

Lemma deliver_hand_keeps p s s' o : deliver_hand p s = (s', o) -> reader_keeps s s'.
Proof.
  unfold deliver_hand. destruct (handOver p s) as [s1 o1] eqn:Hh. apply handOver_keeps in Hh.
  destruct o1; [by intros [= <- _]| |by intros [= <- _]]. unfold seq, on_conn, stop. intros [= <- _].
  eapply reader_keeps_trans; [exact Hh|]. split; [by apply keeps_out|done].
Qed.

Lemma pending_hand_keeps p ps s s' o : pending_hand p ps s = (s', o) -> reader_keeps s s'.
Proof.
  unfold pending_hand, seq. destruct (handOver p s) as [s1 o1] eqn:Hh. apply handOver_keeps in Hh.
  destruct o1; [|by intros [= <- _]..]. unfold on_conn. intros [= <- _].
  eapply reader_keeps_trans; [exact Hh|]. split; [by apply keeps_out|done].
Qed.

Lemma first_frame_keeps released s s' o :
  window (rs_conn s) -> first_frame released s = (s', o) -> keeps (rs_conn s) (rs_conn s') /\ o = Ret tt.
Proof.
  intros Hw. unfold first_frame, seq, on_link, on_conn, ret. destruct released; intros [= <- <-]; (split; [|done]);
    [reflexivity|by apply keeps_releaseHold].
Qed.

Lemma frame_keeps released b s s' o :
  window (rs_conn s) -> seq (first_frame released) (fun _ => deliver_enter b) s = (s', o) ->
  keeps (rs_conn s) (rs_conn s') /\ o <> Wait.
Proof.
  intros Hw. unfold seq at 1. destruct (first_frame released s) as [s1 o1] eqn:Hf.
  apply first_frame_keeps in Hf as [Hk ->]; [|done]. intros Hd. apply deliver_enter_keeps in Hd as [[Hk2 _] Hn].
  split; [by etransitivity|done].
Qed.

Lemma frame_failed_keeps {A} e s s' (o : outcome A) : frame_failed e s = (s', o) -> reader_keeps s s' /\ exists err, o = Stop err.
Proof.
  unfold frame_failed, stop_fail, stop, fail. destruct (errors_Is _ _); intros [= <- <-]; (split; [|by eexists]); split;
    done || apply keeps_cancel.
Qed.

(** The two parts of [deliver] make it up; setting [delivering] twice is
    setting it once. *)
Lemma deliver_parts b s : seq (deliver_enter b) deliver_hand s = deliver b s.
Proof.
  unfold deliver_enter, deliver. unfold seq at 1 2 4. destruct (deliver_open b s) as [s1 [p|e|]]; [|done..].
  unfold deliver_hand, seq at 1, set_delivering, on_link, ret, handOver. cbn. by destruct s1.
Qed.

(** Reading a frame takes at least its length field; it never panics. *)
Lemma read_now_cases r err buf :
  match read_now r err buf with
  | (Ok frame, rest) => (length rest + 4 <= length (lr_in r))%nat
  | (Err _, _) => True
  | (Panic, _) | (OutOfFuel, _) => False
  end.
Proof.
  unfold read_now. destruct (ReadFrame_refines (Reader [lr_in r] false err) buf) as (x & al & rd & -> & Hx & _ & Hrest).
  unfold stream at 1 in Hx. cbn [r_pieces concat r_err] in Hx. rewrite app_nil_r in Hx.
  unfold stream at 1 in Hrest. cbn [r_pieces concat] in Hrest. rewrite app_nil_r in Hrest.
  assert (4 <= zlen (lr_in r) \/ exists e, frame_outcome (lr_in r) err = Err e) as Hlen.
  { unfold frame_outcome. destruct (_ =? 0); [right; destruct (errors_Is _ _); by eexists|].
    destruct (Z.ltb_spec (zlen (lr_in r)) 4); [right; by eexists|by left]. }
  destruct x as [frame|e| |]; cbn [map_res] in Hx; [|done|..].
  - destruct (Hrest frame eq_refl) as [Hs _]. unfold rest_of, stream at 2 in Hs. cbn in Hs. rewrite app_nil_r in Hs.
    destruct Hlen as [Hl|[e He]]; [|congruence]. pose proof (Uint32_be_take_range _ Hl).
    rewrite Hs, length_drop. unfold frame_consumed, zlen in *. lia.
  - unfold frame_outcome in Hx. repeat case_match; done.
  - unfold frame_outcome in Hx. repeat case_match; done.
Qed.

(** ** The writer's parts *)

Lemma snapshot_window c :
  window c -> exists batch,
    writeLoop_snapshot (c_out c) = Some (o_flushed (c_out c), o_lastProbe (c_out c), batch) /\
    o_flushed (c_out c) + zlen batch <= ring_next (o_ring (c_out c)).
Proof.
  intros [H1 H2]. unfold writeLoop_snapshot, appendRange, ring_next in *.
  assert (0 < maxBatchEntries) by by vm_compute.
  rewrite slice_Some by lia. cbn [fmap option_fmap option_map mbind option_bind app]. eexists. split; [done|].
  rewrite zlen_ztake, zlen_zdrop. lia.
Qed.

(** Framing at least one entry yields something to write, and counts at most
    the batch. *)
Lemma frame_batch_grows base probe batch f f' :
  frame_batch base probe batch f = inl f' ->
  zlen (f_buf f) <= zlen (f_buf f') /\ f_sent f <= f_sent f' <= f_sent f + zlen batch.
Proof.
  revert f. induction batch as [|e batch IH]; intros f; cbn [frame_batch].
  - intros [= <-]. rewrite zlen_nil. lia.
  - rewrite zlen_cons. pose proof (zlen_nonneg batch). destruct (_ && _); [intros [= <-]; lia|].
    unfold AppendFrame. destruct (MaxFrameSize <? zlen e); [done|]. intros Hf%IH. cbn [f_buf f_sent] in Hf.
    unfold AppendUint32_be in Hf. rewrite !zlen_app in Hf. pose proof (zlen_nonneg e).
    pose proof (zlen_nonneg (rev (le_bytes 4 (zlen e)))). lia.
Qed.

Lemma frame_batch_nonempty base probe b batch f :
  frame_batch base probe (b :: batch) frame_init = inl f -> 0 < zlen (f_buf f).
Proof.
  cbn [frame_batch frame_init f_sent f_buf]. cbn [andb]. change (0 >? 0) with false. cbn [andb].
  unfold AppendFrame. destruct (MaxFrameSize <? zlen b); [done|]. intros Hf%frame_batch_grows.
  cbn [f_buf] in Hf. unfold AppendUint32_be in Hf. rewrite !zlen_app, zlen_be32 in Hf.
  pose proof (zlen_nonneg b). change (zlen []) with 0 in Hf. lia.
Qed.

(** Where a pass can begin. *)
Definition batch_ready (c : Conn) : Prop :=
  exists base probe b batch f, writeLoop_snapshot (c_out c) = Some (base, probe, b :: batch) /\
    frame_batch base probe (b :: batch) frame_init = inl f /\
    f_sent f <= ring_next (o_ring (c_out c)) - o_flushed (c_out c) /\ 0 <= f_sent f.

Lemma batch_ready_intro c base probe b batch f :
  window c -> writeLoop_snapshot (c_out c) = Some (base, probe, b :: batch) ->
  frame_batch base probe (b :: batch) frame_init = inl f -> batch_ready c.
Proof.
  intros Hw Hs Hf. exists base, probe, b, batch, f. split_and!; try done;
    apply frame_batch_grows in Hf as [_ Hf]; cbn [frame_init f_sent] in Hf; [|lia].
  destruct (snapshot_window _ Hw) as (batch' & Hs' & Hn). rewrite Hs in Hs'. injection Hs' as _ _ <-. lia.
Qed.

(** The Writes of a pass on the closed connection fail. *)
Lemma pass_closed c lp now : batch_ready c -> exists e w, writeLoop_pass c closed_writer lp now = PassFailed now e [] w.
Proof.
  intros (base & probe & b & batch & f & Hs & Hf & _). pose proof (frame_batch_nonempty _ _ _ _ _ Hf) as Hn.
  unfold writeLoop_pass. rewrite Hs, Hf. unfold closed_writer. cbn [write_pieces].
  destruct (Z.ltb_spec 0 (zlen (f_buf f))); [|lia]. by do 2 eexists.
Qed.

(** A pass ends with the Conn as it is then, but for the commit. *)
Lemma pass_conn c w lp now :
  batch_ready c -> o_flushed (c_out c) = o_flushed (c_out now) ->
  ring_next (o_ring (c_out c)) <= ring_next (o_ring (c_out now)) -> window now ->
  match writeLoop_pass c w lp now with
  | Pass c' _ _ => window c' /\ (c_ctx now <> None -> c_ctx c' <> None)
  | PassFailed c' _ _ _ => c' = now
  | Idle | PassPanic => True
  end.
Proof.
  intros (base & probe & b & batch & f & Hs & Hf & Hsent & Hpos) Hfl Hn Hw. unfold writeLoop_pass.
  rewrite Hs, Hf. destruct (write_pieces _ _ _ _ _ _ _ _) as [[[e|] alive] w']; [done|].
  unfold writeLoop_commit, releaseLocked. cbn [o_flushed o_ring o_unsent].
  match goal with |- context[trim ?r ?k ?u] => destruct (trim_window r k u) as [T1 T2] end.
  { unfold window in Hw. lia. }
  assert (forall o, o_ring o = trim (o_ring (c_out now)) (o_flushed (c_out now) + f_sent f) (o_unsent (c_out now) - f_n f) ->
    o_flushed o = o_flushed (c_out now) + f_sent f -> window (set_out o now)) as Hwin.
  { intros o Ho Ho2. unfold window. cbn [c_out set_out]. rewrite Ho, Ho2, T2. unfold window in Hw. lia. }
  destruct (_ <=? _); (split; [|done]); [|by apply Hwin]. change (window (signal_space (set_out
    (set_ring (trim (o_ring (c_out now)) (o_flushed (c_out now) + f_sent f) (o_unsent (c_out now) - f_n f))
      (MkOutbound (o_out (c_out now)) (o_ring (c_out now)) (o_flushed (c_out now) + f_sent f)
         (o_unsent (c_out now) - f_n f) (o_lastProbe (c_out now)))) now))).
  unfold window. cbn [c_out signal_space set_signals]. by apply Hwin.
Qed.

(** ** The invariant of a link *)

(** The link's context is done, or will be since the Conn's is. *)
Definition link_ended (r : link_run) : Prop := lr_ctx r <> None \/ c_ctx (lr_conn r) <> None.

(** What is known of the end of a link. *)
Inductive fate := Unknown | Ending | EndsWith (cause : gerr).
Definition fated (E : fate) (r : link_run) : Prop :=
  match E with Unknown => True | Ending => link_ended r | EndsWith e => lr_ctx r = Some e end.

Record link_inv (E : fate) (r : link_run) : Prop := {
  li_window : window (lr_conn r);
  li_batch : forall c0, lr_writer r = WrWrite c0 -> batch_ready c0 /\
    o_flushed (c_out c0) = o_flushed (c_out (lr_conn r)) /\
    ring_next (o_ring (c_out c0)) <= ring_next (o_ring (c_out (lr_conn r)));
  li_first : lr_ctx r = head (lr_errs r);
  li_ctx : lr_reader r = RdDone \/ lr_writer r = WrDone \/ lr_watch r = WaDone \/ lr_closed r = true ->
    lr_ctx r <> None;
  li_returned : forall e, lr_returned r = Some e ->
    e = lr_ctx r /\ lr_closed r = true /\ lr_reader r = RdDone /\ lr_writer r = WrDone /\ lr_watch r = WaDone;
  li_fate : fated E r
}.

Lemma runLink_start_inv c cat : window c -> link_inv Unknown (runLink_start c cat).
Proof. intros Hw. split; try done. by intros [?|[?|[?|?]]]. Qed.

Lemma link_inv_fate E E' r : link_inv E r -> fated E' r -> link_inv E' r.
Proof. intros [] He. by split. Qed.

Lemma fated_ended E r : fated E r -> E <> Unknown -> link_ended r.
Proof. destruct E; cbn; [done|done|]. intros He _. left. congruence. Qed.

(** What keeps the link's context and does not revive the Conn keeps its fate. *)
Lemma fated_keep E r r' : fated E r -> lr_ctx r' = lr_ctx r ->
  (c_ctx (lr_conn r) <> None -> c_ctx (lr_conn r') <> None) -> fated E r'.
Proof.
  intros Hf Hl Hc. destruct E; cbn in *; [done| |congruence].
  destruct Hf as [?|?]; [left; congruence|right; auto].
Qed.
Lemma fated_cancel E r r' e : fated E r -> lr_ctx r' = Some (default e (lr_ctx r)) -> fated E r'.
Proof. intros Hf Hl. destruct E; cbn in *; [done|left; congruence|by rewrite Hl, Hf]. Qed.

Section Invariant.
Context {E : fate}.
Local Notation link_inv := (link_inv E).

Lemma grows_inv c l inp a wr wa r :
  link_inv r -> grows (lr_conn r) c ->
  (a = RdDone -> lr_reader r = RdDone) -> (lr_reader r = RdDone -> a = RdDone) ->
  (wr = WrDone -> lr_writer r = WrDone) -> (lr_writer r = WrDone -> wr = WrDone) ->
  (wa = WaDone -> lr_watch r = WaDone) -> (lr_watch r = WaDone -> wa = WaDone) ->
  (forall c0, wr = WrWrite c0 -> lr_writer r = WrWrite c0 \/ c0 = c /\ batch_ready c) ->
  link_inv (MkLinkRun c l (lr_ctx r) (lr_errs r) (lr_closed r) inp a wr wa (lr_returned r)).
Proof.
  intros [] [G1 G2 G3 G4] Ha Ha' Hwr Hwr' Hwa Hwa' Hb. split; cbn; try done; [auto| |naive_solver| |].
  - intros c0 Hc. destruct (Hb _ Hc) as [Hc'|[-> Hr]]; [|by split_and!].
    destruct (li_batch0 _ Hc') as (B1 & B2 & B3). rewrite G1. split_and!; try done. lia.
  - intros e He. destruct (li_returned0 e He) as (-> & -> & R1 & R2 & R3). split_and!; auto.
  - by eapply fated_keep.
Qed.

(** A goroutine returns an error. *)
Lemma cancel_inv e r c l inp a wr wa :
  link_inv r -> grows (lr_conn r) c ->
  (lr_reader r = RdDone -> a = RdDone) -> (lr_writer r = WrDone -> wr = WrDone) -> (lr_watch r = WaDone -> wa = WaDone) ->
  (forall c0, wr = WrWrite c0 -> lr_writer r = WrWrite c0) ->
  link_inv (cancel_link e (MkLinkRun c l (lr_ctx r) (lr_errs r) (lr_closed r) inp a wr wa (lr_returned r))).
Proof.
  intros [] [G1 G2 G3 G4] Ha Hwr Hwa Hb. split; cbn; try done; [auto|..].
  - intros c0 Hc. destruct (li_batch0 _ (Hb _ Hc)) as (B1 & B2 & B3). rewrite G1. split_and!; try done. lia.
  - rewrite li_first0. by destruct (lr_errs r).
  - intros x Hx. destruct (li_returned0 x Hx) as (-> & Hcl & R1 & R2 & R3).
    split_and!; auto. specialize (li_ctx0 (or_introl R1)). by destruct (lr_ctx r).
  - by eapply fated_cancel.
Qed.

Lemma reader_goes_inv {A} (x : rstate * outcome A) inp f r r' :
  link_inv r -> grows (lr_conn r) (rs_conn (fst x)) -> lr_reader r <> RdDone -> (forall a, f a <> RdDone) ->
  reader_goes x inp f r = Some r' -> link_inv r'.
Proof.
  intros Hi Hg Hr Hf. destruct x as [s [a|e|]]; [| |done]; intros [= <-].
  - apply grows_inv; try done; [intros ?; by destruct (Hf a)|by left].
  - by apply cancel_inv.
Qed.

Lemma frame_failed_goes_inv e inp r r' evs :
  link_inv r -> lr_reader r <> RdDone ->
  reader_goes (frame_failed e (rstate_of r evs)) inp id r = Some r' -> link_inv r'.
Proof.
  intros Hi Hr. destruct (frame_failed e (rstate_of r evs)) as [s o] eqn:Hs.
  apply frame_failed_keeps in Hs as [[[Hk _] _] [err ->]]. intros [= <-]. by apply cancel_inv.
Qed.

Lemma pass_ends_inv c0 w lp r r' :
  link_inv r -> lr_writer r = WrWrite c0 -> pass_ends (writeLoop_pass c0 w lp (lr_conn r)) r = Some r' -> link_inv r'.
Proof.
  intros Hi Hw. pose proof Hi as []. destruct (li_batch0 _ Hw) as (B1 & B2 & B3).
  pose proof (pass_conn _ w lp _ B1 B2 B3 li_window0) as Hp.
  destruct (writeLoop_pass _ _ _ _) as [|c alive w'|c e alive w'|]; cbn; try done; intros [= <-].
  - destruct Hp as [Hwin Hctx]. split; cbn; try done.
    + intros [?|[?|[?|?]]]; apply li_ctx0; auto; done.
    + intros e He. destruct (li_returned0 e He) as (? & ? & ? & ? & ?). congruence.
    + by eapply fated_keep.
  - subst c. by apply cancel_inv.
Qed.

Lemma watch_goes_inv x l r probed :
  link_inv r -> lr_watch r = WaWait probed -> grows (lr_conn r) (default (lr_conn r) (snd x)) ->
  link_inv (watch_goes x l r).
Proof.
  intros Hi Hw Hg. destruct x as [[p|e] oc]; cbn in *.
  - apply grows_inv; try done; rewrite ?Hw; try done. by left.
  - apply cancel_inv; try done; by rewrite ?Hw.
Qed.

Lemma own_step_inv r r' : link_inv r -> own_step r r' -> link_inv r'.
Proof.
  intros Hi Hs. pose proof Hi as []. destruct Hs.
  - apply grows_inv; try done; rewrite ?H; try done. by left.
  - apply grows_inv; try done; rewrite ?H; try done; first [by left|by apply keeps_out].
  - destruct (pending_hand _ _ _) as [s o] eqn:Hh. apply pending_hand_keeps in Hh as [[Hk _] _].
    by eapply (reader_goes_inv (s, o)); [exact Hi|exact Hk|rewrite H| |eassumption].
  - destruct (deliver_enter _ _) as [s o] eqn:Hh. apply deliver_enter_keeps in Hh as [[[Hk _] _] _].
    by eapply (reader_goes_inv (s, o)); [exact Hi|exact Hk|rewrite H| |eassumption].
  - apply grows_inv; try done; rewrite ?H; try done. by left.
  - destruct (deliver_hand _ _) as [s o] eqn:Hh. apply deliver_hand_keeps in Hh as [[Hk _] _].
    by eapply (reader_goes_inv (s, o)); [exact Hi|exact Hk|rewrite H|destruct next|eassumption].
  - destruct (seq _ _ _) as [s o] eqn:Hh. apply frame_keeps in Hh as [[Hk _] _]; [|done].
    by eapply (reader_goes_inv (s, o)); [exact Hi|exact Hk|rewrite H| |eassumption].
  - eapply frame_failed_goes_inv; [done| |done]. congruence.
  - apply grows_inv; try done; by rewrite ?H.
  - apply grows_inv; try done; rewrite ?H; try done. intros c0 [= <-]. right. split; [done|]. by eapply batch_ready_intro.
  - apply cancel_inv; try done; apply keeps_cancel.
  - by apply grows_inv; rewrite ?H.
  - apply cancel_inv; try done; by rewrite ?H.
  - by eapply pass_ends_inv.
  - by eapply watch_goes_inv.
  - by eapply watch_goes_inv.
  - by apply (cancel_inv cause r (lr_conn r) (lr_link r) (lr_in r) (lr_reader r) (lr_writer r) (lr_watch r));
      [|reflexivity|..].
  - split; cbn; try done. intros e He. by destruct (li_returned0 e He) as (? & ? & ? & ? & ?).
  - split; cbn; try done; [|by intros e [= <-]]. intros _. apply li_ctx0. auto.
Qed.

Lemma outside_step_inv r r' : link_inv r -> outside_step r r' -> link_inv r'.
Proof.
  intros Hi Hs. pose proof Hi as []. destruct Hs.
  - apply grows_inv; try done; [by apply grows_caller|by left].
  - split; cbn; try done.
    + intros [?|[?|[?|?]]]; try done; apply li_ctx0; auto.
    + intros e He. destruct (li_returned0 e He) as (? & ? & ? & ? & ?). congruence.
  - eapply frame_failed_goes_inv; [done| |done]. congruence.
  - apply grows_inv; try done; rewrite ?H; try done. by left.
  - by eapply pass_ends_inv.
  - eapply watch_goes_inv; [done..|]. cbn. repeat case_match; cbn; try reflexivity. apply grows_probeOnce.
Qed.

End Invariant.

(** ** The work left *)

Definition reader_work (a : reader_at) (inp : bytes) : nat :=
  match a with
  | RdPending ps cat => 3 * length ps + 3 * length cat + 6 + 8 * length inp
  | RdHandPending _ ps cat => 3 * length ps + 3 * length cat + 8 + 8 * length inp
  | RdCatchup cat => 3 * length cat + 4 + 8 * length inp
  | RdHand _ (NextCatchup cat) => 3 * length cat + 5 + 8 * length inp
  | RdHand _ (NextFrame _) => 3 + 8 * length inp
  | RdFrames _ _ => 2 + 8 * length inp
  | RdDone => 0
  end.
Definition writer_work (a : writer_at) : nat :=
  match a with WrPass => 3 | WrWrite _ => 2 | WrWait => 1 | WrDone => 0 end.
Definition watch_work (a : watch_at) : nat := match a with WaWait _ => 1 | WaDone => 0 end.
Definition undone {A} (x : option A) : nat := match x with Some _ => 0 | None => 1 end.

Definition link_work (r : link_run) : nat :=
  reader_work (lr_reader r) (lr_in r) + writer_work (lr_writer r) + watch_work (lr_watch r) +
  3 * Nat.b2n (c_wake (lr_conn r)) + Nat.b2n (l_alive (lr_link r)) +
  Nat.b2n (negb (lr_closed r)) + undone (lr_ctx r) + undone (lr_returned r).

Lemma cancel_work e r : (link_work (cancel_link e r) <= link_work r)%nat.
Proof. unfold link_work. cbn. destruct (lr_ctx r); cbn; lia. Qed.

(** A part of the reader that goes on from less. *)
Lemma reader_goes_work {A} (x : rstate * outcome A) inp f r r' :
  c_wake (rs_conn (fst x)) = c_wake (lr_conn r) ->
  (forall a, (reader_work (f a) inp + Nat.b2n (l_alive (rs_link (fst x))) <
    reader_work (lr_reader r) (lr_in r) + Nat.b2n (l_alive (lr_link r)))%nat) ->
  (Nat.b2n (l_alive (rs_link (fst x))) <
    reader_work (lr_reader r) (lr_in r) + Nat.b2n (l_alive (lr_link r)))%nat ->
  reader_goes x inp f r = Some r' -> (link_work r' < link_work r)%nat.
Proof.
  intros Hw Hf Hd. destruct x as [s [a|e|]]; [| |done]; intros [= <-]; cbn [fst] in *.
  - specialize (Hf a). unfold link_work. cbn. rewrite Hw. lia.
  - eapply Nat.le_lt_trans; [apply cancel_work|]. unfold link_work. cbn. rewrite Hw. lia.
Qed.

Lemma own_reader_work {A} (x : rstate * outcome A) inp f r r' evs :
  reader_keeps (rstate_of r evs) (fst x) ->
  (forall a, (reader_work (f a) inp < reader_work (lr_reader r) (lr_in r))%nat) ->
  (0 < reader_work (lr_reader r) (lr_in r))%nat ->
  reader_goes x inp f r = Some r' -> (link_work r' < link_work r)%nat.
Proof.
  intros [[_ Hw] Ha] Hf H0. apply reader_goes_work; [done|..]; cbn in Ha; rewrite Ha; [|lia].
  intros a. specialize (Hf a). lia.
Qed.

Lemma watch_goes_work x l r probed :
  lr_watch r = WaWait probed -> snd x = None ->
  (Nat.b2n (l_alive l) < Nat.b2n (l_alive (lr_link r)))%nat \/ l = lr_link r /\ (exists e, fst x = WatchReturned e) ->
  (link_work (watch_goes x l r) < link_work r)%nat.
Proof.
  intros Hw Hn Hl. destruct x as [st oc]. cbn in Hn. subst oc. unfold watch_goes. cbn [fst snd default].
  assert (forall a, (watch_work a + Nat.b2n (l_alive l) < 1 + Nat.b2n (l_alive (lr_link r)))%nat ->
    (link_work (with_watch (lr_conn r) l a r) < link_work r)%nat) as Hlt.
  { intros a Ha. unfold link_work. cbn. rewrite Hw. cbn [watch_work]. lia. }
  destruct st as [p|e]; [|eapply Nat.le_lt_trans; [apply cancel_work|]]; apply Hlt; cbn [watch_work].
  - destruct Hl as [|[_ [e [=]]]]. lia.
  - destruct Hl as [|[-> _]]; lia.
Qed.

Lemma own_link_work E r r' : link_inv E r -> own_step r r' -> (link_work r' < link_work r)%nat.
Proof.
  intros Hi Hs. pose proof (li_window _ _ Hi) as Hwin. destruct Hs.
  - unfold link_work. cbn. rewrite H. cbn. lia.
  - unfold link_work. cbn. rewrite H. cbn. lia.
  - destruct (pending_hand _ _ _) as [s o] eqn:Hh. apply pending_hand_keeps in Hh.
    eapply (own_reader_work (s, o) (lr_in r)); [exact Hh| | |eassumption]; rewrite H; cbn; lia.
  - destruct (deliver_enter _ _) as [s o] eqn:Hh. apply deliver_enter_keeps in Hh as [Hh _].
    eapply (own_reader_work (s, o) (lr_in r)); [exact Hh| | |eassumption]; rewrite H; cbn; lia.
  - unfold link_work. cbn. rewrite H. cbn. lia.
  - destruct (deliver_hand _ _) as [s o] eqn:Hh. apply deliver_hand_keeps in Hh.
    eapply (own_reader_work (s, o) (lr_in r)); [exact Hh| | |eassumption]; rewrite H; destruct next; cbn; lia.
  - destruct (seq _ _ _) as [s o] eqn:Hh. apply frame_keeps in Hh as [[_ Hk] _]; [|done].
    pose proof (read_now_cases r err buf) as Hr. rewrite H0 in Hr. cbn in Hr.
    eapply (reader_goes_work (s, o) rest); [exact Hk| |  |eassumption]; rewrite H; cbn [fst reader_work];
      destruct (l_alive (rs_link s)), (l_alive (lr_link r)); cbn; lia.
  - destruct (frame_failed _ _) as [s o] eqn:Hh. apply frame_failed_keeps in Hh as [[[_ Hk] Ha] [x ->]].
    injection H2 as <-. eapply Nat.le_lt_trans; [apply cancel_work|]. cbn in Hk, Ha.
    unfold link_work. cbn. rewrite H, Hk, Ha. cbn. lia.
  - unfold link_work. cbn. rewrite H. cbn. lia.
  - unfold link_work. cbn. rewrite H. cbn. lia.
  - eapply Nat.le_lt_trans; [apply cancel_work|]. destruct (keeps_cancel e (lr_conn r)) as [_ Hk].
    unfold link_work. cbn in *. rewrite H, Hk. cbn. lia.
  - unfold link_work. cbn. rewrite H, H0. cbn. lia.
  - eapply Nat.le_lt_trans; [apply cancel_work|]. unfold link_work. cbn. rewrite H. cbn. lia.
  - destruct (li_batch _ _ Hi _ H) as [Hb _]. destruct (pass_closed _ lp (lr_conn r) Hb) as (e & w & Hp).
    rewrite Hp in H1. injection H1 as <-. eapply Nat.le_lt_trans; [apply cancel_work|].
    unfold link_work. cbn. rewrite H. cbn. lia.
  - eapply watch_goes_work; [done..|right]. split; [done|by eexists].
  - eapply watch_goes_work; [done..|left]. rewrite H0. cbn. lia.
  - unfold link_work. cbn. rewrite H. cbn. lia.
  - unfold link_work. cbn. rewrite H. destruct (lr_reader r) as [| | |? []| |]; cbn; rewrite ?length_take; lia.
  - unfold link_work. cbn. rewrite H, H0, H1, H2. cbn. destruct (lr_closed r), (lr_ctx r); cbn; lia.
Qed.

(** ** It comes to its end *)

(** Once the link or the Conn has ended, something is left to do until
    runLink has returned, whatever the three wait for. *)
Lemma reader_progress E r cause :
  link_inv E r -> lr_ctx r = Some cause -> lr_closed r = true -> lr_reader r <> RdDone -> exists r', own_step r r'.
Proof.
  intros Hi Hc Hcl Hr. destruct (lr_reader r) as [[|p ps] cat|p ps cat|[|b cat]|p next|buf released|] eqn:Ha; try done.
  - eexists. by eapply rl_pending_done.
  - eexists. by eapply rl_pending.
  - destruct (handOver_ended p (rstate_of r [LinkEnded 0 cause]) cause eq_refl) as [s Hs].
    eexists. eapply (rl_hand_pending _ _ _ _ (LinkEnded 0 cause)); [done|by split|].
    unfold pending_hand, seq. by rewrite Hs.
  - eexists. by eapply rl_catchup_done.
  - destruct (deliver_enter b (rstate_of r [])) as [s [p|e|]] eqn:Hd.
    + eexists. eapply rl_catchup; [done|]. by rewrite Hd.
    + eexists. eapply rl_catchup; [done|]. by rewrite Hd.
    + by apply deliver_enter_keeps in Hd as [_ []].
  - destruct (handOver_ended p (rstate_of r [LinkEnded 0 cause]) cause eq_refl) as [s Hs].
    eexists. eapply (rl_hand _ _ _ (LinkEnded 0 cause)); [done|by split|]. unfold deliver_hand. by rewrite Hs.
  - pose proof (read_now_cases r (Sentinel net_ErrClosed) buf) as Hn.
    destruct (read_now r _ buf) as [[frame|e| |] rest] eqn:Hread; [| |done..].
    + destruct (seq (first_frame released) (fun _ => deliver_enter (rb_data frame)) (rstate_of r [])) as [s o] eqn:Hd.
      pose proof Hd as Hd'. apply frame_keeps in Hd' as [_ Hw]; [|apply (li_window _ _ Hi)].
      destruct o as [p|e|]; [| |done]; (eexists; eapply rl_frame; [done..|by rewrite Hd]).
    + destruct (frame_failed (A := reader_at) e (rstate_of r [])) as [s o] eqn:Hd.
      pose proof Hd as Hd'. apply frame_failed_keeps in Hd' as [_ [err ->]].
      eexists. eapply rl_read_failed; [done..|]. by rewrite Hd.
Qed.

Lemma writer_progress E r cause :
  link_inv E r -> lr_ctx r = Some cause -> lr_closed r = true -> lr_writer r <> WrDone -> exists r', own_step r r'.
Proof.
  intros Hi Hc Hcl Hr. destruct (lr_writer r) as [| |c0|] eqn:Ha; [| | |done].
  - destruct (snapshot_window _ (li_window _ _ Hi)) as ([|b batch] & Hs & _); [eexists; by eapply rl_idle|].
    destruct (frame_batch (o_flushed (c_out (lr_conn r))) (o_lastProbe (c_out (lr_conn r))) (b :: batch) frame_init) eqn:Hf;
      eexists; [by eapply rl_batch|by eapply rl_corrupt].
  - eexists. by eapply rl_writer_ctx.
  - destruct (li_batch _ _ Hi _ Ha) as [Hb _]. destruct (pass_closed _ id (lr_conn r) Hb) as (e & w & Hp).
    eexists. eapply rl_write_closed; [done..|]. by rewrite Hp.
Qed.

Lemma link_progress E r : link_inv E r -> E <> Unknown -> lr_returned r <> None \/ exists r', own_step r r'.
Proof.
  intros Hi HE. destruct (lr_returned r) eqn:Hret; [by left|right].
  destruct (lr_ctx r) as [cause|] eqn:Hctx.
  2:{ destruct (fated_ended _ _ (li_fate _ _ Hi) HE) as [?|Hc]; [done|]. destruct (c_ctx (lr_conn r)) eqn:Hcc; [|done].
      eexists. by eapply rl_parent. }
  destruct (lr_closed r) eqn:Hcl; [|eexists; apply (rl_close _ 0); [done|congruence]].
  assert (lr_reader r = RdDone \/ lr_reader r <> RdDone) as [Hr|Hr] by (destruct (lr_reader r); auto);
    [|by eapply reader_progress].
  assert (lr_writer r = WrDone \/ lr_writer r <> WrDone) as [Hw|Hw] by (destruct (lr_writer r); auto);
    [|by eapply writer_progress].
  destruct (lr_watch r) as [probed|] eqn:Ha; [eexists; by eapply rl_watch_ctx|].
  eexists. by apply rl_wait.
Qed.

(** runLink has returned [cause], the first thing the link was cancelled with,
    after it joined all three and closed the connection. *)
Record link_over (cause : gerr) (r : link_run) : Prop := {
  ov_returned : lr_returned r = Some (Some cause);
  ov_first : head (lr_errs r) = Some cause;
  ov_joined : lr_reader r = RdDone /\ lr_writer r = WrDone /\ lr_watch r = WaDone;
  ov_closed : lr_closed r = true
}.

Lemma returned_over E r : link_inv E r -> lr_returned r <> None -> exists cause, link_over cause r /\
  forall e, E = EndsWith e -> cause = e.
Proof.
  intros Hi Hr. destruct (lr_returned r) as [v|] eqn:Hv; [|done].
  destruct (li_returned _ _ Hi v Hv) as (-> & Hcl & H1 & H2 & H3).
  pose proof (li_ctx _ _ Hi (or_introl H1)) as Hc. pose proof (li_first _ _ Hi) as Hf. pose proof (li_fate _ _ Hi) as Hfate.
  destruct (lr_ctx r) as [cause|] eqn:Hctx; [|done]. exists cause. split; [by split|].
  intros e ->. cbn in Hfate. congruence.
Qed.

Lemma reachable_inv c cat r : window c -> rtc runLink_step (runLink_start c cat) r -> link_inv Unknown r.
Proof.
  intros Hw Hr. pose proof (runLink_start_inv c cat Hw) as Hi. induction Hr as [|a b d [Hs|Hs] _ IH]; [done|..];
    apply IH; [by eapply own_step_inv|by eapply outside_step_inv].
Qed.

Lemma fated_over E n r : link_inv E r -> E <> Unknown ->
  inevitable (disturbed own_step outside_step)
    (fun nr => exists cause, link_over cause nr.2 /\ forall e, E = EndsWith e -> cause = e) (n, r).
Proof.
  intros Hi HE. apply (inevitable_measure own_step outside_step
    (fun r => exists cause, link_over cause r /\ forall e, E = EndsWith e -> cause = e) (link_inv E) link_work); [..|done].
  - intros a b Ha [Hs|Hs]; [by eapply own_step_inv|by eapply outside_step_inv].
  - intros a b. apply own_link_work.
  - intros a Ha. destruct (link_progress _ _ Ha HE) as [Hr|?]; [left|by right]. by eapply returned_over.
Qed.

Lemma outbound_window key probe limit ps c : outbound_core key probe limit ps (c_out c) -> window c.
Proof.
  intros Ho. pose proof (ok_flushed _ _ _ _ _ Ho). unfold window. by rewrite (ring_of_log_next _ _ (ok_ring _ _ _ _ _ Ho)), sealed_log_zlen.
Qed.

(** [C39] One connection comes to its end.  From any reachable state of its
    reader, writer and watcher, whatever they wait for and with any finite
    number [n] of steps of the peer, the timer and the callers in between:
    once one of them has returned an error, [runLink] is bound to close the
    connection, to join all three and to return that very error, the first the
    link was cancelled with; once the Conn's context has ended it is bound to
    do so with some first error.  It never returns in any other way, and while
    nothing has failed it neither closes the connection nor returns, nor has
    any of the three ended. *)
Theorem runLink_returns key probe limit ps c catchup r n :
  outbound_core key probe limit ps (c_out c) -> rtc runLink_step (runLink_start c catchup) r ->
  (forall cause, lr_ctx r = Some cause ->
     inevitable (disturbed own_step outside_step) (fun nr => link_over cause nr.2) (n, r)) /\
  (c_ctx (lr_conn r) <> None ->
     inevitable (disturbed own_step outside_step) (fun nr => exists cause, link_over cause nr.2) (n, r)) /\
  (lr_returned r <> None -> exists cause, link_over cause r) /\
  (lr_errs r = [] -> lr_returned r = None /\ lr_closed r = false /\
     lr_reader r <> RdDone /\ lr_writer r <> WrDone /\ lr_watch r <> WaDone).
Proof.
  intros Ho Hr. apply outbound_window in Ho. pose proof (reachable_inv _ _ _ Ho Hr) as Hi. split_and!.
  - intros cause Hc. eapply inevitable_mono; [|apply (fated_over (EndsWith cause)); [by eapply link_inv_fate|done]].
    intros a (e & He & Heq). by rewrite (Heq cause eq_refl) in He.
  - intros Hc. eapply inevitable_mono; [|apply (fated_over Ending); [|done]].
    + intros a (e & He & _). by exists e.
    + eapply link_inv_fate; [done|by right].
  - intros Hret. destruct (returned_over _ _ Hi Hret) as (e & He & _). by exists e.
  - intros He. pose proof (li_first _ _ Hi) as Hf. rewrite He in Hf. cbn in Hf. pose proof (li_ctx _ _ Hi) as Hc.
    split_and!; [|destruct (lr_closed r) eqn:?; [|done]|..]; [|exfalso; apply Hc; auto; done|intros ?; apply Hc; auto..].
    destruct (lr_returned r) as [v|] eqn:Hv; [|done]. destruct (li_returned _ _ Hi v Hv) as (_ & Hcl & _). exfalso; apply Hc; auto.
Qed.
End RunLink.

Section Example.
#[local] Existing Instance toy_box.

(** The reader holds a packet an earlier link left and the inbox is full; the
    Conn is closed. *)
Definition stuck_conn : Conn :=
  set_in (MkInbound (i_in (c_in example_conn)) 1 [MkPacket x01 (bs "a")])
    (set_inbox (repeat (MkPacket x01 (bs "b")) inboxSize) example_conn).
Definition stuck_link : link_run :=
  MkLinkRun (Conn.cancel (Sentinel net_ErrClosed) stuck_conn) (MkLink false true) None [] false []
    (RdHandPending (MkPacket x01 (bs "a")) [] []) WrPass (WaWait false) None.

Lemma stuck_link_run : rtc runLink_step (runLink_start stuck_conn []) stuck_link.
Proof.
  eapply rtc_l; [left; exact (rl_pending (runLink_start stuck_conn []) (MkPacket x01 (bs "a")) [] [] eq_refl)|].
  apply rtc_once. right.
  match goal with |- outside_step ?r _ => refine (ro_caller r (Conn.cancel (Sentinel net_ErrClosed) stuck_conn) _) end.
  right; right; left. by exists (Sentinel net_ErrClosed).
Qed.

Lemma runLink_returns_witness : exists r,
  length (c_inbox (lr_conn r)) = inboxSize /\ lr_reader r = RdHandPending (MkPacket x01 (bs "a")) [] [] /\
  inevitable (disturbed own_step outside_step) (fun nr => exists cause, link_over cause nr.2) (5%nat, r).
Proof.
  exists stuck_link. split; [by vm_compute|]. split; [reflexivity|].
  exact (proj1 (proj2 (runLink_returns (bs "key") _ 20 [] stuck_conn [] stuck_link 5
    (proj1 (proj1 example_conn_log)) stuck_link_run)) ltac:(discriminate)).
Defined.
End Example.
