(* ===== verification/Network.v ===== *)
(** * internal/etservertest/network.go: the network with faults

    [Network] over a store of pairs: a pair is one net.Pipe whose two ends
    share a byte budget.  The pipe's own answers are inputs of [write], as is
    the moment a server goroutine ends.  [pr_budget], the budget at the dial,
    and [pr_crossed], the bytes the pipe took in both directions, are kept
    for the theorem; the code has no such fields. *)

From S2P Require Export GoErr GoIO Server.
Local Open Scope Z_scope.

Record pair := MkPair { pr_remaining : Z; pr_closed : bool; pr_budget : Z; pr_crossed : Z }.

(** [nw_pairs] holds the connections being served; the ends that [DialContext]
    gave out refer to the store. *)
Record network := MkNetwork {
  nw_store : gmap nat pair;
  nw_pairs : gset nat;
  nw_next : nat;
  nw_cancelled : bool;
  nw_refuse : bool;
  nw_dials : Z;
  nw_cutAfter : Z
}.

Definition NewNetwork : network := MkNetwork ∅ ∅ 0 false false 0 (-1).

Definition errRefused : gerr := Errorf "connection refused" [].

Definition with_store (st : gmap nat pair) (n : network) : network :=
  MkNetwork st (nw_pairs n) (nw_next n) (nw_cancelled n) (nw_refuse n) (nw_dials n) (nw_cutAfter n).
Definition with_pairs (ps : gset nat) (n : network) : network :=
  MkNetwork (nw_store n) ps (nw_next n) (nw_cancelled n) (nw_refuse n) (nw_dials n) (nw_cutAfter n).

(** [DialContext]; [ctxErr] is ctx.Err().  The [*net.OpError] wraps the error. *)
Definition DialContext (ctxErr : option gerr) (n : network) : network * (nat + gerr) :=
  let n := MkNetwork (nw_store n) (nw_pairs n) (nw_next n) (nw_cancelled n) (nw_refuse n)
             (nw_dials n + 1) (nw_cutAfter n) in
  match ctxErr with
  | Some err => (n, inr (Errorf "net.OpError dial" [err]))
  | None =>
      if nw_refuse n || nw_cancelled n then (n, inr (Errorf "net.OpError dial" [errRefused]))
      else
        let budget := nw_cutAfter n in
        (MkNetwork (<[nw_next n := MkPair budget false budget 0]> (nw_store n)) ({[nw_next n]} ∪ nw_pairs n)
           (S (nw_next n)) (nw_cancelled n) (nw_refuse n) (nw_dials n) (-1), inl (nw_next n))
  end.

(** [pair.close], once. *)
Definition close_pair (i : nat) (n : network) : network :=
  with_store (alter (fun p => MkPair (pr_remaining p) true (pr_budget p) (pr_crossed p)) i (nw_store n)) n.

Definition CutAll (n : network) : network := foldr close_pair n (elements (nw_pairs n)).

Definition CutAfter (bytes : Z) (n : network) : network :=
  MkNetwork (nw_store n) (nw_pairs n) (nw_next n) (nw_cancelled n) (nw_refuse n) (nw_dials n) bytes.
Definition SetRefuse (on : bool) (n : network) : network :=
  MkNetwork (nw_store n) (nw_pairs n) (nw_next n) (nw_cancelled n) on (nw_dials n) (nw_cutAfter n).
Definition Dials (n : network) : Z := nw_dials n.

(** The goroutine of [DialContext] after [Serve] returned. *)
Definition served (i : nat) (n : network) : network :=
  let n := close_pair i n in with_pairs (nw_pairs n ∖ {[i]}) n.

(** [Close] up to its wait; the wait ends when every pair was [served]. *)
Definition Network_Close (n : network) : network :=
  CutAll (MkNetwork (nw_store n) (nw_pairs n) (nw_next n) true (nw_refuse n) (nw_dials n) (nw_cutAfter n)).

(** The pipe's answer to a write of [n] bytes: how many the other end read
    and an error exactly when that is not all; a closed pipe reads none. *)
Definition pipe_answer (closed : bool) (n : Z) (a : Z * option gerr) : Prop :=
  0 <= a.1 <= n /\ (a.2 = None -> a.1 = n) /\ (closed = true -> a.1 = 0 /\ a.2 <> None).

(** [pipeEnd.Write] of [b] on either end of a pair. *)
Definition write (i : nat) (b : bytes) (answer : Z * option gerr) (n : network)
  : option (network * (Z * option gerr)) :=
  p ← nw_store n !! i;
  let '(remaining, result, cut) := pipeEnd_Write (pr_remaining p) b (fun _ => answer) in
  Some (with_store (<[i := MkPair remaining (pr_closed p || cut) (pr_budget p) (pr_crossed p + answer.1)]> (nw_store n)) n, result).

(** The bytes that [pipeEnd.Write] passes on. *)
Definition passed (i : nat) (b : bytes) (n : network) : option bytes :=
  p ← nw_store n !! i;
  Some (ztake (snd (fst (take_budget (pr_remaining p) (zlen b)))) b).

Inductive network_step (n : network) : network -> Prop :=
| nt_dial ctxErr : network_step n (fst (DialContext ctxErr n))
| nt_cutAll : network_step n (CutAll n)
| nt_cutAfter bytes : network_step n (CutAfter bytes n)
| nt_refuse on : network_step n (SetRefuse on n)
| nt_close : network_step n (Network_Close n)
| nt_end i : network_step n (close_pair i n)
| nt_served i : i ∈ nw_pairs n -> network_step n (served i n)
| nt_write i p b b' answer n' r :
    nw_store n !! i = Some p -> passed i b n = Some b' -> pipe_answer (pr_closed p) (zlen b') answer ->
    write i b answer n = Some (n', r) -> network_step n n'.

(** ** What the faults guarantee *)

(** A pair with a budget never lets more cross, and is closed by the write
    that uses it up. *)
Record pair_ok (p : pair) : Prop := {
  po_crossed : 0 <= pr_crossed p;
  po_budget : 0 <= pr_budget p -> 0 <= pr_remaining p /\ pr_crossed p + pr_remaining p <= pr_budget p;
  po_unlimited : pr_budget p < 0 -> pr_remaining p < 0;
  po_cut : 0 < pr_budget p -> pr_remaining p = 0 -> pr_closed p = true
}.

Record network_inv (n : network) : Prop := {
  ni_pair : forall i p, nw_store n !! i = Some p -> pair_ok p /\ (i < nw_next n)%nat;
  ni_served : forall i p, nw_store n !! i = Some p -> i ∉ nw_pairs n -> pr_closed p = true;
  ni_closed : nw_cancelled n = true -> forall i p, nw_store n !! i = Some p -> pr_closed p = true
}.

(** What [close_pair] leaves of a pair. *)
Lemma close_pair_lookup i j n p :
  nw_store (close_pair i n) !! j = Some p ->
  exists q, nw_store n !! j = Some q /\ pr_remaining p = pr_remaining q /\ pr_budget p = pr_budget q /\
    pr_crossed p = pr_crossed q /\ (pr_closed q = true \/ i = j -> pr_closed p = true).
Proof.
  unfold close_pair, with_store. cbn [nw_store]. destruct (decide (i = j)) as [->|Hij].
  - rewrite lookup_alter_eq. destruct (nw_store n !! j) as [q|]; [|done]. intros [= <-]. by exists q.
  - rewrite lookup_alter_ne by done. intros Hp. exists p. split_and!; try done. by intros [|].
Qed.

Lemma close_pair_inv i n : network_inv n -> network_inv (close_pair i n).
Proof.
  intros [H1 H2 H3]. split.
  - intros j p Hp. apply close_pair_lookup in Hp as (q & Hq & E1 & E2 & E3 & Hc).
    destruct (H1 j q Hq) as [[G1 G2 G3 G4] Hlt]. split; [|done].
    split; rewrite ?E1, ?E2, ?E3; try done. intros Hb Hr. apply Hc. left. by apply G4.
  - intros j p Hp Hj. apply close_pair_lookup in Hp as (q & Hq & _ & _ & _ & Hc). apply Hc. left. by eapply H2.
  - intros Hx j p Hp. apply close_pair_lookup in Hp as (q & Hq & _ & _ & _ & Hc). apply Hc. left. by eapply H3.
Qed.

Lemma close_all_spec l n :
  let n' := foldr close_pair n l in
  nw_pairs n' = nw_pairs n /\ nw_next n' = nw_next n /\ nw_cancelled n' = nw_cancelled n /\
  forall i p, nw_store n' !! i = Some p -> i ∈ l -> pr_closed p = true.
Proof.
  induction l as [|j l (H1 & H2 & H3 & H4)]; cbn [foldr]; [split_and!; try done; by intros ?? _ ?%elem_of_nil|].
  split_and!; try done. intros i p Hp Hi. apply close_pair_lookup in Hp as (q & Hq & _ & _ & _ & Hc). apply Hc.
  apply elem_of_cons in Hi as [->|Hi]; [by right|left; by eapply H4].
Qed.

Lemma close_all_inv l n : network_inv n -> network_inv (foldr close_pair n l).
Proof. intros Hn. induction l; [done|]. by apply close_pair_inv. Qed.

Lemma take_budget_spec remaining n :
  0 <= n ->
  let '(r, allowed, cut) := take_budget remaining n in
  0 <= allowed <= n /\
  (remaining < 0 -> r = remaining /\ allowed = n /\ cut = false) /\
  (0 <= remaining -> 0 <= r /\ r + allowed = remaining /\ (cut = true <-> r = 0)).
Proof.
  intros Hn. unfold take_budget. destruct (Z.ltb_spec remaining 0).
  - split_and!; lia.
  - split_and!; lia.
Qed.

Lemma write_inv i p b b' answer n n' r :
  network_inv n -> nw_store n !! i = Some p -> passed i b n = Some b' ->
  pipe_answer (pr_closed p) (zlen b') answer -> write i b answer n = Some (n', r) -> network_inv n'.
Proof.
  intros [H1 H2 H3] Hp Hb (Ha & _ & Hcl) Hw. unfold passed, write in *. rewrite Hp in Hb, Hw. cbn in Hb, Hw.
  unfold pipeEnd_Write in Hw. pose proof (take_budget_spec (pr_remaining p) (zlen b) (zlen_nonneg b)) as Ht.
  destruct (take_budget (pr_remaining p) (zlen b)) as [[rem allowed] cut]. cbn in Hb. injection Hb as <-.
  destruct answer as [k err]. cbn in Hw, Ha, Hcl. injection Hw as <- _.
  destruct Ht as (Hal & Hneg & Hpos). rewrite zlen_ztake in Ha.
  destruct (H1 i p Hp) as [[G1 G2 G3 G4] Hlt].
  split; cbn [nw_store with_store nw_next nw_pairs nw_cancelled].
  - intros j q Hq. destruct (decide (i = j)) as [<-|Hij]; [|rewrite lookup_insert_ne in Hq by done; by apply H1].
    rewrite lookup_insert_eq in Hq. injection Hq as <-. split; [|done].
    split; cbn [pr_remaining pr_closed pr_budget pr_crossed].
    + lia.
    + intros Hbud. specialize (G2 Hbud). destruct Hpos as (? & ? & _); [lia|]. lia.
    + intros Hbud. specialize (G3 Hbud). destruct Hneg as (-> & _); lia.
    + intros Hbud Hr. destruct Hpos as (_ & _ & Hc); [apply G2; lia|].
      rewrite (proj2 Hc Hr). apply orb_true_r.
  - intros j q Hq Hj. destruct (decide (i = j)) as [<-|Hij]; [|rewrite lookup_insert_ne in Hq by done; by eapply H2].
    rewrite lookup_insert_eq in Hq. injection Hq as <-. cbn. by rewrite (H2 i p Hp Hj).
  - intros Hx j q Hq. destruct (decide (i = j)) as [<-|Hij]; [|rewrite lookup_insert_ne in Hq by done; by eapply H3].
    rewrite lookup_insert_eq in Hq. injection Hq as <-. cbn. by rewrite (H3 Hx i p Hp).
Qed.

Lemma DialContext_inv ctxErr n : network_inv n -> network_inv (fst (DialContext ctxErr n)).
Proof.
  intros [H1 H2 H3]. unfold DialContext. destruct ctxErr; [by split|].
  destruct (nw_refuse n); [by split|]. destruct (nw_cancelled n) eqn:Hx; [by split|]. cbn.
  split; cbn.
  - intros j q Hq. destruct (decide (nw_next n = j)) as [<-|Hij].
    + rewrite lookup_insert_eq in Hq. injection Hq as <-. split; [|lia]. split; cbn; lia.
    + rewrite lookup_insert_ne in Hq by done. destruct (H1 j q Hq). split; [done|lia].
  - intros j q Hq Hj. destruct (decide (nw_next n = j)) as [<-|Hij]; [set_solver|].
    rewrite lookup_insert_ne in Hq by done. eapply H2; [done|set_solver].
  - congruence.
Qed.

Lemma network_step_inv n n' : network_step n n' -> network_inv n -> network_inv n'.
Proof.
  intros Hs Hn. destruct Hs as [ctxErr| |bytes|on| |i|i Hi|i p b b' answer n' r Hp Hb Ha Hw].
  - by apply DialContext_inv.
  - by apply close_all_inv.
  - destruct Hn. by split.
  - destruct Hn. by split.
  - unfold Network_Close.
    set (m := MkNetwork (nw_store n) (nw_pairs n) (nw_next n) true (nw_refuse n) (nw_dials n) (nw_cutAfter n)).
    assert (forall j q, nw_store (CutAll m) !! j = Some q ->
      exists q0, nw_store n !! j = Some q0 /\ pr_remaining q = pr_remaining q0 /\ pr_budget q = pr_budget q0 /\
        pr_crossed q = pr_crossed q0 /\ (pr_closed q0 = true -> pr_closed q = true)) as Hback.
    { unfold CutAll. change (nw_store n) with (nw_store m). generalize (elements (nw_pairs m)) as l.
      induction l as [|x l IH]; intros j q Hq; [by exists q|]. cbn [foldr] in Hq.
      apply close_pair_lookup in Hq as (q1 & Hq1 & E1 & E2 & E3 & Hc).
      apply IH in Hq1 as (q0 & Hq0 & F1 & F2 & F3 & Hc'). exists q0. split_and!; try congruence. auto. }
    assert (forall j q, nw_store (CutAll m) !! j = Some q -> pr_closed q = true) as Hall.
    { intros j q Hq. destruct (close_all_spec (elements (nw_pairs m)) m) as (_ & _ & _ & Hcl).
      destruct (decide (j ∈ nw_pairs m)) as [Hj|Hj]; [by eapply Hcl, elem_of_elements|].
      destruct (Hback j q Hq) as (q0 & Hq0 & _ & _ & _ & Hc). apply Hc. by eapply (ni_served _ Hn). }
    destruct (close_all_spec (elements (nw_pairs m)) m) as (Hps & Hnx & Hcn & _). split.
    + intros j q Hq. split; [|unfold CutAll; rewrite Hnx].
      * destruct (Hback j q Hq) as (q0 & Hq0 & E1 & E2 & E3 & Hc).
        destruct (ni_pair _ Hn j q0 Hq0) as [[G1 G2 G3 G4] _]. split; rewrite ?E1, ?E2, ?E3; auto.
      * destruct (Hback j q Hq) as (q0 & Hq0 & _). by apply (ni_pair _ Hn j q0 Hq0).
    + intros j q Hq _. by apply (Hall j).
    + intros _ j q Hq. by apply (Hall j).
  - by apply close_pair_inv.
  - destruct (close_pair_inv i n Hn) as [H1 H2 H3]. split; cbn; [exact H1| |exact H3].
    intros j q Hq Hj. destruct (decide (i = j)) as [<-|Hij].
    + apply close_pair_lookup in Hq as (q0 & _ & _ & _ & _ & Hc). apply Hc. by right.
    + eapply H2; [done|]. cbn. set_solver.
  - by eapply write_inv.
Qed.

(** The faults do what tests rely on, in every order of dials, writes, cuts
    and ends: a connection given [CutAfter(b)] lets no more than [b] bytes
    cross over both directions together and is closed by the write that
    reaches [b]; a connection no longer served is closed; and after [Close]
    every connection is, for good. *)
Theorem network_faults n i p :
  rtc network_step NewNetwork n -> nw_store n !! i = Some p ->
  (0 <= pr_budget p -> 0 <= pr_crossed p <= pr_budget p) /\
  (0 < pr_budget p -> pr_remaining p = 0 -> pr_closed p = true) /\
  (i ∉ nw_pairs n \/ nw_cancelled n = true -> pr_closed p = true).
Proof.
  intros Hr Hp. assert (network_inv n) as [H1 H2 H3].
  { eapply rtc_inv; [apply network_step_inv|exact Hr|]. by split. }
  destruct (H1 i p Hp) as [[G1 G2 G3 G4] _]. split_and!.
  - intros Hb. specialize (G2 Hb). lia.
  - exact G4.
  - intros [Hi|Hx]; [by eapply H2|by eapply H3].
Qed.
