(* ===== verification/Utf16.v ===== *)
(** * internal/console/utf16.go: UTF-16 and UTF-8 across reads and writes

    The two converters with the state they carry between calls, against
    references that see the whole stream: [runes16] reads UTF-16 with one
    unit of lookahead, [split_runes] reads UTF-8 rune by rune and keeps an
    incomplete tail. *)

From S2P Require Export Utf8.
Local Open Scope Z_scope.

Definition isHighSurrogate (u : Z) : bool := (0xD800 <=? u) && (u <? 0xDC00).
Definition isLowSurrogate (u : Z) : bool := (0xDC00 <=? u) && (u <? 0xE000).

(** ** UTF-16 to UTF-8 *)

(** The pending high surrogate, 0 if none. *)
Definition utf16Decoder := Z.

Definition utf16Decoder_unit (high : utf16Decoder) (dst : bytes) (u : Z) : utf16Decoder * bytes :=
  let plain := fun dst =>
    if isHighSurrogate u then (u, dst)
    else if isLowSurrogate u then (0, dst ++ utf8_rune RuneError)
    else (0, dst ++ utf8_rune u) in
  if negb (high =? 0) then
    if isLowSurrogate u then (0, dst ++ utf8_rune (utf16_DecodeRune high u))
    else plain (dst ++ utf8_rune RuneError)
  else plain dst.

Fixpoint utf16Decoder_append (d : utf16Decoder) (dst : bytes) (units : list Z) : utf16Decoder * bytes :=
  match units with
  | [] => (d, dst)
  | u :: units => let '(d, dst) := utf16Decoder_unit d dst u in utf16Decoder_append d dst units
  end.

(** ** UTF-8 to UTF-16 *)

(** The carried bytes of an incomplete sequence. *)
Definition utf8Encoder := bytes.

(** The loop over the carried bytes: [None] when the fuel ran out, else either
    the bytes to keep waiting for or how many bytes of [joined] were used. *)
Fixpoint encode_carried (fuel : nat) (joined : bytes) (n used : Z) (dst : list Z)
  : option (list Z * (bytes + Z)) :=
  match fuel with
  | O => None
  | S fuel =>
      if negb (used <? n) then Some (dst, inr used)
      else
        let rest := zdrop used joined in
        if negb (FullRune rest) then Some (dst, inl rest)
        else let '(r, size) := DecodeRune rest in
             encode_carried fuel joined n (used + size) (dst ++ utf16_rune r)
  end.

Fixpoint encode_rest (fuel : nat) (p : bytes) (dst : list Z) : option (list Z * bytes) :=
  match fuel with
  | O => None
  | S fuel =>
      match p with
      | [] => Some (dst, [])
      | _ =>
          if negb (FullRune p) then Some (dst, p)
          else let '(r, size) := DecodeRune p in encode_rest fuel (zdrop size p) (dst ++ utf16_rune r)
      end
  end.

Definition utf8Encoder_append (e : utf8Encoder) (dst : list Z) (p : bytes) : option (utf8Encoder * list Z) :=
  let rest := fun p dst => '(dst, e) ← encode_rest (S (length p)) p dst; Some (e, dst) in
  if 0 <? zlen e then
    let n := zlen e in
    let k := Z.min (zlen p) UTFMax in
    let joined := e ++ ztake k p in
    '(dst, x) ← encode_carried (S (length joined)) joined n 0 dst;
    match x with
    | inl wait => Some (wait, dst)
    | inr used => rest (zdrop (used - n) p) dst
    end
  else rest p dst.

(** ** Chunks of a console write *)

(** [None] is the panic on a limit below 2. *)
Definition chunkLen (units : list Z) (limit : Z) : option Z :=
  if limit <? 2 then None
  else if zlen units <=? limit then Some (zlen units)
  else match units !! Z.to_nat (limit - 1), units !! Z.to_nat limit with
       | Some u, Some v => if isHighSurrogate u && isLowSurrogate v then Some (limit - 1) else Some limit
       | _, _ => None
       end.

(** ** References *)

Fixpoint runes16 (units : list Z) : list Z * Z :=
  match units with
  | [] => ([], 0)
  | u :: rest =>
      if isHighSurrogate u then
        match rest with
        | [] => ([], u)
        | v :: rest2 =>
            if isLowSurrogate v
            then let '(rs, h) := runes16 rest2 in (utf16_DecodeRune u v :: rs, h)
            else let '(rs, h) := runes16 rest in (RuneError :: rs, h)
        end
      else let '(rs, h) := runes16 rest in ((if isLowSurrogate u then RuneError else u) :: rs, h)
  end.

Fixpoint split_fuel (fuel : nat) (p : bytes) : list Z * bytes :=
  match fuel with
  | O => ([], p)
  | S fuel =>
      match p with
      | [] => ([], [])
      | _ =>
          if negb (FullRune p) then ([], p)
          else let '(r, size) := DecodeRune p in
               let '(rs, rest) := split_fuel fuel (zdrop size p) in (r :: rs, rest)
      end
  end.
Definition split_runes (p : bytes) : list Z * bytes := split_fuel (length p) p.

(** ** UTF-16 decoding *)

Lemma utf16Decoder_append_app d dst us vs :
  utf16Decoder_append d dst (us ++ vs) =
    let '(d, dst) := utf16Decoder_append d dst us in utf16Decoder_append d dst vs.
Proof.
  revert d dst. induction us as [|u us IH]; intros d dst; cbn; [done|].
  destruct (utf16Decoder_unit d dst u) as [d' dst']. apply IH.
Qed.

(** Reads one after another. *)
Fixpoint decode_reads (d : utf16Decoder) (reads : list (list Z)) : utf16Decoder * bytes :=
  match reads with
  | [] => (d, [])
  | us :: reads =>
      let '(d, out) := utf16Decoder_append d [] us in
      let '(d, rest) := decode_reads d reads in (d, out ++ rest)
  end.

Lemma utf16Decoder_append_dst d dst us :
  utf16Decoder_append d dst us = let '(d', out) := utf16Decoder_append d [] us in (d', dst ++ out).
Proof.
  revert d dst. induction us as [|u us IH]; intros d dst; cbn; [by rewrite app_nil_r|].
  assert (forall x, utf16Decoder_unit d x u = let '(d', o) := utf16Decoder_unit d [] u in (d', x ++ o)) as Hu.
  { intros x. unfold utf16Decoder_unit. repeat case_match; simplify_eq; by rewrite ?app_nil_r, <- ?app_assoc. }
  rewrite (Hu dst). destruct (utf16Decoder_unit d [] u) as [d' o].
  rewrite (IH d' (dst ++ o)), (IH d' o). destruct (utf16Decoder_append d' [] us) as [d2 o2]. by rewrite app_assoc.
Qed.

Lemma decode_reads_concat d reads : decode_reads d reads = utf16Decoder_append d [] (concat reads).
Proof.
  revert d. induction reads as [|us reads IH]; intros d; cbn; [done|].
  rewrite utf16Decoder_append_app. destruct (utf16Decoder_append d [] us) as [d' o].
  rewrite IH, (utf16Decoder_append_dst d' o). done.
Qed.

Lemma high_not_low u : isHighSurrogate u = true -> isLowSurrogate u = false /\ u <> 0.
Proof.
  unfold isHighSurrogate, isLowSurrogate. rewrite andb_true_iff, Z.leb_le, Z.ltb_lt. intros ?.
  split; [|lia]. apply andb_false_iff. left. apply Z.leb_gt. lia.
Qed.

Lemma utf16Decoder_append_runes us :
  utf16Decoder_append 0 [] us = let '(rs, h) := runes16 us in (h, utf8_bytes rs).
Proof.
  remember (length us) as n eqn:Hn. assert (length us <= n)%nat as Hle by lia. clear Hn.
  revert us Hle. induction n as [|n IH]; intros [|u us] Hle; cbn in Hle; try done; try lia.
  assert (forall x, utf16Decoder_append 0 x us = let '(rs, h) := runes16 us in (h, x ++ utf8_bytes rs)) as Hus.
  { intros x. rewrite utf16Decoder_append_dst, IH by lia. by destruct (runes16 us). }
  cbn [utf16Decoder_append runes16]. unfold utf16Decoder_unit at 1. cbn [Z.eqb negb].
  destruct (isHighSurrogate u) eqn:Hh.
  - destruct (high_not_low _ Hh) as [Hl H0]. destruct us as [|v us]; [done|].
    cbn [utf16Decoder_append]. unfold utf16Decoder_unit.
    rewrite (proj2 (Z.eqb_neq u 0)) by done. cbn [negb].
    destruct (isLowSurrogate v) eqn:Hv.
    + cbn in Hle. rewrite utf16Decoder_append_dst, IH by lia. by destruct (runes16 us).
    + specialize (Hus (utf8_rune RuneError)). cbn [utf16Decoder_append] in Hus.
      unfold utf16Decoder_unit in Hus. cbn [Z.eqb negb] in Hus. rewrite Hv in Hus. cbn [app] in Hus |- *.
      rewrite Hus. by destruct (runes16 (v :: us)).
  - destruct (isLowSurrogate u); cbn [app]; rewrite Hus; by destruct (runes16 us).
Qed.

(** A pair of a scalar value's units decodes to it. *)
Lemma runes16_units rs :
  Forall (fun r => is_scalar r = true) rs -> runes16 (utf16_units rs) = (rs, 0).
Proof.
  induction 1 as [|r rs Hr _ IH]; [done|]. unfold utf16_units in *. cbn [fmap list_fmap concat].
  unfold utf16_rune at 1. rewrite Hr. apply is_scalar_spec in Hr.
  destruct (Z.ltb_spec r 0x10000); cbn [app runes16].
  - rewrite IH. unfold isHighSurrogate, isLowSurrogate. zcmp; done.
  - pose proof (Z.div_mod (r - 0x10000) 1024 ltac:(done)). pose proof (Z.mod_pos_bound (r - 0x10000) 1024 ltac:(done)).
    assert (isHighSurrogate (0xD800 + (r - 0x10000) / 1024) = true) as ->
      by (unfold isHighSurrogate; zcmp; done).
    assert (isLowSurrogate (0xDC00 + (r - 0x10000) mod 1024) = true) as ->
      by (unfold isLowSurrogate; zcmp; done).
    rewrite IH. unfold utf16_DecodeRune. do 2 f_equal. lia.
Qed.

(** Console input, however ReadConsoleW splits it: the bytes are the UTF-8 of
    the whole unit stream, a pair split over two reads is one character,
    every unpaired surrogate is U+FFFD, and only a high surrogate at the end
    waits.  Text comes out as its UTF-8 exactly. *)
Theorem utf16Decoder_stream reads :
  decode_reads 0 reads = (let '(rs, h) := runes16 (concat reads) in (h, utf8_bytes rs)) /\
  (forall rs, Forall (fun r => is_scalar r = true) rs -> concat reads = utf16_units rs ->
     decode_reads 0 reads = (0, utf8_bytes rs)).
Proof.
  assert (decode_reads 0 reads = (let '(rs, h) := runes16 (concat reads) in (h, utf8_bytes rs))) as Hd
    by (rewrite decode_reads_concat; apply utf16Decoder_append_runes).
  split; [exact Hd|]. intros rs Hs Hc. by rewrite Hd, Hc, runes16_units.
Qed.

(** ** UTF-8 encoding *)

Lemma DecodeRune_width_full p : FullRune p = true -> 1 <= (DecodeRune p).2 <= zlen p.
Proof. intros Hf. apply DecodeRune_width. by destruct p. Qed.

(** More fuel than bytes changes nothing. *)
Lemma split_fuel_enough f g p : (length p <= f)%nat -> (length p <= g)%nat -> split_fuel f p = split_fuel g p.
Proof.
  revert g p. induction f as [|f IH]; intros g p Hf Hg.
  - destruct p; [|cbn in Hf; lia]. by destruct g.
  - destruct p as [|a p]; [by destruct g|]. destruct g as [|g]; [cbn in Hg; lia|]. cbn in Hf, Hg.
    cbn [split_fuel]. destruct (FullRune (a :: p)) eqn:Hfull; [|done]. cbn [negb].
    pose proof (DecodeRune_width_full _ Hfull) as Hw. destruct (DecodeRune (a :: p)) as [r size]. cbn [snd] in Hw.
    rewrite (IH g); [done| |]; unfold zdrop; rewrite length_drop; cbn; lia.
Qed.

Lemma split_step p :
  FullRune p = true ->
  split_runes p = let '(r, size) := DecodeRune p in
    let '(rs, rest) := split_runes (zdrop size p) in (r :: rs, rest).
Proof.
  intros Hfull. pose proof (DecodeRune_width_full _ Hfull) as Hw. destruct p as [|a p]; [done|].
  unfold split_runes at 1. cbn [split_fuel length]. rewrite Hfull. cbn [negb].
  destruct (DecodeRune (a :: p)) as [r size]. cbn [snd] in Hw.
  unfold split_runes. rewrite (split_fuel_enough (length p) (length (zdrop size (a :: p)))); [done| |done].
  unfold zdrop. rewrite length_drop. cbn. lia.
Qed.

Lemma split_wait p : FullRune p = false -> split_runes p = ([], p).
Proof. unfold split_runes. destruct p; [done|]. cbn [split_fuel length]. by intros ->. Qed.

(** The converter's loops are the reference. *)
Lemma encode_rest_split n p dst f :
  (length p <= n)%nat -> (length p < f)%nat ->
  encode_rest f p dst = let '(rs, rest) := split_runes p in Some (dst ++ utf16_units rs, rest).
Proof.
  revert p dst f. induction n as [|n IH]; intros p dst f Hn Hf; (destruct f as [|f]; [lia|]); cbn [encode_rest].
  - destruct p; [|cbn in Hn; lia]. cbn. by rewrite app_nil_r.
  - destruct p as [|a p]; [cbn; by rewrite app_nil_r|].
    destruct (FullRune (a :: p)) eqn:Hfull; cbn [negb]; [|rewrite split_wait by done; cbn; by rewrite app_nil_r].
    rewrite split_step by done. pose proof (DecodeRune_width_full _ Hfull) as Hw.
    destruct (DecodeRune (a :: p)) as [r size]. cbn [snd] in Hw.
    assert (length (zdrop size (a :: p)) <= length p)%nat as Hd.
    { unfold zdrop. rewrite length_drop. cbn. lia. }
    cbn in Hn, Hf. rewrite IH by lia. destruct (split_runes (zdrop size (a :: p))) as [rs rest].
    by rewrite <- app_assoc.
Qed.

(** Within the carried bytes, the bytes joined to them decide every rune as
    the whole input would. *)
Lemma joined_view e p used :
  0 <= used < zlen e ->
  let joined := e ++ ztake (Z.min (zlen p) UTFMax) p in
  FullRune (zdrop used joined) = FullRune (zdrop used (e ++ p)) /\
  (FullRune (zdrop used joined) = true -> DecodeRune (zdrop used joined) = DecodeRune (zdrop used (e ++ p))) /\
  (FullRune (zdrop used joined) = false -> zdrop used joined = zdrop used (e ++ p)).
Proof.
  intros Hu joined. unfold UTFMax in joined. pose proof (zlen_nonneg p).
  assert (zdrop used (e ++ p) = zdrop used joined ++ zdrop (Z.min (zlen p) 4) p) as Hsplit.
  { unfold joined. rewrite !zdrop_app_le by lia. by rewrite <- app_assoc, ztake_zdrop. }
  destruct (Z.le_gt_cases (zlen p) 4).
  - assert (zdrop (Z.min (zlen p) 4) p = []) as Hnil by (apply zdrop_ge; lia).
    rewrite Hnil, app_nil_r in Hsplit. by rewrite Hsplit.
  - assert (4 <= zlen (zdrop used joined)) as Hlong.
    { unfold joined. rewrite zdrop_app_le, zlen_app, zlen_zdrop, zlen_ztake by lia. lia. }
    rewrite (FullRune_long (zdrop used joined)) by done. rewrite Hsplit, DecodeRune_prefix by done.
    split_and!; try done. symmetry. apply FullRune_long. rewrite zlen_app.
    pose proof (zlen_nonneg (zdrop (Z.min (zlen p) 4) p)). lia.
Qed.

(** The loop over the carried bytes: it stops waiting exactly where the
    reference does, or hands over in the middle of the stream. *)
Lemma encode_carried_split fuel e p used dst :
  0 <= used -> (Z.to_nat (zlen e - used) < fuel)%nat -> used <= zlen e + zlen p ->
  let joined := e ++ ztake (Z.min (zlen p) UTFMax) p in
  exists rs, match encode_carried fuel joined (zlen e) used dst with
  | Some (out, inl wait) => out = dst ++ utf16_units rs /\ split_runes (zdrop used (e ++ p)) = (rs, wait)
  | Some (out, inr u) => out = dst ++ utf16_units rs /\ zlen e <= u <= zlen e + zlen p /\
      split_runes (zdrop used (e ++ p)) = let '(rs2, rest) := split_runes (zdrop u (e ++ p)) in (rs ++ rs2, rest)
  | None => False
  end.
Proof.
  intros Hu Hf Hle joined. revert used dst Hu Hf Hle. induction fuel as [|fuel IH]; intros used dst Hu Hf Hle; [lia|].
  cbn [encode_carried]. destruct (Z.ltb_spec used (zlen e)) as [Hlt|Hge]; cbn [negb].
  2: { exists []. rewrite app_nil_r. split_and!; try done. by destruct (split_runes _). }
  destruct (joined_view e p used ltac:(lia)) as (Hfr & Hdec & Hsame). fold joined in Hfr, Hdec, Hsame.
  destruct (FullRune (zdrop used joined)) eqn:Hfull; cbn [negb].
  - symmetry in Hfr. rewrite (split_step (zdrop used (e ++ p))) by done. rewrite (Hdec eq_refl).
    pose proof (DecodeRune_width_full _ Hfr) as Hw.
    destruct (DecodeRune (zdrop used (e ++ p))) as [r size]. cbn [snd] in Hw.
    rewrite zlen_zdrop, zlen_app in Hw. pose proof (zlen_nonneg p).
    destruct (IH (used + size) (dst ++ utf16_rune r) ltac:(lia) ltac:(lia) ltac:(lia)) as [rs Hrs].
    rewrite zdrop_zdrop by lia. rewrite (Z.add_comm size used) in *.
    exists (r :: rs). destruct (encode_carried fuel joined _ _ _) as [[out [wait|u]]|]; [| |done].
    + destruct Hrs as [-> ->]. split; [by rewrite <- app_assoc|done].
    + destruct Hrs as (-> & ? & ->). split_and!; try lia; [by rewrite <- app_assoc|].
      by destruct (split_runes (zdrop u (e ++ p))).
  - exists []. rewrite app_nil_r, (Hsame eq_refl). split; [done|]. by apply split_wait.
Qed.

(** One call is the reference on the carried bytes and its input. *)
Lemma utf8Encoder_append_split e dst p :
  utf8Encoder_append e dst p =
    let '(rs, rest) := split_runes (e ++ p) in Some (rest, dst ++ utf16_units rs).
Proof.
  unfold utf8Encoder_append. pose proof (zlen_nonneg e). pose proof (zlen_nonneg p).
  destruct (Z.ltb_spec 0 (zlen e)).
  - set (joined := e ++ ztake (Z.min (zlen p) UTFMax) p).
    assert (Z.to_nat (zlen e - 0) < S (length joined))%nat as Hfuel.
    { unfold joined. rewrite length_app. unfold zlen. lia. }
    destruct (encode_carried_split (S (length joined)) e p 0 dst ltac:(lia) Hfuel ltac:(lia)) as [rs Hrs].
    fold joined in Hrs. destruct (encode_carried _ joined _ _ _) as [[out [wait|u]]|]; [| |done]; cbn [mbind option_bind].
    + destruct Hrs as [-> Hs]. change (zdrop 0 (e ++ p)) with (e ++ p) in Hs. by rewrite Hs.
    + destruct Hrs as (-> & Hu & Hs). change (zdrop 0 (e ++ p)) with (e ++ p) in Hs. rewrite Hs.
      assert (zdrop u (e ++ p) = zdrop (u - zlen e) p) as ->.
      { unfold zdrop. rewrite drop_app_ge by (unfold zlen in *; lia). f_equal. unfold zlen in *. lia. }
      rewrite (encode_rest_split (length (zdrop (u - zlen e) p))) by lia.
      destruct (split_runes (zdrop (u - zlen e) p)) as [rs2 rest]. cbn [mbind option_bind].
      unfold utf16_units. by rewrite fmap_app, concat_app, app_assoc.
  - assert (e = []) as -> by (destruct e; [done|]; exfalso; cbv [zlen length] in *; lia).
    rewrite (encode_rest_split (length p)) by lia. cbn [app]. by destruct (split_runes p).
Qed.

(** Splitting goes on from where it waits. *)
Lemma split_app n p q :
  (length p <= n)%nat ->
  split_runes (p ++ q) = let '(rs, rest) := split_runes p in
    let '(rs2, rest2) := split_runes (rest ++ q) in (rs ++ rs2, rest2).
Proof.
  revert p. induction n as [|n IH]; intros p Hn.
  - destruct p; [|cbn in Hn; lia]. change (split_runes []) with (@nil Z, @nil byte). cbn [app].
    by destruct (split_runes q).
  - destruct (FullRune p) eqn:Hfull; [|rewrite (split_wait p) by done; by destruct (split_runes (p ++ q))].
    destruct (DecodeRune_full p q Hfull) as [Hd Hf]. rewrite (split_step (p ++ q)), (split_step p) by done.
    rewrite Hd. pose proof (DecodeRune_width_full _ Hfull) as Hw. destruct (DecodeRune p) as [r size].
    cbn [snd] in Hw. rewrite zdrop_app_le by lia.
    rewrite IH by (unfold zdrop; rewrite length_drop; unfold zlen in *; lia).
    destruct (split_runes (zdrop size p)) as [rs rest]. by destruct (split_runes (rest ++ q)).
Qed.

(** What waits is still waiting, and less than a rune's worth. *)
Lemma split_rest n x rs rest :
  (length x <= n)%nat -> split_runes x = (rs, rest) -> split_runes rest = ([], rest).
Proof.
  revert x rs. induction n as [|n IH]; intros x rs Hle Hs.
  - destruct x; [|cbn in Hle; lia]. by injection Hs as <- <-.
  - destruct (FullRune x) eqn:Hf; [|rewrite split_wait in Hs by done; injection Hs as <- <-; by apply split_wait].
    rewrite split_step in Hs by done. pose proof (DecodeRune_width_full _ Hf) as Hw.
    destruct (DecodeRune x) as [r size]. cbn [snd] in Hw.
    destruct (split_runes (zdrop size x)) as [rs1 rest1] eqn:H1. injection Hs as <- <-.
    eapply IH; [|exact H1]. unfold zdrop. rewrite length_drop. unfold zlen in *. lia.
Qed.

Lemma split_rest_short x rs rest : split_runes x = (rs, rest) -> zlen rest < UTFMax.
Proof.
  intros Hs. apply (split_rest _ _ _ _ (le_n _)) in Hs.
  destruct (Z.lt_ge_cases (zlen rest) UTFMax) as [|Hl]; [done|]. exfalso.
  rewrite split_step in Hs by by apply FullRune_long. destruct (DecodeRune rest) as [r size].
  by destruct (split_runes _).
Qed.

(** Writes one after another. *)
Fixpoint encode_writes (e : utf8Encoder) (writes : list bytes) : option (utf8Encoder * list Z) :=
  match writes with
  | [] => Some (e, [])
  | p :: writes =>
      '(e, out) ← utf8Encoder_append e [] p;
      '(e, rest) ← encode_writes e writes;
      Some (e, out ++ rest)
  end.

Lemma encode_writes_split e writes :
  encode_writes e writes =
    let '(rs, rest) := split_runes (e ++ concat writes) in
    match writes with [] => Some (e, []) | _ => Some (rest, utf16_units rs) end.
Proof.
  revert e. induction writes as [|p writes IH]; intros e; cbn [encode_writes concat].
  { by destruct (split_runes _). }
  rewrite utf8Encoder_append_split, app_assoc, (split_app (length (e ++ p)) (e ++ p)) by done.
  destruct (split_runes (e ++ p)) as [rs rest] eqn:Hs. cbn. rewrite IH.
  destruct (split_runes (rest ++ concat writes)) as [rs2 rest2] eqn:Hs2.
  destruct writes as [|w writes]; cbn.
  - cbn in Hs2. rewrite app_nil_r in Hs2. rewrite app_nil_r.
    rewrite (split_rest _ _ _ _ (le_n _) Hs) in Hs2. injection Hs2 as <- <-. by rewrite app_nil_r.
  - unfold utf16_units. by rewrite fmap_app, concat_app.
Qed.

(** Text has nothing left over. *)
Lemma split_runes_text rs :
  Forall (fun r => is_scalar r = true) rs -> split_runes (utf8_bytes rs) = (rs, []).
Proof.
  induction 1 as [|r rs Hr _ IH]; [done|]. unfold utf8_bytes in *. cbn [fmap list_fmap concat].
  rewrite split_step by by apply FullRune_rune. rewrite DecodeRune_rune by done.
  by rewrite zdrop_app_eq, IH by done.
Qed.

(** Remote output, however the network splits it into writes: the units are
    the UTF-16 of the whole byte stream read rune by rune, a sequence split
    over two writes is one character, each invalid byte is U+FFFD, and only
    an incomplete sequence of fewer than four bytes waits.  Text comes out as
    its UTF-16 exactly, with nothing held back. *)
Theorem utf8Encoder_stream writes :
  (let '(rs, rest) := split_runes (concat writes) in
   encode_writes [] writes = Some (rest, utf16_units rs) /\ zlen rest < UTFMax) /\
  (forall rs, Forall (fun r => is_scalar r = true) rs -> concat writes = utf8_bytes rs ->
     encode_writes [] writes = Some ([], utf16_units rs)).
Proof.
  assert (let '(rs, rest) := split_runes (concat writes) in
    encode_writes [] writes = Some (rest, utf16_units rs)) as He.
  { pose proof (encode_writes_split [] writes) as Hw. cbn [app] in Hw.
    destruct (split_runes (concat writes)) as [rs rest] eqn:Hs. destruct writes; [|done].
    cbn in Hs. by injection Hs as <- <-. }
  split.
  - destruct (split_runes (concat writes)) as [rs rest] eqn:Hs. split; [done|]. by eapply split_rest_short.
  - intros rs Hrs Hc. by rewrite Hc, split_runes_text in He.
Qed.

(** ** Chunks *)

(** A chunk is never empty or longer than the limit, and it ends between a
    high and a low surrogate only at the end of the input. *)
Lemma chunkLen_spec units limit :
  2 <= limit -> exists n, chunkLen units limit = Some n /\ 0 <= n <= limit /\ n <= zlen units /\
    (units <> [] -> 0 < n) /\
    (forall u v, units !! Z.to_nat (n - 1) = Some u -> units !! Z.to_nat n = Some v -> 0 < n ->
       ~ (isHighSurrogate u = true /\ isLowSurrogate v = true)).
Proof.
  intros Hl. unfold chunkLen. pose proof (zlen_nonneg units). destruct (Z.ltb_spec limit 2); [lia|].
  destruct (Z.leb_spec (zlen units) limit).
  - exists (zlen units). split_and!; try done; try lia.
    + destruct units; [done|]. rewrite zlen_cons. pose proof (zlen_nonneg units). lia.
    + intros u v _ Hv. apply lookup_lt_Some in Hv. unfold zlen in Hv. lia.
  - destruct (lookup_lt_is_Some_2 units (Z.to_nat (limit - 1)) ltac:(unfold zlen in *; lia)) as [u Hu].
    destruct (lookup_lt_is_Some_2 units (Z.to_nat limit) ltac:(unfold zlen in *; lia)) as [v Hv].
    rewrite Hu, Hv. destruct (isHighSurrogate u && isLowSurrogate v) eqn:Hp.
    + apply andb_true_iff in Hp as [Hp _]. destruct (high_not_low _ Hp) as [Hnl _].
      exists (limit - 1). split_and!; try done; try lia. intros u' v' _ Hv' _ [_ Hlow].
      rewrite Hu in Hv'. injection Hv' as <-. congruence.
    + exists limit. split_and!; try done; try lia. intros u' v' Hu' Hv' _ [Hhi Hlow].
      rewrite Hu in Hu'. rewrite Hv in Hv'. injection Hu' as <-. injection Hv' as <-.
      by rewrite Hhi, Hlow in Hp.
Qed.
