(* ===== verification/ConsoleWindows.v ===== *)
(** * internal/console/console_windows.go: the Windows console

    The console modes are a small world of two handles whose calls may fail;
    [MakeRaw], [restore] and [Close] are programs over it.  [Read] and
    [Write] run over what ReadConsoleW and WriteConsoleW return, call by
    call, with the converters of [Utf16] in between.  Each critical section
    of the lock is one step: Read looks at [closing] before and after every
    console read. *)

From S2P Require Export Utf16 Console.
Local Open Scope Z_scope.

Definition readUnits : Z := 4096.
Definition writeUnits : Z := 8192.

(** ** Modes *)

(** Win32 console mode flags. *)
Definition ENABLE_PROCESSED_INPUT : Z := 0x1.
Definition ENABLE_LINE_INPUT : Z := 0x2.
Definition ENABLE_ECHO_INPUT : Z := 0x4.
Definition ENABLE_WINDOW_INPUT : Z := 0x8.
Definition ENABLE_VIRTUAL_TERMINAL_INPUT : Z := 0x200.
Definition ENABLE_PROCESSED_OUTPUT : Z := 0x1.
Definition ENABLE_WRAP_AT_EOL_OUTPUT : Z := 0x2.
Definition ENABLE_VIRTUAL_TERMINAL_PROCESSING : Z := 0x4.
Definition DISABLE_NEWLINE_AUTO_RETURN : Z := 0x8.

Inductive handle := HIn | HOut.

(** The modes of the two handles and the outcomes of the next mode calls, in
    order; past the end they succeed. *)
Record modes := MkModes { m_in : Z; m_out : Z; m_fails : list (option gerr); m_sets : nat }.

Definition mode_of (h : handle) (w : modes) : Z := match h with HIn => m_in w | HOut => m_out w end.
Definition next_fail (w : modes) : modes * option gerr :=
  match m_fails w with
  | [] => (w, None)
  | o :: l => (MkModes (m_in w) (m_out w) l (m_sets w), o)
  end.

Definition GetConsoleMode (h : handle) (w : modes) : modes * (Z + gerr) :=
  let '(w, o) := next_fail w in
  (w, match o with Some e => inr e | None => inl (mode_of h w) end).

Definition SetConsoleMode (h : handle) (m : Z) (w : modes) : modes * option gerr :=
  let '(w, o) := next_fail w in
  match o with
  | Some e => (w, Some e)
  | None => (match h with
             | HIn => MkModes m (m_out w) (m_fails w) (S (m_sets w))
             | HOut => MkModes (m_in w) m (m_fails w) (S (m_sets w))
             end, None)
  end.

(** The part of a Console the modes depend on. *)
Record wconsole := MkWConsole { w_inBase : Z; w_outBase : Z; w_closing : bool }.

(** What [Open] makes of the two base modes. *)
Definition Open (stdin stdout : option gerr) (w : modes) : modes * (wconsole + gerr) :=
  match stdin with
  | Some e => (w, inr (Errorf "%w: stdin handle: %w" [Sentinel ErrNotTerminal; e]))
  | None =>
      match stdout with
      | Some e => (w, inr (Errorf "%w: stdout handle: %w" [Sentinel ErrNotTerminal; e]))
      | None =>
          match GetConsoleMode HIn w with
          | (w, inr e) => (w, inr (Errorf "%w: stdin console mode: %w" [Sentinel ErrNotTerminal; e]))
          | (w, inl i) =>
              match GetConsoleMode HOut w with
              | (w, inr e) => (w, inr (Errorf "%w: stdout console mode: %w" [Sentinel ErrNotTerminal; e]))
              | (w, inl o) => (w, inl (MkWConsole i o false))
              end
          end
      end
  end.

Definition raw_in (base : Z) : Z :=
  Z.lor (Z.ldiff base (Z.lor (Z.lor ENABLE_PROCESSED_INPUT ENABLE_LINE_INPUT)
                         (Z.lor ENABLE_ECHO_INPUT ENABLE_WINDOW_INPUT)))
    ENABLE_VIRTUAL_TERMINAL_INPUT.
Definition raw_out (base : Z) : Z :=
  Z.lor (Z.lor base ENABLE_VIRTUAL_TERMINAL_PROCESSING)
    (Z.lor ENABLE_PROCESSED_OUTPUT ENABLE_WRAP_AT_EOL_OUTPUT).

Definition MakeRaw (c : wconsole) (w : modes) : modes * option gerr :=
  if w_closing c then (w, Some (Errorf "console: make raw: %w" [Sentinel os_ErrClosed]))
  else
    match SetConsoleMode HIn (raw_in (w_inBase c)) w with
    | (w, Some e) => (w, Some (Errorf "console: set input mode: %w" [e]))
    | (w, None) =>
        match SetConsoleMode HOut (Z.lor (raw_out (w_outBase c)) DISABLE_NEWLINE_AUTO_RETURN) w with
        | (w, None) => (w, None)
        | (w, Some _) =>
            match SetConsoleMode HOut (raw_out (w_outBase c)) w with
            | (w, None) => (w, None)
            | (w, Some e) =>
                let '(w, rollback) := SetConsoleMode HIn (w_inBase c) w in
                (w, errors_Join [Some (Errorf "console: set output mode: %w" [e]);
                                 match rollback with
                                 | Some e => Some (Errorf "console: roll back input mode: %w" [e])
                                 | None => None
                                 end])
            end
        end
    end.

Definition setModeIfChanged (h : handle) (m : Z) (w : modes) : modes * option gerr :=
  match GetConsoleMode h w with
  | (w, inr e) => (w, Some e)
  | (w, inl cur) => if cur =? m then (w, None) else SetConsoleMode h m w
  end.

Definition restoreLocked (c : wconsole) (w : modes) : modes * option gerr :=
  let '(w, e1) := setModeIfChanged HIn (w_inBase c) w in
  let '(w, e2) := setModeIfChanged HOut (w_outBase c) w in
  (w, match errors_Join [e1; e2] with Some e => Some (Errorf "console: restore: %w" [e]) | None => None end).

Definition restore (c : wconsole) (w : modes) : modes * option gerr :=
  if w_closing c then (w, None) else restoreLocked c w.

(** ** Close *)

(** A kernel32 call that x/sys does not wrap returns its result, zero when it
    failed, and the error of the thread.  [writeConsoleInput] makes the call
    for a list of records that is not empty; [setConsoleCtrlHandler] adds or
    removes a handler. *)
Definition writeConsoleInput {R} (call : list R -> Z * gerr) (recs : list R) : option gerr :=
  match recs with
  | [] => None
  | _ => let '(r1, err) := call recs in if r1 =? 0 then Some err else None
  end.
Definition setConsoleCtrlHandler (call : bool -> Z * gerr) (add : bool) : option gerr :=
  let '(r1, err) := call add in if r1 =? 0 then Some err else None.

(** The record [wakeReader] injects, an Enter key going down, and its result
    over what the injection returned. *)
Record inputRecord := MkInput {
  ir_EventType : Z; ir_KeyDown : Z; ir_RepeatCount : Z; ir_VirtualKeyCode : Z; ir_VirtualScanCode : Z; ir_UnicodeChar : Z;
  ir_ControlKeyState : Z
}.
Definition KEY_EVENT : Z := 1.
Definition wake_record : inputRecord := MkInput KEY_EVENT 1 1 0x0D 0x1C 13 0.
Definition wakeReader (inject : list inputRecord -> option gerr) : option gerr :=
  match inject [wake_record] with
  | Some e => Some (Errorf "console: wake reader: %w" [e])
  | None => None
  end.

(** Each turn of [wakeAndWait]: whether the injection failed, and what its
    select met. *)
Inductive wake_event := WExited | WTick | WDeadline.

Fixpoint wakeAndWait (turns : list (option gerr * wake_event)) (injectErr : option gerr) : option (option gerr) :=
  match turns with
  | [] => None
  | (inject, ev) :: turns =>
      let injectErr := match wakeReader (fun _ => inject) with Some e => Some e | None => injectErr end in
      match ev with
      | WExited => Some None
      | WTick => wakeAndWait turns injectErr
      | WDeadline => Some (errors_Join [Some (Errorf "console: reader did not return after close" []); injectErr])
      end
  end.

(** The first Close; [reading] and the wait are what it met, [flush] the
    outcome of the flush.  [None] when the wait has not ended. *)
Definition Close_first (reading : bool) (turns : list (option gerr * wake_event)) (flush : option gerr)
  (c : wconsole) (w : modes) : option (wconsole * modes * option gerr) :=
  let c := MkWConsole (w_inBase c) (w_outBase c) true in
  wake ← (if reading then wakeAndWait turns None else Some None);
  let flush := match flush with Some e => Some (Errorf "console: flush input: %w" [e]) | None => None end in
  let '(w, r) := restoreLocked c w in
  Some (c, w, errors_Join [wake; flush; r]).

Definition Close (reading : bool) (turns : list (option gerr * wake_event)) (flush : option gerr)
  (c : wconsole) (w : modes) : option (wconsole * modes * option gerr) :=
  if w_closing c then Some (c, w, None) else Close_first reading turns flush c w.

(** ** Reading *)

Record wreader := MkWReader { rd_dec : utf16Decoder; rd_pending : bytes; rd_off : Z }.
(** The reader state of [newConsole]. *)
Definition new_wreader : wreader := MkWReader 0 [] 0.

(** One console read: the units, its error, and whether Close had started when
    the lock was taken after it, and when it was taken at the next loop head. *)
Record console_read := MkRead { cr_units : list Z; cr_err : option gerr; cr_closing_after : bool; cr_closing_next : bool }.

Inductive read_result := ReadOk (p : bytes) | ReadErr (e : gerr) | ReadBlocked.

(** The copy out of the pending bytes. *)
Definition read_copy (n : Z) (r : wreader) : wreader * bytes :=
  let out := ztake n (zdrop (rd_off r) (rd_pending r)) in
  let off := rd_off r + zlen out in
  (if off =? zlen (rd_pending r) then MkWReader (rd_dec r) [] 0
   else MkWReader (rd_dec r) (rd_pending r) off, out).

(** [Read] into a buffer of [n] bytes.  [closing] is what the first locked
    check finds; with no console reads left the call is blocked.  The last
    component is the console reads it did not use. *)
Fixpoint wRead (n : Z) (reads : list console_read) (closing : bool) (r : wreader)
  : wreader * read_result * list console_read :=
  if closing then (r, ReadErr (Sentinel os_ErrClosed), reads)
  else if n =? 0 then (r, ReadOk [], reads)
  else if 0 <? zlen (rd_pending r) then let '(r, out) := read_copy n r in (r, ReadOk out, reads)
  else match reads with
  | [] => (r, ReadBlocked, [])
  | cr :: reads =>
      if cr_closing_after cr then (r, ReadErr (Sentinel os_ErrClosed), reads)
      else match cr_err cr with
      | Some e => (r, ReadErr (Errorf "console: read: %w" [e]), reads)
      | None =>
          let '(dec, pending) := utf16Decoder_append (rd_dec r) [] (cr_units cr) in
          wRead n reads (cr_closing_next cr) (MkWReader dec pending (rd_off r))
      end
  end.

(** Reads into buffers of the given sizes, until one fails or blocks. *)
Fixpoint run_reads (ns : list Z) (reads : list console_read) (r : wreader)
  : wreader * bytes * option read_result * list console_read :=
  match ns with
  | [] => (r, [], None, reads)
  | n :: ns =>
      match wRead n reads false r with
      | (r, ReadOk p, reads) =>
          let '(r, out, res, reads) := run_reads ns reads r in (r, p ++ out, res, reads)
      | (r, res, reads) => (r, [], Some res, reads)
      end
  end.

(** ** Writing *)

(** One WriteConsoleW: the units it reported, or its error. *)
Definition console_write : Type := Z + gerr.

(** The loop over the units; the results are the chunks handed over, the units
    the console reported and the error.  [None] when the calls run out. *)
Fixpoint write_units (units : list Z) (calls : list console_write)
  : option (list (list Z) * list Z * option gerr) :=
  match units with
  | [] => Some ([], [], None)
  | _ =>
      n ← chunkLen units writeUnits;
      let chunk := ztake n units in
      match calls with
      | [] => None
      | inr e :: _ => Some ([chunk], [], Some (Errorf "console: write: %w" [e]))
      | inl k :: calls =>
          if k =? 0 then Some ([chunk], [], Some (Sentinel io_ErrShortWrite))
          else if k >? zlen chunk then Some ([chunk], [], Some (Errorf "console: write: console reported %d units written of %d" []))
          else '(chunks, out, err) ← write_units (zdrop k units) calls;
               Some (chunk :: chunks, ztake k units ++ out, err)
      end
  end.

(** [Write]: the bytes reported, the error, and what reached the console. *)
Definition wWrite (closing : bool) (enc : utf8Encoder) (p : bytes) (calls : list console_write)
  : option (utf8Encoder * list (list Z) * list Z * (Z * option gerr)) :=
  if closing then Some (enc, [], [], (0, Some (Sentinel os_ErrClosed)))
  else
    '(enc, buf) ← utf8Encoder_append enc [] p;
    '(chunks, out, err) ← write_units buf calls;
    Some (enc, chunks, out, match err with Some e => (0, Some e) | None => (zlen p, None) end).

(** Writes one after another, while they succeed. *)
Fixpoint run_writes (enc : utf8Encoder) (ws : list (bytes * list console_write))
  : option (utf8Encoder * list Z) :=
  match ws with
  | [] => Some (enc, [])
  | (p, calls) :: ws =>
      match wWrite false enc p calls with
      | Some (enc, _, out, (_, None)) => '(enc, rest) ← run_writes enc ws; Some (enc, out ++ rest)
      | _ => None
      end
  end.

(** [Size] over the window rectangle (left, top, right, bottom), int16 each. *)
Definition wSize (closing : bool) (info : (Z * Z * Z * Z) + gerr) : Size + gerr :=
  if closing then inr (Errorf "console: size: %w" [Sentinel os_ErrClosed])
  else match info with
  | inr e => inr (Errorf "console: size: %w" [e])
  | inl (l, t, r, b) => inl (MkSize (wrap_s 16 (b - t) + 1) (wrap_s 16 (r - l) + 1) 0 0)
  end.

(** [Resizes]: the size when it is called, then a check at every tick. *)
Definition wResizes (size : Size + gerr) (checks : list (bool * (Size + gerr) * bool)) : Size * list Size * bool :=
  resize_loop (match size with inl sz => sz | inr _ => Size_zero end) checks.

(** [OnBreak]: the registered function, whether the installation was tried
    ([handlerOnce]), how often, and whether the handler is there; the error of
    a failed installation is dropped. *)
Record break_state := MkBreak { bk_func : option nat; bk_once : bool; bk_tries : nat; bk_handler : bool }.
Definition break_start : break_state := MkBreak None false 0 false.
Definition OnBreak (call : bool -> Z * gerr) (f : option nat) (s : break_state) : break_state :=
  match f with
  | None => MkBreak None (bk_once s) (bk_tries s) (bk_handler s)
  | Some _ =>
      if bk_once s then MkBreak f true (bk_tries s) (bk_handler s)
      else MkBreak f true (S (bk_tries s)) (match setConsoleCtrlHandler call true with None => true | Some _ => false end)
  end.

(** [ctrlHandler]: whether it handled the event and whether it called f. *)
Definition CTRL_BREAK_EVENT : Z := 1.
Definition ctrlHandler (ctrlType : Z) (registered : bool) : Z * bool :=
  if negb (ctrlType =? CTRL_BREAK_EVENT) then (0, false)
  else if registered then (1, true) else (0, false).

(** ** What Write delivers *)

Lemma write_units_spec calls units :
  Forall (fun c => match c with inl k => 0 <= k | inr _ => True end) calls ->
  match write_units units calls with
  | None => True
  | Some (chunks, out, err) =>
      out `prefix_of` units /\ (err = None <-> out = units) /\
      Forall (fun ch => ch <> [] /\ zlen ch <= writeUnits) chunks
  end.
Proof.
  intros Hc. revert units. induction Hc as [|c calls Hk _ IH]; intros units.
  - destruct units as [|u units]; cbn [write_units]; [done|].
    destruct (chunkLen_spec (u :: units) writeUnits ltac:(done)) as (n & -> & _). done.
  - destruct units as [|u units]; cbn [write_units]; [done|].
    destruct (chunkLen_spec (u :: units) writeUnits ltac:(done)) as (n & -> & Hn & Hnl & Hpos & _).
    cbn [mbind option_bind]. specialize (Hpos ltac:(done)).
    assert (zlen (ztake n (u :: units)) = n) as Hzn by (rewrite zlen_ztake; lia).
    assert (ztake n (u :: units) <> [] /\ zlen (ztake n (u :: units)) <= writeUnits) as Hch.
    { split; [|lia]. intros He. rewrite He in Hzn. change (zlen []) with 0 in Hzn. lia. }
    assert (forall e : gerr, Some e = None <-> @nil Z = u :: units) as Herr by (split; discriminate).
    destruct c as [k|e].
    + destruct (Z.eqb_spec k 0); [split_and!; [apply prefix_nil|apply Herr|by constructor]|].
      rewrite Z.gtb_ltb. destruct (Z.ltb_spec (zlen (ztake n (u :: units))) k);
        [split_and!; [apply prefix_nil|apply Herr|by constructor]|].
      specialize (IH (zdrop k (u :: units))). destruct (write_units _ calls) as [[[chunks out] err]|]; [|done].
      cbn. destruct IH as (Hpre & Hiff & Hall). split_and!.
      * rewrite <- (ztake_zdrop k (u :: units)) at 2. by apply prefix_app.
      * rewrite Hiff. split; [intros ->; apply ztake_zdrop|].
        intros Ho. rewrite <- (ztake_zdrop k (u :: units)) in Ho at 2. by apply app_inv_head in Ho.
      * by constructor.
    + split_and!; [apply prefix_nil|apply Herr|by constructor].
Qed.

(** ** Streams through the console *)

Definition call_ok (c : console_write) : Prop := match c with inl k => 0 <= k | inr _ => True end.

Lemma run_writes_encode ws enc r :
  Forall (fun w => Forall call_ok w.2) ws -> run_writes enc ws = Some r ->
  encode_writes enc (fst <$> ws) = Some r.
Proof.
  intros Hc. revert enc r. induction Hc as [|[p calls] ws Hk _ IH]; intros enc r; [done|].
  cbn [run_writes fmap list_fmap encode_writes fst]. unfold wWrite.
  destruct (utf8Encoder_append enc [] p) as [[enc1 buf]|]; [|done]. cbn [mbind option_bind].
  pose proof (write_units_spec calls buf Hk) as Hw.
  destruct (write_units buf calls) as [[[chunks out] [e|]]|]; [done| |done]. cbn [mbind option_bind].
  destruct Hw as (_ & [Heq _] & _). rewrite (Heq eq_refl).
  destruct (run_writes enc1 ws) as [[enc2 rest]|] eqn:Hr; [|done]. rewrite (IH _ _ Hr). done.
Qed.

(** [C21] Text written through any packets and any partial console writes reaches
    the console as its UTF-16, whole, in order and once. *)
Theorem windows_write_text ws enc out rs :
  Forall (fun w => Forall call_ok w.2) ws -> run_writes [] ws = Some (enc, out) ->
  Forall (fun r => is_scalar r = true) rs -> concat (fst <$> ws) = utf8_bytes rs ->
  out = utf16_units rs /\ enc = [].
Proof.
  intros Hk Hr Hs Hc. apply run_writes_encode in Hr; [|done].
  destruct (utf8Encoder_stream (fst <$> ws)) as [_ Ht]. rewrite (Ht rs Hs Hc) in Hr. by injection Hr as <- <-.
Qed.

Definition reader_ok (r : wreader) (units : list Z) (out : bytes) : Prop :=
  utf16Decoder_append 0 [] units = (rd_dec r, out ++ zdrop (rd_off r) (rd_pending r)) /\
  0 <= rd_off r <= zlen (rd_pending r) /\ (zlen (rd_pending r) <= 0 -> rd_off r = 0).

Lemma read_copy_ok n r r' p units out :
  0 <= n -> reader_ok r units out -> read_copy n r = (r', p) ->
  zlen p <= n /\ reader_ok r' units (out ++ p).
Proof.
  intros Hn (Hd & Ho & Hz). unfold read_copy. intros [= <- <-].
  set (o := ztake n (zdrop (rd_off r) (rd_pending r))). pose proof (zlen_nonneg o).
  assert (zlen o = Z.min n (zlen (rd_pending r) - rd_off r)) as Hzo
    by (unfold o; rewrite zlen_ztake, zlen_zdrop; lia).
  assert (zdrop (rd_off r) (rd_pending r) = o ++ zdrop (rd_off r + zlen o) (rd_pending r)) as Hsp.
  { rewrite <- (ztake_zdrop n (zdrop (rd_off r) (rd_pending r))) at 1. fold o. f_equal.
    rewrite Hzo, zdrop_zdrop by lia. destruct (Z.le_gt_cases n (zlen (rd_pending r) - rd_off r)).
    - f_equal. lia.
    - transitivity (@nil byte); [|symmetry]; apply zdrop_ge; lia. }
  split; [lia|]. destruct (Z.eqb_spec (rd_off r + zlen o) (zlen (rd_pending r))) as [He|He]; split; cbn.
  - rewrite Hd, Hsp, He, zdrop_ge by lia. by rewrite !app_nil_r.
  - split; [by vm_compute|done].
  - by rewrite Hd, Hsp, app_assoc.
  - lia.
Qed.

Lemma wRead_ok n reads closing r r' p rest units out :
  0 <= n -> reader_ok r units out -> wRead n reads closing r = (r', ReadOk p, rest) ->
  exists used, reads = used ++ rest /\ zlen p <= n /\
    reader_ok r' (units ++ concat (cr_units <$> used)) (out ++ p).
Proof.
  intros Hn. revert closing r units. induction reads as [|cr reads IH]; intros closing r units Hok; cbn [wRead];
    (destruct closing; [done|]);
    (destruct (Z.eqb_spec n 0); [intros [= <- <- <-]; exists []; cbn; rewrite !app_nil_r; by split_and!|]);
    (destruct (Z.ltb_spec 0 (zlen (rd_pending r))) as [Hp|Hp]);
    try (destruct (read_copy n r) as [r1 o] eqn:Hcp; intros [= <- <- <-];
         destruct (read_copy_ok _ _ _ _ _ _ Hn Hok Hcp) as [? ?]; exists []; cbn; by rewrite app_nil_r).
  destruct (cr_closing_after cr); [done|]. destruct (cr_err cr); [done|].
  destruct Hok as (Hd & Ho & Hz). specialize (Hz Hp). assert (rd_pending r = []) as Hpe.
    { destruct (rd_pending r) as [|x l]; [done|]. rewrite zlen_cons in Hp. pose proof (zlen_nonneg l). lia. }
    destruct (utf16Decoder_append (rd_dec r) [] (cr_units cr)) as [dec pending] eqn:Hda. intros Hr.
    assert (reader_ok (MkWReader dec pending (rd_off r)) (units ++ cr_units cr) out) as Hok1.
    { split; cbn; rewrite Hz.
      - rewrite utf16Decoder_append_app, Hd, Hz, Hpe, utf16Decoder_append_dst, Hda. cbn. by rewrite app_nil_r.
      - pose proof (zlen_nonneg pending). lia. }
    destruct (IH _ _ _ Hok1 Hr) as (used & -> & Hl & Hok'). exists (cr :: used).
    split_and!; try done. cbn. by rewrite app_assoc.
Qed.

Lemma run_reads_ok ns reads r r' p rest units out :
  Forall (fun n => 0 <= n) ns -> reader_ok r units out -> run_reads ns reads r = (r', p, None, rest) ->
  exists used, reads = used ++ rest /\ reader_ok r' (units ++ concat (cr_units <$> used)) (out ++ p).
Proof.
  intros Hn. revert reads r p units out. induction Hn as [|n ns Hn _ IH]; intros reads r p units out Hok; cbn [run_reads].
  - intros [= <- <- <-]. exists []. cbn. by rewrite !app_nil_r.
  - destruct (wRead n reads false r) as [[r1 [q|e|]] rest1] eqn:Hr; [|done|done].
    destruct (wRead_ok _ _ _ _ _ _ _ _ _ Hn Hok Hr) as (used1 & -> & _ & Hok1).
    destruct (run_reads ns rest1 r1) as [[[r2 o2] res2] rest2] eqn:Hr2. intros [= <- <- -> ->].
    destruct (IH _ _ _ _ _ Hok1 Hr2) as (used2 & -> & Hok2). exists (used1 ++ used2).
    split; [by rewrite app_assoc|]. by rewrite fmap_app, concat_app, !app_assoc.
Qed.

(** [C22] What the Reads of the keyboard return, in buffers of any sizes: in order
    and once, exactly the bytes that the console reads they used decode to as
    one stream, less what is still buffered for the next Read. *)
Theorem windows_read_stream ns reads r out rest :
  Forall (fun n => 0 <= n) ns -> run_reads ns reads new_wreader = (r, out, None, rest) ->
  exists used, reads = used ++ rest /\
    out ++ zdrop (rd_off r) (rd_pending r) = utf8_bytes (fst (runes16 (concat (cr_units <$> used)))).
Proof.
  intros Hn Hr. destruct (run_reads_ok ns reads new_wreader r out rest [] [] Hn) as (used & -> & Hd & _); [|done|].
  - by split.
  - exists used. split; [done|]. cbn [app] in Hd. rewrite utf16Decoder_append_runes in Hd.
    destruct (runes16 _) as [rs h]. cbn [fst]. by injection Hd as _ ->.
Qed.

(** Once Close has started a Read returns os.ErrClosed: one that begins then,
    and one that was blocked in the console, whatever it read. *)
Lemma wRead_closed n reads r cr :
  wRead n reads true r = (r, ReadErr (Sentinel os_ErrClosed), reads) /\
  (n <> 0 -> zlen (rd_pending r) = 0 -> cr_closing_after cr = true ->
   wRead n (cr :: reads) false r = (r, ReadErr (Sentinel os_ErrClosed), reads)).
Proof.
  split; [by destruct reads|]. intros Hn Hp Hc. cbn [wRead].
  destruct (Z.eqb_spec n 0); [done|]. rewrite Hp. cbn. by rewrite Hc.
Qed.

(** ** Modes *)

Section Modes.
Variable reading : bool.
Variable turns : list (option gerr * wake_event).
Variable flush : option gerr.

(** The Close of a caller whose wait for the reader ends; without an end it
    does not return. *)
Definition wClose (c : wconsole) (w : modes) : wconsole * modes * option gerr :=
  default (MkWConsole (w_inBase c) (w_outBase c) true, w, None) (Close reading turns flush c w).

Definition at_base (c : wconsole) (w : modes) : Prop := m_in w = w_inBase c /\ m_out w = w_outBase c.
Definition works (w : modes) : Prop := m_fails w = [].

(** Both handles are raw, with or without DISABLE_NEWLINE_AUTO_RETURN. *)
Definition at_raw (c : wconsole) (w : modes) : Prop :=
  m_in w = raw_in (w_inBase c) /\
  (m_out w = Z.lor (raw_out (w_outBase c)) DISABLE_NEWLINE_AUTO_RETURN \/ m_out w = raw_out (w_outBase c)).

(** A mode call reports whether it set the mode; it leaves the other handle. *)
Lemma SetConsoleMode_spec h m w :
  let '(w', e) := SetConsoleMode h m w in
  (works w -> e = None /\ works w') /\
  mode_of h w' = (if e then mode_of h w else m) /\ (forall h', h' <> h -> mode_of h' w' = mode_of h' w).
Proof.
  unfold SetConsoleMode, next_fail, works. destruct w as [i o [|[e|] f] n], h; cbn;
    (split; [done|split; [done|]]); intros [] ?; done.
Qed.

Lemma setModeIfChanged_spec h m w :
  let '(w', e) := setModeIfChanged h m w in
  (works w -> e = None /\ works w') /\
  (e = None -> mode_of h w' = m) /\ (forall h', h' <> h -> mode_of h' w' = mode_of h' w).
Proof.
  unfold setModeIfChanged, GetConsoleMode.
  assert (let '(w1, e) := next_fail w in (works w -> e = None /\ works w1) /\ forall h', mode_of h' w1 = mode_of h' w) as Hn.
  { unfold next_fail, works. destruct w as [i o [|e f] n]; (split; [done|]); by intros []. }
  destruct (next_fail w) as [w1 [e|]]; 
    [destruct Hn as [Hn Hm]; split; [by intros []%Hn|by split; [|intros; apply Hm]]|]. destruct Hn as [Hw1 Hm].
  destruct (Z.eqb_spec (mode_of h w1) m) as [<-|_]; [done|].
  pose proof (SetConsoleMode_spec h m w1) as Hs. destruct (SetConsoleMode h m w1) as [w2 e].
  destruct Hs as (Hw2 & Hme & Ho). split; [intros Hw; by apply Hw2, Hw1|]. split; [by intros ->|].
  intros h' Hh. by rewrite Ho, Hm.
Qed.

Lemma restoreLocked_spec c w :
  let '(w', e) := restoreLocked c w in (works w -> e = None) /\ (e = None -> at_base c w').
Proof.
  unfold restoreLocked. pose proof (setModeIfChanged_spec HIn (w_inBase c) w) as H1.
  destruct (setModeIfChanged HIn _ w) as [w1 e1]. destruct H1 as (Hw1 & Hb1 & _).
  pose proof (setModeIfChanged_spec HOut (w_outBase c) w1) as H2.
  destruct (setModeIfChanged HOut _ w1) as [w2 e2]. destruct H2 as (Hw2 & Hb2 & Ho).
  split; [intros Hw; destruct (Hw1 Hw) as [-> Hw']; by destruct (Hw2 Hw') as [-> _]|].
  destruct e1, e2; try done. intros _. split; [|by apply Hb2]. rewrite <- (Hb1 eq_refl). by apply (Ho HIn).
Qed.

(** MakeRaw leaves both handles raw, or fails and leaves the output handle as
    it was and the input handle as it was or at its baseline; only when all of
    its output calls and the rollback fail does the input stay raw. *)
Lemma MakeRaw_spec c w :
  w_closing c = false ->
  let '(w', e) := MakeRaw c w in
  match e with
  | None => at_raw c w'
  | Some _ => m_out w' = m_out w /\
      (m_in w' = m_in w \/ m_in w' = w_inBase c \/
       m_in w' = raw_in (w_inBase c) /\ exists e1 e2 e3 rest, m_fails w = None :: Some e1 :: Some e2 :: Some e3 :: rest)
  end.
Proof.
  intros Hc. unfold MakeRaw, SetConsoleMode, next_fail, at_raw. rewrite Hc.
  destruct w as [i o [|[e|] [|[e1|] [|[e2|] [|[e3|] f]]]] n]; cbn; auto 10.
  split; [done|]. right. right. split; [done|]. by eexists _, _, _, _.
Qed.

Lemma MakeRaw_works c w : w_closing c = false -> works w -> snd (MakeRaw c w) = None.
Proof. intros Hc Hw. unfold MakeRaw. rewrite Hc. destruct w as [i o f n]. unfold works in Hw. cbn in Hw. by subst f. Qed.

(** A console at its baseline is not touched, whatever fails. *)
Lemma restoreLocked_base c w : at_base c w -> m_sets (restoreLocked c w).1 = m_sets w.
Proof.
  intros [Hi Ho]. unfold restoreLocked, setModeIfChanged, GetConsoleMode, next_fail.
  destruct w as [i o [|[e|] [|[e2|] fails]] n]; cbn in *; subst; rewrite ?Z.eqb_refl; cbn; rewrite ?Z.eqb_refl; done.
Qed.

Hypothesis wait_ends : reading = true -> wakeAndWait turns None <> None.

#[export] Instance windows_terminal : RawTerminal wconsole modes.
Proof using reading turns flush wait_ends.
  refine {| rt_closed := w_closing; rt_at_base := at_base; rt_raw := at_raw; rt_works := works; rt_sets := m_sets;
    rt_MakeRaw := MakeRaw; rt_restore := restore; rt_Close := wClose |}.
  - intros c w Hc. pose proof (MakeRaw_spec c w Hc) as Hs. pose proof (MakeRaw_works c w Hc) as Hw.
    destruct (MakeRaw c w) as [w' e]. split; [exact Hw|]. by intros ->.
  - intros c w Hc. unfold MakeRaw. rewrite Hc. by eexists.
  - intros c w Hc. unfold restore. rewrite Hc. apply restoreLocked_spec.
  - intros c w Hb. unfold restore. destruct (w_closing c); [done|]. by apply restoreLocked_base.
  - intros c w Hc. unfold restore. by rewrite Hc.
  - intros c w Hc. unfold wClose, Close, Close_first. rewrite Hc.
    set (c' := MkWConsole (w_inBase c) (w_outBase c) true).
    assert (exists wake, (if reading then wakeAndWait turns None else Some None) = Some wake) as [wake ->].
    { destruct reading; [|by eexists]. specialize (wait_ends eq_refl). destruct (wakeAndWait turns None); [by eexists|done]. }
    cbn [mbind option_bind]. pose proof (restoreLocked_spec c' w) as Hr. destruct (restoreLocked c' w) as [w' r].
    destruct Hr as [Hw Hb]. cbn. split; [done|]. split; [|done].
    intros [Hworks|He]; apply Hb; [by apply Hw|]. by destruct wake, flush, r.
  - intros c w Hc. unfold wClose, Close. by rewrite Hc.
Defined.

Lemma run_ops_bases before c w :
  let c1 := fst (run_ops before (c, w)) in w_inBase c1 = w_inBase c /\ w_outBase c1 = w_outBase c.
Proof.
  revert c w. induction before as [|op ops IH]; intros c w; [done|]. cbn [run_ops foldl].
  change (foldl _ ?s ops) with (run_ops ops s). destruct op; cbn [mode_step]; [apply IH..| |apply IH].
  change rt_Close with wClose. unfold wClose, Close, Close_first.
  destruct (w_closing c); [apply IH|]. destruct (if reading then _ else _); cbn [mbind option_bind default from_option fst];
    [|apply (IH (MkWConsole _ _ true))].
  destruct (restoreLocked _ w). cbn. apply (IH (MkWConsole _ _ _)).
Qed.
End Modes.

(** [C23] The console modes after [Close] are the ones [Open] found, in both
    handles, after any sequence of MakeRaw and restore calls any of whose
    console calls may have failed, and whatever other processes (an
    interrupted ssh prompt) left behind: provided the mode calls of Close
    itself succeed, or it reports no error.  A reader that has to be woken or
    a flush that fails does not keep the modes from being restored.
    Afterwards nothing changes them and MakeRaw fails with os.ErrClosed.
    Before, MakeRaw makes both handles raw or fails with the output handle as
    it was and the input handle as it was or at its baseline, unless every
    output call and the rollback fail. *)
Theorem windows_modes_after_close reading turns flush
  (Hwait : reading = true -> wakeAndWait turns None <> None) w0 w1 c before after :
  Open None None w0 = (w1, inl c) ->
  let run := @run_ops _ _ (windows_terminal reading turns flush Hwait) in
  let '(c1, w2) := run before (c, w1) in
  w_closing c1 = false -> Forall own_op after ->
  let '(_, w3, closeErr) := wClose reading turns flush c1 w2 in
  let '(c', w') := run (before ++ OpClose :: after) (c, w1) in
  (m_fails w2 = [] \/ closeErr = None -> m_in w' = m_in w0 /\ m_out w' = m_out w0) /\
  w' = w3 /\ (exists e, MakeRaw c' w' = (w', Some e) /\ errors_Is e os_ErrClosed = true) /\
  let '(w4, rawErr) := MakeRaw c1 w2 in
  match rawErr with
  | None => m_in w4 = raw_in (m_in w0) /\
      (m_out w4 = Z.lor (raw_out (m_out w0)) DISABLE_NEWLINE_AUTO_RETURN \/ m_out w4 = raw_out (m_out w0))
  | Some _ => m_out w4 = m_out w2 /\
      (m_in w4 = m_in w2 \/ m_in w4 = m_in w0 \/
       m_in w4 = raw_in (m_in w0) /\ exists e1 e2 e3 rest, m_fails w2 = None :: Some e1 :: Some e2 :: Some e3 :: rest)
  end.
Proof.
  intros Ho run. assert (w_inBase c = m_in w0 /\ w_outBase c = m_out w0) as [Hi0 Ho0].
  { unfold Open, GetConsoleMode, next_fail in Ho. destruct w0 as [i o [|[e|] [|[e2|] fails]] n]; cbn in Ho; try done;
      injection Ho as <- <-; done. }
  pose proof (@modes_after_close _ _ (windows_terminal reading turns flush Hwait) before after c w1) as H.
  pose proof (run_ops_bases reading turns flush Hwait before c w1) as Hbase.
  fold run in H, Hbase. destruct (run before (c, w1)) as [c1 w2]. intros Hc Ha. specialize (H Hc Ha).
  change rt_Close with (wClose reading turns flush) in H.
  pose proof (MakeRaw_spec c1 w2 Hc) as Hraw. destruct Hbase as [Hbi Hbo]. cbn [fst] in Hbi, Hbo.
  unfold at_raw in Hraw. rewrite Hbi, Hbo, Hi0, Ho0 in Hraw.
  destruct (wClose reading turns flush c1 w2) as [[c2 w3] e].
  destruct (run (before ++ OpClose :: after) (c, w1)) as [c' w']. destruct H as (-> & Hat & He).
  split; [|split; [done|split; [exact He|exact Hraw]]].
  intros Hw. destruct (Hat Hw) as [-> ->]. done.
Qed.

(** ** On concrete values *)

(** "e" with an acute accent and an emoji, split inside both characters, over
    a console that writes one unit at a time. *)
Lemma windows_write_text_witness :
  let ws := [([xc3], []); ([xa9; xf0; x9f], [inl 1]); ([x98; x80], [inl 1; inl 1])] in
  exists enc out, run_writes [] ws = Some (enc, out) /\ out = [0xE9; 0xD83D; 0xDE00] /\ enc = [].
Proof.
  intros ws. eexists _, _. split; [vm_compute; reflexivity|].
  assert (Forall (fun w => Forall call_ok w.2) ws) as Hk
    by (repeat first [apply Forall_cons_2 | apply Forall_nil_2]; by vm_compute).
  assert (Forall (fun r => is_scalar r = true) [0xE9; 0x1F600]) as Hs
    by (repeat first [apply Forall_cons_2 | apply Forall_nil_2]; by vm_compute).
  exact (windows_write_text ws [] [0xE9; 0xD83D; 0xDE00] [0xE9; 0x1F600] Hk
    ltac:(vm_compute; reflexivity) Hs ltac:(vm_compute; reflexivity)).
Defined.

(** A pair split over two console reads, read one byte at a time. *)
Lemma windows_read_stream_witness :
  let reads := [MkRead [0x61; 0xD83D] None false false; MkRead [0xDE00] None false false] in
  exists r rest, run_reads [1; 1; 2; 5] reads new_wreader = (r, [x61; xf0; x9f; x98; x80], None, rest) /\
  exists used, reads = used ++ rest /\
    [x61; xf0; x9f; x98; x80] ++ zdrop (rd_off r) (rd_pending r) =
      utf8_bytes (fst (runes16 (concat (cr_units <$> used)))).
Proof.
  intros reads. eexists _, _. split; [vm_compute; reflexivity|].
  assert (Forall (fun n => 0 <= n) [1; 1; 2; 5]) as Hn
    by (repeat first [apply Forall_cons_2 | apply Forall_nil_2]; by vm_compute).
  exact (windows_read_stream [1; 1; 2; 5] reads _ _ _ Hn ltac:(vm_compute; reflexivity)).
Defined.

(** A blocked reader that is woken at the second attempt, after a MakeRaw that
    failed and could not roll back, in a console that ssh left without echo. *)
Lemma windows_modes_after_close_witness :
  let turns := [(None, WTick); (Some (Foreign 1), WExited)] in
  let failing := MkModes 0x1f7 3 [None; Some (Foreign 2); Some (Foreign 3); Some (Foreign 4)] 0 in
  exists Hwait : true = true -> wakeAndWait turns None <> None,
  let run := @run_ops _ _ (windows_terminal true turns None Hwait) in
  let '(c', w') := run ([OpMakeRaw; OpRestore; OpOther failing; OpMakeRaw; OpOther (MkModes 1 2 [] 0)] ++
                        OpClose :: [OpRestore; OpMakeRaw])
                     (MkWConsole 0x1f7 3 false, MkModes 0x1f7 3 [] 0) in
  m_in w' = 0x1f7 /\ m_out w' = 3.
Proof.
  intros turns failing. assert (true = true -> wakeAndWait turns None <> None) as Hwait by (intros _; by vm_compute).
  exists Hwait. intros run.
  pose proof (windows_modes_after_close true turns None Hwait (MkModes 0x1f7 3 [] 0) (MkModes 0x1f7 3 [] 0)
    (MkWConsole 0x1f7 3 false) [OpMakeRaw; OpRestore; OpOther failing; OpMakeRaw; OpOther (MkModes 1 2 [] 0)]
    [OpRestore; OpMakeRaw] eq_refl eq_refl
    ltac:(repeat first [apply Forall_cons_2 | apply Forall_nil_2]; done)) as H.
  exact (proj1 H (or_introl eq_refl)).
Defined.
