(* ===== verification/ConsoleUnix.v ===== *)
(** * internal/console/console_unix.go: the controlling terminal

    A terminal state is an opaque value the kernel keeps; every access goes
    through [controlFile], whose two steps may fail before the call itself
    does.  [MakeRaw], [restore], [Size] and [Close] are programs over that
    world, and the [RawTerminal] of this platform. *)

From S2P Require Export Console.
Local Open Scope Z_scope.

(** The world: the terminal's state, whether its file is open, and the
    outcomes of the next system calls in order; past the end they succeed. *)
Record tty := MkTty { y_state : Z; y_open : bool; y_fails : list (option gerr); y_sets : nat }.

Definition tty_next (w : tty) : tty * option gerr :=
  match y_fails w with
  | [] => (w, None)
  | o :: l => (MkTty (y_state w) (y_open w) l (y_sets w), o)
  end.

(** [controlFile]: SyscallConn, Control, and the function run inside it. *)
Definition controlFile {A} (f : tty -> tty * (A + gerr)) (w : tty) : tty * (A + gerr) :=
  match tty_next w with
  | (w, Some e) => (w, inr e)
  | (w, None) => match tty_next w with
                 | (w, Some e) => (w, inr e)
                 | (w, None) => f w
                 end
  end.

(** [controlValue]: the value or the first error. *)
Definition controlValue {A} (f : tty -> tty * (A + gerr)) (w : tty) : tty * (A + gerr) := controlFile f w.

(** [isTerminal], given what the kernel answers for the descriptor. *)
Definition isTerminal (answer : bool) (w : tty) : tty * bool :=
  match controlValue (fun w => (w, inl answer)) w with
  | (w, inl ok) => (w, ok)
  | (w, inr _) => (w, false)
  end.

Definition GetState (w : tty) : tty * (Z + gerr) :=
  match tty_next w with (w, Some e) => (w, inr e) | (w, None) => (w, inl (y_state w)) end.
Definition SetState (s : Z) (w : tty) : tty * (unit + gerr) :=
  match tty_next w with
  | (w, Some e) => (w, inr e)
  | (w, None) => (MkTty s (y_open w) (y_fails w) (S (y_sets w)), inl tt)
  end.

Record uconsole := MkUConsole { u_base : Z; u_closed : bool }.

(** [noTerminalToOpen]: whether the open failed with ENXIO or ENOENT. *)
Definition noTerminalToOpen (is_ENXIO is_ENOENT : bool) : bool := is_ENXIO || is_ENOENT.

(** [newConsole], and [open] with what the kernel answers for stdin and stdout
    and what OpenFile answered. *)
Definition newConsole (w : tty) : tty * (uconsole + gerr) :=
  match controlValue GetState w with
  | (w, inr e) => (w, inr (Errorf "%w: read terminal state: %w" [Sentinel ErrNotTerminal; e]))
  | (w, inl base) => (w, inl (MkUConsole base false))
  end.

Definition open (stdin_tty stdout_tty : bool) (openErr : option (gerr * bool * bool)) (w : tty)
  : tty * (uconsole + gerr) :=
  let '(w, terminals) := match isTerminal stdin_tty w with
                         | (w, true) => isTerminal stdout_tty w
                         | (w, false) => (w, false)
                         end in
  if negb terminals then (w, inr (Sentinel ErrNotTerminal))
  else match openErr with
  | Some (e, enxio, enoent) =>
      (w, inr (if noTerminalToOpen enxio enoent then Errorf "%w: %w" [Sentinel ErrNotTerminal; e]
               else Errorf "console: %w" [e]))
  | None =>
      match newConsole w with
      | (w, inl c) => (w, inl c)
      | (w, inr e) => (MkTty (y_state w) false (y_fails w) (y_sets w), inr e)
      end
  end.

Lemma isTerminal_state answer w : y_state (isTerminal answer w).1 = y_state w.
Proof.
  unfold isTerminal, controlValue, controlFile, tty_next.
  destruct w as [s op [|[e|] [|[e2|] f]] n]; done.
Qed.

(** A console that opened has the state it found as its baseline. *)
Lemma open_base a b err w w' c :
  open a b err w = (w', inl c) -> u_base c = y_state w /\ u_closed c = false.
Proof.
  unfold open. pose proof (isTerminal_state a w) as H1. destruct (isTerminal a w) as [w1 []]; cbn in H1; [|done].
  pose proof (isTerminal_state b w1) as H2. destruct (isTerminal b w1) as [w2 []]; cbn in H2; [|done].
  cbn. destruct err as [[[e x] y]|]; [done|]. rewrite <- H1, <- H2.
  unfold newConsole, controlValue, controlFile, GetState, tty_next.
  destruct w2 as [s op [|[e|] [|[e2|] [|[e3|] f]]] n]; cbn; try done; by intros [= _ <-].
Qed.

Section Raw.
(** What term.MakeRaw turns a state into. *)
Variable raw : Z -> Z.

Definition uMakeRaw (c : uconsole) (w : tty) : tty * option gerr :=
  if u_closed c then (w, Some (Errorf "console: make raw: %w" [Sentinel os_ErrClosed]))
  else match controlFile (fun w => match GetState w with
                                   | (w, inr e) => (w, inr e)
                                   | (w, inl s) => SetState (raw s) w
                                   end) w with
  | (w, inr e) => (w, Some (Errorf "console: make raw: %w" [e]))
  | (w, inl _) => (w, None)
  end.

Definition u_restoreLocked (c : uconsole) (w : tty) : tty * option gerr :=
  match controlFile (fun w => match GetState w with
                              | (w, inr e) => (w, inr e)
                              | (w, inl cur) => if cur =? u_base c then (w, inl tt) else SetState (u_base c) w
                              end) w with
  | (w, inr e) => (w, Some (Errorf "console: restore: %w" [e]))
  | (w, inl _) => (w, None)
  end.

Definition u_restore (c : uconsole) (w : tty) : tty * option gerr :=
  if u_closed c then (w, None) else u_restoreLocked c w.

(** [Size] over the kernel's window size. *)
Definition uSize (c : uconsole) (ws : (Z * Z * Z * Z) + gerr) : Size + gerr :=
  if u_closed c then inr (Errorf "console: size: %w" [Sentinel os_ErrClosed])
  else match ws with
  | inr e => inr (Errorf "console: size: %w" [e])
  | inl (row, col, x, y) => inl (MkSize row col x y)
  end.

(** [Close]: restore, then close the file, whose own error is [closeErr]. *)
Definition uClose (closeErr : option gerr) (c : uconsole) (w : tty) : uconsole * tty * option gerr :=
  if u_closed c then (c, w, None)
  else
    let c := MkUConsole (u_base c) true in
    let '(w, r) := u_restoreLocked c w in
    (c, MkTty (y_state w) false (y_fails w) (y_sets w), errors_Join [r; closeErr]).

(** [Read] and [Write] are those of the terminal's file: what the file answers
    while it is open, os.ErrClosed once it is not. *)
Definition file_op {A} (op : string) (zero : A) (answer : A * option gerr) (w : tty) : A * option gerr :=
  if y_open w then answer else (zero, Some (Errorf op [Sentinel os_ErrClosed])).
Definition uRead (answer : (bytes * option gerr)) (w : tty) : bytes * option gerr := file_op "read /dev/tty: %w" [] answer w.
Definition uWrite (answer : (Z * option gerr)) (w : tty) : Z * option gerr := file_op "write /dev/tty: %w" 0 answer w.

(** ** The promise *)

Definition u_at_base (c : uconsole) (w : tty) : Prop := y_state w = u_base c.
Definition u_works (w : tty) : Prop := y_fails w = [].

(** What MakeRaw leaves: raw of some state the terminal had. *)
Definition u_at_raw (_ : uconsole) (w : tty) : Prop := exists s, y_state w = raw s.

Lemma u_restoreLocked_spec c w :
  let '(w', e) := u_restoreLocked c w in (u_works w -> e = None) /\ (e = None -> u_at_base c w').
Proof.
  destruct w as [s op f n]. unfold u_works, u_restoreLocked, controlFile, GetState, SetState, tty_next, u_at_base.
  destruct f as [|[e|] [|[e2|] [|[e3|] [|[e4|] f]]]]; cbn; destruct (Z.eqb_spec s (u_base c)); cbn; done.
Qed.

(** MakeRaw makes the terminal raw, from the state it is in, or fails and
    leaves it. *)
Lemma uMakeRaw_spec c w :
  u_closed c = false ->
  let '(w', e) := uMakeRaw c w in
  (u_works w -> e = None) /\ y_state w' = (if e then y_state w else raw (y_state w)).
Proof.
  intros Hc. destruct w as [s op f n]. unfold uMakeRaw, u_works, controlFile, GetState, SetState, tty_next. rewrite Hc.
  destruct f as [|[e|] [|[e2|] [|[e3|] [|[e4|] f]]]]; cbn; done.
Qed.

#[export] Instance unix_terminal (closeErr : option gerr) : RawTerminal uconsole tty.
Proof using raw.
  refine {| rt_closed := u_closed; rt_at_base := u_at_base; rt_raw := u_at_raw; rt_works := u_works;
    rt_sets := y_sets; rt_MakeRaw := uMakeRaw; rt_restore := u_restore; rt_Close := uClose closeErr |}.
  - intros c w Hc. pose proof (uMakeRaw_spec c w Hc) as Hs. destruct (uMakeRaw c w) as [w' e]. destruct Hs as [Hw Hs].
    split; [done|]. intros ->. by exists (y_state w).
  - intros c w Hc. unfold uMakeRaw. rewrite Hc. by eexists.
  - intros c w Hc. unfold u_restore. rewrite Hc. pose proof (u_restoreLocked_spec c w) as Hr.
    by destruct (u_restoreLocked c w).
  - intros c [s op f n] Hb. unfold u_restore, u_at_base in *. cbn in Hb. destruct (u_closed c); [done|].
    unfold u_restoreLocked, controlFile, GetState, tty_next. cbn. subst s.
    destruct f as [|[e|] [|[e2|] [|[e3|] f]]]; cbn; rewrite ?Z.eqb_refl; done.
  - intros c w Hc. unfold u_restore. by rewrite Hc.
  - intros c w Hc. unfold uClose. rewrite Hc.
    pose proof (u_restoreLocked_spec (MkUConsole (u_base c) true) w) as Hr.
    destruct (u_restoreLocked _ w) as [w' r]. destruct Hr as [Hw Hb]. cbn. split; [done|]. split; [|done].
    intros [Hworks|He]; apply Hb; [by apply Hw|]. by destruct r, closeErr.
  - intros c w Hc. unfold uClose. by rewrite Hc.
Defined.
End Raw.

(** After [Close] the terminal is in the state [Open] found it in, whatever
    MakeRaw, restore and other programs did in between and whichever of their
    calls failed, provided Close itself can read and set the state or reports no
    error; and nothing changes it again.  Before, a MakeRaw that fails leaves
    the terminal as it is. *)
Theorem unix_mode_after_close raw closeErr w0 w1 c before after :
  open true true None w0 = (w1, inl c) ->
  let run := @run_ops _ _ (unix_terminal raw closeErr) in
  let '(c1, w2) := run before (c, w1) in
  u_closed c1 = false -> Forall own_op after ->
  let '(_, w3, e) := uClose closeErr c1 w2 in
  let '(c', w') := run (before ++ OpClose :: after) (c, w1) in
  (y_fails w2 = [] \/ e = None -> y_state w' = y_state w0) /\ w' = w3 /\
  (exists e, uMakeRaw raw c' w' = (w', Some e) /\ errors_Is e os_ErrClosed = true) /\
  let '(w4, rawErr) := uMakeRaw raw c1 w2 in
  y_state w4 = (if rawErr then y_state w2 else raw (y_state w2)).
Proof.
  intros Ho run. destruct (open_base _ _ _ _ _ _ Ho) as [<- _].
  pose proof (@modes_after_close _ _ (unix_terminal raw closeErr) before after c w1) as H.
  unfold run. destruct (run_ops before (c, w1)) as [c1 w2]. intros Hc Ha. specialize (H Hc Ha).
  change rt_Close with (uClose closeErr) in H. pose proof (uMakeRaw_spec raw c1 w2 Hc) as Hraw.
  destruct (uClose closeErr c1 w2) as [[c2 w3] e].
  destruct (run_ops (before ++ OpClose :: after) (c, w1)) as [c' w']. destruct H as (-> & Hat & He).
  split; [exact Hat|]. split; [done|]. split; [exact He|].
  destruct (uMakeRaw raw c1 w2) as [w4 r]. apply Hraw.
Qed.

Lemma unix_mode_after_close_witness :
  let run := @run_ops _ _ (unix_terminal (fun s => s + 100) None) in
  let '(c', w') := run ([OpMakeRaw; OpRestore; OpMakeRaw; OpOther (MkTty 9 true [] 0)] ++ OpClose :: [OpRestore; OpMakeRaw])
                     (MkUConsole 7 false, MkTty 7 true [] 0) in
  y_state w' = 7.
Proof.
  intros run.
  pose proof (unix_mode_after_close (fun s => s + 100) None (MkTty 7 true [] 0) (MkTty 7 true [] 0)
    (MkUConsole 7 false) [OpMakeRaw; OpRestore; OpMakeRaw; OpOther (MkTty 9 true [] 0)] [OpRestore; OpMakeRaw]
    eq_refl eq_refl ltac:(repeat first [apply Forall_cons_2 | apply Forall_nil_2]; done)) as H.
  exact (proj1 H (or_intror eq_refl)).
Defined.

(** Closed, the console reads and writes nothing and says so. *)
Lemma uClose_file closeErr c w :
  u_closed c = false ->
  let '(_, w', _) := uClose closeErr c w in
  forall ra wa, exists e, uRead ra w' = ([], Some e) /\ errors_Is e os_ErrClosed = true /\
    exists e', uWrite wa w' = (0, Some e') /\ errors_Is e' os_ErrClosed = true.
Proof.
  intros Hc. unfold uClose. rewrite Hc. destruct (u_restoreLocked _ w) as [w' r].
  intros ra wa. eexists. split_and!; [done|done|]. by eexists.
Qed.
