(* ===== verification/Main.v ===== *)
(** * cmd/et: the process

    [main] around [Client.run], the signals that end the client and
    Ctrl+Break: which of them a key press reaches, while [connect] registers
    and withdraws its function at the console. *)

From S2P Require Import ConsoleWindows Client Cmd.
Local Open Scope Z_scope.

Inductive platform := Unix | Windows.

(** [shutdownSignals]. *)
Inductive os_Signal := os_Interrupt | SIGTERM | SIGHUP.
Definition shutdownSignals_unix : list os_Signal := [os_Interrupt; SIGTERM; SIGHUP].
Definition shutdownSignals_windows : list os_Signal := [os_Interrupt].
Definition shutdownSignals (p : platform) : list os_Signal :=
  match p with Unix => shutdownSignals_unix | Windows => shutdownSignals_windows end.

(** [onBreak]: the console's on Windows, nothing elsewhere. *)
Definition onBreak_windows (call : bool -> Z * gerr) (f : option nat) (s : break_state) : break_state :=
  ConsoleWindows.OnBreak call f s.
Definition onBreak_other (f : option nat) (s : break_state) : break_state := s.
Definition onBreak (p : platform) (call : bool -> Z * gerr) (f : option nat) (s : break_state) : break_state :=
  match p with Windows => onBreak_windows call f s | Unix => onBreak_other f s end.

(** [main]: the signals end the context that [run] has, and the process exits
    with its status; [None] is a panic. *)
Inductive main_event := Notify (signals : list os_Signal) | Stop | Exit (code : Z).

Section Main.
Context `{HB : SecretBox} `{PSeq : ProtoMessage SequenceHeader} `{PCat : ProtoMessage CatchupBuffer}
  `{PReq : ProtoMessage ConnectRequest} `{PResp : ProtoMessage ConnectResponse}.

Definition main (p : platform) (run : option Z * list event) : list main_event :=
  Notify (shutdownSignals p) :: match run.1 with Some code => [Stop; Exit code] | None => [] end.

(** ** Ctrl+Break *)

Variable p : platform.
Variable call : bool -> Z * gerr.

(** The function [connect] registers cancels its context with ErrDetached. *)
Definition detach : nat := 0.
Definition on_event (s : break_state) (e : event) : break_state :=
  match e with
  | OnBreak => onBreak p call (Some detach) s
  | OffBreak => onBreak p call None s
  | _ => s
  end.
Definition after_events (trace : list event) : break_state := foldl on_event break_start trace.

(** Where Ctrl+Break goes: to [ctrlHandler], if it is installed, and else, or
    if that leaves it, to the handler of the Go runtime, which signals
    os.Interrupt. *)
Inductive break_effect := Detaches | Interrupts.
Definition ctrl_break (s : break_state) : break_effect :=
  if bk_handler s && (ctrlHandler CTRL_BREAK_EVENT (bool_decide (is_Some (bk_func s)))).2 then Detaches else Interrupts.

(** What [connect] holds after a part of its trace decides the function. *)
Definition break_ok (held : list Cmd.held) (s : break_state) : Prop :=
  match p with
  | Unix => s = break_start
  | Windows =>
      bk_func s = (if bool_decide (HBreak ∈ held) then Some detach else None) /\
      (HBreak ∈ held -> bk_once s = true) /\
      bk_handler s = bk_once s && match setConsoleCtrlHandler call true with None => true | Some _ => false end /\
      bk_tries s = if bk_once s then 1%nat else 0%nat
  end.

Lemma owns_app t1 t2 st st' :
  owns (t1 ++ t2) st = Some st' -> exists mid, owns t1 st = Some mid /\ owns t2 mid = Some st'.
Proof.
  revert st. induction t1 as [|e t1 IH]; intros st H; [by exists st|].
  destruct e, st as [|[] [|[] [|[] [|[] [|? ?]]]]]; cbn in H |- *; try done; by apply IH.
Qed.

(** Only the two events on it change whether the function is held, and nothing
    is held twice. *)
Lemma owns_one e st st' :
  owns [e] st = Some st' -> NoDup st ->
  NoDup st' /\
  match e with
  | OnBreak => HBreak ∈ st'
  | OffBreak => HBreak ∈ st /\ HBreak ∉ st'
  | _ => HBreak ∈ st' <-> HBreak ∈ st
  end.
Proof.
  intros Ho Hn. destruct e; cbn in Ho; repeat case_match; simplify_eq.
  all: try (apply NoDup_cons in Hn as [? Hn]).
  all: split; [first [done | by refine (bool_decide_unpack _ _)]|set_solver].
Qed.

(** One event keeps the console in step with what is held. *)
Lemma on_event_ok e st st' s :
  owns [e] st = Some st' -> NoDup st -> break_ok st s -> NoDup st' /\ break_ok st' (on_event s e).
Proof.
  intros Ho Hn Hs. destruct (owns_one _ _ _ Ho Hn) as [Hn' He]. split; [done|].
  unfold break_ok, on_event, onBreak in *. destruct p; [by destruct e|]. destruct Hs as (Hf & Ho1 & Hh & Ht).
  destruct e; try (rewrite (bool_decide_ext _ _ He); split_and!; [done|tauto|done|done]).
  - cbn. rewrite bool_decide_true by done. unfold onBreak_windows. cbn.
    destruct (bk_once s); cbn in *; (split_and!; [done|done| |]); [by rewrite Hh|by rewrite Ht|done|by rewrite Ht].
  - destruct He as [_ He]. cbn. rewrite bool_decide_false by done. split_and!; [done|done|done|done].
Qed.

Lemma after_ok t st : owns t [] = Some st -> NoDup st /\ break_ok st (after_events t).
Proof.
  revert st. induction t as [|e t IH] using rev_ind; intros st.
  - intros [= <-]. split; [constructor|]. unfold break_ok, after_events. cbn. destruct p; [done|]. cbn.
    split_and!; try done. set_solver.
  - intros (mid & Hmid & He)%owns_app. destruct (IH _ Hmid) as [Hn Hs].
    unfold after_events. rewrite foldl_app. by eapply on_event_ok.
Qed.

Lemma ctrl_break_held st s :
  break_ok st s -> ctrl_break s = Detaches <-> p = Windows /\ setConsoleCtrlHandler call true = None /\ HBreak ∈ st.
Proof.
  unfold break_ok, ctrl_break. destruct p.
  - intros ->. cbn. split; [done|]. by intros (? & _).
  - intros (Hf & Ho & Hh & _). rewrite Hh, Hf. cbn.
    destruct (setConsoleCtrlHandler call true); [rewrite andb_false_r; cbn; naive_solver|].
    case_bool_decide as Hb; cbn.
    + rewrite Ho by done. cbn. naive_solver.
    + rewrite andb_false_r. naive_solver.
Qed.

(** [C28] The process: [main] hears os.Interrupt on every platform, exits with a
    byte unless the session panics, and at every point of [connect] Ctrl+Break
    detaches exactly when this is Windows, the handler could be installed and
    [connect] holds its registration, which it does while the session runs
    and no longer when it is over; else it interrupts the client.  The
    handler is installed at most once. *)
Theorem main_spec args e logger :
  let '(status, trace) := runWith args e logger in
  os_Interrupt ∈ shutdownSignals p /\
  (exists code, 0 <= code <= 255 /\ main p (status, trace) = [Notify (shutdownSignals p); Stop; Exit code] \/
   SessionRun ∈ trace /\ e_Run e = RunPanicked) /\
  forall t1 t2, trace = t1 ++ t2 ->
    exists st, owns t1 [] = Some st /\
      (ctrl_break (after_events t1) = Detaches <->
       p = Windows /\ setConsoleCtrlHandler call true = None /\ HBreak ∈ st) /\
      (bk_tries (after_events t1) <= 1)%nat /\
      (forall t3, t2 = SessionRun :: t3 -> HBreak ∈ st) /\ (t2 = [] -> st = []).
Proof.
  pose proof (runWith_owned args e logger) as H. destruct (runWith args e logger) as [status trace].
  destruct H as [Ho Hst]. split_and!.
  - destruct p; cbn; set_solver.
  - destruct status as [n|]; [|exists 0; by right]. exists n. left. by destruct Hst.
  - intros t1 t2 ->. apply owns_app in Ho as (st & Hst1 & Hst2). exists st.
    destruct (after_ok _ _ Hst1) as [Hn Hok]. split_and!; [done|by apply ctrl_break_held| | |].
    + unfold break_ok in Hok. destruct p; [rewrite Hok; cbn; lia|]. destruct Hok as (_ & _ & _ & ->).
      destruct (bk_once _); lia.
    + intros t3 ->. destruct st as [|[] [|[] [|[] [|[] [|? ?]]]]]; cbn in Hst2; try done. set_solver.
    + intros ->. by injection Hst2.
Qed.
End Main.

(** Ctrl+Break while the session runs, on Windows with a handler that can be
    installed. *)
Lemma main_spec_witness :
  exists t1 t3,
    (runWith example_args (example_client (RunReturned None)) (fun _ _ => inl None)).2 = t1 ++ SessionRun :: t3 /\
    ctrl_break (after_events Windows (fun _ => (1, Foreign 0)) t1) = Detaches.
Proof.
  pose proof (main_spec Windows (fun _ => (1, Foreign 0)) example_args (example_client (RunReturned None)) (fun _ _ => inl None)) as H.
  destruct (runWith example_args (example_client (RunReturned None)) (fun _ _ => inl None)) as [status trace] eqn:Hr.
  destruct H as (_ & _ & H).
  assert (exists t1 t3, trace = t1 ++ SessionRun :: t3) as (t1 & t3 & Ht).
  { apply list_elem_of_split. replace trace with (runWith example_args (example_client (RunReturned None)) (fun _ _ => inl None)).2
      by (by rewrite Hr). vm_compute. repeat (first [apply list_elem_of_here|apply list_elem_of_further]). }
  exists t1, t3. split; [exact Ht|]. destruct (H t1 _ Ht) as (st & _ & Hb & _ & Hheld & _).
  apply Hb. split_and!; [done|done|by apply (Hheld t3)].
Defined.
