(* ===== verification/Regexp.v ===== *)
(** * regexp, as far as the lint rules use it

    The regular expressions of Go's regexp package that occur in rules/*.go:
    literals, classes, [.], groups, alternation, [*], [?], the anchors and
    the escapes.  [parse] reads the syntax; [rmatch] is the meaning, a
    relation between positions of the text; [MatchString] computes it, and
    [MatchString_spec] shows that it does.  A text is its runes. *)

From S2P Require Export GoStrings.
Local Open Scope Z_scope.

Inductive regex :=
| RxEmpty
| RxClass (ranges : list (Z * Z))
| RxAny                                  (* [.], any rune but a newline *)
| RxBegin
| RxEnd
| RxSeq (r1 r2 : regex)
| RxAlt (r1 r2 : regex)
| RxStar (r : regex).

Definition RxRune (c : Z) : regex := RxClass [(c, c)].
Definition RxOpt (r : regex) : regex := RxAlt r RxEmpty.

Definition in_class (ranges : list (Z * Z)) (c : Z) : bool :=
  existsb (fun '(lo, hi) => (lo <=? c) && (c <=? hi)) ranges.

(** A position: whether it is the beginning of the text, and what follows. *)
Definition pos : Type := bool * list Z.

Inductive rmatch : regex -> pos -> pos -> Prop :=
| rm_empty p : rmatch RxEmpty p p
| rm_class ranges b c s : in_class ranges c = true -> rmatch (RxClass ranges) (b, c :: s) (false, s)
| rm_any b c s : c <> 10 -> rmatch RxAny (b, c :: s) (false, s)
| rm_begin s : rmatch RxBegin (true, s) (true, s)
| rm_end b : rmatch RxEnd (b, []) (b, [])
| rm_seq r1 r2 p q t : rmatch r1 p q -> rmatch r2 q t -> rmatch (RxSeq r1 r2) p t
| rm_alt_l r1 r2 p q : rmatch r1 p q -> rmatch (RxAlt r1 r2) p q
| rm_alt_r r1 r2 p q : rmatch r2 p q -> rmatch (RxAlt r1 r2) p q
| rm_star_nil r p : rmatch (RxStar r) p p
| rm_star_cons r p q t : rmatch r p q -> rmatch (RxStar r) q t -> rmatch (RxStar r) p t.

(** ** The matcher *)

(** Iterations of [step] from [p] that each consume something. *)
Fixpoint iterate (step : pos -> list pos) (fuel : nat) (p : pos) : list pos :=
  p :: match fuel with
       | O => []
       | S fuel => flat_map (fun q => if bool_decide (length q.2 < length p.2)%nat then iterate step fuel q else []) (step p)
       end.

(** The positions where a match of [r] from [p] can end. *)
Fixpoint ends (r : regex) (p : pos) : list pos :=
  match r with
  | RxEmpty => [p]
  | RxClass ranges => match p.2 with c :: s => if in_class ranges c then [(false, s)] else [] | [] => [] end
  | RxAny => match p.2 with c :: s => if c =? 10 then [] else [(false, s)] | [] => [] end
  | RxBegin => if p.1 then [p] else []
  | RxEnd => match p.2 with [] => [p] | _ => [] end
  | RxSeq r1 r2 => flat_map (ends r2) (ends r1 p)
  | RxAlt r1 r2 => ends r1 p ++ ends r2 p
  | RxStar r => iterate (ends r) (length p.2) p
  end.

Fixpoint later (s : list Z) : list pos :=
  match s with [] => [] | _ :: s => (false, s) :: later s end.

(** [MatchString]: a match somewhere in the text. *)
Definition MatchString (r : regex) (s : list Z) : bool :=
  existsb (fun p => negb (bool_decide (ends r p = []))) ((true, s) :: later s).

(** ** The syntax *)

Definition hex_value (c : Z) : option Z :=
  if (48 <=? c) && (c <=? 57) then Some (c - 48)
  else if (97 <=? c) && (c <=? 102) then Some (c - 87)
  else if (65 <=? c) && (c <=? 70) then Some (c - 55) else None.

(** What follows a backslash: [x] and two hexadecimal digits, or punctuation. *)
Definition parse_escape (s : list Z) : option (Z * list Z) :=
  match s with
  | 120 :: h :: l :: s => h ← hex_value h; l ← hex_value l; Some (16 * h + l, s)
  | c :: s => if ((48 <=? c) && (c <=? 57)) || ((65 <=? c) && (c <=? 90)) || ((97 <=? c) && (c <=? 122)) || (128 <=? c)
              then None else Some (c, s)
  | [] => None
  end.

Definition parse_class_rune (s : list Z) : option (Z * list Z) :=
  match s with
  | 92 :: s => parse_escape s
  | 91 :: _ | 93 :: _ | 94 :: _ | [] => None     (* the classes here have no [, ] or ^ of their own *)
  | c :: s => Some (c, s)
  end.

(** The rest of a class, up to its closing bracket. *)
Fixpoint parse_class (fuel : nat) (s : list Z) : option (list (Z * Z) * list Z) :=
  match fuel with
  | O => None
  | S fuel =>
      match s with
      | 93 :: s => Some ([], s)
      | _ =>
          '(lo, s) ← parse_class_rune s;
          '(hi, s) ← match s with 45 :: s => parse_class_rune s | _ => Some (lo, s) end;
          if hi <? lo then None else
          '(ranges, s) ← parse_class fuel s;
          Some ((lo, hi) :: ranges, s)
      end
  end.

(** Alternatives, a sequence and its next item, up to a closing parenthesis or
    the end. *)
Inductive level := LAlt | LSeq | LItem.
Fixpoint parse_at (fuel : nat) (l : level) (s : list Z) : option (regex * list Z) :=
  match fuel with
  | O => None
  | S fuel =>
      match l with
      | LAlt =>
          '(r, s) ← parse_at fuel LSeq s;
          match s with
          | 124 :: s => '(r', s) ← parse_at fuel LAlt s; Some (RxAlt r r', s)
          | _ => Some (r, s)
          end
      | LSeq =>
          match s with
          | [] | 124 :: _ | 41 :: _ => Some (RxEmpty, s)
          | _ =>
              '(r, s) ← parse_at fuel LItem s;
              '(r', s) ← parse_at fuel LSeq s; Some (RxSeq r r', s)
          end
      | LItem =>
          '(r, s) ← match s with
                    | 40 :: s =>
                        '(r, s) ← parse_at fuel LAlt s;
                        match s with 41 :: s => Some (r, s) | _ => None end
                    | 91 :: 93 :: _ => None
                    | 91 :: s => '(ranges, s) ← parse_class fuel s; Some (RxClass ranges, s)
                    | 46 :: s => Some (RxAny, s)
                    | 94 :: s => Some (RxBegin, s)
                    | 36 :: s => Some (RxEnd, s)
                    | 92 :: s => '(c, s) ← parse_escape s; Some (RxRune c, s)
                    | 42 :: _ | 43 :: _ | 63 :: _ | 123 :: _ | [] => None
                    | c :: s => Some (RxRune c, s)
                    end;
          match s with
          | 42 :: s => Some (RxStar r, s)
          | 63 :: s => Some (RxOpt r, s)
          | 43 :: _ | 123 :: _ => None
          | _ => Some (r, s)
          end
      end
  end.

(** [regexp.Compile]; [None] for what this file does not read. *)
Definition parse (s : bytes) : option regex :=
  match parse_at (S (3 * length s)) LAlt (runes s) with
  | Some (r, []) => Some r
  | _ => None
  end.

(** ** The matcher computes the meaning *)

(** A match consumes, or stays where it was. *)
Lemma rmatch_shrinks r p q :
  rmatch r p q -> q = p \/ (length q.2 < length p.2)%nat /\ q.1 = false.
Proof.
  induction 1 as [| | | | |r1 r2 p q t _ IH1 _ IH2| | | |r p q t _ IH1 _ IH2]; cbn in *; auto;
    destruct IH1 as [->|[? ?]], IH2 as [->|[? ?]]; auto; right; split; auto; lia.
Qed.

Lemma elem_flat_map {A B} (f : A -> list B) l y : y ∈ flat_map f l <-> exists x, x ∈ l /\ y ∈ f x.
Proof. rewrite list_elem_of_In, in_flat_map. setoid_rewrite list_elem_of_In. done. Qed.

Lemma iterate_sound r step n p q :
  (forall p q, q ∈ step p -> rmatch r p q) -> q ∈ iterate step n p -> rmatch (RxStar r) p q.
Proof.
  intros Hs. revert p. induction n as [|n IH]; intros p; cbn; rewrite elem_of_cons.
  - intros [->|[]%elem_of_nil]. constructor.
  - intros [->|(x & Hx & Hq)%elem_flat_map]; [constructor|]. case_bool_decide; [|by apply elem_of_nil in Hq].
    econstructor; [by apply Hs|by apply IH].
Qed.

Lemma iterate_complete r step n p q :
  (forall p q, rmatch r p q -> q ∈ step p) -> (length p.2 <= n)%nat -> rmatch (RxStar r) p q -> q ∈ iterate step n p.
Proof.
  intros Hs Hn Hm. remember (RxStar r) as r' eqn:E. revert n Hn.
  induction Hm as [| | | | | | | |r0 p|r0 p x t Hx _ Ht IH]; try done; injection E as E; subst r0; intros n Hn.
  - destruct n; cbn; apply elem_of_cons; by left.
  - specialize (IH eq_refl). destruct (rmatch_shrinks _ _ _ Hx) as [->|[Hlt _]]; [by apply IH|].
    destruct n as [|n]; [lia|]. cbn. apply elem_of_cons. right. apply elem_flat_map. exists x.
    split; [by apply Hs|]. rewrite bool_decide_true by done. apply IH. lia.
Qed.

Lemma ends_spec r p q : q ∈ ends r p <-> rmatch r p q.
Proof.
  revert p q. induction r as [|ranges| | | |r1 IH1 r2 IH2|r1 IH1 r2 IH2|r IH]; intros [b s] q; cbn.
  - rewrite list_elem_of_singleton. split; [intros ->; constructor|by inversion 1].
  - split.
    + destruct s as [|c s]; [by intros ?%elem_of_nil|]. destruct (in_class ranges c) eqn:Hc; [|by intros ?%elem_of_nil].
      intros ->%list_elem_of_singleton. by constructor.
    + inversion 1 as [|? ? c s' Hc| | | | | | | |]; subst. rewrite Hc. by apply list_elem_of_singleton.
  - split.
    + destruct s as [|c s]; [by intros ?%elem_of_nil|]. destruct (Z.eqb_spec c 10); [by intros ?%elem_of_nil|].
      intros ->%list_elem_of_singleton. by constructor.
    + inversion 1 as [| |? c s' Hc| | | | | | |]; subst. destruct (Z.eqb_spec c 10); [done|]. by apply list_elem_of_singleton.
  - split.
    + destruct b; [|by intros ?%elem_of_nil]. intros ->%list_elem_of_singleton. constructor.
    + inversion 1; subst. by apply list_elem_of_singleton.
  - split.
    + destruct s; [|by intros ?%elem_of_nil]. intros ->%list_elem_of_singleton. constructor.
    + inversion 1; subst. by apply list_elem_of_singleton.
  - rewrite elem_flat_map. split.
    + intros (x & Hx%IH1 & Hq%IH2). by econstructor.
    + inversion 1 as [| | | | |? ? ? x ? Hx Hq| | | |]; subst. exists x. by rewrite IH1, IH2.
  - rewrite elem_of_app, IH1, IH2. split; [intros [?|?]; by constructor|]. inversion 1; auto.
  - split; [apply iterate_sound; intros; by apply IH|]. apply iterate_complete; [|done]. intros; by apply IH.
Qed.

(** The positions of a text. *)
Inductive position (s : list Z) : pos -> Prop :=
| at_start : position s (true, s)
| at_later c k t : s = k ++ c :: t -> position s (false, t).

Lemma later_spec s p : p ∈ later s <-> exists k c t, s = k ++ c :: t /\ p = (false, t).
Proof.
  induction s as [|c s IH]; cbn.
  - split; [by intros ?%elem_of_nil|]. intros (k & c & t & H & _). by destruct k.
  - rewrite elem_of_cons, IH. split.
    + intros [->|(k & c' & t & -> & ->)]; [by exists [], c, s|]. by exists (c :: k), c', t.
    + intros (k & c' & t & H & ->). destruct k as [|x k]; injection H as -> ->; [by left|right; by exists k, c', t].
Qed.

(** [MatchString] is true exactly of the texts that [r] matches somewhere. *)
Lemma MatchString_spec r s :
  MatchString r s = true <-> exists p q, position s p /\ rmatch r p q.
Proof.
  unfold MatchString. rewrite existsb_exists. setoid_rewrite <- list_elem_of_In.
  setoid_rewrite negb_true_iff. setoid_rewrite bool_decide_eq_false. setoid_rewrite elem_of_cons.
  setoid_rewrite later_spec. split.
  - intros (p & Hp & He). destruct (ends r p) as [|q l] eqn:Hq; [done|]. exists p, q. split.
    + destruct Hp as [->|(k & c & t & Hs & ->)]; [constructor|by econstructor].
    + apply ends_spec. rewrite Hq. by left.
  - intros (p & q & Hp & Hm%ends_spec). exists p. split; [|by destruct (ends r p); [apply elem_of_nil in Hm|]].
    destruct Hp as [|c k t Hs]; [by left|right; eauto].
Qed.

(** ** Languages

    What an expression without anchors matches depends on the words alone. *)

Inductive star (L : list Z -> Prop) : list Z -> Prop :=
| star_nil : star L []
| star_app w v : L w -> star L v -> star L (w ++ v).

Fixpoint lang (r : regex) : list Z -> Prop :=
  match r with
  | RxEmpty => fun w => w = []
  | RxClass ranges => fun w => exists c, w = [c] /\ in_class ranges c = true
  | RxAny => fun w => exists c, w = [c] /\ c <> 10
  | RxBegin | RxEnd => fun _ => False
  | RxSeq r1 r2 => fun w => exists u v, w = u ++ v /\ lang r1 u /\ lang r2 v
  | RxAlt r1 r2 => fun w => lang r1 w \/ lang r2 w
  | RxStar r => star (lang r)
  end.

Fixpoint anchor_free (r : regex) : bool :=
  match r with
  | RxBegin | RxEnd => false
  | RxSeq r1 r2 | RxAlt r1 r2 => anchor_free r1 && anchor_free r2
  | RxStar r => anchor_free r
  | _ => true
  end.

Definition after (w : list Z) (b : bool) : bool := b && bool_decide (w = []).

Lemma after_app w v b : after (w ++ v) b = after v (after w b).
Proof. unfold after. destruct b, w; cbn; try done. Qed.

Lemma lang_rmatch r w b s :
  lang r w -> rmatch r (b, w ++ s) (after w b, s).
Proof.
  revert w b s. induction r as [|ranges| | | |r1 IH1 r2 IH2|r1 IH1 r2 IH2|r IH]; intros w b s; cbn.
  - intros ->. unfold after. cbn. rewrite andb_true_r. constructor.
  - intros (c & -> & Hc). unfold after. cbn. rewrite andb_false_r. by constructor.
  - intros (c & -> & Hc). unfold after. cbn. rewrite andb_false_r. by constructor.
  - done.
  - done.
  - intros (u & v & -> & Hu & Hv). rewrite <- app_assoc, after_app. econstructor; [by apply IH1|by apply IH2].
  - intros [?|?]; [apply rm_alt_l; auto|apply rm_alt_r; auto].
  - intros Hw. revert b. induction Hw as [|w v Hw _ IHv]; intros b.
    + unfold after. cbn. rewrite andb_true_r. constructor.
    + rewrite <- app_assoc, after_app. econstructor; [by apply IH|apply IHv].
Qed.

Lemma rmatch_lang r p q :
  anchor_free r = true -> rmatch r p q -> exists w, p.2 = w ++ q.2 /\ lang r w /\ q.1 = after w p.1.
Proof.
  intros Ha Hm. revert Ha.
  induction Hm as [p|ranges b c s Hc|b c s Hc| | |r1 r2 p q t _ IH1 _ IH2|r1 r2 p q _ IH|r1 r2 p q _ IH|r p|r p q t _ IH1 _ IH2];
    cbn; intros Ha; try done.
  - exists []. unfold after. by rewrite andb_true_r.
  - exists [c]. unfold after. cbn. rewrite andb_false_r. split_and!; eauto.
  - exists [c]. unfold after. cbn. rewrite andb_false_r. split_and!; eauto.
  - apply andb_prop in Ha as [Ha1 Ha2]. destruct (IH1 Ha1) as (u & Hu & Hl & Hb), (IH2 Ha2) as (v & Hv & Hl' & Hb').
    exists (u ++ v). rewrite after_app, <- Hb, Hu, Hv, <- app_assoc. split_and!; eauto.
  - apply andb_prop in Ha as [Ha1 Ha2]. destruct (IH Ha1) as (w & ? & ? & ?). eauto.
  - apply andb_prop in Ha as [Ha1 Ha2]. destruct (IH Ha2) as (w & ? & ? & ?). eauto.
  - exists []. unfold after. rewrite andb_true_r. split_and!; try done. constructor.
  - destruct (IH1 Ha) as (u & Hu & Hl & Hb), (IH2 Ha) as (v & Hv & Hl' & Hb').
    exists (u ++ v). rewrite after_app, <- Hb, Hu, Hv, <- app_assoc. split_and!; try done. by constructor.
Qed.

(** Alternatives that are each anchored at both ends, without their anchors. *)
Fixpoint until_end (r : regex) : option regex :=
  match r with
  | RxSeq r1 r2 => match r1, r2 with RxEnd, RxEmpty => Some RxEmpty | _, _ => RxSeq r1 <$> until_end r2 end
  | _ => None
  end.
Fixpoint whole (r : regex) : option regex :=
  match r with
  | RxSeq RxBegin r => until_end r
  | RxAlt r1 r2 => r1 ← whole r1; r2 ← whole r2; Some (RxAlt r1 r2)
  | _ => None
  end.

Lemma until_end_spec r r' p :
  until_end r = Some r' -> (exists q, rmatch r p q) <-> exists b, rmatch r' p (b, []).
Proof.
  revert r' p. induction r as [| | | | |r1 _ r2 IH2| |]; intros r' p; try done.
  assert (until_end (RxSeq r1 r2) = Some r' -> (r1 = RxEnd /\ r2 = RxEmpty /\ r' = RxEmpty) \/
    exists r2', until_end r2 = Some r2' /\ r' = RxSeq r1 r2') as Hcases.
  { cbn [until_end]. destruct (until_end r2) as [r2'|]; repeat case_match; intros; simplify_option_eq; eauto. }
  intros [(-> & -> & ->)|(r2' & Hr2 & ->)]%Hcases.
  - split.
    + intros [q Hq]. inversion Hq as [| | | | |? ? ? t ? He _| | | |]; subst. inversion He; subst.
      eexists. constructor.
    + intros [b Hb]. inversion Hb; subst. eexists. econstructor; constructor.
  - split.
    + intros [q Hq]. inversion Hq as [| | | | |? ? ? t ? He Hs| | | |]; subst.
      destruct (proj1 (IH2 _ t Hr2)) as [b Hb]; [by eexists|]. exists b. by econstructor.
    + intros [b Hb]. inversion Hb as [| | | | |? ? ? t ? He Hs| | | |]; subst.
      destruct (proj2 (IH2 _ t Hr2)) as [q Hq]; [by eexists|]. exists q. by econstructor.
Qed.

Lemma anchor_free_until_end r r' s :
  until_end r = Some r' -> anchor_free r' = true -> (exists q, rmatch r (true, s) q) <-> lang r' s.
Proof.
  intros Hu Ha. rewrite until_end_spec by done. split.
  - intros [b Hm]. destruct (rmatch_lang _ _ _ Ha Hm) as (w & Hw & Hl & _). cbn in Hw. rewrite app_nil_r in Hw. by subst.
  - intros Hl. eexists. rewrite <- (app_nil_r s) at 1. by apply lang_rmatch.
Qed.

Lemma whole_spec r r' s :
  whole r = Some r' -> anchor_free r' = true -> MatchString r s = true <-> lang r' s.
Proof.
  rewrite MatchString_spec. revert r'.
  induction r as [| | | | |r1 _ r2 _|r1 IH1 r2 IH2|]; intros r' Hw Ha; try done.
  - destruct r1; try done. cbn in Hw. rewrite <- (anchor_free_until_end _ _ s Hw Ha). split.
    + intros (p & q & Hp & Hm). inversion Hm as [| | | | |? ? ? t ? Hb Hs| | | |]; subst.
      inversion Hb; subst. inversion Hp; subst. by eexists.
    + intros [q Hq]. exists (true, s), q. split; [constructor|]. econstructor; [constructor|done].
  - cbn in Hw. destruct (whole r1) as [r1'|]; [|done]. destruct (whole r2) as [r2'|]; [|done].
    injection Hw as <-. cbn in Ha. apply andb_prop in Ha as [Ha1 Ha2]. cbn [lang].
    rewrite <- IH1, <- IH2 by done. split.
    + intros (p & q & Hp & Hm). inversion Hm; subst; [left|right]; eauto.
    + intros [(p & q & Hp & Hm)|(p & q & Hp & Hm)]; exists p, q; (split; [done|]); [by apply rm_alt_l|by apply rm_alt_r].
Qed.
