(* ===== verification/Lint.v ===== *)
(** * rules: the language of the lint rules

    A function of rules/*.go declares imports and clauses with ruleguard's
    dsl; here it is a [group], the data of those calls.  What ruleguard and
    gogrep do with patterns and types is the interface [Ruleguard];
    [run_clause] is what a clause means over it: alternatives in order, the
    Where condition with Go's operators, the texts of Report and Suggest with
    the captures in them.  [clause_ok] is the check that a clause can always
    be run.

    A text is the Go literal's value with a backtick for each double quote:
    no such value holds a backtick, and [src] puts the quotes back. *)

From S2P Require Export Regexp.
Local Open Scope Z_scope.

Definition src (s : string) : bytes :=
  (fun c => if bool_decide (c = x60) then x22 else c) <$> bs s.

(** ** Clauses *)

Inductive cond :=
| TypeIs (x t : string)                    (* m[x].Type.Is(t) *)
| UnderlyingIs (x t : string)              (* m[x].Type.Underlying().Is(t) *)
| IdenticalTo (x y : string)               (* m[x].Type.IdenticalTo(m[y]) *)
| TextMatches (x re : string)              (* m[x].Text.Matches(re) *)
| TextNe (x s : string)                    (* m[x].Text != s *)
| NodeContains (x p : string)              (* m[x].Contains(p) *)
| IsConst (x : string)                     (* m[x].Const *)
| IntBelow (x : string) (n : Z)            (* m[x].Value.Int() < n *)
| FileImports (p : string)                 (* m.File().Imports(p) *)
| FileNameMatches (re : string)            (* m.File().Name.Matches(re) *)
| And (a b : cond)
| Or (a b : cond)
| Not (a : cond).

(** m.Match(...).Where(...).Report(...).Suggest(...) *)
Record clause := Clause {
  Match : list string;
  Where : option cond;
  Report : string;
  Suggest : option string
}.

(** A rule function: its m.Import calls and its clauses. *)
Record group := Group { g_imports : list string; g_clauses : list clause }.

(** ** Texts with variables *)

Inductive piece := Lit (c : byte) | Hole (many : bool) (name : bytes).

Definition ident_byte (c : byte) : bool :=
  in_range c 0x30 0x39 || in_range c 0x41 0x5A || in_range c 0x61 0x7A || bool_decide (c = x5f).

(** The end of a variable name; a dollar sign without a name is itself. *)
Definition hole (many : bool) (name : bytes) : list piece :=
  match name with
  | [] => Lit x24 :: if many then [Lit x2a] else []
  | _ => [Hole many name]
  end.

Fixpoint scan (s : bytes) (open_ : option (bool * bytes)) : list piece :=
  match s with
  | [] => match open_ with Some (many, name) => hole many name | None => [] end
  | c :: s =>
      let next := if bool_decide (c = x24) then scan s (Some (false, [])) else Lit c :: scan s None in
      match open_ with
      | None => next
      | Some (many, name) =>
          if ident_byte c then scan s (Some (many, name ++ [c]))
          else if bool_decide (c = x2a) && bool_decide (name = []) && negb many then scan s (Some (true, []))
          else hole many name ++ next
      end
  end.
Definition pieces (s : string) : list piece := scan (src s) None.

(** The variables a text names; the underscore captures nothing. *)
Definition wildcard : bytes := [x5f].
Definition variables (ps : list piece) : list bytes :=
  omap (fun p => match p with
                 | Hole _ name => if bool_decide (name = wildcard) then None else Some name
                 | Lit _ => None
                 end) ps.

(** ** Running a clause *)

(** What ruleguard provides: the syntax tree with its types, and gogrep's
    matches of a pattern, which capture each variable the pattern names. *)
Class Ruleguard := {
  Node : Type;
  File : Type;
  node_Text : Node -> bytes;
  type_Is : list string -> Node -> string -> bool;
  type_Underlying_Is : list string -> Node -> string -> bool;
  type_IdenticalTo : Node -> Node -> bool;
  node_Contains : Node -> list piece -> gmap bytes Node -> bool;
  node_Const : Node -> bool;
  node_Int : Node -> Z;
  file_Imports : File -> string -> bool;
  file_Name : File -> bytes;
  gogrep : list piece -> Node -> list (gmap bytes Node);
  gogrep_captures p n c x : c ∈ gogrep p n -> x ∈ variables p -> is_Some (c !! x)
}.

Section Run.
Context `{Ruleguard}.
Implicit Types c : gmap bytes Node.

Definition matches (re : string) (s : bytes) : option bool :=
  r ← parse (src re); Some (MatchString r (runes s)).

(** A condition; [None] when it names no capture or has no valid expression. *)
Fixpoint eval (imports : list string) (f : File) c (w : cond) : option bool :=
  match w with
  | TypeIs x t => n ← c !! bs x; Some (type_Is imports n t)
  | UnderlyingIs x t => n ← c !! bs x; Some (type_Underlying_Is imports n t)
  | IdenticalTo x y => n ← c !! bs x; k ← c !! bs y; Some (type_IdenticalTo n k)
  | TextMatches x re => n ← c !! bs x; matches re (node_Text n)
  | TextNe x s => n ← c !! bs x; Some (negb (beq (node_Text n) (src s)))
  | NodeContains x p =>
      n ← c !! bs x;
      if forallb (fun y => bool_decide (is_Some (c !! y))) (variables (pieces p))
      then Some (node_Contains n (pieces p) c) else None
  | IsConst x => n ← c !! bs x; Some (node_Const n)
  | IntBelow x k => n ← c !! bs x; Some (node_Int n <? k)
  | FileImports p => Some (file_Imports f p)
  | FileNameMatches re => matches re (file_Name f)
  | And a b => v ← eval imports f c a; if (v : bool) then eval imports f c b else Some false
  | Or a b => v ← eval imports f c a; if (v : bool) then Some true else eval imports f c b
  | Not a => negb <$> eval imports f c a
  end.

(** A text with its captures in it. *)
Fixpoint expand (ps : list piece) c : option bytes :=
  match ps with
  | [] => Some []
  | Lit b :: ps => t ← expand ps c; Some (b :: t)
  | Hole _ x :: ps => n ← c !! x; t ← expand ps c; Some (node_Text n ++ t)
  end.

(** A finding: its message and the replacement, if the clause suggests one. *)
Definition finding : Type := bytes * option bytes.

Definition report (cl : clause) c : option finding :=
  message ← expand (pieces (Report cl)) c;
  match Suggest cl with
  | None => Some (message, None)
  | Some s => fix_ ← expand (pieces s) c; Some (message, Some fix_)
  end.

Fixpoint first_match (imports : list string) (f : File) (cl : clause) (cs : list (gmap bytes Node))
  : option (option finding) :=
  match cs with
  | [] => Some None
  | c :: cs =>
      holds ← match Where cl with None => Some true | Some w => eval imports f c w end;
      if (holds : bool) then Some <$> report cl c else first_match imports f cl cs
  end.

(** [None] when the clause cannot be run, else what it reports at node [n]. *)
Definition run_clause (imports : list string) (f : File) (n : Node) (cl : clause) : option (option finding) :=
  first_match imports f cl (flat_map (fun p => gogrep (pieces p) n) (Match cl)).

Definition run_group (f : File) (n : Node) (g : group) : option (list finding) :=
  omap id <$> mapM (run_clause (g_imports g) f n) (g_clauses g).
End Run.

(** ** The check *)

Definition within (xs : list bytes) (x : bytes) : bool := bool_decide (x ∈ xs).

Fixpoint cond_ok (xs : list bytes) (w : cond) : bool :=
  match w with
  | TypeIs x _ | UnderlyingIs x _ | TextNe x _ | IsConst x | IntBelow x _ => within xs (bs x)
  | IdenticalTo x y => within xs (bs x) && within xs (bs y)
  | TextMatches x re => within xs (bs x) && bool_decide (is_Some (parse (src re)))
  | NodeContains x p => within xs (bs x) && forallb (within xs) (variables (pieces p))
  | FileImports _ => true
  | FileNameMatches re => bool_decide (is_Some (parse (src re)))
  | And a b | Or a b => cond_ok xs a && cond_ok xs b
  | Not a => cond_ok xs a
  end.

(** A text names captures only: no underscore. *)
Definition text_ok (xs : list bytes) (s : string) : bool :=
  forallb (fun p => match p with Hole _ x => within xs x | Lit _ => true end) (pieces s).

(** With every alternative, whatever it captures. *)
Definition clause_ok (cl : clause) : bool :=
  negb (bool_decide (Match cl = [])) &&
  forallb (fun p => let xs := variables (pieces p) in
    match Where cl with Some w => cond_ok xs w | None => true end &&
    text_ok xs (Report cl) && match Suggest cl with Some s => text_ok xs s | None => true end) (Match cl).
Definition group_ok (g : group) : bool :=
  negb (bool_decide (g_clauses g = [])) && forallb clause_ok (g_clauses g).

Section Sound.
Context `{Ruleguard}.
Implicit Types c : gmap bytes Node.

(** [c] captures the variables [xs]. *)
Definition captures (xs : list bytes) c : Prop := forall x, x ∈ xs -> is_Some (c !! x).

Lemma captures_within xs c x : captures xs c -> within xs x = true -> is_Some (c !! x).
Proof. intros Hc Hx%bool_decide_eq_true. by apply Hc. Qed.

Lemma eval_total imports f xs c w : captures xs c -> cond_ok xs w = true -> is_Some (eval imports f c w).
Proof.
  intros Hc. induction w as [x t|x t|x y|x re|x s|x p|x|x n|p|re|a IHa b IHb|a IHa b IHb|a IHa]; cbn; intros Hok;
    repeat match goal with
    | H : _ && _ = true |- _ => apply andb_prop in H as [? ?]
    | H : within xs ?x = true |- _ => apply (captures_within _ _ _ Hc) in H as [? H]; rewrite H; cbn
    | H : bool_decide (is_Some (parse ?x)) = true |- _ => apply bool_decide_eq_true in H as [? H]; unfold matches; rewrite H; cbn
    end; try (by eexists).
  - match goal with H : forallb _ _ = true |- _ => rename H into Hv end.
    replace (forallb _ _) with true; [by eexists|]. symmetry. apply forallb_forall. intros y Hy.
    apply bool_decide_eq_true, (captures_within xs); [done|]. by apply (proj1 (forallb_forall _ _) Hv).
  - destruct IHa as [[] ->]; [done| |]; cbn; eauto.
  - destruct IHa as [[] ->]; [done| |]; cbn; eauto.
  - destruct IHa as [v ->]; [done|]. by eexists.
Qed.

Lemma expand_total xs c s : captures xs c -> text_ok xs s = true -> is_Some (expand (pieces s) c).
Proof.
  unfold text_ok. intros Hc. induction (pieces s) as [|[b|many x] ps IH]; cbn; [by eexists| |]; intros Hok.
  - destruct (IH Hok) as [t ->]. by eexists.
  - apply andb_prop in Hok as [Hx Hok]. destruct (captures_within _ _ _ Hc Hx) as [n ->], (IH Hok) as [t ->]. by eexists.
Qed.

Lemma first_match_total imports f cl cs :
  Forall (fun c => exists xs, captures xs c /\
    match Where cl with Some w => cond_ok xs w | None => true end = true /\ text_ok xs (Report cl) = true /\
    match Suggest cl with Some s => text_ok xs s | None => true end = true) cs ->
  is_Some (first_match imports f cl cs).
Proof.
  induction 1 as [|c cs (xs & Hc & Hw & Hr & Hs) _ IH]; [by eexists|]. cbn [first_match].
  assert (is_Some (report cl c)) as [r Hrep].
  { unfold report. destruct (expand_total _ _ _ Hc Hr) as [m ->]. cbn.
    destruct (Suggest cl) as [s|]; [|by eexists]. destruct (expand_total _ _ _ Hc Hs) as [t ->]. by eexists. }
  rewrite Hrep. destruct (Where cl) as [w|]; [|by eexists].
  destruct (eval_total imports f _ _ _ Hc Hw) as [[] ->]; cbn; [by eexists|done].
Qed.

Lemma clause_ok_runs imports f n cl : clause_ok cl = true -> is_Some (run_clause imports f n cl).
Proof.
  unfold clause_ok, run_clause. intros [_ Hok]%andb_prop. apply first_match_total.
  apply Forall_forall. intros c (p & Hp & Hg)%elem_flat_map.
  apply list_elem_of_In, (proj1 (forallb_forall _ _) Hok) in Hp. cbv zeta in Hp.
  apply andb_prop in Hp as [[Hw Hr]%andb_prop Hs].
  exists (variables (pieces p)). split_and!; try done. intros x Hx. by eapply gogrep_captures.
Qed.

Lemma group_ok_runs f n g : group_ok g = true -> is_Some (run_group f n g).
Proof.
  unfold group_ok, run_group. intros [_ Hok]%andb_prop.
  assert (is_Some (mapM (run_clause (g_imports g) f n) (g_clauses g))) as [l ->]; [|by eexists].
  apply mapM_is_Some, Forall_forall. intros cl Hcl. apply clause_ok_runs.
  apply (proj1 (forallb_forall _ _) Hok). by apply list_elem_of_In.
Qed.

(** A clause reports only what one of its patterns matches and its condition
    holds of. *)
Lemma first_match_sound imports f cl cs v :
  first_match imports f cl cs = Some (Some v) ->
  exists c, c ∈ cs /\ report cl c = Some v /\
    match Where cl with Some w => eval imports f c w = Some true | None => True end.
Proof.
  induction cs as [|c cs IH]; [done|]. cbn [first_match]. destruct (Where cl) as [w|] eqn:Hw; cbn.
  - destruct (eval imports f c w) as [[]|] eqn:He; cbn; [| |done].
    + destruct (report cl c) eqn:Hr; [|done]. intros [= <-]. exists c. split_and!; [by left|done|done].
    + intros (c' & ? & ? & ?)%IH. exists c'. split_and!; [by right|done|done].
  - destruct (report cl c) eqn:Hr; [|done]. intros [= <-]. exists c. split_and!; [by left|done|done].
Qed.

(** The condition of a clause holds of the captures [c]. *)
Definition holds imports f cl c : Prop :=
  match Where cl with Some w => eval imports f c w = Some true | None => True end.

Lemma first_match_reports imports f cl cs v :
  first_match imports f cl cs = Some v -> is_Some v <-> exists c, c ∈ cs /\ holds imports f cl c.
Proof.
  intros Hv. split.
  - intros [r ->]. destruct (first_match_sound _ _ _ _ _ Hv) as (c & Hc & _ & Hw). by exists c.
  - intros (c & Hc & Hh). revert v Hv Hc. induction cs as [|c' cs IH]; intros v Hv Hc; [by apply elem_of_nil in Hc|].
    cbn [first_match] in Hv. destruct (match Where cl with None => Some true | Some w => eval imports f c' w end) as [[]|] eqn:He;
      cbn in Hv; [|apply elem_of_cons in Hc as [->|Hc]; [|by apply (IH v)]|done].
    + destruct (report cl c'); [|done]. injection Hv as <-. by eexists.
    + unfold holds in Hh. destruct (Where cl); congruence.
Qed.

(** A checked group can be run at every node and reports exactly where one of
    its patterns matches with its condition. *)
Lemma group_ok_reports f n g :
  group_ok g = true -> exists fs, run_group f n g = Some fs /\
    (fs <> [] <-> exists cl p c, cl ∈ g_clauses g /\ p ∈ Match cl /\ c ∈ gogrep (pieces p) n /\ holds (g_imports g) f cl c).
Proof.
  intros Hok. destruct (group_ok_runs f n g Hok) as [fs Hfs]. exists fs. split; [done|].
  unfold run_group in Hfs. destruct (mapM (run_clause (g_imports g) f n) (g_clauses g)) as [rs|] eqn:Hm; [|done].
  injection Hfs as <-. apply mapM_Some in Hm.
  assert (forall cl r, run_clause (g_imports g) f n cl = Some r ->
    is_Some r <-> exists p c, p ∈ Match cl /\ c ∈ gogrep (pieces p) n /\ holds (g_imports g) f cl c) as Hcl.
  { intros cl r Hr. rewrite (first_match_reports _ _ _ _ _ Hr). setoid_rewrite elem_flat_map. naive_solver. }
  transitivity (exists r, Some r ∈ rs).
  - split.
    + destruct (omap id rs) as [|r l] eqn:Ho; [done|]. intros _. exists r.
      assert (r ∈ omap id rs) as (o & Hin & He)%list_elem_of_omap by (rewrite Ho; by left). cbn in He. by subst o.
    + intros [r Hr] Hn. assert (r ∈ omap id rs) as Hin by (apply list_elem_of_omap; by exists (Some r)).
      rewrite Hn in Hin. by apply elem_of_nil in Hin.
  - split.
    + intros (r & [i Hi]%list_elem_of_lookup). destruct (Forall2_lookup_r _ _ _ _ _ Hm Hi) as (cl & Hl & Hr).
      apply list_elem_of_lookup_2 in Hl. destruct (proj1 (Hcl _ _ Hr)) as (p & c & ?); [by eexists|]. by exists cl, p, c.
    + intros (cl & p & c & [i Hi]%list_elem_of_lookup & Hp & Hc & Hh).
      destruct (Forall2_lookup_l _ _ _ _ _ Hm Hi) as (o & Hl & Hr).
      destruct (proj2 (Hcl _ _ Hr)) as [r ->]; [by exists p, c|]. exists r. by apply list_elem_of_lookup_2 in Hl.
Qed.
End Sound.

(** ** Matching on text

    An instance to evaluate at: a node is its source text, a variable matches
    any text that is not empty, one with a star any text, and the same
    variable the same text. *)

Section Textual.
Variable types : bytes -> string.

Fixpoint match_text (ps : list piece) (s : bytes) (c : gmap bytes bytes) : list (gmap bytes bytes) :=
  match ps with
  | [] => if bool_decide (s = []) then [c] else []
  | Lit b :: ps => match s with d :: s => if bool_decide (b = d) then match_text ps s c else [] | [] => [] end
  | Hole many x :: ps =>
      flat_map (fun k =>
        if bool_decide (x = wildcard) then match_text ps (drop k s) c
        else match c !! x with
             | Some t => if bool_decide (t = take k s) then match_text ps (drop k s) c else []
             | None => match_text ps (drop k s) (<[x := take k s]> c)
             end) (if many then seq 0 (S (length s)) else seq 1 (length s))
  end.

Lemma match_text_captures ps s c c' :
  c' ∈ match_text ps s c ->
  (forall x, is_Some (c !! x) -> is_Some (c' !! x)) /\ forall x, x ∈ variables ps -> is_Some (c' !! x).
Proof.
  revert s c. induction ps as [|[b|many y] ps IH]; intros s c; cbn [match_text].
  - case_bool_decide; [|by intros ?%elem_of_nil]. intros ->%list_elem_of_singleton. split; [done|by intros x ?%elem_of_nil].
  - destruct s as [|d s]; [by intros ?%elem_of_nil|]. case_bool_decide; [apply IH|by intros ?%elem_of_nil].
  - intros (k & _ & Hk)%elem_flat_map. cbn [variables omap list_omap]. case_bool_decide; [by apply (IH _ _ Hk)|].
    destruct (c !! y) as [t|] eqn:Hy.
    + case_bool_decide; [|by apply elem_of_nil in Hk]. destruct (IH _ _ Hk) as [H1 H2]. split; [done|].
      intros x [->|Hx]%elem_of_cons; [|by apply H2]. apply H1. by eexists.
    + destruct (IH _ _ Hk) as [H1 H2]. split.
      * intros x [t Hx]. apply H1. rewrite lookup_insert_ne by congruence. by eexists.
      * intros x [->|Hx]%elem_of_cons; [|by apply H2]. apply H1. rewrite lookup_insert_eq. by eexists.
Qed.

Definition textual : Ruleguard := {|
  Node := bytes;
  File := list string * bytes;
  node_Text := id;
  type_Is _ n t := bool_decide (types n = t);
  type_Underlying_Is _ n t := bool_decide (types n = t);
  type_IdenticalTo n k := bool_decide (types n = types k);
  node_Contains n p c := negb (bool_decide (match_text (Hole true wildcard :: p ++ [Hole true wildcard]) n c = []));
  node_Const := forallb is_digit;
  node_Int := decimal;
  file_Imports f p := bool_decide (p ∈ f.1);
  file_Name := snd;
  gogrep ps n := match_text ps n ∅;
  gogrep_captures p n c x Hc := proj2 (match_text_captures p n ∅ c Hc) x
|}.
End Textual.
