(* ===== verification/RulesCore.v ===== *)
(** * rules: the language, slices, strings, time and reflection

    The rule functions of
    builtins.go, slices.go, strings.go, time.go, reflect.go,
    each the [group] of its calls; [Lint] says how the texts are written. *)

From S2P Require Export Lint.
Local Open Scope string_scope.

(** ** builtins.go *)

Definition MinMaxBuiltin : group := Group [] [
  Clause ["int(math.Min(float64($a), float64($b)))"]
    None
    "use min($a, $b) instead of int(math.Min(float64(...))) (Go 1.21+)"
    None;
  Clause ["int64(math.Min(float64($a), float64($b)))"]
    None
    "use min($a, $b) instead of int64(math.Min(float64(...))) (Go 1.21+)"
    None;
  Clause ["int32(math.Min(float64($a), float64($b)))"]
    None
    "use min($a, $b) instead of int32(math.Min(float64(...))) (Go 1.21+)"
    None;
  Clause ["int(math.Max(float64($a), float64($b)))"]
    None
    "use max($a, $b) instead of int(math.Max(float64(...))) (Go 1.21+)"
    None;
  Clause ["int64(math.Max(float64($a), float64($b)))"]
    None
    "use max($a, $b) instead of int64(math.Max(float64(...))) (Go 1.21+)"
    None;
  Clause ["int32(math.Max(float64($a), float64($b)))"]
    None
    "use max($a, $b) instead of int32(math.Max(float64(...))) (Go 1.21+)"
    None].

Definition ClearBuiltin : group := Group [] [
  Clause ["for $k := range $m { delete($m, $k) }"]
    None
    "use clear($m) instead of loop-based map clearing (Go 1.21+)"
    (Some "clear($m)");
  Clause ["for $k, _ := range $m { delete($m, $k) }"]
    None
    "use clear($m) instead of loop-based map clearing (Go 1.21+)"
    (Some "clear($m)")].

Definition NewWithExpression : group := Group [] [
  Clause ["&[]$typ{$val}[0]"]
    None
    "consider using new($typ($val)) instead of &[]$typ{$val}[0] (Go 1.26+); verify type compatibility"
    None].

(** ** slices.go *)

Definition SortToSlices : group := Group [] [
  Clause ["sort.Ints($s)"]
    None
    "use slices.Sort($s) instead of sort.Ints (Go 1.21+)"
    (Some "slices.Sort($s)");
  Clause ["sort.Strings($s)"]
    None
    "use slices.Sort($s) instead of sort.Strings (Go 1.21+)"
    (Some "slices.Sort($s)");
  Clause ["sort.Float64s($s)"]
    None
    "use slices.Sort($s) instead of sort.Float64s (Go 1.21+)"
    (Some "slices.Sort($s)");
  Clause ["sort.IntsAreSorted($s)"]
    None
    "use slices.IsSorted($s) instead of sort.IntsAreSorted (Go 1.21+)"
    (Some "slices.IsSorted($s)");
  Clause ["sort.StringsAreSorted($s)"]
    None
    "use slices.IsSorted($s) instead of sort.StringsAreSorted (Go 1.21+)"
    (Some "slices.IsSorted($s)");
  Clause ["sort.Float64sAreSorted($s)"]
    None
    "use slices.IsSorted($s) instead of sort.Float64sAreSorted (Go 1.21+)"
    (Some "slices.IsSorted($s)")].

Definition BytesClone : group := Group [] [
  Clause ["append([]byte(nil), $b...)"]
    None
    "use bytes.Clone($b) instead of append([]byte(nil), $b...) (Go 1.20+)"
    None;
  Clause ["append([]byte{}, $b...)"]
    None
    "use bytes.Clone($b) instead of append([]byte{}, $b...) (Go 1.20+)"
    None;
  Clause ["append($b[:0:0], $b...)"]
    (Some (TypeIs "b" "[]byte"))
    "use bytes.Clone($b) instead of append($b[:0:0], $b...) (Go 1.20+)"
    None].

Definition SlicesClone : group := Group [] [
  Clause ["append([]$typ(nil), $s...)"]
    (Some (TextNe "typ" "byte"))
    "use slices.Clone($s) instead of append([]$typ(nil), $s...) (Go 1.21+)"
    None;
  Clause ["append([]$typ{}, $s...)"]
    (Some (TextNe "typ" "byte"))
    "use slices.Clone($s) instead of append([]$typ{}, $s...) (Go 1.21+)"
    None;
  Clause ["append($s[:0:0], $s...)"]
    (Some (Not (TypeIs "s" "[]byte")))
    "use slices.Clone($s) instead of append($s[:0:0], $s...) (Go 1.21+)"
    None].

Definition BackwardIteration : group := Group [] [
  Clause ["for $i := len($s) - 1; $i > -1; $i-- { $*body }"]
    (Some (UnderlyingIs "s" "[]$elem"))
    "use slices.Backward($s) for reverse iteration (Go 1.23+)"
    None].

Definition MapKeysCollection : group := Group [] [
  Clause ["for $k := range $m { $keys = append($keys, $k) }"]
    (Some (TypeIs "m" "map[$k]$v"))
    "use slices.Collect(maps.Keys($m)) to collect map keys (Go 1.23+)"
    None;
  Clause ["for $k, _ := range $m { $keys = append($keys, $k) }"]
    (Some (TypeIs "m" "map[$k]$v"))
    "use slices.Collect(maps.Keys($m)) to collect map keys (Go 1.23+)"
    None].

Definition MapValuesCollection : group := Group [] [
  Clause ["for _, $v := range $m { $values = append($values, $v) }"]
    (Some (TypeIs "m" "map[$k]$v"))
    "use slices.Collect(maps.Values($m)) to collect map values (Go 1.23+)"
    None].

Definition SliceRepeat : group := Group [] [
  Clause ["for $i := 0; $i < $n; $i++ { $result = append($result, $s...) }"]
    None
    "use slices.Repeat($s, $n) instead of manual repetition loop (Go 1.23+); false positive if $s depends on the loop variable"
    None;
  Clause ["for $i := range $n { $result = append($result, $s...) }"]
    (Some (TypeIs "n" "int"))
    "use slices.Repeat($s, $n) instead of manual repetition loop (Go 1.23+); false positive if $s depends on the loop variable"
    None;
  Clause ["for range $n { $result = append($result, $s...) }"]
    (Some (TypeIs "n" "int"))
    "use slices.Repeat($s, $n) instead of manual repetition loop (Go 1.23+)"
    None].

(** ** strings.go *)

Definition LinesIteration : group := Group [] [
  Clause ["for $_, $line := range strings.Split($s, `\n`) { $*body }"]
    None
    "use for $line := range strings.Lines($s) instead of ranging over strings.Split($s, `\n`) (Go 1.24+); not value-equivalent: Lines keeps the trailing newline on each line, Split strips it"
    None;
  Clause ["for $_, $line := range strings.Split($s, `\r\n`) { $*body }"]
    None
    "use for $line := range strings.Lines($s) instead of ranging over strings.Split($s, `\r\n`) (Go 1.24+); not value-equivalent: Lines keeps the line terminator, Split strips it"
    None;
  Clause ["for $_, $line := range bytes.Split($s, []byte(`\n`)) { $*body }"]
    None
    "use for $line := range bytes.Lines($s) instead of ranging over bytes.Split($s, []byte(`\n`)) (Go 1.24+); not value-equivalent: Lines keeps the trailing newline, Split strips it"
    None;
  Clause ["for $_, $line := range bytes.Split($s, []byte(`\r\n`)) { $*body }"]
    None
    "use for $line := range bytes.Lines($s) instead of ranging over bytes.Split($s, []byte(`\r\n`)) (Go 1.24+); not value-equivalent: Lines keeps the line terminator, Split strips it"
    None;
  Clause ["for $_, $line := range bytes.Split($s, []byte{'\n'}) { $*body }"]
    None
    "use for $line := range bytes.Lines($s) instead of ranging over bytes.Split (Go 1.24+); not value-equivalent: Lines keeps the trailing newline, Split strips it"
    None].

Definition FieldsFuncIteration : group := Group [] [
  Clause ["for $_, $field := range strings.FieldsFunc($s, $f) { $*body }"]
    None
    "use for $field := range strings.FieldsFuncSeq($s, $f) to avoid intermediate slice allocation (Go 1.24+)"
    None;
  Clause ["for $_, $field := range bytes.FieldsFunc($s, $f) { $*body }"]
    None
    "use for $field := range bytes.FieldsFuncSeq($s, $f) to avoid intermediate slice allocation (Go 1.24+)"
    None].

Definition CutLast : group := Group [] [
  Clause ["$s[:strings.LastIndex($s, $sep)]"]
    None
    "use before, _, found := strings.CutLast($s, $sep) instead of slicing before strings.LastIndex (Go 1.27+); when $sep is absent this slice panics (index -1) whereas CutLast returns (s, ``, false), so check found"
    None;
  Clause ["$s[strings.LastIndex($s, $sep)+len($sep):]"]
    None
    "use _, after, found := strings.CutLast($s, $sep) instead of slicing after strings.LastIndex (Go 1.27+); the not-found case differs (LastIndex is -1 when $sep is absent), so check found"
    None;
  Clause ["$s[:bytes.LastIndex($s, $sep)]"]
    None
    "use before, _, found := bytes.CutLast($s, $sep) instead of slicing before bytes.LastIndex (Go 1.27+); when $sep is absent this slice panics (index -1) whereas bytes.CutLast returns (s, nil, false), so check found"
    None;
  Clause ["$s[bytes.LastIndex($s, $sep)+len($sep):]"]
    None
    "use _, after, found := bytes.CutLast($s, $sep) instead of slicing after bytes.LastIndex (Go 1.27+); the not-found case differs (LastIndex is -1 when $sep is absent), so check found"
    None;
  Clause ["$s[strings.LastIndex($s, $sep)+1:]"]
    (Some (TextMatches "sep" "^`(\\.|[\x00-\x21\x23-\x5b\x5d-\x7f])`$"))
    "use before, after, found := strings.CutLast($s, $sep) instead of slicing around strings.LastIndex (Go 1.27+); when $sep is absent the slicing idiom yields all of $s but CutLast yields after == ``, so check found"
    None;
  Clause ["$s[bytes.LastIndex($s, $sep)+1:]"]
    (Some (Or (TextMatches "sep" "^\[\]byte\(`(\\.|[\x00-\x21\x23-\x5b\x5d-\x7f])`\)$") (TextMatches "sep" "^\[\]byte\{'(\\.|[\x00-\x26\x28-\x5b\x5d-\x7f])'\}$")))
    "use before, after, found := bytes.CutLast($s, $sep) instead of slicing around bytes.LastIndex (Go 1.27+); when $sep is absent the slicing idiom yields all of $s but CutLast yields after == nil, so check found"
    None;
  Clause ["if $i := strings.LastIndex($s, $sep); $i >= 0 { $*body }";
      "if $i := strings.LastIndex($s, $sep); $i != -1 { $*body }";
      "$i := strings.LastIndex($s, $sep); if $i < 0 { $*_ }; $*body";
      "$i := strings.LastIndex($s, $sep); if $i == -1 { $*_ }; $*body"]
    (Some (Or (NodeContains "body" "$s[:$i]") (Or (NodeContains "body" "$s[$i:]") (NodeContains "body" "$s[$i+$_:]"))))
    "use before, after, found := strings.CutLast($s, $sep) instead of checking strings.LastIndex and slicing by hand (Go 1.27+)"
    None;
  Clause ["if $i := bytes.LastIndex($s, $sep); $i >= 0 { $*body }";
      "if $i := bytes.LastIndex($s, $sep); $i != -1 { $*body }";
      "$i := bytes.LastIndex($s, $sep); if $i < 0 { $*_ }; $*body";
      "$i := bytes.LastIndex($s, $sep); if $i == -1 { $*_ }; $*body"]
    (Some (Or (NodeContains "body" "$s[:$i]") (Or (NodeContains "body" "$s[$i:]") (NodeContains "body" "$s[$i+$_:]"))))
    "use before, after, found := bytes.CutLast($s, $sep) instead of checking bytes.LastIndex and slicing by hand (Go 1.27+)"
    None].

(** ** time.go *)

Definition TimeDateTimeConstants : group := Group [] [
  Clause ["$t.Format(`2006-01-02 15:04:05`)"]
    (Some (Or (TypeIs "t" "time.Time") (TypeIs "t" "*time.Time")))
    "use $t.Format(time.DateTime) instead of magic format string (Go 1.20+)"
    (Some "$t.Format(time.DateTime)");
  Clause ["time.Parse(`2006-01-02 15:04:05`, $s)"]
    None
    "use time.Parse(time.DateTime, $s) instead of magic format string (Go 1.20+)"
    (Some "time.Parse(time.DateTime, $s)");
  Clause ["$t.Format(`2006-01-02`)"]
    (Some (Or (TypeIs "t" "time.Time") (TypeIs "t" "*time.Time")))
    "use $t.Format(time.DateOnly) instead of magic format string (Go 1.20+)"
    (Some "$t.Format(time.DateOnly)");
  Clause ["time.Parse(`2006-01-02`, $s)"]
    None
    "use time.Parse(time.DateOnly, $s) instead of magic format string (Go 1.20+)"
    (Some "time.Parse(time.DateOnly, $s)");
  Clause ["$t.Format(`15:04:05`)"]
    (Some (Or (TypeIs "t" "time.Time") (TypeIs "t" "*time.Time")))
    "use $t.Format(time.TimeOnly) instead of magic format string (Go 1.20+)"
    (Some "$t.Format(time.TimeOnly)");
  Clause ["time.Parse(`15:04:05`, $s)"]
    None
    "use time.Parse(time.TimeOnly, $s) instead of magic format string (Go 1.20+)"
    (Some "time.Parse(time.TimeOnly, $s)")].

Definition TimerChannelLen : group := Group [] [
  Clause ["len($timer.C)"]
    (Some (TypeIs "timer" "*time.Timer"))
    "len() on timer channel is always 0 in Go 1.23+ (channels are now unbuffered); use non-blocking select instead"
    None;
  Clause ["len($ticker.C)"]
    (Some (TypeIs "ticker" "*time.Ticker"))
    "len() on ticker channel is always 0 in Go 1.23+ (channels are now unbuffered); use non-blocking select instead"
    None;
  Clause ["cap($timer.C)"]
    (Some (TypeIs "timer" "*time.Timer"))
    "cap() on timer channel is always 0 in Go 1.23+ (channels are now unbuffered)"
    None;
  Clause ["cap($ticker.C)"]
    (Some (TypeIs "ticker" "*time.Ticker"))
    "cap() on ticker channel is always 0 in Go 1.23+ (channels are now unbuffered)"
    None].

Definition DeferredTimeNow : group := Group [] [
  Clause ["defer $fn($*_, time.Now(), $*_)"]
    None
    "time.Now() is evaluated at defer time, not function exit; wrap in func() if you want exit time"
    None].

(** ** reflect.go *)

Definition ReflectTypeAssert : group := Group [] [
  Clause ["$v.Interface().($typ)"]
    (Some (TypeIs "v" "reflect.Value"))
    "use reflect.TypeAssert[$typ]($v) instead of $v.Interface().($typ) to avoid allocation (Go 1.25+)"
    None].

Definition DeprecatedReflectPtrTo : group := Group [] [
  Clause ["reflect.PtrTo($t)"]
    None
    "reflect.PtrTo is deprecated in Go 1.22; use reflect.PointerTo($t) instead"
    (Some "reflect.PointerTo($t)")].

Definition ReflectFieldsIterator : group := Group [] [
  Clause ["for $i := 0; $i < $t.NumField(); $i++ { $*_ }"]
    (Some (TypeIs "t" "reflect.Type"))
    "use range $t.Fields() instead of index-based field iteration (Go 1.26+); if the loop index is also used for reflect.Value field access, range over the Value instead"
    None;
  Clause ["for $i := 0; $i < $v.NumField(); $i++ { $*_ }"]
    (Some (TypeIs "v" "reflect.Value"))
    "use range $v.Fields() instead of index-based field iteration (Go 1.26+)"
    None;
  Clause ["for $i := range $t.NumField() { $*_ }"]
    (Some (TypeIs "t" "reflect.Type"))
    "use range $t.Fields() instead of range $t.NumField() (Go 1.26+); if the loop index is also used for reflect.Value field access, range over the Value instead"
    None;
  Clause ["for $i := range $v.NumField() { $*_ }"]
    (Some (TypeIs "v" "reflect.Value"))
    "use range $v.Fields() instead of range $v.NumField() (Go 1.26+)"
    None].

Definition ReflectMethodsIterator : group := Group [] [
  Clause ["for $i := 0; $i < $t.NumMethod(); $i++ { $*_ }"]
    (Some (TypeIs "t" "reflect.Type"))
    "use range $t.Methods() instead of index-based method iteration (Go 1.26+)"
    None;
  Clause ["for $i := 0; $i < $v.NumMethod(); $i++ { $*_ }"]
    (Some (TypeIs "v" "reflect.Value"))
    "use range $v.Methods() instead of index-based method iteration (Go 1.26+)"
    None;
  Clause ["for $i := range $t.NumMethod() { $*_ }"]
    (Some (TypeIs "t" "reflect.Type"))
    "use range $t.Methods() instead of range $t.NumMethod() (Go 1.26+)"
    None;
  Clause ["for $i := range $v.NumMethod() { $*_ }"]
    (Some (TypeIs "v" "reflect.Value"))
    "use range $v.Methods() instead of range $v.NumMethod() (Go 1.26+)"
    None].
