(* ===== verification/RulesLibs.v ===== *)
(** * rules: the other packages of the standard library, and the project's own

    The rule functions of
    crypto.go, errors.go, net.go, random.go, runtime.go, secrets.go, sync.go, testing.go, uuid.go,
    each the [group] of its calls; [Lint] says how the texts are written. *)

From S2P Require Export Lint.
Local Open Scope string_scope.

(** ** crypto.go *)

Definition DeprecatedCipherModes : group := Group [] [
  Clause ["cipher.NewOFB($block, $iv)"]
    None
    "cipher.NewOFB is deprecated in Go 1.24: OFB mode is not authenticated and vulnerable to active attacks; use cipher.NewGCM (AEAD) or cipher.NewCTR instead"
    None;
  Clause ["cipher.NewCFBEncrypter($block, $iv)"]
    None
    "cipher.NewCFBEncrypter is deprecated in Go 1.24: CFB mode is not authenticated and vulnerable to active attacks; use cipher.NewGCM (AEAD) or cipher.NewCTR instead"
    None;
  Clause ["cipher.NewCFBDecrypter($block, $iv)"]
    None
    "cipher.NewCFBDecrypter is deprecated in Go 1.24: CFB mode is not authenticated and vulnerable to active attacks; use cipher.NewGCM (AEAD) or cipher.NewCTR instead"
    None].

Definition WeakRSAKeySize : group := Group [] [
  Clause ["rsa.GenerateKey($rand, $bits)"]
    (Some (And (IsConst "bits") (IntBelow "bits" 2048)))
    "RSA keys under 2048 bits are weak (sizes under 1024 are rejected in Go 1.24+); use at least 2048 bits for modern security"
    None].

Definition DeprecatedElliptic : group := Group [] [
  Clause ["elliptic.GenerateKey($curve, $rand)"]
    None
    "elliptic.GenerateKey is deprecated; use crypto/ecdh package instead (Go 1.21+)"
    None;
  Clause ["elliptic.Marshal($curve, $x, $y)"]
    None
    "elliptic.Marshal is deprecated; use crypto/ecdh package instead (Go 1.21+)"
    None;
  Clause ["elliptic.Unmarshal($curve, $data)"]
    None
    "elliptic.Unmarshal is deprecated; use crypto/ecdh package instead (Go 1.21+)"
    None].

Definition DeprecatedRSAMultiPrime : group := Group [] [
  Clause ["rsa.GenerateMultiPrimeKey($rand, $nprimes, $bits)"]
    None
    "rsa.GenerateMultiPrimeKey is deprecated; use rsa.GenerateKey for standard 2-prime RSA (Go 1.21+)"
    None].

Definition DeprecatedPKCS1v15 : group := Group [] [
  Clause ["rsa.EncryptPKCS1v15($rand, $pub, $msg)"]
    None
    "rsa.EncryptPKCS1v15 is deprecated in Go 1.26: PKCS#1 v1.5 encryption is vulnerable to Bleichenbacher attacks; use rsa.EncryptOAEP instead"
    None;
  Clause ["rsa.DecryptPKCS1v15($rand, $priv, $ciphertext)"]
    None
    "rsa.DecryptPKCS1v15 is deprecated in Go 1.26: PKCS#1 v1.5 encryption is vulnerable to Bleichenbacher attacks; use rsa.DecryptOAEP instead"
    None;
  Clause ["rsa.DecryptPKCS1v15SessionKey($rand, $priv, $ciphertext, $key)"]
    None
    "rsa.DecryptPKCS1v15SessionKey is deprecated in Go 1.26: PKCS#1 v1.5 encryption is vulnerable to Bleichenbacher attacks; use OAEP-based encryption instead"
    None].

(** ** errors.go *)

Definition ErrorsAsType : group := Group [] [
  Clause ["errors.As($err, &$target)"]
    None
    "use errors.AsType[T]($err), where T is $target's type, instead of errors.As for type-safe, faster error assertion (Go 1.26+)"
    None].

(** ** net.go *)

Definition JoinHostPort : group := Group [] [
  Clause ["fmt.Sprintf(`%s:%d`, $host, $port)";
      "fmt.Sprintf(`%v:%d`, $host, $port)"]
    None
    "use net.JoinHostPort($host, strconv.Itoa($port)) instead of fmt.Sprintf for host:port (handles IPv6 correctly)"
    None].

Definition FilepathIsLocal : group := Group [] [
  Clause ["strings.Contains($path, `..`)"]
    (Some (And (TextMatches "path" "^[A-Za-z_][A-Za-z0-9_]*$") (TextMatches "path" "^(path|dir|file)(s|path|name|[A-Z].*)?$|^(.*[a-z0-9_])?(Path|Dir|File)(s|[A-Z].*)?$")))
    "consider using filepath.IsLocal($path) for file path validation (Go 1.20+); for URL paths, strings.Contains is appropriate"
    None].

Definition DeprecatedReverseProxyDirector : group := Group [] [
  Clause ["httputil.ReverseProxy{$*_, Director: $_, $*_}"]
    None
    "httputil.ReverseProxy.Director is deprecated in Go 1.20: Director is vulnerable to hop-by-hop header abuse; use Rewrite instead for safe header handling"
    None;
  Clause ["$proxy.Director = $_"]
    (Some (Or (TypeIs "proxy" "*httputil.ReverseProxy") (TypeIs "proxy" "httputil.ReverseProxy")))
    "httputil.ReverseProxy.Director is deprecated in Go 1.20: Director is vulnerable to hop-by-hop header abuse; use Rewrite instead for safe header handling"
    None].

Definition ErrorBeforeUse : group := Group [] [
  Clause ["$f, $err := os.Open($path); $_ := $f.$method($*_); if $err != nil { $*_ }";
      "$f, $err := os.Create($path); $_ := $f.$method($*_); if $err != nil { $*_ }";
      "$f, $err := os.OpenFile($*_); $_ := $f.$method($*_); if $err != nil { $*_ }";
      "$f, $err := os.Open($path); $f.$method($*_); if $err != nil { $*_ }";
      "$f, $err := os.Create($path); $f.$method($*_); if $err != nil { $*_ }";
      "$f, $err := os.OpenFile($*_); $f.$method($*_); if $err != nil { $*_ }";
      "$f, $err := os.Open($path); $_, $_ := $f.$method($*_); if $err != nil { $*_ }";
      "$f, $err := os.Create($path); $_, $_ := $f.$method($*_); if $err != nil { $*_ }";
      "$f, $err := os.OpenFile($*_); $_, $_ := $f.$method($*_); if $err != nil { $*_ }";
      "$f, $err := os.Open($path); defer $f.$method($*_); if $err != nil { $*_ }";
      "$f, $err := os.Create($path); defer $f.$method($*_); if $err != nil { $*_ }";
      "$f, $err := os.OpenFile($*_); defer $f.$method($*_); if $err != nil { $*_ }"]
    None
    "potential nil pointer: $f may be nil if $err != nil; check error before using $f.$method()"
    None].

Definition ResponseBodyDrain : group := Group [] [
  Clause ["io.Copy(io.Discard, $resp.Body); $resp.Body.Close(); $*rest";
      "io.Copy(io.Discard, $resp.Body); _ = $resp.Body.Close(); $*rest";
      "_, _ = io.Copy(io.Discard, $resp.Body); $resp.Body.Close(); $*rest";
      "_, _ = io.Copy(io.Discard, $resp.Body); _ = $resp.Body.Close(); $*rest"]
    (Some (And (TypeIs "resp" "*http.Response") (Not (NodeContains "rest" "$resp.Trailer"))))
    "Go 1.27's standard HTTP/1 Transport drains an unread response body on Close (up to a conservative limit); for a Transport-issued response the io.Copy(io.Discard, $resp.Body) before Close is redundant, unless a large unread body is expected or $resp.Trailer is read. A custom http.RoundTripper's body may not auto-drain, so keep the copy there"
    None].

Definition URLValuesClone : group := Group [] [
  Clause ["maps.Clone($v)"]
    (Some (TypeIs "v" "url.Values"))
    "use $v.Clone() instead of maps.Clone($v): maps.Clone shares the []string values, Values.Clone is a deep copy (Go 1.27+)"
    None].

(** ** random.go *)

Definition RandV2Migration : group := Group [] [
  Clause ["rand.Intn($n)"]
    None
    "consider using math/rand/v2: rand.IntN($n) instead of rand.Intn (Go 1.22+)"
    None;
  Clause ["rand.Int31()"]
    None
    "consider using math/rand/v2: rand.Int32() instead of rand.Int31 (Go 1.22+)"
    None;
  Clause ["rand.Int31n($n)"]
    None
    "consider using math/rand/v2: rand.Int32N($n) instead of rand.Int31n (Go 1.22+)"
    None;
  Clause ["rand.Int63()"]
    None
    "consider using math/rand/v2: rand.Int64() instead of rand.Int63 (Go 1.22+)"
    None;
  Clause ["rand.Int63n($n)"]
    None
    "consider using math/rand/v2: rand.Int64N($n) instead of rand.Int63n (Go 1.22+)"
    None;
  Clause ["rand.Seed($seed)"]
    None
    "rand.Seed is deprecated (Go 1.20+); global rand is auto-seeded; use rand.New(rand.NewSource($seed)) for reproducibility"
    None].

Definition RandMethodN : group := Group ["math/rand/v2"] [
  Clause ["$T($r.Int64N(int64($n)))";
      "$T($r.Int32N(int32($n)))";
      "$T($r.IntN(int($n)))";
      "$T($r.Uint64N(uint64($n)))";
      "$T($r.Uint32N(uint32($n)))";
      "$T($r.UintN(uint($n)))"]
    (Some (And (TypeIs "r" "*rand.Rand") (IdenticalTo "T" "n")))
    "use $r.N($n) instead of converting through a fixed-width bounded method; Rand.N infers the integer type from $n (Go 1.27+); not a drop-in if the inner conversion truncated $n"
    None].

(** ** runtime.go *)

Definition PreferAddCleanup : group := Group [] [
  Clause ["runtime.SetFinalizer($obj, $fn)"]
    None
    "consider using runtime.AddCleanup instead of runtime.SetFinalizer (Go 1.24+): AddCleanup allows multiple cleanups, avoids cycle leaks, and doesn't delay object freeing"
    None].

(** ** secrets.go *)

Definition PasskeyRendering : group := Group ["github.com/tphakala/et-go/internal/protocol"; "google.golang.org/protobuf/encoding/prototext"; "google.golang.org/protobuf/encoding/protojson"] [
  Clause ["$x.String()"]
    (Some (Or (TypeIs "x" "*protocol.TerminalUserInfo") (TypeIs "x" "protocol.TerminalUserInfo")))
    "TerminalUserInfo.String prints the session passkey; format the message with fmt or slog, which redact it"
    None;
  Clause ["prototext.Format($x)";
      "prototext.Marshal($x)";
      "protojson.Format($x)";
      "protojson.Marshal($x)"]
    (Some (Or (TypeIs "x" "*protocol.TerminalUserInfo") (TypeIs "x" "protocol.TerminalUserInfo")))
    "prototext and protojson print the TerminalUserInfo session passkey; format the message with fmt or slog, which redact it"
    None;
  Clause ["$opts.Format($x)";
      "$opts.Marshal($x)";
      "$opts.MarshalAppend($_, $x)"]
    (Some (And (Or (TypeIs "x" "*protocol.TerminalUserInfo") (TypeIs "x" "protocol.TerminalUserInfo")) (Or (TypeIs "opts" "prototext.MarshalOptions") (Or (TypeIs "opts" "*prototext.MarshalOptions") (Or (TypeIs "opts" "protojson.MarshalOptions") (TypeIs "opts" "*protojson.MarshalOptions"))))))
    "prototext and protojson print the TerminalUserInfo session passkey; format the message with fmt or slog, which redact it"
    None].

(** ** sync.go *)

Definition WaitGroupGo : group := Group [] [
  Clause ["$wg.Add(1); go func($param $typ) { defer $param.Done(); $*body }($wg)";
      "$wg.Add(1); go func($param $typ) { defer $param.Done(); $*body }(&$wg)"]
    (Some (Or (TypeIs "wg" "*sync.WaitGroup") (TypeIs "wg" "sync.WaitGroup")))
    "use $wg.Go(func() { ... }) instead of manual Add/Done pattern (Go 1.25+)"
    None].

(** ** testing.go *)

Definition BenchmarkLoop : group := Group [] [
  Clause ["for $i := 0; $i < $b.N; $i++ { $*body }"]
    (Some (TypeIs "b" "*testing.B"))
    "use for $b.Loop() { ... } instead of for $i := 0; $i < $b.N; $i++ (Go 1.24+); if using $i in body, declare it separately"
    None;
  Clause ["for $i := range $b.N { $*body }"]
    (Some (TypeIs "b" "*testing.B"))
    "use for $b.Loop() { ... } instead of for $i := range $b.N (Go 1.24+); if using $i in body, declare it separately"
    None;
  Clause ["for range $b.N { $*body }"]
    (Some (TypeIs "b" "*testing.B"))
    "use for $b.Loop() { ... } instead of for range $b.N (Go 1.24+)"
    (Some "for $b.Loop() { $body }")].

Definition TestingArtifactDir : group := Group [] [
  Clause ["os.MkdirTemp($dir, $pattern)"]
    (Some (FileNameMatches "_test\.go$"))
    "in tests, consider t.ArtifactDir() for test output files instead of os.MkdirTemp (Go 1.26+); use t.TempDir() for scratch space that should be cleaned up"
    None].

Definition SynctestSleep : group := Group [] [
  Clause ["time.Sleep($d); synctest.Wait()"]
    None
    "use synctest.Sleep($d) instead of time.Sleep($d) followed by synctest.Wait() (Go 1.27+)"
    None].

Definition HttptestNewTestServer : group := Group [] [
  Clause ["synctest.Test($_, func($*_) { $*body })"]
    (Some (NodeContains "body" "httptest.NewServer($_)"))
    "this synctest bubble starts an httptest.NewServer on a real listener; pass the enclosing test's *testing.T to httptest.NewTestServer (with the handler) instead, which serves over an in-memory network that stays inside the bubble, reachable only through srv.Client() (Go 1.27+)"
    None].

(** ** uuid.go *)

Definition StdlibUUID : group := Group [] [
  Clause ["uuid.New()";
      "uuid.NewString()";
      "uuid.NewRandom()";
      "uuid.NewV7()";
      "uuid.Parse($s)";
      "uuid.MustParse($s)";
      "uuid.Nil";
      "uuid.Max"]
    (Some (FileImports "github.com/google/uuid"))
    "the standard library uuid package (Go 1.27+) covers New/NewV4/NewV7/Parse/MustParse/Nil/Max; consider dropping github.com/google/uuid (its NewRandom/NewV7 lose the error return, and Nil/Max become functions)"
    None].
