(* ===== verification/RulesFilters.v ===== *)
(** * rules: what the conditions on source text accept

    Two rules decide by regular expressions on the text of an operand.
    [FilepathIsLocal] flags operands that read like a path; [path_name] says
    which names those are.  [CutLast] flags [s[LastIndex(s, sep)+1:]] only
    for separators of one byte; the theorem goes from the text of the literal
    to its value, and to the result of the slice. *)

From S2P Require Import RulesCore RulesLibs.
Local Open Scope Z_scope.

(** A Go text as runes. *)
Definition rs (s : string) : list Z := b2z <$> bs s.

Lemma star_class ranges w : star (lang (RxClass ranges)) w <-> Forall (fun c => in_class ranges c = true) w.
Proof.
  split.
  - induction 1 as [|u v (c & -> & Hc) _ IH]; [constructor|by constructor].
  - induction 1 as [|c w Hc _ IH]; [constructor|]. apply (star_app _ [c]); [by exists c|done].
Qed.

Lemma star_any w : star (lang RxAny) w <-> Forall (fun c => c <> 10) w.
Proof.
  split.
  - induction 1 as [|u v (c & -> & Hc) _ IH]; [constructor|by constructor].
  - induction 1 as [|c w Hc _ IH]; [constructor|]. apply (star_app _ [c]); [by exists c|done].
Qed.

(** One word, and words before a last alternative. *)
Definition word (k : list Z) : regex := foldr (fun c r => RxSeq (RxRune c) r) RxEmpty k.
Definition words (ks : list (list Z)) (r : regex) : regex := foldr (fun k r => RxAlt (word k) r) r ks.

Lemma lang_word k w : lang (word k) w <-> w = k.
Proof.
  revert w. induction k as [|a k IH]; intros w; [done|]. split.
  - intros (u & v & -> & (c & -> & Hc) & Hv%IH). subst v. cbn in Hc. assert (c = a) as -> by lia. done.
  - intros ->. exists [a], k. split_and!; [done| |by apply IH]. exists a. cbn. split; [done|lia].
Qed.

Lemma lang_words ks r w : lang (words ks r) w <-> w ∈ ks \/ lang r w.
Proof.
  induction ks as [|k ks IH]; cbn [words foldr].
  - rewrite elem_of_nil. tauto.
  - rewrite elem_of_cons. change (lang (word k) w \/ lang (words ks r) w <-> (w = k \/ w ∈ ks) \/ lang r w).
    rewrite lang_word, IH. tauto.
Qed.

Lemma lang_seq_empty r w : lang (RxSeq r RxEmpty) w <-> lang r w.
Proof.
  cbn. split; [intros (u & v & -> & Hu & ->); by rewrite app_nil_r|]. intros Hw. exists w, []. by rewrite app_nil_r.
Qed.

(** ** Names that read like a path *)

Definition lower (c : Z) : bool := (97 <=? c) && (c <=? 122).
Definition upper (c : Z) : bool := (65 <=? c) && (c <=? 90).
Definition digit_rune (c : Z) : bool := (48 <=? c) && (c <=? 57).

(** A Go identifier of ASCII letters, digits and underscores. *)
Definition identifier (w : list Z) : Prop :=
  exists c v, w = c :: v /\ (upper c || lower c || (c =? 95)) = true /\
    Forall (fun c => (upper c || lower c || digit_rune c || (c =? 95)) = true) v.

(** The rest of a camel-case name from its next word on. *)
Definition next_word (v : list Z) : Prop := exists c v', v = c :: v' /\ upper c = true.

(** The name begins with the lower-case keyword, alone, in the plural, in one
    of the usual compounds, or as its first camel-case word; or it has the
    capitalised keyword, as its last camel-case word or in the plural, or
    followed by another word, at a word boundary. *)
Definition path_name (w : list Z) : Prop :=
  (exists k v, w = k ++ v /\ k ∈ rs <$> ["path"; "dir"; "file"]%string /\
     (v = [] \/ v ∈ rs <$> ["s"; "path"; "name"]%string \/ next_word v)) \/
  (exists u k v, w = u ++ k ++ v /\ k ∈ rs <$> ["Path"; "Dir"; "File"]%string /\
     (u = [] \/ exists u' c, u = u' ++ [c] /\ (lower c || digit_rune c || (c =? 95)) = true) /\
     (v = [] \/ v = rs "s" \/ next_word v)).

(** The condition of the rule. *)
Definition FilepathIsLocal_where : cond :=
  match g_clauses FilepathIsLocal with cl :: _ => default (IsConst "path") (Where cl) | [] => IsConst "path" end.

(** Its two expressions, read. *)
Definition read_whole (s : string) : regex := default RxEmpty (parse (src s) ≫= whole).
Definition identifier_re : regex :=
  Eval vm_compute in match FilepathIsLocal_where with And (TextMatches _ a) _ => read_whole a | _ => RxEmpty end.
Definition path_re : regex :=
  Eval vm_compute in match FilepathIsLocal_where with And _ (TextMatches _ b) => read_whole b | _ => RxEmpty end.

Lemma matches_whole re r r' (s : bytes) :
  parse (src re) = Some r -> whole r = Some r' -> anchor_free r' = true ->
  exists b, matches re s = Some b /\ (b = true <-> lang r' (runes s)).
Proof.
  intros Hp Hw Ha. unfold matches. rewrite Hp. cbn. eexists. split; [done|]. by apply whole_spec.
Qed.

Lemma identifier_lang w : lang identifier_re w <-> identifier w.
Proof.
  unfold identifier_re, identifier. cbn [lang]. split.
  - intros (u & v & -> & (c & -> & Hc) & v' & v'' & -> & Hv%star_class & ->). rewrite app_nil_r.
    exists c, v'. split_and!; [done| |].
    + unfold upper, lower. cbn in Hc. lia.
    + eapply Forall_impl; [exact Hv|]. intros d Hd. unfold upper, lower, digit_rune. cbn in Hd. lia.
  - intros (c & v & -> & Hc & Hv). exists [c], v. split_and!; [done| |].
    + exists c. split; [done|]. unfold upper, lower in Hc. cbn. lia.
    + exists v, []. rewrite app_nil_r. split_and!; [done| |done]. apply star_class.
      eapply Forall_impl; [exact Hv|]. intros d Hd. unfold upper, lower, digit_rune in Hd. cbn. lia.
Qed.

Lemma identifier_no_newline w : identifier w -> Forall (fun c => c <> 10) w.
Proof.
  intros (c & v & -> & Hc & Hv). constructor; [intros ->; done|].
  eapply Forall_impl; [exact Hv|]. by intros d Hd ->.
Qed.

Lemma lang_next_word v :
  Forall (fun c => c <> 10) v ->
  lang (RxSeq (RxClass [(65, 90)]) (RxSeq (RxStar RxAny) RxEmpty)) v <-> next_word v.
Proof.
  intros Hn. unfold next_word. split.
  - intros (a & b & -> & (c & -> & Hc) & _). exists c, b. split; [done|]. unfold upper. cbn in Hc. lia.
  - intros (c & b & -> & Hc). inversion Hn as [|? ? _ Hb]; subst. exists [c], b. split_and!; [done| |].
    + exists c. split; [done|]. unfold upper in Hc. cbn. lia.
    + apply lang_seq_empty. by apply star_any.
Qed.

Lemma lang_boundary u :
  Forall (fun c => c <> 10) u ->
  lang (RxSeq (RxStar RxAny) (RxSeq (RxClass [(97, 122); (48, 57); (95, 95)]) RxEmpty)) u <->
  exists u' c, u = u' ++ [c] /\ (lower c || digit_rune c || (c =? 95)) = true.
Proof.
  intros Hn. split.
  - intros (a & b & -> & _ & (c & -> & Hc)%lang_seq_empty). exists a, c. split; [done|].
    unfold lower, digit_rune. cbn in Hc. lia.
  - intros (u' & c & -> & Hc). apply Forall_app in Hn as [Hu _]. exists u', [c]. split_and!; [done|by apply star_any|].
    apply lang_seq_empty. exists c. split; [done|]. unfold lower, digit_rune in Hc. cbn. lia.
Qed.

(** The expression as keywords and what may surround them. *)
Definition word_start : regex := RxSeq (RxClass [(65, 90)]) (RxSeq (RxStar RxAny) RxEmpty).
Definition boundary : regex := RxSeq (RxStar RxAny) (RxSeq (RxClass [(97, 122); (48, 57); (95, 95)]) RxEmpty).
Lemma path_re_shape : path_re =
  RxAlt (RxSeq (words [rs "path"; rs "dir"] (word (rs "file")))
          (RxSeq (RxOpt (words [rs "s"; rs "path"; rs "name"] word_start)) RxEmpty))
        (RxSeq (RxOpt boundary) (RxSeq (words [rs "Path"; rs "Dir"] (word (rs "File")))
          (RxSeq (RxOpt (words [rs "s"] word_start)) RxEmpty))).
Proof. reflexivity. Qed.

Lemma lang_opt r w : lang (RxOpt r) w <-> w = [] \/ lang r w.
Proof. cbn. tauto. Qed.

Lemma lang_suffix ks v :
  Forall (fun c => c <> 10) v ->
  lang (RxSeq (RxOpt (words ks word_start)) RxEmpty) v <-> v = [] \/ v ∈ ks \/ next_word v.
Proof. intros Hn. by rewrite lang_seq_empty, lang_opt, lang_words, lang_next_word. Qed.

Lemma lang_keyword a b c w : lang (words [a; b] (word c)) w <-> w ∈ [a; b; c].
Proof. rewrite lang_words, lang_word. set_solver. Qed.

Lemma path_lang w : Forall (fun c => c <> 10) w -> lang path_re w <-> path_name w.
Proof.
  intros Hw. rewrite path_re_shape. unfold path_name.
  transitivity (lang (RxSeq (words [rs "path"; rs "dir"] (word (rs "file")))
      (RxSeq (RxOpt (words [rs "s"; rs "path"; rs "name"] word_start)) RxEmpty)) w \/
    lang (RxSeq (RxOpt boundary) (RxSeq (words [rs "Path"; rs "Dir"] (word (rs "File")))
      (RxSeq (RxOpt (words [rs "s"] word_start)) RxEmpty))) w); [done|].
  f_equiv; split.
  - intros (k & v & -> & Hk%lang_keyword & Hv). apply Forall_app in Hw as [_ Hn].
    apply (lang_suffix _ v Hn) in Hv. by exists k, v.
  - intros (k & v & -> & Hk & Hv). apply Forall_app in Hw as [_ Hn].
    exists k, v. split_and!; [done|by apply lang_keyword|by apply lang_suffix].
  - intros (u & x & -> & Hu%lang_opt & k & v & -> & Hk%lang_keyword & Hv).
    apply Forall_app in Hw as [Hnu [_ Hn]%Forall_app]. apply (lang_suffix _ v Hn) in Hv.
    rewrite (lang_boundary u Hnu) in Hu. rewrite list_elem_of_singleton in Hv. by exists u, k, v.
  - intros (u & k & v & -> & Hk & Hu & Hv). apply Forall_app in Hw as [Hnu [_ Hn]%Forall_app].
    exists u, (k ++ v). split_and!; [done| |].
    + apply lang_opt. by rewrite (lang_boundary u Hnu).
    + exists k, v. split_and!; [done|by apply lang_keyword|]. apply lang_suffix; [done|].
      by rewrite list_elem_of_singleton.
Qed.

(** [C31] The rule's condition on the operand's text is true exactly of the
    identifiers that read like a path, for every text, and can always be
    evaluated. *)
Theorem path_filter_spec `{Ruleguard} imports f c n :
  c !! bs "path" = Some n ->
  exists b, eval imports f c FilepathIsLocal_where = Some b /\
    (b = true <-> identifier (runes (node_Text n)) /\ path_name (runes (node_Text n))).
Proof.
  intros Hn. set (w := runes (node_Text n)).
  assert (exists a b, FilepathIsLocal_where = And (TextMatches "path" a) (TextMatches "path" b) /\
    (exists v, matches a (node_Text n) = Some v /\ (v = true <-> lang identifier_re w)) /\
    (exists v, matches b (node_Text n) = Some v /\ (v = true <-> lang path_re w)))
    as (a & b & -> & (va & Ha & Hia) & vb & Hb & Hib).
  { do 2 eexists. split; [reflexivity|].
    split; (eapply matches_whole; [vm_compute; reflexivity|vm_compute; reflexivity|reflexivity]). }
  cbn [eval]. rewrite Hn. cbn [mbind option_bind]. rewrite Ha, Hb. cbn [mbind option_bind].
  rewrite identifier_lang in Hia.
  destruct va; [|exists false; split; [done|]; split; [done|intros [?%Hia _]; done]].
  exists vb. split; [done|]. rewrite Hib. pose proof (proj1 Hia eq_refl) as Hid.
  rewrite (path_lang w (identifier_no_newline w Hid)). tauto.
Qed.

(** ** Separators of one byte *)

(** [strings.LastIndex]. *)
Fixpoint LastIndex (s sep : bytes) : Z :=
  let here := if HasPrefix s sep then 0 else -1 in
  match s with
  | [] => here
  | _ :: s' => let i := LastIndex s' sep in if 0 <=? i then i + 1 else here
  end.

(** Digits of an escape: [n] of them in base [b]. *)
Fixpoint read_digits (n : nat) (b : Z) (acc : Z) (s : list Z) : option (Z * list Z) :=
  match n with
  | O => Some (acc, s)
  | S n =>
      match s with
      | c :: s => d ← hex_value c; if d <? b then read_digits n b (b * acc + d) s else None
      | [] => None
      end
  end.

(** What follows a backslash in a literal with quote [quote]: the value, and
    whether it is a byte rather than a rune. *)
Definition escape (quote : Z) (s : list Z) : option (Z * bool * list Z) :=
  match s with
  | [] => None
  | c :: s =>
      if c =? quote then Some (quote, false, s)
      else if c =? 97 then Some (7, false, s) else if c =? 98 then Some (8, false, s)
      else if c =? 102 then Some (12, false, s) else if c =? 110 then Some (10, false, s)
      else if c =? 114 then Some (13, false, s) else if c =? 116 then Some (9, false, s)
      else if c =? 118 then Some (11, false, s) else if c =? 92 then Some (92, false, s)
      else if c =? 120 then '(v, s) ← read_digits 2 16 0 s; Some (v, true, s)
      else if c =? 117 then '(v, s) ← read_digits 4 16 0 s; Some (v, false, s)
      else if c =? 85 then '(v, s) ← read_digits 8 16 0 s; Some (v, false, s)
      else if digit_rune c then '(v, s) ← read_digits 3 8 0 (c :: s); if v <? 256 then Some (v, true, s) else None
      else None
  end.

(** An interpreted string literal after its opening quote, which must end with
    the closing one. *)
Fixpoint string_body (fuel : nat) (s : list Z) : option bytes :=
  match fuel with
  | O => None
  | S fuel =>
      match s with
      | [] => None
      | c :: s =>
          if c =? 34 then if bool_decide (s = []) then Some [] else None
          else if c =? 10 then None
          else if c =? 92 then
            '(v, is_byte, s) ← escape 34 s;
            if negb is_byte && negb (is_scalar v) then None
            else rest ← string_body fuel s; Some ((if is_byte then [z2b v] else utf8_rune v) ++ rest)
          else rest ← string_body fuel s; Some (utf8_rune c ++ rest)
      end
  end.
Definition string_literal (t : list Z) : option bytes :=
  match t with c :: s => if c =? 34 then string_body (length s) s else None | [] => None end.

(** A rune literal that is a byte constant. *)
Definition byte_rune_literal (t : list Z) : option bytes :=
  match t with
  | q :: s =>
      if negb (q =? 39) then None
      else '(v, s) ← match s with
                     | c :: s' => if c =? 92 then '(v, _, s) ← escape 39 s'; Some (v, s)
                                  else if (c =? 39) || (c =? 10) then None else Some (c, s')
                     | [] => None
                     end;
           if bool_decide (s = [39]) && (v <? 256) then Some [z2b v] else None
  | [] => None
  end.

(** [p], the inner text, [q]. *)
Definition inner (p q t : list Z) : option (list Z) :=
  let m := (length t - length p - length q)%nat in
  if bool_decide (t = p ++ take m (drop (length p) t) ++ q) then Some (take m (drop (length p) t)) else None.

(** The value of the separator's text: a string, or bytes made of a string or
    of one byte. *)
Definition separator_value (t : list Z) : option bytes :=
  match string_literal t with
  | Some v => Some v
  | None =>
      match inner (rs "[]byte(") (rs ")") t ≫= string_literal with
      | Some v => Some v
      | None => inner (rs "[]byte{") (rs "}") t ≫= byte_rune_literal
      end
  end.

(** The two clauses on [+1] and their conditions. *)
Definition plus_one_where : list cond :=
  omap Where (take 2 (drop 4 (g_clauses RulesCore.CutLast))).

Lemma LastIndex_byte s c :
  (c ∉ s /\ LastIndex s [c] = -1) \/ exists b a, s = b ++ c :: a /\ c ∉ a /\ LastIndex s [c] = zlen b.
Proof.
  induction s as [|d s IH]; [left; split; [apply not_elem_of_nil|done]|].
  cbn [LastIndex HasPrefix]. replace (HasPrefix s []) with true by (by destruct s). rewrite andb_true_r. destruct IH as [[Hc ->]|(b & a & -> & Ha & ->)].
  - change (0 <=? -1) with false. cbv iota. case_bool_decide as Hd.
    + subst. right. by exists [], s.
    + left. rewrite not_elem_of_cons. done.
  - right. exists (d :: b), a. destruct (Z.leb_spec 0 (zlen b)); [|pose proof (zlen_nonneg b); lia].
    rewrite zlen_cons. split_and!; [done|done|lia].
Qed.

Lemma slice_after_last s c :
  zdrop (LastIndex s [c] + 1) s = match CutLast s [c] with Some (_, a) => a | None => s end.
Proof.
  destruct (LastIndex_byte s c) as [[Hc ->]|(b & a & -> & Ha & ->)].
  - rewrite (proj2 (CutLast_byte_None _ _) Hc). done.
  - rewrite (proj2 (CutLast_byte _ _ _ _) (conj eq_refl Ha)).
    change (c :: a) with ([c] ++ a). rewrite app_assoc. apply zdrop_app_eq. by rewrite zlen_app.
Qed.

(** What the two expressions accept: one byte between quotes. *)
Definition one_unit (quote : Z) (w : list Z) : Prop :=
  (exists c, w = [92; c] /\ c <> 10) \/
  (exists c, w = [c] /\ 0 <= c < 128 /\ c <> quote /\ c <> 92).

Definition plus_one_re (i : nat) : list regex :=
  match plus_one_where !! i with
  | Some (TextMatches _ a) => [read_whole a]
  | Some (Or (TextMatches _ a) (TextMatches _ b)) => [read_whole a; read_whole b]
  | _ => []
  end.

Definition unit_re (quote : Z) : regex :=
  RxAlt (RxSeq (RxRune 92) (RxSeq RxAny RxEmpty))
        (RxSeq (RxClass [(0, quote - 1); (quote + 1, 91); (93, 127)]) RxEmpty).
Definition enclosed (p : list Z) (quote : Z) (q : list Z) : regex :=
  foldr (fun c r => RxSeq (RxRune c) r) (RxSeq (unit_re quote) (word q)) p.

Lemma plus_one_re_shape :
  plus_one_re 0 = [enclosed [34] 34 [34]] /\
  plus_one_re 1 = [enclosed (rs "[]byte(" ++ [34]) 34 (34 :: rs ")"); enclosed (rs "[]byte{'") 39 (rs "'}")].
Proof. split; vm_compute; reflexivity. Qed.

Lemma lang_enclosed p quote q w :
  34 <= quote <= 39 ->
  lang (enclosed p quote q) w -> exists x, w = p ++ x ++ q /\ one_unit quote x.
Proof.
  intros Hq. revert w. induction p as [|a p IH]; intros w.
  - intros (x & v & -> & Hx & Hv%lang_word). subst v. exists x. split; [done|].
    destruct Hx as [(u & v & -> & (c & -> & Hc) & (d & -> & Hd)%lang_seq_empty)|(c & -> & Hc)%lang_seq_empty].
    + left. cbn in Hc. assert (c = 92) as -> by lia. by exists d.
    + right. exists c. cbn in Hc. split_and!; [done|lia..].
  - intros (u & v & -> & (c & -> & Hc) & (x & -> & Hx)%IH). exists x. split; [|done].
    cbn in Hc. assert (c = a) as -> by lia. done.
Qed.

Lemma utf8_rune_ascii c : 0 <= c < 128 -> utf8_rune c = [z2b c].
Proof.
  intros Hc. unfold utf8_rune. replace (is_scalar c) with true by (symmetry; apply is_scalar_spec; lia).
  by destruct (Z.ltb_spec c 0x80); [|lia].
Qed.

Lemma read_digits_quote n b acc v s : n <> 0%nat -> read_digits n b acc [34] = Some (v, s) -> False.
Proof. by destruct n. Qed.

(** A backslash and one rune stand for one byte, if anything. *)
Lemma escape_unit c v is_byte s :
  escape 34 [c; 34] = Some (v, is_byte, s) -> s = [34] /\ 0 <= v < 128 /\ is_byte = false.
Proof.
  unfold escape.
  repeat (destruct (_ =? _); [first [by intros [= <- <- <-]|done]|]).
  destruct (digit_rune c); [|done]. cbn. destruct (hex_value c) as [d|]; cbn; [|done]. by destruct (d <? 8).
Qed.

Lemma string_unit n x v : one_unit 34 x -> string_body n (x ++ [34]) = Some v -> zlen v = 1.
Proof.
  assert (forall n r, string_body n [34] = Some r -> r = []) as Hend by (by intros [|m] r; cbn; [|intros [= <-]]).
  intros [(c & -> & Hc)|(c & -> & Hr & Hc & Hb)]; (destruct n as [|n]; [done|]); cbn [string_body app].
  - change (92 =? 34) with false. change (92 =? 10) with false. change (92 =? 92) with true. cbv iota.
    destruct (escape 34 [c; 34]) as [[[u is_byte] s]|] eqn:He; [|done].
    apply escape_unit in He as (-> & Hu & ->). cbn [mbind option_bind negb andb].
    destruct (negb (is_scalar u)); [done|]. destruct (string_body n [34]) as [r|] eqn:Hrest; [|done].
    intros [= <-]. by rewrite (Hend _ _ Hrest), utf8_rune_ascii.
  - destruct (Z.eqb_spec c 34), (Z.eqb_spec c 10), (Z.eqb_spec c 92); try done.
    destruct (string_body n [34]) as [r|] eqn:Hrest; [|done]. intros [= <-].
    by rewrite (Hend _ _ Hrest), utf8_rune_ascii.
Qed.

Lemma byte_rune_one t v : byte_rune_literal t = Some v -> zlen v = 1.
Proof.
  unfold byte_rune_literal. destruct t as [|q s]; [done|]. destruct (negb _); [done|].
  match goal with |- context [mbind _ ?m] => destruct m as [[u r]|] end; [|done].
  cbn. destruct (_ && _); [|done]. by intros [= <-].
Qed.

Lemma inner_Some p q t m : inner p q t = Some m -> t = p ++ m ++ q.
Proof. unfold inner. case_bool_decide as H; [|done]. by intros [= <-]. Qed.

Lemma inner_app p m q m' : inner p q (p ++ m ++ q) = Some m' -> m' = m.
Proof. intros H%inner_Some. apply app_inv_head in H. by apply app_inv_tail in H. Qed.

(** The value of what the expressions accept is one byte. *)
Lemma separator_unit t v :
  (exists x, t = [34] ++ x ++ [34] /\ one_unit 34 x) \/
  (exists x, t = (rs "[]byte(" ++ [34]) ++ x ++ 34 :: rs ")" /\ one_unit 34 x) \/
  (exists x, t = rs "[]byte{'" ++ x ++ rs "'}" /\ one_unit 39 x) ->
  separator_value t = Some v -> zlen v = 1.
Proof.
  unfold separator_value. intros [(x & -> & Hx)|[(x & -> & Hx)|(x & -> & Hx)]].
  - cbn [string_literal app]. change (34 =? 34) with true. cbv iota.
    destruct (string_body _ _) as [u|] eqn:Hu; [intros [= <-]; by eapply string_unit|].
    destruct (inner (rs "[]byte(") _ _) as [m|] eqn:Hm; [by apply inner_Some in Hm|].
    destruct (inner (rs "[]byte{") _ _) as [m|] eqn:Hm'; [by apply inner_Some in Hm'|]. done.
  - change (string_literal _) with (@None bytes) at 1.
    replace ((rs "[]byte(" ++ [34]) ++ x ++ 34 :: rs ")") with (rs "[]byte(" ++ (34 :: x ++ [34]) ++ rs ")")
      by (cbn [app]; rewrite <- !app_assoc; done).
    destruct (inner (rs "[]byte(") _ _) as [m|] eqn:Hm; cbn [mbind option_bind].
    + apply inner_app in Hm as ->. cbn [string_literal]. change (34 =? 34) with true. cbv iota.
      destruct (string_body _ _) as [u|] eqn:Hu; [intros [= <-]; by eapply string_unit|].
      destruct (inner (rs "[]byte{") _ _) as [m|] eqn:Hm'; [by apply inner_Some in Hm'|]. done.
    + destruct (inner (rs "[]byte{") _ _) as [m|] eqn:Hm'; [by apply inner_Some in Hm'|]. done.
  - change (string_literal _) with (@None bytes) at 1.
    destruct (inner (rs "[]byte(") _ _) as [m|] eqn:Hm; [by apply inner_Some in Hm|]. cbn [mbind option_bind].
    destruct (inner (rs "[]byte{") _ _) as [m|]; [|done]. cbn [mbind option_bind]. apply byte_rune_one.
Qed.

Lemma plus_one_cases : exists a b1 b2,
  plus_one_where = [TextMatches "sep" a; Or (TextMatches "sep" b1) (TextMatches "sep" b2)] /\
  forall t : bytes,
    (exists v, matches a t = Some v /\ (v = true <-> lang (enclosed [34] 34 [34]) (runes t))) /\
    (exists v, matches b1 t = Some v /\ (v = true <-> lang (enclosed (rs "[]byte(" ++ [34]) 34 (34 :: rs ")")) (runes t))) /\
    (exists v, matches b2 t = Some v /\ (v = true <-> lang (enclosed (rs "[]byte{'") 39 (rs "'}")) (runes t))).
Proof.
  do 3 eexists. split; [reflexivity|]. intros t.
  split_and!; (eapply matches_whole; [vm_compute; reflexivity|vm_compute; reflexivity|reflexivity]).
Qed.

(** [C32] The advice on [s[LastIndex(s, sep)+1:]] is given only where [+1] skips
    the separator: when the rule's condition holds of the separator's text
    and that text is a Go literal, its value is one byte, so the slice is
    what CutLast returns after it, and all of [s] when it is absent. *)
Theorem separator_one_byte `{Ruleguard} imports f c n w v :
  w ∈ plus_one_where -> c !! bs "sep" = Some n -> eval imports f c w = Some true ->
  separator_value (runes (node_Text n)) = Some v ->
  zlen v = 1 /\
  forall s, zdrop (LastIndex s v + 1) s = match CutLast s v with Some (_, after) => after | None => s end.
Proof.
  intros Hw Hn Hev Hv. assert (zlen v = 1) as Hone.
  { destruct plus_one_cases as (a & b1 & b2 & Heq & Hre). rewrite Heq in Hw.
    destruct (Hre (node_Text n)) as ((va & Ha & Hia) & (v1 & H1 & Hi1) & v2 & H2 & Hi2).
    eapply separator_unit; [|exact Hv]. apply elem_of_cons in Hw as [->|Hw%list_elem_of_singleton]; [|subst w].
    - cbn [eval] in Hev. rewrite Hn in Hev. cbn [mbind option_bind] in Hev. rewrite Ha in Hev. injection Hev as ->.
      left. apply lang_enclosed; [lia|by apply Hia].
    - cbn [eval] in Hev. rewrite Hn in Hev. cbn [mbind option_bind] in Hev. rewrite H1, H2 in Hev.
      cbn [mbind option_bind] in Hev. destruct v1; [|injection Hev as ->].
      + right. left. apply lang_enclosed; [lia|by apply Hi1].
      + right. right. apply lang_enclosed; [lia|by apply Hi2]. }
  split; [done|]. destruct v as [|b [|b2 v]]; [done| |rewrite !zlen_cons in Hone; pose proof (zlen_nonneg v); lia].
  intros s. apply slice_after_last.
Qed.
