(* ===== verification/Rules.v ===== *)
(** * rules: the whole set

    All rule functions of rules/*.go together: every one can be run and
    reports exactly where a pattern matches with its condition; which autofixes
    leave the imports of the file as they are. *)

From S2P Require Import RulesFilters RulesCore RulesLibs.
Local Open Scope Z_scope.

Definition all_groups : list group := [
  MinMaxBuiltin; ClearBuiltin; NewWithExpression;
  SortToSlices; BytesClone; SlicesClone; BackwardIteration; MapKeysCollection; MapValuesCollection; SliceRepeat;
  LinesIteration; FieldsFuncIteration; RulesCore.CutLast;
  TimeDateTimeConstants; TimerChannelLen; DeferredTimeNow;
  ReflectTypeAssert; DeprecatedReflectPtrTo; ReflectFieldsIterator; ReflectMethodsIterator;
  DeprecatedCipherModes; WeakRSAKeySize; DeprecatedElliptic; DeprecatedRSAMultiPrime; DeprecatedPKCS1v15;
  ErrorsAsType;
  JoinHostPort; FilepathIsLocal; DeprecatedReverseProxyDirector; ErrorBeforeUse; ResponseBodyDrain; URLValuesClone;
  RandV2Migration; RandMethodN; PreferAddCleanup; PasskeyRendering; WaitGroupGo;
  BenchmarkLoop; TestingArtifactDir; SynctestSleep; HttptestNewTestServer; StdlibUUID].

Lemma all_groups_ok : forallb group_ok all_groups = true.
Proof. vm_compute. reflexivity. Qed.

(** [C29] No rule goes wrong: whatever the tree, its types and the file, each of
    them runs at every node, with every variable its condition, message and
    replacement name captured and every expression valid; and it reports
    exactly where an alternative of one of its clauses matches with the
    clause's condition. *)
Theorem rules_run `{Ruleguard} f n g :
  g ∈ all_groups ->
  exists fs, run_group f n g = Some fs /\
    (fs <> [] <-> exists cl p c, cl ∈ g_clauses g /\ p ∈ Match cl /\ c ∈ gogrep (pieces p) n /\
       holds (g_imports g) f cl c).
Proof.
  intros Hg. apply group_ok_reports. apply (proj1 (forallb_forall _ _) all_groups_ok). by apply list_elem_of_In.
Qed.

(** ** Autofixes and imports

    A suggested replacement is put in place of the match and nothing else is
    touched, so it compiles only if the packages it names are the ones the
    match names. *)

(** The packages a text names: an identifier before a dot that is not itself
    selected from something and is no variable. *)
Fixpoint packages_from (s : bytes) (open_ : option bytes) : list bytes :=
  match s with
  | [] => []
  | c :: s =>
      if ident_byte c then packages_from s ((fun w => w ++ [c]) <$> open_)
      else if bool_decide (c = x2e) then
        match open_ with Some ((_ :: _) as w) => w :: packages_from s None | _ => packages_from s None end
      else if bool_decide (c = x24) then packages_from s None
      else packages_from s (Some [])
  end.
Definition packages (s : string) : gset bytes := list_to_set (packages_from (src s) (Some [])).

(** The matches of a rule with their replacements. *)
Definition fixes_of (g : group) : list (string * string) :=
  flat_map (fun cl => match Suggest cl with Some s => (fun p => (p, s)) <$> Match cl | None => [] end) (g_clauses g).
Definition autofixes : list (string * string) := flat_map fixes_of all_groups.

(** Those that name other packages. *)
Definition sort_fixes : list (string * string) := fixes_of SortToSlices.
Definition format_fixes : list (string * string) :=
  List.filter (fun '(p, _) => bool_decide (packages p = ∅)) (fixes_of TimeDateTimeConstants).

(** The layouts of package time, and a replacement with them written out. *)
Definition layouts : list (bytes * bytes) := [
  (bs "time.DateTime", src "`2006-01-02 15:04:05`");
  (bs "time.DateOnly", src "`2006-01-02`");
  (bs "time.TimeOnly", src "`15:04:05`")].
Fixpoint ReplaceAll (fuel : nat) (s old new : bytes) : bytes :=
  match fuel with
  | O => s
  | S fuel =>
      match Cut s old with
      | Some (b, a) => b ++ new ++ ReplaceAll fuel a old new
      | None => s
      end
  end.
Definition inline (s : bytes) : bytes := foldl (fun s '(old, new) => ReplaceAll (length s) s old new) s layouts.

Lemma autofixes_cases : forallb (fun f =>
    bool_decide (packages f.2 = packages f.1) ||
    (bool_decide (f ∈ sort_fixes) && bool_decide (packages f.1 = {[bs "sort"]}) && bool_decide (packages f.2 = {[bs "slices"]})) ||
    (bool_decide (f ∈ format_fixes) && bool_decide (packages f.1 = ∅) && bool_decide (packages f.2 = {[bs "time"]}))) autofixes = true.
Proof. vm_compute. reflexivity. Qed.

(** [C33] Which autofixes keep a file compiling: the packages a replacement names
    are those its match names, for every rule with a replacement but two.
    The replacements of SortToSlices name slices where the match names sort,
    so they orphan one import and miss the other; those of the Format calls
    name time where the match may name no package. *)
Theorem autofix_imports p s :
  (p, s) ∈ autofixes ->
  packages s = packages p \/
  ((p, s) ∈ sort_fixes /\ packages p = {[bs "sort"]} /\ packages s = {[bs "slices"]}) \/
  ((p, s) ∈ format_fixes /\ packages p = ∅ /\ packages s = {[bs "time"]}).
Proof.
  intros Hf%list_elem_of_In. apply (proj1 (forallb_forall _ _) autofixes_cases) in Hf. cbn [fst snd] in Hf.
  apply orb_true_iff in Hf as [[Hf|Hf]%orb_true_iff|Hf];
    repeat (apply andb_prop in Hf as [Hf ?%bool_decide_eq_true]); apply bool_decide_eq_true in Hf; auto.
Qed.

(** The replacements of magic layouts say the same layout. *)
Lemma layout_fixes_same : Forall (fun cl => exists p s, Match cl = [p] /\ Suggest cl = Some s /\ inline (src s) = src p)
  (g_clauses TimeDateTimeConstants).
Proof. repeat constructor; do 2 eexists; (split; [reflexivity|]); (split; [reflexivity|]); vm_compute; reflexivity. Qed.

(** ** The rules on concrete text *)

(** The types of the operands below. *)
Definition example_types (t : bytes) : string :=
  if bool_decide (t = bs "u") then "*protocol.TerminalUserInfo" else "string".
#[local] Instance example_rules : Ruleguard := textual example_types.
Definition example_file : File := ([], bs "main.go").

Lemma rules_run_witness :
  run_group (H := example_rules) example_file (bs "sort.Ints(xs)") SortToSlices =
    Some [(bs "use slices.Sort(xs) instead of sort.Ints (Go 1.21+)", Some (bs "slices.Sort(xs)"))] /\
  exists fs, run_group (H := example_rules) example_file (bs "sort.Ints(xs)") SortToSlices = Some fs.
Proof.
  split; [vm_compute; reflexivity|].
  destruct (rules_run (H := example_rules) example_file (bs "sort.Ints(xs)") SortToSlices) as (fs & Hfs & _);
    [apply list_elem_of_lookup_2 with (i := 3%nat); reflexivity|].
  exists fs. exact Hfs.
Defined.

(** The names the rule's comments give as examples, for and against. *)
Definition path_filter (t : string) : option bool :=
  eval (H := example_rules) [] example_file {[ bs "path" := bs t ]} FilepathIsLocal_where.
Lemma path_filter_examples :
  Forall (fun t => path_filter t = Some true)
    ["path"; "paths"; "filepath"; "filename"; "dirname"; "dirpath"; "fileName"; "dirEntry"; "userPath"; "srcDir"; "inputFile"]%string /\
  Forall (fun t => path_filter t = Some false)
    ["profile"; "directory"; "redirect"; "dirty"; "filed"; "MyDirtyVar"; "IsFiled"; "req.URL.Path"; ""]%string.
Proof. split; repeat constructor. Qed.

Lemma path_filter_spec_witness : exists b,
  path_filter "userPath" = Some b /\ (b = true <-> identifier (rs "userPath") /\ path_name (rs "userPath")).
Proof.
  exact (path_filter_spec (H := example_rules) [] example_file {[ bs "path" := bs "userPath" ]} (bs "userPath") eq_refl).
Defined.

Lemma separator_one_byte_witness :
  eval (H := example_rules) [] example_file {[ bs "sep" := src "`/`" ]} (TextMatches "sep" "^`(\\.|[\x00-\x21\x23-\x5b\x5d-\x7f])`$") = Some true /\
  forall s, zdrop (LastIndex s (bs "/") + 1) s = match CutLast s (bs "/") with Some (_, after) => after | None => s end.
Proof.
  split; [vm_compute; reflexivity|].
  refine (proj2 (separator_one_byte (H := example_rules) [] example_file {[ bs "sep" := src "`/`" ]} (src "`/`")
    (TextMatches "sep" "^`(\\.|[\x00-\x21\x23-\x5b\x5d-\x7f])`$") (bs "/") _ _ _ _)).
  - apply list_elem_of_lookup_2 with (i := 0%nat). reflexivity.
  - reflexivity.
  - vm_compute. reflexivity.
  - vm_compute. reflexivity.
Defined.

Lemma autofix_imports_witness :
  bool_decide (packages "sort.Ints($s)" = {[bs "sort"]}) = true /\
  (packages "slices.Sort($s)" = packages "sort.Ints($s)" \/
   (("sort.Ints($s)", "slices.Sort($s)")%string ∈ sort_fixes /\ packages "sort.Ints($s)" = {[bs "sort"]} /\
    packages "slices.Sort($s)" = {[bs "slices"]}) \/
   (("sort.Ints($s)", "slices.Sort($s)")%string ∈ format_fixes /\ packages "sort.Ints($s)" = ∅ /\
    packages "slices.Sort($s)" = {[bs "time"]})).
Proof.
  split; [vm_compute; reflexivity|]. apply (autofix_imports "sort.Ints($s)" "slices.Sort($s)").
  apply list_elem_of_lookup_2 with (i := 2%nat). reflexivity.
Defined.
